(* ===== verification/_CoqProject ===== *)
-Q . S2P
Prelude.v
GoStrings.v
GoNum.v
GoBase64.v
Interfaces.v
Wire.v
Assertions.v
Challenges.v
Events.v
Feed.v
Registry.v
Host.v
ServerConfig.v
VaultClient.v
KVStore.v
AgentKeys.v
VaultProofs.v
ToyVault.v
OperatorStore.v
OperatorProofs.v
GoNet.v
Proxies.v
Auth.v
AuthProofs.v
Server.v
VaultKV.v
Enroll.v
EnrollProofs.v
Mux.v
AgentConn.v
GoUtf8.v
AgentRpc.v
Clipboards.v
Pipes.v
ForwardPath.v
AgentStream.v
RelayTools.v
Dashboard.v
SignIn.v
RemoteCalls.v
ClientConfig.v
Flags.v
ClientURLs.v
Updater.v
AgentLoop.v
Identity.v
AgentSession.v
EndToEnd.v
LogShip.v
Service.v
ServiceWindows.v
Panel.v
SSHServer.v
Terminals.v
SSHSessions.v
Commands.v
OperatorSessions.v
Control.v
Agent.v
AutoUpdate.v
CommandLine.v
Plumbing.v
UpdateRestart.v
RelayMain.v
Frames.v
RelayHistory.v
Strangers.v
