(* ===== verification/Prelude.v ===== *)
(** * go-beacon: a verification development

    go-beacon lets an operator reach machines that accept no connection.  An
    agent (client/) on each machine keeps one outbound tunnel open to a relay
    (server/); the relay opens streams through it, for a terminal, a forwarded
    port, a remote call, and shows what happens in a dashboard.  Both ends share a
    wire contract (internal/protocol) and a wrapper that turns panics into errors
    (internal/supervise).  An agent proves who it is with an assertion that the
    relay's Vault signed and a signature over a fresh challenge; an operator
    proves it with a password or the relay's admin token, and gets a session.

    This library is a model of that program in pure functions and the theorems
    that hold of it.  Every definition that models code keeps its Go name where it
    can ([Type_Method] for a method, a prefix where two platforms or the two ends
    share a name), is executable, and follows the code's branches and early
    returns.

    ** Conventions

    - A Go function that returns an error is [res A], [Ok] or [Err]; an [error] is
      its text and the sentinels [errors.Is] finds in it.  Code that changes state
      is [M S A := S -> res A * S], run on its own part of the state with [zoom].
      A panic is [None] where a function can have one, or the [Panicked] outcome
      that supervise.Do turns into an error.
    - Strings and byte slices are [string], one character a byte.  An integer is
      [Z]; where its width matters the wrap-around is written out ([wrap_int64],
      uint16 and uint32 framing, float64 rounding in [round53]).
    - Readers are a buffer and the chunks still to come, so that a theorem about
      reading holds for every way a connection cuts the bytes; a writer carries
      the faults it will have.
    - The clock, random numbers and what the network or a subprocess answers are
      arguments or the outcome of a class operation: theorems quantify over them.
      Concurrent code is an explicit sequence of steps, and theorems quantify over
      the sequence.
    - What is not this repository's is a class: [JSON], [Ed25519], [HMAC], [Argon2]
      (Interfaces.v), [FileSystem] and [ClientHost] (Host.v, ClientConfig.v),
      [VaultHTTP], [Tunnel], [Network], [Internet], [X509], [URLParser], [Machine],
      [Platform], [Processes], [ControlSockets], [Terminal], [PowerShell], [ServiceManager].  Its laws
      state documented behaviour and are assumed only where a theorem names them;
      each has a concrete instance, on which the witnesses evaluate.

    ** The parts and their files

    Shared: Prelude (this file: results, the state monad, tactics, lemmas on
    lists), GoStrings, GoNum, GoBase64, GoUtf8, GoNet, Mux (the pieces of Go's
    standard library the program uses), Interfaces and Host (its surroundings).

    The contract: Wire (internal/protocol: stream headers, terminal frames, forward
    targets and answers, hello headers, the counting connection), Assertions
    (identity.go).

    The relay: ServerConfig (config.go), VaultClient, VaultProofs, ToyVault
    (vault.go), KVStore and VaultKV (the store interface of agentkeys.go and Vault
    as an instance), AgentKeys (agentkeys.go), Challenges, Enroll, EnrollProofs
    (enroll.go), OperatorStore, OperatorProofs (operator.go), Proxies
    (proxies.go), Auth, AuthProofs (auth.go), Registry (registry.go), Events and
    Feed (events.go; the event stream of http.go), Server (the record every
    handler shares), AgentConn (agent.go), RelayTools (stream.go, mcp*.go,
    shell.go, forward.go, clipboard.go), Dashboard (the routes and handlers of
    http.go), SignIn (the sign-in page of auth.go), RelayMain (main.go; the tool
    table of mcp.go).  Over the whole of it: Frames (what each operation leaves
    alone, as a program logic), RelayHistory (the life of a running relay, one
    event after another) and Strangers (any sequence of requests without
    credentials).

    The agent: AgentRpc and Clipboards (rpc.go, clipboard*.go), AgentStream, Pipes,
    ForwardPath (the way of a forwarded connection through all three programs) and
    Terminals (session.go, pty*.go, forward.go, winsize_*.go), SSHServer
    (sshserver.go, sshshell_*.go, wsl*.go) and SSHSessions (the life of a session
    in sshserver.go), Identity (identity.go, enrollcmd.go, logincmd.go),
    AgentSession (session.go), AgentLoop and Agent (run.go, the state of
    control.go), Control (control.go, paths.go), LogShip (logship.go), Updater,
    AutoUpdate and UpdateRestart (update.go, updateapply.go), Service and
    ServiceWindows (service*.go, usermode_*.go), Plumbing (detach_*.go, the
    prompts of logincmd.go, the processes the client starts).

    The command line: ClientConfig (config.go, paths.go, configcmd.go,
    configform.go), Flags and CommandLine (the flag sets and what becomes of the
    arguments), Commands (main.go), ClientURLs, OperatorSessions (sshcmd.go,
    forwardcmd.go), Panel (ui.go, status.go).

    Compositions: RemoteCalls puts the relay's RPC on top of the agent's stream
    handler; OperatorSessions does so for terminals and forwards; EndToEnd runs
    the client's HTTP requests against the relay's handlers; LogShip follows a
    warning from the logger of the agent to the relay's feed; Agent replays its
    loop over real sessions in the abstract loop of AgentLoop.

    ** What the theorems show

    - Who gets in.  The relay accepts a connection exactly from the holder of an
      unexpired assertion and its key (verifyAgent_sound_and_complete,
      connect_serves_only_proven_identity), once per challenge whatever it goes
      through in between (handshake_not_replayable, handshake_spent_once); what it
      shows online has proved itself (online_agents_proved_themselves); people
      without credentials change nothing, however much they send
      (strangers_change_nothing); enrolling takes an operator and never
      moves an id to another key by itself (enroll_requires_operator,
      vault_never_moves_a_binding); every guarded route takes the admin token or a
      session, which only somebody entitled gets (guarded_routes_need_credentials,
      login_sets_cookie_iff_entitled, bootstrap_needs_admin_token,
      password_change_needs_current).
    - That it works, end to end.  A machine that enrolled connects
      (enrolled_machine_connects); a sign-in opens the relay
      (login_opens_the_relay), and the page that asks for it leads in
      (sign_in_page_leads_in); a remote call computes what the machine computes
      (remote_call_is_local); keystrokes and forwarded bytes arrive
      (terminal_end_to_end, forward_end_to_end); warnings reach the feed
      (warnings_reach_the_feed) and the feed the browser (browser_sees_feed).
    - That it lasts.  Reconnecting is paced and never ends (retries_are_paced,
      unenrolled_agent_stays_up); a replaced binary is whole at every instant and a
      silent one is rolled back (replace_binary_never_half,
      silent_build_is_rolled_back, updates_are_vetted_and_paced); accounts, keys and
      sessions survive a restart with Vault sealed (operator_survives_restart,
      refresh_then_load_cached, host_key_survives_restart).
    - Invariants and reference semantics: the running relay as its parts, each in a
      history of its own (relay_refines_its_parts), the registry under every interleaving
      (last_connection_wins), the published state (status_consistent), the lazily
      expiring nonce store against one that keeps everything
      (lazy_expiry_unobservable), the copies of a forwarded connection
      (pipe_ends_both_ways), the goroutines of an ssh session
      (session_ends_with_the_program, command_runs_through), the size of a window
      (last_size_is_sent).
    - Settings and presentation: what_is_typed_is_used, load_precedence,
      panel_is_a_box, status_finds_the_agent, install_puts_the_agent_in_place.
    - Where the code falls short of its purpose a lemma or theorem shows it on the
      model: config_form_forgets_identity, failed_start_leaves_no_agent,
      client_paths_reach_agent, refused_connection_forgets_bindings,
      exec_timeout_overflows, dev_service_loses_pipelined_bytes,
      macos_restart_stops_the_agent, reinstall_keeps_the_old_process,
      failed_copy_loses_both_builds, windows_restart_does_not_wait,
      second_agent_blinds_status, second_failure_leaves_no_build,
      long_footer_breaks_the_box, wide_error_panics,
      long_token_breaks_config_show, long_message_breaks_the_form,
      full_disk_revives_old_password, keys_are_those_of_the_start, vanished_client_leaves_the_program,
      command_waits_for_its_input, prompt_takes_one_word,
      unattended_update_stops_the_agent.

    ** Bounds and fuel

    Loops over a list of inputs recurse on it.  Where the code loops until its
    input ends, the fuel is a bound on what is left: [pty_loop] has one unit for
    each byte and one more (every frame takes a byte, pty_loop_frames), the flag
    parser one for each argument (parse_fuel shows that more changes nothing), the
    rune splitter and the IPv6 parser one for each byte, the byte units of a panel
    the three steps the code allows.  [settle] polls twenty times and
    [waitForAgent] for three minutes because the code does.

    ** Not modelled, and why

    The byte transport below a stream (yamux, WebSocket, TLS, net), the ssh and
    sftp protocols, pseudo-terminals, the MCP transport, serving of static files,
    the HTML and JavaScript of the dashboard and the form's text inputs belong to
    libraries or to another language: the model begins where the program's own
    code does.  Log lines are left out except where they are shipped; so are the
    decorations of the panels a command prints after it succeeded.  What somebody
    types is an input. *)

From stdpp Require Export base tactics numbers list gmap strings fin_maps.
From Stdlib Require Export ZArith Lia ZifyBool ZifyN ZifyNat.
From Stdlib Require Import Ascii.

#[export] Set Default Goal Selector "!".

(** ** Scopes

    [go_scope] holds the notations of this development: Go's [len], and the
    sequencing of fallible computations. *)
Declare Scope go_scope.
Delimit Scope go_scope with go.
Open Scope Z_scope.
Open Scope go_scope.

(** ** Go errors

    A Go [error] is observed in two ways: through [Error()], its text, and
    through [errors.Is]/[errors.As], which look for a sentinel along the
    wrapping chain.  Both are kept. *)

Inductive sentinel :=
  | ErrAgentOffline
  | ErrNoOperator
  | ErrTooManyChallenges
  | ErrRebindRequired (AgentID : string) (BoundAt : Z)
  | ErrNoClipboardImage
  | ErrNotExist
  | ErrPermission
  | ErrAgentNotRunning
  | ErrSilent
  | ErrEOF
  | ErrExit (code : Z).

#[export] Instance sentinel_eq_dec : EqDecision sentinel.
Proof. solve_decision. Defined.

Record error := mkError {
  err_text : string;          (* what Error() returns *)
  err_chain : list sentinel   (* what errors.Is and errors.As find *)
}.

#[export] Instance error_eq_dec : EqDecision error.
Proof. solve_decision. Defined.

(** [errors.New(s)] and [fmt.Errorf] without [%w]. *)
Definition errorf (s : string) : error := mkError s [].

(** [fmt.Errorf("...%w", e)]: the text is extended, the chain is kept. *)
Definition wrapf (s : string) (e : error) : error :=
  mkError (s +:+ err_text e) (err_chain e).

Definition errors_Is (e : error) (s : sentinel) : bool :=
  bool_decide (s ∈ err_chain e).

(** ** Results: the pair [(T, error)] of a Go call *)

Inductive res (A : Type) :=
  | Ok (a : A)
  | Err (e : error).
Arguments Ok {A} a.
Arguments Err {A} e.

#[export] Instance res_eq_dec `{EqDecision A} : EqDecision (res A).
Proof. solve_decision. Defined.

#[export] Instance res_ret : MRet res := λ A a, Ok a.
#[export] Instance res_bind : MBind res := λ A B k m,
  match m with Ok a => k a | Err e => Err e end.

Definition is_ok {A} (r : res A) : bool :=
  match r with Ok _ => true | Err _ => false end.

(** ** Computations over a mutable world

    [M S A] is a Go function that reads and writes a state [S] and returns
    [(A, error)].  The state reached before a failure is kept: Go does not
    roll anything back. *)

Definition M (S A : Type) : Type := S → res A * S.

#[export] Instance M_ret S : MRet (M S) := λ A a s, (Ok a, s).
#[export] Instance M_bind S : MBind (M S) := λ A B k m s,
  match m s with
  | (Ok a, s') => k a s'
  | (Err e, s') => (Err e, s')
  end.

Definition mthrow {S A} (e : error) : M S A := λ s, (Err e, s).

(** [attempt m] hands the error of [m] to the caller instead of returning it,
    as [if err := m(); err != nil { ... }] does. *)
Definition attempt {S A} (m : M S A) : M S (res A) :=
  λ s, let '(r, s') := m s in (Ok r, s').

Definition mget {S} : M S S := λ s, (Ok s, s).
Definition mmodify {S} (f : S → S) : M S () := λ s, (Ok (), f s).
Definition mlift {S A} (r : res A) : M S A := λ s, (r, s).

(** A component's operation run on the part of the state it owns. *)
Definition zoom {S T A} (get : S → T) (put : T → S → S) (m : M T A) : M S A :=
  λ s, let '(r, t) := m (get s) in (r, put t s).

(** Evaluating a run: the result is computed, the state is left as it is. *)
Lemma run_result {S A} (p : A * S) a : p.1 = a → p = (a, p.2).
Proof. intros <-. by destruct p. Qed.

Lemma M_bind_ret {S A B} (a : A) (k : A → M S B) s : (mret a ≫= k) s = k a s.
Proof. done. Qed.

Lemma M_bind_assoc {S A B C} (m : M S A) (f : A → M S B) (g : B → M S C) s :
  ((m ≫= f) ≫= g) s = (m ≫= λ a, f a ≫= g) s.
Proof. unfold mbind, M_bind. by destruct (m s) as [[a|e] s']. Qed.

Lemma M_bind_ok_inv {S A B} (m : M S A) (k : A → M S B) s b s' :
  (m ≫= k) s = (Ok b, s') →
  ∃ a s1, m s = (Ok a, s1) ∧ k a s1 = (Ok b, s').
Proof. unfold mbind, M_bind. destruct (m s) as [[a|e] s1]; naive_solver. Qed.

Lemma bind_ok {S A B} (m : M S A) (k : A → M S B) s a s' :
  m s = (Ok a, s') → (m ≫= k) s = k a s'.
Proof. intros Hm. unfold mbind, M_bind. by rewrite Hm. Qed.

Lemma bind_err {S A B} (m : M S A) (k : A → M S B) s e s' :
  m s = (Err e, s') → (m ≫= k) s = (Err e, s').
Proof. intros Hm. unfold mbind, M_bind. by rewrite Hm. Qed.

Lemma bind_attempt {S A B} (m : M S A) (k : res A → M S B) s r s' :
  m s = (r, s') → (attempt m ≫= k) s = k r s'.
Proof. intros Hm. unfold mbind, M_bind, attempt. by rewrite Hm. Qed.

(** ** Reachability

    Reflexive-transitive closures of step relations; [invariant_star] is the
    induction every state machine below uses. *)
Section invariants.
  Context {A : Type} (R : A → A → Prop).

Lemma invariant_star (I : A → Prop) :
  (∀ x y, I x → R x y → I y) → ∀ x y, rtc R x y → I x → I y.
Proof. intros Hstep x y Hr. induction Hr; eauto. Qed.
End invariants.

(** ** Lengths as Go sees them *)
Definition len (s : string) : Z := Z.of_nat (String.length s).
Definition llen {A} (l : list A) : Z := Z.of_nat (length l).

Lemma len_nonneg s : 0 ≤ len s.
Proof. unfold len. lia. Qed.

Lemma len_app s t : len (s +:+ t) = len s + len t.
Proof.
  unfold len. induction s as [|c s IH]; simpl; [done|].
  change (String.length (s +:+ t)) with (String.length (String.append s t)) in *.
  lia.
Qed.

Lemma len_cons c s : len (String c s) = 1 + len s.
Proof. unfold len. cbn [String.length]. lia. Qed.

Lemma len_nil : len "" = 0.
Proof. done. Qed.

Lemma len_zero_inv s : len s = 0 → s = "".
Proof. unfold len. destruct s; simpl; [done|lia]. Qed.

(** ** The list facts several components share *)

(** The tail of a list that keeps at most [n] elements: [l[len(l)-n:]]. *)
Definition keep_last {A} (n : nat) (l : list A) : list A :=
  drop (length l - n) l.

#[global] Arguments keep_last : simpl never.

Lemma length_keep_last {A} n (l : list A) : length (keep_last n l) = Nat.min n (length l).
Proof. unfold keep_last. rewrite length_drop. lia. Qed.

Lemma keep_last_all {A} n (l : list A) : (length l ≤ n)%nat → keep_last n l = l.
Proof. intros. unfold keep_last. by replace (length l - n)%nat with 0%nat by lia. Qed.

Lemma keep_last_snoc {A} n (l : list A) x :
  keep_last n (keep_last n l ++ [x]) = keep_last n (l ++ [x]).
Proof.
  unfold keep_last. rewrite !length_app, !length_drop. cbn [length].
  destruct (decide (length l ≤ n)%nat) as [Hle|Hgt].
  - replace (length l - n)%nat with 0%nat by lia. by rewrite drop_0, Nat.sub_0_r.
  - rewrite <-(drop_app_le l [x] (length l - n)) by lia.
    rewrite drop_drop. f_equal. lia.
Qed.

Lemma keep_last_suffix {A} n (l : list A) : ∃ k, l = k ++ keep_last n l.
Proof. exists (take (length l - n) l). unfold keep_last. by rewrite take_drop. Qed.

(** A loop over a map does not depend on the iteration order when its steps
    commute. *)
Lemma fold_left_perm {A B} (f : B → A → B) l1 l2 :
  l1 ≡ₚ l2 → (∀ x y b, x ∈ l1 → y ∈ l1 → f (f b x) y = f (f b y) x) →
  ∀ b, fold_left f l1 b = fold_left f l2 b.
Proof.
  induction 1 as [|x l1 l2 Hp IH|x y l|l1 l2 l3 Hp1 IH1 Hp2 IH2]; intros Hc b; cbn [fold_left].
  - done.
  - apply IH. intros; apply Hc; by right.
  - f_equal. apply Hc; [by left|by right; left].
  - rewrite IH1 by done. apply IH2. intros ? ? ? H1 H2. rewrite <-Hp1 in H1, H2. by apply Hc.
Qed.

(** ** Automation *)
Create HintDb go discriminated.
Create HintDb go_len.
#[export] Hint Constants Opaque : go.
#[export] Hint Rewrite len_app len_cons len_nil @length_keep_last : go_len.
#[export] Hint Resolve len_nonneg : go.

(** Case analysis on the scrutinee of the goal or of a hypothesis, for walking
    a translated handler branch by branch. *)
Ltac go_case :=
  match goal with
  | |- context [match ?x with _ => _ end] =>
      lazymatch x with context [match _ with _ => _ end] => fail | _ => destruct x eqn:? end
  end.
Ltac go_case_in H :=
  match type of H with
  | context [match ?x with _ => _ end] =>
      lazymatch x with context [match _ with _ => _ end] => fail | _ => destruct x eqn:? end
  end.

(** Splits boolean facts into propositions. *)
Ltac bool_prop :=
  repeat match goal with
  | H : _ && _ = true |- _ => apply andb_prop in H as [??]
  | H : _ || _ = false |- _ => apply orb_false_elim in H as [??]
  | H : negb _ = true |- _ => apply negb_true_iff in H
  | H : negb _ = false |- _ => apply negb_false_iff in H
  | H : bool_decide _ = true |- _ => apply bool_decide_eq_true_1 in H
  | H : bool_decide _ = false |- _ => apply bool_decide_eq_false_1 in H
  | H : (_ =? _)%Z = true |- _ => apply Z.eqb_eq in H
  | H : (_ =? _)%Z = false |- _ => apply Z.eqb_neq in H
  | H : (_ <? _)%Z = true |- _ => apply Z.ltb_lt in H
  | H : (_ <? _)%Z = false |- _ => apply Z.ltb_ge in H
  | H : (_ <=? _)%Z = true |- _ => apply Z.leb_le in H
  | H : (_ <=? _)%Z = false |- _ => apply Z.leb_gt in H
  | H : (_ >? _)%Z = true |- _ => apply Z.gtb_lt in H
  | H : (_ =? _)%string = true |- _ => apply String.eqb_eq in H
  | H : (_ =? _)%string = false |- _ => apply String.eqb_neq in H
  end.
