(* ===== verification/GoStrings.v ===== *)
(** * The part of Go's [strings] package the program uses

    A Go [string] and a Go [[]byte] are both byte sequences; both are modelled
    as [string], whose characters are the 256 bytes. *)

From Stdlib Require Import Ascii.
From S2P Require Import Prelude.

Open Scope string_scope.
Open Scope Z_scope.

(** ** Characters *)
Definition byte (n : N) : ascii := ascii_of_N n.
Definition code (c : ascii) : N := N_of_ascii c.

Definition nl : string := String (byte 10) "".
Definition cr : string := String (byte 13) "".
Definition dquote : string := String (byte 34) "".

Lemma code_byte n : (n < 256)%N → code (byte n) = n.
Proof. apply N_ascii_embedding. Qed.

Lemma byte_code c : byte (code c) = c.
Proof. apply ascii_N_embedding. Qed.

Lemma code_bound c : (code c < 256)%N.
Proof. apply N_ascii_bounded. Qed.

(** ** Appending *)
Lemma sapp_cons c (a b : string) : String c a +:+ b = String c (a +:+ b).
Proof. done. Qed.

Lemma sapp_nil_l (a : string) : "" +:+ a = a.
Proof. done. Qed.

Lemma sapp_assoc (a b c : string) : (a +:+ b) +:+ c = a +:+ (b +:+ c).
Proof. induction a as [|x a IH]; [done|]. by rewrite !sapp_cons, IH. Qed.

Lemma sapp_nil_r (a : string) : a +:+ "" = a.
Proof. induction a as [|x a IH]; [done|]. by rewrite sapp_cons, IH. Qed.

Lemma sapp_inj_r (a b c : string) : a +:+ c = b +:+ c → a = b.
Proof.
  intros H. assert (len a = len b) as Hl.
  { apply (f_equal len) in H. rewrite !len_app in H. lia. }
  revert b H Hl. induction a as [|x a IH]; intros [|y b] H Hl;
    rewrite ?len_cons in Hl;
    change (len "") with 0 in *; try done.
  - pose proof (len_nonneg b). lia.
  - pose proof (len_nonneg a). lia.
  - rewrite !sapp_cons in H. injection H as -> H.
  f_equal. apply IH; [done|lia].
Qed.

Lemma sapp_nonempty_r c (a b : string) : a +:+ String c b ≠ "".
Proof. by destruct a. Qed.

#[export] Hint Rewrite sapp_assoc sapp_nil_r sapp_nil_l sapp_cons : go_str.

(** ** Slicing: [s[:n]] and [s[n:]] *)
Fixpoint stake (n : Z) (s : string) : string :=
  match s with
  | String c s' => if n <=? 0 then "" else String c (stake (n - 1) s')
  | EmptyString => ""
  end.

Fixpoint sdrop (n : Z) (s : string) : string :=
  match s with
  | String _ s' => if n <=? 0 then s else sdrop (n - 1) s'
  | EmptyString => ""
  end.

Lemma stake_sdrop n s : stake n s +:+ sdrop n s = s.
Proof.
  revert n. induction s as [|c s IH]; intros n; [done|].
  cbn. destruct (n <=? 0) eqn:E; [done|]. by rewrite sapp_cons, IH.
Qed.

Lemma len_stake n s : 0 ≤ n → len (stake n s) = Z.min n (len s).
Proof.
  revert n. induction s as [|c s IH]; intros n Hn; cbn [stake].
  - change (len "") with 0. lia.
  - pose proof (len_nonneg s). destruct (n <=? 0) eqn:E; bool_prop; rewrite !len_cons; try change (len "") with 0.
    + lia.
    + rewrite IH by lia. lia.
Qed.

Lemma len_sdrop n s : 0 ≤ n → len (sdrop n s) = Z.max 0 (len s - n).
Proof.
  intros Hn. pose proof (f_equal len (stake_sdrop n s)) as H.
  rewrite len_app, len_stake in H by done. lia.
Qed.

Lemma stake_all n s : len s ≤ n → stake n s = s.
Proof.
  revert n. induction s as [|c s IH]; intros n Hn; [done|]. rewrite len_cons in Hn.
  pose proof (len_nonneg s). cbn. destruct (n <=? 0) eqn:E; bool_prop; [lia|].
  f_equal. apply IH. lia.
Qed.

Lemma stake_app n s t : len s ≤ n → stake n (s +:+ t) = s +:+ stake (n - len s) t.
Proof.
  revert n. induction s as [|c s IH]; intros n Hn.
  - change (len "") with 0. by rewrite Z.sub_0_r.
  - rewrite len_cons in *. pose proof (len_nonneg s). rewrite !sapp_cons. cbn.
    destruct (n <=? 0) eqn:E; bool_prop; [lia|].
    f_equal. rewrite IH by lia. do 2 f_equal. lia.
Qed.

Lemma stake_app_l n s t : n ≤ len s → stake n (s +:+ t) = stake n s.
Proof.
  revert n. induction s as [|c s IH]; intros n Hn.
  - change (len "") with 0 in Hn. rewrite sapp_nil_l. destruct t as [|c t]; [done|]. cbn. by rewrite (proj2 (Z.leb_le n 0)) by lia.
  - rewrite len_cons in Hn. rewrite sapp_cons. cbn.
    destruct (n <=? 0) eqn:E; bool_prop; [done|]. f_equal. apply IH. lia.
Qed.

Lemma sdrop_app n s t : len s = n → sdrop n (s +:+ t) = t.
Proof.
  revert n. induction s as [|c s IH]; intros n Hn.
  - change (len "") with 0 in Hn. subst. rewrite sapp_nil_l. by destruct t.
  - rewrite len_cons in Hn. pose proof (len_nonneg s). rewrite sapp_cons. cbn.
    destruct (n <=? 0) eqn:E; bool_prop; [lia|]. apply IH. lia.
Qed.

Lemma sdrop_app_l n s t : n ≤ len s → sdrop n (s +:+ t) = sdrop n s +:+ t.
Proof.
  revert n. induction s as [|c s IH]; intros n Hn.
  - change (len "") with 0 in Hn. rewrite sapp_nil_l. destruct t as [|c t]; [done|].
    cbn. by rewrite (proj2 (Z.leb_le n 0)) by lia.
  - rewrite len_cons in Hn. rewrite sapp_cons. cbn.
    destruct (n <=? 0) eqn:E; bool_prop; [done|]. apply IH. lia.
Qed.

#[global] Arguments stake : simpl never.
#[global] Arguments sdrop : simpl never.

Lemma stake_app_exact n s t : len s = n → stake n (s +:+ t) = s.
Proof. intros <-. rewrite stake_app_l by lia. apply stake_all. lia. Qed.

(** ** Character membership *)
Fixpoint schars (P : ascii → bool) (s : string) : bool :=
  match s with
  | EmptyString => true
  | String c s' => P c && schars P s'
  end.

Definition is_char (n : N) (c : ascii) : bool := Ascii.eqb c (byte n).
Definition no_char (n : N) : string → bool := schars (λ c, negb (is_char n c)).

Lemma schars_app P s t : schars P (s +:+ t) = schars P s && schars P t.
Proof. induction s as [|c s IH]; [done|]. rewrite sapp_cons. cbn. by rewrite IH, andb_assoc. Qed.

Lemma schars_mono (P Q : ascii → bool) s :
  (∀ c, P c = true → Q c = true) → schars P s = true → schars Q s = true.
Proof.
  intros HPQ. induction s as [|c s IH]; cbn; [done|]. intros H. bool_prop.
  by rewrite HPQ, IH.
Qed.

(** [strings.ContainsAny(s, chars)] for a list of byte codes. *)
Definition ContainsAny (s : string) (chars : list N) : bool :=
  negb (schars (λ c, negb (existsb (λ n, is_char n c) chars)) s).

(** ** Prefixes, suffixes, substrings *)
Fixpoint HasPrefix (s p : string) : bool :=
  match p, s with
  | EmptyString, _ => true
  | String a p', String b s' => Ascii.eqb a b && HasPrefix s' p'
  | _, EmptyString => false
  end.

Lemma HasPrefix_spec s p : HasPrefix s p = true ↔ ∃ t, s = p +:+ t.
Proof.
  revert s. induction p as [|a p IH]; intros s.
  - split; [by exists s|]. by destruct s.
  - destruct s as [|b s].
    + split; [done|]. intros [t Ht]. by rewrite sapp_cons in Ht.
    + cbn. rewrite andb_true_iff, IH, Ascii.eqb_eq. split.
      * intros [-> [t ->]]. by exists t.
      * intros [t Ht]. rewrite sapp_cons in Ht. injection Ht as -> ->. eauto.
Qed.

Lemma HasPrefix_app p t : HasPrefix (p +:+ t) p = true.
Proof. apply HasPrefix_spec. by exists t. Qed.

Definition TrimPrefix (s p : string) : string :=
  if HasPrefix s p then sdrop (len p) s else s.

Lemma TrimPrefix_app p t : TrimPrefix (p +:+ t) p = t.
Proof. unfold TrimPrefix. rewrite HasPrefix_app. by apply sdrop_app. Qed.

Definition HasSuffix (s p : string) : bool :=
  (len p <=? len s) && String.eqb (sdrop (len s - len p) s) p.

(** [strings.Cut]: around the first occurrence of [sep]. *)
Fixpoint Cut (s sep : string) : option (string * string) :=
  if HasPrefix s sep then Some ("", sdrop (len sep) s)
  else match s with
       | EmptyString => None
       | String c s' =>
           match Cut s' sep with
           | Some (a, b) => Some (String c a, b)
           | None => None
           end
       end.

Definition Contains (s sub : string) : bool :=
  match Cut s sub with Some _ => true | None => false end.

Lemma Cut_Some s sep a b : Cut s sep = Some (a, b) → s = a +:+ sep +:+ b.
Proof.
  revert a b. induction s as [|c s IH]; intros a b; cbn [Cut].
  - destruct sep; cbn; naive_solver.
  - destruct (HasPrefix (String c s) sep) eqn:E.
    + intros H. apply HasPrefix_spec in E as [t Ht].
      rewrite Ht, sdrop_app in H by done. by injection H as <- <-.
    + destruct (Cut s sep) as [[a' b']|]; [|done]. intros [= <- <-].
      rewrite (IH a' b' eq_refl) at 1. by rewrite sapp_cons.
Qed.

(** A one-character separator: [Cut] splits at its first occurrence. *)
Lemma HasPrefix_char (n : N) c s :
  HasPrefix (String c s) (String (byte n) "") = is_char n c.
Proof.
  cbn. unfold is_char. rewrite Ascii.eqb_sym. destruct s; cbn; apply andb_true_r.
Qed.

Lemma Cut_char (n : N) a b :
  no_char n a = true → Cut (a +:+ String (byte n) b) (String (byte n) "") = Some (a, b).
Proof.
  induction a as [|c a IH]; intros H.
  - rewrite sapp_nil_l. cbn [Cut]. rewrite HasPrefix_char. unfold is_char.
    rewrite Ascii.eqb_refl. change (String (byte n) b) with (String (byte n) "" +:+ b).
    by rewrite sdrop_app.
  - cbn in H. bool_prop. rewrite sapp_cons. cbn [Cut].
    rewrite HasPrefix_char. rewrite H. by rewrite (IH H0).
Qed.

Lemma Cut_char_first (n : N) s a b :
  Cut s (String (byte n) "") = Some (a, b) → no_char n a = true.
Proof.
  revert a b. induction s as [|c s IH]; intros a b; [done|].
  cbn [Cut]. rewrite HasPrefix_char. destruct (is_char n c) eqn:E.
  { intros H. by injection H as <- <-. }
  destruct (Cut s _) as [[a' b']|] eqn:E2; [|done]. intros [= <- <-]. cbn.
  rewrite E. cbn. by eapply IH.
Qed.

Lemma Cut_char_None (n : N) s : Cut s (String (byte n) "") = None ↔ no_char n s = true.
Proof.
  induction s as [|c s IH]; [done|].
  cbn [Cut]. rewrite HasPrefix_char. unfold no_char in *. cbn.
  destruct (is_char n c); cbn; [done|].
  destruct (Cut s _) as [[a b]|]; rewrite <-IH; done.
Qed.

(** ** Trimming

    [strings.TrimSpace] removes Unicode white space.  A white-space rune is one
    ASCII byte, or the UTF-8 encoding of U+0085, U+00A0, U+1680, U+2000..U+200A,
    U+2028, U+2029, U+202F, U+205F or U+3000. *)
Definition is_space1 (c : ascii) : bool :=
  match code c with
  | 9 | 10 | 11 | 12 | 13 | 32 => true
  | _ => false
  end%N.

Definition is_space2 (c d : ascii) : bool :=
  ((code c =? 194) && ((code d =? 133) || (code d =? 160)))%N.

Definition is_space3 (c d e : ascii) : bool :=
  (((code c =? 225) && (code d =? 154) && (code e =? 128))
   || ((code c =? 226) && (code d =? 128)
       && (((128 <=? code e) && (code e <=? 138))
           || (code e =? 168) || (code e =? 169) || (code e =? 175)))
   || ((code c =? 226) && (code d =? 129) && (code e =? 159))
   || ((code c =? 227) && (code d =? 128) && (code e =? 128)))%N.

(** [s] is exactly one white-space rune. *)
Definition is_space_rune (s : string) : bool :=
  match s with
  | String c EmptyString => is_space1 c
  | String c (String d EmptyString) => is_space2 c d
  | String c (String d (String e EmptyString)) => is_space3 c d e
  | _ => false
  end.

#[global] Arguments is_space_rune : simpl never.

Fixpoint TrimLeft (s : string) : string :=
  match s with
  | String c s1 =>
      if is_space1 c then TrimLeft s1
      else match s1 with
           | String d s2 =>
               if is_space2 c d then TrimLeft s2
               else match s2 with
                    | String e s3 => if is_space3 c d e then TrimLeft s3 else s
                    | EmptyString => s
                    end
           | EmptyString => s
           end
  | EmptyString => ""
  end.

Fixpoint TrimRight (s : string) : string :=
  match s with
  | String c s' =>
      let r := String c (TrimRight s') in
      if is_space_rune r then "" else r
  | EmptyString => ""
  end.

Definition TrimSpace (s : string) : string := TrimRight (TrimLeft s).

(** Removing one white-space rune at the head; [TrimLeft] iterates it. *)
Definition space_head (s : string) : option string :=
  match s with
  | String c s1 =>
      if is_space1 c then Some s1
      else match s1 with
           | String d s2 =>
               if is_space2 c d then Some s2
               else match s2 with
                    | String e s3 => if is_space3 c d e then Some s3 else None
                    | EmptyString => None
                    end
           | EmptyString => None
           end
  | EmptyString => None
  end.

Lemma string_len_ind (P : string → Prop) :
  (∀ s, (∀ t, len t < len s → P t) → P s) → ∀ s, P s.
Proof.
  intros H s. remember (String.length s) as n eqn:Hn. revert s Hn.
  induction n as [n IH] using lt_wf_ind. intros s ->. apply H.
  intros t Ht. unfold len in Ht. eapply IH; [|done]. lia.
Qed.

Lemma TrimLeft_eq s :
  TrimLeft s = match space_head s with Some t => TrimLeft t | None => s end.
Proof.
  destruct s as [|c s1]; [done|]. cbn [TrimLeft space_head].
  destruct (is_space1 c); [done|]. destruct s1 as [|d s2]; [done|].
  destruct (is_space2 c d); [done|]. destruct s2 as [|e s3]; [done|].
  by destruct (is_space3 c d e).
Qed.

Lemma space_head_len s t : space_head s = Some t → len t < len s.
Proof.
  destruct s as [|c [|d [|e s]]]; cbn -[len]; intros; repeat case_match; simplify_eq;
    rewrite ?len_cons; lia.
Qed.

Lemma space_head_app s t u : space_head s = Some t → space_head (s +:+ u) = Some (t +:+ u).
Proof.
  destruct s as [|c [|d [|e s]]]; rewrite ?sapp_cons, ?sapp_nil_l; cbn;
    intros; repeat case_match; by simplify_eq.
Qed.

Lemma space_head_ascii s c u :
  s ≠ "" → (code c < 128)%N → space_head s = None → space_head (s +:+ String c u) = None.
Proof.
  intros Hs Hc. destruct s as [|a [|b [|e s]]]; [done|..];
    rewrite ?sapp_cons, ?sapp_nil_l; cbn; intros;
    repeat case_match; simplify_eq; try done;
    unfold is_space2, is_space3 in *; bool_prop; simplify_eq; lia.
Qed.

Lemma TrimLeft_fix s : TrimLeft s = s ↔ space_head s = None.
Proof.
  split; [|intros H; by rewrite TrimLeft_eq, H].
  destruct (space_head s) as [t|] eqn:E; [|done]. intros H. exfalso.
  assert (∀ t, len (TrimLeft t) ≤ len t) as HL.
  { clear. intros s. induction s as [s IH] using string_len_ind. rewrite TrimLeft_eq.
    destruct (space_head s) as [t|] eqn:E; [|lia].
    apply space_head_len in E. specialize (IH t E). lia. }
  pose proof (space_head_len _ _ E). rewrite TrimLeft_eq, E in H.
  specialize (HL t). rewrite H in HL. lia.
Qed.

Lemma TrimLeft_head s : space_head (TrimLeft s) = None.
Proof.
  induction s as [s IH] using string_len_ind. rewrite TrimLeft_eq.
  destruct (space_head s) as [t|] eqn:E; [|done].
  apply IH. by apply space_head_len.
Qed.

Lemma TrimRight_prefix s : ∃ u, s = TrimRight s +:+ u.
Proof.
  induction s as [|c s [u IH]]; [by exists ""|]. cbn. destruct (is_space_rune (String c (TrimRight s))).
  - by exists (String c s).
  - exists u. rewrite sapp_cons. by rewrite <-IH.
Qed.

Lemma TrimRight_idem s : TrimRight (TrimRight s) = TrimRight s.
Proof.
  induction s as [|c s IH]; [done|]. cbn.
  destruct (is_space_rune (String c (TrimRight s))) eqn:E; [done|].
  cbn. by rewrite IH, E.
Qed.

Lemma TrimRight_space1 s c : is_space1 c = true → TrimRight (s +:+ String c "") = TrimRight s.
Proof.
  intros Hc. induction s as [|a s IH].
  - rewrite sapp_nil_l. cbn. unfold is_space_rune. by rewrite Hc.
  - rewrite sapp_cons. cbn. by rewrite IH.
Qed.

Lemma TrimSpace_head s : space_head (TrimSpace s) = None.
Proof.
  unfold TrimSpace. pose proof (TrimLeft_head s) as H. set (t := TrimLeft s) in *.
  destruct (TrimRight_prefix t) as [u Hu].
  destruct (space_head (TrimRight t)) as [v|] eqn:E; [|done].
  apply (space_head_app _ _ u) in E. rewrite <-Hu in E. congruence.
Qed.

Lemma TrimSpace_idem s : TrimSpace (TrimSpace s) = TrimSpace s.
Proof.
  unfold TrimSpace at 1. rewrite (proj2 (TrimLeft_fix _) (TrimSpace_head s)).
  unfold TrimSpace. apply TrimRight_idem.
Qed.

(** A text a line can carry: [TrimSpace] leaves it alone. *)
Definition trimmed (s : string) : bool := String.eqb (TrimSpace s) s.

Lemma trimmed_spec s : trimmed s = true ↔ TrimSpace s = s.
Proof. unfold trimmed. apply String.eqb_eq. Qed.

Lemma trimmed_inv s : trimmed s = true → space_head s = None ∧ TrimRight s = s.
Proof.
  rewrite trimmed_spec. intros H. pose proof (TrimSpace_head s) as Hh.
  rewrite H in Hh. split; [done|]. unfold TrimSpace in H.
  by rewrite (proj2 (TrimLeft_fix s) Hh) in H.
Qed.

(** Stripping the newline that ended a line. *)
Lemma TrimSpace_line s : trimmed s = true → TrimSpace (s +:+ nl) = s.
Proof.
  intros H. apply trimmed_inv in H as [Hh Hr]. unfold TrimSpace, nl.
  destruct (decide (s = "")) as [->|Hs]; [done|].
  rewrite (proj2 (TrimLeft_fix _)) by (by apply space_head_ascii).
  by rewrite TrimRight_space1, Hr.
Qed.

Lemma TrimRight_chars P s : schars P s = true → schars P (TrimRight s) = true.
Proof.
  intros H. destruct (TrimRight_prefix s) as [u Hu]. rewrite Hu, schars_app in H.
  by bool_prop.
Qed.

Lemma TrimLeft_suffix s : ∃ u, s = u +:+ TrimLeft s.
Proof.
  induction s as [s IH] using string_len_ind. rewrite TrimLeft_eq.
  destruct (space_head s) as [t|] eqn:E; [|by exists ""].
  destruct (IH t (space_head_len _ _ E)) as [u Hu]. clear IH. revert E Hu.
  generalize (TrimLeft t). intros t' E ->.
  destruct s as [|c [|d [|e s]]]; cbn in E; repeat case_match; simplify_eq.
  all: first [ exists (String c u); by rewrite sapp_cons, <-E
             | exists (String c (String d u)); by rewrite !sapp_cons, <-?E
             | exists (String c (String d (String e u))); by rewrite !sapp_cons, <-?E ].
Qed.

Lemma TrimSpace_chars P s : schars P s = true → schars P (TrimSpace s) = true.
Proof.
  intros H. apply TrimRight_chars. destruct (TrimLeft_suffix s) as [u Hu].
  rewrite Hu, schars_app in H. by bool_prop.
Qed.

Lemma TrimSpace_len s : len (TrimSpace s) ≤ len s.
Proof.
  unfold TrimSpace. destruct (TrimLeft_suffix s) as [u Hu].
  destruct (TrimRight_prefix (TrimLeft s)) as [v Hv].
  apply (f_equal len) in Hu, Hv. rewrite len_app in Hu, Hv.
  pose proof (len_nonneg u). pose proof (len_nonneg v). lia.
Qed.

(** ** Splitting and joining on one character *)
Fixpoint Split (s : string) (n : N) : list string :=
  match s with
  | EmptyString => [""]
  | String c s' =>
      if is_char n c then "" :: Split s' n
      else match Split s' n with
           | p :: ps => String c p :: ps
           | [] => [String c ""]
           end
  end.

Fixpoint Join (parts : list string) (sep : string) : string :=
  match parts with
  | [] => ""
  | [p] => p
  | p :: ps => p +:+ sep +:+ Join ps sep
  end.

(** [strings.SplitN(s, sep, 3)] *)
Definition SplitN3 (s : string) (n : N) : list string :=
  match Cut s (String (byte n) "") with
  | None => [s]
  | Some (a, r) =>
      match Cut r (String (byte n) "") with
      | None => [a; r]
      | Some (b, c) => [a; b; c]
      end
  end.

Lemma Split_nonempty s n : Split s n ≠ [].
Proof. induction s as [|c s IH]; cbn; [done|]. repeat case_match; done. Qed.

Lemma Split_no_char s n : no_char n s = true → Split s n = [s].
Proof.
  induction s as [|c s IH]; [done|]. unfold no_char in *. cbn. intros H. bool_prop.
  rewrite H. by rewrite IH.
Qed.

Lemma Split_app s n t :
  no_char n s = true → Split (s +:+ String (byte n) t) n = s :: Split t n.
Proof.
  induction s as [|c s IH].
  - intros _. rewrite sapp_nil_l. cbn. unfold is_char. by rewrite Ascii.eqb_refl.
  - unfold no_char in *. intros H. cbn in H. bool_prop. rewrite sapp_cons. cbn.
    rewrite H. by rewrite IH.
Qed.

(** ** Replacing, folding case *)
Fixpoint ReplaceChar (s : string) (n : N) (by_ : string) : string :=
  match s with
  | EmptyString => ""
  | String c s' => if is_char n c then by_ +:+ ReplaceChar s' n by_
                   else String c (ReplaceChar s' n by_)
  end.

Lemma ReplaceChar_gone s n r : no_char n r = true → no_char n (ReplaceChar s n r) = true.
Proof.
  intros Hr. induction s as [|c s IH]; [done|]. cbn. destruct (is_char n c) eqn:E.
  - unfold no_char in *. by rewrite schars_app, Hr, IH.
  - unfold no_char in *. cbn. by rewrite E, IH.
Qed.

Lemma ReplaceChar_id s n r : no_char n s = true → ReplaceChar s n r = s.
Proof.
  induction s as [|c s IH]; [done|]. unfold no_char in *. cbn. intros H. bool_prop.
  rewrite H. by rewrite IH.
Qed.

(** [strings.EqualFold] against an ASCII text.  Besides the ASCII letters, two
    runes fold to ASCII: U+017F to "s" and U+212A to "k". *)
Definition lower (c : ascii) : ascii :=
  if ((65 <=? code c) && (code c <=? 90))%N then byte (code c + 32) else c.

Fixpoint fold_norm (s : string) : string :=
  match s with
  | String c s1 =>
      match s1 with
      | String d s2 =>
          if ((code c =? 197) && (code d =? 191))%N then String (byte 115) (fold_norm s2)
          else match s2 with
               | String e s3 =>
                   if ((code c =? 226) && (code d =? 132) && (code e =? 170))%N
                   then String (byte 107) (fold_norm s3)
                   else String (lower c) (fold_norm s1)
               | EmptyString => String (lower c) (fold_norm s1)
               end
      | EmptyString => String (lower c) ""
      end
  | EmptyString => ""
  end.

Definition EqualFold (s t : string) : bool := String.eqb (fold_norm s) (fold_norm t).
