(* ===== verification/GoNum.v ===== *)
(** * Go's machine integers, [strconv] and [encoding/binary] *)

From Stdlib Require Import Ascii DecimalString DecimalFacts DecimalN DecimalPos Decimal.
From S2P Require Import Prelude GoStrings.

Open Scope string_scope.
Open Scope Z_scope.

(** ** Widths *)
Definition wrap_u (w z : Z) : Z := z mod 2 ^ w.
Definition wrap_s (w z : Z) : Z := (z + 2 ^ (w - 1)) mod 2 ^ w - 2 ^ (w - 1).
Definition wrap_int64 : Z → Z := wrap_s 64.
Definition wrap_uint64 : Z → Z := wrap_u 64.
Definition in_int64 (z : Z) : bool := (- 2 ^ 63 <=? z) && (z <=? 2 ^ 63 - 1).

Lemma wrap_int64_range z : - 2 ^ 63 ≤ wrap_int64 z < 2 ^ 63.
Proof.
  unfold wrap_int64, wrap_s. replace (64 - 1) with 63 by lia.
  pose proof (Z.mod_pos_bound (z + 2 ^ 63) (2 ^ 64) ltac:(lia)). lia.
Qed.

Lemma wrap_int64_id z : - 2 ^ 63 ≤ z < 2 ^ 63 → wrap_int64 z = z.
Proof.
  intros H. unfold wrap_int64, wrap_s. replace (64 - 1) with 63 by lia.
  rewrite Z.mod_small by lia. lia.
Qed.

Lemma wrap_uint64_range z : 0 ≤ wrap_uint64 z < 2 ^ 64.
Proof. unfold wrap_uint64, wrap_u. apply Z.mod_pos_bound. lia. Qed.

(** ** Time

    A [time.Time] is its number of nanoseconds since year 1, the zero [Time]
    being 0; a [time.Duration] is an int64 number of nanoseconds. *)
Definition Second : Z := 1000000000.
Definition Millisecond : Z := 1000000.
Definition Minute : Z := 60 * Second.
Definition Hour : Z := 60 * Minute.
Definition unix_epoch : Z := 62135596800 * Second.

Definition IsZero (t : Z) : bool := t =? 0.
Definition Unix_of (t : Z) : Z := t / Second - 62135596800.       (* t.Unix() *)
Definition time_Unix (sec : Z) : Z := sec * Second + unix_epoch.  (* time.Unix(sec, 0) *)

Lemma Unix_roundtrip sec : Unix_of (time_Unix sec) = sec.
Proof.
  unfold Unix_of, time_Unix, unix_epoch, Second. rewrite <-Z.mul_add_distr_r, Z.div_mul by lia.
  lia.
Qed.

Lemma time_Unix_le t : time_Unix (Unix_of t) ≤ t < time_Unix (Unix_of t) + Second.
Proof.
  unfold Unix_of, time_Unix, unix_epoch.
  pose proof (Z.div_mod t Second ltac:(done)).
  pose proof (Z.mod_pos_bound t Second ltac:(done)). lia.
Qed.

(** ** Decimal text *)
Definition is_digit (c : ascii) : bool := ((48 <=? code c) && (code c <=? 57))%N.

Definition utoa (n : N) : string := NilEmpty.string_of_uint (N.to_uint n).

Definition itoa (z : Z) : string :=
  if z <? 0 then String (byte 45) (utoa (Z.to_N (- z))) else utoa (Z.to_N z).

(** Digits only, at least one. *)
Definition parse_digits (s : string) : option N :=
  match s with
  | EmptyString => None
  | _ => match NilEmpty.uint_of_string s with
         | Some u => Some (N.of_uint u)
         | None => None
         end
  end.

(** [strconv.ParseInt(s, 10, 64)] and, on 64-bit platforms, [strconv.Atoi]: an
    optional sign, decimal digits, and a value that fits. *)
Definition ParseInt64 (s : string) : option Z :=
  let '(neg, digits) :=
    match s with
    | String c s' => if is_char 45 c then (true, s')
                     else if is_char 43 c then (false, s') else (false, s)
    | EmptyString => (false, s)
    end in
  match parse_digits digits with
  | None => None
  | Some n => let z := if (neg : bool) then - Z.of_N n else Z.of_N n in
              if in_int64 z then Some z else None
  end.

Definition Atoi : string → option Z := ParseInt64.

Lemma utoa_nonempty n : utoa n ≠ "".
Proof.
  unfold utoa. intros H.
  assert (N.to_uint n = Nil) as Hn.
  { destruct (N.to_uint n); cbn in H; done. }
  pose proof (DecimalN.Unsigned.of_to n) as H2. rewrite Hn in H2. cbn in H2. by subst n.
Qed.

Lemma parse_digits_utoa n : parse_digits (utoa n) = Some n.
Proof.
  unfold parse_digits. pose proof (utoa_nonempty n) as Hne. unfold utoa in *.
  destruct (NilEmpty.string_of_uint (N.to_uint n)) as [|c s] eqn:E; [done|].
  rewrite <-E, NilEmpty.usu. f_equal. apply DecimalN.Unsigned.of_to.
Qed.

Lemma uint_digits u : schars is_digit (NilEmpty.string_of_uint u) = true.
Proof. induction u; cbn; by rewrite ?IHu. Qed.

Lemma utoa_digits n : schars is_digit (utoa n) = true.
Proof. apply uint_digits. Qed.

Lemma is_digit_not_char n c :
  is_digit (byte n) = false → (n < 256)%N → is_digit c = true → is_char n c = false.
Proof.
  intros H Hn Hc. unfold is_char. apply Ascii.eqb_neq. intros ->. congruence.
Qed.

Lemma utoa_no_char n m : is_digit (byte m) = false → (m < 256)%N → no_char m (utoa n) = true.
Proof.
  intros Hm Hb. eapply schars_mono; [|apply utoa_digits]. intros c Hc. cbn beta.
  by rewrite is_digit_not_char.
Qed.

Lemma itoa_no_char z m :
  is_digit (byte m) = false → (m < 256)%N → m ≠ 45%N → no_char m (itoa z) = true.
Proof.
  intros Hm Hb H45. unfold itoa. destruct (z <? 0); [|by apply utoa_no_char].
  unfold no_char in *. cbn [schars]. pose proof (utoa_no_char (Z.to_N (- z)) m Hm Hb) as H.
  unfold no_char in H. rewrite H, andb_true_r. unfold is_char. apply negb_true_iff, Ascii.eqb_neq.
  intros Heq. apply (f_equal code) in Heq. rewrite !code_byte in Heq by lia. lia.
Qed.

Lemma ParseInt64_itoa z : in_int64 z = true → ParseInt64 (itoa z) = Some z.
Proof.
  intros Hz. unfold itoa. destruct (z <? 0) eqn:E; bool_prop.
  - cbn [ParseInt64]. unfold ParseInt64. change (is_char 45 (byte 45)) with true. cbv iota.
    rewrite parse_digits_utoa. replace (- Z.of_N (Z.to_N (- z))) with z by lia.
    by rewrite Hz.
  - unfold ParseInt64. destruct (utoa (Z.to_N z)) as [|c s] eqn:E2.
    { by apply utoa_nonempty in E2. }
    assert (is_digit c = true) as Hd.
    { pose proof (utoa_digits (Z.to_N z)) as H. rewrite E2 in H. cbn in H. by bool_prop. }
    rewrite !(is_digit_not_char _ c) by done.
    rewrite <-E2, parse_digits_utoa, Z2N.id by lia. by rewrite Hz.
Qed.

Lemma parse_digits_digits s n : parse_digits s = Some n → schars is_digit s = true.
Proof.
  unfold parse_digits. destruct s as [|c s]; [done|].
  destruct (NilEmpty.uint_of_string (String c s)) as [u|] eqn:E; [|done]. intros _.
  apply NilEmpty.sus in E. rewrite <-E. apply uint_digits.
Qed.

(** Only digits and signs are read as a number. *)
Lemma ParseInt64_no_char s z m :
  is_digit (byte m) = false → (m < 256)%N → m ≠ 43%N → m ≠ 45%N →
  ParseInt64 s = Some z → no_char m s = true.
Proof.
  intros Hd Hm H1 H2.
  assert (∀ d n, parse_digits d = Some n → no_char m d = true) as Hp.
  { intros d n Hn. apply parse_digits_digits in Hn.
    eapply schars_mono; [|exact Hn]. intros x Hx. by rewrite (is_digit_not_char m). }
  assert (∀ k c s, is_char k c = true → (k < 256)%N → m ≠ k → no_char m s = true →
                   no_char m (String c s) = true) as Hc.
  { intros k c t Hk Hlt Hne Ht. unfold no_char in *. cbn. rewrite Ht, andb_true_r.
    unfold is_char in *. apply Ascii.eqb_eq in Hk as ->. apply negb_true_iff, Ascii.eqb_neq.
    intros He. apply (f_equal code) in He. rewrite !code_byte in He by done. done. }
  unfold ParseInt64. destruct s as [|c s]; [done|].
  destruct (is_char 45 c) eqn:E1; [|destruct (is_char 43 c) eqn:E2].
  - destruct (parse_digits s) as [n|] eqn:E; [|done]. intros _. eapply Hc; eauto. done.
  - destruct (parse_digits s) as [n|] eqn:E; [|done]. intros _. eapply Hc; eauto. done.
  - destruct (parse_digits (String c s)) as [n|] eqn:E; [|done]. intros _. by apply Hp in E.
Qed.

Lemma utoa_inj n m : utoa n = utoa m → n = m.
Proof. intros H. apply (f_equal parse_digits) in H. rewrite !parse_digits_utoa in H. by injection H. Qed.

(** ** [fmt.Sscanf] with [%d] into an unsigned integer of [w] bits

    Blanks are skipped, the longest run of decimal digits is read; what follows
    is left for the rest of the format. *)
Fixpoint skip_blanks (s : string) : string :=
  match s with
  | String c s' => if is_char 32 c || is_char 9 c then skip_blanks s' else s
  | EmptyString => ""
  end.

Fixpoint span_digits (s : string) : string * string :=
  match s with
  | String c s' => if is_digit c then let '(a, b) := span_digits s' in (String c a, b)
                   else ("", s)
  | EmptyString => ("", "")
  end.

Definition scan_uint (w : Z) (s : string) : option (N * string) :=
  let '(ds, rest) := span_digits (skip_blanks s) in
  match parse_digits ds with
  | Some n => if (Z.of_N n <? 2 ^ w) then Some (n, rest) else None
  | None => None
  end.

(** A signed [%d]: the same, with an optional sign. *)
Definition scan_int (s : string) : option (Z * string) :=
  let s := skip_blanks s in
  let '(neg, s) := match s with
                   | String c s' => if is_char 45 c then (true, s')
                                    else if is_char 43 c then (false, s') else (false, s)
                   | EmptyString => (false, s)
                   end in
  let '(ds, rest) := span_digits s in
  match parse_digits ds with
  | Some n => let z := if (neg : bool) then - Z.of_N n else Z.of_N n in
              if in_int64 z then Some (z, rest) else None
  | None => None
  end.

Lemma span_digits_app s t :
  schars is_digit s = true →
  match t with String c _ => is_digit c = false | EmptyString => True end →
  span_digits (s +:+ t) = (s, t).
Proof.
  intros Hs Ht. induction s as [|c s IH].
  - rewrite sapp_nil_l. destruct t as [|c t]; [done|]. cbn. by rewrite Ht.
  - cbn in Hs. bool_prop. rewrite sapp_cons. cbn. rewrite H. by rewrite IH.
Qed.

Lemma skip_blanks_digits s t :
  s ≠ "" → schars is_digit s = true → skip_blanks (s +:+ t) = s +:+ t.
Proof.
  destruct s as [|c s]; [done|]. intros _ H. cbn in H. bool_prop. rewrite sapp_cons. cbn.
  by rewrite !(is_digit_not_char _ c).
Qed.

Lemma scan_uint_utoa w n t :
  Z.of_N n < 2 ^ w →
  match t with String c _ => is_digit c = false | EmptyString => True end →
  scan_uint w (utoa n +:+ t) = Some (n, t).
Proof.
  intros Hn Ht. unfold scan_uint.
  rewrite skip_blanks_digits by eauto using utoa_nonempty, utoa_digits.
  rewrite span_digits_app by eauto using utoa_digits.
  rewrite parse_digits_utoa. by rewrite (proj2 (Z.ltb_lt _ _)).
Qed.

Lemma scan_int_utoa n t :
  in_int64 (Z.of_N n) = true →
  match t with String c _ => is_digit c = false | EmptyString => True end →
  scan_int (utoa n +:+ t) = Some (Z.of_N n, t).
Proof.
  intros Hn Ht. unfold scan_int.
  rewrite skip_blanks_digits by eauto using utoa_nonempty, utoa_digits.
  destruct (utoa n) as [|c s] eqn:E; [by apply utoa_nonempty in E|].
  assert (schars is_digit (String c s) = true) as Hd by (rewrite <-E; apply utoa_digits).
  rewrite sapp_cons. assert (is_digit c = true) as Hc by (cbn in Hd; by bool_prop).
  rewrite !(is_digit_not_char _ c) by done. rewrite <-sapp_cons.
  rewrite span_digits_app by done. rewrite <-E, parse_digits_utoa. by rewrite Hn.
Qed.

(** ** [binary.BigEndian] *)
Definition byte_of (z : Z) : ascii := byte (Z.to_N (z mod 256)).
Definition val (c : ascii) : Z := Z.of_N (code c).

Definition put_uint16 (z : Z) : string :=
  String (byte_of (z / 256)) (String (byte_of z) "").

Definition put_uint32 (z : Z) : string :=
  String (byte_of (z / 16777216)) (String (byte_of (z / 65536))
    (String (byte_of (z / 256)) (String (byte_of z) ""))).

Definition get_uint16 (a b : ascii) : Z := val a * 256 + val b.
Definition get_uint32 (a b c d : ascii) : Z :=
  val a * 16777216 + val b * 65536 + val c * 256 + val d.

Lemma val_byte_of z : val (byte_of z) = z mod 256.
Proof.
  unfold val, byte_of. pose proof (Z.mod_pos_bound z 256 ltac:(lia)).
  rewrite code_byte by lia. lia.
Qed.

Lemma val_bound c : 0 ≤ val c < 256.
Proof. unfold val. pose proof (code_bound c). lia. Qed.

Lemma get_put_uint16 z :
  0 ≤ z < 65536 → get_uint16 (byte_of (z / 256)) (byte_of z) = z.
Proof. intros. unfold get_uint16. rewrite !val_byte_of. Z.to_euclidean_division_equations. lia. Qed.

Lemma get_put_uint32 z :
  0 ≤ z < 4294967296 →
  get_uint32 (byte_of (z / 16777216)) (byte_of (z / 65536)) (byte_of (z / 256)) (byte_of z) = z.
Proof. intros. unfold get_uint32. rewrite !val_byte_of. Z.to_euclidean_division_equations. lia. Qed.
