(* ===== verification/GoBase64.v ===== *)
(** * [encoding/base64] and [encoding/hex]

    The three encodings the program uses: [StdEncoding] (padded, "+/"),
    [RawStdEncoding] (the same, unpadded) and [RawURLEncoding] (unpadded, "-_").
    Decoding follows Go's: carriage returns and newlines are skipped, the
    unused low bits of the last character are not checked. *)

From Stdlib Require Import Ascii.
From S2P Require Import Prelude GoStrings GoNum.

Open Scope string_scope.
Open Scope Z_scope.

(** ** The alphabets *)
Definition b64_char (url : bool) (n : Z) : ascii :=
  byte (Z.to_N (if n <? 26 then n + 65
                else if n <? 52 then n - 26 + 97
                else if n <? 62 then n - 52 + 48
                else if n =? 62 then (if url then 45 else 43)
                else (if url then 95 else 47))).

Definition b64_val (url : bool) (c : ascii) : option Z :=
  let v := val c in
  if (65 <=? v) && (v <=? 90) then Some (v - 65)
  else if (97 <=? v) && (v <=? 122) then Some (v - 97 + 26)
  else if (48 <=? v) && (v <=? 57) then Some (v - 48 + 52)
  else if v =? (if url then 45 else 43) then Some 62
  else if v =? (if url then 95 else 47) then Some 63
  else None.

(** What an alphabet never contains. *)
Definition b64_alpha (url : bool) (c : ascii) : bool :=
  match b64_val url c with Some _ => true | None => false end.

Lemma val_byte n : 0 ≤ n < 256 → val (byte (Z.to_N n)) = n.
Proof. intros. unfold val. rewrite code_byte by lia. lia. Qed.

Lemma b64_val_char url n : 0 ≤ n < 64 → b64_val url (b64_char url n) = Some n.
Proof.
  intros Hn. unfold b64_val, b64_char.
  rewrite val_byte by (repeat case_match; lia).
  repeat case_match; bool_prop; try (f_equal; lia); exfalso; lia.
Qed.

Lemma b64_char_alpha url n : 0 ≤ n < 64 → b64_alpha url (b64_char url n) = true.
Proof. intros. unfold b64_alpha. by rewrite b64_val_char. Qed.

Lemma b64_alpha_not n url c :
  b64_alpha url (byte n) = false → b64_alpha url c = true → is_char n c = false.
Proof. intros H Hc. unfold is_char. apply Ascii.eqb_neq. intros ->. congruence. Qed.

(** ** Encoding: three bytes at a time *)
Definition pad : ascii := byte 61.

Definition enc3 (url : bool) (a b c : Z) : ascii * ascii * ascii * ascii :=
  let n := a * 65536 + b * 256 + c in
  (b64_char url (n / 262144), b64_char url (n / 4096 mod 64),
   b64_char url (n / 64 mod 64), b64_char url (n mod 64)).

Fixpoint b64_encode (url padded : bool) (s : string) : string :=
  match s with
  | EmptyString => ""
  | String a EmptyString =>
      let '(w, x, _, _) := enc3 url (val a) 0 0 in
      String w (String x (if padded then String pad (String pad "") else ""))
  | String a (String b EmptyString) =>
      let '(w, x, y, _) := enc3 url (val a) (val b) 0 in
      String w (String x (String y (if padded then String pad "" else "")))
  | String a (String b (String c s')) =>
      let '(w, x, y, z) := enc3 url (val a) (val b) (val c) in
      String w (String x (String y (String z (b64_encode url padded s'))))
  end.

(** ** Decoding: four characters at a time *)
Definition dec_char (z : Z) : ascii := byte_of z.

Definition dec4 (w x y z : Z) : string :=
  let n := w * 262144 + x * 4096 + y * 64 + z in
  String (dec_char (n / 65536)) (String (dec_char (n / 256)) (String (dec_char n) "")).

Fixpoint b64_decode_clean (url padded : bool) (s : string) : option string :=
  match s with
  | EmptyString => Some ""
  | String w (String x rest) =>
      match b64_val url w, b64_val url x with
      | Some w', Some x' =>
          match rest with
          | EmptyString => if padded then None else Some (stake 1 (dec4 w' x' 0 0))
          | String y EmptyString =>
              if padded then None
              else match b64_val url y with
                   | Some y' => Some (stake 2 (dec4 w' x' y' 0))
                   | None => None
                   end
          | String y (String z rest') =>
              match b64_val url y, b64_val url z with
              | Some y', Some z' =>
                  match b64_decode_clean url padded rest' with
                  | Some t => Some (dec4 w' x' y' z' +:+ t)
                  | None => None
                  end
              | Some y', None =>
                  if padded && is_char 61 z && String.eqb rest' ""
                  then Some (stake 2 (dec4 w' x' y' 0)) else None
              | None, _ =>
                  if padded && is_char 61 y && is_char 61 z && String.eqb rest' ""
                  then Some (stake 1 (dec4 w' x' 0 0)) else None
              end
          end
      | _, _ => None
      end
  | String _ EmptyString => None
  end.

Fixpoint strip_newlines (s : string) : string :=
  match s with
  | EmptyString => ""
  | String c s' => if is_char 10 c || is_char 13 c then strip_newlines s'
                   else String c (strip_newlines s')
  end.

Definition b64_decode (url padded : bool) (s : string) : option string :=
  b64_decode_clean url padded (strip_newlines s).

Definition std_encode : string → string := b64_encode false true.
Definition std_decode : string → option string := b64_decode false true.
Definition rawstd_encode : string → string := b64_encode false false.
Definition rawstd_decode : string → option string := b64_decode false false.
Definition rawurl_encode : string → string := b64_encode true false.
Definition rawurl_decode : string → option string := b64_decode true false.

(** ** What the encoder writes *)
Lemma string_ind3 (P : string → Prop) :
  P "" → (∀ a, P (String a "")) → (∀ a b, P (String a (String b ""))) →
  (∀ a b c s, P s → P (String a (String b (String c s)))) → ∀ s, P s.
Proof.
  intros H0 H1 H2 H3 s. induction s as [s IH] using string_len_ind.
  destruct s as [|a [|b [|c s]]]; [done|done|done|].
  apply H3, IH. rewrite !len_cons. lia.
Qed.

Lemma enc3_bounds a b c :
  0 ≤ a < 256 → 0 ≤ b < 256 → 0 ≤ c < 256 →
  let n := a * 65536 + b * 256 + c in
  0 ≤ n / 262144 < 64 ∧ 0 ≤ n / 4096 mod 64 < 64 ∧ 0 ≤ n / 64 mod 64 < 64 ∧ 0 ≤ n mod 64 < 64.
Proof. intros. cbn zeta. subst n. Z.to_euclidean_division_equations. lia. Qed.

Lemma b64_encode_chars url padded s P :
  (∀ c, b64_alpha url c = true → P c = true) → (padded = true → P pad = true) →
  schars P (b64_encode url padded s) = true.
Proof.
  intros HP Hpad. induction s as [|a|a b|a b c s IH] using string_ind3; [done|..];
  (pose proof (val_bound a); try pose proof (val_bound b); try pose proof (val_bound c));
  cbn [b64_encode enc3].
  - destruct (enc3_bounds (val a) 0 0) as (?&?&?&?); [lia..|].
    cbn [schars]. rewrite !HP by (by apply b64_char_alpha).
    destruct padded; [|done]. cbn [schars]. by rewrite Hpad.
  - destruct (enc3_bounds (val a) (val b) 0) as (?&?&?&?); [lia..|].
    cbn [schars]. rewrite !HP by (by apply b64_char_alpha).
    destruct padded; [|done]. cbn [schars]. by rewrite Hpad.
  - destruct (enc3_bounds (val a) (val b) (val c)) as (?&?&?&?); [lia..|].
    cbn [schars]. rewrite !HP by (by apply b64_char_alpha). by rewrite IH.
Qed.

Lemma b64_encode_no_char url padded s n :
  b64_alpha url (byte n) = false → (padded = true → is_char n pad = false) →
  no_char n (b64_encode url padded s) = true.
Proof.
  intros Hn Hp. apply b64_encode_chars.
  - intros c Hc. by rewrite (b64_alpha_not n url c Hn Hc).
  - intros H. by rewrite Hp.
Qed.

(** ** Round trip *)
Lemma enc3_dec4 a b c :
  0 ≤ a < 256 → 0 ≤ b < 256 → 0 ≤ c < 256 →
  let n := a * 65536 + b * 256 + c in
  dec4 (n / 262144) (n / 4096 mod 64) (n / 64 mod 64) (n mod 64)
  = String (byte_of a) (String (byte_of b) (String (byte_of c) "")).
Proof.
  intros Ha Hb Hc n. unfold dec4, dec_char.
  replace (n / 262144 * 262144 + n / 4096 mod 64 * 4096 + n / 64 mod 64 * 64 + n mod 64) with n
    by (Z.to_euclidean_division_equations; lia).
  assert (∀ x y, x mod 256 = y mod 256 → byte_of x = byte_of y) as Hb'.
  { intros x y H. unfold byte_of. by rewrite H. }
  f_equal; [apply Hb'; subst n; Z.to_euclidean_division_equations; lia|].
  f_equal; [apply Hb'; subst n; Z.to_euclidean_division_equations; lia|].
  f_equal; apply Hb'; subst n; Z.to_euclidean_division_equations; lia.
Qed.

Lemma byte_of_val c : byte_of (val c) = c.
Proof.
  unfold byte_of, val. pose proof (code_bound c). rewrite Z.mod_small by lia.
  rewrite N2Z.id. apply byte_code.
Qed.

Lemma b64_decode_clean_encode url padded s :
  b64_decode_clean url padded (b64_encode url padded s) = Some s.
Proof.
  induction s as [|a|a b|a b c s IH] using string_ind3; [done|..];
  (pose proof (val_bound a); try pose proof (val_bound b); try pose proof (val_bound c));
  cbn [b64_encode enc3].
  - destruct (enc3_bounds (val a) 0 0) as (?&?&?&?); [lia..|].
    pose proof (enc3_dec4 (val a) 0 0) as Hd. cbn zeta in Hd.
    replace ((val a * 65536 + 0 * 256 + 0) / 64 mod 64) with 0 in Hd
      by (Z.to_euclidean_division_equations; lia).
    replace ((val a * 65536 + 0 * 256 + 0) mod 64) with 0 in Hd
      by (Z.to_euclidean_division_equations; lia).
    destruct padded; cbn [b64_decode_clean]; rewrite !b64_val_char by done.
    + replace (b64_val url pad) with (@None Z) by (by destruct url).
      change (is_char 61 pad) with true. cbn [andb String.eqb].
      rewrite Hd by lia. rewrite byte_of_val. done.
    + rewrite Hd by lia. by rewrite byte_of_val.
  - destruct (enc3_bounds (val a) (val b) 0) as (?&?&?&?); [lia..|].
    pose proof (enc3_dec4 (val a) (val b) 0) as Hd. cbn zeta in Hd.
    replace ((val a * 65536 + val b * 256 + 0) mod 64) with 0 in Hd
      by (Z.to_euclidean_division_equations; lia).
    destruct padded; cbn [b64_decode_clean]; rewrite !b64_val_char by done.
    + replace (b64_val url pad) with (@None Z) by (by destruct url).
      change (is_char 61 pad) with true. cbn [andb String.eqb].
      rewrite Hd by lia. by rewrite !byte_of_val.
    + rewrite Hd by lia. by rewrite !byte_of_val.
  - destruct (enc3_bounds (val a) (val b) (val c)) as (?&?&?&?); [lia..|].
    cbn [b64_decode_clean]. rewrite !b64_val_char, IH by done.
    rewrite enc3_dec4 by lia. by rewrite !byte_of_val, !sapp_cons.
Qed.

Lemma strip_newlines_id s : no_char 10 s = true → no_char 13 s = true → strip_newlines s = s.
Proof.
  unfold no_char. induction s as [|c s IH]; [done|]. cbn. intros H1 H2. bool_prop.
  rewrite H1, H. cbn. by rewrite IH.
Qed.

Lemma b64_decode_encode url padded s : b64_decode url padded (b64_encode url padded s) = Some s.
Proof.
  unfold b64_decode. rewrite strip_newlines_id; [apply b64_decode_clean_encode|..];
    apply b64_encode_no_char; by destruct url.
Qed.

Lemma std_decode_encode s : std_decode (std_encode s) = Some s.
Proof. apply b64_decode_encode. Qed.
Lemma rawstd_decode_encode s : rawstd_decode (rawstd_encode s) = Some s.
Proof. apply b64_decode_encode. Qed.
Lemma rawurl_decode_encode s : rawurl_decode (rawurl_encode s) = Some s.
Proof. apply b64_decode_encode. Qed.

Create HintDb b64.
#[export] Hint Rewrite std_decode_encode rawstd_decode_encode rawurl_decode_encode : b64.

Lemma std_encode_inj s t : std_encode s = std_encode t → s = t.
Proof. intros H. apply (f_equal std_decode) in H. autorewrite with b64 in H. by injection H. Qed.

(** ** [hex.EncodeToString] *)
Definition hex_digit (n : Z) : ascii := byte (Z.to_N (if n <? 10 then n + 48 else n - 10 + 97)).

Fixpoint hex_encode (s : string) : string :=
  match s with
  | EmptyString => ""
  | String c s' => String (hex_digit (val c / 16)) (String (hex_digit (val c mod 16)) (hex_encode s'))
  end.

Lemma hex_encode_chars (P : ascii → bool) s :
  forallb (λ n, P (hex_digit n)) (seqZ 0 16) = true → schars P (hex_encode s) = true.
Proof.
  intros HP. rewrite forallb_forall in HP.
  assert (∀ n, 0 ≤ n < 16 → P (hex_digit n) = true) as Hd.
  { intros n Hn. apply HP, list_elem_of_In, elem_of_seqZ. lia. }
  induction s as [|c s IH]; [done|]. cbn [hex_encode schars]. pose proof (val_bound c).
  by rewrite !Hd, IH by (Z.to_euclidean_division_equations; lia).
Qed.

Lemma hex_digit_inj n m : 0 ≤ n < 16 → 0 ≤ m < 16 → hex_digit n = hex_digit m → n = m.
Proof.
  intros Hn Hm H. apply (f_equal val) in H. unfold hex_digit in H.
  rewrite !val_byte in H by (repeat case_match; lia). repeat case_match; bool_prop; lia.
Qed.

Lemma hex_encode_inj s t : hex_encode s = hex_encode t → s = t.
Proof.
  revert t. induction s as [|c s IH]; intros [|d t] H; try done. cbn in H.
  injection H as H1 H2 H3. pose proof (val_bound c). pose proof (val_bound d).
  apply hex_digit_inj in H1; [|Z.to_euclidean_division_equations; lia..].
  apply hex_digit_inj in H2; [|Z.to_euclidean_division_equations; lia..].
  assert (val c = val d) as Hv by (Z.to_euclidean_division_equations; lia).
  rewrite <-(byte_of_val c), <-(byte_of_val d), Hv. f_equal. by apply IH.
Qed.

(** ** [%q]

    [strconv.Quote] on text whose non-ASCII bytes encode printable runes, which
    it copies. *)
Definition quote_char (c : ascii) : string :=
  let bs := byte 92 in
  match code c with
  | 34 | 92 => String bs (String c "")
  | 7 => String bs "a" | 8 => String bs "b" | 9 => String bs "t" | 10 => String bs "n"
  | 11 => String bs "v" | 12 => String bs "f" | 13 => String bs "r"
  | n => if ((n <? 32) || (n =? 127))%N
         then String bs (String (byte 120) (hex_encode (String c "")))
         else String c ""
  end%N.

Fixpoint quote_chars (s : string) : string :=
  match s with
  | EmptyString => ""
  | String c s' => quote_char c +:+ quote_chars s'
  end.

Definition quote (s : string) : string := dquote +:+ quote_chars s +:+ dquote.

#[global] Arguments b64_encode : simpl never.
#[global] Arguments b64_decode : simpl never.
#[global] Arguments std_encode : simpl never.
#[global] Arguments std_decode : simpl never.
#[global] Arguments rawstd_encode : simpl never.
#[global] Arguments rawstd_decode : simpl never.
#[global] Arguments rawurl_encode : simpl never.
#[global] Arguments rawurl_decode : simpl never.
