(* ===== verification/Interfaces.v ===== *)
(** * What the program takes from outside: HTTP messages, JSON, cryptography

    HTTP messages are data ([Request], [Response], [Cookie]).  [encoding/json],
    [crypto/ed25519], [crypto/hmac] with SHA-256 and [golang.org/x/crypto/argon2]
    are interfaces: a class of operations and a class of documented laws.  Each
    has a concrete instance at the end, so that every theorem stated against an
    interface can be evaluated. *)

From Stdlib Require Import Ascii.
From S2P Require Import Prelude GoStrings GoNum GoBase64.

Open Scope string_scope.
Open Scope Z_scope.

(** ** HTTP

    A JSON value; durations, which the code converts to [float64], are kept as
    the integer number of nanoseconds they are computed from. *)
Inductive json :=
  | JStr (s : string)
  | JNum (z : Z)
  | JBool (b : bool)
  | JSeconds (nanos : Z)      (* a float64 number of seconds *)
  | JMillis (nanos : Z)       (* a float64 number of milliseconds *)
  | JNull
  | JObj (fields : list (string * json))
  | JArr (items : list json).

(** An incoming [*http.Request] as the handlers read it.  Header names are in
    canonical form; [rq_tls] is the name of the TLS version when this process
    terminated TLS. *)
Record Request := mkRequest {
  rq_path : string;
  rq_header : gmap string string;
  rq_remote : string;
  rq_tls : option string;
  rq_cookies : list (string * string);
  rq_form : gmap string string;
  rq_params : gmap string string;
  rq_body : string
}.

Definition Header_Get (h : gmap string string) (k : string) : string := default "" (h !! k).
Definition FormValue (r : Request) (k : string) : string := default "" (rq_form r !! k).
Definition PathValue (r : Request) (k : string) : string := default "" (rq_params r !! k).

(** [r.Cookie(name)]: the first cookie of that name. *)
Fixpoint find_cookie (name : string) (l : list (string * string)) : option string :=
  match l with
  | [] => None
  | (n, v) :: l' => if String.eqb n name then Some v else find_cookie name l'
  end.
Definition Request_Cookie (r : Request) (name : string) : option string :=
  find_cookie name (rq_cookies r).

Record Cookie := mkCookie {
  ck_name : string;
  ck_value : string;
  ck_http_only : bool;
  ck_secure : bool;
  ck_expires : option Z;
  ck_max_age : Z
}.

Inductive body :=
  | BEmpty
  | BText (s : string)
  | BJson (j : json)
  | BForm (title note fields : string).   (* the sign-in page *)

Record Response := mkResponse {
  rs_status : Z;
  rs_header : list (string * string);
  rs_cookies : list Cookie;
  rs_body : body
}.

Definition StatusOK := 200.
Definition StatusFound := 302.
Definition StatusBadRequest := 400.
Definition StatusUnauthorized := 401.
Definition StatusForbidden := 403.
Definition StatusNotFound := 404.
Definition StatusConflict := 409.
Definition StatusRequestEntityTooLarge := 413.
Definition StatusUpgradeRequired := 426.
Definition StatusTooManyRequests := 429.
Definition StatusInternalServerError := 500.
Definition StatusBadGateway := 502.
Definition StatusServiceUnavailable := 503.

(** [http.Error] and [http.Redirect]. *)
Definition http_Error (msg : string) (status : Z) : Response :=
  mkResponse status [("Content-Type", "text/plain; charset=utf-8")] [] (BText msg).
Definition http_Redirect (url : string) (status : Z) : Response :=
  mkResponse status [("Location", url)] [] BEmpty.

(** ** encoding/json

    [Marshal] and [Unmarshal] are the package functions at one Go type;
    [Decode] is [json.NewDecoder(r).Decode], which reads the first value of the
    stream and ignores what follows. *)
Class JSON (A : Type) := {
  Marshal : A → res string;
  Unmarshal : string → res A;
  Decode : string → res A
}.

(** What is marshalled is read back.  [json_wf] is where the library promises
    it: strings that are valid UTF-8, times it can represent. *)
Class JSONLaws (A : Type) `{JSON A} (json_wf : A → Prop) := {
  Marshal_ok a : json_wf a → ∃ s, Marshal a = Ok s;
  Unmarshal_Marshal a s : json_wf a → Marshal a = Ok s → Unmarshal s = Ok a;
  Decode_Marshal a s rest : json_wf a → Marshal a = Ok s → Decode (s +:+ nl +:+ rest) = Ok a
}.

(** What [json.Encoder.Encode] wrote, a [json.Decoder] reads. *)
Lemma Decode_line `{JSONLaws A wf} a s : wf a → Marshal a = Ok s → Decode (s +:+ nl) = Ok a.
Proof. intros. rewrite <-(sapp_nil_r nl). by apply Decode_Marshal. Qed.

(** ** crypto/ed25519 *)
Definition PublicKeySize := 32.
Definition PrivateKeySize := 64.
Definition SignatureSize := 64.

Class Ed25519 := {
  ed_public : string → string;                    (* priv.Public() *)
  ed_sign : string → string → string;             (* Sign(priv, msg) *)
  ed_verify : string → string → string → bool     (* Verify(pub, msg, sig) *)
}.

Class Ed25519Laws `{Ed25519} := {
  ed_public_size sk : len sk = PrivateKeySize → len (ed_public sk) = PublicKeySize;
  ed_sign_size sk m : len sk = PrivateKeySize → len (ed_sign sk m) = SignatureSize;
  ed_verify_sign sk m :
    len sk = PrivateKeySize → ed_verify (ed_public sk) m (ed_sign sk m) = true
}.

(** ** hmac.New(sha256.New, key) and argon2.IDKey *)
Class HMAC := hmac_sha256 : string → string → string.

(** [argon2.IDKey] panics on parameters it cannot use; a panic is an [Err]. *)
Class Argon2 := IDKey : string → string → Z → Z → Z → Z → res string.
Class Argon2Laws `{Argon2} :=
  IDKey_ok pw salt t m p n :
    1 ≤ t → 1 ≤ p → 1 ≤ n → ∃ k, IDKey pw salt t m p n = Ok k ∧ len k = n.

(** ** Concrete instances *)
Fixpoint pos_text (p : positive) : string :=
  match p with
  | xH => "."
  | xO p => String (byte 48) (pos_text p)
  | xI p => String (byte 49) (pos_text p)
  end.

Fixpoint text_pos (s : string) : positive :=
  match s with
  | EmptyString => xH
  | String c s => if is_char 48 c then xO (text_pos s)
                  else if is_char 49 c then xI (text_pos s) else xH
  end.

Lemma pos_text_nonempty p : pos_text p ≠ "".
Proof. by destruct p. Qed.

Lemma text_pos_text p : text_pos (pos_text p) = p.
Proof. induction p; cbn; by rewrite ?IHp. Qed.

(** A codec that round-trips, for any countable type. *)
Module ToyJSON.
Section toy_json.
  Context (A : Type) `{Countable A}.

Definition toy_unmarshal (s : string) : res A :=
  match decode (text_pos s) with
  | Some a => Ok a
  | None => Err (errorf "invalid character")
  end.

Definition toy_json : JSON A := {|
  Marshal a := Ok (pos_text (encode a));
  Unmarshal := toy_unmarshal;
  Decode s := toy_unmarshal (match Cut s nl with Some (v, _) => v | None => s end)
|}.

Lemma pos_text_no_nl p : no_char 10 (pos_text p) = true.
Proof. induction p; done. Qed.

Lemma toy_json_laws : @JSONLaws A toy_json (λ _, True).
Proof.
  split; cbn.
  - by eexists.
  - intros a s _ [= <-]. unfold toy_unmarshal. by rewrite text_pos_text, decode_encode.
  - intros a s rest _ [= <-]. unfold nl.
    rewrite sapp_cons, sapp_nil_l, Cut_char by apply pos_text_no_nl.
    unfold toy_unmarshal. by rewrite text_pos_text, decode_encode.
Qed.
End toy_json.
End ToyJSON.

Fixpoint pad_to (n : nat) (s : string) : string :=
  match n with
  | O => ""
  | S n => match s with
           | String c s => String c (pad_to n s)
           | EmptyString => String (byte 48) (pad_to n "")
           end
  end.

Lemma len_pad_to n s : len (pad_to n s) = Z.of_nat n.
Proof.
  revert s. induction n as [|n IH]; intros s; [done|].
  destruct s; cbn [pad_to]; rewrite len_cons, IH; lia.
Qed.

#[global] Arguments pad_to : simpl never.

(** A signature scheme that satisfies the laws: a private key is a seed
    followed by its public half, a signature is a fixed-size digest of the
    public key and the message. *)
Module ToyCrypto.
Definition toy_sig (pub m : string) : string := pad_to 64 (pub +:+ m).

Definition toy_ed25519 : Ed25519 := {|
  ed_public sk := pad_to 32 (sdrop 32 sk);
  ed_sign sk m := toy_sig (pad_to 32 (sdrop 32 sk)) m;
  ed_verify pub m s := String.eqb s (toy_sig pub m)
|}.

Lemma toy_ed25519_laws : @Ed25519Laws toy_ed25519.
Proof.
  split; cbn; intros.
  - by rewrite len_pad_to.
  - unfold toy_sig. by rewrite len_pad_to.
  - by rewrite String.eqb_refl.
Qed.

Definition toy_hmac : HMAC := λ k m, pad_to 32 (m +:+ k).

Definition toy_argon2 : Argon2 := λ pw salt t m p n,
  if (t <? 1) || (p <? 1) || (n <? 1) then Err (errorf "panic: argon2: parameter too small")
  else Ok (pad_to (Z.to_nat n) (pw +:+ salt)).

Lemma toy_argon2_laws : @Argon2Laws toy_argon2.
Proof.
  intros pw salt t m p n Ht Hp Hn. unfold IDKey, toy_argon2.
  replace ((t <? 1) || (p <? 1) || (n <? 1)) with false by lia.
  eexists. split; [done|]. rewrite len_pad_to. lia.
Qed.
End ToyCrypto.
