(* ===== verification/Wire.v ===== *)
(** * The wire contract (internal/protocol: protocol.go, pty.go, forward.go, log.go,
    rpc.go, clipboard.go)

    How an agent announces itself, how each multiplexed stream declares its
    purpose, and how a terminal stream and a forward stream are framed.

    A connection is read through a [BufReader]: the bytes already buffered and
    the chunks the following [Read] calls will return.  Every statement about
    reading is independent of how the bytes were cut into chunks. *)

From Stdlib Require Import Ascii.
From S2P Require Import Prelude GoStrings GoNum GoBase64 Interfaces.

Open Scope string_scope.
Open Scope Z_scope.

(** ** io.Writer

    [w_faults] lists the outcome of the writes to come: [Some (k, e)] is a write
    that stops after [k] bytes with error [e]; an exhausted list means success. *)
Record Writer := mkWriter { w_buf : string; w_faults : list (option (Z * error)) }.

Definition write (p : string) : M Writer () := λ w,
  match w_faults w with
  | Some (k, e) :: fs => (Err e, mkWriter (w_buf w +:+ stake k p) fs)
  | None :: fs => (Ok (), mkWriter (w_buf w +:+ p) fs)
  | [] => (Ok (), mkWriter (w_buf w +:+ p) [])
  end.

(** ** bufio.Reader *)
Record BufReader := mkBufReader { br_buf : string; br_chunks : list string }.

Fixpoint sconcat (l : list string) : string :=
  match l with [] => "" | s :: l' => s +:+ sconcat l' end.

(** What is left to read, buffered or not. *)
Lemma sconcat_app l k : sconcat (l ++ k) = sconcat l +:+ sconcat k.
Proof. induction l as [|a l IH]; [done|]. cbn [app sconcat]. by rewrite IH, sapp_assoc. Qed.

Definition remaining (b : BufReader) : string := br_buf b +:+ sconcat (br_chunks b).

Definition ErrorEOF : error := mkError "EOF" [ErrEOF].
Definition ErrorUnexpectedEOF : error := errorf "unexpected EOF".

(** Reads chunks until the buffer satisfies [P] or the peer is done. *)
Fixpoint fill_until (P : string → bool) (buf : string) (chunks : list string)
    : string * list string :=
  if P buf then (buf, chunks)
  else match chunks with
       | [] => (buf, [])
       | c :: cs => fill_until P (buf +:+ c) cs
       end.

(** [br.ReadString('\n')] *)
Definition ReadString : M BufReader string := λ b,
  let '(buf, cs) := fill_until (λ s, Contains s nl) (br_buf b) (br_chunks b) in
  match Cut buf nl with
  | Some (line, rest) => (Ok (line +:+ nl), mkBufReader rest cs)
  | None => (Err ErrorEOF, mkBufReader "" cs)
  end.

(** [io.ReadFull(r, make([]byte, n))] *)
Definition ReadFull (n : Z) : M BufReader string := λ b,
  let '(buf, cs) := fill_until (λ s, n <=? len s) (br_buf b) (br_chunks b) in
  if n <=? len buf then (Ok (stake n buf), mkBufReader (sdrop n buf) cs)
  else (Err (if buf =? "" then ErrorEOF else ErrorUnexpectedEOF)%string, mkBufReader "" cs).

(** [WithBuffered(conn, br)]: the bytes the returned connection yields. *)
Definition WithBuffered (b : BufReader) : string :=
  let n := len (br_buf b) in
  if n =? 0 then sconcat (br_chunks b)
  else stake n (br_buf b) +:+ sconcat (br_chunks b).

(** ** protocol.go *)
Definition ConnectPath := "/agent/connect".
Definition UpgradeProto := "beacon/1".
Definition HeaderAgentID := "X-Beacon-Agent-Id".
Definition HeaderHostname := "X-Beacon-Hostname".
Definition HeaderOS := "X-Beacon-Os".
Definition HeaderArch := "X-Beacon-Arch".
Definition HeaderVersion := "X-Beacon-Version".

Record Hello := mkHello {
  AgentID : string;
  Hostname : string;
  OS : string;
  Arch : string;
  Version : string
}.

Definition SetHeaders (h : Hello) (hdr : gmap string string) : gmap string string :=
  <[HeaderVersion := Version h]> (<[HeaderArch := Arch h]> (<[HeaderOS := OS h]>
    (<[HeaderHostname := Hostname h]> (<[HeaderAgentID := AgentID h]> hdr)))).

Definition HelloFromHeaders (hdr : gmap string string) : res Hello :=
  let h := mkHello (TrimSpace (Header_Get hdr HeaderAgentID))
                   (TrimSpace (Header_Get hdr HeaderHostname))
                   (TrimSpace (Header_Get hdr HeaderOS))
                   (TrimSpace (Header_Get hdr HeaderArch))
                   (TrimSpace (Header_Get hdr HeaderVersion)) in
  if (AgentID h =? "")%string then Err (errorf "missing agent id")
  else if 128 <? len (AgentID h) then Err (errorf "agent id too long")
  else Ok h.

(** [CountingConn]: two atomic uint64 counters. *)
Record CountingConn := mkCountingConn { cc_in : Z; cc_out : Z }.
Definition NewCountingConn : CountingConn := mkCountingConn 0 0.
(** [Read] and [Write] add the byte count the underlying connection reported,
    error or not. *)
Definition CountingConn_Read (n : Z) (c : CountingConn) : CountingConn :=
  mkCountingConn (wrap_uint64 (cc_in c + n)) (cc_out c).
Definition CountingConn_Write (n : Z) (c : CountingConn) : CountingConn :=
  mkCountingConn (cc_in c) (wrap_uint64 (cc_out c + n)).
Definition CountingConn_In (c : CountingConn) : Z := cc_in c.
Definition CountingConn_Out (c : CountingConn) : Z := cc_out c.

Definition StreamEcho := "echo".
Definition StreamPTY := "pty".
Definition StreamRPC := "rpc".

Definition WriteStreamHeader (kind : string) : M Writer () := write (kind +:+ nl).

Definition ReadStreamHeader : M BufReader string :=
  line ← ReadString;
  let kind := TrimSpace line in
  if (kind =? "")%string then mthrow (errorf "empty stream header") else mret kind.

(** ** pty.go *)
Definition PTYData : ascii := byte 0.
Definition PTYResize : ascii := byte 1.
Definition maxPTYFrame : Z := 2 ^ 20.

Definition WritePTYFrame (typ : ascii) (payload : string) : M Writer () :=
  if maxPTYFrame <? len payload
  then mthrow (errorf ("pty frame too large: " +:+ itoa (len payload) +:+ " bytes"))
  else
    write (String typ (put_uint32 (len payload)));;
    write payload.

Definition ReadPTYFrame : M BufReader (ascii * string) :=
  hdr ← ReadFull 5;
  match hdr with
  | String typ (String a (String b (String c (String d EmptyString)))) =>
      let n := get_uint32 a b c d in
      if maxPTYFrame <? n
      then mthrow (errorf ("pty frame too large: " +:+ itoa n +:+ " bytes"))
      else if n =? 0 then mret (typ, "")
      else payload ← ReadFull n; mret (typ, payload)
  | _ => mthrow ErrorUnexpectedEOF
  end.

(** [uint16] arguments are integers below 65536. *)
Definition PTYResizePayload (cols rows : Z) : string := put_uint16 cols +:+ put_uint16 rows.

Definition PTYSize (payload : string) : res (Z * Z) :=
  match payload with
  | String a (String b (String c (String d EmptyString))) =>
      Ok (get_uint16 a b, get_uint16 c d)
  | _ => Err (errorf "resize payload must be 4 bytes")
  end.

(** ** forward.go *)
Definition StreamForward := "forward".
Definition ServiceRDP := "rdp".
Definition ServiceSSH := "ssh".
Definition ServiceDev := "dev".

Definition WriteForwardTarget (service : string) : M Writer () :=
  if ContainsAny service [13; 10]%N
  then mthrow (errorf ("service name must be one line: " +:+ quote service))
  else write (service +:+ nl).

Definition forwardOK := "ok".
Definition forwardMaxError : Z := 512.

Definition WriteForwardStatus (cause : option error) : M Writer () :=
  match cause with
  | None => write (forwardOK +:+ nl)
  | Some e =>
      let msg := ReplaceChar (err_text e) 10 " " in
      let msg := if forwardMaxError <? len msg then stake forwardMaxError msg else msg in
      write ("error " +:+ msg +:+ nl)
  end.

(** [Ok ()] is Go's nil error. *)
Definition ReadForwardStatus : M BufReader () := λ b,
  match ReadString b with
  | (Err e, b') => (Err (wrapf "the agent closed the stream without answering: " e), b')
  | (Ok line, b') =>
      let line := TrimSpace line in
      if (line =? forwardOK)%string then (Ok (), b')
      else (Err (errorf (TrimSpace (TrimPrefix line "error"))), b')
  end.

Definition ReadForwardTarget : M BufReader string :=
  line ← ReadString;
  let service := TrimSpace line in
  if (service =? "")%string then mthrow (errorf "empty service name") else mret service.

(** ** log.go *)
Definition StreamLog := "log".

Record LogLine := mkLogLine {
  ll_time : Z;
  ll_level : string;
  ll_msg : string;
  ll_attrs : string
}.

Definition LogLine_Text (l : LogLine) : string :=
  if (ll_attrs l =? "")%string then ll_msg l
  else ll_msg l +:+ " (" +:+ ll_attrs l +:+ ")".

(** The value arrives already rendered by [%v]. *)
Definition FormatAttr (key value : string) : string := key +:+ "=" +:+ value.
Definition JoinAttrs (parts : list string) : string := Join parts " ".

(** ** rpc.go and clipboard.go *)
Definition OpExec := "exec".
Definition OpReadFile := "read_file".
Definition OpWriteFile := "write_file".
Definition OpListDir := "list_dir".
Definition OpClipboardRead := "clipboard_read".
Definition OpClipboardWrite := "clipboard_write".
Definition OpClipboardWriteImage := "clipboard_write_image".
Definition OpClipboardReadImage := "clipboard_read_image".
Definition ClipboardNoImage := "the clipboard holds no image".
Definition MaxClipboardImageBytes : Z := 8 * 2 ^ 20.

Record RPCRequest := mkRPCRequest {
  rq_Op : string;
  rq_Command : string;
  rq_Dir : string;
  rq_TimeoutSeconds : Z;
  rq_Path : string;
  rq_Content : string
}.

Record DirEntry := mkDirEntry {
  de_Name : string;
  de_IsDir : bool;
  de_Size : Z;
  de_Mode : string;
  de_ModTime : Z
}.

Record RPCResponse := mkRPCResponse {
  rp_Error : string;
  rp_Stdout : string;
  rp_Stderr : string;
  rp_ExitCode : Z;
  rp_Truncated : bool;
  rp_Content : string;
  rp_Written : Z;
  rp_Entries : list DirEntry
}.

(** ** Reading is independent of the chunking *)
Lemma fill_until_spec P buf cs buf' cs' :
  fill_until P buf cs = (buf', cs') →
  buf +:+ sconcat cs = buf' +:+ sconcat cs' ∧ (P buf' = true ∨ cs' = []).
Proof.
  revert buf. induction cs as [|c cs IH]; intros buf; cbn [fill_until].
  - destruct (P buf) eqn:E; intros [= <- <-]; auto.
  - destruct (P buf) eqn:E; [intros [= <- <-]; auto|].
    intros H. apply IH in H as [H ?]. split; [|done]. rewrite <-H. cbn. by rewrite sapp_assoc.
Qed.

Lemma Contains_nl_app a b : no_char 10 a = true → Contains (a +:+ nl +:+ b) nl = true.
Proof.
  intros H. unfold Contains. change (nl +:+ b) with (String (byte 10) b).
  by rewrite Cut_char.
Qed.

(** A line that is there is read, whatever the chunks. *)
Lemma ReadString_line b line rest :
  no_char 10 line = true → remaining b = line +:+ nl +:+ rest →
  ∃ b', ReadString b = (Ok (line +:+ nl), b') ∧ remaining b' = rest.
Proof.
  intros Hline Hrem. unfold ReadString, remaining in *.
  destruct (fill_until _ _ _) as [buf cs] eqn:E.
  apply fill_until_spec in E as [Heq Hdone]. rewrite Hrem in Heq.
  destruct (Cut buf nl) as [[l r]|] eqn:Ec.
  - pose proof (Cut_char_first _ _ _ _ Ec) as Hl. apply Cut_Some in Ec. subst buf.
    rewrite !sapp_assoc in Heq.
    assert (Cut (line +:+ nl +:+ rest) nl = Some (line, rest)) as H1 by (by apply Cut_char).
    assert (Cut (l +:+ nl +:+ r +:+ sconcat cs) nl = Some (l, r +:+ sconcat cs)) as H2
      by (by apply Cut_char).
    rewrite Heq in H1. rewrite H1 in H2. injection H2 as -> ->. by eexists.
  - exfalso. destruct Hdone as [Hd| ->].
    + unfold Contains in Hd. by rewrite Ec in Hd.
    + cbn in Heq. rewrite sapp_nil_r in Heq. rewrite <-Heq in Ec.
      change (nl +:+ rest) with (String (byte 10) rest) in Ec.
      rewrite Cut_char in Ec by done. done.
Qed.

(** No newline, no line: an end-of-file error. *)
Lemma ReadString_eof b :
  no_char 10 (remaining b) = true → ∃ b', ReadString b = (Err ErrorEOF, b').
Proof.
  intros Hn. unfold ReadString, remaining in *.
  destruct (fill_until _ _ _) as [buf cs] eqn:E.
  apply fill_until_spec in E as [Heq _]. rewrite Heq in Hn.
  unfold no_char in Hn. rewrite schars_app in Hn. bool_prop.
  unfold nl. rewrite (proj2 (Cut_char_None 10 buf)) by done. by eexists.
Qed.

Lemma ReadFull_ok b n :
  0 ≤ n ≤ len (remaining b) →
  ∃ b', ReadFull n b = (Ok (stake n (remaining b)), b') ∧ remaining b' = sdrop n (remaining b).
Proof.
  intros Hn. unfold ReadFull, remaining in *.
  destruct (fill_until _ _ _) as [buf cs] eqn:E.
  apply fill_until_spec in E as [Heq Hdone]. rewrite Heq in *.
  assert (n <= len buf) as Hlen.
  { destruct Hdone as [Hd| ->]; [lia|]. cbn in Hn. rewrite sapp_nil_r in Hn. lia. }
  rewrite (proj2 (Z.leb_le _ _)) by done. eexists. split.
  - by rewrite stake_app_l.
  - cbn. by rewrite sdrop_app_l.
Qed.

Lemma ReadFull_app b s rest :
  remaining b = s +:+ rest →
  ∃ b', ReadFull (len s) b = (Ok s, b') ∧ remaining b' = rest.
Proof.
  intros H. destruct (ReadFull_ok b (len s)) as (b' & Hr & Hb').
  { rewrite H, len_app. pose proof (len_nonneg s). pose proof (len_nonneg rest). lia. }
  exists b'. by rewrite Hr, Hb', H, stake_app_exact, sdrop_app.
Qed.

Lemma ReadFull_length n b s b' : 0 ≤ n → ReadFull n b = (Ok s, b') → len s = n.
Proof.
  intros Hn. unfold ReadFull. destruct (fill_until _ _ _) as [buf cs].
  destruct (n <=? len buf) eqn:E; [|done]. intros [= <- _]. bool_prop.
  rewrite len_stake by done. lia.
Qed.

Lemma WithBuffered_remaining b : WithBuffered b = remaining b.
Proof.
  unfold WithBuffered, remaining. destruct (len (br_buf b) =? 0) eqn:E; bool_prop.
  - by rewrite (len_zero_inv _ E).
  - by rewrite stake_all.
Qed.

(** A writer without faults appends. *)
Lemma write_ok p buf : write p (mkWriter buf []) = (Ok (), mkWriter (buf +:+ p) []).
Proof. done. Qed.

(** ** Theorems: stream headers and forward targets *)

(** A one-line declaration that trimming leaves alone and that is not empty. *)
Definition line_text (s : string) : bool :=
  trimmed s && no_char 10 s && negb (s =? "")%string.

Lemma read_line_text b s rest :
  line_text s = true → remaining b = (s +:+ nl) +:+ rest →
  ∃ b', ReadString b = (Ok (s +:+ nl), b') ∧ TrimSpace (s +:+ nl) = s ∧ remaining b' = rest.
Proof.
  unfold line_text. intros H Hr. bool_prop. rewrite sapp_assoc in Hr.
  destruct (ReadString_line b s rest) as (b' & ? & ?); [done..|].
  exists b'. split_and!; [done| |done]. by apply TrimSpace_line.
Qed.

Lemma ReadStreamHeader_line b kind rest :
  line_text kind = true → remaining b = (kind +:+ nl) +:+ rest →
  ∃ b', ReadStreamHeader b = (Ok kind, b') ∧ remaining b' = rest.
Proof.
  intros Hk Hr. destruct (read_line_text b kind rest Hk Hr) as (b' & Hrs & Ht & Hb').
  exists b'. split; [|done]. unfold ReadStreamHeader, mbind, M_bind. rewrite Hrs, Ht.
  unfold line_text in Hk. bool_prop. by rewrite (proj2 (String.eqb_neq _ _)).
Qed.

(** The kind a stream was opened with is the kind the other end reads, however
    the bytes are cut into packets, and the bytes that follow the declaration --
    which may sit in the same packet -- are handed on untouched. *)
Theorem stream_header_roundtrip kind b rest w :
  line_text kind = true →
  WriteStreamHeader kind (mkWriter "" []) = (Ok (), w) →
  remaining b = w_buf w +:+ rest →
  ∃ b', ReadStreamHeader b = (Ok kind, b') ∧ WithBuffered b' = rest.
Proof.
  intros Hk Hw Hr. injection Hw as <-. cbn [w_buf] in Hr. rewrite sapp_nil_l in Hr.
  destruct (ReadStreamHeader_line b kind rest Hk Hr) as (b' & Hb & Hb').
  exists b'. by rewrite WithBuffered_remaining.
Qed.

Lemma stream_header_roundtrip_witness :
  line_text StreamLog = true ∧
  ∃ b', ReadStreamHeader (mkBufReader "lo" ["g" +:+ nl +:+ "{"; "}"]) = (Ok StreamLog, b')
        ∧ WithBuffered b' = "{}".
Proof.
  split; [reflexivity|].
  eapply stream_header_roundtrip; [reflexivity|reflexivity|reflexivity].
Defined.

(** The same for the service a forward stream names: what the relay wrote is
    what the agent looks up, and the first bytes of the connection survive. *)
Theorem forward_target_roundtrip service b rest w :
  line_text service = true →
  WriteForwardTarget service (mkWriter "" []) = (Ok (), w) →
  remaining b = w_buf w +:+ rest →
  ∃ b', ReadForwardTarget b = (Ok service, b') ∧ WithBuffered b' = rest.
Proof.
  intros Hk Hw Hr. unfold WriteForwardTarget in Hw.
  destruct (ContainsAny _ _); [done|]. injection Hw as <-. cbn [w_buf] in Hr.
  rewrite sapp_nil_l in Hr.
  destruct (read_line_text b service rest Hk Hr) as (b' & Hrs & Ht & Hb').
  exists b'. rewrite WithBuffered_remaining. split; [|done].
  unfold ReadForwardTarget, mbind, M_bind. rewrite Hrs, Ht.
  unfold line_text in Hk. bool_prop. by rewrite (proj2 (String.eqb_neq _ _)).
Qed.

Lemma forward_target_roundtrip_witness :
  ∃ b', ReadForwardTarget (mkBufReader ("rdp" +:+ nl +:+ "by") ["tes"]) = (Ok ServiceRDP, b')
        ∧ WithBuffered b' = "bytes".
Proof.
  eapply (forward_target_roundtrip ServiceRDP); [reflexivity|reflexivity|reflexivity].
Defined.

(** ** The status line of a forward stream *)

Lemma no_char_stake n k s : no_char n s = true → no_char n (stake k s) = true.
Proof.
  intros H. unfold no_char in *. rewrite <-(stake_sdrop k s), schars_app in H. by bool_prop.
Qed.

(** What [WriteForwardStatus] puts on the wire. *)
Definition status_line (cause : option error) : string :=
  match cause with
  | None => forwardOK
  | Some e =>
      let msg := ReplaceChar (err_text e) 10 " " in
      "error " +:+ (if forwardMaxError <? len msg then stake forwardMaxError msg else msg)
  end.

Lemma WriteForwardStatus_line cause buf :
  WriteForwardStatus cause (mkWriter buf []) = (Ok (), mkWriter (buf +:+ status_line cause +:+ nl) []).
Proof.
  destruct cause as [e|]; [|done]. unfold WriteForwardStatus, status_line, write. cbn.
  by rewrite sapp_assoc.
Qed.

Lemma status_line_one_line cause : no_char 10 (status_line cause) = true.
Proof.
  destruct cause as [e|]; [|done]. unfold status_line, no_char. rewrite schars_app. cbn [schars].
  apply andb_true_intro. split; [done|].
  pose proof (ReplaceChar_gone (err_text e) 10 " " eq_refl) as H. unfold no_char in H.
  destruct (_ <? _); [by apply no_char_stake|done].
Qed.

Lemma status_line_bound cause : len (status_line cause) ≤ 6 + forwardMaxError.
Proof.
  destruct cause as [e|]; [|done]. unfold status_line. rewrite len_app.
  change (len "error ") with 6. destruct (_ <? _) eqn:E; bool_prop; [|lia].
  rewrite len_stake by done. unfold forwardMaxError in *. lia.
Qed.

(** A line that starts with "error" keeps starting with it when trimmed. *)
Lemma TrimRight_letter c s :
  (97 <=? code c)%N && (code c <=? 122)%N = true → TrimRight (String c s) = String c (TrimRight s).
Proof.
  intros H. cbn [TrimRight]. destruct (is_space_rune (String c (TrimRight s))) eqn:E; [|done].
  exfalso. unfold is_space_rune, is_space1, is_space2, is_space3 in E.
  repeat case_match; lia.
Qed.

Lemma TrimSpace_error_prefix s : HasPrefix (TrimSpace ("error" +:+ s)) "error" = true.
Proof.
  unfold TrimSpace. rewrite (proj2 (TrimLeft_fix _)) by done.
  apply HasPrefix_spec. exists (TrimRight s).
  rewrite !sapp_cons, !sapp_nil_l. by rewrite !TrimRight_letter.
Qed.

(** A reason that fits on the status line as it is. *)
Definition clean_reason (s : string) : bool := line_text s && (len s <=? forwardMaxError).

Lemma TrimSpace_error_line m :
  line_text m = true → TrimSpace (("error " +:+ m) +:+ nl) = "error " +:+ m ∧ TrimSpace (" " +:+ m) = m.
Proof.
  unfold line_text. intros H. bool_prop. destruct (trimmed_inv m) as [Hh Hr]; [done|].
  assert (TrimRight (" " +:+ m) = " " +:+ m) as Hs.
  { rewrite sapp_cons, sapp_nil_l. change (TrimRight (String " " m)) with
      (if is_space_rune (String " " (TrimRight m)) then "" else String " " (TrimRight m)).
    rewrite Hr. by destruct m as [|c [|d [|e m]]]. }
  split.
  - apply TrimSpace_line, trimmed_spec. unfold TrimSpace. rewrite (proj2 (TrimLeft_fix _)) by done.
    change ("error " +:+ m) with ("error" +:+ (" " +:+ m)). rewrite !sapp_cons, !sapp_nil_l in *.
    rewrite !TrimRight_letter by done. by rewrite Hs.
  - unfold TrimSpace. rewrite TrimLeft_eq. change (space_head (" " +:+ m)) with (Some m). cbv iota beta.
    by rewrite (proj2 (TrimLeft_fix m)) by done.
Qed.

(** What the reader makes of a status line. *)
Lemma ReadForwardStatus_line cause b rest :
  remaining b = (status_line cause +:+ nl) +:+ rest →
  ∃ r b', ReadForwardStatus b = (r, b') ∧ remaining b' = rest ∧
    match cause with
    | None => r = Ok ()
    | Some e => ∃ e', r = Err e' ∧ (clean_reason (err_text e) = true → err_text e' = err_text e)
    end.
Proof.
  rewrite sapp_assoc. intros Hr.
  destruct (ReadString_line b _ rest (status_line_one_line cause) Hr) as (b' & Hrs & Hb').
  unfold ReadForwardStatus. rewrite Hrs. destruct cause as [e|]; [|by exists (Ok ()), b'].
  unfold status_line. set (m := if _ <? _ then _ else _).
  assert ((TrimSpace (("error " +:+ m) +:+ nl) =? forwardOK)%string = false) as ->.
  { apply String.eqb_neq. intros E. pose proof (TrimSpace_error_prefix ((" " +:+ m) +:+ nl)) as Hp.
    rewrite <-sapp_assoc in Hp. change ("error" +:+ (" " +:+ m)) with ("error " +:+ m) in Hp. by rewrite E in Hp. }
  eexists _, b'. split_and!; [done..|]. eexists. split; [done|]. unfold clean_reason. intros Hc. bool_prop.
  assert (m = err_text e) as ->.
  { unfold m. rewrite ReplaceChar_id; [|by unfold line_text in *; bool_prop].
    by rewrite (proj2 (Z.ltb_ge _ _)) by done. }
  destruct (TrimSpace_error_line (err_text e)) as [-> Ht]; [done|].
  change ("error " +:+ err_text e) with ("error" +:+ (" " +:+ err_text e)). by rewrite TrimPrefix_app.
Qed.

(** An agent's refusal is never read as an acceptance, and an acceptance never
    as a refusal -- whatever the error text holds, newlines included -- and what
    follows the status line is left for the connection. *)
Theorem forward_status_faithful cause b rest w :
  WriteForwardStatus cause (mkWriter "" []) = (Ok (), w) →
  remaining b = w_buf w +:+ rest →
  len (w_buf w) ≤ 7 + forwardMaxError ∧
  ∃ r b', ReadForwardStatus b = (r, b') ∧ WithBuffered b' = rest
          ∧ (r = Ok () ↔ cause = None).
Proof.
  rewrite WriteForwardStatus_line. intros Hw Hr. injection Hw as <-. cbn [w_buf] in *.
  rewrite sapp_nil_l in *. split.
  { rewrite len_app. pose proof (status_line_bound cause). change (len nl) with 1. lia. }
  destruct (ReadForwardStatus_line cause b rest Hr) as (r & b' & Hb & Hrest & Hc).
  exists r, b'. rewrite WithBuffered_remaining. split_and!; [done..|].
  destruct cause as [e|]; [destruct Hc as (e' & -> & _)|rewrite Hc]; done.
Qed.

Lemma forward_status_faithful_witness :
  ∃ r b', ReadForwardStatus (mkBufReader "" ["error o"; "k" +:+ nl +:+ "tail"]) = (r, b')
          ∧ WithBuffered b' = "tail" ∧ (r = Ok () ↔ Some (errorf "ok") = None).
Proof.
  eapply (forward_status_faithful (Some (errorf "ok"))); [reflexivity|reflexivity].
Defined.

(** ** Terminal frames *)

Definition frame : Type := ascii * string.
Definition encode_frame (f : frame) : string :=
  String f.1 (put_uint32 (len f.2)) +:+ f.2.

Definition write_frames (fs : list frame) : M Writer () :=
  foldr (λ f k, WritePTYFrame f.1 f.2;; k) (mret ()) fs.

(** [n] frames read one after the other. *)
Fixpoint read_frames (n : nat) : M BufReader (list frame) :=
  match n with
  | O => mret []
  | S n => f ← ReadPTYFrame; fs ← read_frames n; mret (f :: fs)
  end.

Definition frame_ok (f : frame) : bool := len f.2 <=? maxPTYFrame.

Lemma WritePTYFrame_ok f buf :
  frame_ok f = true →
  WritePTYFrame f.1 f.2 (mkWriter buf []) = (Ok (), mkWriter (buf +:+ encode_frame f) []).
Proof.
  unfold frame_ok. intros H. bool_prop. unfold WritePTYFrame.
  rewrite (proj2 (Z.ltb_ge _ _)) by done. unfold mbind, M_bind, write. cbn.
  unfold encode_frame. by rewrite sapp_assoc.
Qed.

Lemma write_frames_ok fs buf :
  forallb frame_ok fs = true →
  write_frames fs (mkWriter buf []) = (Ok (), mkWriter (buf +:+ sconcat (encode_frame <$> fs)) []).
Proof.
  revert buf. induction fs as [|f fs IH]; intros buf H.
  - cbn. by rewrite sapp_nil_r.
  - cbn [forallb] in H. bool_prop. cbn [write_frames foldr]. unfold mbind, M_bind.
    rewrite WritePTYFrame_ok by done. unfold write_frames, mbind, M_bind in IH.
    rewrite IH by done. cbn. by rewrite sapp_assoc.
Qed.

Lemma put_uint32_len z : len (put_uint32 z) = 4.
Proof. done. Qed.

Lemma ReadPTYFrame_ok f b rest :
  frame_ok f = true → remaining b = encode_frame f +:+ rest →
  ∃ b', ReadPTYFrame b = (Ok f, b') ∧ remaining b' = rest.
Proof.
  destruct f as [typ p]. unfold frame_ok, encode_frame. cbn [fst snd]. intros Hp Hr.
  bool_prop. pose proof (len_nonneg p) as Hp0. rewrite sapp_assoc in Hr.
  destruct (ReadFull_app b _ _ Hr) as (b1 & Hr1 & Hb1).
  unfold ReadPTYFrame, mbind, M_bind.
  change (len (String typ (put_uint32 (len p)))) with 5 in Hr1. rewrite Hr1.
  unfold put_uint32. unfold maxPTYFrame in *.
  rewrite get_put_uint32 by lia. rewrite (proj2 (Z.ltb_ge _ _)) by done.
  destruct (len p =? 0) eqn:E; bool_prop.
  - rewrite (len_zero_inv _ E) in Hb1. rewrite (len_zero_inv _ E).
    exists b1. by rewrite sapp_nil_l in Hb1.
  - destruct (ReadFull_app b1 _ _ Hb1) as (b2 & Hr2 & Hb2). rewrite Hr2. by exists b2.
Qed.

(** Keystrokes and window sizes written as frames arrive as the same frames, in
    the same order, whatever the chunking; nothing after them is consumed. *)
Theorem pty_frames_roundtrip fs b rest w :
  forallb frame_ok fs = true →
  write_frames fs (mkWriter "" []) = (Ok (), w) →
  remaining b = w_buf w +:+ rest →
  ∃ b', read_frames (length fs) b = (Ok fs, b') ∧ remaining b' = rest.
Proof.
  intros Hok Hw Hr. rewrite write_frames_ok in Hw by done. injection Hw as <-.
  cbn [w_buf] in Hr. rewrite sapp_nil_l in Hr. revert b Hr.
  induction fs as [|f fs IH]; intros b Hr; [by exists b|].
  cbn [forallb fmap list_fmap sconcat length read_frames] in *. bool_prop.
  rewrite sapp_assoc in Hr. destruct (ReadPTYFrame_ok f b _ H Hr) as (b1 & Hr1 & Hb1).
  destruct (IH ltac:(done) b1 Hb1) as (b2 & Hr2 & Hb2).
  exists b2. split; [|done]. unfold mbind, M_bind. by rewrite Hr1, Hr2.
Qed.

Lemma pty_frames_roundtrip_witness :
  ∃ b', read_frames 2 (mkBufReader (stake 3 (encode_frame (PTYData, "ls")))
                         [sdrop 3 (encode_frame (PTYData, "ls"));
                          encode_frame (PTYResize, PTYResizePayload 80 24) +:+ "x"])
        = (Ok [(PTYData, "ls"); (PTYResize, PTYResizePayload 80 24)], b')
        ∧ remaining b' = "x".
Proof.
  eapply (pty_frames_roundtrip [(PTYData, "ls"); (PTYResize, PTYResizePayload 80 24)]);
    reflexivity.
Defined.

(** A peer cannot make the reader allocate more than [maxPTYFrame], and cannot
    be made to by the writer. *)
Theorem ReadPTYFrame_bounded b typ p b' :
  ReadPTYFrame b = (Ok (typ, p), b') → len p ≤ maxPTYFrame.
Proof.
  unfold ReadPTYFrame, mbind, M_bind. destruct (ReadFull 5 b) as [[hdr|e] b1]; [|done].
  destruct hdr as [|t [|a [|x [|c [|d [|? ?]]]]]]; try done.
  destruct (_ <? _) eqn:E1; [done|]. destruct (_ =? 0) eqn:E2.
  - intros [= <- <- <-]. done.
  - bool_prop. destruct (ReadFull _ b1) as [[q|e] b2] eqn:E3; [|done].
    intros [= <- <- <-]. apply ReadFull_length in E3; [lia|].
    unfold get_uint32. pose proof (val_bound a). pose proof (val_bound x).
    pose proof (val_bound c). pose proof (val_bound d). lia.
Qed.

Lemma ReadPTYFrame_bounded_witness : len "ls" ≤ maxPTYFrame.
Proof.
  eapply (ReadPTYFrame_bounded (mkBufReader (encode_frame (PTYData, "ls")) [])).
  vm_compute. reflexivity.
Defined.

Lemma WritePTYFrame_refuses typ p w :
  maxPTYFrame < len p → ∃ e, WritePTYFrame typ p w = (Err e, w).
Proof.
  intros H. unfold WritePTYFrame. rewrite (proj2 (Z.ltb_lt _ _)) by done. by eexists.
Qed.

Lemma PTYSize_roundtrip cols rows :
  0 ≤ cols < 65536 → 0 ≤ rows < 65536 → PTYSize (PTYResizePayload cols rows) = Ok (cols, rows).
Proof.
  intros. unfold PTYResizePayload, put_uint16. rewrite !sapp_cons, sapp_nil_l. cbn.
  by rewrite !get_put_uint16.
Qed.

(** ** Hello and counters *)

Definition hello_ok (h : Hello) : bool :=
  trimmed (AgentID h) && trimmed (Hostname h) && trimmed (OS h) && trimmed (Arch h)
  && trimmed (Version h) && negb (AgentID h =? "")%string && (len (AgentID h) <=? 128).

(** The identity an agent announces is the identity the relay reads. *)
Theorem hello_roundtrip h hdr :
  hello_ok h = true → HelloFromHeaders (SetHeaders h hdr) = Ok h.
Proof.
  unfold hello_ok. intros H. bool_prop.
  rewrite trimmed_spec in *. unfold HelloFromHeaders, SetHeaders, Header_Get.
  simplify_map_eq. cbn. repeat match goal with H : TrimSpace _ = _ |- _ => rewrite H; clear H end.
  rewrite (proj2 (String.eqb_neq _ _)) by done. rewrite (proj2 (Z.ltb_ge _ _)) by done.
  by destruct h.
Qed.

Definition sample_hello : Hello := mkHello "lab-1" "lab" "linux" "amd64" "v0.1.0".

Lemma hello_roundtrip_witness : HelloFromHeaders (SetHeaders sample_hello ∅) = Ok sample_hello.
Proof. apply hello_roundtrip. reflexivity. Defined.

Lemma HelloFromHeaders_ok hdr h :
  HelloFromHeaders hdr = Ok h → AgentID h ≠ "" ∧ len (AgentID h) ≤ 128.
Proof.
  unfold HelloFromHeaders. destruct (_ =? _)%string eqn:E1; [done|].
  destruct (_ <? _) eqn:E2; [done|]. intros [= <-]. cbn in *. by bool_prop.
Qed.

(** Traffic on the tunnel: the two counters are the byte sums, modulo 2^64. *)
Inductive traffic := TRead (n : Z) | TWrite (n : Z).
Definition count_step (c : CountingConn) (t : traffic) : CountingConn :=
  match t with TRead n => CountingConn_Read n c | TWrite n => CountingConn_Write n c end.
Definition bytes_in (t : traffic) : Z := match t with TRead n => n | _ => 0 end.
Definition bytes_out (t : traffic) : Z := match t with TWrite n => n | _ => 0 end.

Theorem CountingConn_counts ts :
  let c := fold_left count_step ts NewCountingConn in
  CountingConn_In c = wrap_uint64 (foldr Z.add 0 (bytes_in <$> ts)) ∧
  CountingConn_Out c = wrap_uint64 (foldr Z.add 0 (bytes_out <$> ts)).
Proof.
  assert (∀ c, let c' := fold_left count_step ts c in
    wrap_uint64 (cc_in c') = wrap_uint64 (cc_in c + foldr Z.add 0 (bytes_in <$> ts)) ∧
    wrap_uint64 (cc_out c') = wrap_uint64 (cc_out c + foldr Z.add 0 (bytes_out <$> ts))) as H.
  { induction ts as [|t ts IH]; intros c; cbn.
    - by rewrite !Z.add_0_r.
    - specialize (IH (count_step c t)). cbn in IH. destruct IH as [IH1 IH2].
      rewrite IH1, IH2. unfold wrap_uint64, wrap_u.
      destruct t; cbn; unfold wrap_uint64, wrap_u; rewrite ?Zplus_mod_idemp_l;
        split; f_equal; lia. }
  assert (∀ ts c, wrap_uint64 (cc_in c) = cc_in c ∧ wrap_uint64 (cc_out c) = cc_out c →
    let c' := fold_left count_step ts c in
    wrap_uint64 (cc_in c') = cc_in c' ∧ wrap_uint64 (cc_out c') = cc_out c') as H2.
  { clear. intros l. induction l as [|t l IH]; intros c Hc; [exact Hc|]. apply IH.
    destruct Hc. destruct t; cbn; unfold wrap_uint64, wrap_u in *; rewrite ?Zmod_mod; auto. }
  cbn zeta. unfold CountingConn_In, CountingConn_Out.
  destruct (H2 ts NewCountingConn) as [Hi Ho]; [done|].
  destruct (H NewCountingConn) as [Hi' Ho']. rewrite <-Hi, <-Ho, Hi', Ho'. done.
Qed.
