(* ===== verification/Assertions.v ===== *)
(** * Signed assertions (internal/protocol/identity.go)

    The statement the relay's Vault signs -- this id belongs to this key until
    then -- and the text form in which it travels: the exact bytes that were
    signed, in base64url, a dot, and the signature. *)

From Stdlib Require Import Ascii.
From S2P Require Import Prelude GoStrings GoNum GoBase64 Interfaces.

Open Scope string_scope.
Open Scope Z_scope.

Definition ChallengePath := "/agent/challenge".
Definition EnrollPath := "/api/agents/enroll".
Definition HeaderAssertion := "X-Beacon-Assertion".
Definition HeaderChallenge := "X-Beacon-Challenge".
Definition HeaderSignature := "X-Beacon-Signature".

Record Assertion := mkAssertion {
  as_AgentID : string;
  as_PublicKey : string;
  as_IssuedAt : Z;
  as_ExpiresAt : Z
}.

#[export] Instance Assertion_eq_dec : EqDecision Assertion.
Proof. solve_decision. Defined.

#[export] Instance Assertion_countable : Countable Assertion.
Proof.
  refine (inj_countable'
    (λ a, (as_AgentID a, as_PublicKey a, as_IssuedAt a, as_ExpiresAt a))
    (λ '(i, k, t, e), mkAssertion i k t e) _).
  by intros [].
Defined.

Record SignedAssertion := mkSignedAssertion {
  sa_Document : string;    (* the exact bytes that were signed *)
  sa_Signature : string    (* vault:vN:base64 *)
}.

Definition SignedAssertion_String (s : SignedAssertion) : string :=
  rawurl_encode (sa_Document s) +:+ "." +:+ sa_Signature s.

Section assertions.
  Context `{JSON Assertion}.

Definition ParseSignedAssertion (v : string) : res (SignedAssertion * Assertion) :=
  match Cut v "." with
  | None => Err (errorf "malformed assertion")
  | Some (doc, sig) =>
      match rawurl_decode doc with
      | None => Err (errorf "malformed assertion body: illegal base64 data")
      | Some raw =>
          match Unmarshal raw with
          | Err e => Err (wrapf "malformed assertion body: " e)
          | Ok a =>
              if (as_AgentID a =? "")%string || (as_PublicKey a =? "")%string
              then Err (errorf "assertion is missing an id or a key")
              else Ok (mkSignedAssertion raw sig, a)
          end
      end
  end.

Definition MarshalAssertion (a : Assertion) : res string := Marshal a.
End assertions.

Definition PublicKeyBytes (a : Assertion) : res string :=
  match std_decode (as_PublicKey a) with
  | None => Err (errorf "illegal base64 data")
  | Some raw =>
      if negb (len raw =? PublicKeySize)
      then Err (errorf ("public key is " +:+ itoa (len raw) +:+ " bytes, want "
                        +:+ itoa PublicKeySize))
      else Ok raw
  end.

(** [now.After(ExpiresAt)]; a zero expiry never expires. *)
Definition Expired (a : Assertion) (now : Z) : bool :=
  negb (IsZero (as_ExpiresAt a)) && (as_ExpiresAt a <? now).

(** ** Round trip *)
Section laws.
  Context `{JSONLaws Assertion wf}.

(** The base64url alphabet has no dot, so the first dot is the separator even
    when the signature holds more of them. *)
Lemma SignedAssertion_cut s :
  Cut (SignedAssertion_String s) "." = Some (rawurl_encode (sa_Document s), sa_Signature s).
Proof.
  unfold SignedAssertion_String, rawurl_encode. change ("." +:+ ?x) with (String (byte 46) x).
  change "." with (String (byte 46) ""). apply Cut_char.
  by apply b64_encode_no_char.
Qed.

Lemma ParseSignedAssertion_String a doc sig :
  wf a → MarshalAssertion a = Ok doc → as_AgentID a ≠ "" → as_PublicKey a ≠ "" →
  ParseSignedAssertion (SignedAssertion_String (mkSignedAssertion doc sig))
  = Ok (mkSignedAssertion doc sig, a).
Proof.
  intros Hwf Hm Hid Hpk. unfold ParseSignedAssertion. rewrite SignedAssertion_cut. cbn.
  rewrite rawurl_decode_encode, (Unmarshal_Marshal a) by done.
  by rewrite (proj2 (String.eqb_neq _ _) Hid), (proj2 (String.eqb_neq _ _) Hpk).
Qed.

(** What parsing accepts: the document is the base64url of the first part, and
    it is the document, not a re-encoding, that the assertion was read from. *)
Lemma ParseSignedAssertion_inv v s a :
  ParseSignedAssertion v = Ok (s, a) →
  Unmarshal (sa_Document s) = Ok a ∧ as_AgentID a ≠ "" ∧ as_PublicKey a ≠ "" ∧
  ∃ doc, Cut v "." = Some (doc, sa_Signature s) ∧ rawurl_decode doc = Some (sa_Document s).
Proof.
  unfold ParseSignedAssertion. destruct (Cut v ".") as [[doc sig]|]; [|done].
  destruct (rawurl_decode doc) as [raw|] eqn:Er; [|done].
  destruct (Unmarshal raw) as [a'|] eqn:Eu; [|done].
  destruct (_ || _) eqn:Eo; [done|]. intros [= <- <-]. cbn. bool_prop.
  split_and!; eauto.
Qed.
End laws.

Lemma PublicKeyBytes_len a raw : PublicKeyBytes a = Ok raw → len raw = PublicKeySize.
Proof.
  unfold PublicKeyBytes. destruct (std_decode _); [|done].
  destruct (negb _) eqn:E; [done|]. intros [= <-]. by bool_prop.
Qed.

Lemma PublicKeyBytes_encode a pub :
  as_PublicKey a = std_encode pub → len pub = PublicKeySize → PublicKeyBytes a = Ok pub.
Proof.
  intros Ha Hl. unfold PublicKeyBytes. rewrite Ha, std_decode_encode, Hl.
  by rewrite Z.eqb_refl.
Qed.

Lemma Expired_false a now : now ≤ as_ExpiresAt a → Expired a now = false.
Proof. unfold Expired. intros. lia. Qed.

Lemma Expired_inv a now :
  Expired a now = false → as_ExpiresAt a ≠ 0 → now ≤ as_ExpiresAt a.
Proof. unfold Expired, IsZero. intros. lia. Qed.

(** C24: A whole signed assertion survives the trip through its text form: the
    document byte for byte, the signature, and the statement itself. *)
Theorem signed_assertion_roundtrip `{JSONLaws Assertion wf} a doc sig :
  wf a → MarshalAssertion a = Ok doc → as_AgentID a ≠ "" → as_PublicKey a ≠ "" →
  ParseSignedAssertion (SignedAssertion_String (mkSignedAssertion doc sig))
  = Ok (mkSignedAssertion doc sig, a).
Proof. apply ParseSignedAssertion_String. Qed.

Definition sample_assertion : Assertion :=
  mkAssertion "lab-1" (std_encode (pad_to 32 "pub")) 100 200.

Lemma signed_assertion_roundtrip_witness :
  let J := ToyJSON.toy_json Assertion in
  ∃ doc, MarshalAssertion sample_assertion = Ok doc ∧
    ParseSignedAssertion (SignedAssertion_String (mkSignedAssertion doc "vault:v1:a.b"))
    = Ok (mkSignedAssertion doc "vault:v1:a.b", sample_assertion).
Proof.
  eexists. split; [reflexivity|].
  eapply (@signed_assertion_roundtrip _ _ (ToyJSON.toy_json_laws Assertion)); done.
Defined.
