(* ===== verification/Challenges.v ===== *)
(** * Connection challenges (server/enroll.go: challenges)

    The nonces handed out and not yet used.  The state is the map of
    [challenges.seen]; the times are what [time.Now] returned at each call. *)

From S2P Require Import Prelude GoStrings GoNum GoBase64 Interfaces.

Open Scope string_scope.
Open Scope Z_scope.

Definition challengeTTL : Z := 2 * Minute.
Definition maxChallenges : Z := 4096.
Definition challengeEntropy : Z := 32.

(** [challenges.seen] *)
Notation challenges := (gmap string Z).
Definition newChallenges : challenges := ∅.

Definition errTooManyChallenges : error :=
  mkError "too many challenges outstanding" [ErrTooManyChallenges].

(** Ages out every entry strictly older than the TTL. *)
Definition expireLocked (now : Z) (seen : challenges) : challenges :=
  filter (λ '(_, v), ¬ v < now - challengeTTL) seen.

(** [rnd] is what [rand.Read] filled the buffer with; [now1] is read by
    [expireLocked], [now2] when the nonce is recorded. *)
Definition issue (rnd : res string) (now1 now2 : Z) : M challenges string := λ seen,
  match rnd with
  | Err e => (Err e, seen)
  | Ok b =>
      let n := rawurl_encode b in
      let seen := expireLocked now1 seen in
      if maxChallenges <=? Z.of_nat (size seen) then (Err errTooManyChallenges, seen)
      else (Ok n, <[n := now2]> seen)
  end.

Definition redeem (n : string) (now : Z) (seen : challenges) : bool * challenges :=
  let seen := expireLocked now seen in
  match seen !! n with
  | None => (false, seen)
  | Some _ => (true, delete n seen)
  end.

(** ** One call at a time *)
Lemma expireLocked_lookup now seen n :
  expireLocked now seen !! n
  = match seen !! n with
    | Some v => if v <? now - challengeTTL then None else Some v
    | None => None
    end.
Proof.
  unfold expireLocked. destruct (seen !! n) as [v|] eqn:E.
  - destruct (v <? _) eqn:Ev; bool_prop.
    + apply map_lookup_filter_None. right. intros v' Hv'. rewrite E in Hv'. injection Hv' as <-. lia.
    + apply map_lookup_filter_Some. split; [done|]. lia.
  - apply map_lookup_filter_None. by left.
Qed.

Lemma expireLocked_size now seen : (size (expireLocked now seen) ≤ size seen)%nat.
Proof. apply map_size_filter. Qed.

Lemma redeem_true n now seen seen' :
  redeem n now seen = (true, seen') →
  (∃ t, seen !! n = Some t ∧ now ≤ t + challengeTTL) ∧ seen' !! n = None.
Proof.
  unfold redeem. destruct (expireLocked now seen !! n) as [t|] eqn:E; [|done].
  intros [= <-]. rewrite expireLocked_lookup in E. split; [|apply lookup_delete_eq].
  destruct (seen !! n) as [v|]; [|done]. destruct (v <? _) eqn:Ev; [done|].
  simplify_eq. exists t. bool_prop. split; [done|lia].
Qed.

Lemma redeem_pending n now seen t :
  seen !! n = Some t → now ≤ t + challengeTTL →
  redeem n now seen = (true, delete n (expireLocked now seen)).
Proof.
  intros Hn Ht. unfold redeem. rewrite expireLocked_lookup, Hn.
  by rewrite (proj2 (Z.ltb_ge _ _)) by lia.
Qed.

Lemma redeem_absent n now seen :
  seen !! n = None → redeem n now seen = (false, expireLocked now seen).
Proof. intros Hn. unfold redeem. by rewrite expireLocked_lookup, Hn. Qed.

(** ** Histories *)

(** A call to the store: what anyone who can reach the two endpoints can do. *)
Inductive call :=
  | CIssue (rnd : res string) (now1 now2 : Z)
  | CRedeem (n : string) (now : Z).

Definition run_call (c : call) (seen : challenges) : challenges :=
  match c with
  | CIssue rnd now1 now2 => snd (issue rnd now1 now2 seen)
  | CRedeem n now => snd (redeem n now seen)
  end.

Definition run_calls (cs : list call) (seen : challenges) : challenges :=
  fold_left (λ st c, run_call c st) cs seen.

(** [time.Now] of the calls never goes past [t]. *)
Definition before_time (t : Z) (c : call) : bool :=
  match c with
  | CIssue _ now1 now2 => (now1 <=? t) && (now2 <=? t)
  | CRedeem _ now => now <=? t
  end.

Definition mints (n : string) (c : call) : bool :=
  match c with
  | CIssue (Ok b) _ _ => String.eqb (rawurl_encode b) n
  | _ => false
  end.
Definition redeems (n : string) (c : call) : bool :=
  match c with CRedeem m _ => String.eqb m n | _ => false end.

Lemma run_call_absent n c seen :
  mints n c = false → seen !! n = None → run_call c seen !! n = None.
Proof.
  intros Hm Hn. destruct c as [[b|e] now1 now2|m now]; cbn in *.
  - unfold issue. destruct (_ <=? _); cbn.
    + by rewrite expireLocked_lookup, Hn.
    + apply String.eqb_neq in Hm. rewrite lookup_insert_ne by done.
      by rewrite expireLocked_lookup, Hn.
  - done.
  - unfold redeem. destruct (expireLocked now seen !! m) eqn:E; cbn.
    + destruct (decide (m = n)) as [->|].
      * apply lookup_delete_eq.
      * rewrite lookup_delete_ne by done. by rewrite expireLocked_lookup, Hn.
    + by rewrite expireLocked_lookup, Hn.
Qed.

Lemma run_calls_absent n cs seen :
  forallb (λ c, negb (mints n c)) cs = true → seen !! n = None →
  run_calls cs seen !! n = None.
Proof.
  revert seen. induction cs as [|c cs IH]; intros seen Hc Hn; [done|].
  cbn [forallb run_calls fold_left] in *. bool_prop.
  apply IH; [done|]. by apply run_call_absent.
Qed.

Lemma run_call_pending n c seen t :
  seen !! n = Some t → mints n c = false → redeems n c = false →
  before_time (t + challengeTTL) c = true → run_call c seen !! n = Some t.
Proof.
  intros Hn Hm Hr Hb.
  assert (∀ now, now ≤ t + challengeTTL → expireLocked now seen !! n = Some t) as He.
  { intros now ?. rewrite expireLocked_lookup, Hn. by rewrite (proj2 (Z.ltb_ge _ _)) by lia. }
  destruct c as [[b|e] now1 now2|m now]; cbn in *; bool_prop.
  - unfold issue. destruct (_ <=? _); cbn; [by apply He|].
    rewrite lookup_insert_ne by done. by apply He.
  - done.
  - unfold redeem.
    destruct (expireLocked now seen !! m); cbn; [|by apply He].
    rewrite lookup_delete_ne by done. by apply He.
Qed.

Lemma run_calls_pending n cs seen t :
  seen !! n = Some t →
  forallb (λ c, negb (mints n c) && negb (redeems n c) && before_time (t + challengeTTL) c) cs
  = true →
  run_calls cs seen !! n = Some t.
Proof.
  revert seen. induction cs as [|c cs IH]; intros seen Hn Hc; [done|].
  cbn [forallb run_calls fold_left] in *. bool_prop.
  apply IH; [|done]. by apply run_call_pending.
Qed.

Lemma run_call_size c seen :
  Z.of_nat (size seen) ≤ maxChallenges → Z.of_nat (size (run_call c seen)) ≤ maxChallenges.
Proof.
  intros Hs. destruct c as [[b|e] now1 now2|m now]; cbn.
  - unfold issue. pose proof (expireLocked_size now1 seen).
    destruct (_ <=? _) eqn:E; cbn; [lia|]. bool_prop.
    rewrite map_size_insert. destruct (_ !! _); cbn; lia.
  - done.
  - unfold redeem. pose proof (expireLocked_size now seen).
    destruct (_ !! _) eqn:E; cbn; [|lia].
    rewrite map_size_delete, E. cbn. lia.
Qed.

(** ** A store that never forgets

    The reference the relay's store is compared with: entries leave it only by
    being redeemed, and their age is looked at when it matters, at a redemption
    and when the outstanding ones are counted. *)
Definition fresh (now issued : Z) : bool := now - challengeTTL <=? issued.

Definition ref_outstanding (now : Z) (st : challenges) : nat :=
  size (filter (λ '(_, v), fresh now v = true) st).

Definition ref_issue (rnd : res string) (now1 now2 : Z) : M challenges string := λ st,
  match rnd with
  | Err e => (Err e, st)
  | Ok b =>
      if maxChallenges <=? Z.of_nat (ref_outstanding now1 st) then (Err errTooManyChallenges, st)
      else (Ok (rawurl_encode b), <[rawurl_encode b := now2]> st)
  end.

Definition ref_redeem (n : string) (now : Z) (st : challenges) : bool * challenges :=
  match st !! n with
  | Some v => if fresh now v then (true, delete n st) else (false, st)
  | None => (false, st)
  end.

(** What a caller is told. *)
Inductive answer :=
  | AIssued (r : res string)
  | ARedeemed (b : bool).

Definition serve_call (c : call) (seen : challenges) : answer * challenges :=
  match c with
  | CIssue rnd now1 now2 => let '(r, st) := issue rnd now1 now2 seen in (AIssued r, st)
  | CRedeem n now => let '(b, st) := redeem n now seen in (ARedeemed b, st)
  end.
Definition ref_serve_call (c : call) (st : challenges) : answer * challenges :=
  match c with
  | CIssue rnd now1 now2 => let '(r, st) := ref_issue rnd now1 now2 st in (AIssued r, st)
  | CRedeem n now => let '(b, st) := ref_redeem n now st in (ARedeemed b, st)
  end.

Fixpoint answers (serve : call → challenges → answer * challenges) (cs : list call)
    (st : challenges) : list answer :=
  match cs with
  | [] => []
  | c :: cs => let '(a, st) := serve c st in a :: answers serve cs st
  end.

(** The clock read by the calls, which the mutex puts in a sequence, does not
    go back. *)
Fixpoint clocked (t : Z) (cs : list call) : bool :=
  match cs with
  | [] => true
  | CIssue _ now1 now2 :: cs => (t <=? now1) && (now1 <=? now2) && clocked now2 cs
  | CRedeem _ now :: cs => (t <=? now) && clocked now cs
  end.

(** ** The store and the reference agree *)

(** From [t] on the two stores hold the same live entries. *)
Definition agree (t : Z) (seen st : challenges) : Prop :=
  ∀ now, t <= now → expireLocked now seen = expireLocked now st.

Lemma ref_outstanding_eq now st : ref_outstanding now st = size (expireLocked now st).
Proof.
  unfold ref_outstanding, expireLocked, fresh. f_equal. apply map_filter_ext.
  intros n v _. rewrite Z.leb_le. lia.
Qed.

Lemma expire_again now now' seen :
  now <= now' → expireLocked now' (expireLocked now seen) = expireLocked now' seen.
Proof.
  intros Hle. apply map_eq. intros n. rewrite !expireLocked_lookup.
  destruct (seen !! n) as [v|]; [|done].
  destruct (v <? now - _) eqn:E; [|done]. bool_prop. by rewrite (proj2 (Z.ltb_lt _ _)) by lia.
Qed.

Lemma expire_insert now n v seen st :
  expireLocked now seen = expireLocked now st →
  expireLocked now (<[n := v]> seen) = expireLocked now (<[n := v]> st).
Proof.
  intros H. apply map_eq. intros m. apply (f_equal (.!! m)) in H.
  rewrite !expireLocked_lookup in *. by destruct (decide (m = n)) as [->|];
    rewrite ?lookup_insert_eq, ?lookup_insert_ne by done.
Qed.

Lemma expire_delete now n seen st :
  expireLocked now seen = expireLocked now st →
  expireLocked now (delete n seen) = expireLocked now (delete n st).
Proof.
  intros H. apply map_eq. intros m. apply (f_equal (.!! m)) in H.
  rewrite !expireLocked_lookup in *. by destruct (decide (m = n)) as [->|];
    rewrite ?lookup_delete_eq, ?lookup_delete_ne by done.
Qed.

Lemma agree_later t t' seen st : t <= t' → agree t seen st → agree t' seen st.
Proof. intros ? H now ?. apply H. lia. Qed.

Lemma agree_expire t now seen st :
  t <= now → agree t seen st → agree now (expireLocked now seen) st.
Proof. intros ? H now' ?. rewrite expire_again by done. apply H. lia. Qed.

Lemma issue_agrees rnd now1 now2 t seen st :
  t <= now1 → now1 <= now2 → agree t seen st →
  fst (issue rnd now1 now2 seen) = fst (ref_issue rnd now1 now2 st) ∧
  agree now2 (snd (issue rnd now1 now2 seen)) (snd (ref_issue rnd now1 now2 st)).
Proof.
  intros Ht Hn Ha. destruct rnd as [b|e]; cbn.
  - rewrite ref_outstanding_eq, <- (Ha now1 Ht).
    pose proof (agree_expire _ _ _ _ Ht Ha) as He.
    destruct (_ <=? _); cbn; (split; [done|]); [by apply (agree_later now1)|].
    intros now ?. apply expire_insert, He. lia.
  - split; [done|]. apply (agree_later t); [lia|done].
Qed.

Lemma redeem_agrees n now t seen st :
  t <= now → agree t seen st →
  fst (redeem n now seen) = fst (ref_redeem n now st) ∧
  agree now (snd (redeem n now seen)) (snd (ref_redeem n now st)).
Proof.
  intros Ht Ha. pose proof (agree_expire _ _ _ _ Ht Ha) as He.
  unfold redeem, ref_redeem. rewrite (Ha now Ht), expireLocked_lookup.
  rewrite (Ha now Ht) in He. unfold fresh.
  destruct (st !! n) as [v|]; [|done].
  rewrite Z.leb_antisym. destruct (v <? _); cbn; [done|].
  split; [done|]. intros now' ?. by apply expire_delete, He.
Qed.

Lemma serve_call_agrees c cs t seen st :
  clocked t (c :: cs) = true → agree t seen st →
  ∃ t', clocked t' cs = true ∧ fst (serve_call c seen) = fst (ref_serve_call c st) ∧
        agree t' (snd (serve_call c seen)) (snd (ref_serve_call c st)).
Proof.
  intros Hc Ha. destruct c as [rnd now1 now2|n now]; cbn [clocked] in Hc; bool_prop;
    cbn [serve_call ref_serve_call].
  - destruct (issue_agrees rnd now1 now2 t seen st) as [Hr Hs]; [lia..|done|].
    exists now2. split; [done|]. destruct (issue _ _ _ _), (ref_issue _ _ _ _); cbn in *. by subst.
  - destruct (redeem_agrees n now t seen st) as [Hr Hs]; [lia|done|].
    exists now. split; [done|]. destruct (redeem _ _ _), (ref_redeem _ _ _); cbn in *. by subst.
Qed.

Lemma answers_agree cs t seen st :
  clocked t cs = true → agree t seen st →
  answers serve_call cs seen = answers ref_serve_call cs st.
Proof.
  revert t seen st. induction cs as [|c cs IH]; intros t seen st Hc Ha; [done|].
  destruct (serve_call_agrees _ _ _ _ _ Hc Ha) as (t' & Hc' & Hf & Hs). cbn [answers].
  destruct (serve_call _ _), (ref_serve_call _ _); cbn in *. subst. f_equal. by apply (IH t').
Qed.

(** ** Theorems *)

(** A nonce is single use: once redeemed it is never accepted again, whatever
    calls follow, unless the relay hands out that very nonce once more. *)
Theorem challenge_single_use n now seen seen' cs now' :
  redeem n now seen = (true, seen') →
  forallb (λ c, negb (mints n c)) cs = true →
  fst (redeem n now' (run_calls cs seen')) = false.
Proof.
  intros Hr Hc. apply redeem_true in Hr as [_ Hn].
  rewrite redeem_absent; [done|]. by apply run_calls_absent.
Qed.

Lemma challenge_single_use_witness :
  fst (redeem "AA" 20 (run_calls [CRedeem "AA" 15; CIssue (Ok "zz") 16 16] ∅)) = false.
Proof.
  eapply (challenge_single_use "AA" 10 {["AA" := 5]}); [|reflexivity].
  vm_compute. reflexivity.
Defined.

(** However many challenges anyone asks for, the store never holds more than
    [maxChallenges]. *)
Theorem challenges_bounded cs :
  Z.of_nat (size (run_calls cs newChallenges)) ≤ maxChallenges.
Proof.
  assert (∀ seen, Z.of_nat (size seen) ≤ maxChallenges →
                  Z.of_nat (size (run_calls cs seen)) ≤ maxChallenges) as H.
  { induction cs as [|c cs IH]; intros seen Hs; [done|]. apply IH. by apply run_call_size. }
  by apply H.
Qed.

(** And a flood cannot push out a nonce an honest agent holds: issued at [t],
    it is redeemable until its TTL, whatever other callers do meanwhile. *)
Theorem challenge_survives_flood rnd now1 t seen n seen' cs now :
  issue rnd now1 t seen = (Ok n, seen') →
  forallb (λ c, negb (mints n c) && negb (redeems n c) && before_time (t + challengeTTL) c) cs
  = true →
  now ≤ t + challengeTTL →
  fst (redeem n now (run_calls cs seen')) = true.
Proof.
  intros Hi Hc Hnow. unfold issue in Hi. destruct rnd as [b|]; [|done].
  destruct (_ <=? _); [done|]. injection Hi as <- <-.
  erewrite redeem_pending; [done| |exact Hnow].
  apply run_calls_pending; [|done]. apply lookup_insert_eq.
Qed.

Lemma challenge_survives_flood_witness :
  fst (redeem (rawurl_encode "me") Minute
         (run_calls [CIssue (Ok "x") 2 3; CRedeem "y" 4; CIssue (Ok "z") 5 5]
            {[rawurl_encode "me" := 1]})) = true.
Proof.
  eapply (challenge_survives_flood (Ok "me") 0 1 ∅); [|reflexivity|vm_compute; discriminate].
  vm_compute. reflexivity.
Defined.

(** A captured nonce is worthless two minutes after it was issued. *)
Theorem challenge_expires n t now seen :
  seen !! n = Some t → t + challengeTTL < now → fst (redeem n now seen) = false.
Proof.
  intros Hn Ht. destruct (redeem n now seen) as [[] seen'] eqn:E; [|done].
  apply redeem_true in E as [(t' & Hn' & ?) _]. simplify_eq. lia.
Qed.

Lemma challenge_expires_witness : fst (redeem "AA" (3 * Minute) {["AA" := 5]}) = false.
Proof.
  eapply (challenge_expires "AA" 5); [reflexivity|vm_compute; reflexivity].
Defined.

(** C25: Ageing the outstanding nonces out lazily, inside the calls, changes no
    answer: for every history of requests with a clock that does not go back,
    the callers are told what a store that keeps every entry for ever and
    judges its age at use would tell them, the limit on outstanding nonces
    included. *)
Theorem lazy_expiry_unobservable cs t :
  clocked t cs = true →
  answers serve_call cs newChallenges = answers ref_serve_call cs newChallenges.
Proof. intros Hc. by apply (answers_agree _ t). Qed.

Lemma lazy_expiry_unobservable_witness :
  let cs := [CIssue (Ok "abc") 5 6; CIssue (Ok "xyz") 7 7; CRedeem "YWJj" 9;
             CRedeem "YWJj" 10; CRedeem "eHl6" (8 + challengeTTL)] in
  answers serve_call cs newChallenges = answers ref_serve_call cs newChallenges
  ∧ answers ref_serve_call cs newChallenges
    = [AIssued (Ok "YWJj"); AIssued (Ok "eHl6"); ARedeemed true; ARedeemed false; ARedeemed false].
Proof.
  split; [|vm_compute; reflexivity].
  apply (lazy_expiry_unobservable _ 0). vm_compute. reflexivity.
Defined.
