(* ===== verification/Events.v ===== *)
(** * The activity feed (server/events.go)

    [EventBus] is the bus under its mutex.  A subscriber is a buffered channel;
    [eb_chans] holds what is queued in each channel, [eb_subs] which of them are
    still subscribed. *)

From S2P Require Import Prelude GoStrings GoNum GoBase64 Interfaces.

Open Scope string_scope.
Open Scope list_scope.
Open Scope Z_scope.

Record Event := mkEvent {
  ev_Type : string;
  ev_AgentID : string;
  ev_Message : string;
  ev_At : Z
}.

Definition eventBacklog : nat := 100.
Definition subBuffer : nat := 64.

Record EventBus := mkEventBus {
  eb_subs : gset Z;
  eb_chans : gmap Z (list Event);
  eb_next : Z;                      (* the next channel [make] returns *)
  eb_backlog : list Event
}.

Definition newEventBus : EventBus := mkEventBus ∅ ∅ 0 [].

(** [e.At = time.Now()] when it is zero. *)
Definition stamp (now : Z) (e : Event) : Event :=
  if IsZero (ev_At e) then mkEvent (ev_Type e) (ev_AgentID e) (ev_Message e) now else e.

(** The non-blocking send of one event to one channel. *)
Definition offer (e : Event) (q : list Event) : list Event :=
  if decide (length q < subBuffer)%nat then q ++ [e] else q.

Definition Publish (now : Z) (e : Event) (b : EventBus) : EventBus :=
  let e := stamp now e in
  let backlog := eb_backlog b ++ [e] in
  let backlog := if decide (eventBacklog < length backlog)%nat
                 then drop (length backlog - eventBacklog) backlog else backlog in
  mkEventBus (eb_subs b)
    (map_imap (λ ch q, Some (if decide (ch ∈ eb_subs b) then offer e q else q)) (eb_chans b))
    (eb_next b) backlog.

(** Returns the history and the new channel. *)
Definition Subscribe (b : EventBus) : (list Event * Z) * EventBus :=
  let ch := eb_next b in
  ((eb_backlog b, ch),
   mkEventBus ({[ch]} ∪ eb_subs b) (<[ch := []]> (eb_chans b)) (ch + 1) (eb_backlog b)).

(** The function [Subscribe] hands back. *)
Definition Unsubscribe (ch : Z) (b : EventBus) : EventBus :=
  mkEventBus (eb_subs b ∖ {[ch]}) (eb_chans b) (eb_next b) (eb_backlog b).

(** [<-ch] when something is queued. *)
Definition Receive (ch : Z) (b : EventBus) : option Event * EventBus :=
  match eb_chans b !! ch with
  | Some (e :: q) => (Some e, mkEventBus (eb_subs b) (<[ch := q]> (eb_chans b)) (eb_next b) (eb_backlog b))
  | _ => (None, b)
  end.

(** ** Histories *)
Inductive feed_step :=
  | FPublish (now : Z) (e : Event)
  | FSubscribe
  | FUnsubscribe (ch : Z)
  | FReceive (ch : Z).

Definition run_feed_step (s : feed_step) (b : EventBus) : EventBus :=
  match s with
  | FPublish now e => Publish now e b
  | FSubscribe => snd (Subscribe b)
  | FUnsubscribe ch => Unsubscribe ch b
  | FReceive ch => snd (Receive ch b)
  end.

Definition run_feed (ss : list feed_step) (b : EventBus) : EventBus :=
  fold_left (λ b s, run_feed_step s b) ss b.

(** The events published along a history, as they were stamped. *)
Fixpoint published (ss : list feed_step) : list Event :=
  match ss with
  | FPublish now e :: ss => stamp now e :: published ss
  | _ :: ss => published ss
  | [] => []
  end.

(** The events taken from channel [ch] along a history. *)
Fixpoint received (ch : Z) (ss : list feed_step) (b : EventBus) : list Event :=
  match ss with
  | [] => []
  | s :: ss =>
      match s with
      | FReceive c => if decide (c = ch) then option_list (fst (Receive c b)) else []
      | _ => []
      end ++ received ch ss (run_feed_step s b)
  end.

Definition queue (ch : Z) (b : EventBus) : list Event := default [] (eb_chans b !! ch).

(** No event reaches [ch] while its buffer is full. *)
Fixpoint keeps_up (ch : Z) (ss : list feed_step) (b : EventBus) : bool :=
  match ss with
  | [] => true
  | s :: ss =>
      match s with FPublish _ _ => bool_decide (length (queue ch b) < subBuffer)%nat | _ => true end
      && keeps_up ch ss (run_feed_step s b)
  end.

(** ** The invariant *)
Definition bus_inv (log : list Event) (b : EventBus) : Prop :=
  eb_backlog b = keep_last eventBacklog log ∧
  map_Forall (λ ch q, (length q ≤ subBuffer)%nat ∧ ch < eb_next b) (eb_chans b) ∧
  eb_subs b ⊆ dom (eb_chans b).

Lemma offer_length e q : (length q ≤ subBuffer → length (offer e q) ≤ subBuffer)%nat.
Proof. unfold offer. case_decide; [|done]. rewrite length_app. cbn. lia. Qed.

Lemma Publish_lookup now e b ch :
  eb_chans (Publish now e b) !! ch
  = (λ q, if decide (ch ∈ eb_subs b) then offer (stamp now e) q else q) <$> eb_chans b !! ch.
Proof. unfold Publish. cbn. rewrite map_lookup_imap. by destruct (eb_chans b !! ch). Qed.

Lemma Publish_backlog now e b log :
  eb_backlog b = keep_last eventBacklog log →
  eb_backlog (Publish now e b) = keep_last eventBacklog (log ++ [stamp now e]).
Proof.
  intros Hb. unfold Publish. cbn. rewrite Hb, <-keep_last_snoc. case_decide; [done|].
  symmetry. apply keep_last_all. lia.
Qed.

Lemma bus_inv_step s b log :
  bus_inv log b → bus_inv (log ++ published [s]) (run_feed_step s b).
Proof.
  intros (Hb & Hq & Hs). destruct s as [now e| |ch|ch]; cbn [published run_feed_step].
  - split_and!; [by apply Publish_backlog| |].
    + intros ch q. rewrite Publish_lookup. intros (q' & Hq' & ->)%fmap_Some.
      apply Hq in Hq' as [? ?]. split; [|done]. case_decide; [by apply offer_length|done].
    + intros ch Hch. apply elem_of_dom. rewrite Publish_lookup. apply fmap_is_Some.
      by apply elem_of_dom, Hs.
  - rewrite app_nil_r. split_and!; [done| |]; cbn.
    + apply map_Forall_insert_2; [cbn; lia|]. eapply map_Forall_impl; [done|].
      cbn. intros ? ? [? ?]. lia.
    + rewrite dom_insert_L. set_solver.
  - rewrite app_nil_r. split_and!; [done..|]. cbn. set_solver.
  - rewrite app_nil_r. unfold Receive. destruct (eb_chans b !! ch) as [[|e q]|] eqn:E; [done| |done].
    split_and!; [done| |]; cbn.
    + apply map_Forall_insert_2; [|done]. apply Hq in E. cbn in E. lia.
    + rewrite dom_insert_L. set_solver.
Qed.

Lemma bus_inv_run ss b log : bus_inv log b → bus_inv (log ++ published ss) (run_feed ss b).
Proof.
  revert b log. induction ss as [|s ss IH]; intros b log Hb.
  - by rewrite app_nil_r.
  - apply (bus_inv_step s) in Hb. apply IH in Hb. unfold run_feed in *. cbn [fold_left].
    rewrite <-app_assoc in Hb. by destruct s.
Qed.

Lemma bus_inv_new : bus_inv [] newEventBus.
Proof. split_and!; [done|apply map_Forall_empty|set_solver]. Qed.

(** ** What one subscriber sees *)

Definition unsubscribes (ch : Z) (s : feed_step) : bool :=
  match s with FUnsubscribe c => bool_decide (c = ch) | _ => false end.

Definition subscribed (ch : Z) (b : EventBus) : Prop :=
  ch ∈ eb_subs b ∧ is_Some (eb_chans b !! ch) ∧ ch < eb_next b.

Lemma subscribed_step ch s b :
  unsubscribes ch s = false → subscribed ch b → subscribed ch (run_feed_step s b).
Proof.
  intros Hu (Hs & Hc & Hn). destruct s as [now e| |c|c]; cbn in *.
  - split_and!; [done| |done]. rewrite Publish_lookup.
    destruct Hc as [q ->]. by eexists.
  - split_and!; cbn; [set_solver| |lia]. apply lookup_insert_is_Some'. by right.
  - bool_prop. split_and!; cbn; [|done..]. set_solver.
  - unfold Receive. destruct (eb_chans b !! c) as [[|e q]|]; [done| |done].
    split_and!; [done| |done]. cbn. apply lookup_insert_is_Some'. by right.
Qed.

Definition taken (ch : Z) (s : feed_step) (b : EventBus) : list Event :=
  match s with
  | FReceive c => if decide (c = ch) then option_list (fst (Receive c b)) else []
  | _ => []
  end.

(** One step of a subscriber: what it takes and what stays queued is what was
    queued before, plus the event published by this step unless it was full. *)
Lemma taken_queue ch s b :
  unsubscribes ch s = false → subscribed ch b →
  taken ch s b ++ queue ch (run_feed_step s b)
  = queue ch b ++
    match s with
    | FPublish now e => if decide (length (queue ch b) < subBuffer)%nat then [stamp now e] else []
    | _ => []
    end.
Proof.
  intros Hu (Hs & [q Hq] & Hn). unfold queue.
  destruct s as [now e| |c|c]; cbn [taken run_feed_step].
  - rewrite Publish_lookup, Hq. cbn. rewrite decide_True by done. unfold offer.
    case_decide; [done|]. by rewrite app_nil_r.
  - cbn. rewrite lookup_insert_ne by lia. by rewrite app_nil_r.
  - by rewrite app_nil_r.
  - rewrite app_nil_r. unfold Receive. case_decide as Hc.
    + subst c. rewrite Hq. destruct q as [|e q]; cbn; [by rewrite Hq|].
      by rewrite lookup_insert_eq.
    + destruct (eb_chans b !! c) as [[|e q']|]; [done| |done]. cbn.
      by rewrite lookup_insert_ne.
Qed.

Lemma received_cons ch s ss b :
  received ch (s :: ss) b = taken ch s b ++ received ch ss (run_feed_step s b).
Proof. done. Qed.

Lemma published_cons s ss : published (s :: ss) = published [s] ++ published ss.
Proof. by destruct s. Qed.

Lemma received_exact ch ss b :
  subscribed ch b → forallb (λ s, negb (unsubscribes ch s)) ss = true →
  keeps_up ch ss b = true →
  received ch ss b ++ queue ch (run_feed ss b) = queue ch b ++ published ss.
Proof.
  revert b. induction ss as [|s ss IH]; intros b Hs Hu Hk.
  - cbn. by rewrite app_nil_r.
  - cbn [forallb keeps_up] in *. bool_prop.
    rewrite received_cons, <-app_assoc. unfold run_feed in *. cbn [fold_left].
    rewrite IH by auto using subscribed_step.
    rewrite app_assoc, taken_queue by done. rewrite <-app_assoc, (published_cons s ss).
    f_equal. f_equal. destruct s; [|done..]. bool_prop. by rewrite decide_True.
Qed.

Lemma received_sublist ch ss b :
  subscribed ch b → forallb (λ s, negb (unsubscribes ch s)) ss = true →
  received ch ss b ++ queue ch (run_feed ss b) `sublist_of` queue ch b ++ published ss.
Proof.
  revert b. induction ss as [|s ss IH]; intros b Hs Hu.
  - cbn. by rewrite app_nil_r.
  - cbn [forallb] in *. bool_prop.
    rewrite received_cons, <-app_assoc. unfold run_feed in *. cbn [fold_left].
    etrans; [apply sublist_app; [reflexivity|apply IH; auto using subscribed_step]|].
    rewrite app_assoc, taken_queue by done. rewrite <-app_assoc, (published_cons s ss).
    apply sublist_app; [done|]. apply sublist_app; [|done].
    destruct s as [now e| |c|c]; cbn; [|done..]. case_decide; [done|]. apply sublist_nil_l.
Qed.

(** ** Theorems *)

(** Memory is bounded whatever the clients do: the backlog is exactly the last
    [eventBacklog] events published, and no subscriber's queue exceeds
    [subBuffer]. *)
Theorem feed_bounded ss :
  let b := run_feed ss newEventBus in
  eb_backlog b = keep_last eventBacklog (published ss) ∧
  (length (eb_backlog b) ≤ eventBacklog)%nat ∧
  ∀ ch, (length (queue ch b) ≤ subBuffer)%nat.
Proof.
  cbn zeta. destruct (bus_inv_run ss _ _ bus_inv_new) as (Hb & Hq & _). cbn in Hb.
  split_and!; [done| |].
  - rewrite Hb, length_keep_last. lia.
  - intros ch. unfold queue. destruct (eb_chans _ !! ch) as [q|] eqn:E; cbn; [|lia].
    by apply Hq in E as [? _].
Qed.

(** A subscriber sees the recent past and then every later event,
    without gap, repeat or reordering, as long as it keeps up; when it does
    not, events are dropped but never reordered or invented. *)
Lemma subscriber_stream past later :
  let b := run_feed past newEventBus in
  let '((history, ch), b1) := Subscribe b in
  forallb (λ s, negb (unsubscribes ch s)) later = true →
  history = keep_last eventBacklog (published past) ∧
  received ch later b1 ++ queue ch (run_feed later b1) `sublist_of` published later ∧
  (keeps_up ch later b1 = true →
   received ch later b1 ++ queue ch (run_feed later b1) = published later).
Proof.
  cbn zeta. destruct (Subscribe _) as [[history ch] b1] eqn:E. unfold Subscribe in E.
  injection E as <- <- <-. intros Hu.
  destruct (bus_inv_run past _ _ bus_inv_new) as (Hb & Hq & Hd). cbn in Hb.
  set (b := run_feed past newEventBus) in *.
  set (b1 := mkEventBus _ _ _ _).
  assert (subscribed (eb_next b) b1) as Hs.
  { split_and!; cbn; [set_solver|rewrite lookup_insert_eq; by eexists|lia]. }
  assert (queue (eb_next b) b1 = []) as Hq0.
  { unfold queue. cbn. by rewrite lookup_insert_eq. }
  split_and!; [done| |].
  - pose proof (received_sublist _ later b1 Hs Hu) as H. by rewrite Hq0 in H.
  - intros Hk. by rewrite received_exact, Hq0.
Qed.
