(* ===== verification/Feed.v ===== *)
(** * The activity feed in a browser (server/http.go: handleEvents, writeSSE)

    One handler per subscribed browser.  It runs beside every other user of the
    bus, so its run is a sequence of steps: its own wake-ups, and the steps of
    the others in between ([WOther]). *)

From S2P Require Import Prelude GoStrings GoNum GoBase64 Interfaces Wire Events.

Open Scope string_scope.
Open Scope list_scope.
Open Scope Z_scope.

Section sse.
  Context `{JSON Event}.

Definition sse_frame (payload : string) : string := "data: " +:+ payload +:+ nl +:+ nl.
Definition keepalive : string := ": keepalive" +:+ nl +:+ nl.

Definition writeSSE (e : Event) (w : Writer) : res () * Writer :=
  match Marshal e with
  | Err x => (Err x, w)
  | Ok payload => write (sse_frame payload) w
  end.

(** What the [select] of the loop wakes up for, and what the rest of the relay
    does between two wake-ups. *)
Inductive wake :=
  | WDone                          (* the browser left *)
  | WRecv                          (* an event is taken from the channel *)
  | WKeepalive
  | WOther (s : feed_step).

(** The history: [true] when the whole of it was written. *)
Fixpoint sse_history (history : list Event) (w : Writer) : bool * Writer :=
  match history with
  | [] => (true, w)
  | e :: history =>
      match writeSSE e w with
      | (Err _, w) => (false, w)
      | (Ok _, w) => sse_history history w
      end
  end.

(** The result of one [rc.Flush()], out of those to come. *)
Definition flush (flushes : list (res ())) : res () * list (res ()) :=
  match flushes with [] => (Ok (), []) | r :: flushes => (r, flushes) end.

(** The loop; a [WRecv] on an empty channel is a wake-up that does not happen. *)
Fixpoint sse_loop (ch : Z) (ws : list wake) (flushes : list (res ())) (w : Writer) (b : EventBus)
    : Writer * EventBus :=
  match ws with
  | [] | WDone :: _ => (w, b)
  | WOther s :: ws => sse_loop ch ws flushes w (run_feed_step s b)
  | WRecv :: ws =>
      match Receive ch b with
      | (None, b) => sse_loop ch ws flushes w b
      | (Some e, b) =>
          match writeSSE e w with
          | (Err _, w) => (w, b)
          | (Ok _, w) =>
              match flush flushes with
              | (Err _, _) => (w, b)
              | (Ok _, flushes) => sse_loop ch ws flushes w b
              end
          end
      end
  | WKeepalive :: ws =>
      match write keepalive w with
      | (Err _, w) => (w, b)
      | (Ok _, w) =>
          match flush flushes with
          | (Err _, _) => (w, b)
          | (Ok _, flushes) => sse_loop ch ws flushes w b
          end
      end
  end.

Definition handleEvents (ws : list wake) (flushes : list (res ())) (w : Writer) (b : EventBus)
    : Writer * EventBus :=
  let '((history, ch), b) := Subscribe b in
  let '(w, b) :=
    match sse_history history w with
    | (false, w) => (w, b)
    | (true, w) =>
        match flush flushes with
        | (Err _, _) => (w, b)
        | (Ok _, flushes) => sse_loop ch ws flushes w b
        end
    end in
  (w, Unsubscribe ch b).                           (* deferred *)

(** ** What arrives *)

(** A piece of the stream, and the event it carries. *)
Inductive piece := PKeepalive | PEvent (e : Event) (payload : string).
Definition render (p : piece) : string :=
  match p with PKeepalive => keepalive | PEvent _ payload => sse_frame payload end.
Definition carried (p : piece) : option Event :=
  match p with PKeepalive => None | PEvent e _ => Some e end.
Definition sound (p : piece) : Prop :=
  match p with PKeepalive => True | PEvent e payload => Marshal e = Ok payload end.

(** The stream [out] carries the events [es], in order, and keepalives. *)
Definition carries (out : string) (es : list Event) : Prop :=
  ∃ ps, out = sconcat (render <$> ps) ∧ omap carried ps = es ∧ Forall sound ps.

Lemma carries_nil : carries "" [].
Proof. by exists []. Qed.

Lemma carries_snoc out es p :
  carries out es → sound p → carries (out +:+ render p) (es ++ option_list (carried p)).
Proof.
  intros (ps & -> & <- & Hs) Hp. exists (ps ++ [p]). split_and!.
  - rewrite fmap_app, sconcat_app. cbn. by rewrite sapp_nil_r.
  - rewrite omap_app. cbn. by destruct (carried p).
  - apply Forall_app. by split; [|constructor].
Qed.

Fixpoint others (ws : list wake) : list feed_step :=
  match ws with
  | [] => []
  | WOther s :: ws => s :: others ws
  | _ :: ws => others ws
  end.

(** The steps the bus goes through while the handler serves [ws]. *)
Fixpoint bus_steps (ch : Z) (ws : list wake) : list feed_step :=
  match ws with
  | [] => []
  | WOther s :: ws => s :: bus_steps ch ws
  | WRecv :: ws => FReceive ch :: bus_steps ch ws
  | _ :: ws => bus_steps ch ws
  end.

(** The channel is the handler's own: nobody else reads or closes it. *)
Definition own (ch : Z) (w : wake) : bool :=
  match w with
  | WDone => false
  | WOther (FReceive c) | WOther (FUnsubscribe c) => negb (bool_decide (c = ch))
  | _ => true
  end.

Lemma published_bus_steps ch ws : published (bus_steps ch ws) = published (others ws).
Proof. induction ws as [|[| | |[]] ws IH]; cbn; by rewrite ?IH. Qed.

Lemma writeSSE_ok e out :
  (∃ payload, Marshal e = Ok payload) →
  ∃ p, writeSSE e (mkWriter out []) = (Ok (), mkWriter (out +:+ render p) []) ∧
       carried p = Some e ∧ sound p.
Proof.
  intros [payload Hm]. exists (PEvent e payload). unfold writeSSE. by rewrite Hm.
Qed.

Context (Hrender : ∀ e : Event, ∃ payload, Marshal e = Ok payload).

Lemma sse_history_ok history out es :
  carries out es →
  ∃ out', sse_history history (mkWriter out []) = (true, mkWriter out' []) ∧
          carries out' (es ++ history).
Proof.
  revert out es. induction history as [|e history IH]; intros out es Hc.
  - exists out. by rewrite app_nil_r.
  - cbn. destruct (writeSSE_ok e out (Hrender e)) as (p & -> & He & Hp).
    pose proof (carries_snoc out es p Hc Hp) as Hc'. rewrite He in Hc'.
    destruct (IH _ _ Hc') as (out' & Hr & Ho). exists out'. split; [done|].
    by rewrite <-app_assoc in Ho.
Qed.

Lemma sse_loop_ok ch ws out es b :
  forallb (own ch) ws = true → carries out es →
  ∃ out', sse_loop ch ws [] (mkWriter out []) b
          = (mkWriter out' [], run_feed (bus_steps ch ws) b) ∧
          carries out' (es ++ received ch (bus_steps ch ws) b).
Proof.
  revert out es b. induction ws as [|w ws IH]; intros out es b Hd Hc.
  - exists out. cbn. by rewrite app_nil_r.
  - cbn [forallb] in Hd. bool_prop. destruct w as [| | |s]; [done|..].
    + cbn [sse_loop bus_steps received]. rewrite decide_True by done.
      unfold run_feed. cbn [fold_left run_feed_step].
      destruct (Receive ch b) as [[e|] b'] eqn:E; cbn [fst snd option_list].
      * destruct (writeSSE_ok e out (Hrender e)) as (p & -> & He & Hp). cbn [flush].
        pose proof (carries_snoc out es p Hc Hp) as Hc'. rewrite He in Hc'.
        destruct (IH _ _ b' H1 Hc') as (out' & -> & Ho). exists out'. split; [done|].
        by rewrite <-app_assoc in Ho.
      * destruct (IH _ _ b' H1 Hc) as (out' & -> & Ho). by exists out'.
    + cbn. pose proof (carries_snoc out es PKeepalive Hc I) as Hc'. cbn in Hc'.
      rewrite app_nil_r in Hc'. apply (IH _ _ b H1 Hc').
    + cbn [sse_loop bus_steps].
      rewrite received_cons.
      assert (taken ch s b = []) as -> by (destruct s as [| |c|c]; [done..|]; cbn in *; bool_prop; by rewrite decide_False).
      destruct (IH out es (run_feed_step s b)) as (out' & -> & Ho); [done..|]. by exists out'.
Qed.

(** C21: A browser gets the last [eventBacklog] events and then every event
    published while it listens, in order and without gap or repeat, whatever
    the other users of the bus do in between, as long as its buffer does not
    fill; when it does, events are lost but never reordered or invented.  What
    it leaves behind is the bus without its channel. *)
Theorem browser_sees_feed past ws :
  let b := run_feed past newEventBus in
  let '((_, ch), b1) := Subscribe b in
  forallb (own ch) ws = true →
  ∃ out seen,
    handleEvents ws [] (mkWriter "" []) b
    = (mkWriter out [], Unsubscribe ch (run_feed (bus_steps ch ws) b1)) ∧
    carries out (keep_last eventBacklog (published past) ++ seen) ∧
    seen `sublist_of` published (others ws) ∧
    (keeps_up ch (bus_steps ch ws) b1 = true → seen `prefix_of` published (others ws)).
Proof.
  cbn zeta. pose proof (subscriber_stream past (bus_steps (eb_next (run_feed past newEventBus)) ws)) as Hs.
  unfold handleEvents. cbn zeta in Hs. destruct (Subscribe _) as [[history ch] b1] eqn:E.
  assert (ch = eb_next (run_feed past newEventBus)) as Hch by (unfold Subscribe in E; by injection E).
  rewrite <-Hch in Hs. intros Hown. destruct Hs as (-> & Hsub & Hexact).
  { clear -Hown. induction ws as [|w ws IH]; [done|]. cbn [forallb] in Hown. bool_prop.
    specialize (IH H0). destruct w as [| | |[]]; cbn in *; bool_prop; try done.
    by rewrite bool_decide_false. }
  rewrite published_bus_steps in Hsub, Hexact.
  destruct (sse_history_ok (keep_last eventBacklog (published past)) "" [] carries_nil) as (out & -> & Ho).
  cbn [flush]. destruct (sse_loop_ok ch ws out _ b1 Hown Ho) as (out' & -> & Ho').
  exists out', (received ch (bus_steps ch ws) b1). split_and!; [done|done| |].
  - etrans; [|exact Hsub]. by apply sublist_inserts_r.
  - intros Hk. eexists. symmetry. by apply Hexact.
Qed.
End sse.

#[export] Instance Event_eq_dec : EqDecision Event.
Proof. solve_decision. Defined.
#[export] Instance Event_countable : Countable Event.
Proof.
  refine (inj_countable' (λ e, (ev_Type e, ev_AgentID e, ev_Message e, ev_At e))
                         (λ '(a, b, c, d), mkEvent a b c d) _).
  by intros [].
Defined.

Lemma browser_sees_feed_witness :
  let e m := mkEvent "warn" "lab" m 1 in
  let ws := [WOther (FPublish 2 (e "b")); WRecv; WKeepalive; WOther (FPublish 3 (e "c"))] in
  ∃ out seen,
    handleEvents (H := ToyJSON.toy_json Event) ws [] (mkWriter "" []) (run_feed [FPublish 1 (e "a")] newEventBus)
    = (mkWriter out [], Unsubscribe 0 (run_feed (bus_steps 0 ws)
         (snd (Subscribe (run_feed [FPublish 1 (e "a")] newEventBus))))) ∧
    carries (H := ToyJSON.toy_json Event) out ([e "a"] ++ seen) ∧ seen `prefix_of` [e "b"; e "c"].
Proof.
  intros e ws.
  destruct (browser_sees_feed (H := ToyJSON.toy_json Event) (λ e, ex_intro _ _ eq_refl)
              [FPublish 1 (e "a")] ws eq_refl) as (out & seen & Hrun & Hc & _ & Hp).
  exists out, seen. split; [exact Hrun|]. split; [exact Hc|]. apply Hp. vm_compute. reflexivity.
Defined.
