(* ===== verification/Registry.v ===== *)
(** * The agent registry (server/registry.go)

    One record per agent id ever seen.  A yamux session is known here by its
    identity only (a pointer in the code, an integer here); what it reports
    ([NumStreams]) and what the connection counters hold are read through the
    arguments [streams] and [conns]. *)

From stdpp Require Import sorting.
From S2P Require Import Prelude GoStrings GoNum GoBase64 Interfaces Wire.

Open Scope string_scope.
Open Scope list_scope.
Open Scope Z_scope.

Inductive Transport := TransportTLS | TransportProxyTLS | TransportPlain.

#[export] Instance Transport_eq_dec : EqDecision Transport.
Proof. solve_decision. Defined.

(** [string(t)] *)
Definition Transport_string (t : Transport) : string :=
  match t with
  | TransportTLS => "tls"
  | TransportProxyTLS => "proxy-tls"
  | TransportPlain => "plain"
  end.

Record agentRec := mkAgentRec {
  ar_hello : Hello;
  ar_remoteAddr : string;
  ar_session : option Z;
  ar_conn : Z;
  ar_transport : Transport;
  ar_transportDetail : string;
  ar_online : bool;
  ar_since : Z;
  ar_reconnects : Z;
  ar_rttNanos : Z
}.

Record AgentView := mkAgentView {
  av_ID : string;
  av_Hostname : string;
  av_OS : string;
  av_Arch : string;
  av_Version : string;
  av_RemoteAddr : string;
  av_Online : bool;
  av_Since : Z;
  av_SinceNanos : Z;       (* shown as seconds *)
  av_Reconnects : Z;
  av_Streams : Z;
  av_Transport : string;
  av_TransportDetail : string;
  av_BytesIn : Z;
  av_BytesOut : Z;
  av_RTTNanos : option Z   (* shown as milliseconds; [None] is JSON null *)
}.

Notation Registry := (gmap string agentRec).
Definition newRegistry : Registry := ∅.

(** Returns whether this is a reconnection and the session handed to
    [stale.Close], besides the updated registry. *)
Definition Connect (h : Hello) (remoteAddr : string) (sess conn : Z) (transport : Transport)
    (transportDetail : string) (now : Z) (agents : Registry) : (bool * option Z) * Registry :=
  let '(reconnects, reconnect, stale) :=
    match agents !! AgentID h with
    | Some rec => (ar_reconnects rec + 1, true, ar_session rec)
    | None => (0, false, None)
    end in
  let rec := mkAgentRec h remoteAddr (Some sess) conn transport transportDetail true now
                        reconnects (-1) in
  ((reconnect, stale), <[AgentID h := rec]> agents).

Definition Disconnect (id : string) (sess : Z) (now : Z) (agents : Registry) : bool * Registry :=
  match agents !! id with
  | None => (false, agents)
  | Some rec =>
      if negb (bool_decide (ar_session rec = Some sess)) || negb (ar_online rec)
      then (false, agents)
      else (true,
            <[id := mkAgentRec (ar_hello rec) (ar_remoteAddr rec) (ar_session rec) (ar_conn rec)
                      (ar_transport rec) (ar_transportDetail rec) false now
                      (ar_reconnects rec) (-1)]> agents)
  end.

Definition Session (id : string) (agents : Registry) : option Z :=
  match agents !! id with
  | None => None
  | Some rec => if negb (ar_online rec) then None else ar_session rec
  end.

(** [rec.rttNanos.Store(int64(rtt))], the one write of [pingLoop]. *)
Definition StoreRTT (id : string) (rtt : Z) (agents : Registry) : Registry :=
  alter (λ rec, mkAgentRec (ar_hello rec) (ar_remoteAddr rec) (ar_session rec) (ar_conn rec)
                  (ar_transport rec) (ar_transportDetail rec) (ar_online rec) (ar_since rec)
                  (ar_reconnects rec) rtt) id agents.

Section views.
  Context (streams : Z → Z) (conns : Z → CountingConn).

Definition agent_view (now : Z) (id : string) (rec : agentRec) : AgentView :=
  let h := ar_hello rec in
  let base := mkAgentView id (Hostname h) (OS h) (Arch h) (Version h) (ar_remoteAddr rec)
    (ar_online rec) (ar_since rec) (now - ar_since rec) (ar_reconnects rec) 0 "" "" 0 0 None in
  if ar_online rec
  then mkAgentView id (Hostname h) (OS h) (Arch h) (Version h) (ar_remoteAddr rec)
    (ar_online rec) (ar_since rec) (now - ar_since rec) (ar_reconnects rec)
    (from_option streams 0 (ar_session rec))
    (Transport_string (ar_transport rec)) (ar_transportDetail rec)
    (CountingConn_In (conns (ar_conn rec))) (CountingConn_Out (conns (ar_conn rec)))
    (if 0 <=? ar_rttNanos rec then Some (ar_rttNanos rec) else None)
  else base.

Definition view_le (v w : AgentView) : Prop := String.le (av_ID v) (av_ID w).
#[export] Instance view_le_dec v w : Decision (view_le v w).
Proof. unfold view_le. apply _. Defined.
#[export] Instance view_le_total : Total view_le.
Proof. intros v w. unfold view_le. apply (total String.le). Qed.
#[export] Instance view_le_trans : Transitive view_le.
Proof. intros u v w. unfold view_le. apply transitivity. Qed.

(** [order] is the order in which Go's map iteration produced the entries. *)
Definition Snapshot (now : Z) (order : list (string * agentRec)) : list AgentView :=
  merge_sort view_le ((λ '(id, rec), agent_view now id rec) <$> order).
End views.

Definition Counts (agents : Registry) : Z * Z :=
  map_fold (λ _ rec '(online, total), (if ar_online rec then online + 1 else online, total + 1))
           (0, 0) agents.

(** ** Histories of the sessions of a fleet *)
Inductive session_step :=
  | SConnect (h : Hello) (remoteAddr : string) (sess conn : Z) (tr : Transport) (detail : string) (now : Z)
  | SDisconnect (id : string) (sess : Z) (now : Z)
  | SRTT (id : string) (rtt : Z).

Definition run_session_step (s : session_step) (agents : Registry) : Registry :=
  match s with
  | SConnect h addr sess conn tr detail now => snd (Connect h addr sess conn tr detail now agents)
  | SDisconnect id sess now => snd (Disconnect id sess now agents)
  | SRTT id rtt => StoreRTT id rtt agents
  end.

Definition run_sessions (ss : list session_step) (agents : Registry) : Registry :=
  fold_left (λ a s, run_session_step s a) ss agents.

Definition connects (id : string) (s : session_step) : bool :=
  match s with SConnect h _ _ _ _ _ _ => String.eqb (AgentID h) id | _ => false end.
Definition drops (id : string) (sess : Z) (s : session_step) : bool :=
  match s with SDisconnect i x _ => String.eqb i id && (x =? sess) | _ => false end.

(** Every record of a reachable registry holds a session. *)
Definition registry_inv (agents : Registry) : Prop :=
  map_Forall (λ id rec, AgentID (ar_hello rec) = id ∧ is_Some (ar_session rec)) agents.

Lemma registry_inv_step s agents :
  registry_inv agents → registry_inv (run_session_step s agents).
Proof.
  intros Hi. destruct s as [h addr sess conn tr det now|id sess now|id rtt]; cbn.
  - unfold Connect. destruct (agents !! AgentID h) as [rec|]; cbn;
      (apply map_Forall_insert_2; [by eauto|done]).
  - unfold Disconnect. destruct (agents !! id) as [rec|] eqn:E; [|done].
    destruct (_ || _); [done|]. apply map_Forall_insert_2; [|done]. by apply (Hi id rec).
  - intros i rec. unfold StoreRTT. intros Hr. apply lookup_alter_Some in Hr.
    destruct Hr as [(<- & rec' & Hr & ->)|[_ Hr]]; cbn; by apply Hi in Hr.
Qed.

(** Who is reachable, one step at a time. *)
Lemma Session_step s agents id :
  registry_inv agents →
  Session id (run_session_step s agents) =
  match s with
  | SConnect h _ sess _ _ _ _ => if String.eqb (AgentID h) id then Some sess else Session id agents
  | SDisconnect i sess _ =>
      if String.eqb i id && bool_decide (Session id agents = Some sess) then None
      else Session id agents
  | SRTT _ _ => Session id agents
  end.
Proof.
  intros Hi. unfold Session at 1.
  destruct s as [h addr sess conn tr det now|i sess now|i rtt]; cbn [run_session_step].
  - unfold Connect. destruct (String.eqb_spec (AgentID h) id) as [->|Hne];
      destruct (agents !! _) as [rec|] eqn:E; cbn;
      rewrite ?lookup_insert_eq, ?lookup_insert_ne by done; done.
  - unfold Disconnect. destruct (agents !! i) as [rec|] eqn:E; cbn.
    2: { destruct (String.eqb_spec i id) as [->|]; [|done]. unfold Session. by rewrite E. }
    destruct (String.eqb_spec i id) as [->|Hne]; cbn.
    + unfold Session. rewrite E.
      destruct (ar_online rec) eqn:Eo; cbn; rewrite ?orb_true_r.
      * case_bool_decide; cbn; [by rewrite lookup_insert_eq|]. by rewrite E, Eo.
      * cbn. by rewrite E, Eo.
    + destruct (_ || _); cbn; [done|]. by rewrite lookup_insert_ne.
  - unfold StoreRTT, Session. destruct (decide (i = id)) as [->|].
    + rewrite lookup_alter_eq. by destruct (agents !! id) as [rec|].
    + by rewrite lookup_alter_ne.
Qed.

Lemma registry_inv_run ss agents : registry_inv agents → registry_inv (run_sessions ss agents).
Proof.
  revert agents. induction ss as [|s ss IH]; intros agents H; [done|].
  apply IH. by apply registry_inv_step.
Qed.

Lemma run_sessions_snoc ss s agents :
  run_sessions (ss ++ [s]) agents = run_session_step s (run_sessions ss agents).
Proof. unfold run_sessions. by rewrite fold_left_app. Qed.

(** Sessions are never reused: a pointer that has been handed to [Connect] is
    not handed to it again. *)
Definition sess_of (s : session_step) : option Z :=
  match s with SConnect _ _ sess _ _ _ _ => Some sess | _ => None end.
Definition sess_ids (ss : list session_step) : list Z := omap sess_of ss.

(** The declarative account: [sess] is the session of the last connection of
    [id], and it has not been reported dead since. *)
Definition current_session (id : string) (ss : list session_step) (sess : Z) : Prop :=
  ∃ pre h addr conn tr det now post,
    ss = pre ++ SConnect h addr sess conn tr det now :: post ∧ AgentID h = id ∧
    forallb (λ s, negb (connects id s)) post = true ∧
    forallb (λ s, negb (drops id sess s)) post = true.

Lemma current_session_snoc id ss s sess :
  connects id s = false →
  current_session id (ss ++ [s]) sess ↔ current_session id ss sess ∧ drops id sess s = false.
Proof.
  intros Hc. split.
  - intros (pre & h & addr & conn & tr & det & now & post & Heq & Hid & H1 & H2).
    destruct post as [|x post _] using rev_ind.
    + apply app_inj_tail in Heq as [_ ->]. cbn in Hc. rewrite Hid, String.eqb_refl in Hc. done.
    + rewrite app_comm_cons, app_assoc in Heq. apply app_inj_tail in Heq as [-> ->].
      rewrite !forallb_app in *. cbn in *. rewrite !andb_true_r in *. bool_prop.
      split; [|done]. eexists _, _, _, _, _, _, _, _. done.
  - intros [(pre & h & addr & conn & tr & det & now & post & -> & Hid & H1 & H2) Hd].
    eexists pre, h, addr, conn, tr, det, now, (post ++ [s]).
    rewrite app_comm_cons, app_assoc, !forallb_app, H1, H2. cbn. by rewrite Hc, Hd.
Qed.

Lemma current_session_connect id ss h addr sess' conn tr det now sess :
  AgentID h = id →
  current_session id (ss ++ [SConnect h addr sess' conn tr det now]) sess ↔ sess = sess'.
Proof.
  intros Hid. split.
  - intros (pre & h' & addr' & conn' & tr' & det' & now' & post & Heq & _ & H1 & _).
    destruct post as [|x post _] using rev_ind.
    + apply app_inj_tail in Heq as [_ Heq]. congruence.
    + rewrite app_comm_cons, app_assoc in Heq. apply app_inj_tail in Heq as [_ <-].
      rewrite forallb_app in H1. cbn in H1. rewrite Hid, String.eqb_refl in H1.
      by rewrite andb_false_r in H1.
  - intros ->. eexists ss, h, addr, conn, tr, det, now, []. done.
Qed.

(** ** Theorems *)

(** C16: Last connection wins, in every interleaving of connections, disconnections
    and measurements: an agent is reachable through a session exactly when that
    session is the agent's latest and has not ended; in particular the late
    close of a superseded session changes nothing. *)
Theorem last_connection_wins ss id sess :
  Session id (run_sessions ss newRegistry) = Some sess ↔ current_session id ss sess.
Proof.
  induction ss as [|s ss IH] using rev_ind.
  - split; [done|]. intros (pre & ? & ? & ? & ? & ? & ? & ? & Heq & _).
    by destruct pre.
  - rewrite run_sessions_snoc, Session_step by (apply registry_inv_run; apply map_Forall_empty).
    destruct s as [h addr x conn tr det now|i x now|i rtt].
    + destruct (String.eqb_spec (AgentID h) id) as [Hid|Hne].
      * rewrite current_session_connect by done. naive_solver.
      * rewrite current_session_snoc, IH by (cbn; by apply String.eqb_neq). naive_solver.
    + rewrite current_session_snoc by done. cbn [drops]. rewrite <-IH.
      destruct (String.eqb i id); cbn; [|naive_solver].
      case_bool_decide as Hs.
      2: { destruct (Z.eqb_spec x sess) as [->|]; naive_solver. }
      rewrite Hs. split; [done|]. intros [[= ->] ?]. lia.
    + rewrite current_session_snoc, IH by done. naive_solver.
Qed.

(** A session that is not current is told so, and the registry is untouched. *)
Lemma stale_disconnect_noop id sess now agents :
  Session id agents ≠ Some sess → Disconnect id sess now agents = (false, agents).
Proof.
  unfold Session, Disconnect. destruct (agents !! id) as [rec|]; [|done].
  destruct (ar_online rec); cbn; rewrite ?orb_true_r; [|done]. intros H.
  by rewrite bool_decide_false.
Qed.

(** The reconnection count of an agent is the number of its connections but the
    first; measurements and disconnections leave it alone. *)
Definition nconnects (id : string) (ss : list session_step) : Z :=
  llen (filter (λ s, connects id s = true) ss).

Lemma reconnects_count ss id :
  match run_sessions ss newRegistry !! id with
  | Some rec => ar_reconnects rec + 1 = nconnects id ss
  | None => nconnects id ss = 0
  end.
Proof.
  unfold nconnects. induction ss as [|s ss IH] using rev_ind; [done|].
  rewrite run_sessions_snoc, filter_app. unfold llen in *. rewrite length_app, filter_cons.
  destruct s as [h addr x conn tr det now|i x now|i rtt]; cbn [run_session_step connects].
  - unfold Connect. destruct (String.eqb_spec (AgentID h) id) as [<-|Hne].
    + rewrite decide_True by done. cbn.
      destruct (_ !! AgentID h); cbn; rewrite lookup_insert_eq; cbn; lia.
    + rewrite decide_False by done. cbn. rewrite Nat.add_0_r.
      destruct (run_sessions ss newRegistry !! AgentID h); cbn; by rewrite lookup_insert_ne.
  - rewrite decide_False by done. cbn. rewrite Nat.add_0_r. unfold Disconnect.
    destruct (run_sessions ss newRegistry !! i) as [rec|] eqn:E; cbn; [|done].
    destruct (_ || _); cbn; [done|]. destruct (decide (i = id)) as [->|].
    + by rewrite lookup_insert_eq; rewrite E in IH.
    + by rewrite lookup_insert_ne.
  - rewrite decide_False by done. cbn. rewrite Nat.add_0_r. unfold StoreRTT.
    destruct (decide (i = id)) as [->|].
    + rewrite lookup_alter_eq. by destruct (_ !! id).
    + by rewrite lookup_alter_ne.
Qed.

(** The dashboard's list: one row per agent, ordered by id, independent of the
    map's iteration order; a row that is offline shows no transport, no
    streams, no traffic and no round-trip time. *)
Theorem Snapshot_spec streams conns now agents order order' :
  order ≡ₚ map_to_list agents → order' ≡ₚ map_to_list agents →
  let vs := Snapshot streams conns now order in
  vs = Snapshot streams conns now order' ∧
  StronglySorted view_le vs ∧
  vs ≡ₚ (λ '(id, rec), agent_view streams conns now id rec) <$> map_to_list agents ∧
  Forall (λ v, av_Online v = false →
    av_Transport v = "" ∧ av_Streams v = 0 ∧ av_BytesIn v = 0 ∧ av_BytesOut v = 0
    ∧ av_RTTNanos v = None) vs.
Proof.
  intros Ho Ho'. cbn zeta. unfold Snapshot.
  set (f := λ '(id, rec), agent_view streams conns now id rec).
  assert (∀ id rec, av_ID (agent_view streams conns now id rec) = id) as Hid.
  { intros id rec. unfold agent_view. by destruct (ar_online rec). }
  assert (∀ o, o ≡ₚ map_to_list agents → merge_sort view_le (f <$> o) ≡ₚ f <$> map_to_list agents)
    as Hp by (intros o Heq; by rewrite merge_sort_Permutation, Heq).
  split_and!.
  - apply (StronglySorted_unique_strong view_le); [|apply (StronglySorted_merge_sort _)..|].
    + intros v w Hv Hw Hvw Hwv. rewrite Hp in Hv, Hw by done.
      apply list_elem_of_fmap in Hv as ([i r] & -> & Hi), Hw as ([j q] & -> & Hj).
      unfold view_le, f in *. rewrite !Hid in *.
      assert (i = j) as -> by (by apply (anti_symm String.le)).
      apply elem_of_map_to_list in Hi, Hj. by simplify_map_eq.
    + by rewrite !Hp.
  - apply StronglySorted_merge_sort; apply _.
  - by apply Hp.
  - rewrite Hp by done. apply Forall_fmap, Forall_forall. intros [id rec] _. cbn. unfold agent_view.
    by destruct (ar_online rec).
Qed.

Definition sample_fleet : Registry :=
  run_sessions
    [SConnect (mkHello "lab-2" "two" "linux" "arm64" "v1") "10.0.0.2:5" 1 1 TransportTLS "t" 10;
     SConnect (mkHello "lab-1" "one" "windows" "amd64" "v1") "10.0.0.1:5" 2 2 TransportPlain "" 20;
     SDisconnect "lab-2" 1 30] newRegistry.

Lemma Snapshot_spec_witness :
  let conns := λ _, mkCountingConn 7 9 in
  Snapshot (λ _, 3) conns 40 (map_to_list sample_fleet)
  = Snapshot (λ _, 3) conns 40 (reverse (map_to_list sample_fleet)).
Proof.
  apply (Snapshot_spec (λ _, 3) _ 40 sample_fleet); [done|apply reverse_Permutation].
Defined.

(** [Counts]: how many records, and how many of them are online. *)
Theorem Counts_spec agents :
  Counts agents = (Z.of_nat (size (filter (λ '(_, rec), ar_online rec = true) agents)),
                   Z.of_nat (size agents)).
Proof.
  unfold Counts. refine (map_fold_weak_ind
    (λ r m, r = (Z.of_nat (size (filter (λ '(_, rec), ar_online rec = true) m)),
                 Z.of_nat (size m))) _ _ _ _ agents).
  - done.
  - intros id rec m [on tot] Hm IH. injection IH as -> ->.
    rewrite map_size_insert_None by done.
    destruct (ar_online rec) eqn:E.
    + rewrite map_filter_insert_True by done.
      rewrite map_size_insert_None by (apply map_lookup_filter_None; by left).
      f_equal; lia.
    + rewrite map_filter_insert_False by (by rewrite E).
      rewrite (delete_id m) by done. f_equal; lia.
Qed.
