(* ===== verification/Host.v ===== *)
(** * The host: paths, files, environment

    [path/filepath] on Unix, and the part of [os] the relay uses, as a class:
    what [os.ReadFile], [os.WriteFile] and [os.MkdirAll] do to the world [W],
    with the laws the relay relies on.  [Disk] is a concrete instance. *)

From Stdlib Require Import Ascii.
From S2P Require Import Prelude GoStrings GoNum GoBase64 Interfaces.

Open Scope string_scope.
Open Scope list_scope.
Open Scope Z_scope.

(** ** filepath.Clean and filepath.Join *)
Definition slash : N := 47.

(** One path element over the elements kept so far (innermost first). *)
Definition clean_elem (rooted : bool) (acc : list string) (e : string) : list string :=
  if (e =? "")%string || (e =? ".")%string then acc
  else if (e =? "..")%string
  then match acc with
       | x :: acc' => if (x =? "..")%string then e :: acc else acc'
       | [] => if rooted then [] else [e]
       end
  else e :: acc.

Definition filepath_Clean (p : string) : string :=
  if (p =? "")%string then "."
  else
    let rooted := HasPrefix p "/" in
    let elems := reverse (fold_left (clean_elem rooted) (Split p slash) []) in
    let body := Join elems "/" in
    if rooted then "/" +:+ body
    else if (body =? "")%string then "." else body.

(** Empty elements are ignored; nothing but empty elements gives "". *)
Definition filepath_Join (dir file : string) : string :=
  if (dir =? "")%string then if (file =? "")%string then "" else filepath_Clean file
  else if (file =? "")%string then filepath_Clean dir
  else filepath_Clean (dir +:+ "/" +:+ file).

Example filepath_Join_pki : filepath_Join "/pki/" "operator.json" = "/pki/operator.json".
Proof. reflexivity. Qed.
Example filepath_Join_up : filepath_Join "a/../b/." "c" = "b/c".
Proof. reflexivity. Qed.

(** [strings.TrimRight(s, "/")] *)
Fixpoint TrimRightSlash (s : string) : string :=
  match s with
  | EmptyString => ""
  | String c s' =>
      let r := TrimRightSlash s' in
      if is_char slash c && (r =? "")%string then "" else String c r
  end.

(** ** Files *)
Class FileSystem (W : Type) := {
  fs_ReadFile : string → W → res string;
  fs_WriteFile : string → string → M W ();
  fs_MkdirAll : string → M W ()
}.

Class FileSystemLaws (W : Type) `{FileSystem W} := {
  fs_write_read p d w w' : fs_WriteFile p d w = (Ok (), w') → fs_ReadFile p w' = Ok d;
  fs_write_other p q d w : p ≠ q → fs_ReadFile q (fs_WriteFile p d w).2 = fs_ReadFile q w;
  fs_mkdir_read p q w : fs_ReadFile q (fs_MkdirAll p w).2 = fs_ReadFile q w
}.

(** [time.Now], [os.Getenv]: plain data. *)
Notation environ := (gmap string string) (only parsing).
Definition Getenv (e : environ) (k : string) : string := default "" (e !! k).

(** A disk on which every operation succeeds. *)
Record Disk := mkDisk { dk_files : gmap string string }.

Definition errNotExist (p : string) : error :=
  mkError ("open " +:+ p +:+ ": no such file or directory") [ErrNotExist].

Definition disk_read (p : string) (d : Disk) : res string :=
  match dk_files d !! p with Some s => Ok s | None => Err (errNotExist p) end.
Definition disk_write (p s : string) : M Disk () :=
  λ d, (Ok (), mkDisk (<[p := s]> (dk_files d))).

#[export] Instance disk_fs : FileSystem Disk := {|
  fs_ReadFile := disk_read;
  fs_WriteFile := disk_write;
  fs_MkdirAll _ d := (Ok (), d)
|}.

#[export] Instance disk_fs_laws : FileSystemLaws Disk.
Proof.
  split; cbn; unfold disk_read, disk_write.
  - intros p d w w' [= <-]. cbn. by rewrite lookup_insert_eq.
  - intros p q d w Hne. cbn. by rewrite lookup_insert_ne.
  - done.
Qed.
