(* ===== verification/ServerConfig.v ===== *)
(** * Relay configuration (server/config.go)

    Read from the environment; a secret may come from a file named by the
    environment.  [None] stands for [os.Exit(1)]: the process refuses to start. *)

From S2P Require Import Prelude GoStrings GoNum GoBase64 Interfaces Host.

Open Scope string_scope.
Open Scope list_scope.
Open Scope Z_scope.

Record Config := mkConfig {
  cf_Listen : string;
  cf_AdminToken : string;
  cf_StateDir : string;
  cf_VaultAddr : string;
  cf_VaultTokenFile : string;
  cf_VaultToken : string;
  cf_VaultRoleID : string;
  cf_VaultSecretID : string;
  cf_VaultTransitKey : string;
  cf_TrustedProxies : string
}.

Definition env (e : environ) (key def : string) : string :=
  let v := TrimSpace (Getenv e key) in
  if negb (v =? "")%string then v else def.

Section config.
  Context {W : Type} `{FileSystem W}.

Definition readSecretFile (path : string) (w : W) : res string :=
  match fs_ReadFile path w with
  | Err e => Err e
  | Ok data =>
      let v := TrimSpace data in
      if (v =? "")%string then Err (errorf (path +:+ " is empty")) else Ok v
  end.

Definition envOrFile (e : environ) (key def : string) (w : W) : option string :=
  let path := TrimSpace (Getenv e (key +:+ "_FILE")) in
  if (path =? "")%string then Some (env e key def)
  else match readSecretFile path w with
       | Err _ => None
       | Ok v => Some v
       end.

Definition loadConfig (e : environ) (w : W) : option Config :=
  token ← envOrFile e "BEACON_ADMIN_TOKEN" "" w;
  Some {|
    cf_Listen := env e "BEACON_LISTEN" ":8080";
    cf_AdminToken := token;
    cf_StateDir := env e "BEACON_STATE_DIR" "/pki";
    cf_VaultAddr := env e "BEACON_VAULT_ADDR" "";
    cf_VaultTokenFile := env e "BEACON_VAULT_TOKEN_FILE" "";
    cf_VaultToken := env e "BEACON_VAULT_TOKEN" "";
    cf_VaultRoleID := env e "BEACON_VAULT_ROLE_ID" "";
    cf_VaultSecretID := env e "BEACON_VAULT_SECRET_ID" "";
    cf_VaultTransitKey := env e "BEACON_VAULT_TRANSIT_KEY" "beacon-agent-assertions";
    cf_TrustedProxies := env e "BEACON_TRUSTED_PROXIES" ""
  |}.

Lemma readSecretFile_nonempty path w v : readSecretFile path w = Ok v → v ≠ "" ∧ trimmed v = true.
Proof.
  unfold readSecretFile. destruct (fs_ReadFile path w) as [data|]; [|done].
  destruct (_ =? _)%string eqn:E; [done|]. intros [= <-]. bool_prop. split; [done|].
  apply trimmed_spec, TrimSpace_idem.
Qed.

(** A relay told to take its admin token from a file never starts without one:
    either it refuses to start or the token is the file's, not blank and not the
    plain variable's. *)
Theorem admin_token_file_fails_closed e w :
  TrimSpace (Getenv e "BEACON_ADMIN_TOKEN_FILE") ≠ "" →
  match loadConfig e w with
  | None => True
  | Some cfg => cf_AdminToken cfg ≠ "" ∧
      ∃ data, fs_ReadFile (TrimSpace (Getenv e "BEACON_ADMIN_TOKEN_FILE")) w = Ok data ∧
              cf_AdminToken cfg = TrimSpace data
  end.
Proof.
  intros Hp. unfold loadConfig, envOrFile, mbind, option_bind.
  change ("BEACON_ADMIN_TOKEN" +:+ "_FILE") with "BEACON_ADMIN_TOKEN_FILE".
  rewrite (proj2 (String.eqb_neq _ _) Hp).
  destruct (readSecretFile _ w) as [v|] eqn:E; [|done].
  pose proof (readSecretFile_nonempty _ _ _ E) as [Hv _].
  cbn [cf_AdminToken]. split; [done|]. unfold readSecretFile in E.
  destruct (fs_ReadFile _ w) as [data|]; [|done].
  destruct (_ =? _)%string; [done|]. exists data. by injection E as <-.
Qed.
End config.

Definition healthURL (c : Config) : string :=
  let addr := cf_Listen c in
  let addr := if HasPrefix addr ":" then "127.0.0.1" +:+ addr else addr in
  "http://" +:+ addr +:+ "/healthz".

Definition secret_env : environ :=
  {["BEACON_ADMIN_TOKEN_FILE" := "/run/token"; "BEACON_ADMIN_TOKEN" := "plain"]}.

Lemma admin_token_file_fails_closed_witness :
  loadConfig secret_env (mkDisk ∅) = None ∧
  from_option cf_AdminToken "" (loadConfig secret_env (mkDisk {["/run/token" := "s3cret" +:+ nl]}))
  = "s3cret" ∧
  match loadConfig secret_env (mkDisk {["/run/token" := "s3cret" +:+ nl]}) with
  | None => True
  | Some cfg => cf_AdminToken cfg ≠ "" ∧
      ∃ data, fs_ReadFile (TrimSpace (Getenv secret_env "BEACON_ADMIN_TOKEN_FILE"))
                (mkDisk {["/run/token" := "s3cret" +:+ nl]}) = Ok data ∧
              cf_AdminToken cfg = TrimSpace data
  end.
Proof.
  split; [reflexivity|]. split; [reflexivity|].
  apply admin_token_file_fails_closed. vm_compute. discriminate.
Defined.
