(* ===== verification/VaultClient.v ===== *)
(** * The relay's Vault client (server/vault.go)

    [vault] is the client's own state; the network and the disk are the world
    [W], reached through [http_do] (one HTTP exchange) and [FileSystem]. *)

From Stdlib Require Import Ascii.
From S2P Require Import Prelude GoStrings GoNum GoBase64 Interfaces Host ServerConfig.

Open Scope string_scope.
Open Scope list_scope.
Open Scope Z_scope.

Definition vaultKeyCacheFile := "transit-public-keys.json".
Definition kvMount := "secret".

Record vault := mkVault {
  va_addr : string;
  va_transit : string;
  va_stateDir : string;
  va_roleID : string;
  va_secretID : string;
  va_staticTok : string;
  va_tokenFile : string;
  va_token : string;
  va_pubKeys : gmap Z string
}.

Definition newVault (cfg : Config) : vault :=
  mkVault (TrimRightSlash (cf_VaultAddr cfg)) (cf_VaultTransitKey cfg) (cf_StateDir cfg)
    (cf_VaultRoleID cfg) (cf_VaultSecretID cfg) (cf_VaultToken cfg) (cf_VaultTokenFile cfg) "" ∅.

Definition configured (v : vault) : bool := negb (va_addr v =? "")%string.

Definition setToken (t : string) (v : vault) : vault :=
  mkVault (va_addr v) (va_transit v) (va_stateDir v) (va_roleID v) (va_secretID v)
    (va_staticTok v) (va_tokenFile v) t (va_pubKeys v).
Definition set_pubKeys (ks : gmap Z string) (v : vault) : vault :=
  mkVault (va_addr v) (va_transit v) (va_stateDir v) (va_roleID v) (va_secretID v)
    (va_staticTok v) (va_tokenFile v) (va_token v) ks.

(** ** HTTP *)
Record HTTPReq := mkHTTPReq {
  hq_method : string;
  hq_url : string;
  hq_token : option string;   (* the X-Vault-Token header *)
  hq_body : option string     (* a body comes with Content-Type: application/json *)
}.

Record HTTPResp := mkHTTPResp {
  hs_code : Z;
  hs_status : string;         (* resp.Status, e.g. "404 Not Found" *)
  hs_body : string
}.

(** [http.NewRequest] and [http.Client.Do]. *)
Class VaultHTTP (W : Type) := http_do : HTTPReq → M W HTTPResp.

(** The Go types decoded from Vault's answers. *)
Record LoginOut := mkLoginOut { lo_ClientToken : string }.
Record SignOut := mkSignOut { so_Signature : string }.
Record KeysOut := mkKeysOut { ko_Keys : gmap string string }.
Record KVOut := mkKVOut { kv_Data : string }.          (* json.RawMessage; "" when absent *)
Record SealOut := mkSealOut { se_Sealed : bool; se_Initialized : bool }.

Class VaultJSON := {
  vj_login :: JSON LoginOut;
  vj_sign :: JSON SignOut;
  vj_keys :: JSON KeysOut;
  vj_kv :: JSON KVOut;
  vj_seal :: JSON SealOut;
  vj_strings :: JSON (gmap string string)     (* map[string]string *)
}.

(** [json.Marshal(map[string]any{"data": in})] *)
Definition marshal_data {A} `{JSON A} (a : A) : res string :=
  s ← Marshal a; mret ("{" +:+ dquote +:+ "data" +:+ dquote +:+ ":" +:+ s +:+ "}").

(** ** Signatures: "vault:vN:base64" *)
Definition parseSignature (s : string) : option (Z * string) :=
  match SplitN3 s 58 with
  | [p0; p1; p2] =>
      if negb (p0 =? "vault")%string || negb (HasPrefix p1 "v") then None
      else match Atoi (TrimPrefix p1 "v") with
           | None => None
           | Some n =>
               if n <? 1 then None
               else match std_decode p2 with
                    | None => None
                    | Some raw => if negb (len raw =? SignatureSize) then None else Some (n, raw)
                    end
           end
  | _ => None
  end.

Definition Verify `{Ed25519} (v : vault) (msg signature : string) : bool :=
  match parseSignature signature with
  | None => false
  | Some (version, raw) =>
      match va_pubKeys v !! version with
      | None => false
      | Some key => ed_verify key msg raw
      end
  end.

Section client.
  Context {W : Type} `{FileSystem W} `{VaultHTTP W} `{VaultJSON}.
  (** The order in which Go's [range] visits a map. *)
  Context (range_map : gmap string string → list (string * string)).

Notation VM := (M (vault * W)).

Definition get_vault : VM vault := λ s, (Ok (fst s), s).
Definition put_vault (f : vault → vault) : VM () := λ '(v, w), (Ok (), (f v, w)).
Definition in_world {A} (m : M W A) : VM A := λ '(v, w), let '(r, w') := m w in (r, (v, w')).
Definition read_file (p : string) : VM string := λ '(v, w), (fs_ReadFile p w, (v, w)).

(** ** One request *)

(** The closure [do] of [call]: the token is read when the request is built. *)
Definition do_request (method path : string) (body : option (res string)) (authed : bool)
    : VM HTTPResp :=
  b ← match body with
      | None => mret None
      | Some r => s ← mlift r; mret (Some s)
      end;
  v ← get_vault;
  in_world (http_do (mkHTTPReq method (va_addr v +:+ "/v1/" +:+ path)
                       (if authed then Some (va_token v) else None) b)).

(** [call] up to decoding: the body of a 2xx answer.  [relogin] is [v.login]. *)
Definition call_with (relogin : VM ()) (method path : string) (body : option (res string))
    (authed : bool) : VM string :=
  resp ← do_request method path body authed;
  resp ← (if (hs_code resp =? StatusForbidden) && authed
          then
            r ← attempt relogin;
            match r with
            | Err e => mthrow (wrapf "vault rejected the token and re-login failed: " e)
            | Ok _ => do_request method path body authed
            end
          else mret resp);
  if (hs_code resp <? 200) || (299 <? hs_code resp)
  then mthrow (errorf ("vault " +:+ method +:+ " " +:+ path +:+ ": " +:+ hs_status resp +:+ ": "
                       +:+ TrimSpace (stake 512 (hs_body resp))))
  else mret (hs_body resp).

(** An unauthenticated call never logs in again. *)
Definition call_open : string → string → option (res string) → VM string :=
  λ method path body, call_with (mthrow (errorf "")) method path body false.

Definition login : VM () :=
  v ← get_vault;
  if negb (va_tokenFile v =? "")%string then
    r ← attempt (read_file (va_tokenFile v));
    match r with
    | Err e => mthrow (wrapf "reading the Vault Agent token sink: " e)
    | Ok data =>
        let tok := TrimSpace data in
        if (tok =? "")%string
        then mthrow (errorf ("the Vault Agent token sink at " +:+ va_tokenFile v +:+ " is empty"))
        else put_vault (setToken tok)
    end
  else if negb (va_staticTok v =? "")%string then put_vault (setToken (va_staticTok v))
  else if (va_roleID v =? "")%string || (va_secretID v =? "")%string
  then mthrow (errorf "no vault credentials: set a token file, a token, or a role id and secret id")
  else
    let body : gmap string string := {["role_id" := va_roleID v; "secret_id" := va_secretID v]} in
    b ← call_open "POST" "auth/approle/login" (Some (Marshal body));
    out ← mlift (Decode b);
    if (lo_ClientToken out =? "")%string then mthrow (errorf "approle login returned no token")
    else put_vault (setToken (lo_ClientToken out)).

Definition call (method path : string) (body : option (res string)) (authed : bool) : VM string :=
  call_with login method path body authed.

(** ** Signing *)
Definition Sign (msg : string) : VM string :=
  v ← get_vault;
  if negb (configured v) then mthrow (errorf "no vault configured")
  else
    let body : gmap string string := {["input" := std_encode msg]} in
    b ← call "POST" ("transit/sign/" +:+ va_transit v) (Some (Marshal body)) true;
    out ← mlift (Decode b);
    if (so_Signature out =? "")%string then mthrow (errorf "transit returned an empty signature")
    else mret (so_Signature out).

(** ** Public keys *)
Definition usable_key (ks : gmap Z string) (entry : string * string) : gmap Z string :=
  match Atoi entry.1 with
  | None => ks
  | Some n =>
      match std_decode entry.2 with
      | None => ks
      | Some raw => if negb (len raw =? PublicKeySize) then ks else <[n := raw]> ks
      end
  end.

Definition usable_keys (keys : gmap string string) : gmap Z string :=
  fold_left usable_key (range_map keys) ∅.

Definition cachePath (v : vault) : string := filepath_Join (va_stateDir v) vaultKeyCacheFile.

Definition saveCachedKeys (keys : gmap string string) : VM () :=
  v ← get_vault;
  if (va_stateDir v =? "")%string then mret ()
  else
    in_world (fs_MkdirAll (va_stateDir v));;
    data ← mlift (Marshal keys);
    in_world (fs_WriteFile (cachePath v) data).

Definition refreshKeys : VM () :=
  v ← get_vault;
  b ← call "GET" ("transit/export/public-key/" +:+ va_transit v) None true;
  out ← mlift (Decode b);
  let keys := usable_keys (ko_Keys out) in
  if (size keys =? 0)%nat then mthrow (errorf "transit returned no usable ed25519 public keys")
  else put_vault (set_pubKeys keys);; saveCachedKeys (ko_Keys out).

Definition loadCachedKeys : VM () :=
  v ← get_vault;
  if (va_stateDir v =? "")%string then mthrow (errorf "no state directory")
  else
    data ← read_file (cachePath v);
    keys ← mlift (Unmarshal data);
    let loaded := usable_keys keys in
    if (size loaded =? 0)%nat then mthrow (errorf "cache held no usable keys")
    else put_vault (set_pubKeys loaded).

(** Failures are logged and tolerated. *)
Definition start : VM () :=
  v ← get_vault;
  if negb (configured v) then mret ()
  else attempt loadCachedKeys;; attempt login;; attempt refreshKeys;; mret ().

(** ** KV v2 *)
Definition kvGet {A} `{JSON A} (path : string) : VM (option A) :=
  v ← get_vault;
  if negb (configured v) then mthrow (errorf "no vault configured")
  else
    r ← attempt (b ← call "GET" (kvMount +:+ "/data/" +:+ path) None true;
                 mlift (Decode b));
    match r with
    | Err e => if Contains (err_text e) "404" then mret None else mthrow e
    | Ok out =>
        if len (kv_Data out) =? 0 then mret None
        else a ← mlift (Unmarshal (kv_Data out)); mret (Some a)
    end.

Definition kvPut {A} `{JSON A} (path : string) (a : A) : VM () :=
  v ← get_vault;
  if negb (configured v) then mthrow (errorf "no vault configured")
  else call "POST" (kvMount +:+ "/data/" +:+ path) (Some (marshal_data a)) true;; mret ().
End client.

(** ** Seal status *)
Inductive SealState := SealUnsealed | SealSealed | SealUnreachable | SealAbsent.
Definition sealStatusTTL : Z := 5 * Second.

(** The package variable [seal]; its zero state is the empty string. *)
Record sealCache := mkSealCache { sc_state : option SealState; sc_at : Z }.
Definition seal_zero : sealCache := mkSealCache None 0.

Section sealing.
  Context {W : Type} `{FileSystem W} `{VaultHTTP W} `{VaultJSON}.

(** The request behind the cache. *)
Definition ask_seal (now2 : Z) (s : vault * W) : (SealState * sealCache) * (vault * W) :=
  let '(r, s') := (b ← call "GET" "sys/seal-status" None false; mlift (Decode b)) s in
  let state :=
    match r with
    | Err _ => SealUnreachable
    | Ok out => if negb (se_Initialized out) then SealSealed
                else if se_Sealed out then SealSealed else SealUnsealed
    end in
  ((state, mkSealCache (Some state) now2), s').

(** [now1] is read by [time.Since], [now2] when the answer is stored. *)
Definition SealStatus (now1 now2 : Z) (seal : sealCache) (s : vault * W)
    : (SealState * sealCache) * (vault * W) :=
  if negb (configured (fst s)) then ((SealAbsent, seal), s)
  else
    match sc_state seal with
    | Some st => if now1 - sc_at seal <? sealStatusTTL then ((st, seal), s) else ask_seal now2 s
    | None => ask_seal now2 s
    end.
End sealing.
