(* ===== verification/KVStore.v ===== *)
(** * The key-value store interface (server/agentkeys.go: kvStore)

    What the agent-key record and the operator account need from Vault.
    [kv_view] is the documents the store holds; the laws are what a client may
    rely on.  A failed write may or may not have taken effect: the answer can
    be lost after the store has acted.  [kv_reenc] is how the store writes a JSON
    document back: Vault keeps the value, not the text.  [kv_misread]
    says in which states a read takes a document that is there for missing. *)

From S2P Require Import Prelude GoStrings GoNum GoBase64 Interfaces.

Open Scope string_scope.
Open Scope list_scope.
Open Scope Z_scope.

(** [kvGet(path, &out)] returns [Ok None] for [(false, nil)] and [Ok (Some a)]
    for [(true, nil)]. *)
Class KVStore (S : Type) := {
  kv_Get : ∀ {A} `{JSON A}, string → M S (option A);
  kv_Put : ∀ {A} `{JSON A}, string → A → M S ()
}.

Class KVStoreLaws (S : Type) `{KVStore S} (kv_misread : string → S → bool) (kv_ok : S → Prop) (kv_view : S → gmap string string)
    (kv_reenc : string → string) := {
  kv_Get_found {A} `{JSON A} p s (a : A) s' :
    kv_ok s → kv_Get p s = (Ok (Some a), s') →
    ∃ doc, kv_view s !! p = Some doc ∧ Unmarshal doc = Ok a;
  kv_Get_missing {A} `{JSON A} p s s' :
    kv_misread p s = false → kv_ok s → kv_Get (A:=A) p s = (Ok None, s') → kv_view s !! p = None;
  kv_Get_frame {A} `{JSON A} p s r s' :
    kv_ok s → kv_Get (A:=A) p s = (r, s') → kv_ok s' ∧ kv_view s' = kv_view s;
  kv_Put_done {A} `{JSON A} p s (a : A) s' :
    kv_ok s → kv_Put p a s = (Ok (), s') →
    ∃ doc, Marshal a = Ok doc ∧ kv_ok s' ∧ kv_view s' = <[p := kv_reenc doc]> (kv_view s);
  kv_Put_failed {A} `{JSON A} p s (a : A) e s' :
    kv_ok s → kv_Put p a s = (Err e, s') →
    kv_ok s' ∧ (kv_view s' = kv_view s ∨
                ∃ doc, Marshal a = Ok doc ∧ kv_view s' = <[p := kv_reenc doc]> (kv_view s))
}.

(** A re-encoded document decodes to the value that was marshalled. *)
Class ReencLaws (A : Type) `{JSON A} (wf : A → Prop) (reenc : string → string) :=
  Unmarshal_reenc a s : wf a → Marshal a = Ok s → Unmarshal (reenc s) = Ok a.

(** The store of the tests: a map, with the outcome of the next writes. *)
Module MapStore.
Record t := mk { docs : gmap string string; faults : list (option error) }.

Definition get {A} `{JSON A} (p : string) : M t (option A) := λ s,
  match docs s !! p with
  | None => (Ok None, s)
  | Some d => (a ← Unmarshal d; mret (Some a), s)
  end.

Definition put {A} `{JSON A} (p : string) (a : A) : M t () := λ s,
  match Marshal a with
  | Err e => (Err e, s)
  | Ok d =>
      match faults s with
      | Some e :: fs => (Err e, mk (docs s) fs)
      | _ => (Ok (), mk (<[p := d]> (docs s)) (tail (faults s)))
      end
  end.

#[global] Instance store : KVStore t := {| kv_Get := @get; kv_Put := @put |}.

#[global] Instance store_laws : KVStoreLaws t (λ _ _, false) (λ _, True) docs (λ d, d).
Proof.
  split; cbn.
  - intros A ? p s a s' _. unfold get. destruct (docs s !! p) as [d|]; [|done].
    unfold mbind, res_bind. destruct (Unmarshal d) as [a'|] eqn:E; [|done].
    intros [= <- <-]. eauto.
  - intros A ? p s s' _ _. unfold get. destruct (docs s !! p) as [d|]; [|done].
    unfold mbind, res_bind. by destruct (Unmarshal d).
  - intros A ? p s r s' _. unfold get. by destruct (docs s !! p); intros [= _ <-].
  - intros A ? p s a s' _. unfold put. destruct (Marshal a) as [d|]; [|done].
    destruct (faults s) as [|[e|] fs]; [| done|]; intros [= <-]; eauto.
  - intros A ? p s a e s' _. unfold put. destruct (Marshal a) as [d|].
    + destruct (faults s) as [|[e'|] fs]; [done| |done]. intros [= _ <-]. eauto.
    + intros [= _ <-]. eauto.
Qed.
End MapStore.
