(* ===== verification/AgentKeys.v ===== *)
(** * Which key owns which agent id (server/agentkeys.go)

    Proved against the [KVStore] interface; the Vault client implements it in
    VaultKV.v. *)

From S2P Require Import Prelude GoStrings GoNum GoBase64 Interfaces KVStore.

Open Scope string_scope.
Open Scope list_scope.
Open Scope Z_scope.

Definition agentKeysVaultPath := "beacon/agent-keys".

Record agentKeyRecord := mkAgentKeyRecord {
  ak_PublicKey : string;
  ak_BoundAt : Z;
  ak_BoundBy : string;
  ak_Rebinds : Z
}.

#[export] Instance agentKeyRecord_eq_dec : EqDecision agentKeyRecord.
Proof. solve_decision. Defined.
#[export] Instance agentKeyRecord_countable : Countable agentKeyRecord.
Proof.
  refine (inj_countable' (λ r, (ak_PublicKey r, ak_BoundAt r, ak_BoundBy r, ak_Rebinds r))
                         (λ '(k, t, b, n), mkAgentKeyRecord k t b n) _).
  by intros [].
Defined.

(** A Go map that may be nil. *)
Notation key_map := (gmap string agentKeyRecord).

(** [format] is [BoundAt.Format(time.RFC3339)]. *)
Definition errRebindRequired (format : Z → string) (AgentID : string) (BoundAt : Z) : error :=
  mkError (quote AgentID +:+ " is already enrolled with a different key, bound on " +:+ format BoundAt
           +:+ ". If this machine was rebuilt, re-enrol it with `beacon enroll --rebind`; "
           +:+ "if it was not, another machine is claiming this name.")
          [ErrRebindRequired AgentID BoundAt].

Section agent_keys.
  Context {S : Type} `{KVStore S} `{JSON (option key_map)} (format : Z → string).

Definition loadLocked : M S key_map :=
  found ← kv_Get (A := option key_map) agentKeysVaultPath;
  match found with
  | None | Some None => mret ∅
  | Some (Some all) => mret all
  end.

(** [now] is [time.Now().UTC()] when a record is written. *)
Definition claim (id publicKey by_ : string) (rebind : bool) (now : Z) : M S () :=
  all ← loadLocked;
  match all !! id with
  | None =>
      kv_Put agentKeysVaultPath (Some (<[id := mkAgentKeyRecord publicKey now by_ 0]> all))
  | Some rec =>
      if (ak_PublicKey rec =? publicKey)%string then mret ()
      else if negb rebind then mthrow (errRebindRequired format id (ak_BoundAt rec))
      else kv_Put agentKeysVaultPath
             (Some (<[id := mkAgentKeyRecord publicKey now by_ (ak_Rebinds rec + 1)]> all))
  end.

(** ** The record as a client of the store sees it *)
Section correctness.
  Context {kv_misread : string → S → bool} {kv_ok : S → Prop} {kv_view : S → gmap string string}
          {reenc : string → string} `{!KVStoreLaws S kv_misread kv_ok kv_view reenc}
          {wf : option key_map → Prop} `{!ReencLaws (option key_map) wf reenc}.

(** The bindings stored, when the document is readable. *)
Definition bindings (s : S) : option key_map :=
  match kv_view s !! agentKeysVaultPath with
  | None => Some ∅
  | Some doc =>
      match Unmarshal doc with
      | Ok (Some all) => Some all
      | Ok None => Some ∅
      | Err _ => None
      end
  end.

(** [id] belongs to [pk] in the store. *)
Definition owner (s : S) (id : string) : option string :=
  all ← bindings s; ak_PublicKey <$> (all : key_map) !! id.

Lemma loadLocked_ok s all s' :
  kv_misread agentKeysVaultPath s = false → kv_ok s → loadLocked s = (Ok all, s') → bindings s = Some all ∧ kv_ok s' ∧ kv_view s' = kv_view s.
Proof.
  intros Hread Hok Hl. unfold loadLocked in Hl. apply M_bind_ok_inv in Hl as (found & s1 & Hg & Hl).
  pose proof (kv_Get_frame _ _ _ _ Hok Hg) as [Hok1 Hv].
  assert (s' = s1 ∧ bindings s = Some all) as [-> ?]; [|done].
  unfold bindings. destruct found as [[all'|]|].
  - injection Hl as <- <-. apply kv_Get_found in Hg as (doc & -> & ->); done.
  - injection Hl as <- <-. apply kv_Get_found in Hg as (doc & -> & ->); done.
  - injection Hl as <- <-. apply kv_Get_missing in Hg as ->; done.
Qed.

Lemma loadLocked_frame s r s' :
  kv_ok s → loadLocked s = (r, s') → kv_ok s' ∧ kv_view s' = kv_view s.
Proof.
  intros Hok. unfold loadLocked, mbind, M_bind.
  destruct (kv_Get _ s) as [[[[all|]|]|e] s1] eqn:Hg; intros [= <- <-];
    by eapply kv_Get_frame.
Qed.

Lemma bindings_put s s' all doc :
  wf (Some all) → Marshal (Some all) = Ok doc →
  kv_view s' = <[agentKeysVaultPath := reenc doc]> (kv_view s) → bindings s' = Some all.
Proof.
  intros Hwf Hm Hv. unfold bindings. rewrite Hv, lookup_insert_eq.
  by rewrite (Unmarshal_reenc (Some all) doc).
Qed.

(** The record [claim] may write is one JSON can carry. *)
Definition storable (s : S) (id pk by_ : string) (now : Z) : Prop :=
  ∀ all n, bindings s = Some all → wf (Some (<[id := mkAgentKeyRecord pk now by_ n]> all)).

(** What [claim] decides, on every branch. *)
Lemma claim_spec id pk by_ rebind now s r s' :
  kv_misread agentKeysVaultPath s = false → storable s id pk by_ now →
  kv_ok s → claim id pk by_ rebind now s = (r, s') →
  kv_ok s' ∧
  match r with
  | Ok _ =>
      ∃ all all', bindings s = Some all ∧ bindings s' = Some all' ∧
        (∀ id', id' ≠ id → all' !! id' = all !! id') ∧
        match all !! id with
        | None => all' !! id = Some (mkAgentKeyRecord pk now by_ 0)
        | Some rec =>
            if String.eqb (ak_PublicKey rec) pk then all' !! id = Some rec
            else rebind = true ∧
                 all' !! id = Some (mkAgentKeyRecord pk now by_ (ak_Rebinds rec + 1))
        end
  | Err e =>
      (kv_view s' = kv_view s ∨ ∃ all rec', bindings s = Some all ∧ ak_PublicKey rec' = pk ∧
          bindings s' = Some (<[id := rec']> all) ∧
          (rebind = false → all !! id = None))
  end.
Proof.
  intros Hread Hwf Hok Hc. unfold claim, mbind, M_bind in Hc.
  destruct (loadLocked s) as [[all|e] s1] eqn:El.
  2: { injection Hc as <- <-. apply loadLocked_frame in El as [? ?]; auto. }
  apply loadLocked_ok in El as (Hb & Hok1 & Hv1); [|done..].
  assert (∀ n r s', let rec := mkAgentKeyRecord pk now by_ n in
    kv_Put agentKeysVaultPath (Some (<[id := rec]> all)) s1 = (r, s') →
    kv_ok s' ∧ match r with
      | Ok _ => bindings s' = Some (<[id := rec]> all)
      | Err _ => kv_view s' = kv_view s ∨ bindings s' = Some (<[id := rec]> all) end) as Hput.
  { intros n [[]|e] s2 rec Hp.
    - apply kv_Put_done in Hp as (doc & Hm & ? & Hv); [|done]. split; [done|].
      eapply bindings_put; [by apply Hwf|done..].
    - apply kv_Put_failed in Hp as [? Hv]; [|done]. split; [done|].
      destruct Hv as [Hv|(doc & Hm & Hv)]; [left; by rewrite Hv|right].
      eapply bindings_put; [by apply Hwf|done..]. }
  destruct (all !! id) as [rec|] eqn:Erec.
  - destruct (ak_PublicKey rec =? pk)%string eqn:Epk.
    { injection Hc as <- <-. split; [done|]. exists all, all. rewrite Erec, Epk.
      split_and!; [done| |done..]. unfold bindings. by rewrite Hv1. }
    destruct rebind; cbn [negb] in Hc.
    + apply Hput in Hc as [? Hc]. split; [done|]. destruct r as [[]|e].
      * eexists all, _. rewrite Erec, Epk. split_and!; [done|exact Hc| |done|].
        -- intros. by rewrite lookup_insert_ne.
        -- by rewrite lookup_insert_eq.
      * destruct Hc as [?|?]; [by left|]. right.
        by exists all, (mkAgentKeyRecord pk now by_ (ak_Rebinds rec + 1)).
    + injection Hc as <- <-. by split; [|left].
  - apply Hput in Hc as [? Hc]. split; [done|]. destruct r as [[]|e].
    + eexists all, _. rewrite Erec. split_and!; [done|exact Hc| |].
      * intros. by rewrite lookup_insert_ne.
      * by rewrite lookup_insert_eq.
    + destruct Hc as [?|?]; [by left|]. right.
      by exists all, (mkAgentKeyRecord pk now by_ 0).
Qed.

(** ** Theorems *)

(** Enrolment succeeds for an id only with the key that owns it afterwards, and
    without [--rebind] an id that has an owner keeps it: whoever holds operator
    credentials cannot take a name over by enrolling under it.  Other ids are
    untouched. *)
Theorem claim_first_key_wins id pk by_ rebind now s s' :
  kv_misread agentKeysVaultPath s = false → storable s id pk by_ now → kv_ok s →
  claim id pk by_ rebind now s = (Ok (), s') →
  owner s' id = Some pk ∧
  (rebind = false → owner s id = None ∨ owner s id = Some pk) ∧
  (∀ id', id' ≠ id → owner s' id' = owner s id').
Proof.
  intros Hread Hwf Hok Hc.
  apply claim_spec in Hc as [_ (all & all' & Hb & Hb' & Hne & Hid)]; [|done..].
  unfold owner. rewrite Hb, Hb'. cbn. destruct (all !! id) as [rec|].
  - destruct (String.eqb_spec (ak_PublicKey rec) pk) as [<-|]; [rewrite Hid|destruct Hid as [-> ->]];
      split_and!; cbn; auto; [|done|]; intros; by rewrite Hne.
  - rewrite Hid. split_and!; cbn; auto. intros. by rewrite Hne.
Qed.

(** A refusal changes no owner: [claim] without [rebind] never moves an id that
    has one, whatever it returns and whatever the store does. *)
Lemma claim_keeps_owner id pk by_ now s r s' id' pk' :
  kv_misread agentKeysVaultPath s = false → storable s id pk by_ now → kv_ok s →
  claim id pk by_ false now s = (r, s') →
  owner s id' = Some pk' → owner s' id' = Some pk'.
Proof.
  intros Hread Hwf Hok Hc Ho.
  apply claim_spec in Hc as [_ Hc]; [|done..]. unfold owner in *.
  destruct r as [[]|e].
  - destruct Hc as (all & all' & Hb & Hb' & Hne & Hid). rewrite Hb in Ho. rewrite Hb'. cbn in *.
    destruct (decide (id' = id)) as [->|Hn]; [|by rewrite Hne].
    destruct (all !! id) as [rec|]; [|done].
    destruct (String.eqb_spec (ak_PublicKey rec) pk); [by rewrite Hid|]. by destruct Hid.
  - destruct Hc as [Hv|(all & rec' & Hb & _ & Hb' & Hno)].
    + unfold bindings in *. by rewrite Hv.
    + rewrite Hb in Ho. rewrite Hb'. cbn in *.
      destruct (decide (id' = id)) as [->|Hn]; [by rewrite Hno in Ho|].
      by rewrite lookup_insert_ne.
Qed.

(** Re-enrolling the machine that owns the id always passes, and writes
    nothing. *)
Theorem claim_renewal id pk by_ rebind now s s1 all rec :
  loadLocked s = (Ok all, s1) → all !! id = Some rec → ak_PublicKey rec = pk →
  claim id pk by_ rebind now s = (Ok (), s1).
Proof.
  intros Hl Hr Hpk. unfold claim, mbind, M_bind. rewrite Hl, Hr, Hpk.
  by rewrite String.eqb_refl.
Qed.
End correctness.
End agent_keys.

(** ** Witnesses, on the map store *)
#[export] Instance toy_keys_json : JSON (option key_map) := ToyJSON.toy_json _.
#[export] Instance toy_keys_laws : ReencLaws (option key_map) (λ _, True) (λ d, d).
Proof. intros a s Hm. by apply (Unmarshal_Marshal (JSONLaws := ToyJSON.toy_json_laws _)). Qed.

Definition sample_keys : key_map := {["lab-1" := mkAgentKeyRecord "KEY-A" 7 "ana" 0]}.
Definition sample_store : MapStore.t :=
  MapStore.mk {[agentKeysVaultPath := pos_text (encode (Some sample_keys))]} [].

Lemma claim_first_key_wins_witness :
  owner (kv_view := MapStore.docs)
        (claim (λ _, "then") "lab-2" "KEY-B" "ana" false 9 sample_store).2 "lab-2" = Some "KEY-B".
Proof.
  eapply (claim_first_key_wins (λ _, "then") (kv_misread := λ _ _, false) (kv_ok := λ _, True) "lab-2" "KEY-B" "ana" false 9);
    [done|done|done|apply run_result; vm_compute; reflexivity].
Defined.


Lemma claim_renewal_witness :
  claim (λ _, "then") "lab-1" "KEY-A" "ana" false 9 sample_store = (Ok (), sample_store).
Proof.
  eapply (claim_renewal (λ _, "then")); vm_compute; reflexivity.
Defined.
