(* ===== verification/VaultProofs.v ===== *)
(** * What the Vault client guarantees

    Signatures select their key version, verification needs nothing but the
    cached keys, a request is repeated at most once, and the key cache on disk
    restores exactly the keys that were fetched. *)

From Stdlib Require Import Ascii.
From S2P Require Import Prelude GoStrings GoNum GoBase64 Interfaces Host ServerConfig VaultClient.

Open Scope string_scope.
Open Scope list_scope.
Open Scope Z_scope.

(** ** Signatures *)

(** Transit's text for a signature made by key version [n]. *)
Definition transit_signature (n : Z) (sig : string) : string :=
  "vault:v" +:+ itoa n +:+ ":" +:+ std_encode sig.

Lemma parseSignature_transit n sig :
  1 ≤ n → in_int64 n = true → len sig = SignatureSize →
  parseSignature (transit_signature n sig) = Some (n, sig).
Proof.
  intros Hn Hi Hs. unfold parseSignature, transit_signature.
  assert (SplitN3 ("vault:v" +:+ itoa n +:+ ":" +:+ std_encode sig) 58
          = ["vault"; "v" +:+ itoa n; std_encode sig]) as ->.
  { unfold SplitN3. change ("vault:v" +:+ ?x) with ("vault" +:+ String (byte 58) ("v" +:+ x)).
    rewrite Cut_char by done.
    replace ("v" +:+ itoa n +:+ ":" +:+ std_encode sig)
      with (("v" +:+ itoa n) +:+ String (byte 58) (std_encode sig))
      by (by rewrite sapp_assoc).
    rewrite Cut_char; [done|]. unfold no_char. rewrite schars_app. apply andb_true_intro.
    split; [done|]. by apply itoa_no_char. }
  cbn [String.eqb negb orb]. rewrite HasPrefix_app, TrimPrefix_app. cbn -[Atoi std_decode].
  unfold Atoi. rewrite ParseInt64_itoa by done.
  rewrite (proj2 (Z.ltb_ge _ _)) by done. rewrite std_decode_encode, Hs. done.
Qed.

(** What is accepted names a positive version and carries a whole signature. *)
Lemma parseSignature_inv s n raw :
  parseSignature s = Some (n, raw) → 1 ≤ n ∧ len raw = SignatureSize.
Proof.
  unfold parseSignature. destruct (SplitN3 s 58) as [|p0 [|p1 [|p2 [|]]]]; try done.
  destruct (_ || _); [done|]. destruct (Atoi _) as [m|]; [|done].
  destruct (m <? 1) eqn:E1; [done|]. destruct (std_decode p2) as [r|]; [|done].
  destruct (negb _) eqn:E2; [done|]. intros [= <- <-]. by bool_prop.
Qed.

(** A signature is checked against the key of the version stamped on it: one
    made by a version the relay has cached verifies, however many newer versions
    there are, and one of an unknown version does not. *)
Theorem Verify_by_version `{Ed25519Laws} v n sk msg :
  1 ≤ n → in_int64 n = true → len sk = PrivateKeySize →
  Verify v msg (transit_signature n (ed_sign sk msg))
  = match va_pubKeys v !! n with
    | Some pub => ed_verify pub msg (ed_sign sk msg)
    | None => false
    end ∧
  (va_pubKeys v !! n = Some (ed_public sk) →
   Verify v msg (transit_signature n (ed_sign sk msg)) = true).
Proof.
  intros Hn Hi Hsk. unfold Verify. rewrite parseSignature_transit by auto using ed_sign_size.
  split; [done|]. intros ->. by apply ed_verify_sign.
Qed.

Section frames.
  Context {W : Type} `{FileSystem W} `{VaultHTTP W} `{VaultJSON}.

(** ** Only the token changes *)
Lemma do_request_frame method path body authed s r s' :
  do_request method path body authed s = (r, s') → fst s' = fst s.
Proof.
  destruct s as [v w]. unfold do_request, mbind, M_bind, mlift, get_vault, in_world.
  destruct body as [[b|e]|]; cbn; try (destruct (http_do _ w) as [r0 w0]); by intros [= _ <-].
Qed.

Lemma setToken_self v : setToken (va_token v) v = v.
Proof. by destruct v. Qed.
Lemma setToken_setToken t u v : setToken t (setToken u v) = setToken t v.
Proof. done. Qed.

Lemma call_open_frame method path body s r s' :
  call_open method path body s = (r, s') → fst s' = fst s.
Proof.
  unfold call_open, call_with, mbind, M_bind.
  destruct (do_request _ _ _ _ s) as [[resp|e] s1] eqn:E; apply do_request_frame in E.
  - rewrite andb_false_r. cbn. destruct (_ || _); intros [= _ <-]; done.
  - by intros [= _ <-].
Qed.

Lemma login_frame s r s' :
  login s = (r, s') → fst s' = setToken (va_token (fst s')) (fst s).
Proof.
  destruct s as [v w]. unfold login, mbind, M_bind, get_vault. cbn [fst snd].
  destruct (negb (va_tokenFile v =? "")%string).
  { unfold attempt, read_file. cbn [fst snd]. destruct (fs_ReadFile _ w) as [data|e].
    - destruct (_ =? _)%string; intros [= _ <-]; cbn; by rewrite ?setToken_self.
    - intros [= _ <-]. by rewrite setToken_self. }
  destruct (negb (va_staticTok v =? "")%string); [by intros [= _ <-]|].
  destruct (_ || _); [intros [= _ <-]; by rewrite setToken_self|].
  destruct (call_open _ _ _ _) as [[b|e] s1] eqn:E; apply call_open_frame in E as Hf.
  - cbn [fst] in Hf. unfold mlift.
    destruct (Decode b) as [out|e]; [|intros [= _ <-]; by rewrite Hf, setToken_self].
    destruct (_ =? _)%string; [intros [= _ <-]; by rewrite Hf, setToken_self|].
    unfold put_vault. destruct s1 as [v1 lw1]. cbn in Hf. subst v1. by intros [= _ <-].
  - cbn in Hf. intros [= _ <-]. by rewrite Hf, setToken_self.
Qed.

Definition finish (method path : string) (resp : HTTPResp) : res string :=
  if (hs_code resp <? 200) || (299 <? hs_code resp)
  then Err (errorf ("vault " +:+ method +:+ " " +:+ path +:+ ": " +:+ hs_status resp +:+ ": "
                    +:+ TrimSpace (stake 512 (hs_body resp))))
  else Ok (hs_body resp).

(** [call] without the monad: one request, and after a 403 a login and the same
    request again. *)
Lemma call_eq method path body authed s :
  call method path body authed s =
  match do_request method path body authed s with
  | (Err e, s1) => (Err e, s1)
  | (Ok resp, s1) =>
      if (hs_code resp =? StatusForbidden) && authed then
        match login s1 with
        | (Err e, s2) => (Err (wrapf "vault rejected the token and re-login failed: " e), s2)
        | (Ok _, s2) =>
            match do_request method path body authed s2 with
            | (Err e, s3) => (Err e, s3)
            | (Ok resp, s3) => (finish method path resp, s3)
            end
        end
      else (finish method path resp, s1)
  end.
Proof.
  unfold call, call_with, finish, mbind, M_bind, attempt.
  destruct (do_request _ _ _ _ s) as [[resp|e] s1]; [|done].
  destruct (_ && _).
  - destruct (login s1) as [[[]|e] s2]; [|done].
    destruct (do_request _ _ _ _ s2) as [[resp2|e] s3]; [|done]. by destruct (_ || _).
  - cbn. by destruct (_ || _).
Qed.

Lemma call_frame method path body authed s r s' :
  call method path body authed s = (r, s') → fst s' = setToken (va_token (fst s')) (fst s).
Proof.
  rewrite call_eq.
  destruct (do_request _ _ _ _ s) as [[resp|e] s1] eqn:E1; apply do_request_frame in E1.
  2: { intros [= _ <-]. by rewrite E1, setToken_self. }
  destruct (_ && _).
  2: { intros [= _ <-]. by rewrite E1, setToken_self. }
  destruct (login s1) as [[[]|e] s2] eqn:El; apply login_frame in El; rewrite E1 in El.
  2: { by intros [= _ <-]. }
  destruct (do_request _ _ _ _ s2) as [[resp2|e] s3] eqn:E2; apply do_request_frame in E2;
    intros [= _ <-]; by rewrite E2.
Qed.

End frames.

Section calls.
  Context {W : Type} `{FileSystem W} `{VaultHTTP W} `{VaultJSON}.

(** ** Requests are bounded

    A world that writes down the requests made. *)
Definition logged : Type := list HTTPReq * W.
#[local] Instance logged_http : VaultHTTP logged := λ req '(l, w),
  let '(r, w') := http_do req w in (r, (l ++ [req], w')).
#[local] Instance logged_fs : FileSystem logged := {|
  fs_ReadFile p lw := fs_ReadFile p (snd lw);
  fs_WriteFile p d '(l, w) := let '(r, w') := fs_WriteFile p d w in (r, (l, w'));
  fs_MkdirAll p '(l, w) := let '(r, w') := fs_MkdirAll p w in (r, (l, w'))
|}.

Definition reqs (s : vault * logged) : list HTTPReq := fst (snd s).

Ltac fin := unfold reqs in *; cbn in *; rewrite ?length_app in *; cbn in *; lia.

Definition request_of (v : vault) (method path : string) (body : option string) (authed : bool) : HTTPReq :=
  mkHTTPReq method (va_addr v +:+ "/v1/" +:+ path) (if authed then Some (va_token v) else None) body.

Lemma do_request_log method path body authed s r s' :
  do_request method path body authed s = (r, s') →
  fst s' = fst s ∧
  (reqs s' = reqs s ∨
   ∃ b, reqs s' = reqs s ++ [request_of (fst s) method path b authed]).
Proof.
  destruct s as [v [l w]]. unfold do_request, mbind, M_bind, mlift, get_vault, in_world.
  destruct body as [[b|e]|]; cbn.
  - unfold http_do, logged_http. destruct (H0 _ w) as [r0 w0]. intros [= <- <-].
    split; [done|]. right. by eexists.
  - intros [= <- <-]. auto.
  - unfold http_do, logged_http. destruct (H0 _ w) as [r0 w0]. intros [= <- <-].
    split; [done|]. right. by eexists.
Qed.

Lemma call_open_log method path body s r s' :
  call_open method path body s = (r, s') →
  fst s' = fst s ∧ (length (reqs s') ≤ length (reqs s) + 1)%nat.
Proof.
  unfold call_open, call_with, mbind, M_bind.
  destruct (do_request _ _ _ _ s) as [[resp|e] s1] eqn:E; apply do_request_log in E as [Hf Hr].
  - rewrite andb_false_r. cbn. intros Hc.
    assert (s' = s1) as -> by (destruct (_ || _); by injection Hc as <- <-).
    split; [done|]. destruct Hr as [->|[b ->]]; rewrite ?length_app; fin.
  - intros [= <- <-]. split; [done|]. destruct Hr as [->|[b ->]]; rewrite ?length_app; fin.
Qed.
Lemma login_log s r s' :
  login s = (r, s') → (length (reqs s') ≤ length (reqs s) + 1)%nat.
Proof.
  destruct s as [v lw]. unfold login, mbind, M_bind, get_vault. cbn [fst snd].
  destruct (negb (va_tokenFile v =? "")%string).
  { unfold attempt, read_file. cbn [fst snd]. destruct (fs_ReadFile _ lw) as [data|e].
    - destruct (_ =? _)%string; intros [= _ <-]; fin.
    - intros [= _ <-]. fin. }
  destruct (negb (va_staticTok v =? "")%string); [intros [= _ <-]; fin|].
  destruct (_ || _); [intros [= _ <-]; fin|].
  destruct (call_open _ _ _ _) as [[b|e] s1] eqn:E; apply call_open_log in E as [_ Hl].
  - cbn. destruct (Decode b) as [out|e]; [|by intros [= _ <-]].
    destruct (_ =? _)%string; [by intros [= _ <-]|].
    unfold put_vault. destruct s1 as [v1 lw1]. by intros [= _ <-].
  - by intros [= _ <-].
Qed.

(** No answer of Vault's makes the relay repeat itself: an authenticated request
    costs at most the request, one login and one repetition; any other costs
    one. *)
Theorem call_bounded_requests method path body authed s :
  (length (reqs (call method path body authed s).2)
   ≤ length (reqs s) + if authed then 3 else 1)%nat.
Proof.
  rewrite call_eq.
  destruct (do_request _ _ _ _ s) as [[resp|e] s1] eqn:E1; apply do_request_log in E1 as [_ H1'].
  2: { destruct H1' as [Hr|[b Hr]]; cbn [snd]; rewrite Hr, ?length_app; destruct authed; fin. }
  assert (length (reqs s1) ≤ length (reqs s) + 1)%nat as Hl1
    by (destruct H1' as [Hr|[b Hr]]; rewrite Hr, ?length_app; fin).
  destruct authed; [rewrite andb_true_r|rewrite andb_false_r; fin].
  destruct (hs_code resp =? StatusForbidden); [|fin].
  destruct (login s1) as [[[]|e] s2] eqn:El; apply login_log in El; [|fin].
  destruct (do_request _ _ _ _ s2) as [[resp2|e] s3] eqn:E2; apply do_request_log in E2 as [_ H2'];
    destruct H2' as [Hr|[b Hr]]; cbn [snd]; rewrite Hr, ?length_app; fin.
Qed.

(** A token rotated underneath the relay is picked up on the next request: a
    403 sends it back to the sink, and the repetition carries what it found. *)
Theorem call_follows_token_sink method path v l w resp w1 data :
  let req tok := mkHTTPReq method (va_addr v +:+ "/v1/" +:+ path) (Some tok) None in
  http_do (req (va_token v)) w = (Ok resp, w1) →
  hs_code resp = StatusForbidden →
  va_tokenFile v ≠ "" → fs_ReadFile (va_tokenFile v) w1 = Ok data → TrimSpace data ≠ "" →
  let s' := (call method path None true (v, (l, w))).2 in
  reqs s' = l ++ [req (va_token v); req (TrimSpace data)] ∧ va_token (fst s') = TrimSpace data.
Proof.
  intros req Hdo Hcode Htf Hsink Htok s'. subst s'. rewrite call_eq.
  assert (do_request method path None true (v, (l, w)) = (Ok resp, (v, (l ++ [req (va_token v)], w1))))
    as ->.
  { unfold do_request, mbind, M_bind, get_vault, in_world. cbn.
    unfold http_do, logged_http, req in *. cbn in Hdo. by rewrite Hdo. }
  rewrite Hcode. cbn [andb]. rewrite Z.eqb_refl. cbn [andb].
  assert (login (v, (l ++ [req (va_token v)], w1))
          = (Ok (), (setToken (TrimSpace data) v, (l ++ [req (va_token v)], w1)))) as ->.
  { unfold login, mbind, M_bind, get_vault, attempt, read_file. cbn [fst].
    rewrite (proj2 (String.eqb_neq _ _) Htf). cbn. rewrite Hsink.
    by rewrite (proj2 (String.eqb_neq _ _) Htok). }
  unfold do_request, mbind, M_bind, get_vault, in_world. cbn.
  unfold http_do, logged_http. destruct (H0 _ w1) as [[resp2|e] w2]; cbn; by rewrite <-app_assoc.
Qed.

End calls.

(** ** The key cache *)
Section key_cache.
  Context {W : Type} `{FileSystem W} `{VaultHTTP W} `{VaultJSON}.

(** No two version names mean the same version number, as in "1" and "01". *)
Definition canonical_versions (keys : gmap string string) : Prop :=
  ∀ a b n, is_Some (keys !! a) → is_Some (keys !! b) → Atoi a = Some n → Atoi b = Some n → a = b.

Definition key_of (entry : string * string) : option (Z * string) :=
  n ← Atoi entry.1; raw ← std_decode entry.2;
  if len raw =? PublicKeySize then Some (n, raw) else None.

Lemma usable_key_eq ks entry :
  usable_key ks entry = match key_of entry with Some (n, raw) => <[n := raw]> ks | None => ks end.
Proof.
  unfold usable_key, key_of, mbind, option_bind. destruct (Atoi entry.1); [|done].
  destruct (std_decode entry.2) as [raw|]; [|done]. by destruct (_ =? _).
Qed.

Lemma usable_keys_perm keys order order' :
  canonical_versions keys → order ≡ₚ map_to_list keys → order' ≡ₚ map_to_list keys →
  fold_left usable_key order ∅ = fold_left usable_key order' ∅.
Proof.
  intros Hc Ho Ho'. apply fold_left_perm; [by rewrite Ho, Ho'|].
  intros [a x] [b y] ks Ha Hb. rewrite Ho in Ha, Hb. rewrite !usable_key_eq.
  destruct (key_of (a, x)) as [[n r]|] eqn:Ex, (key_of (b, y)) as [[m q]|] eqn:Ey; try done.
  destruct (decide (n = m)) as [->|Hne]; [|by apply insert_insert_ne].
  apply elem_of_map_to_list in Ha, Hb.
  assert (a = b) as ->.
  { unfold key_of in Ex, Ey. cbn [fst snd] in Ex, Ey.
    destruct (Atoi a) as [n'|] eqn:Ea; [|done]. destruct (Atoi b) as [m'|] eqn:Eb; [|done].
    cbn in Ex, Ey. apply bind_Some in Ex as (? & _ & Ex), Ey as (? & _ & Ey).
    repeat case_match; simplify_eq. by eapply Hc. }
  rewrite Ha in Hb. injection Hb as ->. rewrite Ex in Ey. by injection Ey as ->.
Qed.

(** A fetch that reports success leaves a cache from which a relay starting
    afterwards -- Vault reachable or not -- loads exactly the same keys.  The
    last hypothesis is Vault's documented answer: an object of strings whose
    names are version numbers. *)
Theorem refresh_then_load_cached range1 range2 v w v' w' v1 wf
    `{!FileSystemLaws W} `{!JSONLaws (gmap string string) wf} :
  (∀ m, range1 m ≡ₚ map_to_list m) → (∀ m, range2 m ≡ₚ map_to_list m) →
  refreshKeys range1 (v, w) = (Ok (), (v', w')) →
  va_stateDir v ≠ "" → va_stateDir v1 = va_stateDir v →
  (∀ b s1 out, call "GET" ("transit/export/public-key/" +:+ va_transit v) None true (v, w) = (Ok b, s1) →
     Decode b = Ok out → wf (ko_Keys out) ∧ canonical_versions (ko_Keys out)) →
  va_pubKeys v' ≠ ∅ ∧
  loadCachedKeys range2 (v1, w') = (Ok (), (set_pubKeys (va_pubKeys v') v1, w')).
Proof.
  intros Hr1 Hr2 Href Hdir Hdir1 Hdoc. unfold refreshKeys in Href.
  apply M_bind_ok_inv in Href as (v0 & s0 & Hg & Href). injection Hg as <- <-.
  apply M_bind_ok_inv in Href as (b & [v2 w2] & Hcall & Href).
  apply M_bind_ok_inv in Href as (out & s2 & Hd & Href). injection Hd as Hd <-.
  destruct (Hdoc _ _ _ Hcall Hd) as [Hwf Hcan].
  apply call_frame in Hcall. cbn [fst] in Hcall.
  destruct (size (usable_keys range1 (ko_Keys out)) =? 0)%nat eqn:Esz; [done|].
  apply M_bind_ok_inv in Href as ([] & s3 & Hput & Href). injection Hput as <-.
  unfold saveCachedKeys in Href.
  apply M_bind_ok_inv in Href as (v3 & s4 & Hg & Href). injection Hg as <- <-.
  assert (va_stateDir v2 = va_stateDir v) as Hd2 by (by rewrite Hcall).
  cbn [va_stateDir set_pubKeys fst] in Href. rewrite Hd2 in Href.
  rewrite (proj2 (String.eqb_neq _ _) Hdir) in Href.
  apply M_bind_ok_inv in Href as ([] & s5 & Hmk & Href).
  unfold in_world in Hmk. destruct (fs_MkdirAll (va_stateDir v) w2) as [rm wm] eqn:Em.
  injection Hmk as -> <-.
  apply M_bind_ok_inv in Href as (data & s6 & Hm & Href). injection Hm as Hm <-.
  unfold in_world in Href.
  destruct (fs_WriteFile _ data wm) as [rw ww] eqn:Ew. injection Href as -> <- <-.
  apply fs_write_read in Ew. cbn [va_pubKeys set_pubKeys] in *.
  assert (usable_keys range2 (ko_Keys out) = usable_keys range1 (ko_Keys out)) as Heq
    by (by eapply usable_keys_perm).
  split.
  { intros Hemp. rewrite Hemp in Esz. done. }
  unfold loadCachedKeys, mbind, M_bind, get_vault. cbn [fst]. rewrite Hdir1.
  rewrite (proj2 (String.eqb_neq _ _) Hdir). unfold read_file.
  assert (cachePath v1 = cachePath (set_pubKeys (usable_keys range1 (ko_Keys out)) v2)) as ->
    by (unfold cachePath; cbn; by rewrite Hdir1, Hd2).
  rewrite Ew. unfold mlift. rewrite (Unmarshal_Marshal _ _ Hwf Hm).
  by rewrite Heq, Esz.
Qed.
End key_cache.
