(* ===== verification/ToyVault.v ===== *)
(** * A concrete Vault

    A world on which the relay's theorems can be evaluated: a disk, a Vault that
    accepts one token, signs with one key and stores documents, all on the toy
    codec and the toy signature scheme of Interfaces.v. *)

From S2P Require Import Prelude GoStrings GoNum GoBase64 Interfaces Host ServerConfig VaultClient.

Open Scope string_scope.
Open Scope list_scope.
Open Scope Z_scope.

#[export] Instance LoginOut_eq_dec : EqDecision LoginOut.
Proof. solve_decision. Defined.
#[export] Instance LoginOut_countable : Countable LoginOut.
Proof. by refine (inj_countable' lo_ClientToken mkLoginOut _); intros []. Defined.
#[export] Instance SignOut_eq_dec : EqDecision SignOut.
Proof. solve_decision. Defined.
#[export] Instance SignOut_countable : Countable SignOut.
Proof. by refine (inj_countable' so_Signature mkSignOut _); intros []. Defined.
#[export] Instance KeysOut_eq_dec : EqDecision KeysOut.
Proof. solve_decision. Defined.
#[export] Instance KeysOut_countable : Countable KeysOut.
Proof. by refine (inj_countable' ko_Keys mkKeysOut _); intros []. Defined.
#[export] Instance KVOut_eq_dec : EqDecision KVOut.
Proof. solve_decision. Defined.
#[export] Instance KVOut_countable : Countable KVOut.
Proof. by refine (inj_countable' kv_Data mkKVOut _); intros []. Defined.
#[export] Instance SealOut_eq_dec : EqDecision SealOut.
Proof. solve_decision. Defined.
#[export] Instance SealOut_countable : Countable SealOut.
Proof.
  refine (inj_countable' (λ s, (se_Sealed s, se_Initialized s)) (λ '(a, b), mkSealOut a b) _).
  by intros [].
Defined.

#[export] Instance toy_vault_json : VaultJSON := {|
  vj_login := ToyJSON.toy_json LoginOut;
  vj_sign := ToyJSON.toy_json SignOut;
  vj_keys := ToyJSON.toy_json KeysOut;
  vj_kv := ToyJSON.toy_json KVOut;
  vj_seal := ToyJSON.toy_json SealOut;
  vj_strings := ToyJSON.toy_json (gmap string string)
|}.

#[export] Instance toy_strings_laws :
  @JSONLaws (gmap string string) (@vj_strings toy_vault_json) (λ _, True) :=
  ToyJSON.toy_json_laws _.

#[export] Existing Instance ToyCrypto.toy_ed25519.

Record World := mkWorld {
  wd_files : gmap string string;
  wd_kv : gmap string string;
  wd_token : string;      (* the token this Vault accepts *)
  wd_key : string;        (* the transit private key, version 1 *)
  wd_down : bool          (* unreachable *)
}.

Definition set_files (f : gmap string string) (w : World) : World :=
  mkWorld f (wd_kv w) (wd_token w) (wd_key w) (wd_down w).
Definition set_kv (k : gmap string string) (w : World) : World :=
  mkWorld (wd_files w) k (wd_token w) (wd_key w) (wd_down w).

#[export] Instance world_fs : FileSystem World := {|
  fs_ReadFile p w := match wd_files w !! p with Some s => Ok s | None => Err (errNotExist p) end;
  fs_WriteFile p d w := (Ok (), set_files (<[p := d]> (wd_files w)) w);
  fs_MkdirAll p w := (Ok (), w)
|}.

#[export] Instance world_fs_laws : FileSystemLaws World.
Proof.
  split; cbn.
  - intros p d w w' [= <-]. cbn. by rewrite lookup_insert_eq.
  - intros p q d w Hne. cbn. by rewrite lookup_insert_ne.
  - done.
Qed.

Definition json_ok {A} `{JSON A} (a : A) : HTTPResp :=
  mkHTTPResp 200 "200 OK" (match Marshal a with Ok s => s | Err _ => "" end).
Definition not_found : HTTPResp := mkHTTPResp 404 "404 Not Found" "{}".

(** [{"data":doc}], without the envelope. *)
Definition unwrap_data (b : string) : string :=
  let b := TrimPrefix b ("{" +:+ dquote +:+ "data" +:+ dquote +:+ ":") in
  stake (len b - 1) b.

(** An empty document would not be JSON; it is kept as null. *)
Definition toy_reenc (d : string) : string := if (d =? "")%string then "null" else d.

Definition toy_do (addr : string) (q : HTTPReq) : M World HTTPResp := λ w,
  let path := TrimPrefix (hq_url q) (addr +:+ "/v1/") in
  if wd_down w then (Err (errorf "connection refused"), w)
  else if (path =? "sys/seal-status")%string then (Ok (json_ok (mkSealOut false true)), w)
  else if negb (bool_decide (hq_token q = Some (wd_token w)))
  then (Ok (mkHTTPResp 403 "403 Forbidden" "permission denied"), w)
  else if HasPrefix path "secret/data/" then
    let p := TrimPrefix path "secret/data/" in
    if (hq_method q =? "GET")%string
    then match wd_kv w !! p with
         | None => (Ok not_found, w)
         | Some doc => (Ok (json_ok (mkKVOut doc)), w)
         end
    else (Ok (mkHTTPResp 204 "204 No Content" ""),
          set_kv (<[p := toy_reenc (unwrap_data (default "" (hq_body q)))]> (wd_kv w)) w)
  else if HasPrefix path "transit/sign/" then
    match Decode (A := gmap string string) (default "" (hq_body q)) with
    | Err _ => (Ok (mkHTTPResp 400 "400 Bad Request" ""), w)
    | Ok body =>
        match std_decode (default "" (body !! "input")) with
        | None => (Ok (mkHTTPResp 400 "400 Bad Request" ""), w)
        | Some msg =>
            (Ok (json_ok (mkSignOut ("vault:v1:" +:+ std_encode (ed_sign (wd_key w) msg)))), w)
        end
    end
  else if HasPrefix path "transit/export/public-key/" then
    (Ok (json_ok (mkKeysOut {["1" := std_encode (ed_public (wd_key w))]})), w)
  else (Ok not_found, w).

Definition toy_addr := "http://vault:8200".
#[export] Instance toy_http : VaultHTTP World := toy_do toy_addr.

Definition transit_sk : string := pad_to 64 "transit-seed".
Definition toy_world : World := mkWorld ∅ ∅ "tok" transit_sk false.
Definition toy_config : Config :=
  mkConfig ":8080" "admin" "/pki" (toy_addr +:+ "/") "" "tok" "" "" "assertions" "".
Definition toy_vault : vault := newVault toy_config.

(** ** The Vault theorems, evaluated *)
From S2P Require Import VaultProofs.

Lemma Verify_by_version_witness :
  let v := set_pubKeys {[1 := ed_public transit_sk]} toy_vault in
  Verify v "doc" (transit_signature 1 (ed_sign transit_sk "doc")) = true.
Proof.
  intros v. eapply (@Verify_by_version _ ToyCrypto.toy_ed25519_laws v 1);
    vm_compute; try reflexivity. discriminate.
Defined.

Lemma call_follows_token_sink_witness :
  let v := mkVault toy_addr "assertions" "/pki" "" "" "" "/sink" "old" ∅ in
  let w := mkWorld {["/sink" := "tok" +:+ nl]} ∅ "tok" transit_sk false in
  va_token (fst (call (W := logged) (H0 := logged_http) (H := logged_fs)
                  "GET" "transit/export/public-key/assertions" None true (v, ([], w))).2) = "tok".
Proof.
  intros v w.
  refine (eq_trans (proj2 (call_follows_token_sink "GET" "transit/export/public-key/assertions" v [] w
    (mkHTTPResp 403 "403 Forbidden" "permission denied") w ("tok" +:+ nl) _ _ _ _ _)) _);
    try (vm_compute; reflexivity). all: vm_compute; discriminate.
Defined.

Lemma refresh_then_load_cached_witness :
  let s := (refreshKeys map_to_list (toy_vault, toy_world)).2 in
  va_pubKeys (fst s) ≠ ∅ ∧
  loadCachedKeys map_to_list (toy_vault, snd s)
  = (Ok (), (set_pubKeys (va_pubKeys (fst s)) toy_vault, snd s)).
Proof.
  intros s.
  apply (refresh_then_load_cached map_to_list map_to_list toy_vault toy_world _ _ toy_vault (λ _, True)
           (JSONLaws0 := toy_strings_laws)); try done.
  intros b s1 out Hc Hd. split; [done|].
    assert (Ok b = Ok (hs_body (json_ok (mkKeysOut {["1" := std_encode (ed_public transit_sk)]})))) as Hb.
    { transitivity (call "GET" ("transit/export/public-key/" +:+ va_transit toy_vault) None true
        (toy_vault, toy_world)).1; [by rewrite Hc|vm_compute; reflexivity]. }
    injection Hb as ->.
    assert (Ok out = Ok (mkKeysOut {["1" := std_encode (ed_public transit_sk)]})) as Ho
      by (rewrite <-Hd; vm_compute; reflexivity).
    injection Ho as ->. intros a c n Ha Hc' _ _. cbn in Ha, Hc'.
    apply lookup_singleton_is_Some in Ha, Hc'. congruence.
Defined.
