(* ===== verification/OperatorStore.v ===== *)
(** * The operator account (server/operator.go)

    One username, one password hash, one session key.  Vault is the source of
    truth and the record is cached on disk.  The outer [res] of the password
    functions is a panic of [argon2.IDKey]; the inner one is the [error] they
    return. *)

From Stdlib Require Import Ascii.
From S2P Require Import Prelude GoStrings GoNum GoBase64 Interfaces Host ServerConfig VaultClient.

Open Scope string_scope.
Open Scope list_scope.
Open Scope Z_scope.

Definition operatorVaultPath := "beacon/operator".
Definition operatorCacheFile := "operator.json".
Definition argonTime : Z := 3.
Definition argonMemory : Z := 64 * 1024.
Definition argonThreads : Z := 4.
Definition argonKeyLen : Z := 32.
Definition argonSaltLen : Z := 16.
Definition argon2_Version : Z := 19.    (* argon2.Version *)

Record operator := mkOperator {
  op_Username : string;
  op_PasswordPH : string;
  op_SessionKey : string;
  op_UpdatedAt : Z
}.

#[export] Instance operator_eq_dec : EqDecision operator.
Proof. solve_decision. Defined.
#[export] Instance operator_countable : Countable operator.
Proof.
  refine (inj_countable' (λ r, (op_Username r, op_PasswordPH r, op_SessionKey r, op_UpdatedAt r))
                         (λ '(u, p, k, t), mkOperator u p k t) _).
  by intros [].
Defined.

Record operatorStore := mkOperatorStore { os_stateDir : string; os_rec : option operator }.
Definition newOperatorStore (stateDir : string) : operatorStore := mkOperatorStore stateDir None.

Definition current (s : operatorStore) : option operator := os_rec s.
Definition exists_ (s : operatorStore) : bool := bool_decide (is_Some (current s)).
Definition set_rec (rec : operator) (s : operatorStore) : operatorStore :=
  mkOperatorStore (os_stateDir s) (Some rec).

Definition errNoOperator : error := mkError "no operator account stored" [ErrNoOperator].

(** [strings.TrimSpace] aside, credentials only have to be there and short. *)
Definition validateCredentials (username password : string) : res () :=
  if (username =? "")%string then Err (errorf "a username is required")
  else if 64 <? len username then Err (errorf "that username is too long")
  else if (password =? "")%string then Err (errorf "a password is required")
  else if 1024 <? len password then Err (errorf "that password is too long")
  else Ok ().

(** ** Password hashing *)
Section hashing.
  Context `{Argon2}.

(** [rnd] is what [rand.Read] put into the salt. *)
Definition hashPassword (password : string) (rnd : res string) : res (res string) :=
  match rnd with
  | Err e => Ok (Err e)
  | Ok salt =>
      key ← IDKey password salt argonTime argonMemory argonThreads argonKeyLen;
      Ok (Ok ("$argon2id$v=" +:+ itoa argon2_Version +:+ "$m=" +:+ itoa argonMemory +:+ ",t="
              +:+ itoa argonTime +:+ ",p=" +:+ itoa argonThreads +:+ "$"
              +:+ rawstd_encode salt +:+ "$" +:+ rawstd_encode key))
  end.

Definition scan_lit (lit s : string) : option string :=
  if HasPrefix s lit then Some (TrimPrefix s lit) else None.

(** [fmt.Sscanf(s, "v=%d", &version)]; what follows is not looked at. *)
Definition scan_version (s : string) : option Z :=
  s ← scan_lit "v=" s; '(n, _) ← scan_int s; Some n.

(** [fmt.Sscanf(s, "m=%d,t=%d,p=%d", &memory, &t, &threads)] into a uint32, a
    uint32 and a uint8. *)
Definition scan_params (s : string) : option (Z * Z * Z) :=
  s ← scan_lit "m=" s; '(m, s) ← scan_uint 32 s;
  s ← scan_lit ",t=" s; '(t, s) ← scan_uint 32 s;
  s ← scan_lit ",p=" s; '(p, _) ← scan_uint 8 s;
  Some (Z.of_N m, Z.of_N t, Z.of_N p).

Definition verifyPassword (encoded password : string) : res (res bool) :=
  match Split encoded 36 with
  | [_; kind; ver; params; salt64; key64] =>
      if negb (kind =? "argon2id")%string
      then Ok (Err (errorf "unrecognised password hash format"))
      else match scan_version ver with
           | None => Ok (Err (errorf "input does not match format"))
           | Some _ =>
               match scan_params params with
               | None => Ok (Err (errorf "input does not match format"))
               | Some (memory, t, threads) =>
                   match rawstd_decode salt64, rawstd_decode key64 with
                   | Some salt, Some want =>
                       got ← IDKey password salt t memory threads (wrap_u 32 (len want));
                       Ok (Ok (got =? want)%string)
                   | _, _ => Ok (Err (errorf "illegal base64 data"))
                   end
               end
           end
  | _ => Ok (Err (errorf "unrecognised password hash format"))
  end.

(** The wrong username costs a hash too; an unusable stored hash is a refusal. *)
Definition verify (s : operatorStore) (username password : string) : res bool :=
  match current s with
  | None => Ok false
  | Some rec =>
      if negb (TrimSpace username =? op_Username rec)%string
      then _ ← verifyPassword (op_PasswordPH rec) password; Ok false
      else
        r ← verifyPassword (op_PasswordPH rec) password;
        match r with Err _ => Ok false | Ok ok => Ok ok end
  end.
End hashing.

Definition randomKey (rnd : res string) : res string := b ← rnd; Ok (rawstd_encode b).

(** ** Vault and the cache *)
Section store.
  Context {W : Type} `{FileSystem W} `{VaultHTTP W} `{VaultJSON} `{JSON operator} `{Argon2}.

Notation OM := (M (operatorStore * (vault * W))).

Definition in_vault {A} (m : M (vault * W) A) : OM A :=
  λ '(s, vw), let '(r, vw) := m vw in (r, (s, vw)).
Definition get_store : OM operatorStore := λ s, (Ok (fst s), s).
Definition set (rec : operator) : OM () := λ '(s, vw), (Ok (), (set_rec rec s, vw)).

Definition readVault : M (vault * W) operator :=
  v ← get_vault;
  if negb (configured v) then mthrow errNoOperator
  else
    found ← kvGet (A := operator) operatorVaultPath;
    match found with
    | None => mthrow errNoOperator
    | Some rec => if (op_Username rec =? "")%string then mthrow errNoOperator else mret rec
    end.

Definition writeVault (rec : operator) : M (vault * W) () :=
  v ← get_vault;
  if negb (configured v)
  then mthrow (errorf "no Vault configured, so there is nowhere durable to save this")
  else kvPut operatorVaultPath rec.

Definition operator_cachePath (s : operatorStore) : string :=
  filepath_Join (os_stateDir s) operatorCacheFile.

Definition writeCache (s : operatorStore) (rec : operator) : M (vault * W) () :=
  if (os_stateDir s =? "")%string then mret ()
  else
    in_world (fs_MkdirAll (os_stateDir s));;
    data ← mlift (Marshal rec);
    in_world (fs_WriteFile (operator_cachePath s) data).

Definition readCache (s : operatorStore) : M (vault * W) operator :=
  if (os_stateDir s =? "")%string then mthrow errNoOperator
  else
    data ← read_file (operator_cachePath s);
    rec ← mlift (Unmarshal data);
    if (op_Username rec =? "")%string || (op_PasswordPH rec =? "")%string
    then mthrow errNoOperator else mret rec.

Definition load : OM () :=
  r ← in_vault (attempt readVault);
  match r with
  | Ok rec =>
      set rec;;
      s ← get_store;
      in_vault (attempt (writeCache s rec));;
      mret ()
  | Err _ =>
      s ← get_store;
      r ← in_vault (attempt (readCache s));
      match r with
      | Err _ => mret ()
      | Ok rec => set rec
      end
  end.

(** [salt] and [key] are the results of [rand.Read], [now] of [time.Now].  The
    outer [res] is a panic. *)
Definition save (username password : string) (rotateSessions : bool)
    (salt key : res string) (now : Z) : OM (res ()) :=
  let username := TrimSpace username in
  match validateCredentials username password with
  | Err e => mret (Err e)
  | Ok _ =>
      ph ← mlift (hashPassword password salt);
      match ph with
      | Err e => mret (Err e)
      | Ok ph =>
          s ← get_store;
          let kept := match current s with
                      | Some cur => if negb rotateSessions then op_SessionKey cur else ""
                      | None => ""
                      end in
          match (if (kept =? "")%string then randomKey key else Ok kept) with
          | Err e => mret (Err e)
          | Ok sessionKey =>
              let rec := mkOperator username ph sessionKey now in
              r ← in_vault (attempt (writeVault rec));
              match r with
              | Err e => mret (Err (wrapf "saving to Vault: " e))
              | Ok _ =>
                  in_vault (attempt (writeCache s rec));;
                  set rec;;
                  mret (Ok ())
              end
          end
      end
  end.
End store.
