(* ===== verification/OperatorProofs.v ===== *)
(** * What the operator account guarantees *)

From Stdlib Require Import Ascii.
From S2P Require Import Prelude GoStrings GoNum GoBase64 Interfaces Host ServerConfig VaultClient.
From S2P Require Import VaultProofs ToyVault OperatorStore.

Open Scope string_scope.
Open Scope list_scope.
Open Scope Z_scope.

Section hashes.
  Context `{Argon2Laws}.

(** The text of a hash, taken apart the way [verifyPassword] does. *)
Lemma hash_Split salt key :
  Split ("$argon2id$v=" +:+ itoa argon2_Version +:+ "$m=" +:+ itoa argonMemory +:+ ",t="
         +:+ itoa argonTime +:+ ",p=" +:+ itoa argonThreads +:+ "$"
         +:+ rawstd_encode salt +:+ "$" +:+ rawstd_encode key) 36
  = [""; "argon2id"; "v=19"; "m=65536,t=3,p=4"; rawstd_encode salt; rawstd_encode key].
Proof.
  assert (∀ s, no_char 36 (rawstd_encode s) = true) as Hn by (intros s; by apply b64_encode_no_char).
  generalize (Hn salt) (Hn key). generalize (rawstd_encode salt) (rawstd_encode key).
  clear. intros s k Hs Hk.
  transitivity (Split ("" +:+ String (byte 36) ("argon2id" +:+ String (byte 36) ("v=19"
    +:+ String (byte 36) ("m=65536,t=3,p=4" +:+ String (byte 36) (s +:+ String (byte 36) k))))) 36);
    [reflexivity|].
  rewrite !Split_app by done. by rewrite Split_no_char.
Qed.

Lemma hashPassword_inv pw salt h :
  hashPassword pw (Ok salt) = Ok (Ok h) →
  ∃ key, IDKey pw salt argonTime argonMemory argonThreads argonKeyLen = Ok key ∧
    len key = argonKeyLen ∧
    Split h 36 = [""; "argon2id"; "v=19"; "m=65536,t=3,p=4"; rawstd_encode salt; rawstd_encode key].
Proof.
  unfold hashPassword. destruct (IDKey_ok pw salt argonTime argonMemory argonThreads argonKeyLen)
    as (key & Hk & Hl); [done..|]. rewrite Hk. cbn [mbind res_bind]. intros [= <-].
  exists key. by rewrite hash_Split.
Qed.

Lemma hashPassword_total pw salt : ∃ h, hashPassword pw (Ok salt) = Ok (Ok h).
Proof.
  unfold hashPassword. destruct (IDKey_ok pw salt argonTime argonMemory argonThreads argonKeyLen)
    as (key & -> & _); [done..|]. by eexists.
Qed.

(** A stored hash accepts exactly the passwords with the same derived key, read
    with the parameters it was made with; in particular it accepts its own, and
    it never makes the check fail or panic. *)
Theorem password_hash_roundtrip pw salt h :
  hashPassword pw (Ok salt) = Ok (Ok h) →
  verifyPassword h pw = Ok (Ok true) ∧
  ∀ pw', ∃ k k',
    IDKey pw salt argonTime argonMemory argonThreads argonKeyLen = Ok k ∧
    IDKey pw' salt argonTime argonMemory argonThreads argonKeyLen = Ok k' ∧
    verifyPassword h pw' = Ok (Ok (k' =? k)%string).
Proof.
  intros Hh. apply hashPassword_inv in Hh as (key & Hk & Hl & Hs).
  assert (∀ pw', verifyPassword h pw'
    = (got ← IDKey pw' salt argonTime argonMemory argonThreads argonKeyLen; Ok (Ok (got =? key)%string)))
    as Hv.
  { intros pw'. unfold verifyPassword. rewrite Hs. cbn [negb String.eqb].
    change (scan_version "v=19") with (Some 19).
    change (scan_params "m=65536,t=3,p=4") with (Some (argonMemory, argonTime, argonThreads)).
    rewrite !rawstd_decode_encode, Hl. done. }
  split.
  - rewrite Hv, Hk. cbn. by rewrite String.eqb_refl.
  - intros pw'. destruct (IDKey_ok pw' salt argonTime argonMemory argonThreads argonKeyLen)
      as (k' & Hk' & _); [done..|].
    exists key, k'. by rewrite Hv, Hk'.
Qed.
End hashes.

Section accounts.
  Context {W : Type} `{FileSystem W} `{VaultHTTP W} `{VaultJSON} `{JSON operator} `{Argon2Laws}.

(** What a successful [save] has done. *)
Lemma save_ok_inv username password rotate salt key now s s' :
  save username password rotate salt key now s = (Ok (Ok ()), s') →
  ∃ ph sessionKey vw1 r2,
    validateCredentials (TrimSpace username) password = Ok () ∧
    hashPassword password salt = Ok (Ok ph) ∧
    let rec := mkOperator (TrimSpace username) ph sessionKey now in
    (rotate = true → randomKey key = Ok sessionKey) ∧
    writeVault rec (snd s) = (Ok (), vw1) ∧
    writeCache (fst s) rec vw1 = (r2, snd s') ∧
    fst s' = set_rec rec (fst s).
Proof.
  destruct s as [st vw]. unfold save, mbind, M_bind.
  destruct (validateCredentials _ _) as [[]|e] eqn:Ev; [|done].
  unfold mlift. destruct (hashPassword password salt) as [[ph|e]|e]; [|done..].
  unfold get_store. cbn [fst snd].
  set (kept := match current st with Some cur => _ | None => _ end).
  destruct (if (kept =? "")%string then _ else _) as [sk|e] eqn:Ek; [|done].
  unfold in_vault, attempt.
  destruct (writeVault _ vw) as [[[]|e] vw1] eqn:Ew; [|done].
  destruct (writeCache st _ vw1) as [r2 vw2] eqn:Ec. cbn.
  intros [= <-]. exists ph, sk, vw1, r2. split_and!; try done. cbn.
  intros ->. subst kept. destruct (current st); by cbn in Ek.
Qed.

Lemma verify_saved st username ph sk now password salt :
  hashPassword password salt = Ok (Ok ph) →
  verify (set_rec (mkOperator (TrimSpace username) ph sk now) st) username password = Ok true.
Proof.
  intros Hh. destruct salt as [salt|]; [|done].
  pose proof (password_hash_roundtrip _ _ _ Hh) as [Hv _].
  unfold verify. cbn. rewrite String.eqb_refl. cbn. by rewrite Hv.
Qed.

(** A password change that reports success took: the operator can sign in with
    it at once, under the name as typed, and sessions signed with the previous
    key are no longer signed with the current one when rotation was asked for.
    One that reports failure left the account as it was. *)
Theorem save_then_verify username password salt key now s r s' :
  save username password true salt key now s = (r, s') →
  match r with
  | Ok (Ok _) =>
      verify (fst s') username password = Ok true ∧
      ∃ rec, current (fst s') = Some rec ∧ op_Username rec = TrimSpace username ∧
             Ok (op_SessionKey rec) = randomKey key ∧ password ≠ ""
  | _ => fst s' = fst s
  end.
Proof.
  destruct r as [[[]|e]|e]; intros Hs.
  - apply save_ok_inv in Hs as (ph & sk & vw1 & r2 & Hval & Hh & Hk & Hw & Hc & Hf).
    rewrite Hf. split; [by eapply verify_saved|].
    eexists. split_and!; [done|done|by rewrite Hk|].
    unfold validateCredentials in Hval. intros ->. cbn in Hval. by repeat case_match.
  - destruct s as [st vw]. unfold save, mbind, M_bind in Hs.
    destruct (validateCredentials _ _) as [[]|e']; [|by injection Hs as _ <-].
    unfold mlift in Hs. destruct (hashPassword password salt) as [[ph|e']|e'];
      [|by injection Hs as _ <-|done].
    unfold get_store in Hs. cbn [fst snd] in Hs.
    destruct (if (_ =? _)%string then _ else _) as [sk|e']; [|by injection Hs as _ <-].
    unfold in_vault, attempt in Hs.
    destruct (writeVault _ vw) as [[[]|e'] vw1]; [|by injection Hs as _ <-].
    by destruct (writeCache st _ vw1) as [r2 vw2].
  - destruct s as [st vw]. unfold save, mbind, M_bind in Hs.
    destruct (validateCredentials _ _) as [[]|e']; [|done].
    unfold mlift in Hs. destruct (hashPassword password salt) as [[ph|e']|e'];
      [|done|by injection Hs as _ <-].
    unfold get_store in Hs. cbn [fst snd] in Hs.
    destruct (if (_ =? _)%string then _ else _) as [sk|e']; [|done].
    unfold in_vault, attempt in Hs.
    destruct (writeVault _ vw) as [[[]|e'] vw1]; [|done].
    by destruct (writeCache st _ vw1) as [r2 vw2].
Qed.

(** ** Starting while Vault is sealed *)
Lemma writeCache_readable `{!FileSystemLaws W} `{!JSONLaws operator wf} st rec vw vw' :
  wf rec → os_stateDir st ≠ "" → writeCache st rec vw = (Ok (), vw') →
  ∃ data, fs_ReadFile (operator_cachePath st) (snd vw') = Ok data ∧ Unmarshal data = Ok rec.
Proof.
  intros Hwf Hdir Hw. destruct vw as [v w]. unfold writeCache in Hw.
  rewrite (proj2 (String.eqb_neq _ _) Hdir) in Hw.
  apply M_bind_ok_inv in Hw as ([] & s1 & Hmk & Hw). unfold in_world in Hmk.
  destruct (fs_MkdirAll _ w) as [rm wm]. injection Hmk as -> <-.
  apply M_bind_ok_inv in Hw as (data & s2 & Hm & Hw). injection Hm as Hm <-.
  unfold in_world in Hw. destruct (fs_WriteFile _ data wm) as [rw ww] eqn:Ew.
  injection Hw as -> <-. apply fs_write_read in Ew.
  exists data. split; [done|]. by eapply Unmarshal_Marshal.
Qed.

Lemma readCache_from st rec data v w :
  os_stateDir st ≠ "" → op_Username rec ≠ "" → op_PasswordPH rec ≠ "" →
  fs_ReadFile (operator_cachePath st) w = Ok data → Unmarshal data = Ok rec →
  readCache st (v, w) = (Ok rec, (v, w)).
Proof.
  intros Hdir Hu Hp Hr Hm. unfold readCache. rewrite (proj2 (String.eqb_neq _ _) Hdir).
  unfold mbind, M_bind, read_file. rewrite Hr. unfold mlift. rewrite Hm.
  by rewrite (proj2 (String.eqb_neq _ _) Hu), (proj2 (String.eqb_neq _ _) Hp).
Qed.

(** What a successful [save] leaves on disk, and what it lets in. *)
Lemma saved_cached `{!FileSystemLaws W} `{!JSONLaws operator wf} username password rotate salt key now s s' rec :
  save username password rotate salt key now s = (Ok (Ok ()), s') →
  current (fst s') = Some rec → wf rec → os_stateDir (fst s) ≠ "" →
  (∀ vw1, writeVault rec (snd s) = (Ok (), vw1) → ∃ vw2, writeCache (fst s) rec vw1 = (Ok (), vw2)) →
  ∃ data, fs_ReadFile (operator_cachePath (fst s)) (snd (snd s')) = Ok data ∧ Unmarshal data = Ok rec ∧
    op_Username rec ≠ "" ∧ op_PasswordPH rec ≠ "" ∧
    ∀ st, verify (set_rec rec st) username password = Ok true.
Proof.
  intros Hs Hcur Hwf Hdir Hcache.
  apply save_ok_inv in Hs as (ph & sk & vw1 & r2 & Hval & Hh & _ & Hw & Hc & Hf).
  rewrite Hf in Hcur. cbn in Hcur. injection Hcur as <-.
  destruct (Hcache _ Hw) as [vw2 Hc2]. rewrite Hc2 in Hc. injection Hc as <- Hvw. subst vw2.
  apply writeCache_readable in Hc2 as (data & Hr & Hm); [|done..].
  exists data. split_and!; [done..| | |].
  - cbn. unfold validateCredentials in Hval. intros Hu. by rewrite Hu in Hval.
  - cbn. destruct salt as [salt|]; [|done]. apply hashPassword_inv in Hh as (k & _ & _ & Hsp). by intros ->.
  - intros st. by eapply verify_saved.
Qed.

(** A store that starts while Vault cannot be read takes what the cache holds. *)
Lemma load_from_cache st v w v' w' e rec data :
  readVault (v, w) = (Err e, (v', w')) → os_stateDir st ≠ "" →
  op_Username rec ≠ "" → op_PasswordPH rec ≠ "" →
  fs_ReadFile (operator_cachePath st) w' = Ok data → Unmarshal data = Ok rec →
  load (st, (v, w)) = (Ok (), (set_rec rec st, (v', w'))).
Proof.
  intros Hdown Hdir Hu Hp Hr Hm. unfold load, mbind, M_bind, in_vault, attempt, get_store. rewrite Hdown. cbn [fst].
  by erewrite readCache_from.
Qed.

(** A relay that restarts while Vault cannot be read still lets its operator in
    with the password last saved, provided the cache could be written then and
    the file is still there now. *)
Theorem operator_survives_sealed_vault `{!FileSystemLaws W} `{!JSONLaws operator wf}
    username password salt key now s s' rec v2 w2 v3 w3 e :
  save username password true salt key now s = (Ok (Ok ()), s') →
  current (fst s') = Some rec → wf rec →
  os_stateDir (fst s) ≠ "" →
  (∀ vw1, writeVault rec (snd s) = (Ok (), vw1) → ∃ vw2, writeCache (fst s) rec vw1 = (Ok (), vw2)) →
  readVault (v2, w2) = (Err e, (v3, w3)) →
  (let path := operator_cachePath (fst s) in
   fs_ReadFile path w3 = fs_ReadFile path (snd (snd s'))) →
  let s2 := (load (newOperatorStore (os_stateDir (fst s)), (v2, w2))).2 in
  current (fst s2) = Some rec ∧ verify (fst s2) username password = Ok true.
Proof.
  intros Hs Hcur Hwf Hdir Hcache Hdown Hfile.
  destruct (saved_cached _ _ _ _ _ _ _ _ _ Hs Hcur Hwf Hdir Hcache) as (data & Hr & Hm & Hu & Hp & Hv).
  cbn zeta. erewrite load_from_cache; [|done..|by rewrite <-Hr|done]. cbn [fst snd]. split; [done|apply Hv].
Qed.

(** A store that can read Vault takes what Vault holds. *)
Lemma load_reads_vault st v w rec vw' :
  readVault (v, w) = (Ok rec, vw') → ∃ r vw2, load (st, (v, w)) = (r, (set_rec rec st, vw2)).
Proof.
  intros Hr. unfold load, mbind, M_bind, in_vault, attempt, get_store, set. rewrite Hr. cbn.
  destruct (writeCache _ rec vw') as [r2 vw2]. by eexists _, _.
Qed.

(** Vault wins over the cache whenever it can be read. *)
Lemma load_prefers_vault st v w rec vw' :
  readVault (v, w) = (Ok rec, vw') → current (fst (load (st, (v, w))).2) = Some rec.
Proof.
  intros Hr. by destruct (load_reads_vault st v w rec vw' Hr) as (r & vw2 & ->).
Qed.
End accounts.

(** ** Witnesses *)
#[export] Existing Instance ToyCrypto.toy_argon2.
#[export] Instance toy_operator_json : JSON operator := ToyJSON.toy_json operator.
#[export] Instance toy_operator_laws : JSONLaws operator (λ _, True) := ToyJSON.toy_json_laws operator.

Definition toy_ops : operatorStore * (vault * World) :=
  (newOperatorStore "/pki", (setToken "tok" toy_vault, toy_world)).
Definition toy_saved := (save " ana " "correct horse" true (Ok "0123456789abcdef") (Ok "session") 9 toy_ops).2.

Lemma password_hash_roundtrip_witness :
  ∃ h, hashPassword "pw" (Ok "0123456789abcdef") = Ok (Ok h) ∧ verifyPassword h "pw" = Ok (Ok true).
Proof.
  eexists. split; [vm_compute; reflexivity|].
  eapply (password_hash_roundtrip (H0 := ToyCrypto.toy_argon2_laws) "pw" "0123456789abcdef").
  vm_compute. reflexivity.
Defined.

Lemma save_then_verify_witness : verify (fst toy_saved) " ana " "correct horse" = Ok true.
Proof.
  eapply (save_then_verify (H4 := ToyCrypto.toy_argon2_laws) " ana " "correct horse"
            (Ok "0123456789abcdef") (Ok "session") 9 toy_ops (Ok (Ok ()))).
  apply run_result. vm_compute. reflexivity.
Defined.

Definition down_world (w : World) : World :=
  mkWorld (wd_files w) (wd_kv w) (wd_token w) (wd_key w) true.

Lemma operator_survives_sealed_vault_witness :
  verify (fst (load (newOperatorStore "/pki",
                (setToken "tok" toy_vault, down_world (snd (snd toy_saved))))).2)
    " ana " "correct horse" = Ok true.
Proof.
  eapply (operator_survives_sealed_vault (H4 := ToyCrypto.toy_argon2_laws) " ana " "correct horse"
            (Ok "0123456789abcdef") (Ok "session") 9 toy_ops toy_saved).
  - apply run_result. vm_compute. reflexivity.
  - vm_compute. reflexivity.
  - done.
  - vm_compute. discriminate.
  - intros [v w] _. eexists. reflexivity.
  - reflexivity.
  - reflexivity.
Defined.
