(* ===== verification/GoNet.v ===== *)
(** * net and net/netip

    [net.SplitHostPort], [netip.ParseAddr], [netip.ParsePrefix] and
    [Prefix.Contains], as the relay and the agent use them. *)

From Stdlib Require Import Ascii.
From S2P Require Import Prelude GoStrings GoNum.

Open Scope string_scope.
Open Scope list_scope.
Open Scope Z_scope.

(** The part before and after the last occurrence of a character. *)
Fixpoint CutLast (s : string) (n : N) : option (string * string) :=
  match s with
  | EmptyString => None
  | String c s' =>
      match CutLast s' n with
      | Some (a, b) => Some (String c a, b)
      | None => if is_char n c then Some ("", s') else None
      end
  end.

(** [net.SplitHostPort] *)
Definition SplitHostPort (hostport : string) : option (string * string) :=
  match CutLast hostport 58 with
  | None => None                                   (* missing port *)
  | Some (before, port) =>
      match hostport with
      | String c rest =>
          if is_char 91 c then
            match Cut rest "]" with
            | None => None
            | Some (host, after) =>
                if (after =? ":" +:+ port)%string && no_char 91 host && no_char 91 after
                   && no_char 93 after
                then Some (host, port) else None
            end
          else if no_char 58 before && no_char 91 hostport && no_char 93 hostport
          then Some (before, port) else None
      | EmptyString => None
      end
  end.

(** [net.JoinHostPort] *)
Definition JoinHostPort (host port : string) : string :=
  if negb (no_char 58 host)
  then "[" +:+ host +:+ "]:" +:+ port else host +:+ ":" +:+ port.

(** ** Addresses *)
Record Addr := mkAddr { ad_is4 : bool; ad_bits : Z; ad_zone : string }.

#[export] Instance Addr_eq_dec : EqDecision Addr.
Proof. solve_decision. Defined.

Definition BitLen (a : Addr) : Z := if ad_is4 a then 32 else 128.

(** A decimal field of a dotted quad: no sign, no leading zero, at most 255. *)
Definition quad_field (s : string) : option Z :=
  match s with
  | EmptyString => None
  | String c s' =>
      if schars is_digit s && (negb (is_char 48 c) || (s' =? "")%string) && (len s <=? 3)
      then n ← parse_digits s; if Z.of_N n <=? 255 then Some (Z.of_N n) else None
      else None
  end.

Definition parse_quad (s : string) : option Z :=
  match Split s 46 with
  | [a; b; c; d] =>
      a ← quad_field a; b ← quad_field b; c ← quad_field c; d ← quad_field d;
      Some (((a * 256 + b) * 256 + c) * 256 + d)
  | _ => None
  end.

Definition hex_val (c : ascii) : option Z :=
  let n := val c in
  if (48 <=? n) && (n <=? 57) then Some (n - 48)
  else if (97 <=? n) && (n <=? 102) then Some (n - 87)
  else if (65 <=? n) && (n <=? 70) then Some (n - 55)
  else None.

(** The leading hexadecimal digits: value, how many, the rest. *)
Fixpoint span_hex (s : string) (acc off : Z) : Z * Z * string :=
  match s with
  | String c s' =>
      match hex_val c with
      | Some v => span_hex s' (acc * 16 + v) (off + 1)
      | None => (acc, off, s)
      end
  | EmptyString => (acc, off, "")
  end.

(** The groups of an IPv6 address, most significant first, and the position of
    the "::".  [fuel] bounds the groups: an address has at most eight. *)
Fixpoint v6_groups (fuel : nat) (s : string) (gs : list Z) (ellipsis : option nat)
    : option (list Z * option nat) :=
  match fuel with
  | O => if (s =? "")%string then Some (gs, ellipsis) else None
  | S fuel =>
      let '(acc, off, rest) := span_hex s 0 0 in
      if (off =? 0) || (4 <? off) then None
      else
        match rest with
        | String c rest' =>
            if is_char 46 c then
              if (bool_decide (ellipsis = None) && negb (length gs =? 6)%nat) || (6 <? length gs)%nat
              then None
              else q ← parse_quad s; Some (gs ++ [q / 65536; q mod 65536], ellipsis)
            else if negb (is_char 58 c) || (rest' =? "")%string then None
            else
              let gs := gs ++ [acc] in
              match rest' with
              | String d rest'' =>
                  if is_char 58 d then
                    match ellipsis with
                    | Some _ => None
                    | None => if (rest'' =? "")%string then Some (gs, Some (length gs))
                              else v6_groups fuel rest'' gs (Some (length gs))
                    end
                  else v6_groups fuel rest' gs ellipsis
              | EmptyString => None
              end
        | EmptyString => Some (gs ++ [acc], ellipsis)
        end
  end.

Definition join_groups (gs : list Z) : Z := fold_left (λ acc g, acc * 65536 + g) gs 0.

Definition expand_groups (gs : list Z) (ellipsis : option nat) : option Z :=
  match ellipsis with
  | None => if (length gs =? 8)%nat then Some (join_groups gs) else None
  | Some k =>
      if (length gs <? 8)%nat
      then Some (join_groups (take k gs ++ replicate (8 - length gs) 0 ++ drop k gs))
      else None
  end.

Definition parse_v6 (s : string) : option Addr :=
  '(s, zone) ← match Cut s "%" with
               | Some (a, z) => if (z =? "")%string then None else Some (a, z)
               | None => Some (s, "")
               end;
  if HasPrefix s "::" then
    let s := sdrop 2 s in
    if (s =? "")%string then Some (mkAddr false 0 zone)
    else '(gs, e) ← v6_groups 8 s [] (Some 0%nat); b ← expand_groups gs e; Some (mkAddr false b zone)
  else
    '(gs, e) ← v6_groups 8 s [] None; b ← expand_groups gs e; Some (mkAddr false b zone).

(** The first of '.', ':' and '%' decides the family. *)
Fixpoint first_mark (s : string) : option N :=
  match s with
  | EmptyString => None
  | String c s' => if is_char 46 c then Some 46%N else if is_char 58 c then Some 58%N
                   else if is_char 37 c then Some 37%N else first_mark s'
  end.

Definition ParseAddr (s : string) : option Addr :=
  match first_mark s with
  | Some 46%N => b ← parse_quad s; Some (mkAddr true b "")
  | Some 58%N => parse_v6 s
  | _ => None
  end.

(** [Addr.Unmap]: ::ffff:a.b.c.d becomes a.b.c.d. *)
Definition Unmap (a : Addr) : Addr :=
  if negb (ad_is4 a) && (Z.shiftr (ad_bits a) 32 =? 65535)
  then mkAddr true (ad_bits a mod 2 ^ 32) "" else a.

(** ** Prefixes *)
Record Prefix := mkPrefix { pf_addr : Addr; pf_len : Z }.

#[export] Instance Prefix_eq_dec : EqDecision Prefix.
Proof. solve_decision. Defined.

Definition ParsePrefix (s : string) : option Prefix :=
  '(a, bits) ← CutLast s 47;
  ip ← ParseAddr a;
  if negb (ad_zone ip =? "")%string then None
  else
    match bits with
    | String c rest =>
        if schars is_digit bits && (negb (is_char 48 c) || (rest =? "")%string)
        then n ← parse_digits bits;
             if Z.of_N n <=? BitLen ip then Some (mkPrefix ip (Z.of_N n)) else None
        else None
    | EmptyString => None
    end.

(** [netip.PrefixFrom(a, a.BitLen())]; the zone is dropped. *)
Definition PrefixOf (a : Addr) : Prefix := mkPrefix (mkAddr (ad_is4 a) (ad_bits a) "") (BitLen a).

Definition Prefix_Contains (p : Prefix) (ip : Addr) : bool :=
  (ad_zone ip =? "")%string && Bool.eqb (ad_is4 (pf_addr p)) (ad_is4 ip)
  && (Z.shiftr (ad_bits (pf_addr p)) (BitLen ip - pf_len p)
      =? Z.shiftr (ad_bits ip) (BitLen ip - pf_len p)).

Example parse_v4 : ParseAddr "10.0.0.7" = Some (mkAddr true 167772167 "").
Proof. reflexivity. Qed.
Example parse_v4_leading_zero : ParseAddr "10.0.0.07" = None.
Proof. reflexivity. Qed.
Example parse_v6_loopback : ParseAddr "::1" = Some (mkAddr false 1 "").
Proof. reflexivity. Qed.
Example parse_v6_mapped : Unmap <$> ParseAddr "::ffff:10.0.0.7" = ParseAddr "10.0.0.7".
Proof. reflexivity. Qed.
Example parse_v6_zone : ParseAddr "fe80::1%eth0" = Some (mkAddr false (65152 * 2 ^ 112 + 1) "eth0").
Proof. reflexivity. Qed.
Example parse_v6_bad : ParseAddr "1::2::3" = None ∧ ParseAddr "1:2:3:4:5:6:7:8::" = None.
Proof. done. Qed.
Example split_v6 : SplitHostPort "[::1]:443" = Some ("::1", "443").
Proof. reflexivity. Qed.
Example split_v6_bare : SplitHostPort "::1:443" = None.
Proof. reflexivity. Qed.
