(* ===== verification/Proxies.v ===== *)
(** * Which peers the relay believes about TLS (server/proxies.go) *)

From S2P Require Import Prelude GoStrings GoNum GoBase64 Interfaces GoNet Wire Registry.

Open Scope string_scope.
Open Scope list_scope.
Open Scope Z_scope.

(** [proxySet.nets] *)
Record proxySet := mkProxySet { ps_nets : list Prefix }.

(** One entry of BEACON_TRUSTED_PROXIES; an unusable one is logged and skipped. *)
Definition parse_entry (part : string) : list Prefix :=
  let part := TrimSpace part in
  if (part =? "")%string then []
  else match ParsePrefix part with
       | Some p => [p]
       | None => match ParseAddr part with
                 | Some a => [PrefixOf a]
                 | None => []
                 end
       end.

Definition parseProxies (spec : string) : proxySet :=
  mkProxySet (fold_left (λ nets part, nets ++ parse_entry part) (Split spec 44) []).

Definition proxies_configured (p : proxySet) : bool := (0 <? llen (ps_nets p)).

Definition trusts (p : proxySet) (remoteAddr : string) : bool :=
  if negb (proxies_configured p) then false
  else
    let host := match SplitHostPort remoteAddr with Some (h, _) => h | None => remoteAddr end in
    match ParseAddr host with
    | None => false
    | Some addr => existsb (λ n, Prefix_Contains n (Unmap addr)) (ps_nets p)
    end.

Definition transportOf (p : proxySet) (r : Request) : Transport * string :=
  match rq_tls r with
  | Some version => (TransportTLS, "this relay terminated the handshake, " +:+ version)
  | None =>
      if negb (EqualFold (Header_Get (rq_header r) "X-Forwarded-Proto") "https")
      then (TransportPlain, "")
      else if trusts p (rq_remote r)
      then (TransportTLS, "terminated by a trusted proxy in front of this relay")
      else if proxies_configured p then (TransportPlain, "")
      else (TransportProxyTLS, "")
  end.

(** ** What the list means *)

Lemma parseProxies_spec spec n :
  n ∈ ps_nets (parseProxies spec) ↔ ∃ part, part ∈ Split spec 44 ∧ n ∈ parse_entry part.
Proof.
  unfold parseProxies. cbn [ps_nets].
  assert (∀ parts acc, n ∈ fold_left (λ nets part, nets ++ parse_entry part) parts acc
                       ↔ n ∈ acc ∨ ∃ part, part ∈ parts ∧ n ∈ parse_entry part) as H.
  { induction parts as [|p parts IH]; intros acc; cbn.
    - split; [by left|]. intros [?|(? & ?%not_elem_of_nil & _)]; done.
    - rewrite IH. set_solver. }
  rewrite H. set_solver.
Qed.

(** A prefix that was accepted matches one family, and only addresses that agree
    on its leading bits. *)
Lemma Prefix_Contains_spec p ip :
  0 <= BitLen ip - pf_len p →
  Prefix_Contains p ip = true ↔
  ad_zone ip = "" ∧ ad_is4 (pf_addr p) = ad_is4 ip ∧
  ∀ i, BitLen ip - pf_len p <= i → Z.testbit (ad_bits (pf_addr p)) i = Z.testbit (ad_bits ip) i.
Proof.
  intros Hk. unfold Prefix_Contains. set (k := BitLen ip - pf_len p) in *.
  rewrite !andb_true_iff, String.eqb_eq, eqb_true_iff, Z.eqb_eq.
  rewrite <-(Z.bits_inj_iff' (Z.shiftr _ _)). split.
  - intros [[Hz Hf] Hb]. split_and!; [done..|]. intros i Hi. specialize (Hb (i - k) ltac:(lia)).
    rewrite !Z.shiftr_spec in Hb by lia. by replace (i - k + k) with i in Hb by lia.
  - intros (Hz & Hf & Hb). split; [done|]. intros i Hi. rewrite !Z.shiftr_spec by lia.
    apply Hb. lia.
Qed.

(** The immediate peer of a request. *)
Definition peer (r : Request) : option Addr :=
  Unmap <$> ParseAddr (match SplitHostPort (rq_remote r) with
                       | Some (h, _) => h | None => rq_remote r end).

Definition believed (p : proxySet) (r : Request) : Prop :=
  ∃ a n, peer r = Some a ∧ n ∈ ps_nets p ∧ Prefix_Contains n a = true.

Lemma trusts_spec p r : trusts p (rq_remote r) = true ↔ believed p r.
Proof.
  unfold trusts, believed, peer, proxies_configured, llen.
  destruct (ps_nets p) as [|n ns] eqn:En; cbn [negb length].
  { split; [done|]. intros (a & n & _ & ?%not_elem_of_nil & _). done. }
  rewrite (proj2 (Z.ltb_lt _ _)) by lia. cbn [negb].
  destruct (ParseAddr _) as [addr|]; cbn [fmap option_fmap option_map].
  - rewrite existsb_exists. split.
    + intros (m & Hm & Hc). exists (Unmap addr), m. by rewrite <-list_elem_of_In in Hm.
    + intros (a & m & [= <-] & Hm & Hc). exists m. by rewrite <-list_elem_of_In.
  - split; [done|]. by intros (a & m & ? & _).
Qed.

(** The trust rule: TLS is reported exactly when this relay saw the handshake or
    a proxy the operator named says so; a claim in a header alone is never
    reported as TLS, and once a proxy is configured the claim of anyone else is
    ignored altogether. *)
Theorem transport_trust p r :
  (fst (transportOf p r) = TransportTLS ↔
   is_Some (rq_tls r) ∨
   (EqualFold (Header_Get (rq_header r) "X-Forwarded-Proto") "https" = true ∧ believed p r)) ∧
  (fst (transportOf p r) = TransportProxyTLS ↔
   rq_tls r = None ∧ ps_nets p = [] ∧
   EqualFold (Header_Get (rq_header r) "X-Forwarded-Proto") "https" = true).
Proof.
  rewrite <-trusts_spec. unfold transportOf, proxies_configured, llen.
  destruct (rq_tls r) as [v|]; cbn.
  { split; [split; [by left; eexists|done]|]. split; [done|]. by intros [? _]. }
  destruct (EqualFold _ _) eqn:Ee; cbn.
  2: { split; (split; [done|]); [|by intros (_ & _ & ?)]. intros [[? ?]|[? _]]; done. }
  destruct (trusts p (rq_remote r)) eqn:Et; cbn.
  { split; [split; [by right|done]|]. split; [done|]. intros (_ & Hn & _).
    unfold trusts, proxies_configured, llen in Et. by rewrite Hn in Et. }
  destruct (ps_nets p) as [|n ns] eqn:En; cbn.
  - split; [|done]. split; [done|]. intros [[? ?]|[_ ?]]; done.
  - split; (split; [done|]); [|by intros (_ & ? & _)]. intros [[? ?]|[_ ?]]; done.
Qed.

(** An agent that dials the relay's own port and writes the header itself is not
    taken for one that came through the proxy. *)
Example spoofed_header :
  let p := parseProxies "172.18.0.0/16, 10.0.0.9" in
  let req from := mkRequest "/agent/connect" {["X-Forwarded-Proto" := "HTTPS"]} from None [] ∅ ∅ "" in
  transportOf p (req "192.168.1.50:4100") = (TransportPlain, "") ∧
  fst (transportOf p (req "172.18.0.2:4100")) = TransportTLS ∧
  fst (transportOf p (req "[::ffff:10.0.0.9]:4100")) = TransportTLS.
Proof. done. Qed.

(** An entry written in IPv4-mapped form never matches anybody: peers are
    unmapped before the comparison and entries are not. *)
Lemma mapped_entry_never_trusted n a :
  ad_is4 (pf_addr n) = false → Z.shiftr (ad_bits (pf_addr n)) 32 = 65535 →
  96 <= pf_len n <= 128 → Prefix_Contains n (Unmap a) = false.
Proof.
  intros Hf Hm Hl. unfold Unmap.
  destruct (negb (ad_is4 a) && (Z.shiftr (ad_bits a) 32 =? 65535)) eqn:E.
  - unfold Prefix_Contains. cbn. by rewrite Hf.
  - destruct (Prefix_Contains n a) eqn:Ec; [|done]. exfalso.
    unfold Prefix_Contains in Ec. rewrite Hf, !andb_true_iff in Ec.
    destruct Ec as [[_ Hfam] Hbits]. apply eqb_prop in Hfam. unfold BitLen in Hbits.
    rewrite <-Hfam in E, Hbits. cbn [negb andb] in E. bool_prop. apply E.
    rewrite <-Hm. replace 32 with (128 - pf_len n + (32 - (128 - pf_len n))) by lia.
    rewrite <-!Z.shiftr_shiftr by lia. by rewrite Hbits.
Qed.

Example mapped_proxy_ignored :
  trusts (parseProxies "::ffff:10.0.0.9") "10.0.0.9:443" = false ∧
  trusts (parseProxies "10.0.0.9") "10.0.0.9:443" = true.
Proof. done. Qed.
