(* ===== verification/Auth.v ===== *)
(** * Operator authentication (server/auth.go)

    The gate in front of the dashboard, the API and the MCP endpoint, and the
    three sign-in handlers.  A handler is a computation over the mutable state
    it reaches; its [Err] is a panic, which [net/http] turns into an aborted
    connection.  [now] arguments are what [time.Now] returned. *)

From Stdlib Require Import Ascii.
From S2P Require Import Prelude GoStrings GoNum GoBase64 Interfaces GoNet Wire Assertions Registry.
From S2P Require Import Proxies Host ServerConfig VaultClient OperatorStore.

Open Scope string_scope.
Open Scope list_scope.
Open Scope Z_scope.

Definition sessionCookie := "beacon_session".
Definition sessionTTL : Z := 12 * Hour.

(** [au_token] is empty when BEACON_ADMIN_TOKEN is unset; [au_ops] is [None]
    when the pointer is nil. *)
Record auth := mkAuth {
  au_token : string;
  au_ops : option operatorStore;
  au_proxies : proxySet
}.

Definition newAuth (token : string) (ops : option operatorStore) (proxies : proxySet) : auth :=
  mkAuth token ops proxies.

Definition enabled (a : auth) : bool :=
  (0 <? len (au_token a)) || match au_ops a with Some o => exists_ o | None => false end.

Definition bootstrapping (a : auth) : bool :=
  match au_ops a with Some o => negb (exists_ o) | None => true end.

Definition sessionKey (a : auth) : string :=
  match au_ops a ≫= current with
  | Some rec => if negb (op_SessionKey rec =? "")%string then op_SessionKey rec else au_token a
  | None => au_token a
  end.

Definition open (path : string) : bool :=
  existsb (String.eqb path)
    [ConnectPath; ChallengePath; EnrollPath; "/healthz"; "/api/login"; "/api/logout"; "/api/bootstrap"].

(** [subtle.ConstantTimeCompare] is 1 on equal strings. *)
Definition matches (a : auth) (candidate : string) : bool :=
  if len (au_token a) =? 0 then false else (candidate =? au_token a)%string.

Definition wantsHTML (r : Request) : bool :=
  Contains (Header_Get (rq_header r) "Accept") "text/html".

Definition isTLS (a : auth) (r : Request) : bool :=
  negb (bool_decide (fst (transportOf (au_proxies a) r) = TransportPlain)).

(** ** Responses *)
Definition writeJSON (status : Z) (v : json) : Response :=
  mkResponse status [("Content-Type", "application/json")] [] (BJson v).
Definition json_error (msg : string) : json := JObj [("error", JStr msg)].

(** [html.EscapeString] *)
Fixpoint EscapeString (s : string) : string :=
  match s with
  | EmptyString => ""
  | String c s' =>
      (if is_char 38 c then "&amp;" else if is_char 39 c then "&#39;"
       else if is_char 60 c then "&lt;" else if is_char 62 c then "&gt;"
       else if is_char 34 c then "&#34;" else String c "") +:+ EscapeString s'
  end.

(** The page is [pageShell] filled with a title, a note and one of the two
    forms, here by their names. *)
Definition serveSignIn (a : auth) (status : Z) (message : string) : Response :=
  let note := if negb (message =? "")%string
              then "<p class=" +:+ dquote +:+ "note" +:+ dquote +:+ ">" +:+ EscapeString message +:+ "</p>"
              else "" in
  mkResponse status
    [("Content-Type", "text/html; charset=utf-8"); ("Cache-Control", "no-store")] []
    (if bootstrapping a then BForm "Set up beacon" note "bootstrapFields"
     else BForm "beacon" note "loginFields").

Definition fail (a : auth) (r : Request) (status : Z) (msg : string) : Response :=
  if wantsHTML r then serveSignIn a status msg else writeJSON status (json_error msg).

Definition with_cookie (c : Cookie) (resp : Response) : Response :=
  mkResponse (rs_status resp) (rs_header resp) (c :: rs_cookies resp) (rs_body resp).
Definition with_header (k v : string) (resp : Response) : Response :=
  mkResponse (rs_status resp) ((k, v) :: rs_header resp) (rs_cookies resp) (rs_body resp).

(** ** Sessions *)
Section sessions.
  Context `{HMAC}.

Definition sign (a : auth) (msg : string) : string := hex_encode (hmac_sha256 (sessionKey a) msg).

Definition session (a : auth) (expiry : Z) : string :=
  let exp := itoa (Unix_of expiry) in exp +:+ "." +:+ sign a exp.

(** [time.Unix] of a number of seconds beyond the range of a [Time] wraps around,
    which the seconds of no session the relay signed do. *)
Definition validSession (a : auth) (now : Z) (v : string) : bool :=
  match Cut v "." with
  | None => false
  | Some (exp, mac) =>
      if negb (mac =? sign a exp)%string then false
      else match ParseInt64 exp with
           | None => false
           | Some unix => now <? time_Unix unix
           end
  end.

(** [now1] dates the session, [now2] the cookie. *)
Definition session_cookie (a : auth) (r : Request) (now1 now2 : Z) : Cookie :=
  mkCookie sessionCookie (session a (now1 + sessionTTL)) true (isTLS a r)
           (Some (now2 + sessionTTL)) 0.
Definition setSession (a : auth) (r : Request) (now1 now2 : Z) (resp : Response) : Response :=
  with_cookie (session_cookie a r now1 now2) resp.

Definition authenticated (a : auth) (now : Z) (r : Request) : bool :=
  let h := Header_Get (rq_header r) "Authorization" in
  if HasPrefix h "Bearer " && matches a (TrimPrefix h "Bearer ") then true
  else match Request_Cookie r sessionCookie with
       | None => false
       | Some v => validSession a now v
       end.

(** ** The gate

    [get] reads the gate's configuration out of the server's state when the
    request arrives; [answer] is how a plain response ends a request. *)
Definition protect {S A : Type} (answer : Response → A) (get : S → auth) (next : Request → M S A)
    (now : Z) (r : Request) : M S A := λ s,
  let a := get s in
  if negb (enabled a) || open (rq_path r) || authenticated a now r then next r s
  else if wantsHTML r then (Ok (answer (serveSignIn a StatusUnauthorized "")), s)
  else (Ok (answer (with_header "WWW-Authenticate" ("Bearer realm=" +:+ dquote +:+ "beacon" +:+ dquote)
              (writeJSON StatusUnauthorized (json_error "authentication required")))), s).

Definition handleLogout (a : auth) (r : Request) : Response :=
  let c := mkCookie sessionCookie "" true (isTLS a r) None (-1) in
  with_cookie c (if wantsHTML r then serveSignIn a StatusOK "Signed out."
                 else writeJSON StatusOK (JObj [("status", JStr "ok")])).

(** ** Signing in *)
Section signin.
  Context `{Argon2}.

(** The decision of [handleLogin]'s switch. *)
Definition login_ok (a : auth) (username password token : string) : res bool :=
  if negb (token =? "")%string then Ok (matches a token)
  else match au_ops a with
       | Some ops => verify ops username password
       | None => Ok false
       end.

Definition handleLogin (a : auth) (r : Request) (now1 now2 : Z) : res Response :=
  if negb (enabled a)
  then Ok (writeJSON StatusNotFound (json_error "authentication is disabled"))
  else if bootstrapping a && (TrimSpace (FormValue r "token") =? "")%string
  then Ok (serveSignIn a StatusUnauthorized "")
  else
    let username := TrimSpace (FormValue r "username") in
    let password := FormValue r "password" in
    let token := TrimSpace (FormValue r "token") in
    ok ← login_ok a username password token;
    if negb ok then
      if wantsHTML r
      then Ok (serveSignIn a StatusUnauthorized "Those credentials were not accepted.")
      else Ok (writeJSON StatusUnauthorized (json_error "invalid credentials"))
    else
      Ok (setSession a r now1 now2
            (if wantsHTML r then http_Redirect "/ui/" StatusFound
             else writeJSON StatusOK (JObj [("status", JStr "ok")]))).
End signin.

(** ** The handlers that write the account *)
Section accounts.
  Context {W : Type} `{FileSystem W} `{VaultHTTP W} `{VaultJSON} `{JSON operator} `{Argon2}.

Notation AM := (M (auth * (vault * W))).

Definition set_ops (o : operatorStore) (a : auth) : auth := mkAuth (au_token a) (Some o) (au_proxies a).

Definition nil_pointer : error := errorf "runtime error: invalid memory address or nil pointer dereference".

(** [a.ops.save(...)]: a nil store is a panic. *)
Definition ops_save (username password : string) (rotate : bool) (salt key : res string) (now : Z)
    : AM (res ()) := λ '(a, vw),
  match au_ops a with
  | None => (Err nil_pointer, (a, vw))
  | Some o => let '(r, (o', vw')) := save username password rotate salt key now (o, vw) in
              (r, (set_ops o' a, vw'))
  end.

Definition get_auth : AM auth := λ s, (Ok (fst s), s).

Definition handleBootstrap (r : Request) (salt key : res string) (now now1 now2 : Z) : AM Response :=
  a ← get_auth;
  if negb (bootstrapping a)
  then mret (writeJSON StatusConflict
               (json_error "an operator account already exists; change the password instead"))
  else if negb (enabled a)
  then mret (writeJSON StatusNotFound
               (json_error "set an admin token before creating an operator account"))
  else if negb (matches a (TrimSpace (FormValue r "token")))
  then mret (fail a r StatusUnauthorized "That admin token was not accepted.")
  else
    let username := TrimSpace (FormValue r "username") in
    let password := FormValue r "password" in
    if negb (password =? FormValue r "password_confirm")%string
    then mret (fail a r StatusBadRequest "The two passwords do not match.")
    else
      e ← ops_save username password true salt key now;
      match e with
      | Err e => mret (fail a r StatusBadRequest (err_text e))
      | Ok _ =>
          a ← get_auth;
          mret (setSession a r now1 now2
                  (if wantsHTML r then http_Redirect "/ui/" StatusFound
                   else writeJSON StatusOK
                          (JObj [("status", JStr "ok"); ("username", JStr username)])))
      end.

Definition handleChangePassword (r : Request) (salt key : res string) (now now1 now2 : Z)
    : AM Response :=
  a ← get_auth;
  match au_ops a with
  | None => mret (writeJSON StatusConflict (json_error "no operator account yet"))
  | Some ops =>
      match current ops with
      | None => mret (writeJSON StatusConflict (json_error "no operator account yet"))
      | Some rec =>
          let cur := FormValue r "current_password" in
          v ← mlift (verify ops (op_Username rec) cur);
          if negb v && negb (matches a (TrimSpace cur))
          then mret (writeJSON StatusUnauthorized (json_error "the current password is wrong"))
          else
            let username := TrimSpace (FormValue r "username") in
            let username := if (username =? "")%string then op_Username rec else username in
            let password := FormValue r "password" in
            if negb (password =? FormValue r "password_confirm")%string
            then mret (writeJSON StatusBadRequest (json_error "the two passwords do not match"))
            else
              e ← ops_save username password true salt key now;
              match e with
              | Err e => mret (writeJSON StatusBadRequest (json_error (err_text e)))
              | Ok _ =>
                  a ← get_auth;
                  mret (setSession a r now1 now2
                          (writeJSON StatusOK
                             (JObj [("status", JStr "ok"); ("username", JStr username)])))
              end
      end
  end.
End accounts.
End sessions.
