(* ===== verification/AuthProofs.v ===== *)
(** * What the operator gate guarantees *)

From Stdlib Require Import Ascii.
From S2P Require Import Prelude GoStrings GoNum GoBase64 Interfaces GoNet Wire Assertions Registry.
From S2P Require Import Proxies Host ServerConfig VaultClient ToyVault OperatorStore.
From S2P Require Import OperatorProofs Auth.

Open Scope string_scope.
Open Scope list_scope.
Open Scope Z_scope.

Section gate.
  Context `{HMAC}.

(** ** Who is let in *)

(** The declarative account of credentials. *)
Definition bears_token (a : auth) (r : Request) : Prop :=
  au_token a ≠ "" ∧ Header_Get (rq_header r) "Authorization" = "Bearer " +:+ au_token a.

Definition bears_session (a : auth) (now : Z) (r : Request) : Prop :=
  ∃ exp unix, Request_Cookie r sessionCookie = Some (exp +:+ "." +:+ sign a exp) ∧
    ParseInt64 exp = Some unix ∧ now < time_Unix unix.

Lemma matches_spec a c : matches a c = true ↔ au_token a ≠ "" ∧ c = au_token a.
Proof.
  unfold matches. destruct (len (au_token a) =? 0) eqn:E; bool_prop.
  - apply len_zero_inv in E. naive_solver.
  - rewrite String.eqb_eq. split; [|naive_solver]. intros ->. split; [|done].
    intros Hn. by rewrite Hn in E.
Qed.

Lemma ParseInt64_no_dot s z : ParseInt64 s = Some z → no_char 46 s = true.
Proof. by apply ParseInt64_no_char. Qed.

Lemma validSession_spec a now v :
  validSession a now v = true ↔
  ∃ exp unix, v = exp +:+ "." +:+ sign a exp ∧ ParseInt64 exp = Some unix ∧ now < time_Unix unix.
Proof.
  unfold validSession. change "." with (String (byte 46) "") at 1. split.
  - destruct (Cut v _) as [[exp mac]|] eqn:Ec; [|done].
    destruct (mac =? sign a exp)%string eqn:Em; [|done]. cbn [negb]. bool_prop. subst mac.
    destruct (ParseInt64 exp) as [unix|] eqn:Ep; [|done]. intros Hn. bool_prop.
    apply Cut_Some in Ec. by exists exp, unix.
  - intros (exp & unix & -> & Hp & Hn). change ("." +:+ ?x) with (String (byte 46) x).
    rewrite Cut_char by (by eapply ParseInt64_no_dot).
    rewrite String.eqb_refl. cbn [negb]. rewrite Hp. lia.
Qed.

Lemma authenticated_spec a now r :
  authenticated a now r = true ↔ bears_token a r ∨ bears_session a now r.
Proof.
  unfold authenticated, bears_token, bears_session.
  set (h := Header_Get _ _).
  assert (HasPrefix h "Bearer " && matches a (TrimPrefix h "Bearer ") = true
          ↔ au_token a ≠ "" ∧ h = "Bearer " +:+ au_token a) as Hb.
  { rewrite andb_true_iff, HasPrefix_spec, matches_spec. split.
    - intros [[t ->] [Ht He]]. by rewrite TrimPrefix_app in He; subst.
    - intros [Ht ->]. by rewrite TrimPrefix_app; eauto. }
  destruct (_ && _) eqn:E.
  - split; [|done]. intros _. left. by apply Hb.
  - assert (¬ (au_token a ≠ "" ∧ h = "Bearer " +:+ au_token a)) as Hn
      by (intros Hx; apply Hb in Hx; congruence).
    destruct (Request_Cookie r sessionCookie) as [v|]; [|naive_solver].
    rewrite validSession_spec. naive_solver.
Qed.

(** Safety of the gate.  A request reaches what is behind it only if the relay
    has no credentials at all, or the path is one of the seven named ones, or
    the request carries the (non-empty) admin token or a session signed with the
    current key that has not expired.  Any other request is answered 401,
    without a cookie, and changes nothing: what is behind is not run. *)
Lemma gate_decision {S A} (answer : Response → A) (get : S → auth) next now r s :
  let a := get s in
  (enabled a = false ∨ open (rq_path r) = true ∨ bears_token a r ∨ bears_session a now r) ∧
  protect answer get next now r s = next r s
  ∨ ¬ (enabled a = false ∨ open (rq_path r) = true ∨ bears_token a r ∨ bears_session a now r) ∧
  ∃ resp, protect answer get next now r s = (Ok (answer resp), s) ∧ rs_status resp = StatusUnauthorized ∧
          rs_cookies resp = [].
Proof.
  intros a. unfold protect. fold a. rewrite <-authenticated_spec.
  destruct (enabled a); cbn [negb orb]; [|by left; split; [left|]].
  destruct (open (rq_path r)); cbn [orb]; [by left; split; [right; left|]|].
  destruct (authenticated a now r); [by left; split; [right; right|]|].
  right. split; [naive_solver|].
  destruct (wantsHTML r); (eexists; split; [done|]); cbn; [|done].
  unfold serveSignIn. cbn. done.
Qed.

(** ** Sessions *)

(** A session minted now is accepted until it expires, to the second, and not
    after. *)
Lemma validSession_minted a expiry now :
  in_int64 (Unix_of expiry) = true →
  validSession a now (session a expiry) = (now <? time_Unix (Unix_of expiry)).
Proof.
  intros Hi. apply eq_bool_prop_intro. rewrite !Is_true_true.
  rewrite validSession_spec. unfold session. split.
  - intros (exp & unix & He & Hp & Hn).
    assert (Cut (itoa (Unix_of expiry) +:+ "." +:+ sign a (itoa (Unix_of expiry))) (String (byte 46) "")
            = Some (itoa (Unix_of expiry), sign a (itoa (Unix_of expiry)))) as H1.
    { change ("." +:+ ?x) with (String (byte 46) x). apply Cut_char. by apply itoa_no_char. }
    assert (Cut (exp +:+ "." +:+ sign a exp) (String (byte 46) "") = Some (exp, sign a exp)) as H2.
    { change ("." +:+ ?x) with (String (byte 46) x). apply Cut_char. by eapply ParseInt64_no_dot. }
    rewrite He, H2 in H1. injection H1 as -> _. rewrite ParseInt64_itoa in Hp by done.
    injection Hp as <-. lia.
  - intros Hn. bool_prop. exists (itoa (Unix_of expiry)), (Unix_of expiry).
    by rewrite ParseInt64_itoa.
Qed.

(** Changing the session key ends every session: one minted under another key
    is accepted only where the two keys give the same MAC. *)
Theorem rotation_ends_sessions a a' expiry now :
  hmac_sha256 (sessionKey a') (itoa (Unix_of expiry)) ≠ hmac_sha256 (sessionKey a) (itoa (Unix_of expiry)) →
  validSession a' now (session a expiry) = false.
Proof.
  intros Hne. destruct (validSession a' now (session a expiry)) eqn:E; [|done]. exfalso.
  apply validSession_spec in E as (exp & unix & He & Hp & Hn). unfold session in He.
  assert (Cut (itoa (Unix_of expiry) +:+ "." +:+ sign a (itoa (Unix_of expiry))) (String (byte 46) "")
          = Some (itoa (Unix_of expiry), sign a (itoa (Unix_of expiry)))) as H1.
  { change ("." +:+ ?x) with (String (byte 46) x). apply Cut_char. by apply itoa_no_char. }
  assert (Cut (exp +:+ "." +:+ sign a' exp) (String (byte 46) "") = Some (exp, sign a' exp)) as H2.
  { change ("." +:+ ?x) with (String (byte 46) x). apply Cut_char. by eapply ParseInt64_no_dot. }
  rewrite He, H2 in H1. injection H1 as -> Hs. unfold sign in Hs. by apply hex_encode_inj in Hs.
Qed.

(** The key that signs is the operator's once there is an account with one, not
    the admin token: replacing the token leaves those sessions valid. *)
Theorem session_key_is_the_operators a rec token :
  au_ops a ≫= current = Some rec → op_SessionKey rec ≠ "" →
  let a' := mkAuth token (au_ops a) (au_proxies a) in
  ∀ now v, validSession a' now v = validSession a now v.
Proof.
  intros Hc Hk a' now v.
  assert (∀ m, sign a' m = sign a m) as Hs.
  { intros m. unfold sign, sessionKey. cbn. rewrite Hc.
    by rewrite (proj2 (String.eqb_neq _ _) Hk). }
  unfold validSession. destruct (Cut v ".") as [[e m]|]; [|done]. by rewrite Hs.
Qed.

(** ** Signing in *)
Section signin.
  Context `{Argon2}.

(** What entitles a sign-in request to a session. *)
Definition may_sign_in (a : auth) (r : Request) : Prop :=
  let token := TrimSpace (FormValue r "token") in
  (token ≠ "" ∧ au_token a ≠ "" ∧ token = au_token a) ∨
  (token = "" ∧ ∃ ops, au_ops a = Some ops ∧
     verify ops (TrimSpace (FormValue r "username")) (FormValue r "password") = Ok true).

(** C9: [handleLogin] sets a cookie exactly for those requests, the cookie carries a
    session of twelve hours under the current key, and every other answer
    carries none. *)
Theorem login_sets_cookie_iff_entitled a r now1 now2 resp :
  handleLogin a r now1 now2 = Ok resp →
  (may_sign_in a r ∧ rs_cookies resp = [session_cookie a r now1 now2]) ∨
  (¬ may_sign_in a r ∧ rs_cookies resp = []).
Proof.
  unfold handleLogin, may_sign_in. set (token := TrimSpace (FormValue r "token")).
  assert (enabled a = false → au_token a = "" ∧ ∀ ops, au_ops a = Some ops → current ops = None) as He.
  { unfold enabled, exists_. intros Hf. bool_prop.
    split; [apply len_zero_inv; pose proof (len_nonneg (au_token a)); lia|].
    intros ops Ho. rewrite Ho in *. bool_prop. by apply eq_None_not_Some. }
  destruct (enabled a) eqn:Een; cbn [negb].
  2: { intros [= <-]. right. split; [|done]. destruct (He eq_refl) as [Ht Ho].
       intros [(_ & ? & _)|(_ & ops & Ha & Hv)]; [done|].
       unfold verify in Hv. by rewrite (Ho _ Ha) in Hv. }
  destruct (bootstrapping a && _) eqn:Eb.
  { intros [= <-]. right. split; [|done]. bool_prop. unfold bootstrapping, exists_ in *.
    intros [(? & _ & _)|(_ & ops & Ha & Hv)]; [done|]. rewrite Ha in *. bool_prop.
    unfold verify in Hv. by rewrite (proj2 (eq_None_not_Some _) H1) in Hv. }
  unfold login_ok.
  destruct (token =? "")%string eqn:Et; cbn [negb]; bool_prop.
  - destruct (au_ops a) as [ops|] eqn:Ha.
    + destruct (verify ops _ _) as [[]|e] eqn:Ev; cbn; [| |done].
      * intros [= <-]. left. split; [|by destruct (wantsHTML r)]. right. split; [done|]. by exists ops.
      * intros Hr. right. split.
        -- intros [(? & _)|(_ & ops' & Ha' & Hv)]; [done|]. simplify_eq. congruence.
        -- destruct (wantsHTML r); by injection Hr as <-.
    + cbn. intros Hr. right. split.
      * intros [(? & _)|(_ & ops' & Ha' & Hv)]; done.
      * destruct (wantsHTML r); by injection Hr as <-.
  - cbn. destruct (matches a token) eqn:Em; cbn.
    + apply matches_spec in Em as [? ?]. intros [= <-]. left. split; [left; done|].
      by destruct (wantsHTML r).
    + intros Hr. right. split.
      * intros [(_ & ? & ?)|(? & _)]; [|done].
        assert (matches a token = true) by (by apply matches_spec). congruence.
      * destruct (wantsHTML r); by injection Hr as <-.
Qed.
End signin.

Section accounts.
  Context {W : Type} `{FileSystem W} `{VaultHTTP W} `{VaultJSON} `{JSON operator} `{Argon2Laws}.

(** ** Creating and changing the account *)
Lemma ops_save_spec u p key salt now a (vw : vault * W) r a' vw' o :
  au_ops a = Some o → ops_save u p true salt key now (a, vw) = (r, (a', vw')) →
  au_token a' = au_token a ∧
  match r with
  | Ok (Ok _) => ∃ o', au_ops a' = Some o' ∧ verify o' u p = Ok true
  | _ => a' = a
  end.
Proof.
  intros Ho. unfold ops_save. rewrite Ho.
  destruct (save u p true salt key now (o, vw)) as [r0 [o' vw0]] eqn:Es. intros [= <- <- <-].
  apply save_then_verify in Es. split; [done|].
  destruct r0 as [[[]|e]|e]; cbn in *; [destruct Es as [? _]; eauto| |];
    subst o'; destruct a; cbn in *; by subst.
Qed.

(** C27: The first account is created only with the admin token, only while there is
    none, and works at once; every other answer leaves the account alone and
    sets no cookie. *)
Theorem bootstrap_needs_admin_token r salt key now now1 now2 a vw resp a' vw' o :
  au_ops a = Some o →
  handleBootstrap r salt key now now1 now2 (a, vw) = (Ok resp, (a', vw')) →
  (rs_cookies resp = [] ∧ a' = a) ∨
  (exists_ o = false ∧ au_token a ≠ "" ∧ TrimSpace (FormValue r "token") = au_token a ∧
   FormValue r "password" = FormValue r "password_confirm" ∧
   rs_cookies resp = [session_cookie a' r now1 now2] ∧
   ∃ o', au_ops a' = Some o' ∧
         verify o' (TrimSpace (FormValue r "username")) (FormValue r "password") = Ok true).
Proof.
  intros Ho. unfold handleBootstrap, mbind, M_bind, get_auth. cbn [fst].
  unfold bootstrapping. rewrite Ho.
  destruct (exists_ o) eqn:Ee; cbn [negb]; [intros [= <- <- <-]; by left|].
  destruct (enabled a); cbn [negb]; [|intros [= <- <- <-]; by left].
  destruct (matches a _) eqn:Em; cbn [negb].
  2: { intros [= <- <- <-]. left. split; [|done]. unfold fail. by destruct (wantsHTML r). }
  destruct (_ =? _)%string eqn:Ep; cbn [negb]; bool_prop.
  2: { intros [= <- <- <-]. left. split; [|done]. unfold fail. by destruct (wantsHTML r). }
  destruct (ops_save _ _ _ _ _ _ _) as [[[[]|e]|e] [a1 vw1]] eqn:Es; [| |done];
    apply (ops_save_spec _ _ _ _ _ _ _ _ _ _ _ Ho) in Es as [Ht Es].
  - intros [= <- <- <-]. right. apply matches_spec in Em as [? ?].
    split_and!; try done. by destruct (wantsHTML r).
  - intros [= <- <- <-]. subst a1. left. split; [|done]. unfold fail. by destruct (wantsHTML r).
Qed.

(** C28: Changing the password takes the current password (or the admin token), even
    in a signed-in session; a refusal leaves the account alone. *)
Theorem password_change_needs_current r salt key now now1 now2 a vw resp a' vw' o rec :
  au_ops a = Some o → current o = Some rec →
  handleChangePassword r salt key now now1 now2 (a, vw) = (Ok resp, (a', vw')) →
  (rs_cookies resp = [] ∧ a' = a) ∨
  ((verify o (op_Username rec) (FormValue r "current_password") = Ok true ∨
    au_token a ≠ "" ∧ TrimSpace (FormValue r "current_password") = au_token a) ∧
   FormValue r "password" = FormValue r "password_confirm" ∧
   rs_cookies resp = [session_cookie a' r now1 now2] ∧
   ∃ o' u, au_ops a' = Some o' ∧ verify o' u (FormValue r "password") = Ok true).
Proof.
  intros Ho Hc. unfold handleChangePassword, mbind, M_bind, get_auth. cbn [fst]. rewrite Ho, Hc.
  unfold mlift. destruct (verify o _ _) as [v|e] eqn:Ev; [|done].
  destruct (negb v && negb (matches a _)) eqn:Eok; [intros [= <- <- <-]; by left|].
  assert (Ok v = Ok true ∨ au_token a ≠ "" ∧ TrimSpace (FormValue r "current_password") = au_token a)
    as Hok.
  { apply andb_false_iff in Eok as [Eok|Eok]; bool_prop; [by left; subst|right].
    by apply matches_spec in Eok. }
  destruct (_ =? FormValue r "password_confirm")%string eqn:Ep; cbn [negb]; bool_prop;
    [|intros [= <- <- <-]; by left].
  destruct (ops_save _ _ _ _ _ _ _) as [[[[]|e]|e] [a1 vw1]] eqn:Es; [| |done];
    apply (ops_save_spec _ _ _ _ _ _ _ _ _ _ _ Ho) in Es as [Ht Es].
  - intros [= <- <- <-]. right. destruct Es as (o' & ? & ?). split_and!; try done. eauto.
  - intros [= <- <- <-]. subst a1. by left.
Qed.
End accounts.
End gate.

(** ** Witnesses *)
#[export] Existing Instance ToyCrypto.toy_hmac.

Definition toy_auth : auth := mkAuth "admin" (Some (fst toy_saved)) (mkProxySet []).
Definition toy_fresh_auth : auth := mkAuth "admin" (Some (fst toy_ops)) (mkProxySet []).
Definition toy_req (form : gmap string string) : Request :=
  mkRequest "/api/login" ∅ "10.0.0.1:1" None [] form ∅ "".

Lemma rotation_ends_sessions_witness :
  let t := time_Unix 1700000000 in
  validSession toy_auth t (session toy_fresh_auth (t + sessionTTL)) = false.
Proof. intros t. apply rotation_ends_sessions. vm_compute. discriminate. Defined.

Lemma session_key_is_the_operators_witness :
  let t := time_Unix 1700000000 in
  let a' := mkAuth "another token" (au_ops toy_auth) (mkProxySet []) in
  validSession a' t (session toy_auth (t + sessionTTL))
  = validSession toy_auth t (session toy_auth (t + sessionTTL)).
Proof.
  intros t a'. eapply (session_key_is_the_operators toy_auth); [vm_compute; reflexivity|].
  vm_compute. discriminate.
Defined.

Lemma login_sets_cookie_iff_entitled_witness :
  let r := toy_req {["username" := "ana"; "password" := "correct horse"]} in
  ∃ resp, handleLogin toy_auth r 5 5 = Ok resp ∧
    ((may_sign_in toy_auth r ∧ rs_cookies resp = [session_cookie toy_auth r 5 5]) ∨
     (¬ may_sign_in toy_auth r ∧ rs_cookies resp = [])).
Proof.
  intros r. eexists. split; [vm_compute; reflexivity|].
  apply login_sets_cookie_iff_entitled. vm_compute. reflexivity.
Defined.

Definition bootstrap_req : Request :=
  toy_req {["token" := "admin"; "username" := "ana"; "password" := "pw"; "password_confirm" := "pw"]}.
Definition bootstrap_run :=
  handleBootstrap bootstrap_req (Ok "0123456789abcdef") (Ok "key") 1 2 3 (toy_fresh_auth, snd toy_ops).

Lemma bootstrap_needs_admin_token_witness :
  ∃ resp, bootstrap_run.1 = Ok resp ∧
   ((rs_cookies resp = [] ∧ fst bootstrap_run.2 = toy_fresh_auth) ∨
    (exists_ (fst toy_ops) = false ∧ au_token toy_fresh_auth ≠ "" ∧
     TrimSpace (FormValue bootstrap_req "token") = au_token toy_fresh_auth ∧
     FormValue bootstrap_req "password" = FormValue bootstrap_req "password_confirm" ∧
     rs_cookies resp = [session_cookie (fst bootstrap_run.2) bootstrap_req 2 3] ∧
     ∃ o', au_ops (fst bootstrap_run.2) = Some o' ∧
       verify o' (TrimSpace (FormValue bootstrap_req "username")) (FormValue bootstrap_req "password")
       = Ok true)).
Proof.
  destruct bootstrap_run.1 as [resp|e] eqn:E; [|vm_compute in E; discriminate].
  exists resp. split; [done|].
  eapply (bootstrap_needs_admin_token (H5 := ToyCrypto.toy_argon2_laws) bootstrap_req
    (Ok "0123456789abcdef") (Ok "key") 1 2 3 toy_fresh_auth (snd toy_ops)); [reflexivity|].
  rewrite <-surjective_pairing. by apply run_result.
Defined.

Definition change_req : Request :=
  toy_req {["current_password" := "correct horse"; "password" := "new"; "password_confirm" := "new"]}.
Definition change_run :=
  handleChangePassword change_req (Ok "0123456789abcdef") (Ok "key2") 1 2 3 (toy_auth, snd toy_saved).

Lemma password_change_needs_current_witness :
  ∃ resp rec, change_run.1 = Ok resp ∧ current (fst toy_saved) = Some rec ∧
   ((rs_cookies resp = [] ∧ fst change_run.2 = toy_auth) ∨
    ((verify (fst toy_saved) (op_Username rec) (FormValue change_req "current_password") = Ok true ∨
      au_token toy_auth ≠ "" ∧ TrimSpace (FormValue change_req "current_password") = au_token toy_auth) ∧
     FormValue change_req "password" = FormValue change_req "password_confirm" ∧
     rs_cookies resp = [session_cookie (fst change_run.2) change_req 2 3] ∧
     ∃ o' u, au_ops (fst change_run.2) = Some o' ∧
       verify o' u (FormValue change_req "password") = Ok true)).
Proof.
  destruct change_run.1 as [resp|e] eqn:E; [|vm_compute in E; discriminate].
  destruct (current (fst toy_saved)) as [rec|] eqn:Er; [|vm_compute in Er; discriminate].
  exists resp, rec. split; [done|]. split; [done|].
  eapply (password_change_needs_current (H5 := ToyCrypto.toy_argon2_laws) change_req
    (Ok "0123456789abcdef") (Ok "key2") 1 2 3 toy_auth (snd toy_saved)); [reflexivity|exact Er|].
  rewrite <-surjective_pairing. by apply run_result.
Defined.
