(* ===== verification/Server.v ===== *)
(** * The relay's state (server/http.go: Server)

    Everything the handlers share, with the world the Vault client and the
    operator store reach.  Each component's operation runs on its own part. *)

From S2P Require Import Prelude GoStrings GoNum GoBase64 Interfaces GoNet Wire Assertions.
From S2P Require Import Challenges Events Registry Proxies Host ServerConfig VaultClient KVStore.
From S2P Require Import AgentKeys OperatorStore Auth.

Open Scope string_scope.
Open Scope list_scope.
Open Scope Z_scope.

Record Server (W : Type) := mkServer {
  sv_registry : Registry;
  sv_events : EventBus;
  sv_auth : auth;                 (* holds the operator store and the proxies *)
  sv_vault : vault * W;
  sv_seal : sealCache;
  sv_challenges : challenges;
  sv_startedAt : Z
}.
Arguments mkServer {W}.
Arguments sv_registry {W}.
Arguments sv_events {W}.
Arguments sv_auth {W}.
Arguments sv_vault {W}.
Arguments sv_seal {W}.
Arguments sv_challenges {W}.
Arguments sv_startedAt {W}.

Section server.
  Context {W : Type}.

Definition set_registry (x : Registry) (s : Server W) : Server W :=
  mkServer x (sv_events s) (sv_auth s) (sv_vault s) (sv_seal s) (sv_challenges s) (sv_startedAt s).
Definition set_events (x : EventBus) (s : Server W) : Server W :=
  mkServer (sv_registry s) x (sv_auth s) (sv_vault s) (sv_seal s) (sv_challenges s) (sv_startedAt s).
Definition set_auth_vault (x : auth * (vault * W)) (s : Server W) : Server W :=
  mkServer (sv_registry s) (sv_events s) (fst x) (snd x) (sv_seal s) (sv_challenges s) (sv_startedAt s).
Definition set_vault (x : vault * W) (s : Server W) : Server W :=
  mkServer (sv_registry s) (sv_events s) (sv_auth s) x (sv_seal s) (sv_challenges s) (sv_startedAt s).
Definition set_seal (x : sealCache) (s : Server W) : Server W :=
  mkServer (sv_registry s) (sv_events s) (sv_auth s) (sv_vault s) x (sv_challenges s) (sv_startedAt s).
Definition set_challenges (x : challenges) (s : Server W) : Server W :=
  mkServer (sv_registry s) (sv_events s) (sv_auth s) (sv_vault s) (sv_seal s) x (sv_startedAt s).

Definition on_vault {A} : M (vault * W) A → M (Server W) A := zoom sv_vault set_vault.
Definition on_challenges {A} : M challenges A → M (Server W) A := zoom sv_challenges set_challenges.
Definition on_auth {A} : M (auth * (vault * W)) A → M (Server W) A :=
  zoom (λ s, (sv_auth s, sv_vault s)) set_auth_vault.

(** [s.events.Publish(Event{Type, AgentID, Message})] *)
Definition publish (now : Z) (typ id msg : string) : M (Server W) () :=
  mmodify (λ s, set_events (Publish now (mkEvent typ id msg 0) (sv_events s)) s).

(** [newServer]: the one place the parts are wired together. *)
Definition newServer (cfg : Config) (w : W) (now : Z) : Server W :=
  let v := newVault cfg in
  let ops := newOperatorStore (cf_StateDir cfg) in
  let proxies := parseProxies (cf_TrustedProxies cfg) in
  mkServer newRegistry newEventBus (newAuth (cf_AdminToken cfg) (Some ops) proxies)
           (v, w) seal_zero newChallenges now.
End server.

(** The Vault client is the relay's key-value store. *)
#[export] Instance vault_kvstore `{FileSystem W} `{VaultHTTP W} `{VaultJSON} : KVStore (vault * W) := {|
  kv_Get A J p := kvGet (A := A) p;
  kv_Put A J p a := kvPut p a
|}.
