(* ===== verification/VaultKV.v ===== *)
(** * Vault as the key-value store (server/vault.go: kvGet, kvPut)

    The interface of KVStore.v, discharged by the client of VaultClient.v in
    front of a server that keeps KV v2's documented promises, one HTTP exchange
    at a time.  What the client adds of its own -- any error that mentions "404"
    is "not found" to it -- is the one way it can misread the store, [misread]. *)

From S2P Require Import Prelude GoStrings GoNum GoBase64 Interfaces GoNet Wire Assertions.
From S2P Require Import Challenges Events Registry Proxies Host ServerConfig VaultClient KVStore.
From S2P Require Import AgentKeys VaultProofs ToyVault OperatorStore Auth Server.

Open Scope string_scope.
Open Scope list_scope.
Open Scope Z_scope.

Definition kv_url (addr path : string) : string := addr +:+ "/v1/" +:+ kvMount +:+ "/data/" +:+ path.
Definition data_body (doc : string) : string :=
  "{" +:+ dquote +:+ "data" +:+ dquote +:+ ":" +:+ doc +:+ "}".
Definition success (resp : HTTPResp) : bool := negb ((hs_code resp <? 200) || (299 <? hs_code resp)).

Section vault_kv.
  Context {W : Type} `{FileSystem W} `{VaultHTTP W} `{VaultJSON}.

(** KV v2 over HTTP.  [ok] are the states of the world in which these promises
    hold, [docs] the documents under the mount. *)
Class VaultServer (addr : string) (ok : W → Prop) (docs : W → gmap string string)
    (reenc : string → string) := {
  (* nothing but a write to the mount writes to the mount *)
  vs_other q w r w' :
    ok w → http_do q w = (r, w') →
    hq_method q = "GET" ∨ hq_url q = addr +:+ "/v1/auth/approle/login" → ok w' ∧ docs w' = docs w;
  (* a read answers with the document, or with none *)
  vs_read p tok w resp w' out :
    ok w → http_do (mkHTTPReq "GET" (kv_url addr p) (Some tok) None) w = (Ok resp, w') →
    success resp = true → Decode (hs_body resp) = Ok out →
    docs w !! p = if len (kv_Data out) =? 0 then None else Some (kv_Data out);
  (* a write takes effect when it is acknowledged, and perhaps when it is not *)
  vs_write p tok w doc r w' :
    ok w → http_do (mkHTTPReq "POST" (kv_url addr p) (Some tok) (Some (data_body doc))) w = (r, w') →
    ok w' ∧ (docs w' = docs w ∨ docs w' = <[p := reenc doc]> (docs w)) ∧
    ∀ resp, r = Ok resp → success resp = true → docs w' = <[p := reenc doc]> (docs w)
}.

(** The states of the client: it is configured, and points there. *)
Definition kv_state (addr : string) (ok : W → Prop) (s : vault * W) : Prop :=
  configured (fst s) = true ∧ va_addr (fst s) = addr ∧ ok (snd s).

(** What [kvGet] looks at before it decides. *)
Definition kv_read (p : string) : M (vault * W) KVOut :=
  b ← call "GET" (kvMount +:+ "/data/" +:+ p) None true; mlift (Decode b).

(** It is about to take a document that is there for missing: the read fails, for
    whatever reason, with an error whose text contains "404". *)
Definition misread (docs : W → gmap string string) (p : string) (s : vault * W) : bool :=
  match fst (kv_read p s) with
  | Err e => Contains (err_text e) "404" && bool_decide (is_Some (docs (snd s) !! p))
  | Ok _ => false
  end.

Section laws.
  Context (addr : string) (ok : W → Prop) (docs : W → gmap string string)
          (reenc : string → string) `{!VaultServer addr ok docs reenc}.

Notation State := (kv_state addr ok).
Notation path p := (kvMount +:+ "/data/" +:+ p).

Lemma kv_state_frame s t w :
  State s → ok w → State (setToken t (fst s), w).
Proof. intros (Hc & Ha & _) Hw. split_and!; cbn; auto. Qed.

Lemma do_other method p body authed s r s' :
  State s → method = "GET" ∨ p = "auth/approle/login" →
  do_request method p body authed s = (r, s') → State s' ∧ docs (snd s') = docs (snd s).
Proof.
  destruct s as [v w]. intros (Hc & Ha & Hw) Hp. cbn in Ha.
  unfold do_request, mbind, M_bind, mlift, get_vault, in_world. cbn [fst snd].
  assert (∀ q r w', http_do q w = (r, w') → hq_method q = method →
            hq_url q = va_addr v +:+ "/v1/" +:+ p → State (v, w') ∧ docs w' = docs w) as Hdo.
  { intros q r0 w' Hq Hm Hu. eapply vs_other in Hq as [? ?]; [by split_and!|done|].
    rewrite Hm, Hu, Ha. destruct Hp as [->| ->]; auto. }
  destruct body as [[b|e]|]; cbn.
  - destruct (http_do _ w) as [r0 w0] eqn:E. intros [= _ <-]. by eapply Hdo.
  - intros [= _ <-]. by split_and!.
  - destruct (http_do _ w) as [r0 w0] eqn:E. intros [= _ <-]. by eapply Hdo.
Qed.

Lemma login_kv s r s' :
  State s → login s = (r, s') → State s' ∧ docs (snd s') = docs (snd s).
Proof.
  intros Hs Hl. pose proof (login_frame _ _ _ Hl) as Hf.
  assert (ok (snd s') ∧ docs (snd s') = docs (snd s)) as [Hok Hd].
  { clear Hf. pose proof Hs as (_ & _ & Hw). destruct s as [v w].
    unfold login, mbind, M_bind, get_vault in Hl. cbn [fst snd] in *.
    destruct (negb (va_tokenFile v =? "")%string).
    { unfold attempt, read_file in Hl. destruct (fs_ReadFile _ w) as [data|e]; cbn in Hl;
        [destruct (_ =? _)%string|]; by injection Hl as _ <-. }
    destruct (negb (va_staticTok v =? "")%string); [by injection Hl as _ <-|].
    destruct (_ || _); [by injection Hl as _ <-|].
    destruct (call_open _ _ _ _) as [r1 s1] eqn:E.
    assert (State s1 ∧ docs (snd s1) = docs w) as [(_ & _ & Ho) Hd].
    { unfold call_open, call_with, mbind, M_bind in E.
      destruct (do_request _ _ _ _ (v, w)) as [[resp|e] s2] eqn:Ed;
        apply do_other in Ed as [? ?]; try done; auto.
      - rewrite andb_false_r in E. cbn in E. by destruct (_ || _); injection E as _ <-.
      - by injection E as _ <-. }
    destruct r1 as [b|e]; [|by injection Hl as _ <-]. unfold mlift in Hl.
    destruct (Decode b) as [out|e]; [|by injection Hl as _ <-].
    destruct (_ =? _)%string; [by injection Hl as _ <-|].
    destruct s1 as [v1 w1]. by injection Hl as _ <-. }
  split; [|done]. pose proof (kv_state_frame s (va_token (fst s')) (snd s') Hs Hok) as Hst.
  rewrite <-Hf in Hst. by destruct s'.
Qed.

Lemma finish_success method p resp b :
  finish method p resp = Ok b → success resp = true ∧ b = hs_body resp.
Proof. unfold finish, success. destruct (_ || _); [done|]. by intros [= <-]. Qed.

(** One read of the mount through [call], retry included. *)
Lemma call_read p s r s' :
  State s → call "GET" (path p) None true s = (r, s') →
  State s' ∧ docs (snd s') = docs (snd s) ∧
  ∀ b out, r = Ok b → Decode b = Ok out →
    docs (snd s) !! p = if len (kv_Data out) =? 0 then None else Some (kv_Data out).
Proof.
  intros Hs. rewrite call_eq.
  assert (∀ s r s', State s → do_request "GET" (path p) None true s = (r, s') →
    State s' ∧ docs (snd s') = docs (snd s) ∧
    ∀ resp b out, r = Ok resp → finish "GET" (path p) resp = Ok b → Decode b = Ok out →
      docs (snd s) !! p = if len (kv_Data out) =? 0 then None else Some (kv_Data out)) as Hdo.
  { clear Hs s r s'. intros [v w] r s' Hs Hd. pose proof (do_other _ _ _ _ _ _ _ Hs (or_introl eq_refl) Hd) as [Hs' Hdocs].
    split_and!; [done..|]. pose proof Hs as (_ & Ha & Hw). cbn in Ha, Hw. subst addr.
    unfold do_request, mbind, M_bind, get_vault, in_world in Hd. cbn [fst snd mret M_ret] in Hd.
    destruct (http_do _ w) as [r0 w0] eqn:E. injection Hd as -> <-.
    intros resp b out -> [Hok ->]%finish_success Hdec. by eapply vs_read. }
  destruct (do_request _ _ _ _ s) as [[resp|e] s1] eqn:E1; apply Hdo in E1 as (Hs1 & Hd1 & Hr1); [|done| |done].
  2: { intros [= <- <-]. by split_and!. }
  destruct (_ && _).
  2: { intros [= <- <-]. split_and!; [done..|]. intros b out Hf Hdec. by eapply Hr1. }
  destruct (login s1) as [[[]|e] s2] eqn:El; pose proof (login_kv _ _ _ Hs1 El) as [Hs2 Hd2].
  2: { intros [= <- <-]. split_and!; [done|by rewrite Hd2|done]. }
  destruct (do_request _ _ _ _ s2) as [[resp2|e] s3] eqn:E2; apply Hdo in E2 as (Hs3 & Hd3 & Hr3); [|done| |done].
  2: { intros [= <- <-]. split_and!; [done|by rewrite Hd3, Hd2|done]. }
  intros [= <- <-]. split_and!; [done|by rewrite Hd3, Hd2|].
  rewrite <-Hd1, <-Hd2. intros b out Hf Hdec. by eapply Hr3.
Qed.

(** What a state may have become after writing [doc] at [p]. *)
Definition maybe_written (p doc : string) (s s' : vault * W) : Prop :=
  docs (snd s') = docs (snd s) ∨ docs (snd s') = <[p := reenc doc]> (docs (snd s)).

Lemma maybe_written_trans p doc s1 s2 s3 :
  maybe_written p doc s1 s2 → maybe_written p doc s2 s3 → maybe_written p doc s1 s3.
Proof. unfold maybe_written. intros [-> | ->] [-> | ->]; rewrite ?insert_insert_eq; auto. Qed.

Lemma do_write p doc s r s' :
  State s → do_request "POST" (path p) (Some (Ok (data_body doc))) true s = (r, s') →
  State s' ∧ maybe_written p doc s s' ∧
  ∀ resp b, r = Ok resp → finish "POST" (path p) resp = Ok b →
            docs (snd s') = <[p := reenc doc]> (docs (snd s)).
Proof.
  destruct s as [v w]. intros (Hc & Ha & Hw) Hd. cbn in Ha, Hw. subst addr.
  unfold do_request, mbind, M_bind, mlift, get_vault, in_world in Hd. cbn in Hd.
  destruct (http_do _ w) as [r0 w0] eqn:E. injection Hd as -> <-.
  eapply vs_write in E as (Hw' & Hm & Hdone); [|done].
  split_and!; [by split_and!|done|]. intros resp b -> [Hok _]%finish_success. by eapply Hdone.
Qed.

Lemma call_write p doc s r s' :
  State s → call "POST" (path p) (Some (Ok (data_body doc))) true s = (r, s') →
  State s' ∧ maybe_written p doc s s' ∧
  (is_ok r = true → docs (snd s') = <[p := reenc doc]> (docs (snd s))).
Proof.
  intros Hs. rewrite call_eq.
  destruct (do_request _ _ _ _ s) as [[resp|e] s1] eqn:E1; apply do_write in E1 as (Hs1 & Hm1 & Hr1); [|done| |done].
  2: { intros [= <- <-]. by split_and!. }
  destruct (_ && _).
  2: { intros [= <- <-]. split_and!; [done..|]. destruct (finish _ _ resp) as [b|e] eqn:Ef; [|done].
       intros _. by eapply Hr1. }
  destruct (login s1) as [[[]|e] s2] eqn:El; pose proof (login_kv _ _ _ Hs1 El) as [Hs2 Hd2].
  2: { intros [= <- <-]. split_and!; [done| |done]. unfold maybe_written in *. by rewrite Hd2. }
  assert (maybe_written p doc s s2) as Hm2 by (unfold maybe_written in *; by rewrite Hd2).
  destruct (do_request _ _ _ _ s2) as [[resp2|e] s3] eqn:E2; apply do_write in E2 as (Hs3 & Hm3 & Hr3); [|done| |done].
  2: { intros [= <- <-]. split_and!; [done|by eapply maybe_written_trans|done]. }
  intros [= <- <-]. split_and!; [done|by eapply maybe_written_trans|].
  destruct (finish _ _ resp2) as [b|e] eqn:Ef; [|done]. intros _.
  rewrite (Hr3 _ _ eq_refl Ef). destruct Hm2 as [-> | ->]; by rewrite ?insert_insert_eq.
Qed.

(** The [kvGet] of the client, one case at a time. *)
Lemma kvGet_spec {A} `{JSON A} p s (r : res (option A)) s' :
  State s → kvGet p s = (r, s') →
  State s' ∧ docs (snd s') = docs (snd s) ∧
  match r with
  | Ok (Some a) => ∃ doc, docs (snd s) !! p = Some doc ∧ Unmarshal doc = Ok a
  | Ok None => misread docs p s = false → docs (snd s) !! p = None
  | Err _ => True
  end.
Proof.
  intros Hs. unfold kvGet, mbind at 1, M_bind at 1, get_vault. rewrite (proj1 Hs). cbn [negb].
  unfold misread, kv_read, mbind at 1, M_bind at 1, attempt. unfold mbind at 1, M_bind at 1.
  unfold mbind at 2, M_bind at 2.
  destruct (call "GET" _ None true s) as [r0 s1] eqn:E.
  pose proof (call_read p s r0 s1 Hs E) as (Hs1 & Hd1 & Hr).
  assert (∀ e : error, Contains (err_text e) "404" = true →
    Contains (err_text e) "404" && bool_decide (is_Some (docs (snd s) !! p)) = false → docs (snd s) !! p = None) as Hno.
  { intros e -> Hm. cbn in Hm. apply bool_decide_eq_false in Hm. by apply eq_None_not_Some. }
  destruct r0 as [b|e]; unfold mlift.
  - destruct (Decode b) as [out|e] eqn:Ed.
    + specialize (Hr b out eq_refl Ed). destruct (len (kv_Data out) =? 0).
      * intros [= <- <-]. by split_and!.
      * unfold mbind, M_bind. destruct (Unmarshal (kv_Data out)) as [a|e] eqn:Eu;
          intros [= <- <-]; split_and!; eauto.
    + destruct (Contains (err_text e) "404") eqn:Ec; intros [= <- <-]; split_and!; try done. cbn [fst]. by apply Hno.
  - destruct (Contains (err_text e) "404") eqn:Ec; intros [= <- <-]; split_and!; try done. cbn [fst]. by apply Hno.
Qed.

Lemma kvPut_spec {A} `{JSON A} p (a : A) s r s' :
  State s → kvPut p a s = (r, s') →
  State s' ∧
  match Marshal a with
  | Err _ => docs (snd s') = docs (snd s) ∧ is_ok r = false
  | Ok doc => maybe_written p doc s s' ∧
              (is_ok r = true → docs (snd s') = <[p := reenc doc]> (docs (snd s)))
  end.
Proof.
  intros Hs. unfold kvPut, mbind at 1, M_bind at 1, get_vault. rewrite (proj1 Hs). cbn [negb].
  unfold mbind at 1, M_bind at 1, marshal_data.
  destruct (Marshal a) as [doc|e]; cbn [mbind res_bind].
  - destruct (call _ _ _ true s) as [r0 s1] eqn:E.
    apply (call_write p doc) in E as (Hs1 & Hm & Hr); [|done].
    destruct r0; intros [= <- <-]; auto.
  - destruct (call _ _ _ true s) as [r0 s1] eqn:E. rewrite call_eq in E.
    unfold do_request, mbind, M_bind, mlift in E. injection E as <- <-. by intros [= <- <-].
Qed.

#[export] Instance vault_laws :
  KVStoreLaws (vault * W) (misread docs) State (λ s, docs (snd s)) reenc.
Proof.
  split; cbn.
  - intros A ? p s a s' Hs Hg. by apply kvGet_spec in Hg as (_ & _ & ?).
  - intros A ? p s s' Hp Hs Hg. apply kvGet_spec in Hg as (_ & _ & Hn); [|done]. by apply Hn.
  - intros A ? p s r s' Hs Hg. by apply kvGet_spec in Hg as (? & ? & _).
  - intros A ? p s a s' Hs Hp. apply kvPut_spec in Hp as (Hs' & Hp); [|done].
    destruct (Marshal a) as [doc|e]; [|by destruct Hp]. exists doc. destruct Hp as [_ Hp]. by rewrite Hp.
  - intros A ? p s a e s' Hs Hp. apply kvPut_spec in Hp as (Hs' & Hp); [|done]. split; [done|].
    destruct (Marshal a) as [doc|e']; [|left; by destruct Hp]. destruct Hp as [[?|?] _]; eauto.
Qed.
End laws.
End vault_kv.

(** ** Which key owns which id, on Vault *)
Section bindings.
  Context {W : Type} `{FileSystem W} `{VaultHTTP W} `{VaultJSON} `{JSON (option key_map)}
    (format : Z → string) (addr : string) (ok : W → Prop)
    (docs : W → gmap string string) (reenc : string → string) `{!VaultServer addr ok docs reenc}
    {wf : option key_map → Prop} `{!ReencLaws (option key_map) wf reenc}.

Notation vault_docs := (λ s : vault * W, docs (snd s)).

(** C11: The promise of agentkeys.go on the real client: whatever Vault answers,
    whether or not a write is acknowledged, and however often the client logs
    in again, enrolling without [--rebind] takes no id away from the key that
    owns it -- but for one case, in which the record is there and reading it fails
    with an error that has "404" in its text. *)
Theorem vault_never_moves_a_binding id pk by_ now s r s' id' pk' :
  kv_state addr ok s → storable (kv_view := vault_docs) (wf := wf) s id pk by_ now →
  claim format id pk by_ false now s = (r, s') →
  owner (kv_view := vault_docs) s id' = Some pk' →
  owner (kv_view := vault_docs) s' id' = Some pk' ∨
  ∃ e, fst (kv_read agentKeysVaultPath s) = Err e ∧ Contains (err_text e) "404" = true ∧
       is_Some (docs (snd s) !! agentKeysVaultPath).
Proof.
  intros Hs Hst Hc Ho. destruct (misread docs agentKeysVaultPath s) eqn:Hm.
  - right. unfold misread in Hm. destruct (fst _) as [out|e]; [done|]. apply andb_prop in Hm as [Hm Hd].
    apply bool_decide_eq_true in Hd. by exists e.
  - left. by eapply (claim_keeps_owner format (KVStoreLaws0 := vault_laws addr ok docs reenc) (wf := wf)).
Qed.
End bindings.

(** ** Witness: the Vault of ToyVault.v *)
Definition toy_ok (w : World) : Prop := wd_down w = false ∧ ∀ p, wd_kv w !! p ≠ Some "".

Lemma toy_kv_path p : TrimPrefix (kv_url toy_addr p) (toy_addr +:+ "/v1/") = "secret/data/" +:+ p.
Proof. apply (TrimPrefix_app (toy_addr +:+ "/v1/")). Qed.

Lemma toy_kv_do m p tok b w :
  wd_down w = false →
  toy_do toy_addr (mkHTTPReq m (kv_url toy_addr p) (Some tok) b) w =
  if negb (bool_decide (Some tok = Some (wd_token w)))
  then (Ok (mkHTTPResp 403 "403 Forbidden" "permission denied"), w)
  else if (m =? "GET")%string
  then match wd_kv w !! p with
       | None => (Ok not_found, w)
       | Some doc => (Ok (json_ok (mkKVOut doc)), w)
       end
  else (Ok (mkHTTPResp 204 "204 No Content" ""),
        set_kv (<[p := toy_reenc (unwrap_data (default "" b))]> (wd_kv w)) w).
Proof.
  intros Hw. unfold toy_do. cbn [hq_url hq_token hq_method hq_body]. rewrite Hw, toy_kv_path.
  rewrite HasPrefix_app, TrimPrefix_app. reflexivity.
Qed.

Lemma unwrap_data_body doc : unwrap_data (data_body doc) = doc.
Proof.
  change (data_body doc)
    with (("{" +:+ dquote +:+ "data" +:+ dquote +:+ ":") +:+ (doc +:+ "}")).
  unfold unwrap_data. rewrite TrimPrefix_app. apply stake_app_exact.
  rewrite len_app. change (len "}") with 1. lia.
Qed.

Lemma toy_decode_encode `{Countable A} (a : A) :
  @Decode A (ToyJSON.toy_json A) (pos_text (encode a)) = Ok a.
Proof.
  cbn. rewrite (proj2 (Cut_char_None 10 _)) by apply ToyJSON.pos_text_no_nl.
  unfold ToyJSON.toy_unmarshal. by rewrite text_pos_text, decode_encode.
Qed.

Lemma toy_read_success p tok w resp w' :
  toy_ok w → toy_do toy_addr (mkHTTPReq "GET" (kv_url toy_addr p) (Some tok) None) w = (Ok resp, w') →
  w' = w ∧ (success resp = true → ∃ doc, wd_kv w !! p = Some doc ∧ resp = json_ok (mkKVOut doc)) ∧
  (hs_code resp = 404 → wd_kv w !! p = None) ∧
  (success resp = false → resp = not_found ∨ resp = mkHTTPResp 403 "403 Forbidden" "permission denied").
Proof.
  intros [Hw _]. rewrite toy_kv_do by done. destruct (negb _).
  - intros [= <- <-]. split_and!; [done|done|done|by right].
  - cbn [String.eqb]. destruct (wd_kv w !! p) as [doc|]; intros [= <- <-]; split_and!; try done; [|by left].
    intros _. by exists doc.
Qed.

#[export] Instance toy_vault_server : VaultServer toy_addr toy_ok wd_kv toy_reenc.
Proof.
  split.
  - intros q w r w' [Hw Hne]. unfold http_do, toy_http, toy_do. rewrite Hw. intros Hd Hq.
    assert (w' = w) as ->; [|done]. revert Hd.
    destruct (_ =? "sys/seal-status")%string; [by intros [= _ <-]|].
    destruct (negb _); [by intros [= _ <-]|].
    destruct (HasPrefix _ "secret/data/") eqn:Ep.
    { destruct Hq as [-> | Hu]; [|by rewrite Hu in Ep].
      destruct (wd_kv w !! _); by intros [= _ <-]. }
    repeat case_match; by intros [= _ <-].
  - intros p tok w resp w' out Hok Hd Hs Hdec.
    destruct (toy_read_success p tok w resp w' Hok Hd) as (-> & Hr & _).
    destruct (Hr Hs) as (doc & Hp & ->). 
    pose proof (toy_decode_encode (mkKVOut doc)) as He. change (Decode (hs_body (json_ok (mkKVOut doc))) = Ok (mkKVOut doc)) in He.
    rewrite He in Hdec. injection Hdec as <-. cbn [kv_Data].
    destruct (len doc =? 0) eqn:E; [|done]. bool_prop. apply len_zero_inv in E as ->.
    by destruct (proj2 Hok p).
  - intros p tok w doc r w' [Hw Hne]. unfold http_do, toy_http. rewrite toy_kv_do by done.
    destruct (negb _); cbn [String.eqb]; intros [= <- <-].
    + split_and!; [done|by left|]. by intros resp [= <-].
    + cbn [default]. rewrite unwrap_data_body. cbn. split_and!; [split; [done|]|by right|done].
      intros p'. cbn. intros [[_ Hr]|[_ Hr]]%lookup_insert_Some; [|by eapply Hne].
      unfold toy_reenc in Hr. destruct (String.eqb_spec doc ""); done.
Qed.

#[export] Instance toy_keys_reenc : ReencLaws (option key_map) (λ _, True) toy_reenc.
Proof.
  intros a s _ [= <-]. unfold toy_reenc. rewrite (proj2 (String.eqb_neq _ _)) by apply pos_text_nonempty.
  cbn. unfold ToyJSON.toy_unmarshal. by rewrite text_pos_text, decode_encode.
Qed.

Definition bound_world (addr : string) : World :=
  mkWorld ∅ {[agentKeysVaultPath := pos_text (encode (Some sample_keys))]} "tok" transit_sk false.

Lemma vault_never_moves_a_binding_witness :
  owner (kv_view := λ s : vault * World, wd_kv (snd s))
    (claim (λ _, "then") "lab-1" "KEY-B" "eve" false 9 (toy_vault, bound_world toy_addr)).2 "lab-1"
  = Some "KEY-A".
Proof.
  set (s := (toy_vault, bound_world toy_addr)). set (c := claim (λ _, "then") "lab-1" "KEY-B" "eve" false 9 s).
  destruct (vault_never_moves_a_binding (λ _, "then") toy_addr toy_ok wd_kv toy_reenc (wf := λ _, True)
              "lab-1" "KEY-B" "eve" 9 s c.1 c.2 "lab-1" "KEY-A") as [Ho|(e & He & _)].
  - split_and!; [done..|]. split; [done|]. intros p Hp. unfold bound_world in Hp. cbn in Hp.
    apply lookup_singleton_Some in Hp as [_ Hp]. by apply pos_text_nonempty in Hp.
  - intros all n _. exact I.
  - apply surjective_pairing.
  - vm_compute. reflexivity.
  - exact Ho.
  - vm_compute in He. discriminate He.
Defined.

(** ** What an error that mentions "404" costs

    A Vault on port 8404 whose connection is refused once: [net/http] puts the
    URL in the text of its error. *)
Module FlakyVault.
Definition addr := "http://vault:8404".
Record t := mk { refusals : nat; behind : World }.

#[global] Instance http : VaultHTTP t := λ q w,
  match refusals w with
  | O => let '(r, b) := toy_do addr q (behind w) in (r, mk O b)
  | S n =>
      (Err (errorf ("Get " +:+ dquote +:+ hq_url q +:+ dquote +:+ ": dial tcp 10.0.0.5:8404: connect: connection refused")),
       mk n (behind w))
  end.
#[global] Instance fs : FileSystem t := {|
  fs_ReadFile p w := fs_ReadFile p (behind w);
  fs_WriteFile p d w := let '(r, b) := fs_WriteFile p d (behind w) in (r, mk (refusals w) b);
  fs_MkdirAll p w := let '(r, b) := fs_MkdirAll p (behind w) in (r, mk (refusals w) b)
|}.

Definition client : vault := setToken "tok" (newVault
  (mkConfig ":8080" "admin" "/pki" addr "" "tok" "" "" "assertions" "")).
Definition view (s : vault * t) : gmap string string := wd_kv (behind (snd s)).
Definition start : vault * t := (client, mk 1 (bound_world addr)).
End FlakyVault.

(** The record of which key owns which id is lost to one refused connection:
    the read is taken for "nothing stored yet", and enrolling a new machine then
    writes a record with that machine alone.  Every other id is free again, and
    the next enrolment under it succeeds without [--rebind]. *)
Theorem refused_connection_forgets_bindings :
  let s := FlakyVault.start in
  let '(r1, s1) := claim (λ _, "then") "lab-2" "KEY-B" "ana" false 9 s in
  let '(r2, s2) := claim (λ _, "then") "lab-1" "KEY-E" "eve" false 10 s1 in
  owner (kv_view := FlakyVault.view) s "lab-1" = Some "KEY-A" ∧
  misread (λ w, wd_kv (FlakyVault.behind w)) agentKeysVaultPath s = true ∧
  r1 = Ok () ∧ owner (kv_view := FlakyVault.view) s1 "lab-1" = None ∧
  r2 = Ok () ∧ owner (kv_view := FlakyVault.view) s2 "lab-1" = Some "KEY-E".
Proof. vm_compute. done. Qed.
