(* ===== verification/Enroll.v ===== *)
(** * Enrolment and the check on every connection (server/enroll.go)

    The handlers over the relay's whole state.  [format] is
    [Time.Format(time.RFC3339)]; the [now] arguments are the readings of
    [time.Now] in the order they happen. *)

From S2P Require Import Prelude GoStrings GoNum GoBase64 Interfaces GoNet Wire Assertions.
From S2P Require Import Challenges Events Registry Proxies Host ServerConfig VaultClient KVStore.
From S2P Require Import AgentKeys OperatorStore Auth Server.

Open Scope string_scope.
Open Scope list_scope.
Open Scope Z_scope.

Definition assertionTTL : Z := 90 * 24 * Hour.

Record enrollRequest := mkEnrollRequest {
  er_Username : string;
  er_Password : string;
  er_AgentID : string;
  er_PublicKey : string;
  er_Rebind : bool
}.

#[export] Instance enrollRequest_eq_dec : EqDecision enrollRequest.
Proof. solve_decision. Defined.
#[export] Instance enrollRequest_countable : Countable enrollRequest.
Proof.
  refine (inj_countable'
    (λ r, (er_Username r, er_Password r, er_AgentID r, er_PublicKey r, er_Rebind r))
    (λ '(u, p, i, k, b), mkEnrollRequest u p i k b) _).
  by intros [].
Defined.

(** [errors.As(err, *errRebindRequired)] *)
Fixpoint as_rebind (chain : list sentinel) : option (string * Z) :=
  match chain with
  | [] => None
  | ErrRebindRequired id t :: _ => Some (id, t)
  | _ :: chain => as_rebind chain
  end.

Definition operatorLabel (u : string) : string := if (u =? "")%string then "the admin token" else u.

(** [decodeJSON]: the decoder refuses unknown fields, which is part of the
    [Decode] it is given. *)
Definition decodeJSON {A} `{JSON A} (r : Request) : res A :=
  match Decode (stake (2 ^ 20) (rq_body r)) with
  | Err e => Err (wrapf "could not read the request: " e)
  | Ok a => Ok a
  end.

Section enroll.
  Context {W : Type} `{FileSystem W} `{VaultHTTP W} `{VaultJSON} `{Argon2} `{HMAC} `{Ed25519}
          `{JSON Assertion} `{JSON (option key_map)} `{JSON enrollRequest} (format : Z → string).

Notation SM := (M (Server W)).

Definition handleAgentChallenge (r : Request) (rnd : res string) (now1 now2 : Z) : SM Response :=
  n ← attempt (on_challenges (issue rnd now1 now2));
  match n with
  | Err e =>
      if errors_Is e ErrTooManyChallenges
      then mret (with_header "Retry-After" "5"
                   (writeJSON StatusTooManyRequests
                      (json_error "too many challenges outstanding; try again shortly")))
      else mret (writeJSON StatusInternalServerError (json_error "could not issue a challenge"))
  | Ok n => mret (writeJSON StatusOK (JObj [("challenge", JStr n)]))
  end.

(** The credentials accepted: an operator's own, or the admin token with an
    empty username. *)
Definition enroll_authorised (a : auth) (req : enrollRequest) : res bool :=
  v ← match au_ops a with
      | Some ops => verify ops (er_Username req) (er_Password req)
      | None => Ok false
      end;
  Ok (v || (er_Username req =? "")%string && matches a (TrimSpace (er_Password req))).

Definition usable_id (id : string) : bool := negb ((id =? "")%string || (128 <? len id)).

Definition usable_public_key (pk : string) : bool :=
  match std_decode pk with
  | None => false
  | Some raw => len raw =? PublicKeySize
  end.

Definition handleEnroll (r : Request) (now_claim now_issue now_event : Z) : SM Response :=
  match decodeJSON (A := enrollRequest) r with
  | Err e => mret (writeJSON StatusBadRequest (json_error (err_text e)))
  | Ok req =>
      s ← mget;
      authorised ← mlift (enroll_authorised (sv_auth s) req);
      if negb authorised
      then mret (writeJSON StatusUnauthorized (json_error "those operator credentials were not accepted"))
      else
        let agentID := TrimSpace (er_AgentID req) in
        if negb (usable_id agentID)
        then mret (writeJSON StatusBadRequest (json_error "a usable agent id is required"))
        else if negb (usable_public_key (er_PublicKey req))
        then mret (writeJSON StatusBadRequest (json_error "the public key is not a valid ed25519 key"))
        else
          c ← attempt (on_vault (claim format agentID (er_PublicKey req) (er_Username req)
                                   (er_Rebind req) now_claim));
          match c with
          | Err e =>
              match as_rebind (err_chain e) with
              | Some (id, bound) =>
                  publish now_event "refused" agentID
                    "enrolment refused: this id is enrolled with a different key";;
                  mret (writeJSON StatusConflict
                          (json_error (err_text (errRebindRequired format id bound))))
              | None =>
                  mret (writeJSON StatusServiceUnavailable
                          (json_error ("could not record which key owns this id: " +:+ err_text e)))
              end
          | Ok _ =>
              let a := mkAssertion agentID (er_PublicKey req) now_issue (now_issue + assertionTTL) in
              match MarshalAssertion a with
              | Err e => mret (writeJSON StatusInternalServerError (json_error (err_text e)))
              | Ok doc =>
                  sig ← attempt (on_vault (Sign doc));
                  match sig with
                  | Err e => mret (writeJSON StatusServiceUnavailable
                                     (json_error ("Vault could not sign this: " +:+ err_text e)))
                  | Ok sig =>
                      publish now_event "enroll" agentID
                        ("enrolled by " +:+ operatorLabel (er_Username req));;
                      mret (writeJSON StatusOK
                              (JObj [("assertion", JStr (SignedAssertion_String (mkSignedAssertion doc sig)));
                                     ("expires_at", JStr (format (as_ExpiresAt a)))]))
                  end
              end
          end
  end.

(** [now] is read by [Expired], [now_redeem] inside [redeem]. *)
Definition verifyAgent (r : Request) (now now_redeem : Z) : SM string :=
  let raw := Header_Get (rq_header r) HeaderAssertion in
  if (raw =? "")%string
  then mthrow (errorf "this agent has not been enrolled: run `beacon enroll` on it")
  else
    '(signed, a) ← mlift (ParseSignedAssertion raw);
    s ← mget;
    if negb (Verify (fst (sv_vault s)) (sa_Document signed) (sa_Signature signed))
    then mthrow (errorf "the assertion is not signed by this relay's Vault")
    else if Expired a now
    then mthrow (errorf ("the assertion expired on " +:+ format (as_ExpiresAt a)
                         +:+ ": run `beacon enroll` on it again"))
    else
      let nonce := Header_Get (rq_header r) HeaderChallenge in
      ok ← on_challenges (λ seen, let '(ok, seen) := redeem nonce now_redeem seen in (Ok ok, seen));
      if negb ok then mthrow (errorf "the challenge is unknown, already used, or expired")
      else
        match std_decode (Header_Get (rq_header r) HeaderSignature) with
        | None => mthrow (errorf "the challenge signature is malformed")
        | Some sig =>
            if negb (len sig =? SignatureSize)
            then mthrow (errorf "the challenge signature is malformed")
            else
              pub ← mlift (PublicKeyBytes a);
              if negb (ed_verify pub nonce sig)
              then mthrow (errorf "the challenge signature does not match the enrolled key")
              else mret (as_AgentID a)
        end.
End enroll.
