(* ===== verification/EnrollProofs.v ===== *)
(** * What enrolment and the handshake guarantee *)

From S2P Require Import Prelude GoStrings GoNum GoBase64 Interfaces GoNet Wire Assertions.
From S2P Require Import Challenges Events Registry Proxies Host ServerConfig VaultClient.
From S2P Require Import VaultProofs ToyVault KVStore AgentKeys OperatorStore OperatorProofs Auth.
From S2P Require Import AuthProofs Server Enroll.

Open Scope string_scope.
Open Scope list_scope.
Open Scope Z_scope.

Section enroll.
  Context {W : Type} `{FileSystem W} `{VaultHTTP W} `{VaultJSON} `{Argon2} `{HMAC} `{Ed25519}
          `{JSON Assertion} `{JSON (option key_map)} `{JSON enrollRequest} (format : Z → string).

(** ** The Vault client's cached keys are not touched by enrolment *)
Lemma kvGet_frame {A} `{JSON A} p s r s' :
  kvGet (A := A) p s = (r, s') → va_pubKeys (fst s') = va_pubKeys (fst s).
Proof.
  unfold kvGet, mbind, M_bind, get_vault, attempt. destruct s as [v w]. cbn [fst].
  destruct (negb (configured v)); [by intros [= _ <-]|].
  destruct (call _ _ _ _ (v, w)) as [[b|e] s1] eqn:Ec; apply call_frame in Ec; cbn [fst] in Ec.
  - unfold mlift. destruct (Decode b) as [out|e]; cbn [fst].
    + destruct (_ =? 0); [intros [= _ <-]; by rewrite Ec|].
      destruct (Unmarshal _) as [a|e]; intros [= _ <-]; by rewrite Ec.
    + destruct (Contains _ _); intros [= _ <-]; by rewrite Ec.
  - destruct (Contains _ _); intros [= _ <-]; by rewrite Ec.
Qed.

Lemma kvPut_frame {A} `{JSON A} p (a : A) s r s' :
  kvPut p a s = (r, s') → va_pubKeys (fst s') = va_pubKeys (fst s).
Proof.
  unfold kvPut, mbind, M_bind, get_vault. destruct s as [v w]. cbn [fst].
  destruct (negb (configured v)); [by intros [= _ <-]|].
  destruct (call _ _ _ _ (v, w)) as [[b|e] s1] eqn:Ec; apply call_frame in Ec; cbn [fst] in Ec;
    intros [= _ <-]; by rewrite Ec.
Qed.

Lemma Sign_frame doc s r s' : Sign doc s = (r, s') → va_pubKeys (fst s') = va_pubKeys (fst s).
Proof.
  unfold Sign, mbind, M_bind, get_vault. destruct s as [v w]. cbn [fst].
  destruct (negb (configured v)); [by intros [= _ <-]|].
  destruct (call _ _ _ _ (v, w)) as [[b|e] s1] eqn:Ec; apply call_frame in Ec; cbn [fst] in Ec.
  - unfold mlift. destruct (Decode b) as [out|e]; [|intros [= _ <-]; by rewrite Ec].
    destruct (_ =? _)%string; intros [= _ <-]; by rewrite Ec.
  - intros [= _ <-]; by rewrite Ec.
Qed.

Lemma claim_frame id pk by_ rb now (s : vault * W) r s' :
  claim format id pk by_ rb now s = (r, s') → va_pubKeys (fst s') = va_pubKeys (fst s).
Proof.
  unfold claim, loadLocked, mbind, M_bind. cbn [kv_Get kv_Put vault_kvstore].
  destruct (kvGet _ s) as [[found|e] s1] eqn:Eg; apply kvGet_frame in Eg; [|by intros [= _ <-]].
  destruct found as [[all|]|]; cbv [mret M_ret];
    (destruct (_ !! id) as [rec|];
     [destruct (_ =? _)%string; [by intros [= _ <-]|]; destruct rb; cbn [negb]; [|by intros [= _ <-]]|]);
    intros Hp%kvPut_frame; congruence.
Qed.

(** ** The connection check *)

(** What a request must show for [verifyAgent] to return [id]. *)
Definition proves_identity (r : Request) (now now_redeem : Z) (s : Server W) (id : string) : Prop :=
  ∃ doc sig a n key vsig t pub asig,
    let nonce := Header_Get (rq_header r) HeaderChallenge in
    (* an assertion for this id, signed by a transit key the relay holds *)
    ParseSignedAssertion (Header_Get (rq_header r) HeaderAssertion) = Ok (mkSignedAssertion doc sig, a) ∧
    as_AgentID a = id ∧
    parseSignature sig = Some (n, vsig) ∧ va_pubKeys (fst (sv_vault s)) !! n = Some key ∧
    ed_verify key doc vsig = true ∧
    (as_ExpiresAt a = 0 ∨ now ≤ as_ExpiresAt a) ∧
    (* a nonce this relay issued within the last two minutes and not yet used *)
    sv_challenges s !! nonce = Some t ∧ now_redeem ≤ t + challengeTTL ∧
    (* signed by the private half of the asserted key *)
    PublicKeyBytes a = Ok pub ∧
    std_decode (Header_Get (rq_header r) HeaderSignature) = Some asig ∧ len asig = SignatureSize ∧
    ed_verify pub nonce asig = true.

(** Whatever it answers, the check writes nothing but the pending challenges. *)
Lemma verifyAgent_frame r now nr (s : Server W) res s' :
  verifyAgent format r now nr s = (res, s') → ∃ seen, s' = set_challenges seen s.
Proof.
  assert (s = set_challenges (sv_challenges s) s) as Hself by (by destruct s).
  unfold verifyAgent, mbind, M_bind, mlift, mget.
  destruct (_ =? "")%string; [intros [= _ <-]; eauto|].
  destruct (ParseSignedAssertion _) as [[[doc sig] a]|e]; [|intros [= _ <-]; eauto].
  destruct (negb (Verify _ _ _)); [intros [= _ <-]; eauto|].
  destruct (Expired a now); [intros [= _ <-]; eauto|].
  unfold on_challenges, zoom. destruct (redeem _ nr (sv_challenges s)) as [ok seen].
  destruct (negb ok); [intros [= _ <-]; eauto|].
  destruct (std_decode _) as [asig|]; [|intros [= _ <-]; eauto].
  destruct (negb _); [intros [= _ <-]; eauto|].
  destruct (PublicKeyBytes a); [|intros [= _ <-]; eauto].
  destruct (negb _); intros [= _ <-]; eauto.
Qed.

Lemma verifyAgent_ok_inv r now nr (s : Server W) id s' :
  verifyAgent format r now nr s = (Ok id, s') →
  proves_identity r now nr s id ∧ ∃ seen, s' = set_challenges seen s ∧
    redeem (Header_Get (rq_header r) HeaderChallenge) nr (sv_challenges s) = (true, seen).
Proof.
  unfold verifyAgent, mbind, M_bind, mlift, mget, proves_identity.
  destruct (_ =? "")%string; [done|].
  destruct (ParseSignedAssertion _) as [[[doc sig] a]|e]; [|done].
  cbn [sa_Document sa_Signature]. destruct (Verify _ doc sig) eqn:Ev; cbn [negb]; [|done].
  destruct (Expired a now) eqn:Ee; [done|].
  unfold on_challenges, zoom.
  destruct (redeem _ nr (sv_challenges s)) as [ok seen] eqn:Er.
  destruct ok; cbn [negb]; [|done].
  destruct (std_decode _) as [asig|]; [|done]. destruct (len asig =? SignatureSize) eqn:Es; cbn [negb]; [|done].
  destruct (PublicKeyBytes a) as [pub|e] eqn:Ep; [|done].
  destruct (ed_verify pub _ asig) eqn:Ea; cbn [negb]; [|done]. intros [= <- <-].
  split; [|by exists seen]. pose proof (redeem_true _ _ _ _ Er) as [(t & Ht & Hle) _].
  unfold Verify in Ev. destruct (parseSignature sig) as [[n vsig]|] eqn:Eps; [|done].
  destruct (va_pubKeys _ !! n) as [key|] eqn:Ek; [|done]. bool_prop.
  exists doc, sig, a, n, key, vsig, t, pub, asig. split_and!; try done.
  destruct (decide (as_ExpiresAt a = 0)); [by left|right]. by apply Expired_inv.
Qed.

Lemma verifyAgent_complete r now nr (s : Server W) id :
  Header_Get (rq_header r) HeaderAssertion ≠ "" →
  proves_identity r now nr s id →
  ∃ s', verifyAgent format r now nr s = (Ok id, s').
Proof.
  intros Hne (doc & sig & a & n & key & vsig & t & pub & asig & Hp & Hid & Hps & Hk & Hv & He & Ht
              & Hle & Hpub & Hsig & Hl & Ha).
  unfold verifyAgent, mbind, M_bind, mlift, mget.
  rewrite (proj2 (String.eqb_neq _ _) Hne), Hp. cbn [sa_Document sa_Signature].
  unfold Verify. rewrite Hps, Hk, Hv. cbn [negb].
  assert (Expired a now = false) as -> by (unfold Expired, IsZero; destruct He; lia).
  unfold on_challenges, zoom. rewrite (redeem_pending _ _ _ t) by done. cbn [negb].
  rewrite Hsig, Hl. cbn [negb]. rewrite Z.eqb_refl, Hpub. cbn [negb].
  rewrite Ha, Hid. by eexists.
Qed.

(** C1: A connection is accepted exactly for what it shows, and what it shows is
    that the holder of the enrolled private key signed a nonce this relay issued
    moments ago: the assertion is Vault's, for the id returned, unexpired; the
    nonce is consumed; nothing else of the relay changes.  The id in the
    [X-Beacon-Agent-Id] header plays no part. *)
Theorem verifyAgent_sound_and_complete r now nr (s : Server W) id :
  Header_Get (rq_header r) HeaderAssertion ≠ "" →
  (fst (verifyAgent format r now nr s) = Ok id ↔ proves_identity r now nr s id) ∧
  (fst (verifyAgent format r now nr s) = Ok id →
   ∃ seen, snd (verifyAgent format r now nr s) = set_challenges seen s ∧
           seen !! Header_Get (rq_header r) HeaderChallenge = None).
Proof.
  intros Hne. split; [split|].
  - intros Hf. destruct (verifyAgent format r now nr s) as [res s'] eqn:E. cbn in Hf. subst res.
    by apply verifyAgent_ok_inv in E as [? _].
  - intros Hp. by destruct (verifyAgent_complete _ _ _ _ _ Hne Hp) as [s' ->].
  - intros Hf. destruct (verifyAgent format r now nr s) as [res s'] eqn:E. cbn in Hf. subst res.
    apply verifyAgent_ok_inv in E as [_ (seen & -> & Hr)]. exists seen. split; [done|].
    by apply redeem_true in Hr as [_ ?].
Qed.

(** A captured handshake is worthless: presented again -- whatever challenges
    others have asked for or used in between -- it is refused, unless the relay
    hands out the very same nonce again. *)
Theorem handshake_not_replayable r now nr (s : Server W) id s' cs (s2 : Server W) now2 nr2 :
  verifyAgent format r now nr s = (Ok id, s') →
  sv_challenges s2 = run_calls cs (sv_challenges s') →
  forallb (λ c, negb (mints (Header_Get (rq_header r) HeaderChallenge) c)) cs = true →
  is_ok (fst (verifyAgent format r now2 nr2 s2)) = false.
Proof.
  intros Hv Hs2 Hcs. apply verifyAgent_ok_inv in Hv as [_ (seen & -> & Hr)]. cbn in Hs2.
  destruct (verifyAgent format r now2 nr2 s2) as [[id2|e] s3] eqn:E; [|done]. exfalso.
  apply verifyAgent_ok_inv in E as [_ (seen2 & _ & Hr2)].
  rewrite Hs2 in Hr2.
  apply redeem_true in Hr as [_ Hgone]. rewrite redeem_absent in Hr2; [done|].
  by apply run_calls_absent.
Qed.

(** ** Enrolment *)
Lemma publish_state now typ id msg (s : Server W) :
  publish now typ id msg s = (Ok (), set_events (Publish now (mkEvent typ id msg 0) (sv_events s)) s).
Proof. done. Qed.

(** The whole of a successful enrolment. *)
Lemma handleEnroll_ok_inv r tc ti te s resp s' :
  handleEnroll format r tc ti te s = (Ok resp, s') → rs_status resp = StatusOK →
  ∃ req doc sig vw1 vw2,
    decodeJSON r = Ok req ∧
    enroll_authorised (sv_auth s) req = Ok true ∧
    usable_id (TrimSpace (er_AgentID req)) = true ∧
    usable_public_key (er_PublicKey req) = true ∧
    claim format (TrimSpace (er_AgentID req)) (er_PublicKey req) (er_Username req) (er_Rebind req) tc
          (sv_vault s) = (Ok (), vw1) ∧
    let a := mkAssertion (TrimSpace (er_AgentID req)) (er_PublicKey req) ti (ti + assertionTTL) in
    MarshalAssertion a = Ok doc ∧
    Sign doc vw1 = (Ok sig, vw2) ∧
    rs_body resp = BJson (JObj [("assertion", JStr (SignedAssertion_String (mkSignedAssertion doc sig)));
                                ("expires_at", JStr (format (ti + assertionTTL)))]) ∧
    sv_vault s' = vw2 ∧ sv_challenges s' = sv_challenges s ∧ sv_auth s' = sv_auth s ∧
    sv_registry s' = sv_registry s.
Proof.
  unfold handleEnroll.
  destruct (decodeJSON r) as [req|e]; [|by intros [= <- <-]].
  unfold mbind, M_bind, mget, mlift.
  destruct (enroll_authorised (sv_auth s) req) as [[]|e] eqn:Ea; cbn [negb]; [|by intros [= <- <-]|done].
  destruct (usable_id _) eqn:Eid; cbn [negb]; [|by intros [= <- <-]].
  destruct (usable_public_key _) eqn:Epk; cbn [negb]; [|by intros [= <- <-]].
  unfold attempt, on_vault, zoom.
  destruct (claim _ _ _ _ _ _ (sv_vault s)) as [[[]|e] vw1] eqn:Ec.
  2: { destruct (as_rebind _) as [[id t]|]; [rewrite publish_state|]; by intros [= <- <-]. }
  destruct (MarshalAssertion _) as [doc|e] eqn:Em; [|by intros [= <- <-]].
  cbn [sv_vault set_vault].
  destruct (Sign doc vw1) as [[sig|e] vw2] eqn:Es; [|by intros [= <- <-]].
  rewrite publish_state. intros [= <- <-] _.
  exists req, doc, sig, vw1, vw2. split_and!; done.
Qed.

Lemma usable_public_key_spec pk :
  usable_public_key pk = true → ∃ raw, std_decode pk = Some raw ∧ len raw = PublicKeySize.
Proof.
  unfold usable_public_key. destruct (std_decode pk) as [raw|]; [|done]. intros. bool_prop. eauto.
Qed.

(** C12: An assertion is issued only to someone with an operator's credentials (or
    the admin token), only for a usable id and a whole key, and only for an id
    that key owns or may take; any other answer is not 200, and enrolment never
    touches the sessions, the account or the pending challenges. *)
Theorem enroll_requires_operator r tc ti te s resp s' :
  handleEnroll format r tc ti te s = (Ok resp, s') →
  (rs_status resp = StatusOK →
   ∃ req, decodeJSON r = Ok req ∧
     ((∃ ops, au_ops (sv_auth s) = Some ops ∧ verify ops (er_Username req) (er_Password req) = Ok true) ∨
      (er_Username req = "" ∧ au_token (sv_auth s) ≠ "" ∧
       TrimSpace (er_Password req) = au_token (sv_auth s))) ∧
     TrimSpace (er_AgentID req) ≠ "" ∧ len (TrimSpace (er_AgentID req)) ≤ 128 ∧
     (∃ raw, std_decode (er_PublicKey req) = Some raw ∧ len raw = PublicKeySize) ∧
     fst (claim format (TrimSpace (er_AgentID req)) (er_PublicKey req) (er_Username req)
                (er_Rebind req) tc (sv_vault s)) = Ok ()).
Proof.
  intros Hh Hok. apply (handleEnroll_ok_inv _ _ _ _ _ _ _ Hh) in Hok
    as (req & doc & sig & vw1 & vw2 & Hd & Ha & Hid & Hpk & Hc & _).
  exists req. split; [done|].
  unfold usable_id in Hid. bool_prop. apply usable_public_key_spec in Hpk.
  split_and!; try done; [|by rewrite Hc].
  unfold enroll_authorised in Ha. destruct (au_ops (sv_auth s)) as [ops|] eqn:Eo.
  - destruct (verify ops _ _) as [[]|e] eqn:Ev; cbn in Ha; [by left; exists ops| |done].
    injection Ha as Ha. right. bool_prop. apply matches_spec in H11 as [? ?]. done.
  - cbn in Ha. injection Ha as Ha. right. bool_prop. apply matches_spec in H11 as [? ?]. done.
Qed.

(** ** From enrolment to connection *)
Context {wf : Assertion → Prop} `{!JSONLaws Assertion wf} `{!Ed25519Laws}.

(** What [enroll] printed, presented with a fresh challenge signed by the key it
    was issued for, connects -- and connects as the enrolled id -- for as long
    as the assertion lasts.  The hypothesis about [Sign] is what Vault promises:
    its signatures verify under the public key the relay has cached. *)
Lemma enroll_connects r tc ti te s resp s' text rest sk req r2 (s2 : Server W) t now nr :
  handleEnroll format r tc ti te s = (Ok resp, s') → rs_status resp = StatusOK →
  rs_body resp = BJson (JObj (("assertion", JStr text) :: rest)) →
  decodeJSON r = Ok req → er_PublicKey req = std_encode (ed_public sk) → len sk = PrivateKeySize →
  let id := TrimSpace (er_AgentID req) in
  let a := mkAssertion id (er_PublicKey req) ti (ti + assertionTTL) in
  let vw1 := (claim format id (er_PublicKey req) (er_Username req) (er_Rebind req) tc (sv_vault s)).2 in
  (∀ doc sig vw2, MarshalAssertion a = Ok doc → Sign doc vw1 = (Ok sig, vw2) →
     Verify (fst (sv_vault s)) doc sig = true) →
  wf a →
  va_pubKeys (fst (sv_vault s2)) = va_pubKeys (fst (sv_vault s)) →
  Header_Get (rq_header r2) HeaderAssertion = text →
  Header_Get (rq_header r2) HeaderSignature
    = std_encode (ed_sign sk (Header_Get (rq_header r2) HeaderChallenge)) →
  sv_challenges s2 !! Header_Get (rq_header r2) HeaderChallenge = Some t →
  nr ≤ t + challengeTTL → now ≤ ti + assertionTTL →
  fst (verifyAgent format r2 now nr s2) = Ok id.
Proof.
  intros Hh Hst Hbody Hdec Hpk Hsk id a vw1 Hsign Hwf Hkeys Hass Hsig Hch Hnr Hnow.
  apply (handleEnroll_ok_inv _ _ _ _ _ _ _ Hh) in Hst
    as (req' & doc & sig & vw1' & vw2 & Hd & _ & Hid & Hup & Hc & Hm & Hs & Hb & _).
  rewrite Hd in Hdec. injection Hdec as ->. rewrite Hb in Hbody. injection Hbody as <- _.
  assert (vw1' = vw1) as -> by (unfold vw1, id; by rewrite Hc).
  specialize (Hsign _ _ _ Hm Hs). unfold Verify in Hsign.
  destruct (parseSignature sig) as [[n vsig]|] eqn:Eps; [|done].
  destruct (va_pubKeys (fst (sv_vault s)) !! n) as [key|] eqn:Ek; [|done].
  unfold usable_id in Hid. bool_prop. apply usable_public_key_spec in Hup as (raw & Hraw & Hlen).
  assert (ParseSignedAssertion (SignedAssertion_String (mkSignedAssertion doc sig))
          = Ok (mkSignedAssertion doc sig, a)) as Hparse.
  { apply ParseSignedAssertion_String; try done. cbn. intros Hn. rewrite Hn in Hraw.
    change (std_decode "") with (Some "") in Hraw. by injection Hraw as <-. }
  destruct (verifyAgent_complete r2 now nr s2 id) as [s3 ->]; [| |done].
  - rewrite Hass. intros Hn. by rewrite Hn in Hparse.
  - exists doc, sig, a, n, key, vsig, t, (ed_public sk),
      (ed_sign sk (Header_Get (rq_header r2) HeaderChallenge)).
    rewrite Hass, Hsig, Hkeys. split_and!; try done.
    + right. cbn. lia.
    + apply PublicKeyBytes_encode; [done|]. by apply ed_public_size.
    + apply std_decode_encode.
    + by apply ed_sign_size.
    + by apply ed_verify_sign.
Qed.

(** Rebinding an id to a new key does not unseat the old one: the connection
    check reads the cached transit keys and the pending challenges and nothing
    else, so an assertion already issued keeps working, whatever the record of
    owners has come to say. *)
Theorem rebind_does_not_revoke r now nr (s : Server W) w' :
  fst (verifyAgent format r now nr (set_vault (fst (sv_vault s), w') s))
  = fst (verifyAgent format r now nr s).
Proof.
  unfold verifyAgent, mbind, M_bind, mlift, mget. destruct (_ =? "")%string; [done|].
  destruct (ParseSignedAssertion _) as [[[doc sig] a]|e]; [|done]. cbn [sv_vault set_vault fst].
  destruct (negb (Verify _ _ _)); [done|]. destruct (Expired a now); [done|].
  unfold on_challenges, zoom. cbn [sv_challenges set_vault].
  destruct (redeem _ nr (sv_challenges s)) as [[] seen]; cbn [negb]; [|done].
  destruct (std_decode _) as [asig|]; [|done]. destruct (negb _); [done|].
  destruct (PublicKeyBytes a); [|done]. by destruct (negb _).
Qed.
End enroll.

(** ** Witnesses: a whole life on the concrete Vault *)
#[export] Instance toy_assertion_json : JSON Assertion := ToyJSON.toy_json Assertion.
#[export] Instance toy_assertion_laws : JSONLaws Assertion (λ _, True) := ToyJSON.toy_json_laws Assertion.
#[export] Instance toy_enroll_json : JSON enrollRequest := ToyJSON.toy_json enrollRequest.

Definition toy_format (t : Z) : string := itoa t.
Definition agent_sk : string := pad_to 64 "agent-seed".
Definition toy_enroll (rebind : bool) : enrollRequest :=
  mkEnrollRequest "ana" "correct horse" " lab-1 " (std_encode (ed_public agent_sk)) rebind.
Definition toy_enroll_http : Request :=
  mkRequest EnrollPath ∅ "10.0.0.1:1" None [] ∅ ∅
    (match Marshal (toy_enroll false) with Ok s => s | Err _ => "" end).

Definition toy_server : Server World :=
  set_auth_vault
    (mkAuth "admin" (Some (fst toy_saved)) (mkProxySet []),
     (set_pubKeys {[1 := ed_public transit_sk]} (setToken "tok" toy_vault), snd (snd toy_saved)))
    (newServer toy_config toy_world 0).

Definition toy_enrolled := handleEnroll toy_format toy_enroll_http 1 2 3 toy_server.
Definition toy_text : string :=
  match fst toy_enrolled with
  | Ok resp => match rs_body resp with
               | BJson (JObj ((_, JStr t) :: _)) => t
               | _ => ""
               end
  | Err _ => ""
  end.

(** The relay after it has handed out a nonce. *)
Definition toy_nonce : string := rawurl_encode "fresh".
Definition toy_server2 : Server World :=
  (handleAgentChallenge toy_enroll_http (Ok "fresh") 10 10 (snd toy_enrolled)).2.

Definition toy_connect : Request :=
  mkRequest ConnectPath
    {[HeaderAssertion := toy_text; HeaderChallenge := toy_nonce;
      HeaderSignature := std_encode (ed_sign agent_sk toy_nonce)]} "10.0.0.2:9" None [] ∅ ∅ "".

Lemma enroll_requires_operator_witness :
  ∃ resp, fst toy_enrolled = Ok resp ∧ rs_status resp = StatusOK ∧
  ∃ req, decodeJSON toy_enroll_http = Ok req ∧
     ((∃ ops, au_ops (sv_auth toy_server) = Some ops ∧
              verify ops (er_Username req) (er_Password req) = Ok true) ∨
      (er_Username req = "" ∧ au_token (sv_auth toy_server) ≠ "" ∧
       TrimSpace (er_Password req) = au_token (sv_auth toy_server))) ∧
     TrimSpace (er_AgentID req) ≠ "" ∧ len (TrimSpace (er_AgentID req)) ≤ 128 ∧
     (∃ raw, std_decode (er_PublicKey req) = Some raw ∧ len raw = PublicKeySize) ∧
     fst (claim toy_format (TrimSpace (er_AgentID req)) (er_PublicKey req) (er_Username req)
                (er_Rebind req) 1 (sv_vault toy_server)) = Ok ().
Proof.
  destruct (fst toy_enrolled) as [resp|e] eqn:E; [|vm_compute in E; discriminate].
  exists resp. split; [done|].
  assert (rs_status resp = StatusOK) as Hst.
  { transitivity (match fst toy_enrolled with Ok r => rs_status r | Err _ => 0 end);
      [by rewrite E|vm_compute; reflexivity]. }
  split; [done|].
  eapply (enroll_requires_operator toy_format toy_enroll_http 1 2 3 toy_server); [|exact Hst].
  by apply run_result.
Defined.

Lemma verifyAgent_sound_and_complete_witness :
  fst (verifyAgent toy_format toy_connect 20 20 toy_server2) = Ok "lab-1" ↔
  proves_identity toy_connect 20 20 toy_server2 "lab-1".
Proof. apply verifyAgent_sound_and_complete. vm_compute. discriminate. Defined.

Lemma handshake_not_replayable_witness :
  is_ok (fst (verifyAgent toy_format toy_connect 30 30
                (snd (verifyAgent toy_format toy_connect 20 20 toy_server2)))) = false.
Proof.
  eapply (handshake_not_replayable toy_format toy_connect 20 20 toy_server2 "lab-1" _ []);
    [apply run_result; vm_compute; reflexivity|reflexivity|reflexivity].
Defined.
