(* ===== verification/Mux.v ===== *)
(** * http.ServeMux

    The matching of method patterns, as far as the relay's routes use it:
    literal segments, single-segment wildcards, a trailing slash for a subtree,
    and "{$}" for the root.  Requests are matched on their escaped path; the
    query, which a redirect carries over, is not part of the model. *)

From Stdlib Require Import Ascii.
From S2P Require Import Prelude GoStrings GoNum GoNet.

Open Scope string_scope.
Open Scope list_scope.
Open Scope Z_scope.

(** [url.PathUnescape]; [None] is a malformed escape. *)
Fixpoint PathUnescape (s : string) : option string :=
  match s with
  | EmptyString => Some ""
  | String c s' =>
      if is_char 37 c then
        match s' with
        | String a (String b s'') =>
            h ← hex_val a; l ← hex_val b; t ← PathUnescape s'';
            Some (String (byte (Z.to_N (h * 16 + l))) t)
        | _ => None
        end
      else t ← PathUnescape s'; Some (String c t)
  end.

(** A segment that cannot be unescaped is compared as it is. *)
Definition path_segment (s : string) : string := default s (PathUnescape s).

(** "/a/b" is ["a"; "b"], "/a/" is ["a"; ""]. *)
Definition segments (raw : string) : list string := Split (TrimPrefix raw "/") 47.
Definition unsegments (segs : list string) : string := "/" +:+ Join segs "/".

(** [path.Clean], and [cleanPath] on top of it, which keeps a trailing slash. *)
Definition clean_step (stack : list string) (seg : string) : list string :=
  if (seg =? "")%string || (seg =? ".")%string then stack
  else if (seg =? "..")%string then tail stack else seg :: stack.

Definition cleanPath (raw : string) : string :=
  let segs := segments raw in
  let np := reverse (fold_left clean_step segs []) in
  if bool_decide (last segs = Some "") && bool_decide (np ≠ [])
  then unsegments np +:+ "/" else unsegments np.

(** ** Patterns *)
Inductive seg := Lit (s : string) | Wild (name : string).
Inductive shape := Exact | Subtree.

(** "GET /ui/" is a [Subtree] of ["ui"]; "/{$}" is the exact [""]. *)
Record pattern := mkPattern { pt_method : string; pt_segs : list seg; pt_shape : shape }.

Fixpoint match_segs (ps : list seg) (sh : shape) (ss : list string) : option (list (string * string)) :=
  match ps, ss with
  | [], [] => match sh with Exact => Some [] | Subtree => None end
  | [], _ :: _ => match sh with Exact => None | Subtree => Some [] end
  | Lit l :: ps, s :: ss => if (l =? s)%string then match_segs ps sh ss else None
  | Wild n :: ps, s :: ss =>
      if (s =? "")%string then None else m ← match_segs ps sh ss; Some ((n, s) :: m)
  | _ :: _, [] => None
  end.

(** A GET pattern matches HEAD too; no method matches them all. *)
Definition match_method (pat method : string) : bool :=
  (pat =? "")%string || (pat =? method)%string || (pat =? "GET")%string && (method =? "HEAD")%string.

(** [exactMatch]: no part of the path is left to the subtree. *)
Definition exact_match (p : pattern) (ss : list string) : bool :=
  match pt_shape p with
  | Exact => true
  | Subtree => (length ss =? S (length (pt_segs p)))%nat && bool_decide (last ss = Some "")
  end.

Section mux.
  Context {R : Type}.

Inductive mux_result :=
  | MuxFound (route : R) (params : list (string * string))
  | MuxRedirect (path : string)
  | MuxNotAllowed (allow : list string)
  | MuxNotFound.

(** The entry for these segments: the first, which is the most specific when
    the table has no overlap. *)
Fixpoint lookup (table : list (pattern * R)) (method : string) (ss : list string)
    : option (pattern * R * list (string * string)) :=
  match table with
  | [] => None
  | (p, route) :: table =>
      match (if match_method (pt_method p) method then match_segs (pt_segs p) (pt_shape p) ss else None) with
      | Some params => Some (p, route, params)
      | None => lookup table method ss
      end
  end.

Definition allowed (table : list (pattern * R)) (ss : list string) : list string :=
  (λ pr, pt_method pr.1) <$>
    filter (λ pr, is_Some (match_segs (pt_segs pr.1) (pt_shape pr.1) ss)) table.

Definition found_exact (o : option (pattern * R * list (string * string))) (ss : list string) : bool :=
  match o with Some (p, _, _) => exact_match p ss | None => false end.

(** [findHandler] *)
Definition ServeMux (table : list (pattern * R)) (method raw : string) : mux_result :=
  let connect := (method =? "CONNECT")%string in
  let path := if connect then raw else cleanPath raw in
  let ss := path_segment <$> segments path in
  let n := lookup table method ss in
  if negb (found_exact n ss) && negb (bool_decide (last ss = Some ""))
     && found_exact (lookup table method (ss ++ [""])) (ss ++ [""])
  then MuxRedirect (path +:+ "/")
  else if negb (path =? raw)%string then MuxRedirect path
  else match n with
       | Some (_, route, params) => MuxFound route params
       | None => match allowed table ss with [] => MuxNotFound | ms => MuxNotAllowed ms end
       end.

(** ** What a match means *)

(** [ss] is an instance of the segments of a pattern. *)
Inductive instance_of : list seg → shape → list string → Prop :=
  | inst_exact : instance_of [] Exact []
  | inst_subtree s ss : instance_of [] Subtree (s :: ss)
  | inst_lit l ps sh ss : instance_of ps sh ss → instance_of (Lit l :: ps) sh (l :: ss)
  | inst_wild n ps sh s ss : s ≠ "" → instance_of ps sh ss → instance_of (Wild n :: ps) sh (s :: ss).

Lemma match_segs_spec ps sh ss : is_Some (match_segs ps sh ss) ↔ instance_of ps sh ss.
Proof.
  split.
  - revert ss. induction ps as [|[l|n] ps IH]; intros [|s ss] [m Hm]; cbn in Hm; try done.
    + destruct sh; [constructor|done].
    + destruct sh; [done|constructor].
    + destruct (String.eqb_spec l s) as [<-|]; [|done]. constructor. by apply IH.
    + destruct (String.eqb_spec s ""); [done|]. constructor; [done|]. apply IH.
      destruct (match_segs ps sh ss); [by eexists|done].
  - induction 1 as [| |l ps sh ss _ IH|n ps sh s ss Hs _ IH]; cbn.
    + by eexists.
    + by eexists.
    + by rewrite String.eqb_refl.
    + rewrite (proj2 (String.eqb_neq _ _) Hs). destruct IH as [m ->]. by eexists.
Qed.

Lemma lookup_Some table method ss p route params :
  lookup table method ss = Some (p, route, params) →
  (p, route) ∈ table ∧ match_method (pt_method p) method = true ∧
  match_segs (pt_segs p) (pt_shape p) ss = Some params.
Proof.
  induction table as [|[q r] table IH]; [done|]. cbn.
  destruct (match_method (pt_method q) method) eqn:Em.
  - destruct (match_segs (pt_segs q) (pt_shape q) ss) eqn:Es.
    + intros [= <- <- <-]. split; [constructor|done].
    + intros H%IH. destruct H. split; [by constructor|done].
  - intros H%IH. destruct H. split; [by constructor|done].
Qed.

Lemma lookup_None table method ss :
  lookup table method ss = None ↔
  ∀ p r, (p, r) ∈ table → match_method (pt_method p) method = true →
         ¬ instance_of (pt_segs p) (pt_shape p) ss.
Proof.
  split.
  - induction table as [|[q r] table IH]; intros Hl p r' Hin Hm Hi; [by apply elem_of_nil in Hin|].
    cbn in Hl. apply match_segs_spec in Hi as [ms Hi]. apply elem_of_cons in Hin as [[= -> ->]|Hin].
    + by rewrite Hm, Hi in Hl.
    + destruct (if match_method _ _ then _ else _); [done|]. eapply (IH Hl); [done..|].
      apply match_segs_spec. by eexists.
  - induction table as [|[q r] table IH]; intros Hn; [done|]. cbn.
    destruct (match_method (pt_method q) method) eqn:Em;
      [destruct (match_segs (pt_segs q) (pt_shape q) ss) eqn:Es|].
    + exfalso. eapply (Hn q r); [constructor|done|]. apply match_segs_spec. by eexists.
    + apply IH. intros p r' Hin. apply (Hn p r'). by constructor.
    + apply IH. intros p r' Hin. apply (Hn p r'). by constructor.
Qed.

(** ** Tables without overlap *)
Fixpoint may_overlap (ps : list seg) (sh : shape) (qs : list seg) (sh' : shape) : bool :=
  match ps, qs with
  | [], [] => match sh, sh' with Exact, Subtree | Subtree, Exact => false | _, _ => true end
  | [], _ :: _ => match sh with Exact => false | Subtree => true end
  | _ :: _, [] => match sh' with Exact => false | Subtree => true end
  | Lit a :: ps, Lit b :: qs => (a =? b)%string && may_overlap ps sh qs sh'
  | Lit a :: ps, Wild _ :: qs | Wild _ :: ps, Lit a :: qs =>
      negb (a =? "")%string && may_overlap ps sh qs sh'
  | Wild _ :: ps, Wild _ :: qs => may_overlap ps sh qs sh'
  end.

Definition may_share (m m' : string) : bool :=
  (m =? "")%string || (m' =? "")%string || (m =? m')%string
  || (m =? "GET")%string && (m' =? "HEAD")%string || (m =? "HEAD")%string && (m' =? "GET")%string.

Definition disjoint_entries (p q : pattern) : bool :=
  negb (may_share (pt_method p) (pt_method q)
        && may_overlap (pt_segs p) (pt_shape p) (pt_segs q) (pt_shape q)).

Fixpoint pairwise {A} (P : A → A → bool) (l : list A) : bool :=
  match l with [] => true | x :: l => forallb (P x) l && pairwise P l end.

Lemma may_overlap_sound ps sh qs sh' ss :
  instance_of ps sh ss → instance_of qs sh' ss → may_overlap ps sh qs sh' = true.
Proof.
  intros Hp. revert qs. induction Hp; intros qs Hq; inversion Hq; subst; cbn; try done.
  - rewrite String.eqb_refl. cbn. eauto.
  - rewrite (proj2 (String.eqb_neq _ _)) by done. cbn. eauto.
  - rewrite (proj2 (String.eqb_neq _ _)) by done. cbn. eauto.
  - eauto.
Qed.

Lemma may_share_sound m m' method :
  match_method m method = true → match_method m' method = true → may_share m m' = true.
Proof.
  unfold match_method, may_share. rewrite !orb_true_iff, !andb_true_iff, !String.eqb_eq.
  naive_solver.
Qed.

Lemma pairwise_elem {A} (P : A → A → bool) l x y :
  (∀ a b, P a b = P b a) → pairwise P l = true → x ∈ l → y ∈ l → x = y ∨ P x y = true.
Proof.
  intros Hsym. induction l as [|a l IH]; cbn; intros Hp Hx Hy; [by apply elem_of_nil in Hx|].
  apply andb_true_iff in Hp as [Ha Hp]. rewrite forallb_forall in Ha.
  apply elem_of_cons in Hx as [->|Hx]; apply elem_of_cons in Hy as [->|Hy]; [by left|..].
  - right. apply Ha. by apply list_elem_of_In.
  - right. rewrite Hsym. apply Ha. by apply list_elem_of_In.
  - by apply IH.
Qed.
End mux.

Lemma may_overlap_sym ps sh qs sh' : may_overlap ps sh qs sh' = may_overlap qs sh' ps sh.
Proof.
  revert qs. induction ps as [|[a|n] ps IH]; intros [|[b|m] qs]; cbn; try done.
  - by destruct sh, sh'.
  - by rewrite IH, String.eqb_sym.
  - by rewrite IH.
  - by rewrite IH.
Qed.

Lemma disjoint_entries_sym p q : disjoint_entries p q = disjoint_entries q p.
Proof.
  unfold disjoint_entries. rewrite may_overlap_sym. f_equal. f_equal. unfold may_share.
  rewrite (String.eqb_sym (pt_method q) (pt_method p)).
  repeat destruct (_ =? _)%string; reflexivity.
Qed.

(** ** Unescaping and segments *)
Lemma PathUnescape_char c s :
  is_char 37 c = false → PathUnescape (String c s) = (t ← PathUnescape s; Some (String c t)).
Proof. intros Hc. cbn. by rewrite Hc. Qed.

Lemma hex_val_slash : hex_val (byte 47) = None.
Proof. reflexivity. Qed.

(** No escape straddles a slash. *)
Lemma PathUnescape_slash a b p :
  PathUnescape (a +:+ "/" +:+ b) = Some p →
  ∃ pa pb, PathUnescape a = Some pa ∧ PathUnescape b = Some pb ∧ p = pa +:+ "/" +:+ pb.
Proof.
  revert p. induction a as [a IH] using string_len_ind. intros p.
  destruct a as [|c a]; cbn [String.append].
  - rewrite sapp_nil_l. change ("/" +:+ b) with (String (byte 47) b). rewrite PathUnescape_char by done.
    destruct (PathUnescape b) as [t|]; [|done]. intros [= <-]. by exists "", t.
  - rewrite sapp_cons. destruct (is_char 37 c) eqn:Ec.
    + cbn [PathUnescape]. rewrite Ec. destruct a as [|x [|y a]].
      * rewrite sapp_nil_l. change ("/" +:+ b) with (String (byte 47) b). by destruct b.
      * rewrite sapp_cons, sapp_nil_l. change ("/" +:+ b) with (String (byte 47) b).
        cbn match. rewrite hex_val_slash. by destruct (hex_val x).
      * rewrite !sapp_cons. destruct (hex_val x) as [h|]; [|done]. destruct (hex_val y) as [l|]; [|done].
        cbn [mbind option_bind]. destruct (PathUnescape (a +:+ _)) as [t|] eqn:Et; [|done].
        intros [= <-]. apply IH in Et as (pa & pb & -> & -> & ->); [|rewrite !len_cons; lia].
        by exists (String (byte (Z.to_N (h * 16 + l))) pa), pb.
    + rewrite !PathUnescape_char by done.
      destruct (PathUnescape (a +:+ _)) as [t|] eqn:Et; [|done].
      intros [= <-]. apply IH in Et as (pa & pb & -> & -> & ->); [|rewrite len_cons; lia].
      by exists (String c pa), pb.
Qed.

(** The decoded path is the segments of the escaped one, decoded. *)
Lemma PathUnescape_segments raw p :
  HasPrefix raw "/" = true → PathUnescape raw = Some p →
  p = unsegments (path_segment <$> segments raw).
Proof.
  intros Hpre Hp. apply HasPrefix_spec in Hpre as [s ->]. unfold segments. rewrite TrimPrefix_app.
  change ("/" +:+ s) with (String (byte 47) s) in Hp. rewrite PathUnescape_char in Hp by done.
  destruct (PathUnescape s) as [t|] eqn:Et; [|done]. injection Hp as <-.
  unfold unsegments. change ("/" +:+ ?x) with (String (byte 47) x). f_equal.
  revert t Et. induction s as [s IH] using string_len_ind. intros t Et.
  destruct (Cut s "/") as [[a b]|] eqn:Ec.
  - change "/" with (String (byte 47) "") in Ec. pose proof (Cut_char_first 47 s a b Ec) as Ha.
    apply Cut_Some in Ec as ->. change (String (byte 47) "") with "/" in *.
    apply PathUnescape_slash in Et as (pa & pb & Ea & Eb & ->).
    change ("/" +:+ b) with (String (byte 47) b) at 1. rewrite Split_app by done.
    cbn [fmap list_fmap]. unfold path_segment at 1. rewrite Ea. cbn [default].
    assert (pb = Join (path_segment <$> Split b 47) "/") as ->.
    { apply IH; [|done]. rewrite !len_app. pose proof (len_nonneg a). change (len "/") with 1. lia. }
    destruct (Split b 47) eqn:Es; [by apply Split_nonempty in Es|]. done.
  - apply (Cut_char_None 47) in Ec. rewrite Split_no_char by done.
    cbn. unfold path_segment. by rewrite Et.
Qed.
