(* ===== verification/AgentConn.v ===== *)
(** * Agent connections (server/agent.go)

    From the upgrade request to the end of the session, and the streams in
    between.  What the connection itself does -- hijacking, deadlines, yamux --
    comes in as the results of those calls ([Hijack]); a yamux session is known
    by its identity. *)

From Stdlib Require Import Ascii.
From S2P Require Import Prelude GoStrings GoNum GoBase64 Interfaces GoNet Wire Assertions.
From S2P Require Import Challenges Events Registry Proxies Host ServerConfig VaultClient KVStore.
From S2P Require Import AgentKeys OperatorStore OperatorProofs ToyVault Auth AuthProofs Server.
From S2P Require Import Enroll EnrollProofs.

Open Scope string_scope.
Open Scope list_scope.
Open Scope Z_scope.

Definition echoPayloadSize : Z := 32.
Definition crlf : string := cr +:+ nl.

(** The outcomes of the calls that take the connection over. *)
Record Hijack := mkHijack {
  hj_supported : bool;                     (* w is an http.Hijacker *)
  hj_result : res (Writer * BufReader);    (* Hijack(): the connection and its reader *)
  hj_deadline : res ();                    (* SetDeadline(now + handshakeTimeout) *)
  hj_clear : res ();                       (* SetDeadline(zero) *)
  hj_yamux : res Z                         (* yamux.Server *)
}.

(** How [handleAgentConnect] ends. *)
Inductive connect_outcome :=
  | Answered (resp : Response)
  | Closed                                 (* after the hijack: the connection is closed *)
  | Served (h : Hello) (remote : string) (sess : Z) (sent : string) (pipelined : string)
           (transport : Transport) (detail : string).

Definition identify (r : Request) : res Hello := HelloFromHeaders (rq_header r).

Definition upgrade_response : string :=
  "HTTP/1.1 101 Switching Protocols" +:+ crlf +:+ "Upgrade: " +:+ UpgradeProto +:+ crlf
  +:+ "Connection: Upgrade" +:+ crlf +:+ crlf.

(** The bytes the tunnel starts with, and the connection as written to. *)
Definition completeUpgrade (hj : Hijack) (conn : Writer) (br : BufReader) : res string * Writer :=
  match hj_deadline hj with
  | Err e => (Err e, conn)
  | Ok _ =>
      match write upgrade_response conn with
      | (Err e, conn) => (Err e, conn)
      | (Ok _, conn) =>
          match hj_clear hj with
          | Err e => (Err e, conn)
          | Ok _ => (Ok (WithBuffered br), conn)
          end
      end
  end.

Definition with_AgentID (id : string) (h : Hello) : Hello :=
  mkHello id (Hostname h) (OS h) (Arch h) (Version h).

Definition eventTypeForLevel (level : string) : string :=
  if HasPrefix level "ERROR" then "error" else "warn".

Section agent.
  Context {W : Type} `{Ed25519} `{JSON Assertion} (format : Z → string).
  (** The log lines a [json.Decoder] yields before its first error. *)
  Context (decode_lines : string → list LogLine).

Notation SM := (M (Server W)).

Definition handleAgentConnect (r : Request) (hj : Hijack) (now now_redeem now_event : Z)
    : SM connect_outcome :=
  match identify r with
  | Err e => mret (Answered (http_Error (err_text e) StatusBadRequest))
  | Ok hello =>
      v ← attempt (verifyAgent format r now now_redeem);
      match v with
      | Err e =>
          publish now_event "refused" (AgentID hello) ("connection refused: " +:+ err_text e);;
          mret (Answered (http_Error (err_text e) StatusUnauthorized))
      | Ok verifiedID =>
          let hello := with_AgentID verifiedID hello in
          if negb (EqualFold (Header_Get (rq_header r) "Upgrade") UpgradeProto)
          then mret (Answered (http_Error ("expected Upgrade: " +:+ UpgradeProto) StatusUpgradeRequired))
          else if negb (hj_supported hj)
          then mret (Answered (http_Error "connection hijacking unsupported" StatusInternalServerError))
          else
            match hj_result hj with
            | Err _ => mret (Answered (http_Error "hijack failed" StatusInternalServerError))
            | Ok (conn, br) =>
                match completeUpgrade hj conn br with
                | (Err _, _) => mret Closed
                | (Ok tunnel, conn) =>
                    match hj_yamux hj with
                    | Err _ => mret Closed
                    | Ok sess =>
                        s ← mget;
                        let '(transport, detail) := transportOf (au_proxies (sv_auth s)) r in
                        mret (Served hello (rq_remote r) sess (w_buf conn) tunnel transport detail)
                    end
                end
            end
      end
  end.

(** ** The session: what [serveSession] does before and after its accept loop *)
Definition serveSession_begin (h : Hello) (remote : string) (sess conn : Z) (tr : Transport)
    (detail : string) (now now_event : Z) : SM (option Z) :=
  s ← mget;
  let '((reconnect, stale), reg) := Connect h remote sess conn tr detail now (sv_registry s) in
  mmodify (set_registry reg);;
  publish now_event "connected" (AgentID h)
    ((if (reconnect : bool) then "reconnected from " else "connected from ") +:+ remote);;
  mret stale.

Definition serveSession_end (id : string) (sess : Z) (now now_event : Z) : SM () :=
  s ← mget;
  let '(was_current, reg) := Disconnect id sess now (sv_registry s) in
  mmodify (set_registry reg);;
  if (was_current : bool) then publish now_event "disconnected" id "session closed" else mret ().

(** Each line is published under the time it carries. *)
Fixpoint consumeAgentLog (agentID : string) (lines : list LogLine) (now : Z) : SM () :=
  match lines with
  | [] => mret ()
  | line :: lines =>
      mmodify (λ s, set_events (Publish now (mkEvent (eventTypeForLevel (ll_level line)) agentID
                                               (LogLine_Text line) (ll_time line)) (sv_events s)) s);;
      consumeAgentLog agentID lines now
  end.

Definition handleAgentStream (agentID : string) (stream : BufReader) (now : Z) : SM () :=
  match ReadStreamHeader stream with
  | (Err _, _) => mret ()
  | (Ok kind, br) =>
      if (kind =? StreamLog)%string
      then consumeAgentLog agentID (decode_lines (remaining br)) now
      else publish now "stream" agentID ("agent opened an unknown stream " +:+ quote kind)
  end.

(** A session from its registration to its end, with the streams the agent opens
    in the order in which they are served.  The result is the session that
    this one replaced, to be closed; the ping loop runs beside it. *)
Definition serveSession (h : Hello) (remote : string) (sess conn : Z) (tr : Transport) (detail : string)
    (now now_event : Z) (streams : list (BufReader * Z)) (now_end now_end_event : Z) : SM (option Z) :=
  stale ← serveSession_begin h remote sess conn tr detail now now_event;
  foldr (λ '(br, t) rest, handleAgentStream (AgentID h) br t;; rest) (mret ()) streams;;
  serveSession_end (AgentID h) sess now_end now_end_event;;
  mret stale.

(** What the ping loop waits for: the session closing, or a tick and the result
    of [sess.Ping]. *)
Inductive ping_wake := PClosed | PTick (rtt : res Z).

Definition measure (id : string) (rtt : res Z) : Server W → bool * Server W := λ s,
  match rtt with
  | Err _ => (false, s)
  | Ok ns => (true, set_registry (StoreRTT id ns (sv_registry s)) s)
  end.

Fixpoint ping_ticks (id : string) (wakes : list ping_wake) (s : Server W) : Server W :=
  match wakes with
  | [] | PClosed :: _ => s
  | PTick rtt :: wakes =>
      let '(ok, s) := measure id rtt s in if ok then ping_ticks id wakes s else s
  end.

Definition pingLoop (id : string) (first : res Z) (wakes : list ping_wake) (s : Server W) : Server W :=
  let '(ok, s) := measure id first s in if ok then ping_ticks id wakes s else s.
End agent.

(** [echoTest]: a stream carries the header and a random payload out and must
    bring the payload back.  [t0] and [t1] are the readings around the exchange. *)
Definition echoTest (stream : res (Writer * BufReader)) (deadline : res ()) (rnd : res string)
    (t0 t1 : Z) : res Z :=
  '(w, br) ← stream;
  _ ← deadline;
  payload ← rnd;
  match WriteStreamHeader StreamEcho w with
  | (Err e, _) => Err e
  | (Ok _, w) =>
      match write payload w with
      | (Err e, _) => Err e
      | (Ok _, _) =>
          match ReadFull (len payload) br with
          | (Err e, _) => Err e
          | (Ok got, _) =>
              if negb (got =? payload)%string then Err (errorf "echo payload mismatch") else Ok (t1 - t0)
          end
      end
  end.

(** ** Theorems *)
Section theorems.
  Context {W : Type} `{Ed25519} `{JSON Assertion} (format : Z → string).

(** C17: Only a proven identity becomes a session, under the proven id and not the
    one in the header; the upgrade answer has been sent in full and the frames
    the agent pipelined behind its request reach the tunnel.  A refusal leaves
    the registry alone. *)
Theorem connect_serves_only_proven_identity r hj now nr te (s : Server W) out s' :
  handleAgentConnect format r hj now nr te s = (Ok out, s') →
  sv_registry s' = sv_registry s ∧
  match out with
  | Served h remote sess sent pipelined tr detail =>
      proves_identity r now nr s (AgentID h) ∧ remote = rq_remote r ∧
      EqualFold (Header_Get (rq_header r) "Upgrade") UpgradeProto = true ∧
      (tr, detail) = transportOf (au_proxies (sv_auth s)) r ∧
      ∃ conn br, hj_result hj = Ok (conn, br) ∧ pipelined = remaining br ∧
                 sent = w_buf conn +:+ upgrade_response
  | Answered resp => rs_status resp ≠ StatusOK
  | Closed => True
  end.
Proof.
  unfold handleAgentConnect. destruct (identify r) as [hello|e].
  2: { intros [= <- <-]. by split. }
  unfold mbind at 1, M_bind at 1, attempt.
  destruct (verifyAgent format r now nr s) as [[id|e] s1] eqn:Ev.
  2: { unfold mbind, M_bind. rewrite publish_state. intros [= <- <-].
       apply verifyAgent_frame in Ev as [seen ->]. by split. }
  apply verifyAgent_ok_inv in Ev as [Hp (seen & -> & _)].
  destruct (EqualFold _ _) eqn:Eu; cbn [negb]; [|by intros [= <- <-]].
  destruct (hj_supported hj); cbn [negb]; [|by intros [= <- <-]].
  destruct (hj_result hj) as [[conn br]|e] eqn:Eh; [|by intros [= <- <-]].
  unfold completeUpgrade. destruct (hj_deadline hj); [|by intros [= <- <-]].
  destruct (write upgrade_response conn) as [[[]|e] conn'] eqn:Ew; [|by intros [= <- <-]].
  destruct (hj_clear hj); [|by intros [= <- <-]].
  destruct (hj_yamux hj) as [sess|e]; [|by intros [= <- <-]].
  unfold mbind, M_bind, mget. cbn [sv_auth set_challenges].
  destruct (transportOf _ r) as [tr detail] eqn:Et. intros [= <- <-].
  split; [done|]. split_and!; try done. exists conn, br. split_and!; [done| |].
  - apply WithBuffered_remaining.
  - unfold write in Ew. by destruct (w_faults conn) as [|[[k e]|] fs]; simplify_eq.
Qed.

(** The whole life of one session beside others: once it has begun it is the
    one the operators reach, and its end is announced -- and takes the agent
    offline -- only if no newer session has replaced it. *)
Theorem session_end_announced_iff_current id sess now te (s s' : Server W) :
  serveSession_end id sess now te s = (Ok (), s') →
  if decide (Session id (sv_registry s) = Some sess)
  then Session id (sv_registry s') = None ∧
       sv_events s' = Publish te (mkEvent "disconnected" id "session closed" 0) (sv_events s)
  else s' = s.
Proof.
  unfold serveSession_end, mbind, M_bind, mget, mmodify.
  destruct (Disconnect id sess now (sv_registry s)) as [was reg] eqn:Ed.
  case_decide as Hs.
  - unfold Disconnect, Session in *. destruct (sv_registry s !! id) as [rec|]; [|done].
    destruct (ar_online rec) eqn:Eo; cbn [negb] in *; [|done].
    rewrite bool_decide_true in Ed by done. cbn in Ed. injection Ed as <- <-.
    rewrite publish_state. intros [= <-]. cbn [sv_registry set_events set_registry sv_events].
    by rewrite lookup_insert_eq.
  - rewrite stale_disconnect_noop in Ed by done. injection Ed as <- <-. intros [= <-].
    by destruct s.
Qed.
End theorems.

(** The echo test passes exactly when the bytes come back. *)
Lemma echoTest_ok w br payload t0 t1 d :
  w_faults w = [] →
  echoTest (Ok (w, br)) (Ok ()) (Ok payload) t0 t1 = Ok d ↔
  d = t1 - t0 ∧ ∃ rest, remaining br = payload +:+ rest.
Proof.
  intros Hw. destruct w as [buf fs]. cbn in Hw. subst fs.
  unfold echoTest, WriteStreamHeader, write. cbn [mbind res_bind w_faults w_buf].
  destruct (ReadFull (len payload) br) as [[got|e] b'] eqn:Er.
  - assert (got = stake (len payload) (remaining br) ∧ len payload ≤ len (remaining br)) as [Hg Hl].
    { destruct (decide (len payload ≤ len (remaining br))) as [Hle|Hgt].
      - destruct (ReadFull_ok br (len payload)) as (b2 & Hr2 & _); [pose proof (len_nonneg payload); lia|].
        rewrite Hr2 in Er. by simplify_eq.
      - exfalso. unfold ReadFull in Er.
        destruct (fill_until _ _ _) as [buf' cs] eqn:Ef. apply fill_until_spec in Ef as [Heq _].
        destruct (len payload <=? len buf') eqn:El; [|done]. bool_prop.
        unfold remaining in Hgt. rewrite Heq, len_app in Hgt.
        pose proof (len_nonneg (sconcat cs)). lia. }
    destruct (got =? payload)%string eqn:Eg; cbn [negb]; bool_prop.
    + split; [intros [= <-]|intros [-> _]; done]. split; [done|]. exists (sdrop (len payload) (remaining br)).
      rewrite <-Eg at 1. by rewrite Hg, stake_sdrop.
    + split; [done|]. intros [_ [rest Hr]]. exfalso. apply Eg. rewrite Hg, Hr. by apply stake_app_exact.
  - split; [done|]. intros [_ [rest Hr]]. exfalso.
    destruct (ReadFull_app br payload rest Hr) as (b2 & Hr2 & _). congruence.
Qed.

(** ** Witnesses *)
Definition toy_hijack : Hijack :=
  mkHijack true (Ok (mkWriter "" [], mkBufReader "frames" [])) (Ok ()) (Ok ()) (Ok 7).
Definition toy_upgrade : Request :=
  mkRequest (rq_path toy_connect)
    (<["Upgrade" := "Beacon/1"]> (SetHeaders (mkHello "someone-else" "lab" "linux" "amd64" "v1")
                                             (rq_header toy_connect)))
    (rq_remote toy_connect) None [] ∅ ∅ "".

Lemma connect_serves_only_proven_identity_witness :
  proves_identity toy_upgrade 20 20 toy_server2 "lab-1".
Proof.
  pose proof (connect_serves_only_proven_identity toy_format toy_upgrade toy_hijack 20 20 20 toy_server2
    (Served (mkHello "lab-1" "lab" "linux" "amd64" "v1") "10.0.0.2:9" 7 upgrade_response "frames"
            TransportPlain "")) as H.
  eapply H. apply run_result. vm_compute. reflexivity.
Defined.

Lemma session_end_announced_iff_current_witness :
  let s := set_registry sample_fleet toy_server in
  Session "lab-1" (sv_registry (snd (serveSession_end "lab-1" 2 50 51 s))) = None.
Proof.
  intros s. eapply (session_end_announced_iff_current "lab-1" 2 50 51 s). apply run_result.
  vm_compute. reflexivity.
Defined.
