(* ===== verification/GoUtf8.v ===== *)
(** * unicode/utf8: [Valid] *)

From Stdlib Require Import Ascii.
From S2P Require Import Prelude GoStrings GoNum.

Open Scope string_scope.
Open Scope Z_scope.

Definition cont (lo hi : Z) (c : ascii) : bool := (lo <=? val c) && (val c <=? hi).

(** One rune at the head: the number of bytes it takes, if it is well formed.
    The bounds on the second byte exclude overlong forms, surrogates and values
    above U+10FFFF. *)
Definition rune_len (s : string) : option Z :=
  match s with
  | EmptyString => None
  | String a s1 =>
      let x := val a in
      if x <? 128 then Some 1
      else if (194 <=? x) && (x <=? 223) then
        match s1 with
        | String b _ => if cont 128 191 b then Some 2 else None
        | _ => None
        end
      else if (224 <=? x) && (x <=? 239) then
        match s1 with
        | String b (String c _) =>
            let lo := if x =? 224 then 160 else 128 in
            let hi := if x =? 237 then 159 else 191 in
            if cont lo hi b && cont 128 191 c then Some 3 else None
        | _ => None
        end
      else if (240 <=? x) && (x <=? 244) then
        match s1 with
        | String b (String c (String d _)) =>
            let lo := if x =? 240 then 144 else 128 in
            let hi := if x =? 244 then 143 else 191 in
            if cont lo hi b && cont 128 191 c && cont 128 191 d then Some 4 else None
        | _ => None
        end
      else None
  end.

(** [skip] bytes of the current rune are still to be passed over. *)
Fixpoint valid_from (skip : Z) (s : string) : bool :=
  match s with
  | EmptyString => true
  | String _ s' =>
      if 0 <? skip then valid_from (skip - 1) s'
      else match rune_len s with
           | Some n => valid_from (n - 1) s'
           | None => false
           end
  end.

(** [utf8.Valid] *)
Definition Valid (s : string) : bool := valid_from 0 s.

(** ASCII text is valid. *)
Lemma Valid_ascii s : schars (λ c, val c <? 128) s = true → Valid s = true.
Proof.
  unfold Valid. induction s as [|c s IH]; [done|]. cbn [schars]. intros H. bool_prop.
  cbn [valid_from]. rewrite (proj2 (Z.ltb_ge 0 0)) by lia. unfold rune_len.
  rewrite (proj2 (Z.ltb_lt _ _)) by done. by apply IH.
Qed.

Example valid_euro : Valid (String (byte 226) (String (byte 130) (String (byte 172) "x"))) = true.
Proof. reflexivity. Qed.
Example invalid_overlong : Valid (String (byte 192) (String (byte 128) "")) = false.
Proof. reflexivity. Qed.
Example invalid_surrogate : Valid (String (byte 237) (String (byte 160) (String (byte 128) ""))) = false.
Proof. reflexivity. Qed.
