(* ===== verification/AgentRpc.v ===== *)
(** * What the agent does for a call (client/rpc.go, clipboard.go, clipboardimg.go,
    clipboardimg_unix.go)

    The machine the agent runs on is the class [Machine]: its files, its
    subprocesses and its text clipboard.  Every operation answers with an
    [RPCResponse]; failures travel inside it. *)

From Stdlib Require Import Ascii.
From S2P Require Import Prelude GoStrings GoNum GoBase64 Interfaces Host Wire.

Open Scope string_scope.
Open Scope list_scope.
Open Scope Z_scope.

Definition maxOutputBytes : Z := 2 ^ 20.
Definition maxReadFileBytes : Z := 4 * 2 ^ 20.
Definition defaultTimeout : Z := 60 * Second.
Definition maxTimeout : Z := 10 * Minute.
Definition maxClipboardBytes : Z := 2 ^ 20.

Definition clipboardUnavailable :=
  "no clipboard on this host: it needs a graphical session, and on linux one of xclip, xsel or wl-clipboard".

Definition pngMagic : string :=
  String (byte 137) ("PNG" +:+ cr +:+ nl +:+ String (byte 26) nl).

(** [os.FileInfo], as far as it is read. *)
Record FileInfo := mkFileInfo { fi_IsDir : bool; fi_Size : Z; fi_Mode : string; fi_ModTime : Z }.
Record ReadDirItem := mkReadDirItem { it_Name : string; it_IsDir : bool; it_Info : res FileInfo }.

(** How a command ended, with the writes it made to each stream. *)
Inductive run_end :=
  | RunOk (code : Z)
  | RunTimeout                 (* the context expired *)
  | RunExitError (code : Z)
  | RunFailed (e : error).
Record RunResult := mkRunResult {
  rr_stdout : list string;
  rr_stderr : list string;
  rr_end : run_end
}.

Class Machine (W : Type) := {
  mc_Stat : string → M W FileInfo;
  mc_ReadFile : string → M W string;
  mc_WriteFile : string → string → M W ();
  mc_ReadDir : string → M W (list ReadDirItem);
  mc_Shell : string → string → Z → W → RunResult * W;      (* command, directory, timeout *)
  mc_clipboard_Unsupported : bool;
  mc_clipboard_ReadAll : M W string;
  mc_clipboard_WriteAll : string → M W ();
  mc_LookPath : string → W → bool;
  mc_Tool : string → list string → string → W → (string * option error) * W;
  mc_CreateTemp : string → M W string;
  mc_WriteTemp : string → string → M W ();
  mc_CloseTemp : string → M W ();
  mc_Remove : string → W → W
}.

(** ** capWriter *)
Record capWriter := mkCapWriter { cw_buf : string; cw_limit : Z; cw_truncated : bool }.

(** Returns the count reported to the command and the writer after it. *)
Definition capWriter_Write (p : string) (w : capWriter) : Z * capWriter :=
  let room := cw_limit w - len (cw_buf w) in
  (len p,
   if 0 <? room then
     if len p <=? room
     then mkCapWriter (cw_buf w +:+ p) (cw_limit w) (cw_truncated w)
     else mkCapWriter (cw_buf w +:+ stake room p) (cw_limit w) true
   else mkCapWriter (cw_buf w) (cw_limit w) true).

Definition capture (limit : Z) (writes : list string) : capWriter :=
  fold_left (λ w p, snd (capWriter_Write p w)) writes (mkCapWriter "" limit false).

(** ** Responses *)
Definition rpc_error (msg : string) : RPCResponse := mkRPCResponse msg "" "" 0 false "" 0 [].
Definition rpc_content (c : string) (truncated : bool) : RPCResponse :=
  mkRPCResponse "" "" "" 0 truncated c 0 [].
Definition rpc_written (n : Z) : RPCResponse := mkRPCResponse "" "" "" 0 false "" n [].

(** The timeout of [opExec]: [time.Duration] multiplication wraps at 64 bits. *)
Definition exec_timeout (seconds : Z) : Z :=
  let timeout := wrap_int64 (seconds * Second) in
  let timeout := if timeout <=? 0 then defaultTimeout else timeout in
  if maxTimeout <? timeout then maxTimeout else timeout.

(** [firstLine] *)
Fixpoint first_nonblank (lines : list string) : option string :=
  match lines with
  | [] => None
  | l :: lines => let l := TrimSpace l in
                  if negb (l =? "")%string then Some l else first_nonblank lines
  end.
Definition firstLine (out : string) (fallback : error) : string :=
  default (err_text fallback) (first_nonblank (Split out 10)).

Definition errNoClipboardImage : error := mkError "no image on the clipboard" [ErrNoClipboardImage].

Section ops.
  Context {W : Type} `{Machine W}.
  (** [Duration.String()] *)
  Context (duration_string : Z → string).

(** An operation answers a response and never fails otherwise. *)
Notation Op := (W → RPCResponse * W).

Definition opExec (req : RPCRequest) : Op := λ w,
  if (rq_Command req =? "")%string then (rpc_error "command is required", w)
  else
    let timeout := exec_timeout (rq_TimeoutSeconds req) in
    let '(run, w) := mc_Shell (rq_Command req) (rq_Dir req) timeout w in
    let stdout := capture maxOutputBytes (rr_stdout run) in
    let stderr := capture maxOutputBytes (rr_stderr run) in
    let resp err code := mkRPCResponse err (cw_buf stdout) (cw_buf stderr) code
                           (cw_truncated stdout || cw_truncated stderr) "" 0 [] in
    (match rr_end run with
     | RunOk code => resp "" code
     | RunTimeout => resp ("timed out after " +:+ duration_string timeout) (-1)
     | RunExitError code => resp "" code
     | RunFailed e => resp (err_text e) (-1)
     end, w).

Definition opReadFile (req : RPCRequest) : Op := λ w,
  if (rq_Path req =? "")%string then (rpc_error "path is required", w)
  else match mc_Stat (rq_Path req) w with
       | (Err e, w) => (rpc_error (err_text e), w)
       | (Ok info, w) =>
           if fi_IsDir info then (rpc_error (rq_Path req +:+ " is a directory"), w)
           else if maxReadFileBytes <? fi_Size info
           then (rpc_error ("file is " +:+ itoa (fi_Size info) +:+ " bytes, limit is "
                            +:+ itoa maxReadFileBytes), w)
           else match mc_ReadFile (rq_Path req) w with
                | (Err e, w) => (rpc_error (err_text e), w)
                | (Ok data, w) => (rpc_content (std_encode data) false, w)
                end
       end.

Definition opWriteFile (req : RPCRequest) : Op := λ w,
  if (rq_Path req =? "")%string then (rpc_error "path is required", w)
  else match std_decode (rq_Content req) with
       | None => (rpc_error "content is not valid base64: illegal base64 data", w)
       | Some data =>
           match mc_WriteFile (rq_Path req) data w with
           | (Err e, w) => (rpc_error (err_text e), w)
           | (Ok _, w) => (rpc_written (len data), w)
           end
       end.

Definition dir_entry (it : ReadDirItem) : DirEntry :=
  match it_Info it with
  | Ok info => mkDirEntry (it_Name it) (it_IsDir it) (fi_Size info) (fi_Mode info) (fi_ModTime info)
  | Err _ => mkDirEntry (it_Name it) (it_IsDir it) 0 "" 0
  end.

Definition opListDir (req : RPCRequest) : Op := λ w,
  let path := if (rq_Path req =? "")%string then "." else rq_Path req in
  match mc_ReadDir path w with
  | (Err e, w) => (rpc_error (err_text e), w)
  | (Ok items, w) => (mkRPCResponse "" "" "" 0 false "" 0 (dir_entry <$> items), w)
  end.

(** ** The text clipboard *)
Definition opClipboardRead : Op := λ w,
  if mc_clipboard_Unsupported then (rpc_error clipboardUnavailable, w)
  else match mc_clipboard_ReadAll w with
       | (Err e, w) => (rpc_error ("cannot read the clipboard: " +:+ err_text e), w)
       | (Ok text, w) =>
           let '(text, truncated) := if maxClipboardBytes <? len text
                                     then (stake maxClipboardBytes text, true) else (text, false) in
           (rpc_content (std_encode text) truncated, w)
       end.

Definition opClipboardWrite (req : RPCRequest) : Op := λ w,
  if mc_clipboard_Unsupported then (rpc_error clipboardUnavailable, w)
  else match std_decode (rq_Content req) with
       | None => (rpc_error "content must be base64: illegal base64 data", w)
       | Some text =>
           if maxClipboardBytes <? len text
           then (rpc_error "content is larger than the 1 MiB clipboard limit", w)
           else match mc_clipboard_WriteAll text w with
                | (Err e, w) => (rpc_error ("cannot write the clipboard: " +:+ err_text e), w)
                | (Ok _, w) => (rpc_written (len text), w)
                end
       end.

(** ** The image clipboard, on Linux *)
Definition image_writers : list (string * list string) :=
  [("wl-copy", ["--type"; "image/png"]);
   ("xclip", ["-selection"; "clipboard"; "-t"; "image/png"]);
   ("xsel", ["--clipboard"; "--input"])].
Definition image_readers : list (string * list string) :=
  [("wl-paste", ["--type"; "image/png"; "--no-newline"]);
   ("xclip", ["-selection"; "clipboard"; "-t"; "image/png"; "-o"])].

(** The first tool that is installed is the one used, whatever it answers. *)
Fixpoint try_writers (raw : string) (cs : list (string * list string)) : M W () := λ w,
  match cs with
  | [] => (Err (errorf ("no clipboard tool on this host: an image needs one of "
                        +:+ "wl-clipboard, xclip or xsel, and a graphical session to talk to")), w)
  | (name, args) :: cs =>
      if negb (mc_LookPath name w) then try_writers raw cs w
      else match mc_Tool name args raw w with
           | ((_, None), w) => (Ok (), w)
           | ((out, Some e), w) =>
               (Err (errorf (name +:+ " could not set the clipboard image: " +:+ firstLine out e)), w)
           end
  end.

Definition setClipboardImage (path : string) : M W () :=
  raw ← mc_ReadFile path; try_writers raw image_writers.

Fixpoint try_readers (cs : list (string * list string)) : M W string := λ w,
  match cs with
  | [] => (Err (errorf ("no clipboard tool on this host that can read an image: "
                        +:+ "it needs wl-clipboard or xclip, and a graphical session to talk to")), w)
  | (name, args) :: cs =>
      if negb (mc_LookPath name w) then try_readers cs w
      else match mc_Tool name args "" w with
           | ((_, Some _), w) => (Err errNoClipboardImage, w)
           | ((out, None), w) => if len out =? 0 then (Err errNoClipboardImage, w) else (Ok out, w)
           end
  end.

Definition clipboardImage : M W string := try_readers image_readers.

Definition remove_temp (path : string) : M W () := mmodify (mc_Remove path).

Definition writeTempPNG (raw : string) : M W string :=
  name ← mc_CreateTemp "beacon-paste-*.png";
  let path := filepath_Clean name in
  r ← attempt (mc_WriteTemp name raw);
  match r with
  | Err e => attempt (mc_CloseTemp name);; remove_temp path;; mthrow e
  | Ok _ =>
      r ← attempt (mc_CloseTemp name);
      match r with
      | Err e => remove_temp path;; mthrow e
      | Ok _ => mret path
      end
  end.

Definition opClipboardWriteImage (req : RPCRequest) : Op := λ w,
  match std_decode (rq_Content req) with
  | None => (rpc_error "content must be base64: illegal base64 data", w)
  | Some raw =>
      if len raw =? 0 then (rpc_error "no image was sent", w)
      else if MaxClipboardImageBytes <? len raw
      then (rpc_error ("image is " +:+ itoa (len raw) +:+ " bytes, over the "
                       +:+ itoa MaxClipboardImageBytes +:+ " byte limit"), w)
      else if negb (HasPrefix raw pngMagic) then (rpc_error "only PNG images are accepted", w)
      else match writeTempPNG raw w with
           | (Err e, w) => (rpc_error ("cannot stage the image: " +:+ err_text e), w)
           | (Ok path, w) =>
               let '(r, w) := setClipboardImage path w in
               let w := mc_Remove path w in            (* deferred *)
               match r with
               | Err e => (rpc_error (err_text e), w)
               | Ok _ => (rpc_written (len raw), w)
               end
           end
  end.

Definition opClipboardReadImage : Op := λ w,
  match clipboardImage w with
  | (Err e, w) =>
      if errors_Is e ErrNoClipboardImage then (rpc_error ClipboardNoImage, w)
      else (rpc_error (err_text e), w)
  | (Ok raw, w) =>
      if negb (HasPrefix raw pngMagic)
      then (rpc_error "the clipboard tool returned something that is not a PNG", w)
      else
        let '(raw, truncated) := if MaxClipboardImageBytes <? len raw
                                 then (stake MaxClipboardImageBytes raw, true) else (raw, false) in
        (rpc_content (std_encode raw) truncated, w)
  end.

(** ** Dispatch *)
Definition dispatchRPC (req : RPCRequest) : Op :=
  let op := rq_Op req in
  if (op =? OpExec)%string then opExec req
  else if (op =? OpReadFile)%string then opReadFile req
  else if (op =? OpWriteFile)%string then opWriteFile req
  else if (op =? OpListDir)%string then opListDir req
  else if (op =? OpClipboardRead)%string then opClipboardRead
  else if (op =? OpClipboardWrite)%string then opClipboardWrite req
  else if (op =? OpClipboardWriteImage)%string then opClipboardWriteImage req
  else if (op =? OpClipboardReadImage)%string then opClipboardReadImage
  else λ w, (rpc_error ("unknown operation " +:+ quote op), w).

Section wire.
  Context `{JSON RPCRequest} `{JSON RPCResponse}.

(** What [json.Encoder.Encode] writes; an unmarshallable value writes nothing. *)
Definition writeRPC (resp : RPCResponse) : string :=
  match Marshal resp with Ok s => s +:+ nl | Err _ => "" end.

(** The bytes the stream carries back. *)
Definition handleRPC (br : BufReader) : W → string * W := λ w,
  match Decode (A := RPCRequest) (remaining br) with
  | Err e => (writeRPC (rpc_error ("unreadable request: " +:+ err_text e)), w)
  | Ok req => let '(resp, w) := dispatchRPC req w in (writeRPC resp, w)
  end.
End wire.
End ops.

(** ** Theorems *)

Lemma capture_fold limit writes w :
  len (cw_buf w) ≤ limit → cw_limit w = limit → forallb (λ p, negb (p =? "")%string) writes = true →
  let w' := fold_left (λ w p, snd (capWriter_Write p w)) writes w in
  cw_buf w' = stake limit (cw_buf w +:+ sconcat writes) ∧ cw_limit w' = limit ∧
  cw_truncated w' = cw_truncated w || (limit <? len (cw_buf w +:+ sconcat writes)).
Proof.
  revert w. induction writes as [|p writes IH]; intros w Hl Hlim Hne; cbn [fold_left sconcat].
  - rewrite sapp_nil_r. rewrite stake_all by done. rewrite (proj2 (Z.ltb_ge _ _)) by done.
    by rewrite orb_false_r.
  - cbn [forallb] in Hne. bool_prop. cbn zeta.
    assert (0 < len p) as Hp
      by (pose proof (len_nonneg p); destruct (decide (len p = 0)) as [?%len_zero_inv|]; [done|lia]).
    pose proof (len_nonneg (sconcat writes)). pose proof (len_nonneg (cw_buf w)).
    unfold capWriter_Write at 2 4 6. cbn [snd]. rewrite Hlim.
    destruct (0 <? limit - len (cw_buf w)) eqn:E1; [destruct (len p <=? _) eqn:E2|]; bool_prop.
    + destruct (IH (mkCapWriter (cw_buf w +:+ p) limit (cw_truncated w))) as (Hb & Hm & Ht);
        [cbn; rewrite len_app; lia|done..|].
      cbn [cw_buf cw_truncated] in *. rewrite sapp_assoc in *. done.
    + set (k := limit - len (cw_buf w)) in *.
      destruct (IH (mkCapWriter (cw_buf w +:+ stake k p) limit true)) as (Hb & Hm & Ht);
        [cbn; rewrite len_app, len_stake by lia; lia|done..|].
      cbn [cw_buf cw_truncated] in *.
      assert (len (cw_buf w +:+ stake k p) = limit) as Hfull
        by (rewrite len_app, len_stake by lia; lia).
      split_and!; [|done|].
      * rewrite Hb, stake_app_exact by done.
        rewrite stake_app by lia. f_equal. change (limit - len (cw_buf w)) with k.
        by rewrite stake_app_l by lia.
      * rewrite Ht. cbn [orb]. rewrite (proj2 (Z.ltb_lt limit _)); [by rewrite orb_true_r|].
        rewrite !len_app. lia.
    + destruct (IH (mkCapWriter (cw_buf w) limit true)) as (Hb & Hm & Ht); [cbn; lia|done..|].
      cbn [cw_buf cw_truncated] in *. split_and!; [|done|].
      * rewrite Hb. rewrite !stake_app_exact by lia. done.
      * rewrite Ht. cbn [orb]. rewrite (proj2 (Z.ltb_lt limit _)); [by rewrite orb_true_r|].
        rewrite !len_app. lia.
Qed.

(** A runaway command costs at most the cap: what is kept is exactly the
    beginning of what was written, whatever the sizes of the writes, and the
    flag says whether anything was lost. *)
Theorem capture_keeps_prefix limit writes :
  0 ≤ limit → forallb (λ p, negb (p =? "")%string) writes = true →
  let w := capture limit writes in
  cw_buf w = stake limit (sconcat writes) ∧ len (cw_buf w) ≤ limit ∧
  cw_truncated w = (limit <? len (sconcat writes)).
Proof.
  intros Hl Hne. cbn zeta. unfold capture.
  destruct (capture_fold limit writes (mkCapWriter "" limit false)) as (Hb & _ & Ht); [done..|].
  cbn [cw_buf cw_truncated] in *. rewrite sapp_nil_l in *. rewrite Hb, Ht.
  rewrite len_stake by done. split_and!; [done|lia|done].
Qed.

Lemma capture_keeps_prefix_witness :
  cw_buf (capture 5 ["abc"; "defg"; "h"]) = "abcde" ∧ cw_truncated (capture 5 ["abc"; "defg"; "h"]) = true.
Proof.
  destruct (capture_keeps_prefix 5 ["abc"; "defg"; "h"]) as (Hb & _ & Ht); [done|done|].
  rewrite Hb, Ht. done.
Defined.

(** No command runs for longer than ten minutes, whatever was asked for. *)
Theorem exec_timeout_bounded seconds :
  0 < exec_timeout seconds ≤ maxTimeout ∧
  (0 < seconds ≤ 600 → exec_timeout seconds = seconds * Second).
Proof.
  unfold exec_timeout, defaultTimeout, maxTimeout, Minute, Second in *. split.
  - destruct (wrap_int64 _ <=? 0) eqn:E; bool_prop.
    + split; reflexivity || (vm_compute; discriminate).
    + destruct (_ <? wrap_int64 _) eqn:E2; bool_prop; lia.
  - intros Hs. rewrite wrap_int64_id by lia.
    rewrite (proj2 (Z.leb_gt _ _)) by lia. rewrite (proj2 (Z.ltb_ge _ _)) by lia. done.
Qed.

(** But a request for more than the maximum is not always given the maximum:
    the product overflows first. *)
Theorem exec_timeout_overflows :
  maxTimeout / Second < 18446744074 ∧ exec_timeout 18446744074 < Second.
Proof. done. Qed.
