(* ===== verification/Clipboards.v ===== *)
(** * The image clipboard on macOS and Windows (client/clipboardimg_darwin.go,
    clipboardimg_windows.go; clipboardimg.go: tempPNGPath)

    The Linux tools are in AgentRpc.v.  Here the image travels in a file, and the
    path of that file travels inside a script: [osascript] reads it as an
    AppleScript string, PowerShell as a single-quoted one.  What PowerShell makes
    of such a literal is the class [PowerShell]. *)

From Stdlib Require Import Ascii.
From S2P Require Import Prelude GoStrings GoNum GoBase64 Interfaces Host Wire AgentRpc.

Open Scope string_scope.
Open Scope list_scope.
Open Scope Z_scope.

(** [strings.ReplaceAll(s, "'", "''")] *)
Fixpoint escapePS (s : string) : string :=
  match s with
  | EmptyString => ""
  | String c s => if Ascii.eqb c "'" then "''" +:+ escapePS s else String c (escapePS s)
  end.

Definition darwin_set_script (path : string) : string :=
  "set the clipboard to (read (POSIX file " +:+ quote path +:+ ") as «class PNGf»)".

Definition tab_ : string := String (byte 9) "".
Definition darwin_get_script (path : string) : string :=
  Join ["try";
        tab_ +:+ "set thedata to (the clipboard as «class PNGf»)";
        "on error";
        tab_ +:+ "return " +:+ dquote +:+ "none" +:+ dquote;
        "end try";
        "set f to open for access POSIX file " +:+ quote path +:+ " with write permission";
        "set eof f to 0";
        "write thedata to f";
        "close access f";
        "return " +:+ dquote +:+ "ok" +:+ dquote] nl.

(** The scripts, around the literal that holds the path. *)
Definition ps_load : string := "Add-Type -AssemblyName System.Windows.Forms,System.Drawing; ".
Definition ps_set_before : string := ps_load +:+ "$img = [System.Drawing.Image]::FromFile('".
Definition ps_set_after : string :=
  "); try { [System.Windows.Forms.Clipboard]::SetImage($img) } finally { $img.Dispose() }".
Definition ps_get_before : string :=
  ps_load +:+ "$img = [System.Windows.Forms.Clipboard]::GetImage(); if ($img -eq $null) { exit 3 }; "
  +:+ "try { $img.Save('".
Definition ps_get_after : string :=
  ", [System.Drawing.Imaging.ImageFormat]::Png) } finally { $img.Dispose() }".

Definition windows_set_script (path : string) : string := ps_set_before +:+ escapePS path +:+ "'" +:+ ps_set_after.
Definition windows_get_script (path : string) : string := ps_get_before +:+ escapePS path +:+ "'" +:+ ps_get_after.

Definition ps_shells : list string := ["pwsh.exe"; "powershell.exe"].

Section clipboards.
  Context {W : Type} `{Machine W}.
  (** [cmd.ProcessState.ExitCode()] of a command that failed with this error. *)
  Context (ExitCode : error → Z).

(** The file is closed, not removed, when closing it fails. *)
Definition tempPNGPath : M W string :=
  name ← mc_CreateTemp "beacon-grab-*.png";
  mc_CloseTemp name;;
  mret (filepath_Clean name).

(** [CombinedOutput] *)
Definition run_tool (name : string) (args : list string) : M W (string * option error) :=
  λ w, let '(out, w) := mc_Tool name args "" w in (Ok out, w).

Definition darwin_setClipboardImage (path : string) : M W () :=
  '(out, err) ← run_tool "osascript" ["-e"; darwin_set_script path];
  match err with
  | Some e => mthrow (errorf ("could not set the clipboard image: " +:+ firstLine out e))
  | None => mret ()
  end.

(** The deferred removal of the file. *)
Definition with_temp {A} (path : string) (body : M W A) : M W A :=
  r ← attempt body;
  remove_temp path;;
  mlift r.

Definition darwin_clipboardImage : M W string :=
  path ← tempPNGPath;
  with_temp path (
    '(out, err) ← run_tool "osascript" ["-e"; darwin_get_script path];
    match err with
    | Some e => mthrow (errorf ("could not read the clipboard image: " +:+ firstLine out e))
    | None => if (TrimSpace out =? "none")%string then mthrow errNoClipboardImage else mc_ReadFile path
    end).

Definition ps_args (script : string) : list string := ["-NoProfile"; "-STA"; "-Command"; script].

Fixpoint ps_set (script : string) (shells : list string) : M W () := λ w,
  match shells with
  | [] => (Err (errorf "no powershell on this machine, so an image cannot be placed on its clipboard"), w)
  | shell :: shells =>
      if negb (mc_LookPath shell w) then ps_set script shells w
      else match mc_Tool shell (ps_args script) "" w with
           | ((_, None), w) => (Ok (), w)
           | ((out, Some e), w) => (Err (errorf ("could not set the clipboard image: " +:+ firstLine out e)), w)
           end
  end.

Definition windows_setClipboardImage (path : string) : M W () := ps_set (windows_set_script path) ps_shells.

Fixpoint ps_get (path script : string) (shells : list string) : M W string := λ w,
  match shells with
  | [] => (Err (errorf "no powershell on this machine, so its clipboard cannot be read for an image"), w)
  | shell :: shells =>
      if negb (mc_LookPath shell w) then ps_get path script shells w
      else match mc_Tool shell (ps_args script) "" w with
           | ((_, None), w) => mc_ReadFile path w
           | ((out, Some e), w) =>
               if ExitCode e =? 3 then (Err errNoClipboardImage, w)
               else (Err (errorf ("could not read the clipboard image: " +:+ firstLine out e)), w)
           end
  end.

Definition windows_clipboardImage : M W string :=
  path ← tempPNGPath;
  with_temp path (ps_get path (windows_get_script path) ps_shells).

(** ** No screenshot is left behind *)

Lemma with_temp_removes {A} path (body : M W A) w r w' :
  with_temp path body w = (r, w') → ∃ w1, body w = (r, w1) ∧ w' = mc_Remove path w1.
Proof.
  unfold with_temp, attempt, remove_temp, mmodify, mlift, mbind, M_bind.
  destruct (body w) as [r1 w1]. intros [= <- <-]. by exists w1.
Qed.

(** What every grab does: reserve a file, let [body] use it, remove it. *)
Lemma grab_cleans_up (body : string → M W string) w r w' :
  (path ← tempPNGPath; with_temp path (body path)) w = (r, w') →
  match mc_CreateTemp "beacon-grab-*.png" w with
  | (Err e, w1) => r = Err e ∧ w' = w1
  | (Ok name, w1) =>
      match mc_CloseTemp name w1 with
      | (Err e, w2) => r = Err e ∧ w' = w2
      | (Ok _, w2) => ∃ w3, body (filepath_Clean name) w2 = (r, w3) ∧ w' = mc_Remove (filepath_Clean name) w3
      end
  end.
Proof.
  unfold tempPNGPath, mbind, M_bind. destruct (mc_CreateTemp _ w) as [[name|e] w1]; [|by intros [= <- <-]].
  destruct (mc_CloseTemp name w1) as [[u|e] w2]; [|by intros [= <- <-]]. apply with_temp_removes.
Qed.
End clipboards.

(** ** The path in the script *)

(** [ps_literal s] reads a single-quoted string whose opening quote is just before
    [s]: its value, and what follows the closing quote.  The laws are those of the
    language for ASCII text: two quotes stand for one, a quote that is not
    doubled ends the literal, and anything else stands for itself. *)
Class PowerShell := ps_literal : string → option (string * string).

Definition ps_cons (c : ascii) (r : option (string * string)) : option (string * string) :=
  '(v, rest) ← r; Some (String c v, rest).

Class PowerShellLaws `{PowerShell} := {
  ps_doubled s : ps_literal ("''" +:+ s) = ps_cons "'" (ps_literal s);
  ps_ends s : HasPrefix s "'" = false → ps_literal ("'" +:+ s) = Some ("", s);
  ps_plain c s : (code c < 128)%N → c ≠ "'"%char → ps_literal (String c s) = ps_cons c (ps_literal s)
}.

Definition ascii_text : string → bool := schars (λ c, (code c <? 128)%N).

Section quoting.
  Context `{PowerShellLaws}.

Lemma escapePS_literal path rest :
  ascii_text path = true → HasPrefix rest "'" = false →
  ps_literal (escapePS path +:+ "'" +:+ rest) = Some (path, rest).
Proof.
  intros Hp Hr. induction path as [|c path IH]; cbn [escapePS]; [by apply ps_ends|].
  cbn in Hp. bool_prop. destruct (Ascii.eqb_spec c "'") as [->|Hc].
  - rewrite sapp_assoc, ps_doubled, IH by done. done.
  - rewrite sapp_cons, ps_plain by (done || by apply N.ltb_lt). by rewrite IH.
Qed.

(** Whatever ASCII path the file has -- a profile directory named o'neil included
    -- PowerShell reads it out of the script as it is, and the script goes on
    behind it as written: a name cannot become code. *)
Theorem powershell_reads_the_path path :
  ascii_text path = true →
  (∃ tail, windows_set_script path = ps_set_before +:+ tail ∧ ps_literal tail = Some (path, ps_set_after)) ∧
  ∃ tail, windows_get_script path = ps_get_before +:+ tail ∧ ps_literal tail = Some (path, ps_get_after).
Proof.
  intros Hp. split; eexists; (split; [reflexivity|]); by apply escapePS_literal.
Qed.
End quoting.

(** ** Witnesses *)
Fixpoint toy_literal (s : string) : option (string * string) :=
  match s with
  | EmptyString => None
  | String c rest =>
      if Ascii.eqb c "'" then
        match rest with
        | String d rest' => if Ascii.eqb d "'" then ps_cons "'" (toy_literal rest') else Some ("", rest)
        | EmptyString => Some ("", "")
        end
      else ps_cons c (toy_literal rest)
  end.

Section toy.
Local Instance toy_powershell : PowerShell := toy_literal.

Lemma toy_powershell_laws : PowerShellLaws.
Proof.
  split.
  - done.
  - intros [|d s]; [done|]. intros Hp.
    change (ps_literal ("'" +:+ String d s))
      with (if Ascii.eqb d "'" then ps_cons "'" (toy_literal s) else Some ("", String d s)).
    destruct (Ascii.eqb_spec d "'") as [->|]; [|done]. by destruct s.
  - intros c s _ Hc. unfold ps_literal, toy_powershell. cbn. by rewrite (proj2 (Ascii.eqb_neq c "'")).
Qed.

Lemma powershell_reads_the_path_witness :
  let path := "C:\Users\o'neil\AppData\Local\Temp\beacon-grab-1.png" in
  (∃ tail, windows_set_script path = ps_set_before +:+ tail ∧ ps_literal tail = Some (path, ps_set_after)) ∧
  ∃ tail, windows_get_script path = ps_get_before +:+ tail ∧ ps_literal tail = Some (path, ps_get_after).
Proof. intros path. apply (powershell_reads_the_path (H0 := toy_powershell_laws)). vm_compute. reflexivity. Defined.
End toy.
