(* ===== verification/Pipes.v ===== *)
(** * Two copies and one end (client/forward.go: pipeStream;
    internal/supervise: Go, Recover)

    A forwarded connection is two goroutines copying in opposite directions.
    Whichever ends first shuts both connections, which is what ends the other;
    [pipeStream] waits for both.  A goroutine that panics runs what it deferred,
    last first, and then [Recover] instead of taking the process with it.  The
    steps of the two are interleaved as an explicit list of events. *)

From S2P Require Import Prelude GoStrings GoNum Interfaces.

Open Scope string_scope.
Open Scope list_scope.

(** ** The supervised goroutine *)

(** [supervise.Recover] with the panic in flight, and the error log. *)
Definition Recover (name : string) (panic : option string) (log : list (string * string)) : list (string * string) :=
  match panic with
  | Some v => log ++ [(name, v)]
  | None => log
  end.

(** ** The pipe *)
Inductive side := In | Out.

#[export] Instance side_eq_dec : EqDecision side.
Proof. solve_decision. Defined.

Definition other (d : side) : side := match d with In => Out | Out => In end.
Definition unit_name (d : side) : string := match d with In => "forward-in" | Out => "forward-out" end.

(** Where a goroutine is: in [io.Copy]; unwound, with [shut] and [wg.Done] still to
    run; with [wg.Done] still to run; gone. *)
Inductive phase := Copying | Unwinding (panic : option string) | Leaving (panic : option string) | Gone.

#[export] Instance phase_eq_dec : EqDecision phase.
Proof. solve_decision. Defined.

(** One direction: what its source still has to say, and what its sink was given. *)
Record copy := mkCopy { cp_phase : phase; cp_left : string; cp_given : string }.

Record pipe := mkPipe {
  pp_in : copy;                        (* io.Copy(local, br) *)
  pp_out : copy;                       (* io.Copy(stream, local) *)
  pp_once : bool;                      (* once has run: stream and local are closed *)
  pp_closes : nat;                     (* how often each was closed *)
  pp_waiting : nat;                    (* the WaitGroup *)
  pp_log : list (string * string)
}.

Definition half (d : side) (p : pipe) : copy := match d with In => pp_in p | Out => pp_out p end.
Definition set_half (d : side) (c : copy) (p : pipe) : pipe :=
  match d with
  | In => mkPipe c (pp_out p) (pp_once p) (pp_closes p) (pp_waiting p) (pp_log p)
  | Out => mkPipe (pp_in p) c (pp_once p) (pp_closes p) (pp_waiting p) (pp_log p)
  end.

Definition start_pipe (up down : string) : pipe :=
  mkPipe (mkCopy Copying up "") (mkCopy Copying down "") false 0 2 [].

(** [shut]. *)
Definition shut (p : pipe) : pipe :=
  if pp_once p then p else mkPipe (pp_in p) (pp_out p) true (S (pp_closes p)) (pp_waiting p) (pp_log p).

(** The deferred [wg.Done]. *)
Definition wg_Done (p : pipe) : pipe :=
  mkPipe (pp_in p) (pp_out p) (pp_once p) (pp_closes p) (pred (pp_waiting p)) (pp_log p).

(** [supervise.Go]: the deferred [Recover] is the last thing a goroutine does. *)
Definition Go_ends (name : string) (panic : option string) (p : pipe) : pipe :=
  mkPipe (pp_in p) (pp_out p) (pp_once p) (pp_closes p) (pp_waiting p) (Recover name panic (pp_log p)).

(** [Move d n]: a read of [n] bytes and the write of them, both on open
    connections; [End d]: the copy returns -- its source ended, a read or a write
    failed -- or panics; [Unwind d]: the next deferred call of the goroutine. *)
Inductive event := Move (d : side) (n : Z) | End (d : side) (panic : option string) | Unwind (d : side).

Definition pipe_step (e : event) (p : pipe) : option pipe :=
  match e with
  | Move d n =>
      let c := half d p in
      match cp_phase c with
      | Copying =>
          if pp_once p || negb ((0 <? n) && (n <=? len (cp_left c)))%Z then None
          else Some (set_half d (mkCopy Copying (sdrop n (cp_left c)) (cp_given c +:+ stake n (cp_left c))) p)
      | _ => None
      end
  | End d panic =>
      let c := half d p in
      match cp_phase c with
      | Copying => Some (set_half d (mkCopy (Unwinding panic) (cp_left c) (cp_given c)) p)
      | _ => None
      end
  | Unwind d =>
      let c := half d p in
      match cp_phase c with
      | Unwinding panic => Some (shut (set_half d (mkCopy (Leaving panic) (cp_left c) (cp_given c)) p))
      | Leaving panic => 
          Some (Go_ends (unit_name d) panic (wg_Done (set_half d (mkCopy Gone (cp_left c) (cp_given c)) p)))
      | _ => None
      end
  end.

Fixpoint pipe_run (es : list event) (p : pipe) : option pipe :=
  match es with
  | [] => Some p
  | e :: es => p' ← pipe_step e p; pipe_run es p'
  end.

(** [wg.Wait()] lets [pipeStream] return. *)
Definition pipe_returned (p : pipe) : bool := (pp_waiting p =? 0)%nat.

(** ** What every interleaving keeps *)

(** The steps a goroutine has left once nothing moves any more. *)
Definition steps_left (c : copy) : nat :=
  match cp_phase c with Copying => 3 | Unwinding _ => 2 | Leaving _ => 1 | Gone => 0 end.
Definition cost (e : event) : nat := match e with Move _ _ => 0 | _ => 1 end.
Definition running (c : copy) : nat := match cp_phase c with Gone => 0 | _ => 1 end.
(** Has run [shut]. *)
Definition has_shut (c : copy) : bool := match cp_phase c with Leaving _ | Gone => true | _ => false end.

(** What panicked, and what of it has not been logged yet. *)
Definition panic_of (e : event) : option (string * string) :=
  match e with End d (Some v) => Some (unit_name d, v) | _ => None end.
Definition in_flight (d : side) (c : copy) : list (string * string) :=
  match cp_phase c with
  | Unwinding (Some v) | Leaving (Some v) => [(unit_name d, v)]
  | _ => []
  end.

Record pipe_inv (up down : string) (done : list event) (p : pipe) : Prop := {
  inv_in : cp_given (pp_in p) +:+ cp_left (pp_in p) = up;
  inv_out : cp_given (pp_out p) +:+ cp_left (pp_out p) = down;
  inv_once : pp_once p = has_shut (pp_in p) || has_shut (pp_out p);
  inv_closes : pp_closes p = if pp_once p then 1%nat else 0%nat;
  inv_waiting : pp_waiting p = (running (pp_in p) + running (pp_out p))%nat;
  inv_steps : (sum_list_with cost done + steps_left (pp_in p) + steps_left (pp_out p) = 6)%nat;
  inv_log : pp_log p ++ in_flight In (pp_in p) ++ in_flight Out (pp_out p) ≡ₚ omap panic_of done
}.

Lemma start_pipe_inv up down : pipe_inv up down [] (start_pipe up down).
Proof. by split. Qed.

Lemma pipe_step_inv up down done e p p' :
  pipe_inv up down done p → pipe_step e p = Some p' → pipe_inv up down (done ++ [e]) p'.
Proof.
  intros [Hin Hout Ho Hc Hw Hs Hl] He. destruct p as [[pi li gi] [po lo go] once closes wait log].
  cbn in Hin, Hout, Ho, Hc, Hw, Hs, Hl.
  destruct e as [[] n|[] panic|[]]; cbn in He;
    [destruct pi|destruct po|destruct pi|destruct po|destruct pi|destruct po]; try done.
  all: try (destruct (once || _); [done|]).
  all: injection He as <-; unfold shut; cbn; destruct once; cbn.
  all: cbn in Ho, Hc, Hw, Hs, Hl; split; cbn; rewrite ?sum_list_with_app, ?omap_app; cbn; try done; try lia.
  all: try (rewrite sapp_assoc, stake_sdrop; done).
  all: rewrite <-?Hl; try destruct panic; cbn; unfold Recover; solve_Permutation.
Qed.

Lemma pipe_run_app es fs p : pipe_run (es ++ fs) p = (p' ← pipe_run es p; pipe_run fs p').
Proof. revert p. induction es as [|e es IH]; intros p; [done|]. cbn. destruct (pipe_step e p); [apply IH|done]. Qed.

Lemma pipe_run_inv_from up down done es p p' :
  pipe_inv up down done p → pipe_run es p = Some p' → pipe_inv up down (done ++ es) p'.
Proof.
  revert done p. induction es as [|e es IH]; intros done p Hi; cbn.
  { intros [= <-]. by rewrite app_nil_r. }
  intros (p1 & Hs & Hr)%bind_Some. rewrite (cons_middle e done es), app_assoc.
  eapply IH; [by eapply pipe_step_inv|done].
Qed.

Lemma pipe_run_inv up down es p : pipe_run es (start_pipe up down) = Some p → pipe_inv up down es p.
Proof. apply (pipe_run_inv_from up down []), start_pipe_inv. Qed.

(** A goroutine that is not gone has a step, and taking it brings it closer. *)
Lemma goroutine_steps d p : cp_phase (half d p) ≠ Gone →
  ∃ e p', pipe_step e p = Some p' ∧ cost e = 1%nat ∧ panic_of e = None ∧
    steps_left (half d p) = S (steps_left (half d p')) ∧ half (other d) p' = half (other d) p.
Proof.
  intros Hg. destruct (cp_phase (half d p)) as [|panic|panic|] eqn:E; [..|done].
  1: exists (End d None). 2-3: exists (Unwind d).
  all: cbn [pipe_step]; rewrite E; eexists; (split; [reflexivity|]); do 2 (split; [done|]).
  all: unfold steps_left; rewrite E; destruct d, p as [? ? []]; done.
Qed.

Lemma pipe_winds_down p : ∃ rest p', pipe_run rest p = Some p' ∧ Forall (λ e, cost e = 1%nat ∧ panic_of e = None) rest ∧
  steps_left (pp_in p') = 0%nat ∧ steps_left (pp_out p') = 0%nat.
Proof.
  remember (steps_left (pp_in p) + steps_left (pp_out p))%nat as n eqn:En.
  revert p En. induction n as [|n IH]; intros p En; [exists [], p; split_and!; [done|by constructor|lia|lia]|].
  assert (∃ d, cp_phase (half d p) ≠ Gone) as [d Hd].
  { unfold steps_left in En. destruct (cp_phase (pp_in p)) eqn:Ei; [..|destruct (cp_phase (pp_out p)) eqn:Eo; [..|done]].
    1-3: exists In; cbn; by rewrite Ei. all: exists Out; cbn; by rewrite Eo. }
  destruct (goroutine_steps d p Hd) as (e & p1 & He & Hc & Hp & Hs & Ho).
  destruct (IH p1) as (rest & p2 & Hr & Hall & Hend); [destruct d; cbn in *; rewrite ?Ho in *; lia|].
  exists (e :: rest), p2. split_and!; [cbn; by rewrite He|by constructor|apply Hend..].
Qed.


