(* ===== verification/ForwardPath.v ===== *)
(** * The way of a forwarded connection (client/forwardcmd.go: bridge; server/forward.go:
    handleForward; client/forward.go: pipeStream)

    Between the operator's client and the service on the machine there are three
    pairs of copies: the operator's, the relay's and the agent's.  Each pair runs as
    two goroutines, and each has its own rule for what happens when one of them ends.
    Here they are interleaved as one sequence of steps; what one copy has moved is
    what the next may read. *)

From S2P Require Import Prelude GoStrings GoNum Interfaces Pipes.

Open Scope string_scope.
Open Scope list_scope.
Open Scope Z_scope.

(** ** The pair of copies of the operator and of the relay

    One copy runs in a goroutine of its own and carries what goes up to the machine;
    the function itself carries what comes down, and closes both ends on its way
    out. *)
Record pump := mkPump {
  pm_up : copy;                        (* io.Copy(remote, local); io.Copy(stream, ws) *)
  pm_down : copy;                      (* io.Copy(local, remote); io.Copy(ws, stream) *)
  pm_half : bool;                      (* after its copy: tcp.CloseRead(); stream.Close() *)
  pm_closed : bool;                    (* the deferred calls: both ends are closed *)
  pm_log : list (string * string)
}.

Definition lane (d : side) (p : pump) : copy := match d with In => pm_up p | Out => pm_down p end.
Definition set_lane (d : side) (c : copy) (p : pump) : pump :=
  match d with
  | In => mkPump c (pm_down p) (pm_half p) (pm_closed p) (pm_log p)
  | Out => mkPump (pm_up p) c (pm_half p) (pm_closed p) (pm_log p)
  end.

(** [up] and [down] are there to be read when it starts. *)
Definition start_pump (up down : string) : pump :=
  mkPump (mkCopy Copying up "") (mkCopy Copying down "") false false [].

(** [name] is the goroutine's, [after] whether it closes something when its copy has
    returned, which it does not when it panics.  The panic of the function itself is
    its caller's; the deferred calls run either way. *)
Definition pump_step (name : string) (after : bool) (e : event) (p : pump) : option pump :=
  match e with
  | Move d n =>
      let c := lane d p in
      match cp_phase c with
      | Copying =>
          if pm_closed p || negb ((0 <? n) && (n <=? len (cp_left c))) then None
          else Some (set_lane d (mkCopy Copying (sdrop n (cp_left c)) (cp_given c +:+ stake n (cp_left c))) p)
      | _ => None
      end
  | End In panic =>
      let c := pm_up p in
      match cp_phase c with
      | Copying =>
          Some (mkPump (mkCopy Gone (cp_left c) (cp_given c)) (pm_down p)
                  (match panic with None => after | Some _ => false end) (pm_closed p) (Recover name panic (pm_log p)))
      | _ => None
      end
  | End Out _ =>
      let c := pm_down p in
      match cp_phase c with
      | Copying => Some (mkPump (pm_up p) (mkCopy Gone (cp_left c) (cp_given c)) (pm_half p) true (pm_log p))
      | _ => None
      end
  | Unwind _ => None
  end.

(** [bridge]: only a TCP connection is closed for reading when the client has nothing
    more to say, and nothing is closed towards the relay. *)
Definition operator_step (tcp : bool) : event → pump → option pump := pump_step "forward-upstream" tcp.

(** [handleForward] of the relay: the stream to the machine is closed. *)
Definition relay_step (id : string) : event → pump → option pump := pump_step ("forward-pump:" +:+ id) true.

(** ** The whole way *)
Record way := mkWay { wy_operator : pump; wy_relay : pump; wy_agent : pipe }.

Inductive way_event := AtOperator (e : event) | AtRelay (e : event) | AtAgent (e : event).

(** The bytes a step moves, and what they are to the next copy. *)
Definition moved (d : side) (e : event) (c : copy) : string :=
  match e with Move d' n => if decide (d' = d) then stake n (cp_left c) else "" | _ => "" end.
Definition arrive (s : string) (c : copy) : copy := mkCopy (cp_phase c) (cp_left c +:+ s) (cp_given c).
Definition pump_arrive (d : side) (s : string) (p : pump) : pump := set_lane d (arrive s (lane d p)) p.
Definition pipe_arrive (d : side) (s : string) (p : pipe) : pipe := set_half d (arrive s (half d p)) p.

Definition way_step (tcp : bool) (id : string) (ev : way_event) (w : way) : option way :=
  match ev with
  | AtOperator e =>
      p ← operator_step tcp e (wy_operator w);
      Some (mkWay p (pump_arrive In (moved In e (lane In (wy_operator w))) (wy_relay w)) (wy_agent w))
  | AtRelay e =>
      p ← relay_step id e (wy_relay w);
      Some (mkWay (pump_arrive Out (moved Out e (lane Out (wy_relay w))) (wy_operator w)) p
              (pipe_arrive In (moved In e (lane In (wy_relay w))) (wy_agent w)))
  | AtAgent e =>
      p ← pipe_step e (wy_agent w);
      Some (mkWay (wy_operator w) (pump_arrive Out (moved Out e (half Out (wy_agent w))) (wy_relay w)) p)
  end.

Fixpoint way_run (tcp : bool) (id : string) (evs : list way_event) (w : way) : option way :=
  match evs with
  | [] => Some w
  | ev :: evs => w' ← way_step tcp id ev w; way_run tcp id evs w'
  end.

(** The three copies of a direction, the last first. *)
Definition hops (d : side) (w : way) : copy * copy * copy :=
  match d with
  | In => (half In (wy_agent w), lane In (wy_relay w), lane In (wy_operator w))
  | Out => (lane Out (wy_operator w), lane Out (wy_relay w), half Out (wy_agent w))
  end.

(** What has come out at the far end, and what is still on its way. *)
Definition delivered (d : side) (w : way) : string := let '(last, _, _) := hops d w in cp_given last.
Definition in_transit (d : side) (w : way) : string :=
  let '(last, middle, first) := hops d w in cp_left last +:+ cp_left middle +:+ cp_left first.

(** Nothing has ended that this direction needs. *)
Definition flowing (d : side) (w : way) : bool :=
  let '(last, middle, first) := hops d w in
  bool_decide (cp_phase last = Copying) && bool_decide (cp_phase middle = Copying)
  && bool_decide (cp_phase first = Copying)
  && negb (pm_closed (wy_operator w)) && negb (pm_closed (wy_relay w)) && negb (pp_once (wy_agent w)).

(** The steps that may take something away from a direction.  When the client has
    said all it has to say, its own bytes have no more source, and that is all. *)
Definition ends (d : side) (ev : way_event) : bool :=
  match ev with
  | AtOperator (End In _) => bool_decide (d = In)
  | AtOperator (Move _ _) | AtRelay (Move _ _) | AtAgent (Move _ _) => false
  | _ => true
  end.
Definition moves (d : side) (ev : way_event) : bool :=
  match ev with
  | AtOperator (Move d' _) | AtRelay (Move d' _) | AtAgent (Move d' _) => bool_decide (d' = d)
  | _ => false
  end.

(** Both functions have returned, and so have the goroutines. *)
Definition pump_over (p : pump) : bool := pm_closed p && bool_decide (cp_phase (pm_up p) = Gone).
Definition way_over (w : way) : bool :=
  pump_over (wy_operator w) && pump_over (wy_relay w) && pipe_returned (wy_agent w).

(** ** One pair of copies *)

(** A step appends to what was given exactly what it takes from what is left. *)
Definition passes (d : side) (e : event) (c c' : copy) : Prop :=
  cp_given c' = cp_given c +:+ moved d e c ∧ moved d e c +:+ cp_left c' = cp_left c.

Lemma passes_nothing d e c c' :
  moved d e c = "" → cp_given c' = cp_given c → cp_left c' = cp_left c → passes d e c c'.
Proof. intros Hm Hg Hl. unfold passes. by rewrite Hm, Hg, Hl, sapp_nil_r, sapp_nil_l. Qed.

Lemma passes_move d n c ph :
  passes d (Move d n) c (mkCopy ph (sdrop n (cp_left c)) (cp_given c +:+ stake n (cp_left c))).
Proof. unfold passes, moved. rewrite decide_True by done. cbn. by rewrite stake_sdrop. Qed.

Lemma lane_set d c p : lane d (set_lane d c p) = c.
Proof. by destruct d. Qed.
Lemma half_set d c p : half d (set_half d c p) = c.
Proof. by destruct d. Qed.

Lemma pump_step_passes nm after e p p' d :
  pump_step nm after e p = Some p' → passes d e (lane d p) (lane d p').
Proof.
  intros Hs. destruct e as [d' n|[] panic|]; cbn in Hs; [|by repeat case_match; simplify_eq; destruct d; apply passes_nothing..].
  destruct (cp_phase (lane d' p)); [|done..]. case_match; [done|]. injection Hs as <-.
  destruct (decide (d' = d)) as [->|Hne].
  - rewrite lane_set. apply passes_move.
  - apply passes_nothing; [cbn; by rewrite decide_False|by destruct d, d'..].
Qed.

Lemma pipe_step_passes e p p' d : pipe_step e p = Some p' → passes d e (half d p) (half d p').
Proof.
  intros Hs. destruct e as [d' n|d' panic|d']; cbn in Hs.
  - destruct (cp_phase (half d' p)); [|done..]. case_match; [done|]. injection Hs as <-.
    destruct (decide (d' = d)) as [->|Hne].
    + rewrite half_set. apply passes_move.
    + apply passes_nothing; [cbn; by rewrite decide_False|by destruct d, d'..].
  - destruct (cp_phase (half d' p)); [|done..]. injection Hs as <-. by apply passes_nothing; destruct d, d'.
  - destruct (cp_phase (half d' p)) as [|panic|panic|]; try discriminate Hs; injection Hs as <-.
    + apply passes_nothing; [done|..]; unfold shut; by destruct d, d', p as [? ? []].
    + apply passes_nothing; [done|..]; by destruct d, d'.
Qed.

(** ** The whole way: nothing is lost, made up or reordered *)
Section along.
  Context (tcp : bool) (id : string).

Notation step := (way_step tcp id).
Notation run := (way_run tcp id).

Lemma way_step_conserves ev w w' d :
  step ev w = Some w' → delivered d w' +:+ in_transit d w' = delivered d w +:+ in_transit d w.
Proof.
  destruct w as [po pr pa]. destruct ev as [e|e|e]; cbn [way_step wy_operator wy_relay wy_agent]; intros Hs;
    apply bind_Some in Hs as (p & Hp & [= <-]).
  - pose proof (pump_step_passes _ _ _ _ _ d Hp) as [Hg Hl]. destruct d; cbn in *.
    + by rewrite !sapp_assoc, Hl.
    + by rewrite Hg, sapp_assoc, <-(sapp_assoc (moved _ _ _)), Hl.
  - pose proof (pump_step_passes _ _ _ _ _ d Hp) as [Hg Hl]. destruct d; cbn in *.
    + by rewrite sapp_assoc, <-(sapp_assoc (moved _ _ _)), Hl.
    + by rewrite sapp_assoc, <-(sapp_assoc (moved _ _ _)), Hl.
  - pose proof (pipe_step_passes _ _ _ d Hp) as [Hg Hl]. destruct d; cbn in *.
    + by rewrite Hg, sapp_assoc, <-(sapp_assoc (moved _ _ _)), Hl.
    + by rewrite !sapp_assoc, Hl.
Qed.

Lemma way_run_conserves evs w w' d :
  run evs w = Some w' → delivered d w' +:+ in_transit d w' = delivered d w +:+ in_transit d w.
Proof.
  revert w. induction evs as [|ev evs IH]; intros w; [by intros [= <-]|]. cbn.
  intros (w1 & Hs & Hr)%bind_Some. rewrite (IH _ Hr). by eapply way_step_conserves.
Qed.

(** ** A direction flows until something it needs has ended *)
Lemma flowing_spec d w :
  flowing d w = true ↔
  let '(last, middle, first) := hops d w in
  cp_phase last = Copying ∧ cp_phase middle = Copying ∧ cp_phase first = Copying ∧
  pm_closed (wy_operator w) = false ∧ pm_closed (wy_relay w) = false ∧ pp_once (wy_agent w) = false.
Proof.
  unfold flowing. destruct (hops d w) as [[last middle] first].
  rewrite !andb_true_iff, !negb_true_iff, !bool_decide_eq_true. tauto.
Qed.

Lemma pump_step_keeps nm after e p p' d :
  pump_step nm after e p = Some p' → pm_closed p = false → cp_phase (lane d p) = Copying →
  match e with Move _ _ => True | End In _ => d = Out | _ => False end →
  pm_closed p' = false ∧ cp_phase (lane d p') = Copying.
Proof.
  intros Hs Hc Hd He. destruct e as [d' n|[] panic|]; [| |done..]; cbn in Hs.
  - destruct (cp_phase (lane d' p)); [|done..]. case_match; [done|]. injection Hs as <-. by destruct d, d'.
  - subst d. destruct (cp_phase (pm_up p)); [|done..]. by injection Hs as <-.
Qed.

Lemma pipe_move_keeps d' n p p' d :
  pipe_step (Move d' n) p = Some p' → cp_phase (half d p) = Copying →
  pp_once p' = pp_once p ∧ cp_phase (half d p') = Copying.
Proof.
  intros Hs Hd. cbn in Hs. destruct (cp_phase (half d' p)); [|done..]. case_match; [done|].
  injection Hs as <-. by destruct d, d'.
Qed.

Lemma flowing_step ev w w' d : step ev w = Some w' → flowing d w = true → ends d ev = false → flowing d w' = true.
Proof.
  destruct w as [po pr pa]. rewrite !flowing_spec.
  destruct ev as [e|e|e]; cbn [way_step wy_operator wy_relay wy_agent]; intros Hs;
    apply bind_Some in Hs as (p & Hp & [= <-]).
  - intros Hf He. assert (pm_closed po = false ∧ cp_phase (lane d po) = Copying) as [Hc Hph] by (destruct d; cbn in *; tauto).
    apply (pump_step_keeps _ _ _ _ _ d) in Hp as [Hc' Hph']; [destruct d; cbn in *; tauto|done..|].
    destruct e as [|[] ?|]; try done. destruct d; [done|reflexivity].
  - unfold relay_step in Hp. intros Hf He. destruct e as [d' n| |]; [|done..].
    assert (pm_closed pr = false ∧ cp_phase (lane d pr) = Copying) as [Hc Hph] by (destruct d; cbn in *; tauto).
    apply (pump_step_keeps _ _ _ _ _ d) in Hp as [Hc' Hph']; [destruct d; cbn in *; tauto|done..].
  - intros Hf He. destruct e as [d' n| |]; [|done..].
    assert (pp_once pa = false ∧ cp_phase (half d pa) = Copying) as [Hc Hph] by (destruct d; cbn in *; tauto).
    apply (pipe_move_keeps _ _ _ _ d) in Hp as [Ho' Hph']; [|done]. rewrite Hc in Ho'. destruct d; cbn in *; tauto.
Qed.

Lemma flowing_run evs w w' d :
  run evs w = Some w' → flowing d w = true → forallb (λ ev, negb (ends d ev)) evs = true → flowing d w' = true.
Proof.
  revert w. induction evs as [|ev evs IH]; intros w; [by intros [= <-]|]. cbn.
  intros (w1 & Hs & Hr)%bind_Some Hf [He%negb_true_iff Hes]%andb_true_iff. eapply IH; [done| |done].
  by eapply flowing_step.
Qed.

(** ** While it flows, what is on its way can go on *)
Definition at_first (d : side) (e : event) : way_event := match d with In => AtOperator e | Out => AtAgent e end.
Definition at_last (d : side) (e : event) : way_event := match d with In => AtAgent e | Out => AtOperator e end.
Definition whole (d : side) (c : copy) : event := Move d (len (cp_left c)).

Lemma sdrop_whole s : sdrop (len s) s = "".
Proof. rewrite <-(sapp_nil_r s) at 2. by apply sdrop_app. Qed.

Lemma pump_moves_whole nm after d p :
  pm_closed p = false → cp_phase (lane d p) = Copying → cp_left (lane d p) ≠ "" →
  pump_step nm after (whole d (lane d p)) p
  = Some (set_lane d (mkCopy Copying "" (cp_given (lane d p) +:+ cp_left (lane d p))) p).
Proof.
  intros Hc Hp Hl. unfold whole, pump_step. rewrite Hp, Hc, stake_all, sdrop_whole by lia.
  destruct (Z.ltb_spec 0 (len (cp_left (lane d p)))) as [|Hz]; [by rewrite Z.leb_refl|].
  pose proof (len_nonneg (cp_left (lane d p))). by rewrite (len_zero_inv (cp_left (lane d p))) in Hl by lia.
Qed.

Lemma pipe_moves_whole d p :
  pp_once p = false → cp_phase (half d p) = Copying → cp_left (half d p) ≠ "" →
  pipe_step (whole d (half d p)) p
  = Some (set_half d (mkCopy Copying "" (cp_given (half d p) +:+ cp_left (half d p))) p).
Proof.
  intros Hc Hp Hl. unfold whole, pipe_step. rewrite Hp, Hc, stake_all, sdrop_whole by lia.
  destruct (Z.ltb_spec 0 (len (cp_left (half d p)))) as [|Hz]; [by rewrite Z.leb_refl|].
  pose proof (len_nonneg (cp_left (half d p))). by rewrite (len_zero_inv (cp_left (half d p))) in Hl by lia.
Qed.

Lemma moved_whole d c : moved d (whole d c) c = cp_left c.
Proof. unfold moved, whole. rewrite decide_True by done. by rewrite stake_all by lia. Qed.

(** A copy with something to read can move all of it to the next. *)
Lemma hop_moves d w : flowing d w = true →
  let '(last, middle, first) := hops d w in
  (cp_left first ≠ "" → ∃ w', step (at_first d (whole d first)) w = Some w' ∧
     hops d w' = (last, arrive (cp_left first) middle, mkCopy Copying "" (cp_given first +:+ cp_left first))) ∧
  (cp_left middle ≠ "" → ∃ w', step (AtRelay (whole d middle)) w = Some w' ∧
     hops d w' = (arrive (cp_left middle) last, mkCopy Copying "" (cp_given middle +:+ cp_left middle), first)) ∧
  (cp_left last ≠ "" → ∃ w', step (at_last d (whole d last)) w = Some w' ∧
     hops d w' = (mkCopy Copying "" (cp_given last +:+ cp_left last), middle, first)).
Proof.
  rewrite flowing_spec. destruct w as [po pr pa]. destruct d; cbn [hops wy_operator wy_relay wy_agent].
  all: intros (H1 & H2 & H3 & Ho & Hr & Ha); split_and!; intros Hl; cbn [at_first at_last way_step wy_operator wy_relay wy_agent];
    unfold operator_step, relay_step; rewrite ?pump_moves_whole, ?pipe_moves_whole by done;
    cbn [mbind option_bind]; rewrite ?moved_whole; eexists; (split; [reflexivity|]); by destruct po, pr, pa.
Qed.

Lemma hop_moves_are_moves d c :
  moves d (at_first d (whole d c)) = true ∧ moves d (AtRelay (whole d c)) = true ∧ moves d (at_last d (whole d c)) = true.
Proof. by destruct d. Qed.

Lemma moves_keep_flowing ev w w' d : step ev w = Some w' → moves d ev = true → flowing d w = true → flowing d w' = true.
Proof. intros Hs Hm Hf. eapply flowing_step; [done..|]. by destruct ev as [[]|[]|[]]. Qed.

(** It stops only when all of it has arrived. *)
Lemma flowing_stuck d w :
  flowing d w = true → (∀ ev, moves d ev = true → step ev w = None) → in_transit d w = "".
Proof.
  intros Hf Hno. pose proof (hop_moves d w Hf) as Hh. unfold in_transit.
  destruct (hops d w) as [[last middle] first]. destruct Hh as (H1 & H2 & H3).
  assert (∀ c (Hc : cp_left c ≠ "" → ∃ ev w', moves d ev = true ∧ step ev w = Some w'), cp_left c = "") as Hgone.
  { intros c Hc. destruct (decide (cp_left c = "")) as [|Hne]; [done|]. destruct (Hc Hne) as (ev & w' & Hm & Hs).
    by rewrite Hno in Hs. }
  rewrite (Hgone last), (Hgone middle), (Hgone first); [done|..].
  - intros Hl. destruct (H1 Hl) as (w' & Hs & _). eexists _, w'. split; [|exact Hs]. apply hop_moves_are_moves.
  - intros Hl. destruct (H2 Hl) as (w' & Hs & _). eexists _, w'. split; [|exact Hs]. apply hop_moves_are_moves.
  - intros Hl. destruct (H3 Hl) as (w' & Hs & _). eexists _, w'. split; [|exact Hs]. apply hop_moves_are_moves.
Qed.

(** At most one step of a copy empties it. *)
Lemma push d w (pick : copy * copy * copy → copy) (ev : way_event) (f : copy * copy * copy → copy * copy * copy) :
  flowing d w = true → moves d ev = true →
  (cp_left (pick (hops d w)) ≠ "" → ∃ w', step ev w = Some w' ∧ hops d w' = f (hops d w)) →
  ∃ es w', run es w = Some w' ∧ (length es ≤ 1)%nat ∧ forallb (moves d) es = true ∧ flowing d w' = true ∧
    (hops d w' = hops d w ∧ cp_left (pick (hops d w)) = "" ∨ hops d w' = f (hops d w)).
Proof.
  intros Hf Hm Hs. destruct (decide (cp_left (pick (hops d w)) = "")) as [He|Hne].
  - exists [], w. split_and!; [done|cbn; lia|done|done|by left].
  - destruct (Hs Hne) as (w' & Hw & Hh). exists [ev], w'. cbn. rewrite Hw, Hm. split_and!; [done|lia|done| |by right].
    by eapply moves_keep_flowing.
Qed.

Lemma run_app es fs w w1 w2 : run es w = Some w1 → run fs w1 = Some w2 → run (es ++ fs) w = Some w2.
Proof.
  revert w. induction es as [|e es IH]; intros w; cbn; [by intros [= ->]|].
  intros (w' & Hs & Hr)%bind_Some Hf. rewrite Hs. cbn. by apply IH.
Qed.

(** Three steps at most bring everything to the far end. *)
Lemma flowing_delivers d w : flowing d w = true →
  ∃ es w', run es w = Some w' ∧ (length es ≤ 3)%nat ∧ forallb (moves d) es = true ∧ in_transit d w' = "".
Proof.
  intros Hf. destruct (hops d w) as [[l m] f] eqn:E0.
  pose proof (hop_moves d w Hf) as Hh. rewrite E0 in Hh.
  destruct (push d w snd (at_first d (whole d f)) (λ '(l, m, f), (l, arrive (cp_left f) m, mkCopy Copying "" (cp_given f +:+ cp_left f))))
    as (es1 & w1 & Hr1 & Hl1 & Hm1 & Hf1 & H1); [done|apply hop_moves_are_moves|rewrite E0; apply Hh|].
  assert (∃ m1 f1, hops d w1 = (l, m1, f1) ∧ cp_left f1 = "") as (m1 & f1 & E1 & Hz1).
  { rewrite E0 in H1. destruct H1 as [[-> ?]| ->]; by eexists _, _. }
  pose proof (hop_moves d w1 Hf1) as Hh1. rewrite E1 in Hh1.
  destruct (push d w1 (λ h, h.1.2) (AtRelay (whole d m1)) (λ '(l, m, f), (arrive (cp_left m) l, mkCopy Copying "" (cp_given m +:+ cp_left m), f)))
    as (es2 & w2 & Hr2 & Hl2 & Hm2 & Hf2 & H2); [done|by destruct d|rewrite E1; apply Hh1|].
  assert (∃ l2 m2, hops d w2 = (l2, m2, f1) ∧ cp_left m2 = "") as (l2 & m2 & E2 & Hz2).
  { rewrite E1 in H2. destruct H2 as [[-> ?]| ->]; by eexists _, _. }
  pose proof (hop_moves d w2 Hf2) as Hh2. rewrite E2 in Hh2.
  destruct (push d w2 (λ h, h.1.1) (at_last d (whole d l2)) (λ '(l, m, f), (mkCopy Copying "" (cp_given l +:+ cp_left l), m, f)))
    as (es3 & w3 & Hr3 & Hl3 & Hm3 & Hf3 & H3); [done|apply hop_moves_are_moves|rewrite E2; apply Hh2|].
  exists (es1 ++ es2 ++ es3), w3. rewrite !length_app, !forallb_app, Hm1, Hm2, Hm3.
  split_and!; [by do 2 (eapply run_app; [done|])|lia|done|].
  unfold in_transit. rewrite E2 in H3. destruct H3 as [[-> Hz3]| ->]; cbn in *; by rewrite ?Hz3, Hz1, Hz2.
Qed.

(** ** It can always be ended *)
Definition pump_ok (p : pump) : Prop :=
  (cp_phase (pm_up p) = Copying ∨ cp_phase (pm_up p) = Gone) ∧
  (cp_phase (pm_down p) = Copying ∧ pm_closed p = false ∨ cp_phase (pm_down p) = Gone ∧ pm_closed p = true).
Definition way_ok (w : way) : Prop :=
  pump_ok (wy_operator w) ∧ pump_ok (wy_relay w) ∧ ∃ up down done, pipe_inv up down done (wy_agent w).

Lemma pump_step_ok nm after e p p' : pump_step nm after e p = Some p' → pump_ok p → pump_ok p'.
Proof.
  unfold pump_ok. intros Hs (Hu & Hd). destruct e as [d n|[] panic|]; cbn in Hs; [| | |done].
  - destruct (cp_phase (lane d p)) eqn:E; [|done..]. case_match; [done|]. injection Hs as <-.
    destruct d; cbn in *; rewrite E in *; by auto.
  - destruct (cp_phase (pm_up p)); [|done..]. injection Hs as <-. cbn. auto.
  - destruct (cp_phase (pm_down p)); [|done..]. injection Hs as <-. cbn. auto.
Qed.

Lemma pump_arrive_ok d s p : pump_ok p → pump_ok (pump_arrive d s p).
Proof. by destruct d. Qed.

Lemma pipe_arrive_inv up down done d s p :
  pipe_inv up down done p → ∃ up' down', pipe_inv up' down' done (pipe_arrive d s p).
Proof.
  intros [Hi Ho Hon Hc Hw Hs Hl]. destruct d.
  - exists (up +:+ s), down. split; try done. cbn. by rewrite <-Hi, sapp_assoc.
  - exists up, (down +:+ s). split; try done. cbn. by rewrite <-Ho, sapp_assoc.
Qed.

Lemma way_step_ok ev w w' : step ev w = Some w' → way_ok w → way_ok w'.
Proof.
  destruct w as [po pr pa]. intros Hs (Ho & Hr & up & down & done & Ha). revert Hs.
  destruct ev as [e|e|e]; cbn in *; intros (p & Hp & [= <-])%bind_Some; split_and!; cbn;
    try (by apply pump_arrive_ok); try (by eapply pump_step_ok); try done.
  - by exists up, down, done.
  - destruct (pipe_arrive_inv _ _ _ In (moved In e (pm_up pr)) _ Ha) as (? & ? & ?). by eexists _, _, _.
  - eexists up, down, _. by eapply pipe_step_inv.
Qed.

Lemma way_run_ok evs w w' : run evs w = Some w' → way_ok w → way_ok w'.
Proof.
  revert w. induction evs as [|ev evs IH]; intros w; [by intros [= <-]|]. cbn.
  intros (w1 & Hs & Hr)%bind_Some Hok. eapply IH; [done|]. by eapply way_step_ok.
Qed.

Lemma pump_arrive_nil d p : pump_arrive d "" p = p.
Proof. destruct d, p as [[? ? ?] [? ? ?] ? ? ?]; cbn; unfold pump_arrive, arrive; cbn; by rewrite sapp_nil_r. Qed.
Lemma pipe_arrive_nil d p : pipe_arrive d "" p = p.
Proof. destruct d, p as [[? ? ?] [? ? ?] ? ? ? ?]; cbn; unfold pipe_arrive, arrive; cbn; by rewrite sapp_nil_r. Qed.

(** A step that moves nothing concerns its own pair of copies only. *)
Definition quiet (e : event) : Prop := cost e = 1%nat.

Lemma moved_quiet d e c : quiet e → moved d e c = "".
Proof. by destruct e. Qed.

Fixpoint pump_run (name : string) (after : bool) (es : list event) (p : pump) : option pump :=
  match es with
  | [] => Some p
  | e :: es => p' ← pump_step name after e p; pump_run name after es p'
  end.

Lemma quiet_at_operator es po p pr pa :
  Forall quiet es → pump_run "forward-upstream" tcp es po = Some p →
  run (AtOperator <$> es) (mkWay po pr pa) = Some (mkWay p pr pa).
Proof.
  intros Hq. revert po. induction Hq as [|e es He _ IH]; intros po; [by intros [= ->]|].
  cbn [pump_run fmap list_fmap way_run way_step wy_operator wy_relay wy_agent]. intros (p1 & Hs & Hr)%bind_Some.
  unfold operator_step. rewrite Hs. cbn [mbind option_bind]. rewrite moved_quiet, pump_arrive_nil by done. by apply IH.
Qed.

Lemma quiet_at_relay es po pr p pa :
  Forall quiet es → pump_run ("forward-pump:" +:+ id) true es pr = Some p →
  run (AtRelay <$> es) (mkWay po pr pa) = Some (mkWay po p pa).
Proof.
  intros Hq. revert pr. induction Hq as [|e es He _ IH]; intros pr; [by intros [= ->]|].
  cbn [pump_run fmap list_fmap way_run way_step wy_operator wy_relay wy_agent]. intros (p1 & Hs & Hr)%bind_Some.
  unfold relay_step. rewrite Hs. cbn [mbind option_bind]. rewrite !moved_quiet, pump_arrive_nil, pipe_arrive_nil by done.
  by apply IH.
Qed.

Lemma quiet_at_agent es po pr pa p :
  Forall quiet es → pipe_run es pa = Some p → run (AtAgent <$> es) (mkWay po pr pa) = Some (mkWay po pr p).
Proof.
  intros Hq. revert pa. induction Hq as [|e es He _ IH]; intros pa; [by intros [= ->]|].
  cbn [pipe_run fmap list_fmap way_run way_step wy_operator wy_relay wy_agent]. intros (p1 & Hs & Hr)%bind_Some.
  rewrite Hs. cbn [mbind option_bind]. rewrite moved_quiet, pump_arrive_nil by done. by apply IH.
Qed.

(** The two ends a pair of copies has left. *)
Definition last_steps (p : pump) : list event :=
  (if bool_decide (cp_phase (pm_up p) = Copying) then [End In None] else [])
  ++ (if pm_closed p then [] else [End Out None]).

Lemma last_steps_quiet p : Forall quiet (last_steps p).
Proof. unfold last_steps. repeat case_match; by repeat constructor. Qed.

Lemma pump_winds_down nm after p :
  pump_ok p → ∃ p', pump_run nm after (last_steps p) p = Some p' ∧ pump_over p' = true.
Proof.
  destruct p as [[pu lu gu] [pd ld gd] h c l]. unfold pump_ok. cbn. intros (Hu & Hd).
  destruct Hu as [-> | ->], Hd as [[-> ->]|[-> ->]]; by eexists.
Qed.

Lemma last_steps_few p : (length (last_steps p) ≤ 2)%nat.
Proof. unfold last_steps. by repeat case_match; cbn; lia. Qed.

Lemma way_winds_down w : way_ok w → ∃ rest w', run rest w = Some w' ∧ (length rest ≤ 10)%nat ∧ way_over w' = true.
Proof.
  destruct w as [po pr pa]. intros (Ho & Hr & up & down & done & Ha). cbn in *.
  destruct (pump_winds_down "forward-upstream" tcp po Ho) as (po' & Hro & Hoo).
  destruct (pump_winds_down ("forward-pump:" +:+ id) true pr Hr) as (pr' & Hrr & Hor).
  destruct (pipe_winds_down pa) as (es & pa' & Hra & Hq & Hi0 & Ho0).
  assert (Forall quiet es) as Hqs by (eapply Forall_impl; [exact Hq|]; by intros e [? _]).
  exists ((AtOperator <$> last_steps po) ++ (AtRelay <$> last_steps pr) ++ (AtAgent <$> es)), (mkWay po' pr' pa').
  split; [eapply run_app; [apply quiet_at_operator; [apply last_steps_quiet|exact Hro]|]|].
  { eapply run_app; [apply quiet_at_relay; [apply last_steps_quiet|exact Hrr]|by apply quiet_at_agent]. }
  destruct (pipe_run_inv_from _ _ _ _ _ _ Ha Hra) as [_ _ _ _ Hw Hs _].
  assert (sum_list_with cost es = length es) as Hc.
  { clear -Hqs. induction Hqs as [|e es He _ IH]; [done|]. cbn. unfold quiet in He. lia. }
  rewrite !length_app, !length_fmap. pose proof (last_steps_few po). pose proof (last_steps_few pr).
  rewrite sum_list_with_app in Hs. split; [cbn; lia|]. unfold way_over. cbn. rewrite Hoo, Hor. cbn.
  unfold pipe_returned. rewrite Hw. unfold running, steps_left in *.
  by destruct (cp_phase (pp_in pa')), (cp_phase (pp_out pa')).
Qed.

(** Then nothing moves any more. *)
Lemma over_is_still w d n :
  way_over w = true → way_ok w →
  step (AtOperator (Move d n)) w = None ∧ step (AtRelay (Move d n)) w = None ∧ step (AtAgent (Move d n)) w = None.
Proof.
  destruct w as [po pr pa]. unfold way_over, pump_over. cbn [wy_operator wy_relay wy_agent].
  intros [[[Hco _]%andb_true_iff [Hcr _]%andb_true_iff]%andb_true_iff Hpa]%andb_true_iff (_ & _ & up & down & done & Hi).
  destruct Hi as [_ _ _ _ Hw _ _]. unfold pipe_returned in Hpa. apply Nat.eqb_eq in Hpa.
  split_and!; cbn; rewrite ?Hco, ?Hcr.
  - by destruct (cp_phase (lane d po)).
  - by destruct (cp_phase (lane d pr)).
  - cbn [wy_agent] in Hw. rewrite Hpa in Hw. unfold running in Hw.
    destruct d; cbn; destruct (cp_phase (pp_in pa)), (cp_phase (pp_out pa)); cbn in Hw; try done; discriminate Hw.
Qed.
End along.

(** ** From the beginning

    When the operator's bridge and the agent's pipe have started, and the relay's pair
    between them: [said] is what the agent's copy has moved of the service's bytes by
    then, [later] what the service is still to say. *)
Definition service_says (said later : string) (p : pipe) : pipe :=
  set_half Out (mkCopy (cp_phase (pp_out p)) later said) p.
Definition way_begins (operator : pump) (said later : string) (agent : pipe) : way :=
  mkWay operator (start_pump "" "") (service_says said later agent).

Lemma way_carries tcp id ahead up said later evs w d :
  way_run tcp id evs (way_begins (start_pump up said) said later (start_pipe ahead "")) = Some w →
  let sent := match d with In => ahead +:+ up | Out => said +:+ later end in
  delivered d w +:+ in_transit d w = sent ∧
  (forallb (λ ev, negb (ends d ev)) evs = true →
     ((∀ ev, moves d ev = true → way_step tcp id ev w = None) → delivered d w = sent) ∧
     ∃ rest w', way_run tcp id rest w = Some w' ∧ (length rest ≤ 3)%nat ∧ forallb (moves d) rest = true ∧
       delivered d w' = sent) ∧
  (∃ rest w', way_run tcp id rest w = Some w' ∧ (length rest ≤ 10)%nat ∧ way_over w' = true ∧
     ∀ n, way_step tcp id (AtOperator (Move d n)) w' = None ∧ way_step tcp id (AtRelay (Move d n)) w' = None ∧
          way_step tcp id (AtAgent (Move d n)) w' = None).
Proof.
  intros Hr sent. pose proof (way_run_conserves _ _ _ _ _ d Hr) as Hc.
  replace (delivered d (way_begins _ _ _ _) +:+ in_transit d (way_begins _ _ _ _)) with sent in Hc by
    (subst sent; destruct d; cbn; by rewrite ?sapp_nil_l).
  assert (way_ok (way_begins (start_pump up said) said later (start_pipe ahead ""))) as Hok.
  { unfold way_ok, pump_ok. cbn. split_and!; auto. exists ahead, (said +:+ later), []. by split. }
  pose proof (way_run_ok _ _ _ _ _ Hr Hok) as Hok'. split_and!; [exact Hc| |].
  - intros He. assert (flowing d w = true) as Hf.
    { eapply flowing_run; [exact Hr|by destruct d|exact He]. }
    split.
    + intros Hno. by rewrite (flowing_stuck _ _ _ _ Hf Hno), sapp_nil_r in Hc.
    + destruct (flowing_delivers tcp id d w Hf) as (rest & w' & Hw & Hl & Hm & Ht). exists rest, w'. split_and!; [done..|].
      pose proof (way_run_conserves _ _ _ _ _ d Hw) as Hc'. by rewrite Ht, sapp_nil_r, Hc in Hc'.
  - destruct (way_winds_down tcp id w Hok') as (rest & w' & Hw & Hl & Hov). exists rest, w'. split_and!; [done..|].
    intros n. apply over_is_still; [done|]. by eapply way_run_ok.
Qed.

(** A run in which the client says its piece and closes its side. *)
Example client_closes_its_side :
  is_Some (way_run true "lab-1"
    [AtOperator (Move In 10); AtOperator (End In None); AtRelay (Move In 8); AtAgent (Move In 8)]
    (way_begins (start_pump "SSH-2.0-me" "SSH-2") "SSH-2" ".0-it" (start_pipe "" ""))).
Proof. vm_compute. by eexists. Qed.
