(* ===== verification/AgentStream.v ===== *)
(** * The streams an agent serves (client/session.go: handleStream; client/pty.go,
    client/forward.go)

    Each stream the relay opens is one request: echo, a terminal, a call, or a
    connection to a local service.  What a handler writes back is a [Writer];
    what it reads is a [BufReader]. *)

From Stdlib Require Import Ascii.
From S2P Require Import Prelude GoStrings GoNum GoBase64 Interfaces Host Wire AgentRpc Pipes.

Open Scope string_scope.
Open Scope list_scope.
Open Scope Z_scope.

(** ** Services *)
Definition defaultServices : gmap string string :=
  {[ServiceRDP := "127.0.0.1:3389"; ServiceSSH := "127.0.0.1:22"]}.

(** The configuration over the defaults; an empty address withdraws a service.
    [order] is the order of Go's map iteration. *)
Definition merge_service (merged : gmap string string) (entry : string * string) : gmap string string :=
  if (entry.2 =? "")%string then delete entry.1 merged else <[entry.1 := entry.2]> merged.
Definition setServices (order : list (string * string)) : gmap string string :=
  fold_left merge_service order defaultServices.

(** ** Forwarding *)

(** What becomes of [handleForward]: [FPiped] is a connection to a local address, and
    the pipe to it as [pipeStream] starts it, with what the reader of the stream
    holds ahead of what is still to arrive. *)
Inductive forward_outcome :=
  | FUnreadable
  | FStatusLost                          (* the answer could not be written *)
  | FDev (conn : string)                 (* the embedded ssh server reads the stream itself *)
  | FNotOffered (service : string)
  | FDialFailed (addr : string)
  | FPiped (addr : string) (p : pipe).

(** [dial] is the result of [net.DialTimeout] for each address. *)
Definition handleForward (services : gmap string string) (dial : string → res ())
    (br : BufReader) (stream : Writer) : forward_outcome * Writer :=
  match ReadForwardTarget br with
  | (Err _, _) => (FUnreadable, stream)
  | (Ok service, br) =>
      if (service =? ServiceDev)%string then
        match WriteForwardStatus None stream with
        | (Err _, stream) => (FStatusLost, stream)
        | (Ok _, stream) => (FDev (sconcat (br_chunks br)), stream)
        end
      else
        match services !! service with
        | None =>
            let '(_, stream) := WriteForwardStatus
              (Some (errorf ("this agent does not offer " +:+ quote service))) stream in
            (FNotOffered service, stream)
        | Some addr =>
            match dial addr with
            | Err e =>
                let '(_, stream) := WriteForwardStatus
                  (Some (wrapf (service +:+ " is not answering on " +:+ addr +:+ ": ") e)) stream in
                (FDialFailed addr, stream)
            | Ok _ =>
                match WriteForwardStatus None stream with
                | (Err _, stream) => (FStatusLost, stream)
                | (Ok _, stream) => (FPiped addr (start_pipe (remaining br) ""), stream)
                end
            end
        end
  end.

(** ** Terminals *)
Inductive term_action := TWriteKeys (s : string) | TResize (cols rows : Z).

(** A terminal: what was done to it, and the outcome of the writes to come.
    Resize failures are only logged. *)
Record Term := mkTerm { tm_log : list term_action; tm_faults : list (option error) }.

Definition term_write (p : string) (t : Term) : res () * Term :=
  match tm_faults t with
  | Some e :: fs => (Err e, mkTerm (tm_log t) fs)
  | fs => (Ok (), mkTerm (tm_log t ++ [TWriteKeys p]) (tail fs))
  end.
Definition term_resize (cols rows : Z) (t : Term) : Term :=
  mkTerm (tm_log t ++ [TResize cols rows]) (tm_faults t).

(** One turn of the loop of [handlePTY]: [None] ends it. *)
Definition pty_turn (br : BufReader) (t : Term) : option BufReader * Term :=
  match ReadPTYFrame br with
  | (Err _, _) => (None, t)
  | (Ok (typ, payload), br) =>
      if Ascii.eqb typ PTYData then
        match term_write payload t with
        | (Err _, t) => (None, t)
        | (Ok _, t) => (Some br, t)
        end
      else if Ascii.eqb typ PTYResize then
        match PTYSize payload with
        | Err _ => (Some br, t)
        | Ok (cols, rows) => (Some br, term_resize cols rows t)
        end
      else (Some br, t)
  end.

Fixpoint pty_loop (fuel : nat) (br : BufReader) (t : Term) : Term :=
  match fuel with
  | O => t
  | S fuel => match pty_turn br t with
              | (Some br, t) => pty_loop fuel br t
              | (None, t) => t
              end
  end.

(** Every frame takes five bytes at least, so the bytes that will ever arrive
    bound the turns. *)
Definition pty_fuel (br : BufReader) : nat := S (String.length (remaining br)).

(** [start] is the result of [startPTY]. *)
Definition handlePTY (start : res Term) (br : BufReader) (stream : Writer) : option Term * Writer :=
  match start with
  | Err e => (None, snd (write ("beacon: " +:+ err_text e +:+ cr +:+ nl) stream))
  | Ok term => (Some (pty_loop (pty_fuel br) br term), stream)
  end.

(** ** Dispatch *)
Inductive stream_outcome :=
  | SUnreadable
  | SEcho
  | SPty (t : option Term)
  | SRpc
  | SForward (o : forward_outcome)
  | SUnsupported (kind : string).

Section dispatch.
  Context {W : Type} `{Machine W} `{JSON RPCRequest} `{JSON RPCResponse}.
  Context (duration_string : Z → string).
  Context (services : gmap string string) (dial : string → res ()) (startPTY : res Term).

Definition handleStream (br : BufReader) (stream : Writer) : W → (stream_outcome * Writer) * W := λ w,
  match ReadStreamHeader br with
  | (Err _, _) => ((SUnreadable, stream), w)
  | (Ok kind, br) =>
      if (kind =? StreamEcho)%string then ((SEcho, snd (write (remaining br) stream)), w)
      else if (kind =? StreamPTY)%string then
        let '(t, stream) := handlePTY startPTY br stream in ((SPty t, stream), w)
      else if (kind =? StreamRPC)%string then
        let '(out, w) := handleRPC duration_string br w in
        ((SRpc, snd (write out stream)), w)
      else if (kind =? StreamForward)%string then
        let '(o, stream) := handleForward services dial br stream in ((SForward o, stream), w)
      else ((SUnsupported kind, stream), w)
  end.
End dispatch.

(** ** Only what the configuration offers is ever dialled *)

Lemma setServices_lookup order service :
  NoDup order.*1 →
  setServices order !! service =
  match (list_to_map order : gmap string string) !! service with
  | Some addr => if (addr =? "")%string then None else Some addr
  | None => defaultServices !! service
  end.
Proof.
  unfold setServices. generalize defaultServices as m.
  induction order as [|[k a] order IH]; intros m Hnd; [done|].
  cbn [fold_left list_to_map foldr fst fmap list_fmap] in *. apply NoDup_cons in Hnd as [Hk Hnd].
  rewrite IH by done. unfold merge_service. cbn [fst snd].
  destruct (decide (k = service)) as [->|Hne].
  - rewrite lookup_insert_eq. apply not_elem_of_list_to_map_1 in Hk. cbn in Hk. rewrite Hk.
    destruct (a =? "")%string; [apply lookup_delete_eq|apply lookup_insert_eq].
  - rewrite lookup_insert_ne by done. destruct (list_to_map order !! service); [done|].
    destruct (a =? "")%string; [by apply lookup_delete_ne|by apply lookup_insert_ne].
Qed.

(** A forward stream reaches an address only if the operator's configuration (or
    a default it did not withdraw) names it for the service asked for; the byte
    stream reaches it from its first byte, the pipelined ones included; and
    nothing is dialled for the embedded server.  Every refusal is answered. *)
Theorem forward_dials_only_offered services dial br stream o stream' :
  handleForward services dial br stream = (o, stream') →
  match o with
  | FPiped addr p =>
      ∃ service br', ReadForwardTarget br = (Ok service, br') ∧ service ≠ ServiceDev ∧
        services !! service = Some addr ∧ dial addr = Ok () ∧ p = start_pipe (remaining br') ""
  | FDialFailed addr => ∃ service, services !! service = Some addr ∧ is_ok (dial addr) = false
  | FNotOffered service => services !! service = None
  | FDev _ | FStatusLost | FUnreadable => True
  end ∧
  (w_faults stream = [] → o ≠ FStatusLost ∧
   (o ≠ FUnreadable → w_buf stream' ≠ w_buf stream)).
Proof.
  assert (∀ c w, w_faults w = [] →
    ∃ s, WriteForwardStatus c w = (Ok (), s) ∧ w_buf s = w_buf w +:+ status_line c +:+ nl) as Hst.
  { intros c [b fs] Hf. cbn in Hf. subst fs. rewrite WriteForwardStatus_line. by eexists. }
  assert (∀ a b : string, a +:+ b +:+ nl ≠ a) as Hne.
  { intros a b He. apply (f_equal len) in He. rewrite !len_app in He. change (len nl) with 1 in He.
    pose proof (len_nonneg b). lia. }
  unfold handleForward. destruct (ReadForwardTarget br) as [[service|e] br'] eqn:Er.
  2: { intros [= <- <-]. done. }
  destruct (String.eqb_spec service ServiceDev) as [->|Hdev].
  { destruct (WriteForwardStatus None stream) as [[[]|e] s] eqn:Ew; intros [= <- <-];
      (split; [done|]); intros Hf; destruct (Hst None _ Hf) as (s' & Hs & Hb);
      rewrite Hs in Ew; [injection Ew as <-|done].
    split; [done|]. intros _. rewrite Hb. apply Hne. }
  destruct (services !! service) as [addr|] eqn:Es.
  2: { destruct (WriteForwardStatus _ stream) as [r s] eqn:Ew. intros [= <- <-]. split; [done|].
       intros Hf. split; [done|]. intros _.
       destruct (Hst (Some (errorf ("this agent does not offer " +:+ quote service))) _ Hf) as (s' & Hs & Hb).
       rewrite Hs in Ew. injection Ew as _ <-. rewrite Hb. apply Hne. }
  destruct (dial addr) as [[]|e] eqn:Ed.
  2: { destruct (WriteForwardStatus _ stream) as [r s] eqn:Ew. intros [= <- <-].
       split; [exists service; by rewrite Ed|].
       intros Hf. split; [done|]. intros _.
       destruct (Hst (Some (wrapf (service +:+ " is not answering on " +:+ addr +:+ ": ") e)) _ Hf)
         as (s' & Hs & Hb).
       rewrite Hs in Ew. injection Ew as _ <-. rewrite Hb. apply Hne. }
  destruct (WriteForwardStatus None stream) as [[[]|e] s] eqn:Ew; intros [= <- <-].
  - split; [by exists service, br'|].
    intros Hf. destruct (Hst None _ Hf) as (s' & Hs & Hb). rewrite Hs in Ew. injection Ew as <-.
    split; [done|]. intros _. rewrite Hb. apply Hne.
  - split; [done|]. intros Hf. destruct (Hst None _ Hf) as (s' & Hs & Hb). by rewrite Hs in Ew.
Qed.

Lemma forward_dials_only_offered_witness :
  let services := setServices [("db", "127.0.0.1:5432"); ("rdp", "")] in
  services !! "rdp" = None ∧
  ∃ service br', ReadForwardTarget (mkBufReader ("db" +:+ nl +:+ "SELECT") []) = (Ok service, br') ∧
    service ≠ ServiceDev ∧ services !! service = Some "127.0.0.1:5432" ∧ Ok () = Ok () ∧
    start_pipe "SELECT" "" = start_pipe (remaining br') "".
Proof.
  intros services. split; [reflexivity|].
  eapply (forward_dials_only_offered services (λ _, Ok ()) (mkBufReader ("db" +:+ nl +:+ "SELECT") [])
            (mkWriter "" []) (FPiped "127.0.0.1:5432" (start_pipe "SELECT" ""))).
  vm_compute. reflexivity.
Defined.

(** ** Terminals do what was typed *)
Definition frame_action (f : frame) : list term_action :=
  if Ascii.eqb f.1 PTYData then [TWriteKeys f.2]
  else if Ascii.eqb f.1 PTYResize then
    match PTYSize f.2 with Ok (c, r) => [TResize c r] | Err _ => [] end
  else [].

Lemma encode_frame_len f : len (encode_frame f) = 5 + len f.2.
Proof. unfold encode_frame. rewrite len_app, len_cons, put_uint32_len. lia. Qed.

Lemma pty_turn_frame f br rest log :
  frame_ok f = true → remaining br = encode_frame f +:+ rest →
  ∃ br', pty_turn br (mkTerm log []) = (Some br', mkTerm (log ++ frame_action f) []) ∧
         remaining br' = rest.
Proof.
  intros Hf Hr. destruct (ReadPTYFrame_ok f br rest Hf Hr) as (br' & Hrd & Hb).
  exists br'. split; [|done]. unfold pty_turn. rewrite Hrd. destruct f as [typ p].
  unfold frame_action. cbn [fst snd]. destruct (Ascii.eqb typ PTYData); [done|].
  destruct (Ascii.eqb typ PTYResize); [|by rewrite app_nil_r].
  destruct (PTYSize p) as [[c r]|]; [done|by rewrite app_nil_r].
Qed.

Lemma pty_loop_frames fs br log fuel :
  forallb frame_ok fs = true → remaining br = sconcat (encode_frame <$> fs) →
  (String.length (remaining br) < fuel)%nat →
  pty_loop fuel br (mkTerm log []) = mkTerm (log ++ concat (frame_action <$> fs)) [].
Proof.
  revert br log fuel. induction fs as [|f fs IH]; intros br log fuel Hok Hr Hfuel.
  - cbn in Hr. destruct fuel as [|fuel]; [lia|]. cbn [pty_loop concat fmap list_fmap].
    unfold pty_turn, ReadPTYFrame, mbind, M_bind.
    assert (∃ b', ReadFull 5 br = (Err ErrorEOF, b')) as [b' ->].
    { unfold ReadFull, remaining in *. destruct (fill_until _ _ _) as [buf cs] eqn:E.
      apply fill_until_spec in E as [Heq _]. rewrite Heq in Hr. destruct buf; [|done]. by eexists. }
    by rewrite app_nil_r.
  - cbn [forallb fmap list_fmap sconcat] in *. bool_prop. destruct fuel as [|fuel]; [lia|].
    destruct (pty_turn_frame f br _ log H Hr) as (br' & Ht & Hb).
    cbn [pty_loop]. rewrite Ht, IH; [|done|done|].
    + cbn [concat]. by rewrite app_assoc.
    + assert (len (remaining br) = len (encode_frame f) + len (remaining br')) as Hlen
        by (by rewrite Hr, Hb, len_app).
      rewrite encode_frame_len in Hlen. unfold len in *. lia.
Qed.

(** What the operator typed, and every window size in between, reaches the
    terminal exactly once and in order, whatever the chunking; the loop ends
    when the stream does. *)
Theorem pty_session_faithful fs br w stream :
  forallb frame_ok fs = true →
  write_frames fs (mkWriter "" []) = (Ok (), w) → remaining br = w_buf w →
  handlePTY (Ok (mkTerm [] [])) br stream
  = (Some (mkTerm (concat (frame_action <$> fs)) []), stream).
Proof.
  intros Hok Hw Hr. rewrite write_frames_ok in Hw by done. injection Hw as <-. cbn [w_buf] in Hr.
  rewrite sapp_nil_l in Hr. unfold handlePTY. f_equal. f_equal.
  rewrite (pty_loop_frames fs); [done..|]. unfold pty_fuel. lia.
Qed.

Lemma pty_session_faithful_witness :
  let fs := [(PTYData, "ls"); (PTYResize, PTYResizePayload 120 40); (PTYData, nl)] in
  handlePTY (Ok (mkTerm [] [])) (mkBufReader "" [sconcat (encode_frame <$> fs)]) (mkWriter "" [])
  = (Some (mkTerm [TWriteKeys "ls"; TResize 120 40; TWriteKeys nl] []), mkWriter "" []).
Proof.
  intros fs. eapply (pty_session_faithful fs); reflexivity.
Defined.

(** The embedded ssh server reads the stream and not the buffer the target line
    was read from: bytes that came in the same packet as the target never reach
    it, where a dialled service would get them. *)
Theorem dev_service_loses_pipelined_bytes :
  let br s := mkBufReader (s +:+ nl +:+ "SSH-2.0-client") [] in
  fst (handleForward defaultServices (λ _, Ok ()) (br ServiceDev) (mkWriter "" [])) = FDev "" ∧
  fst (handleForward defaultServices (λ _, Ok ()) (br ServiceSSH) (mkWriter "" []))
  = FPiped "127.0.0.1:22" (start_pipe "SSH-2.0-client" "").
Proof. done. Qed.
