(* ===== verification/RelayTools.v ===== *)
(** * What the relay asks of an agent (server/stream.go, mcp.go, mcp_clipboard.go,
    clipboard.go, shell.go, forward.go)

    Every capability opens one stream on the agent's current session.  The
    tunnel is the class [Tunnel]: opening a stream, and what comes back, in
    whatever pieces, for the bytes that were sent on it. *)

From Stdlib Require Import Ascii.
From S2P Require Import Prelude GoStrings GoNum GoBase64 GoUtf8 Interfaces GoNet Wire Assertions.
From S2P Require Import Challenges Events Registry Proxies Host ServerConfig VaultClient KVStore.
From S2P Require Import AgentKeys OperatorStore Auth Server Enroll.

Open Scope string_scope.
Open Scope list_scope.
Open Scope Z_scope.

Class Tunnel (W : Type) := {
  tn_OpenStream : Z → M W Writer;                  (* sess.OpenStream, with the faults of its writes *)
  tn_SetDeadline : res ();
  tn_Reply : Z → string → M W (list string)        (* what the agent sends back for these bytes *)
}.

Definition errAgentOffline : error := mkError "agent is not connected" [ErrAgentOffline].

(** [mcp.CallToolResult] *)
Inductive tool_content := TextContent (text : string) | ImageContent (data mime : string).
Record CallToolResult := mkCallToolResult { tr_IsError : bool; tr_Content : list tool_content }.
Definition textResult (text : string) : CallToolResult := mkCallToolResult false [TextContent text].
Definition errorResult (text : string) : CallToolResult := mkCallToolResult true [TextContent text].

Record execArgs := mkExecArgs {
  ea_Agent : string; ea_Command : string; ea_Dir : string; ea_TimeoutSeconds : Z }.
Record pathArgs := mkPathArgs { pa_Agent : string; pa_Path : string }.
Record writeArgs := mkWriteArgs { wa_Agent : string; wa_Path : string; wa_Content : string }.
Record agentArgs := mkAgentArgs { aa_Agent : string }.
Record clipboardArgs := mkClipboardArgs { ca_Agent : string; ca_Text : string }.
Record clipboardImageArgs := mkClipboardImageArgs { ci_Agent : string; ci_Image : string }.

Definition tab : string := String (byte 9) "".
Definition ends_line (s : string) : string := if HasSuffix s nl then s else s +:+ nl.

(** Requests, field by field as the composite literals give them. *)
Definition rpc_path (op path : string) : RPCRequest := mkRPCRequest op "" "" 0 path "".
Definition rpc_op (op : string) : RPCRequest := mkRPCRequest op "" "" 0 "" "".
Definition rpc_send (op path content : string) : RPCRequest := mkRPCRequest op "" "" 0 path content.

Section tools.
  Context {W : Type} `{Tunnel W} `{JSON RPCRequest} `{JSON RPCResponse}.

Notation SM := (M (Server W)).

Definition on_tunnel {A} : M W A → SM A :=
  zoom (λ s, snd (sv_vault s)) (λ w s, set_vault (fst (sv_vault s), w) s).

(** The session and the stream with its kind already declared. *)
Definition openAgentStream (agentID kind : string) : SM (Z * Writer) :=
  s ← mget;
  match Session agentID (sv_registry s) with
  | None => mthrow (wrapf (quote agentID +:+ ": ") errAgentOffline)
  | Some sess =>
      stream ← on_tunnel (tn_OpenStream sess);
      match WriteStreamHeader kind stream with
      | (Err e, _) => mthrow e
      | (Ok _, stream) => mret (sess, stream)
      end
  end.

Definition agentRPC (agentID : string) (req : RPCRequest) : SM RPCResponse :=
  '(sess, stream) ← openAgentStream agentID StreamRPC;
  _ ← mlift tn_SetDeadline;
  data ← mlift (Marshal req);
  match write (data +:+ nl) stream with
  | (Err e, _) => mthrow e
  | (Ok _, stream) =>
      chunks ← on_tunnel (tn_Reply sess (w_buf stream));
      mlift (Decode (remaining (mkBufReader "" chunks)))
  end.

(** ** The tools

    A tool reports every failure in its result. *)
Definition call_tool (agentID : string) (req : RPCRequest) (k : RPCResponse → CallToolResult)
    : SM CallToolResult :=
  r ← attempt (agentRPC agentID req);
  match r with
  | Err e => mret (errorResult (err_text e))
  | Ok resp =>
      if negb (rp_Error resp =? "")%string then mret (errorResult (rp_Error resp)) else mret (k resp)
  end.

(** [ms] renders a duration as ["rtt %.1fms"] does. *)
Definition agent_line (ms : Z → string) (v : AgentView) : string :=
  av_ID v +:+ tab +:+ (if av_Online v then "online" else "offline") +:+ tab +:+ av_OS v +:+ "/"
  +:+ av_Arch v +:+ tab +:+ av_Hostname v
  +:+ (match av_RTTNanos v with Some ns => tab +:+ "rtt " +:+ ms ns +:+ "ms" | None => "" end) +:+ nl.

Definition agents_text (ms : Z → string) (agents : list AgentView) : string :=
  match agents with
  | [] => "No agents have ever connected to this relay."
  | _ => sconcat (agent_line ms <$> agents)
  end.

(** [range] is the order of the map iteration, [streams] and [conns] what the
    live sessions and connections report. *)
Definition toolListAgents (ms : Z → string) (range : Registry → list (string * agentRec))
    (streams : Z → Z) (conns : Z → CountingConn) (now : Z) : SM CallToolResult :=
  s ← mget; mret (textResult (agents_text ms (Snapshot streams conns now (range (sv_registry s))))).

Definition exec_text (resp : RPCResponse) : string :=
  "exit code: " +:+ itoa (rp_ExitCode resp) +:+ nl
  +:+ (if negb (rp_Stdout resp =? "")%string
       then "--- stdout ---" +:+ nl +:+ ends_line (rp_Stdout resp) else "")
  +:+ (if negb (rp_Stderr resp =? "")%string
       then "--- stderr ---" +:+ nl +:+ ends_line (rp_Stderr resp) else "")
  +:+ (if (rp_Stdout resp =? "")%string && (rp_Stderr resp =? "")%string
       then "(no output)" +:+ nl else "")
  +:+ (if rp_Truncated resp then "--- output was truncated at the 1 MiB cap ---" +:+ nl else "").

Definition toolRunCommand (a : execArgs) : SM CallToolResult :=
  if (ea_Command a =? "")%string then mret (errorResult "command is required")
  else call_tool (ea_Agent a)
         (mkRPCRequest OpExec (ea_Command a) (ea_Dir a) (ea_TimeoutSeconds a) "" "")
         (λ resp, textResult (exec_text resp)).

Definition toolReadFile (a : pathArgs) : SM CallToolResult :=
  call_tool (pa_Agent a) (rpc_path OpReadFile (pa_Path a)) (λ resp,
    match std_decode (rp_Content resp) with
    | None => errorResult "agent returned unreadable content: illegal base64 data"
    | Some data =>
        if negb (Valid data)
        then textResult (pa_Path a +:+ " is binary (" +:+ itoa (len data) +:+ " bytes); not shown as text.")
        else textResult data
    end).

Definition toolWriteFile (a : writeArgs) : SM CallToolResult :=
  call_tool (wa_Agent a) (rpc_send OpWriteFile (wa_Path a) (std_encode (wa_Content a))) (λ resp,
    textResult ("wrote " +:+ itoa (rp_Written resp) +:+ " bytes to " +:+ wa_Path a)).

Definition dir_line (e : DirEntry) : string :=
  (if de_IsDir e then "dir" else "file") +:+ tab +:+ de_Mode e +:+ tab +:+ itoa (de_Size e)
  +:+ tab +:+ de_Name e +:+ nl.

Definition toolListDir (a : pathArgs) : SM CallToolResult :=
  call_tool (pa_Agent a) (rpc_path OpListDir (pa_Path a)) (λ resp,
    match rp_Entries resp with
    | [] => textResult (pa_Path a +:+ " is empty")
    | entries => textResult (sconcat (dir_line <$> entries))
    end).

Definition toolReadClipboard (a : agentArgs) : SM CallToolResult :=
  call_tool (aa_Agent a) (rpc_op OpClipboardRead) (λ resp,
    match std_decode (rp_Content resp) with
    | None => errorResult "agent returned unreadable content: illegal base64 data"
    | Some text =>
        if len text =? 0 then textResult "The clipboard is empty."
        else if rp_Truncated resp
        then textResult (text +:+ nl +:+ "--- clipboard was truncated at the 1 MiB cap ---")
        else textResult text
    end).

Definition toolWriteClipboard (a : clipboardArgs) : SM CallToolResult :=
  call_tool (ca_Agent a) (rpc_send OpClipboardWrite "" (std_encode (ca_Text a))) (λ resp,
    textResult ("copied " +:+ itoa (rp_Written resp) +:+ " bytes to the clipboard of " +:+ ca_Agent a)).

Definition toolReadClipboardImage (a : agentArgs) : SM CallToolResult :=
  r ← attempt (agentRPC (aa_Agent a) (rpc_op OpClipboardReadImage));
  match r with
  | Err e => mret (errorResult (err_text e))
  | Ok resp =>
      if (rp_Error resp =? ClipboardNoImage)%string
      then mret (textResult ("There is no image on that machine's clipboard. "
                             +:+ "It may hold text instead — read_clipboard answers that."))
      else if negb (rp_Error resp =? "")%string then mret (errorResult (rp_Error resp))
      else match std_decode (rp_Content resp) with
           | None => mret (errorResult "agent returned unreadable image data: illegal base64 data")
           | Some raw =>
               if rp_Truncated resp
               then mret (errorResult "that image is over the 8 MiB limit and would arrive incomplete")
               else mret (mkCallToolResult false
                      [TextContent ("The clipboard of " +:+ aa_Agent a +:+ " holds this image ("
                                    +:+ itoa (len raw) +:+ " bytes):");
                       ImageContent raw "image/png"])
           end
  end.

Definition toolWriteClipboardImage (a : clipboardImageArgs) : SM CallToolResult :=
  match std_decode (TrimSpace (ci_Image a)) with
  | None => mret (errorResult "image must be base64: illegal base64 data")
  | Some raw =>
      if MaxClipboardImageBytes <? len raw
      then mret (errorResult ("that image is " +:+ itoa (len raw) +:+ " bytes, over the 8 MiB limit"))
      else call_tool (ci_Agent a) (rpc_send OpClipboardWriteImage "" (std_encode raw)) (λ resp,
             textResult ("placed a " +:+ itoa (rp_Written resp) +:+ " byte image on the clipboard of "
                         +:+ ci_Agent a))
  end.

(** ** The HTTP handlers *)

(** [body] is the result of reading the request body up to one byte over the
    limit. *)
Definition handleClipboardImage (r : Request) (body : res string) (now_event : Z) : SM Response :=
  let id := PathValue r "id" in
  match body with
  | Err _ => mret (writeJSON StatusBadRequest (json_error "could not read the image"))
  | Ok raw =>
      let raw := stake (MaxClipboardImageBytes + 1) raw in
      if len raw =? 0
      then mret (writeJSON StatusBadRequest (json_error "no image in the request"))
      else if MaxClipboardImageBytes <? len raw
      then mret (writeJSON StatusRequestEntityTooLarge (json_error "that image is over the 8 MiB limit"))
      else
        res ← attempt (agentRPC id (rpc_send OpClipboardWriteImage "" (std_encode raw)));
        match res with
        | Err e => mret (writeJSON StatusBadGateway (json_error (err_text e)))
        | Ok resp =>
            if negb (rp_Error resp =? "")%string
            then mret (writeJSON StatusConflict (json_error (rp_Error resp)))
            else
              publish now_event "clipboard" id "an image was placed on the clipboard";;
              mret (writeJSON StatusOK (JObj [("written", JNum (rp_Written resp))]))
        end
  end.

(** How a bridging handler ends: an HTTP answer, or a WebSocket joined to the
    stream (whose bytes so far are [sent]). *)
Inductive bridge_outcome :=
  | BAnswered (resp : Response)
  | BAcceptFailed
  | BBridged (sess : Z) (sent : string).

Definition stream_error_status (e : error) : Z :=
  if errors_Is e ErrAgentOffline then StatusNotFound else StatusBadGateway.

(** [accept] is the result of [websocket.Accept]; the pipe itself ends before
    [now_close]. *)
Definition handleShell (r : Request) (accept : res ()) (now_open now_close : Z) : SM bridge_outcome :=
  let id := PathValue r "id" in
  o ← attempt (openAgentStream id StreamPTY);
  match o with
  | Err e => mret (BAnswered (http_Error (err_text e) (stream_error_status e)))
  | Ok (sess, stream) =>
      match accept with
      | Err _ => mret BAcceptFailed
      | Ok _ =>
          publish now_open "shell" id ("terminal opened from " +:+ rq_remote r);;
          publish now_close "shell" id "terminal closed";;
          mret (BBridged sess (w_buf stream))
      end
  end.

Definition relay_handleForward (r : Request) (accept : res ()) (now_open now_close : Z)
    : SM bridge_outcome :=
  let id := PathValue r "id" in
  let service := PathValue r "service" in
  o ← attempt (openAgentStream id StreamForward);
  match o with
  | Err e => mret (BAnswered (http_Error (err_text e) (stream_error_status e)))
  | Ok (sess, stream) =>
      match WriteForwardTarget service stream with
      | (Err e, _) => mret (BAnswered (http_Error (err_text e) StatusBadRequest))
      | (Ok _, stream) =>
          match accept with
          | Err _ => mret BAcceptFailed
          | Ok _ =>
              publish now_open "forward" id (service +:+ " session opened from " +:+ rq_remote r);;
              publish now_close "forward" id (service +:+ " session closed");;
              mret (BBridged sess (w_buf stream))
          end
      end
  end.

(** The session answers every request for a stream. *)
Definition opens (sess : Z) : Prop := ∀ w, tn_OpenStream sess w = (Ok (mkWriter "" []), w).

Lemma openAgentStream_opens id kind sess (s : Server W) :
  Session id (sv_registry s) = Some sess → opens sess →
  openAgentStream id kind s = (Ok (sess, mkWriter (kind +:+ nl) []), s).
Proof.
  intros Hs Ho. unfold openAgentStream, mbind, M_bind, mget. rewrite Hs.
  unfold on_tunnel, zoom. rewrite Ho. cbn. by destruct s as [? ? ? [? ?] ? ? ?].
Qed.

(** A bridge the relay joins: what it has sent on the stream by then. *)
Lemma handleShell_bridges r sess t1 t2 (s : Server W) :
  Session (PathValue r "id") (sv_registry s) = Some sess → opens sess →
  ∃ s', handleShell r (Ok ()) t1 t2 s = (Ok (BBridged sess (StreamPTY +:+ nl)), s').
Proof.
  intros Hs Ho. unfold handleShell. unfold mbind at 1, M_bind at 1, attempt.
  rewrite (openAgentStream_opens _ _ _ _ Hs Ho). by eexists.
Qed.

Lemma relay_handleForward_bridges r sess t1 t2 (s : Server W) :
  Session (PathValue r "id") (sv_registry s) = Some sess → opens sess →
  ContainsAny (PathValue r "service") [13; 10]%N = false →
  ∃ s', relay_handleForward r (Ok ()) t1 t2 s
        = (Ok (BBridged sess ((StreamForward +:+ nl) +:+ PathValue r "service" +:+ nl)), s').
Proof.
  intros Hs Ho Hc. unfold relay_handleForward. unfold mbind at 1, M_bind at 1, attempt.
  rewrite (openAgentStream_opens _ _ _ _ Hs Ho). unfold WriteForwardTarget. rewrite Hc. by eexists.
Qed.
End tools.

(** ** Wire data as countable types, for concrete codecs *)
#[export] Instance RPCRequest_eq_dec : EqDecision RPCRequest.
Proof. solve_decision. Defined.
#[export] Instance RPCRequest_countable : Countable RPCRequest.
Proof.
  refine (inj_countable'
    (λ r, (rq_Op r, rq_Command r, rq_Dir r, rq_TimeoutSeconds r, rq_Path r, rq_Content r))
    (λ '(a, b, c, d, e, f), mkRPCRequest a b c d e f) _).
  by intros [].
Defined.
#[export] Instance DirEntry_eq_dec : EqDecision DirEntry.
Proof. solve_decision. Defined.
#[export] Instance DirEntry_countable : Countable DirEntry.
Proof.
  refine (inj_countable' (λ e, (de_Name e, de_IsDir e, de_Size e, de_Mode e, de_ModTime e))
                         (λ '(a, b, c, d, e), mkDirEntry a b c d e) _).
  by intros [].
Defined.
#[export] Instance RPCResponse_eq_dec : EqDecision RPCResponse.
Proof. solve_decision. Defined.
#[export] Instance RPCResponse_countable : Countable RPCResponse.
Proof.
  refine (inj_countable'
    (λ r, (rp_Error r, rp_Stdout r, rp_Stderr r, rp_ExitCode r, rp_Truncated r, rp_Content r,
           rp_Written r, rp_Entries r))
    (λ '(a, b, c, d, e, f, g, h), mkRPCResponse a b c d e f g h) _).
  by intros [].
Defined.
#[export] Instance toy_rpc_request_json : JSON RPCRequest := ToyJSON.toy_json RPCRequest.
#[export] Instance toy_rpc_request_laws : JSONLaws RPCRequest (λ _, True) := ToyJSON.toy_json_laws _.
#[export] Instance toy_rpc_response_json : JSON RPCResponse := ToyJSON.toy_json RPCResponse.
#[export] Instance toy_rpc_response_laws : JSONLaws RPCResponse (λ _, True) := ToyJSON.toy_json_laws _.
