(* ===== verification/Dashboard.v ===== *)
(** * The routes of the relay (server/http.go)

    The dashboard's own handlers, the table of routes, and the composition of
    everything the relay answers behind the operator gate. *)

From Stdlib Require Import Ascii.
From S2P Require Import Prelude GoStrings GoNum GoBase64 GoUtf8 Interfaces GoNet Wire Assertions.
From S2P Require Import Challenges Events Feed Registry Proxies Host ServerConfig VaultClient.
From S2P Require Import KVStore AgentKeys OperatorStore OperatorProofs ToyVault Auth AuthProofs.
From S2P Require Import Server Enroll EnrollProofs Mux AgentConn RelayTools.

Open Scope string_scope.
Open Scope list_scope.
Open Scope Z_scope.

(** ** What the handlers render *)
Definition SealState_string (s : SealState) : string :=
  match s with
  | SealUnsealed => "unsealed"
  | SealSealed => "sealed"
  | SealUnreachable => "unreachable"
  | SealAbsent => "not configured"
  end.

Definition omitempty (k v : string) : list (string * json) :=
  if (v =? "")%string then [] else [(k, JStr v)].

Record serverInfo := mkServerInfo {
  si_Version : string;
  si_UptimeNanos : Z;
  si_AgentsOnline : Z;
  si_AgentsKnown : Z;
  si_AuthEnabled : bool;
  si_Operator : string;
  si_Vault : string
}.

Definition serverInfo_json (i : serverInfo) : json :=
  JObj ([("version", JStr (si_Version i)); ("uptime_seconds", JSeconds (si_UptimeNanos i));
         ("agents_online", JNum (si_AgentsOnline i)); ("agents_known", JNum (si_AgentsKnown i));
         ("auth_enabled", JBool (si_AuthEnabled i))]
        ++ omitempty "operator" (si_Operator i) ++ [("vault", JStr (si_Vault i))]).

(** [nano] is [Time.Format(time.RFC3339Nano)], which is how a time marshals. *)
Definition AgentView_json (nano : Z → string) (v : AgentView) : json :=
  JObj ([("id", JStr (av_ID v)); ("hostname", JStr (av_Hostname v)); ("os", JStr (av_OS v));
         ("arch", JStr (av_Arch v)); ("version", JStr (av_Version v));
         ("remote_addr", JStr (av_RemoteAddr v)); ("online", JBool (av_Online v));
         ("since", JStr (nano (av_Since v))); ("since_seconds", JSeconds (av_SinceNanos v));
         ("reconnects", JNum (av_Reconnects v)); ("streams", JNum (av_Streams v));
         ("transport", JStr (av_Transport v))]
        ++ omitempty "transport_detail" (av_TransportDetail v)
        ++ [("bytes_in", JNum (av_BytesIn v)); ("bytes_out", JNum (av_BytesOut v));
            ("rtt_ms", match av_RTTNanos v with Some ns => JMillis ns | None => JNull end)]).

(** ** Routes *)
Inductive route :=
  | RConnect | RChallenge | REnroll
  | RServerInfo | RAgents | REvents | RPing | RKick | RShell | RForward | RClipboardImage
  | RMcp | RUi | RRoot | RHealth
  | RLogin | RLogout | RBootstrap | RChangePassword.

#[export] Instance route_eq_dec : EqDecision route.
Proof. solve_decision. Defined.

Definition any (segs : list seg) : pattern := mkPattern "" segs Exact.
Definition get (segs : list seg) : pattern := mkPattern "GET" segs Exact.
Definition post (segs : list seg) : pattern := mkPattern "POST" segs Exact.

Definition route_table : list (pattern * route) :=
  [(any [Lit "agent"; Lit "connect"], RConnect);
   (get [Lit "agent"; Lit "challenge"], RChallenge);
   (post [Lit "api"; Lit "agents"; Lit "enroll"], REnroll);
   (get [Lit "api"; Lit "server"], RServerInfo);
   (get [Lit "api"; Lit "agents"], RAgents);
   (get [Lit "api"; Lit "events"], REvents);
   (post [Lit "api"; Lit "agents"; Wild "id"; Lit "ping"], RPing);
   (post [Lit "api"; Lit "agents"; Wild "id"; Lit "kick"], RKick);
   (get [Lit "api"; Lit "agents"; Wild "id"; Lit "shell"], RShell);
   (get [Lit "api"; Lit "agents"; Wild "id"; Lit "forward"; Wild "service"], RForward);
   (post [Lit "api"; Lit "agents"; Wild "id"; Lit "clipboard"; Lit "image"], RClipboardImage);
   (any [Lit "mcp"], RMcp);
   (mkPattern "GET" [Lit "ui"] Subtree, RUi);
   (get [Lit ""], RRoot);
   (get [Lit "healthz"], RHealth);
   (post [Lit "api"; Lit "login"], RLogin);
   (post [Lit "api"; Lit "logout"], RLogout);
   (post [Lit "api"; Lit "bootstrap"], RBootstrap);
   (post [Lit "api"; Lit "operator"; Lit "password"], RChangePassword)].

(** The routes [auth.open] means to leave outside the gate. *)
Definition public_route (r : route) : bool :=
  bool_decide (r ∈ [RConnect; RChallenge; REnroll; RHealth; RLogin; RLogout; RBootstrap]).

(** The route constants are the paths of the contract. *)
Example route_paths :
  unsegments ["agent"; "connect"] = ConnectPath ∧ unsegments ["agent"; "challenge"] = ChallengePath ∧
  unsegments ["api"; "agents"; "enroll"] = EnrollPath.
Proof. done. Qed.

(** What the world supplies to a request besides its bytes: clock readings in
    order, randomness, and the outcomes of the calls that take the connection
    over or wait on it. *)
Record Inputs := mkInputs {
  in_now : nat → Z;
  in_rnd : res string;
  in_salt : res string;
  in_hijack : Hijack;
  in_accept : res ();
  in_body : res string;
  in_echo : Z → res Z;                     (* echoTest on a session *)
  in_wakes : list wake;
  in_flushes : list (res ());
  in_writer : Writer
}.

(** How a request ends. *)
Inductive answer :=
  | AResponse (resp : Response)
  | AConnect (o : connect_outcome)
  | AKick (closed : Z) (resp : Response)   (* the session handed to Close *)
  | ABridge (o : bridge_outcome)
  | AFeed (header : list (string * string)) (w : Writer)
  | AUi (file : string)                    (* an embedded file, below ui/ *)
  | AMcp.                                  (* left to the MCP library *)

Definition sse_header : list (string * string) :=
  [("Content-Type", "text/event-stream"); ("Cache-Control", "no-cache");
   ("Connection", "keep-alive"); ("X-Accel-Buffering", "no")].

(** The status [http.ServeMux] redirects with, which depends on the release. *)
Class MuxRedirectStatus := mux_redirect_status : Z.
Definition StatusMethodNotAllowed := 405.

Section dashboard.
  Context {W : Type} `{FileSystem W} `{VaultHTTP W} `{VaultJSON} `{Argon2} `{HMAC} `{Ed25519}
    `{JSON Assertion} `{JSON (option key_map)} `{JSON enrollRequest} `{JSON operator} `{JSON Event}
    `{Tunnel W} `{JSON RPCRequest} `{JSON RPCResponse} `{MuxRedirectStatus}
    (format nano ms : Z → string) (version : string)
    (range : Registry → list (string * agentRec)) (streams : Z → Z) (conns : Z → CountingConn).

Notation SM := (M (Server W)).

Definition operatorName (s : Server W) : string :=
  match au_ops (sv_auth s) ≫= current with Some rec => op_Username rec | None => "" end.

(** [now] dates the uptime; [t1] and [t2] are read by the seal cache. *)
Definition handleServerInfo (now t1 t2 : Z) : SM Response := λ s,
  let '(online, total) := Counts (sv_registry s) in
  let '((seal, cache), vw) := SealStatus t1 t2 (sv_seal s) (sv_vault s) in
  (Ok (writeJSON StatusOK (serverInfo_json
         (mkServerInfo version (now - sv_startedAt s) online total (enabled (sv_auth s))
            (operatorName s) (SealState_string seal)))),
   set_seal cache (set_vault vw s)).

Definition handleAgents (now : Z) : SM Response :=
  s ← mget;
  mret (writeJSON StatusOK (JArr (AgentView_json nano <$> Snapshot streams conns now (range (sv_registry s))))).

Definition handleHealth : SM Response :=
  s ← mget;
  let '(online, total) := Counts (sv_registry s) in
  mret (writeJSON StatusOK
          (JObj [("status", JStr "ok"); ("agents_online", JNum online); ("agents_known", JNum total)])).

(** [echo] is [echoTest] on the session. *)
Definition handleAgentPing (r : Request) (echo : Z → res Z) (now : Z) : SM Response :=
  let id := PathValue r "id" in
  s ← mget;
  match Session id (sv_registry s) with
  | None => mret (writeJSON StatusNotFound (json_error "agent not connected"))
  | Some sess =>
      match echo sess with
      | Err e =>
          publish now "ping" id ("echo test failed: " +:+ err_text e);;
          mret (writeJSON StatusBadGateway (json_error (err_text e)))
      | Ok rtt =>
          publish now "ping" id ("echo round-trip " +:+ ms rtt +:+ " ms");;
          mret (writeJSON StatusOK (JObj [("rtt_ms", JMillis rtt)]))
      end
  end.

Definition handleAgentKick (r : Request) (now : Z) : SM answer :=
  let id := PathValue r "id" in
  s ← mget;
  match Session id (sv_registry s) with
  | None => mret (AResponse (writeJSON StatusNotFound (json_error "agent not connected")))
  | Some sess =>
      publish now "kick" id "session closed from dashboard";;
      mret (AKick sess (writeJSON StatusOK (JObj [("status", JStr "closed")])))
  end.

Definition feed (i : Inputs) : SM answer := λ s,
  let '(w, b) := handleEvents (in_wakes i) (in_flushes i) (in_writer i) (sv_events s) in
  (Ok (AFeed sse_header w), set_events b s).

Definition respond (m : SM Response) : SM answer := resp ← m; mret (AResponse resp).

(** The handler of each route. *)
Definition serve (rt : route) (i : Inputs) (r : Request) : SM answer :=
  let t := in_now i in
  match rt with
  | RConnect => o ← handleAgentConnect format r (in_hijack i) (t 0%nat) (t 1%nat) (t 2%nat); mret (AConnect o)
  | RChallenge => respond (handleAgentChallenge r (in_rnd i) (t 0%nat) (t 1%nat))
  | REnroll => respond (handleEnroll format r (t 0%nat) (t 1%nat) (t 2%nat))
  | RServerInfo => respond (handleServerInfo (t 0%nat) (t 1%nat) (t 2%nat))
  | RAgents => respond (handleAgents (t 0%nat))
  | REvents => feed i
  | RPing => respond (handleAgentPing r (in_echo i) (t 0%nat))
  | RKick => handleAgentKick r (t 0%nat)
  | RShell => o ← handleShell r (in_accept i) (t 0%nat) (t 1%nat); mret (ABridge o)
  | RForward => o ← relay_handleForward r (in_accept i) (t 0%nat) (t 1%nat); mret (ABridge o)
  | RClipboardImage => respond (handleClipboardImage r (in_body i) (t 0%nat))
  | RMcp => mret AMcp
  | RUi => mret (AUi (TrimPrefix (rq_path r) "/ui/"))
  | RRoot => mret (AResponse (http_Redirect "/ui/" StatusFound))
  | RHealth => respond handleHealth
  | RLogin => s ← mget; respond (mlift (handleLogin (sv_auth s) r (t 0%nat) (t 1%nat)))
  | RLogout => s ← mget; mret (AResponse (handleLogout (sv_auth s) r))
  | RBootstrap => respond (on_auth (handleBootstrap r (in_salt i) (in_rnd i) (t 0%nat) (t 1%nat) (t 2%nat)))
  | RChangePassword =>
      respond (on_auth (handleChangePassword r (in_salt i) (in_rnd i) (t 0%nat) (t 1%nat) (t 2%nat)))
  end.

(** The request a handler sees carries the values of the wildcards. *)
Definition with_params (params : list (string * string)) (r : Request) : Request :=
  mkRequest (rq_path r) (rq_header r) (rq_remote r) (rq_tls r) (rq_cookies r) (rq_form r)
            (list_to_map params) (rq_body r).

Definition mux (method raw : string) (i : Inputs) (r : Request) : SM answer :=
  match ServeMux route_table method raw with
  | MuxFound rt params => serve rt i (with_params params r)
  | MuxRedirect path => mret (AResponse (http_Redirect path mux_redirect_status))
  | MuxNotAllowed allow =>
      mret (AResponse (with_header "Allow" (Join allow ", ")
                         (http_Error "Method Not Allowed" StatusMethodNotAllowed)))
  | MuxNotFound => mret (AResponse (http_Error "404 page not found" StatusNotFound))
  end.

(** [routes]: the whole relay.  [now] is read by the gate. *)
Definition routes (method raw : string) (i : Inputs) (now : Z) (r : Request) : SM answer :=
  protect AResponse sv_auth (mux method raw i) now r.
End dashboard.

(** ** Routing is unambiguous *)

Lemma table_disjoint : pairwise (λ p q, disjoint_entries p.1 q.1) route_table = true.
Proof. vm_compute. reflexivity. Qed.

(** No request is claimed by two entries of the table, so the order in which
    they were registered decides nothing. *)
Theorem routes_unambiguous method ss p rt p' rt' :
  (p, rt) ∈ route_table → (p', rt') ∈ route_table →
  match_method (pt_method p) method = true → match_method (pt_method p') method = true →
  instance_of (pt_segs p) (pt_shape p) ss → instance_of (pt_segs p') (pt_shape p') ss →
  p = p' ∧ rt = rt'.
Proof.
  intros Hp Hp' Hm Hm' Hi Hi'.
  destruct (pairwise_elem (λ p q, disjoint_entries p.1 q.1) route_table (p, rt) (p', rt')) as [[= -> ->]|Hd];
    [intros; apply disjoint_entries_sym|apply table_disjoint|done|done|done|].
  unfold disjoint_entries in Hd. cbn [fst] in Hd.
  by rewrite (may_share_sound _ _ method), (may_overlap_sound _ _ _ _ ss) in Hd.
Qed.

Lemma routes_unambiguous_witness :
  get [Lit "healthz"] = get [Lit "healthz"] ∧ RHealth = RHealth.
Proof.
  apply (routes_unambiguous "HEAD" ["healthz"] (get [Lit "healthz"]) RHealth (get [Lit "healthz"]) RHealth);
    try reflexivity; by repeat constructor.
Defined.

(** ** The gate and the mux read the same path *)

Lemma open_spec path :
  open path = true → path ∈ [ConnectPath; ChallengePath; EnrollPath; "/healthz"; "/api/login";
                             "/api/logout"; "/api/bootstrap"].
Proof.
  unfold open. intros (p & Hin & He)%existsb_exists. apply list_elem_of_In in Hin.
  by apply String.eqb_eq in He as ->.
Qed.

Ltac invert_instance :=
  repeat match goal with H : instance_of _ _ _ |- _ => inversion H; clear H; subst end.
Lemma no_slash_tail a b c : no_char 47 c = true → a +:+ "/" +:+ b ≠ c.
Proof.
  intros Hc Heq. apply (f_equal (no_char 47)) in Heq. rewrite Hc in Heq. unfold no_char in Heq.
  rewrite schars_app in Heq. cbn in Heq. by rewrite andb_false_r in Heq.
Qed.

(** "/api/agents/{id}/..." against the one open path that starts like it. *)
Lemma enroll_tail x :
  "/" +:+ "api" +:+ "/" +:+ "agents" +:+ "/" +:+ x = EnrollPath → x = "enroll".
Proof. intros H. by injection H. Qed.

Ltac absurd_eq H :=
  first [ discriminate H | apply enroll_tail in H; by apply no_slash_tail in H ].
Ltac absurd_path H :=
  unfold unsegments in H; cbn [Join] in H;
  repeat (apply elem_of_cons in H as [H|H]; [absurd_eq H|]); by apply elem_of_nil in H.

(** A path that [auth.open] lets through is never dispatched to a guarded
    handler, however the request escapes it. *)
Lemma open_path_public method raw path rt params :
  HasPrefix raw "/" = true → PathUnescape raw = Some path → open path = true →
  ServeMux route_table method raw = MuxFound rt params → public_route rt = true.
Proof.
  intros Hpre Hun Hopen Hfound. pose proof (PathUnescape_segments raw path Hpre Hun) as Hpath.
  unfold ServeMux in Hfound.
  set (path' := if (method =? "CONNECT")%string then raw else cleanPath raw) in *.
  destruct (_ && _); [done|]. destruct (path' =? raw)%string eqn:Ep; [|done].
  apply String.eqb_eq in Ep. rewrite Ep in Hfound. cbn [negb] in Hfound.
  destruct (lookup route_table method _) as [[[p rt'] params']|] eqn:El;
    [|by destruct (allowed _ _)].
  injection Hfound as -> ->. apply lookup_Some in El as (Hin & _ & Hm).
  assert (instance_of (pt_segs p) (pt_shape p) (path_segment <$> segments raw)) as Hi
    by (apply match_segs_spec; by eexists).
  remember (path_segment <$> segments raw) as ss. clear Heqss Hm.
  apply open_spec in Hopen. rewrite Hpath in Hopen. clear -Hin Hi Hopen.
  unfold route_table in Hin.
  repeat (apply elem_of_cons in Hin as [[= -> ->]|Hin]); [..|by apply elem_of_nil in Hin];
    first [reflexivity|exfalso; cbn in Hi; invert_instance; absurd_path Hopen].
Qed.

(** ** The gate *)
Section gate.
  Context {W : Type} `{FileSystem W} `{VaultHTTP W} `{VaultJSON} `{Argon2} `{HMAC} `{Ed25519}
    `{JSON Assertion} `{JSON (option key_map)} `{JSON enrollRequest} `{JSON operator} `{JSON Event}
    `{Tunnel W} `{JSON RPCRequest} `{JSON RPCResponse} `{MuxRedirectStatus}
    (format nano ms : Z → string) (version : string)
    (range : Registry → list (string * agentRec)) (streams : Z → Z) (conns : Z → CountingConn).

Notation Routes := (routes (W := W) format nano ms version range streams conns).
Notation Serve := (serve (W := W) format nano ms version range streams conns).

Definition refusals : list Z := [StatusUnauthorized; mux_redirect_status; StatusMethodNotAllowed; StatusNotFound].

(** C6: Once the relay has any credential, a request that carries neither the
    admin token nor a valid session runs no handler but one of the seven public
    ones, and only under its own path; otherwise it is turned away and the
    relay -- agents, feed, accounts, challenges, Vault -- is as it was. *)
Theorem guarded_routes_need_credentials method raw i now r (s s' : Server W) out :
  HasPrefix raw "/" = true → PathUnescape raw = Some (rq_path r) →
  enabled (sv_auth s) = true → ¬ bears_token (sv_auth s) r → ¬ bears_session (sv_auth s) now r →
  Routes method raw i now r s = (out, s') →
  (∃ resp, out = Ok (AResponse resp) ∧ rs_status resp ∈ refusals ∧ rs_cookies resp = [] ∧ s' = s) ∨
  (∃ rt params, ServeMux route_table method raw = MuxFound rt params ∧ public_route rt = true ∧
     open (rq_path r) = true ∧ Serve rt i (with_params params r) s = (out, s')).
Proof.
  intros Hpre Hun Hen Hnt Hns Hrun. unfold routes in Hrun.
  destruct (gate_decision AResponse sv_auth (mux (W := W) format nano ms version range streams conns method raw i)
              now r s) as [[Hin Heq]|[_ (resp & Heq & Hst & Hck)]]; rewrite Heq in Hrun.
  2: { injection Hrun as <- <-. left. exists resp. split_and!; [done| |done..]. rewrite Hst. constructor. }
  assert (open (rq_path r) = true) as Hopen by (destruct Hin as [|[|[|]]]; congruence || done).
  unfold mux in Hrun. destruct (ServeMux route_table method raw) as [rt params|path|allow|] eqn:Em.
  - right. exists rt, params. split_and!; [done| |done..]. by eapply open_path_public.
  - injection Hrun as <- <-. left. eexists. split_and!; [done|cbn; repeat constructor|done..].
  - injection Hrun as <- <-. left. eexists. split_and!; [done|cbn; repeat constructor|done..].
  - injection Hrun as <- <-. left. eexists. split_and!; [done|cbn; repeat constructor|done..].
Qed.
End gate.

(** ** The dashboard's view of Vault *)
Section info.
  Context {W : Type} `{FileSystem W} `{VaultHTTP W} `{VaultJSON} (version : string).

Notation Info := (handleServerInfo (W := W) version).

Lemma SealStatus_fresh t1 t2 st at_ (vw : vault * W) :
  configured (fst vw) = true → t1 - at_ < sealStatusTTL →
  SealStatus t1 t2 (mkSealCache (Some st) at_) vw = ((st, mkSealCache (Some st) at_), vw).
Proof. intros Hc Hf. unfold SealStatus. rewrite Hc. cbn. by rewrite (proj2 (Z.ltb_lt _ _)). Qed.

(** What one answer leaves behind: the cache holds the state that was shown,
    and, when it was asked for now, the time it was stored. *)
Lemma SealStatus_cached t1 t2 c (vw vw' : vault * W) st c' :
  SealStatus t1 t2 c vw = ((st, c'), vw') → configured (fst vw) = true →
  sc_state c' = Some st ∧ (c' = c ∧ vw' = vw ∨ sc_at c' = t2).
Proof.
  unfold SealStatus. intros Hs Hc. rewrite Hc in Hs. cbn [negb] in Hs.
  assert (ask_seal t2 vw = ((st, c'), vw') → sc_state c' = Some st ∧ sc_at c' = t2) as Hask.
  { unfold ask_seal. match goal with |- (let '(_, _) := ?x in _) = _ → _ => destruct x as [r s] end.
    intros [= <- <- _]. done. }
  destruct (sc_state c) as [st'|] eqn:Ec; [|naive_solver].
  destruct (t1 - sc_at c <? sealStatusTTL); [|naive_solver].
  injection Hs as -> -> <-. naive_solver.
Qed.

Definition shown_vault (resp : Response) : option string :=
  match rs_body resp with
  | BJson (JObj fields) => match last fields with Some (_, JStr v) => Some v | _ => None end
  | _ => None
  end.

Lemma shown_vault_info i status : shown_vault (writeJSON status (serverInfo_json i)) = Some (si_Vault i).
Proof. unfold serverInfo_json, omitempty. by destruct (_ =? _)%string. Qed.

(** The dashboard polls; Vault is not polled with it.  After one answer, every
    answer in the next [sealStatusTTL] shows the same seal state and changes
    nothing: no request goes to Vault. *)
Theorem info_spares_vault now t1 t2 (s s1 : Server W) resp now' t1' t2' :
  Info now t1 t2 s = (Ok resp, s1) →
  configured (fst (sv_vault s)) = true → configured (fst (sv_vault s1)) = true →
  t1' - sc_at (sv_seal s1) < sealStatusTTL →
  ∃ resp', Info now' t1' t2' s1 = (Ok resp', s1) ∧ shown_vault resp' = shown_vault resp.
Proof.
  unfold handleServerInfo. destruct (Counts (sv_registry s)) as [on tot].
  destruct (SealStatus t1 t2 _ _) as [[st c] vw] eqn:Es. intros [= <- <-] Hc Hc1 Hf.
  destruct (SealStatus_cached _ _ _ _ _ _ _ Es Hc) as [Hst _].
  cbn [sv_registry sv_seal sv_vault set_seal set_vault] in *.
  destruct (Counts (sv_registry s)) as [on' tot']. destruct c as [st' at_]. cbn in Hst, Hf. subst st'.
  rewrite SealStatus_fresh by done. eexists. split; [by destruct s|]. by rewrite !shown_vault_info.
Qed.
End info.

(** ** Witnesses *)
Section witnesses.
  Local Existing Instances ToyCrypto.toy_hmac ToyCrypto.toy_argon2.
#[local] Instance toy_event_json : JSON Event := ToyJSON.toy_json Event.
#[local] Instance toy_redirect : MuxRedirectStatus := 307.
#[local] Instance no_tunnel : Tunnel World := {|
    tn_OpenStream _ := mthrow (errorf "session shutdown");
    tn_SetDeadline := Ok ();
    tn_Reply _ _ := mthrow (errorf "session shutdown")
  |}.

Definition toy_inputs : Inputs :=
  mkInputs (λ _, 100) (Ok "rnd") (Ok "salt") toy_hijack (Ok ()) (Ok "") (λ _, Ok 3) [] [] (mkWriter "" []).
Definition toy_kick : Request :=
  mkRequest "/api/agents/lab-1/kick" ∅ "10.0.0.9:1" None [("beacon_session", "99999.forged")] ∅ ∅ "".

#[local] Notation toy_serve rt r :=
  (serve (W := World) toy_format toy_format toy_format "v1" map_to_list (λ _, 0)
     (λ _, mkCountingConn 0 0) rt toy_inputs r).
#[local] Notation toy_routes :=
  (routes (W := World) toy_format toy_format toy_format "v1" map_to_list (λ _, 0)
     (λ _, mkCountingConn 0 0) "POST" "/api/agents/lab-1/%6bick" toy_inputs 100 toy_kick).

Definition toy_fleet_server : Server World := set_registry sample_fleet toy_server.

Lemma guarded_routes_need_credentials_witness :
  let '(out, s') := toy_routes toy_fleet_server in
  (∃ resp, out = Ok (AResponse resp) ∧ rs_status resp ∈ refusals ∧ rs_cookies resp = [] ∧
           s' = toy_fleet_server) ∨
  (∃ rt params, ServeMux route_table "POST" "/api/agents/lab-1/%6bick" = MuxFound rt params ∧
     public_route rt = true ∧ open (rq_path toy_kick) = true ∧
     toy_serve rt (with_params params toy_kick) toy_fleet_server = (out, s')).
Proof.
  destruct (toy_routes toy_fleet_server) as [out s'] eqn:E.
  refine (guarded_routes_need_credentials toy_format toy_format toy_format "v1" map_to_list
    (λ _, 0) (λ _, mkCountingConn 0 0) "POST" "/api/agents/lab-1/%6bick" toy_inputs 100 toy_kick
    toy_fleet_server s' out _ _ _ _ _ E).
  - reflexivity.
  - reflexivity.
  - reflexivity.
  - intros [_ Hb]. vm_compute in Hb. discriminate Hb.
  - intros (exp & unix & Hc & Hp & Hn). vm_compute in Hc.
    assert (authenticated (sv_auth toy_fleet_server) 100 toy_kick = true) as Ha
      by (apply authenticated_spec; right; exists exp, unix; auto).
    vm_compute in Ha. discriminate Ha.
Defined.

Lemma info_spares_vault_witness :
  let s1 := snd (handleServerInfo (W := World) "v1" 10 10 11 toy_server) in
  ∃ resp', handleServerInfo "v1" 20 20 21 s1 = (Ok resp', s1) ∧ shown_vault resp' = Some "unsealed".
Proof.
  intros s1.
  destruct (info_spares_vault (W := World) "v1" 10 10 11 toy_server s1
    (match fst (handleServerInfo (W := World) "v1" 10 10 11 toy_server) with Ok r => r | Err _ => http_Error "" 0 end)
    20 20 21) as (resp' & Hr & Hv).
  - apply run_result. vm_compute. reflexivity.
  - reflexivity.
  - vm_compute. reflexivity.
  - vm_compute. reflexivity.
  - exists resp'. split; [exact Hr|]. rewrite Hv. vm_compute. reflexivity.
Defined.
End witnesses.
