(* ===== verification/SignIn.v ===== *)
(** * The sign-in page (server/auth.go: serveSignIn, pageShell, loginFields,
    bootstrapFields, warnIfOpen)

    The page as it is sent, byte for byte, what a browser makes of the message on
    it, and the form on it as the way into the relay. *)

From Stdlib Require Import Ascii.
From S2P Require Import Prelude GoStrings GoNum GoBase64 GoUtf8 Interfaces GoNet Wire Assertions.
From S2P Require Import Challenges Events Feed Registry Proxies Host ServerConfig VaultClient.
From S2P Require Import VaultProofs KVStore AgentKeys OperatorStore OperatorProofs ToyVault Auth AuthProofs.
From S2P Require Import Server Enroll EnrollProofs Mux AgentConn RelayTools Dashboard.

Open Scope string_scope.
Open Scope list_scope.
Open Scope Z_scope.

(** The constants are written here with an apostrophe for each double quote; the
    originals have no apostrophe. *)
Fixpoint quotes (s : string) : string :=
  match s with
  | EmptyString => ""
  | String c s => String (if is_char 39 c then byte 34 else c) (quotes s)
  end.

Definition pageShell : string := quotes
"<!doctype html>
<meta charset='utf-8'>
<meta name='viewport' content='width=device-width,initial-scale=1'>
<title>beacon</title>
<style>
 :root {
   --bg: #0e1116; --panel: #161b22; --line: #262d36;
   --fg: #d7dee7; --muted: #8b96a3; --accent: #58a6ff; --down: #f85149;
 }
 * { box-sizing: border-box; }
 body {
   margin: 0; min-height: 100vh;
   display: grid;
   /* place-content, not place-items: the latter centres each child on its own
      row and leaves the group stretched down the page. */
   place-content: center;
   gap: 1rem;
   padding: 2rem 1rem;
   background: var(--bg); color: var(--fg);
   font: 14px/1.5 ui-monospace, SFMono-Regular, Menlo, Consolas, monospace;
 }
 h1 { margin: 0; font-size: 1rem; letter-spacing: .12em; text-transform: uppercase; }
 form { display: grid; gap: .7rem; width: min(20rem, 100%%); }
 input {
   font: inherit; padding: .55rem .65rem; color: var(--fg);
   background: var(--panel); border: 1px solid var(--line); border-radius: 5px;
 }
 input:focus { outline: 0; border-color: var(--accent); }
 button {
   font: inherit; font-weight: 600; padding: .55rem; border: 0; border-radius: 5px;
   background: var(--accent); color: #06121f; cursor: pointer;
 }
 p.hint { margin: 0; font-size: .8rem; color: var(--muted); }
 .note { margin: 0; font-size: .85rem; color: var(--down); }
 details { font-size: .82rem; color: var(--muted); width: min(20rem, 100%%); }
 summary { cursor: pointer; padding: .2rem 0; }
 details form { margin-top: .6rem; }
</style>
<h1>%s</h1>
%s
%s
".

Definition loginFields : string := quotes
"<form method='post' action='/api/login'>
  <input name='username' placeholder='Username' autofocus autocomplete='username'>
  <input type='password' name='password' placeholder='Password'
         autocomplete='current-password'>
  <button type='submit'>Sign in</button>
</form>
<details>
  <summary>Lost the password?</summary>
  <form method='post' action='/api/login'>
    <p class='hint'>Sign in with the admin token from the relay host, then
       change the password.</p>
    <input type='password' name='token' placeholder='Admin token'>
    <button type='submit'>Sign in with token</button>
  </form>
</details>
".

Definition bootstrapFields : string := quotes
"<form method='post' action='/api/bootstrap'>
  <p class='hint'>No operator account exists yet. Authorise with the admin token
     from the relay host, then choose the credentials you will use from now on.</p>
  <input type='password' name='token' placeholder='Admin token' autofocus>
  <input name='username' placeholder='Choose a username' autocomplete='username'>
  <input type='password' name='password' placeholder='Choose a password (12+ recommended)'
         autocomplete='new-password'>
  <input type='password' name='password_confirm' placeholder='Repeat the password'
         autocomplete='new-password'>
  <button type='submit'>Create account</button>
</form>
".

(** [fmt.Sprintf] with the two verbs the page uses; with too few arguments the
    library says so in the text. *)
Fixpoint Sprintf (f : string) (args : list string) : string :=
  match f with
  | EmptyString => ""
  | String c f' =>
      if is_char 37 c then
        match f' with
        | String d f'' =>
            if is_char 37 d then String c (Sprintf f'' args)
            else if is_char 115 d then
              match args with
              | a :: args => a +:+ Sprintf f'' args
              | [] => "%!s(MISSING)" +:+ Sprintf f'' []
              end
            else String c (String d (Sprintf f'' args))
        | EmptyString => "%!(NOVERB)"
        end
      else String c (Sprintf f' args)
  end.

(** The fields behind the name [Auth.serveSignIn] gives them. *)
Definition form_fields (name : string) : string :=
  if (name =? "bootstrapFields")%string then bootstrapFields else loginFields.

(** The body of a response as the browser reads it. *)
Definition body_text (b : body) : option string :=
  match b with
  | BForm title note fields => Some (Sprintf pageShell [title; note; form_fields fields])
  | BText s => Some s
  | BEmpty => Some ""
  | BJson _ => None
  end.

(** The warning a relay without a credential starts with. *)
Definition warnIfOpen (a : auth) : option string :=
  if enabled a then None
  else Some ("BEACON_ADMIN_TOKEN is not set: the dashboard, the API and the MCP "
             +:+ "endpoint are open to anyone who can reach this relay, and all three grant "
             +:+ "command execution on every connected machine").

(** ** The page around its arguments *)

(** A format cut at its arguments, its percent signs undone. *)
Definition onto (c : ascii) (ps : list string) : list string :=
  match ps with p :: ps => String c p :: ps | [] => [String c ""] end.

Fixpoint pieces (f : string) : list string :=
  match f with
  | EmptyString => [""]
  | String c f' =>
      if is_char 37 c then
        match f' with
        | String d f'' => if is_char 37 d then onto c (pieces f'') else "" :: pieces f''
        | EmptyString => [""]
        end
      else onto c (pieces f')
  end.

(** Only the two verbs, and none cut off. *)
Fixpoint plain_format (f : string) : bool :=
  match f with
  | EmptyString => true
  | String c f' =>
      if is_char 37 c then
        match f' with
        | String d f'' => (is_char 37 d || is_char 115 d) && plain_format f''
        | EmptyString => false
        end
      else plain_format f'
  end.

Fixpoint weave (ps args : list string) : string :=
  match ps, args with
  | [p], _ => p
  | p :: ps, a :: args => p +:+ a +:+ weave ps args
  | p :: ps, [] => p +:+ weave ps []
  | [], _ => ""
  end.

Lemma pieces_nonempty f : pieces f ≠ [].
Proof. destruct f as [|c [|d f]]; cbn; repeat case_match; try done; unfold onto; by case_match. Qed.

Lemma weave_onto c ps args : ps ≠ [] → weave (onto c ps) args = String c (weave ps args).
Proof. destruct ps as [|p [|q ps]]; [done..|]. intros _. destruct args; cbn; by rewrite sapp_cons. Qed.

Lemma Sprintf_weave f args :
  plain_format f = true → (length (pieces f) ≤ S (length args))%nat → Sprintf f args = weave (pieces f) args.
Proof.
  revert args. induction f as [f IH] using string_len_ind. intros args Hp Hl.
  destruct f as [|c f]; [done|]. cbn [Sprintf pieces plain_format] in *.
  assert (∀ ps x, (length (onto x ps) ≤ S (length args))%nat → (length ps ≤ S (length args))%nat) as Honto.
  { intros [|p ps] x; cbn; lia. }
  destruct (is_char 37 c).
  - destruct f as [|d f]; [done|]. apply andb_prop in Hp as [Hd Hp].
    destruct (is_char 37 d); cbn [orb] in Hd.
    + rewrite weave_onto by apply pieces_nonempty. rewrite IH; [done|rewrite !len_cons; lia|done|by eapply Honto].
    + rewrite Hd. pose proof (pieces_nonempty f) as Hne. destruct args as [|a args].
      { destruct (pieces f); [done|cbn in Hl; lia]. }
      rewrite (IH f) by (done || (rewrite !len_cons; lia) || (cbn in Hl; lia)).
      cbn [weave]. destruct (pieces f); [done|]. by rewrite sapp_nil_l.
  - rewrite weave_onto by apply pieces_nonempty. rewrite IH; [done|rewrite len_cons; lia|done|by eapply Honto].
Qed.

(** The page is its title, its note and its form in four fixed pieces. *)
Lemma page_pieces title note fields :
  Sprintf pageShell [title; note; fields]
  = match pieces pageShell with
    | [p0; p1; p2; p3] => p0 +:+ title +:+ p1 +:+ note +:+ p2 +:+ fields +:+ p3
    | _ => ""
    end.
Proof.
  rewrite Sprintf_weave; [|vm_compute; reflexivity|vm_compute; lia].
  destruct (pieces pageShell) as [|p0 [|p1 [|p2 [|p3 [|p4 ps]]]]] eqn:E;
    try (apply (f_equal length) in E; vm_compute in E; discriminate E). done.
Qed.

(** ** The message on it *)

(** The characters markup is made of. *)
Definition markup_char (c : ascii) : bool := is_char 60 c || is_char 62 c || is_char 34 c || is_char 39 c.
Fixpoint markup (s : string) : string :=
  match s with
  | EmptyString => ""
  | String c s => if markup_char c then String c (markup s) else markup s
  end.

Lemma markup_app a b : markup (a +:+ b) = markup a +:+ markup b.
Proof.
  induction a as [|c a IH]; [by rewrite !sapp_nil_l|]. rewrite sapp_cons. cbn [markup].
  destruct (markup_char c); [rewrite sapp_cons; by f_equal|done].
Qed.

Lemma markup_escaped m : markup (EscapeString m) = "".
Proof.
  induction m as [|c m IH]; [done|]. cbn [EscapeString]. rewrite markup_app, IH, sapp_nil_r.
  destruct (is_char 38 c) eqn:E38; [done|]. destruct (is_char 39 c) eqn:E39; [done|].
  destruct (is_char 60 c) eqn:E60; [done|]. destruct (is_char 62 c) eqn:E62; [done|].
  destruct (is_char 34 c) eqn:E34; [done|]. cbn [markup]. unfold markup_char. by rewrite E60, E62, E34, E39.
Qed.

(** How a browser reads text: the entities for the five characters. *)
Definition entities : list (string * N) := [("&amp;", 38); ("&#39;", 39); ("&lt;", 60); ("&gt;", 62); ("&#34;", 34)]%N.
Definition entity (s : string) : option (string * N) := find (λ e, HasPrefix s e.1) entities.

Fixpoint html_text (skip : nat) (s : string) : string :=
  match s with
  | EmptyString => ""
  | String c s' =>
      match skip with
      | S skip => html_text skip s'
      | O => match entity s with
             | Some (e, n) => String (byte n) (html_text (String.length e - 1) s')
             | None => String c (html_text 0 s')
             end
      end
  end.

Lemma entity_None c s : is_char 38 c = false → entity (String c s) = None.
Proof.
  intros Hc. unfold entity, entities. assert (byte 38 ≠ c) as Hne by (intros <-; done).
  assert (∀ t, HasPrefix (String c s) (String (byte 38) t) = false) as Hp.
  { intros t. cbn [HasPrefix]. by destruct (Ascii.eqb_spec (byte 38) c). }
  cbn [find fst]. change "&amp;" with (String (byte 38) "amp;"). change "&#39;" with (String (byte 38) "#39;").
  change "&lt;" with (String (byte 38) "lt;"). change "&gt;" with (String (byte 38) "gt;").
  change "&#34;" with (String (byte 38) "#34;"). by rewrite !Hp.
Qed.

Lemma html_text_escaped m : html_text 0 (EscapeString m) = m.
Proof.
  induction m as [|c m IH]; [done|]. cbn [EscapeString].
  assert (∀ e n, In (e, n) entities → is_char n c = true → html_text 0 (e +:+ EscapeString m) = String c m) as Hent.
  { intros e n Hin Hc. apply Ascii.eqb_eq in Hc as ->. cbn in Hin.
    assert (HasPrefix (EscapeString m) "" = true) as Hpre by (by destruct (EscapeString m)).
    destruct Hin as [[= <- <-]|[[= <- <-]|[[= <- <-]|[[= <- <-]|[[= <- <-]|[]]]]]]; rewrite !sapp_cons, sapp_nil_l; cbn; rewrite Hpre; cbn; by rewrite IH. }
  destruct (is_char 38 c) eqn:E38; [apply (Hent _ 38%N); cbn; auto|].
  destruct (is_char 39 c) eqn:E39; [apply (Hent _ 39%N); cbn; auto|].
  destruct (is_char 60 c) eqn:E60; [apply (Hent _ 60%N); cbn; auto|].
  destruct (is_char 62 c) eqn:E62; [apply (Hent _ 62%N); cbn; auto|].
  destruct (is_char 34 c) eqn:E34; [apply (Hent _ 34%N); cbn; auto 6|].
  rewrite sapp_cons, sapp_nil_l. cbn [html_text]. rewrite entity_None by done. by rewrite IH.
Qed.

(** A message on the page -- and messages quote what the client sent -- is text and
    nothing else: the page differs from any other with a message in that text
    only, no character of markup comes from it, and the browser shows the message
    as it was. *)
Theorem message_is_only_text a :
  ∃ pre post, ∀ status m, m ≠ "" →
    let page := pre +:+ EscapeString m +:+ post in
    body_text (rs_body (serveSignIn a status m)) = Some page ∧
    markup page = markup pre +:+ markup post ∧
    html_text 0 (EscapeString m) = m.
Proof.
  pose proof (page_pieces (if bootstrapping a then "Set up beacon" else "beacon")) as Hpage.
  set (fields := form_fields (if bootstrapping a then "bootstrapFields" else "loginFields")).
  destruct (pieces pageShell) as [|p0 [|p1 [|p2 [|p3 [|p4 ps]]]]] eqn:E;
    try (apply (f_equal length) in E; vm_compute in E; discriminate E).
  exists (p0 +:+ (if bootstrapping a then "Set up beacon" else "beacon") +:+ p1 +:+ "<p class=" +:+ dquote +:+ "note" +:+ dquote +:+ ">"),
         ("</p>" +:+ p2 +:+ fields +:+ p3).
  intros status m Hm. cbn zeta. split_and!.
  - unfold serveSignIn. rewrite (proj2 (String.eqb_neq _ _) Hm). cbn [negb rs_body].
    destruct (bootstrapping a); cbn [body_text]; f_equal; rewrite Hpage; by rewrite !sapp_assoc.
  - by rewrite !(markup_app _ (EscapeString m +:+ _)), (markup_app (EscapeString m)), markup_escaped, sapp_nil_l.
  - apply html_text_escaped.
Qed.

Lemma message_is_only_text_witness :
  ∃ pre post,
    body_text (rs_body (serveSignIn (mkAuth "admin" None (mkProxySet [])) 400 "<script>")) = Some (pre +:+ EscapeString "<script>" +:+ post).
Proof.
  destruct (message_is_only_text (mkAuth "admin" None (mkProxySet []))) as (pre & post & Hp). exists pre, post.
  exact (proj1 (Hp 400 "<script>" ltac:(discriminate))).
Defined.

(** ** The form on it *)

(** The values of an attribute, in the order they appear. *)
Fixpoint attr_values (fuel : nat) (key s : string) : list string :=
  match fuel with
  | O => []
  | S fuel =>
      match Cut s (key +:+ "=" +:+ dquote) with
      | None => []
      | Some (_, rest) => match Cut rest dquote with
                          | None => []
                          | Some (v, rest) => v :: attr_values fuel key rest
                          end
      end
  end.

(** Where the first form of a page posts to, and the names of its fields. *)
Definition first_form (page : string) : option (string * list string) :=
  '(_, rest) ← Cut page "<form ";
  '(form, _) ← Cut rest "</form>";
  path ← head (attr_values (String.length form) " action" form);
  Some (path, attr_values (String.length form) " name" form).

(** What a browser posts, and where to, when that form is filled in. *)
Definition submit (page : string) (values : list string) : option (string * gmap string string) :=
  '(path, names) ← first_form page; Some (path, list_to_map (zip names values)).

Lemma login_page_form : first_form (Sprintf pageShell ["beacon"; ""; loginFields]) = Some ("/api/login", ["username"; "password"]).
Proof. vm_compute. reflexivity. Qed.

Lemma bootstrap_page_form :
  first_form (Sprintf pageShell ["Set up beacon"; ""; bootstrapFields])
  = Some ("/api/bootstrap", ["token"; "username"; "password"; "password_confirm"]).
Proof. vm_compute. reflexivity. Qed.

Section form.
  Context {W : Type} `{FileSystem W} `{VaultHTTP W} `{VaultJSON} `{Argon2} `{HMAC} `{Ed25519}
    `{JSON Assertion} `{JSON (option key_map)} `{JSON enrollRequest} `{JSON operator} `{JSON Event}
    `{Tunnel W} `{JSON RPCRequest} `{JSON RPCResponse} `{MuxRedirectStatus}
    (format nano ms : Z → string) (version : string)
    (range : Registry → list (string * agentRec)) (streams : Z → Z) (conns : Z → CountingConn).

Notation Routes := (routes (W := W) format nano ms version range streams conns).
Notation Mux := (mux (W := W) format nano ms version range streams conns).

Lemma verified_account ops u p : verify ops u p = Ok true → exists_ ops = true.
Proof. unfold verify, exists_. by destruct (current ops). Qed.

Lemma login_posted a r t1 t2 ops u p :
  au_ops a = Some ops → verify ops (TrimSpace u) p = Ok true → wantsHTML r = true →
  FormValue r "username" = u → FormValue r "password" = p → FormValue r "token" = "" →
  handleLogin a r t1 t2 = Ok (setSession a r t1 t2 (http_Redirect "/ui/" StatusFound)).
Proof.
  intros Ho Hv Hw Hu Hp Ht. pose proof (verified_account _ _ _ Hv) as He.
  unfold handleLogin, enabled, bootstrapping, login_ok. rewrite Ho, He, Hu, Hp, Ht, orb_true_r. cbn.
  rewrite Hv. cbn. by rewrite Hw.
Qed.

(** C10: A browser that is not signed in, whatever page of the relay it asks for, is
    shown a form, and the form leads in: filled in with the operator's name and
    password and posted as it says, it is answered with a session and a redirect to
    the dashboard, and with that session every route is open for twelve hours. *)
Theorem sign_in_page_leads_in (s : Server W) ops u p method raw i now r :
  au_ops (sv_auth s) = Some ops → verify ops (TrimSpace u) p = Ok true →
  open (rq_path r) = false → authenticated (sv_auth s) now r = false → wantsHTML r = true →
  ∃ resp page path form,
    Routes method raw i now r s = (Ok (AResponse resp), s) ∧ rs_status resp = StatusUnauthorized ∧
    body_text (rs_body resp) = Some page ∧ submit page [u; p] = Some (path, form) ∧
    ∀ i1 now1 r1, rq_path r1 = path → rq_form r1 = form → wantsHTML r1 = true →
      let expires := in_now i1 0%nat + sessionTTL in
      ∃ c, Routes "POST" path i1 now1 r1 s
           = (Ok (AResponse (with_cookie c (http_Redirect "/ui/" StatusFound))), s) ∧ ck_name c = sessionCookie ∧
      ∀ method2 raw2 i2 now2 r2, Request_Cookie r2 sessionCookie = Some (ck_value c) →
        in_int64 (Unix_of expires) = true → now2 < time_Unix (Unix_of expires) →
        Routes method2 raw2 i2 now2 r2 s = Mux method2 raw2 i2 r2 s.
Proof.
  intros Ho Hv Hop Hau Hw. pose proof (verified_account _ _ _ Hv) as He.
  assert (enabled (sv_auth s) = true ∧ bootstrapping (sv_auth s) = false) as [Hen Hbo].
  { unfold enabled, bootstrapping. rewrite Ho, He. by rewrite orb_true_r. }
  exists (serveSignIn (sv_auth s) StatusUnauthorized ""), (Sprintf pageShell ["beacon"; ""; loginFields]), "/api/login",
    (list_to_map (zip ["username"; "password"] [u; p])).
  split_and!.
  - unfold routes, protect. cbv zeta. rewrite Hen, Hop, Hau, Hw. done.
  - done.
  - unfold serveSignIn. cbn [String.eqb negb rs_body]. rewrite Hbo. done.
  - unfold submit. by rewrite login_page_form.
  - intros i1 now1 r1 Hp1 Hf1 Hw1 expires. set (r1' := with_params [] r1).
    exists (session_cookie (sv_auth s) r1' (in_now i1 0%nat) (in_now i1 1%nat)). split_and!; [|done|].
    + unfold routes, protect. cbv zeta. rewrite Hp1. cbn [open existsb String.eqb]. rewrite orb_true_r. cbn [orb].
      unfold mux. change (ServeMux route_table "POST" "/api/login") with (MuxFound RLogin ([] : list (string * string))).
      unfold serve, respond, mbind, M_bind, mget, mlift.
      erewrite (login_posted _ r1' _ _ ops u p Ho Hv Hw1); [done|..];
        unfold FormValue; cbn [rq_form r1' with_params]; rewrite Hf1; reflexivity.
    + intros method2 raw2 i2 now2 r2 Hc Hin Hlt. unfold routes, protect. cbv zeta.
      assert (authenticated (sv_auth s) now2 r2 = true) as ->; [|by rewrite orb_true_r].
      unfold authenticated. destruct (_ && _); [done|]. rewrite Hc. cbn [ck_value session_cookie].
      rewrite validSession_minted by done. by apply Z.ltb_lt.
Qed.
End form.

(** ** Witness: a browser at the dashboard of a relay with an operator *)
Section witness.
  Local Existing Instances ToyCrypto.toy_hmac ToyCrypto.toy_argon2.
#[local] Instance toy_event_json : JSON Event := ToyJSON.toy_json Event.
#[local] Instance toy_redirect : MuxRedirectStatus := 307.
#[local] Instance no_tunnel : Tunnel World := {|
    tn_OpenStream _ := mthrow (errorf "session shutdown");
    tn_SetDeadline := Ok ();
    tn_Reply _ _ := mthrow (errorf "session shutdown")
  |}.

Definition toy_browser (path : string) (cookies : list (string * string)) (form : gmap string string) : Request :=
  mkRequest path {["Accept" := "text/html,*/*"]} "10.0.0.9:1" None cookies form ∅ "".

#[local] Notation toy_get method raw now r :=
  (routes (W := World) toy_format toy_format toy_format "v1" map_to_list (λ _, 0)
     (λ _, mkCountingConn 0 0) method raw toy_inputs now r toy_fleet_server).

Lemma sign_in_page_leads_in_witness :
  ∃ resp page form c,
    toy_get "GET" "/ui/" 100 (toy_browser "/ui/" [] ∅) = (Ok (AResponse resp), toy_fleet_server) ∧
    rs_status resp = 401 ∧ body_text (rs_body resp) = Some page ∧
    submit page ["ana"; "correct horse"] = Some ("/api/login", form) ∧
    toy_get "POST" "/api/login" 100 (toy_browser "/api/login" [] form)
    = (Ok (AResponse (with_cookie c (http_Redirect "/ui/" StatusFound))), toy_fleet_server).
Proof.
  assert (au_ops (sv_auth toy_fleet_server) = Some (fst toy_saved)) as Ho by (vm_compute; reflexivity).
  destruct (sign_in_page_leads_in toy_format toy_format toy_format "v1" map_to_list (λ _, 0)
    (λ _, mkCountingConn 0 0) toy_fleet_server (fst toy_saved) "ana" "correct horse" "GET" "/ui/" toy_inputs 100
    (toy_browser "/ui/" [] ∅) Ho)
    as (resp & page & path & form & Hr & Hs & Hb & Hf & Hin).
  - vm_compute. reflexivity.
  - reflexivity.
  - vm_compute. reflexivity.
  - vm_compute. reflexivity.
  - assert (path = "/api/login") as ->.
    { pose proof Hr as Hr'. apply (f_equal fst) in Hr'. vm_compute in Hr'. injection Hr' as <-.
      cbn [rs_body body_text] in Hb. injection Hb as <-. apply (f_equal (fmap fst)) in Hf. vm_compute in Hf.
      by injection Hf as <-. }
    destruct (Hin toy_inputs 100 (toy_browser "/api/login" [] form) eq_refl eq_refl ltac:(vm_compute; reflexivity))
      as (c & Hc & _). exists resp, page, form, c. split_and!; [exact Hr|exact Hs|exact Hb|exact Hf|exact Hc].
Defined.
End witness.
