(* ===== verification/RemoteCalls.v ===== *)
(** * A remote call is a local call

    The relay's side of a call (RelayTools.v) joined to the agent's side
    (AgentStream.v, AgentRpc.v) over the wire contract (Wire.v): through a tunnel
    that delivers bytes, in any pieces, [agentRPC] computes what [dispatchRPC]
    computes on the machine. *)

From Stdlib Require Import Ascii.
From S2P Require Import Prelude GoStrings GoNum GoBase64 GoUtf8 Interfaces GoNet Wire Assertions.
From S2P Require Import Challenges Events Registry Proxies Host ServerConfig VaultClient KVStore.
From S2P Require Import AgentKeys OperatorStore Auth Server Enroll AgentRpc AgentStream RelayTools.

Open Scope string_scope.
Open Scope list_scope.
Open Scope Z_scope.

Section remote.
  Context {W : Type} `{Tunnel W} `{Machine W}
          `{JSONLaws RPCRequest wf_req} `{JSONLaws RPCResponse wf_resp}.
  Context (ds : Z → string) (services : gmap string string) (dial : string → res ())
          (startPTY : res Term).

(** The agent behind session [sess]: the tunnel delivers what the relay sent and
    what the agent's stream handler wrote, cut anywhere. *)
Definition agent_behind (sess : Z) : Prop :=
  tn_SetDeadline = Ok () ∧
  opens sess ∧
  ∀ sent w, ∃ br chunks,
    remaining br = sent ∧
    let '((_, out), w') := handleStream ds services dial startPTY br (mkWriter "" []) w in
    tn_Reply sess sent w = (Ok chunks, w') ∧ sconcat chunks = w_buf out.

Definition world (s : Server W) : W := snd (sv_vault s).
Definition with_world (w : W) (s : Server W) : Server W := set_vault (fst (sv_vault s), w) s.

Lemma with_world_self s : with_world (world s) s = s.
Proof. destruct s as [? ? ? [? ?] ? ? ?]. done. Qed.
Lemma with_world_twice w w' s : with_world w (with_world w' s) = with_world w s.
Proof. done. Qed.

Lemma openAgentStream_online id kind sess (s : Server W) :
  Session id (sv_registry s) = Some sess → agent_behind sess →
  openAgentStream id kind s = (Ok (sess, mkWriter (kind +:+ nl) []), s).
Proof. intros Hs (_ & Ho & _). by apply openAgentStream_opens. Qed.

Lemma openAgentStream_offline id kind (s : Server W) :
  Session id (sv_registry s) = None →
  ∃ e, openAgentStream id kind s = (Err e, s) ∧ errors_Is e ErrAgentOffline = true.
Proof.
  intros Hs. unfold openAgentStream, mbind, M_bind, mget. rewrite Hs. by eexists.
Qed.

(** The request the relay encodes is the one the agent dispatches, and the
    response the agent computes is the one the relay gets. *)
Lemma agentRPC_dispatch id req sess (s : Server W) :
  Session id (sv_registry s) = Some sess → agent_behind sess →
  wf_req req → wf_resp (fst (dispatchRPC ds req (world s))) →
  agentRPC id req s
  = (Ok (fst (dispatchRPC ds req (world s))), with_world (snd (dispatchRPC ds req (world s))) s).
Proof.
  intros Hs Hag Hwf Hwfr. unfold agentRPC, mbind at 1, M_bind at 1.
  rewrite (openAgentStream_online _ _ sess) by done. destruct Hag as (Hd & _ & Hrep).
  unfold mbind, M_bind, mlift. rewrite Hd. destruct (Marshal_ok req Hwf) as [data Hm]. rewrite Hm.
  unfold write. cbn [w_faults w_buf].
  destruct (Hrep ((StreamRPC +:+ nl) +:+ (data +:+ nl)) (world s)) as (br & chunks & Hbr & Hrun).
  destruct (read_line_text br StreamRPC (data +:+ nl)) as (br' & Hrl & Htrim & Hrest);
    [reflexivity|done|].
  unfold handleStream in Hrun. unfold ReadStreamHeader, mbind, M_bind in Hrun.
  rewrite Hrl, Htrim in Hrun. cbn -[handleRPC nl dispatchRPC] in Hrun.
  unfold handleRPC in Hrun. rewrite Hrest in Hrun.
  rewrite (Decode_line req data Hwf Hm) in Hrun.
  destruct (dispatchRPC ds req (world s)) as [resp w'] eqn:Ed. cbn [fst snd] in *.
  unfold writeRPC in Hrun. destruct (Marshal_ok resp Hwfr) as [rdata Hrm]. rewrite Hrm in Hrun.
  cbn in Hrun. destruct Hrun as [Hreply Hchunks].
  unfold on_tunnel, zoom. fold (world s). rewrite Hreply.
  unfold remaining. cbn [br_buf br_chunks]. rewrite sapp_nil_l, Hchunks, sapp_nil_l.
  by rewrite (Decode_line resp rdata Hwfr Hrm).
Qed.

Lemma call_tool_dispatch id req k sess (s : Server W) resp w' :
  Session id (sv_registry s) = Some sess → agent_behind sess →
  wf_req req → dispatchRPC ds req (world s) = (resp, w') → wf_resp resp →
  call_tool id req k s
  = (Ok (if (rp_Error resp =? "")%string then k resp else errorResult (rp_Error resp)), with_world w' s).
Proof.
  intros Hs Hag Hwf Hd Hwfr. unfold call_tool, mbind, M_bind, attempt.
  rewrite (agentRPC_dispatch _ _ sess) by (rewrite ?Hd; done). rewrite Hd. cbn [fst snd].
  by destruct (rp_Error resp =? "")%string.
Qed.

(** C7: The response the agent computes is the response the relay gets, a tool shows
    it when the operation succeeded and its error when it did not, and the
    machine is left exactly as the operation leaves it: a call through the relay
    is a call on the machine. *)
Theorem remote_call_is_local id req sess (s : Server W) resp w' :
  Session id (sv_registry s) = Some sess → agent_behind sess →
  wf_req req → dispatchRPC ds req (world s) = (resp, w') → wf_resp resp →
  agentRPC id req s = (Ok resp, with_world w' s) ∧
  ∀ k, call_tool id req k s
       = (Ok (if (rp_Error resp =? "")%string then k resp else errorResult (rp_Error resp)),
          with_world w' s).
Proof.
  intros Hs Hag Hwf Hd Hwfr. split; [|intros k; by eapply call_tool_dispatch].
  by rewrite (agentRPC_dispatch _ _ sess) by (rewrite ?Hd; done); rewrite Hd.
Qed.

(** ** Files *)

(** What the machine promises about a file just written: it is a plain file of
    that size and content. *)
Definition stored (p d : string) (w : W) : Prop :=
  (∃ info, mc_Stat p w = (Ok info, w) ∧ fi_IsDir info = false ∧ fi_Size info = len d) ∧
  mc_ReadFile p w = (Ok d, w).

(** What [write_file] wrote through the relay is on the machine, and
    [read_file] brings the same text back. *)
Theorem write_then_read_file a sess (s : Server W) w1 :
  Session (wa_Agent a) (sv_registry s) = Some sess → agent_behind sess →
  wf_req (rpc_send OpWriteFile (wa_Path a) (std_encode (wa_Content a))) →
  wf_req (rpc_path OpReadFile (wa_Path a)) → wf_resp (rpc_written (len (wa_Content a))) →
  wf_resp (rpc_content (std_encode (wa_Content a)) false) →
  wa_Path a ≠ "" → len (wa_Content a) ≤ maxReadFileBytes → Valid (wa_Content a) = true →
  mc_WriteFile (wa_Path a) (wa_Content a) (world s) = (Ok (), w1) → stored (wa_Path a) (wa_Content a) w1 →
  toolWriteFile a s
  = (Ok (textResult ("wrote " +:+ itoa (len (wa_Content a)) +:+ " bytes to " +:+ wa_Path a)),
     with_world w1 s) ∧
  toolReadFile (mkPathArgs (wa_Agent a) (wa_Path a)) (with_world w1 s)
  = (Ok (textResult (wa_Content a)), with_world w1 s).
Proof.
  intros Hs Hag Hwf1 Hwf2 Hwfw Hwfc Hp Hlen Hutf Hwrite [(info & Hstat & Hdir & Hsize) Hread].
  assert (dispatchRPC ds (rpc_send OpWriteFile (wa_Path a) (std_encode (wa_Content a))) (world s)
          = (rpc_written (len (wa_Content a)), w1)) as Hd1.
  { unfold dispatchRPC. cbn [rq_Op rpc_send]. cbn -[opWriteFile]. unfold opWriteFile.
    cbn [rq_Path rq_Content rpc_send]. rewrite (proj2 (String.eqb_neq _ _) Hp).
    by rewrite std_decode_encode, Hwrite. }
  assert (dispatchRPC ds (rpc_path OpReadFile (wa_Path a)) w1
          = (rpc_content (std_encode (wa_Content a)) false, w1)) as Hd2.
  { unfold dispatchRPC. cbn -[opReadFile]. unfold opReadFile.
    cbn [rq_Path rpc_path]. rewrite (proj2 (String.eqb_neq _ _) Hp), Hstat, Hdir, Hsize.
    by rewrite (proj2 (Z.ltb_ge _ _)), Hread by done. }
  split.
  - unfold toolWriteFile. by rewrite (call_tool_dispatch _ _ _ sess _ _ _ Hs Hag Hwf1 Hd1 Hwfw).
  - unfold toolReadFile. cbn [pa_Agent pa_Path].
    rewrite (call_tool_dispatch _ _ _ sess (with_world w1 s) _ _ Hs Hag Hwf2 Hd2 Hwfc).
    cbn [rp_Error rpc_content String.eqb rp_Content]. rewrite std_decode_encode. cbn [negb]. by rewrite Hutf.
Qed.

(** An agent that is not connected is told apart from a tunnel that fails, and
    nothing is sent anywhere. *)
Theorem offline_agent_is_404 r accept t1 t2 (s : Server W) :
  Session (PathValue r "id") (sv_registry s) = None →
  (∃ resp, handleShell r accept t1 t2 s = (Ok (BAnswered resp), s) ∧ rs_status resp = StatusNotFound) ∧
  (∃ resp, relay_handleForward r accept t1 t2 s = (Ok (BAnswered resp), s)
           ∧ rs_status resp = StatusNotFound) ∧
  ∀ req, ∃ e, agentRPC (PathValue r "id") req s = (Err e, s) ∧ errors_Is e ErrAgentOffline = true.
Proof.
  intros Hs. split_and!.
  - unfold handleShell, mbind, M_bind, attempt.
    destruct (openAgentStream_offline _ StreamPTY s Hs) as (e & -> & He).
    eexists. split; [done|]. cbn. unfold stream_error_status. by rewrite He.
  - unfold relay_handleForward, mbind, M_bind, attempt.
    destruct (openAgentStream_offline _ StreamForward s Hs) as (e & -> & He).
    eexists. split; [done|]. cbn. unfold stream_error_status. by rewrite He.
  - intros req. unfold agentRPC, mbind, M_bind.
    destruct (openAgentStream_offline _ StreamRPC s Hs) as (e & -> & He). by eexists.
Qed.
End remote.

(** ** Witnesses: a machine that is a map of files, behind a tunnel that cuts
    the request after three bytes *)
Module ToyMachine.
Record box := mkBox { files : gmap string string; clip : string }.

Definition no_file (p : string) : error := Host.errNotExist p.

Definition stat (p : string) : M box FileInfo := λ w,
  (match files w !! p with
   | Some d => Ok (mkFileInfo false (len d) "-rw-r--r--" 0)
   | None => Err (no_file p)
   end, w).
Definition read (p : string) : M box string := λ w,
  (match files w !! p with Some d => Ok d | None => Err (no_file p) end, w).

#[global] Instance machine : Machine box := {|
  mc_Stat := stat;
  mc_ReadFile := read;
  mc_WriteFile p d w := (Ok (), mkBox (<[p := d]> (files w)) (clip w));
  mc_ReadDir p w := (Ok [], w);
  mc_Shell c d t w := (mkRunResult [c] [] (RunOk 0), w);
  mc_clipboard_Unsupported := false;
  mc_clipboard_ReadAll w := (Ok (clip w), w);
  mc_clipboard_WriteAll s w := (Ok (), mkBox (files w) s);
  mc_LookPath _ _ := false;
  mc_Tool _ _ _ w := (("", None), w);
  mc_CreateTemp p w := (Ok ("/tmp/" +:+ p), w);
  mc_WriteTemp p d w := (Ok (), mkBox (<[p := d]> (files w)) (clip w));
  mc_CloseTemp _ w := (Ok (), w);
  mc_Remove p w := mkBox (delete p (files w)) (clip w)
|}.

Definition serve (sent : string) (w : box) :=
  handleStream (λ t, itoa t) defaultServices (λ _, Ok ()) (Ok (mkTerm [] []))
    (mkBufReader "" [stake 3 sent; sdrop 3 sent]) (mkWriter "" []) w.

#[global] Instance tunnel : Tunnel box := {|
  tn_OpenStream _ w := (Ok (mkWriter "" []), w);
  tn_SetDeadline := Ok ();
  tn_Reply _ sent w := let '((_, out), w') := serve sent w in (Ok [w_buf out], w')
|}.

Lemma behind sess :
  agent_behind (λ t, itoa t) defaultServices (λ _, Ok ()) (Ok (mkTerm [] [])) sess.
Proof.
  split_and!; [done..|]. intros sent w.
  exists (mkBufReader "" [stake 3 sent; sdrop 3 sent]).
  exists [w_buf (snd (fst (serve sent w)))]. split.
  { unfold remaining. cbn [br_buf br_chunks sconcat]. rewrite sapp_nil_l, sapp_nil_r. apply stake_sdrop. }
  cbn [tn_Reply tunnel]. unfold serve.
  destruct (handleStream _ _ _ _ _ _ w) as [[o out] w'].
  split; [done|]. cbn. by rewrite sapp_nil_r.
Qed.

Definition relay : Server box :=
  mkServer sample_fleet newEventBus (mkAuth "" None (mkProxySet []))
    (mkVault "" "" "" "" "" "" "" "" ∅, mkBox ∅ "") seal_zero newChallenges 0.
End ToyMachine.

Lemma remote_call_is_local_witness :
  let req := rpc_send OpClipboardWrite "" (std_encode "hello") in
  agentRPC "lab-1" req ToyMachine.relay
  = (Ok (rpc_written 5), with_world (ToyMachine.mkBox ∅ "hello") ToyMachine.relay) ∧
  call_tool "lab-1" (rpc_op OpExec) (λ _, textResult "ran") ToyMachine.relay
  = (Ok (errorResult "command is required"), ToyMachine.relay).
Proof.
  assert (∀ req resp w', dispatchRPC (λ t, itoa t) req (ToyMachine.mkBox ∅ "") = (resp, w') →
    agentRPC "lab-1" req ToyMachine.relay = (Ok resp, with_world w' ToyMachine.relay) ∧
    ∀ k, call_tool "lab-1" req k ToyMachine.relay
       = (Ok (if (rp_Error resp =? "")%string then k resp else errorResult (rp_Error resp)),
          with_world w' ToyMachine.relay)) as Hcall.
  { intros req resp w' Hd.
    apply (remote_call_is_local (λ t, itoa t) defaultServices (λ _, Ok ()) (Ok (mkTerm [] [])) "lab-1"
             req 2 ToyMachine.relay resp w');
      [vm_compute; reflexivity|apply ToyMachine.behind|exact I|exact Hd|exact I]. }
  split; [apply Hcall; vm_compute; reflexivity|].
  apply (proj2 (Hcall (rpc_op OpExec) (rpc_error "command is required") (ToyMachine.mkBox ∅ "")
    ltac:(vm_compute; reflexivity))).
Defined.

Lemma write_then_read_file_witness :
  let a := mkWriteArgs "lab-1" "/etc/motd" "hello" in
  let w1 := ToyMachine.mkBox {["/etc/motd" := "hello"]} "" in
  toolReadFile (mkPathArgs "lab-1" "/etc/motd") (with_world w1 ToyMachine.relay)
  = (Ok (textResult "hello"), with_world w1 ToyMachine.relay).
Proof.
  intros a w1.
  apply (write_then_read_file (λ t, itoa t) defaultServices (λ _, Ok ()) (Ok (mkTerm [] [])) a 2
           ToyMachine.relay w1); try done.
  - apply ToyMachine.behind.
  - split; [|reflexivity]. by eexists.
Defined.

Lemma offline_agent_is_404_witness :
  let r := mkRequest "/api/agents/lab-2/shell" ∅ "10.0.0.1:1" None [] ∅ {["id" := "lab-2"]} "" in
  ∃ resp, handleShell r (Ok ()) 1 2 ToyMachine.relay = (Ok (BAnswered resp), ToyMachine.relay)
          ∧ rs_status resp = StatusNotFound.
Proof. intros r. apply offline_agent_is_404. vm_compute. reflexivity. Defined.
