(* ===== verification/ClientConfig.v ===== *)
(** * The agent's settings (client/config.go, paths.go, configcmd.go, configform.go)

    Where a setting comes from, how the file is read and written, and the two
    editors of it.  What the host answers is the class [ClientHost]; the builds
    modelled are the ones that are not for Windows, whose paths differ. *)

From Stdlib Require Import Ascii.
From S2P Require Import Prelude GoStrings GoNum GoBase64 Interfaces Host.

Open Scope string_scope.
Open Scope list_scope.
Open Scope Z_scope.

Record Config := mkConfig {
  Server : string;
  AgentID : string;
  CAFile : string;
  Token : string;
  Username : string;
  Session : string;
  AgentKey : string;
  Assertion : string;
  SSHHostKey : string;
  AutoUpdate : option bool;                  (* a pointer *)
  Services : option (gmap string string)     (* a map, nil when absent *)
}.

#[export] Instance Config_eq_dec : EqDecision Config.
Proof. solve_decision. Defined.
#[export] Instance Config_countable : Countable Config.
Proof.
  refine (inj_countable'
    (λ c, (Server c, AgentID c, CAFile c, Token c, Username c, Session c, AgentKey c, Assertion c,
           SSHHostKey c, AutoUpdate c, Services c))
    (λ '(a, b, c, d, e, f, g, h, i, j, k), mkConfig a b c d e f g h i j k) _).
  by intros [].
Defined.

Definition emptyConfig : Config := mkConfig "" "" "" "" "" "" "" "" "" None None.

Definition set_Server v c := mkConfig v (AgentID c) (CAFile c) (Token c) (Username c) (Session c)
  (AgentKey c) (Assertion c) (SSHHostKey c) (AutoUpdate c) (Services c).
Definition set_AgentID v c := mkConfig (Server c) v (CAFile c) (Token c) (Username c) (Session c)
  (AgentKey c) (Assertion c) (SSHHostKey c) (AutoUpdate c) (Services c).
Definition set_CAFile v c := mkConfig (Server c) (AgentID c) v (Token c) (Username c) (Session c)
  (AgentKey c) (Assertion c) (SSHHostKey c) (AutoUpdate c) (Services c).
Definition set_Token v c := mkConfig (Server c) (AgentID c) (CAFile c) v (Username c) (Session c)
  (AgentKey c) (Assertion c) (SSHHostKey c) (AutoUpdate c) (Services c).
Definition set_Username v c := mkConfig (Server c) (AgentID c) (CAFile c) (Token c) v (Session c)
  (AgentKey c) (Assertion c) (SSHHostKey c) (AutoUpdate c) (Services c).
Definition set_Session v c := mkConfig (Server c) (AgentID c) (CAFile c) (Token c) (Username c) v
  (AgentKey c) (Assertion c) (SSHHostKey c) (AutoUpdate c) (Services c).
Definition set_AgentKey v c := mkConfig (Server c) (AgentID c) (CAFile c) (Token c) (Username c) (Session c)
  v (Assertion c) (SSHHostKey c) (AutoUpdate c) (Services c).
Definition set_Assertion v c := mkConfig (Server c) (AgentID c) (CAFile c) (Token c) (Username c) (Session c)
  (AgentKey c) v (SSHHostKey c) (AutoUpdate c) (Services c).

Inductive source := fromDefault | fromFile | fromEnv | fromFlag.
#[export] Instance source_eq_dec : EqDecision source.
Proof. solve_decision. Defined.

Definition keyServer := "server".
Definition keyID := "id".
Definition keyCA := "ca-file".
Definition keyToken := "token".
Definition keyUser := "user".
Definition configKeys : list string := [keyServer; keyID; keyCA; keyToken; keyUser].

Record resolved := mkResolved {
  rv_Config : Config;
  rv_sources : gmap string source;
  rv_path : string;
  rv_exists : bool
}.

(** ** The host *)
Class ClientHost (W : Type) `{FileSystem W} := {
  ch_Stat : string → W → res ();
  ch_OpenForWriting : string → W → res ();         (* O_WRONLY, of a file that exists *)
  ch_Create : string → M W ();                     (* O_CREATE|O_WRONLY *)
  ch_Remove : string → W → W;
  ch_Chmod : string → M W ()
}.

(** The process's surroundings, which a command does not change. *)
Record Surroundings := mkSurroundings {
  sr_env : gmap string string;
  sr_UserConfigDir : res string;
  sr_Hostname : string
}.

(** [filepath.Dir] *)
Fixpoint up_to_last_slash (s : string) : string :=
  match s with
  | EmptyString => ""
  | String c s' => if no_char 47 s then "" else String c (up_to_last_slash s')
  end.
Definition filepath_Dir (p : string) : string := filepath_Clean (up_to_last_slash p).

Example filepath_Dir_etc : filepath_Dir "/etc/beacon/config.json" = "/etc/beacon".
Proof. reflexivity. Qed.
Example filepath_Dir_bare : filepath_Dir "config.json" = ".".
Proof. reflexivity. Qed.

Section settings.
  Context {W : Type} `{ClientHost W} `{JSON Config} (sr : Surroundings).

Notation env k := (Getenv (sr_env sr) k).

Definition machineConfigPath : string := "/etc/beacon/config.json".

Definition userConfigPath : string :=
  match sr_UserConfigDir sr with
  | Err _ => ""
  | Ok dir => filepath_Join (filepath_Join dir "beacon") "config.json"
  end.

Definition configPath (w : W) : string :=
  let p := env "BEACON_CONFIG" in
  if negb (p =? "")%string then p
  else if negb (userConfigPath =? "")%string && is_ok (ch_Stat userConfigPath w) then userConfigPath
  else machineConfigPath.

(** The configuration and whether there was one. *)
Definition readConfigFile (path : string) (w : W) : res (Config * bool) :=
  match fs_ReadFile path w with
  | Err e =>
      if errors_Is e ErrNotExist then Ok (emptyConfig, false)
      else if errors_Is e ErrPermission && (path =? machineConfigPath)%string then Ok (emptyConfig, false)
      else Err e
  | Ok data =>
      match Unmarshal data with
      | Err e => Err (wrapf (path +:+ ": ") e)
      | Ok c => Ok (c, true)
      end
  end.

Definition defaultConfig : Config :=
  set_AgentID (sr_Hostname sr) (set_Server "http://127.0.0.1:8080" emptyConfig).

(** [resolved.set] *)
Definition set_field (key value : string) (c : Config) : option Config :=
  if (key =? keyServer)%string then Some (set_Server value c)
  else if (key =? keyID)%string then Some (set_AgentID value c)
  else if (key =? keyCA)%string then Some (set_CAFile value c)
  else if (key =? keyToken)%string then Some (set_Token value c)
  else if (key =? keyUser)%string then Some (set_Username value c)
  else None.

Definition set (key value : string) (src : source) (r : resolved) : resolved :=
  let value := TrimSpace value in
  if (value =? "")%string then r
  else match set_field key value (rv_Config r) with
       | None => r
       | Some c => mkResolved c (<[key := src]> (rv_sources r)) (rv_path r) (rv_exists r)
       end.

Definition value (key : string) (c : Config) : string :=
  if (key =? keyServer)%string then Server c
  else if (key =? keyID)%string then AgentID c
  else if (key =? keyCA)%string then CAFile c
  else if (key =? keyToken)%string then Token c
  else if (key =? keyUser)%string then Username c
  else "".

Definition autoUpdate (c : Config) : bool := default true (AutoUpdate c).

Definition map_config (f : Config → Config) (r : resolved) : resolved :=
  mkResolved (f (rv_Config r)) (rv_sources r) (rv_path r) (rv_exists r).

(** The block of [loadConfig] that applies the file. *)
Definition apply_file (fc : Config) (r : resolved) : resolved :=
  let r := map_config (λ c, mkConfig (Server c) (AgentID c) (CAFile c) (Token c) (Username c) (Session c)
                              (AgentKey c) (Assertion c) (SSHHostKey c) (AutoUpdate fc) (Services fc)) r in
  let r := set keyServer (Server fc) fromFile r in
  let r := set keyID (AgentID fc) fromFile r in
  let r := set keyCA (CAFile fc) fromFile r in
  let r := set keyToken (Token fc) fromFile r in
  let r := set keyUser (Username fc) fromFile r in
  map_config (λ c, mkConfig (Server c) (AgentID c) (CAFile c) (Token c) (Username c) (Session fc)
                     (AgentKey fc) (Assertion fc) (SSHHostKey fc) (AutoUpdate c) (Services c)) r.

Definition apply_env (r : resolved) : resolved :=
  let r := set keyServer (env "BEACON_SERVER") fromEnv r in
  let r := set keyID (env "BEACON_AGENT_ID") fromEnv r in
  let r := set keyCA (env "BEACON_CA_FILE") fromEnv r in
  let r := set keyToken (env "BEACON_TOKEN") fromEnv r in
  set keyUser (env "BEACON_USER") fromEnv r.

(** [flags], in the order of Go's map iteration. *)
Definition apply_flags (flags : list (string * string)) (r : resolved) : resolved :=
  fold_left (λ r '(k, v), set k v fromFlag r) flags r.

Definition loadConfig (flags : list (string * string)) (w : W) : res resolved :=
  let path := configPath w in
  let r := mkResolved defaultConfig (list_to_map ((λ k, (k, fromDefault)) <$> configKeys)) path false in
  '(fc, exists_) ← readConfigFile path w;
  let r := mkResolved (rv_Config r) (rv_sources r) (rv_path r) exists_ in
  let r := if (exists_ : bool) then apply_file fc r else r in
  Ok (apply_flags flags (apply_env r)).

(** The header of an API call; [None] is a nil [http.Header]. *)
Definition apiHeader (token session : string) : option (string * string) :=
  if negb (session =? "")%string then Some ("Cookie", "beacon_session=" +:+ session)
  else if negb (token =? "")%string then Some ("Authorization", "Bearer " +:+ token)
  else None.

(** ** Writing *)
Definition saveConfigTo (path : string) (c : Config) : M W string :=
  if (path =? "")%string then mthrow (errorf "no config path")
  else
    fs_MkdirAll (filepath_Dir path);;
    data ← mlift (Marshal c);
    fs_WriteFile path (data +:+ nl);;
    ch_Chmod path;;
    mret path.

Definition writableConfig (path : string) : W → bool * W := λ w,
  match ch_OpenForWriting path w with
  | Ok _ => (true, w)
  | Err e =>
      if negb (errors_Is e ErrNotExist) then (false, w)
      else
        let dir := filepath_Dir path in
        match fs_MkdirAll dir w with
        | (Err _, w) => (false, w)
        | (Ok _, w) =>
            let probe := filepath_Join dir ".beacon-write-probe" in
            match ch_Create probe w with
            | (Err _, w) => (false, w)
            | (Ok _, w) => (true, ch_Remove probe w)
            end
        end
  end.

Definition saveConfig (c : Config) : M W string := λ w,
  let path := configPath w in
  let '(writable, w) := writableConfig path w in
  if (writable : bool) then saveConfigTo path c w
  else if negb (userConfigPath =? "")%string then saveConfigTo userConfigPath c w
  else saveConfigTo path c w.

(** ** beacon config set *)
Definition set_arg (c : Config) (arg : string) : res Config :=
  match Cut arg "=" with
  | None => Err (errorf ("expected KEY=VALUE, got " +:+ quote arg))
  | Some (key, v) =>
      if (key =? keyServer)%string then Ok (set_Server v c)
      else if (key =? keyID)%string then Ok (set_AgentID v c)
      else if (key =? keyCA)%string then Ok (set_CAFile v c)
      else Err (errorf ("unknown key " +:+ quote key +:+ " (keys: " +:+ Join configKeys ", " +:+ ")"))
  end.

Fixpoint set_args (c : Config) (args : list string) : res Config :=
  match args with
  | [] => Ok c
  | arg :: args => c ← set_arg c arg; set_args c args
  end.

(** What is saved and where; the panel that reports it is left out. *)
Definition configSet (args : list string) : M W (Config * string) := λ w,
  match args with
  | [] => (Err (errorf ("usage: beacon config set KEY=VALUE ...  (keys: "
                        +:+ Join configKeys ", " +:+ ")")), w)
  | _ =>
      match readConfigFile (configPath w) w with
      | Err e => (Err e, w)
      | Ok (current, _) =>
          match set_args current args with
          | Err e => (Err e, w)
          | Ok c => (path ← saveConfig c; mret (c, path)) w
          end
      end
  end.

(** ** The form behind [beacon config] *)

(** One text per key, in the order of [configKeys]. *)
Record configForm := mkForm { fm_inputs : list string; fm_focus : nat; fm_done : bool; fm_saved : bool;
                              fm_err : string }.

Definition newConfigForm (r : resolved) : configForm :=
  mkForm ((λ k, value k (rv_Config r)) <$> configKeys) 0 false false "".

Definition form_input (f : configForm) (i : nat) : string := default "" (fm_inputs f !! i).

(** The host and scheme of [url.Parse]. *)
Class URLParse := url_parse : string → res (string * string).

Definition validate `{URLParse} (f : configForm) (w : W) : res () :=
  let server := TrimSpace (form_input f 0) in
  let id := TrimSpace (form_input f 1) in
  let caFile := TrimSpace (form_input f 2) in
  if (id =? "")%string then Err (errorf "id cannot be empty")
  else match url_parse server with
       | Err e => Err (errorf ("server: " +:+ err_text e))
       | Ok (scheme, host) =>
           if (host =? "")%string
           then Err (errorf "server: missing host, e.g. https://relay.example.com")
           else if negb (scheme =? "http")%string && negb (scheme =? "https")%string
           then Err (errorf "server: scheme must be http or https")
           else if negb (caFile =? "")%string then
             match ch_Stat caFile w with
             | Err e => Err (errorf ("ca-file: " +:+ err_text e))
             | Ok _ => Ok ()
             end
           else Ok ()
       end.

(** The composite literal names three fields. *)
Definition result (f : configForm) : Config :=
  set_CAFile (TrimSpace (form_input f 2))
    (set_AgentID (TrimSpace (form_input f 1)) (set_Server (TrimSpace (form_input f 0)) emptyConfig)).

Inductive form_key := KCancel | KEnter | KNext | KPrevious | KType (edit : string → string).

Definition move (delta : Z) (f : configForm) : configForm :=
  let n := Z.of_nat (length (fm_inputs f)) in
  mkForm (fm_inputs f) (Z.to_nat (Z.rem (Z.of_nat (fm_focus f) + delta + n) n)) (fm_done f) (fm_saved f)
         (fm_err f).

(** One key; [Update] returns [tea.Quit] when [fm_done] becomes true. *)
Definition form_update `{URLParse} (k : form_key) (f : configForm) (w : W) : configForm :=
  match k with
  | KCancel => mkForm (fm_inputs f) (fm_focus f) true (fm_saved f) (fm_err f)
  | KEnter =>
      match validate f w with
      | Err e => mkForm (fm_inputs f) (fm_focus f) (fm_done f) (fm_saved f) (err_text e)
      | Ok _ => mkForm (fm_inputs f) (fm_focus f) true true (fm_err f)
      end
  | KNext => move 1 f
  | KPrevious => move (-1) f
  | KType edit =>
      mkForm (alter edit (fm_focus f) (fm_inputs f)) (fm_focus f) (fm_done f) (fm_saved f) ""
  end.

Fixpoint form_run `{URLParse} (keys : list form_key) (f : configForm) (w : W) : configForm :=
  if fm_done f then f
  else match keys with [] => f | k :: keys => form_run keys (form_update k f w) w end.

(** Some saved configuration and its path, or nothing when cancelled. *)
Definition runConfigForm `{URLParse} (keys : list form_key) (r : resolved) : M W (option (Config * string)) :=
  λ w,
  let form := form_run keys (newConfigForm r) w in
  if negb (fm_saved form) then (Ok None, w)
  else (let saved := result form in path ← saveConfig saved; mret (Some (saved, path))) w.
(** ** beacon logout: what [cmdLogout] loads is what it saves, less the session *)
Definition cmdLogout : M W (option string) := λ w,
  match loadConfig [] w with
  | Err e => (Err e, w)
  | Ok cfg =>
      if (Session (rv_Config cfg) =? "")%string then (Ok None, w)
      else (path ← saveConfig (set_Session "" (rv_Config cfg)); mret (Some path)) w
  end.

(** ** Where a setting comes from *)

Definition env_name (key : string) : string :=
  if (key =? keyServer)%string then "BEACON_SERVER"
  else if (key =? keyID)%string then "BEACON_AGENT_ID"
  else if (key =? keyCA)%string then "BEACON_CA_FILE"
  else if (key =? keyToken)%string then "BEACON_TOKEN"
  else "BEACON_USER".

(** A setting and its reported source. *)
Definition seen (key : string) (r : resolved) : string * option source :=
  (value key (rv_Config r), rv_sources r !! key).

(** One layer over what the earlier ones gave; blank means "not given". *)
Definition layer (v : string) (src : source) (below : string * option source) : string * option source :=
  if (TrimSpace v =? "")%string then below else (TrimSpace v, Some src).

Ltac known_keys H :=
  unfold configKeys in H;
  repeat (apply elem_of_cons in H as [-> | H]); [..|by apply elem_of_nil in H].

Lemma seen_set k v src k' r :
  k' ∈ configKeys →
  seen k' (set k v src r) = if (k =? k')%string then layer v src (seen k' r) else seen k' r.
Proof.
  intros Hk. unfold set, seen, layer.
  destruct (String.eqb_spec k k') as [->|Hne].
  - destruct (_ =? "")%string; [done|]. known_keys Hk; cbn; by rewrite lookup_insert_eq.
  - destruct (_ =? "")%string; [done|].
    assert (∀ c, set_field k (TrimSpace v) (rv_Config r) = Some c → value k' c = value k' (rv_Config r)) as Hv.
    { unfold set_field. intros c Hc.
      repeat match type of Hc with
        (if (k =? ?x)%string then _ else _) = _ =>
          destruct (String.eqb_spec k x) as [->|?]; [injection Hc as <-; clear src; known_keys Hk; done|]
        end.
      done. }
    destruct (set_field k _ _) as [c|]; [|done]. cbn. rewrite lookup_insert_ne by done.
    by rewrite Hv.
Qed.

Lemma seen_map_config f r k :
  (∀ c, value k (f c) = value k c) → seen k (map_config f r) = seen k r.
Proof. intros Hf. unfold seen, map_config. cbn. by rewrite Hf. Qed.

Lemma seen_file fc r k :
  k ∈ configKeys → seen k (apply_file fc r) = layer (value k fc) fromFile (seen k r).
Proof.
  intros Hk. unfold apply_file. rewrite seen_map_config by done. rewrite !seen_set by done.
  rewrite seen_map_config by done. known_keys Hk; reflexivity.
Qed.

Lemma seen_env r k :
  k ∈ configKeys → seen k (apply_env r) = layer (env (env_name k)) fromEnv (seen k r).
Proof. intros Hk. unfold apply_env. rewrite !seen_set by done. known_keys Hk; reflexivity. Qed.

Lemma layer_blank src below : layer "" src below = below.
Proof. reflexivity. Qed.

Lemma seen_flags flags r k :
  NoDup flags.*1 → k ∈ configKeys →
  seen k (apply_flags flags r)
  = layer (default "" ((list_to_map flags : gmap string string) !! k)) fromFlag (seen k r).
Proof.
  intros Hnd Hk. unfold apply_flags. revert r. induction flags as [|[k' v] flags IH]; intros r; [done|].
  cbn [fmap list_fmap fst fold_left list_to_map foldr] in *. apply NoDup_cons in Hnd as [Hni Hnd].
  rewrite IH by done. rewrite seen_set by done. destruct (String.eqb_spec k' k) as [->|Hne].
  - rewrite lookup_insert_eq. apply not_elem_of_list_to_map_1 in Hni. cbn in Hni. rewrite Hni. done.
  - by rewrite lookup_insert_ne.
Qed.

(** The fields no flag and no variable can set. *)
Definition carried (c : Config) :=
  (Session c, AgentKey c, Assertion c, SSHHostKey c, AutoUpdate c, Services c).

Lemma carried_set k v src r : carried (rv_Config (set k v src r)) = carried (rv_Config r).
Proof.
  unfold set, set_field. destruct (_ =? "")%string; [done|]. by repeat destruct (k =? _)%string.
Qed.

Lemma carried_flags flags r : carried (rv_Config (apply_flags flags r)) = carried (rv_Config r).
Proof.
  unfold apply_flags. revert r. induction flags as [|[k v] flags IH]; intros r; [done|].
  cbn [fold_left]. by rewrite IH, carried_set.
Qed.

Lemma carried_env r : carried (rv_Config (apply_env r)) = carried (rv_Config r).
Proof. unfold apply_env. by rewrite !carried_set. Qed.

Lemma carried_file fc r : carried (rv_Config (apply_file fc r)) = carried fc.
Proof.
  unfold apply_file. set (r1 := map_config _ r).
  assert (∀ r, carried (rv_Config r) = carried (rv_Config r1) →
    carried (rv_Config (map_config (λ c, mkConfig (Server c) (AgentID c) (CAFile c) (Token c) (Username c)
      (Session fc) (AgentKey fc) (Assertion fc) (SSHHostKey fc) (AutoUpdate c) (Services c)) r)) = carried fc)
    as Hc.
  { intros r2 Hr. unfold carried in Hr. cbn in Hr. injection Hr as _ _ _ _ Ha Hs.
    unfold carried. cbn. by rewrite Ha, Hs. }
  apply Hc. by rewrite !carried_set.
Qed.

(** C39: The effective settings.  For each key, a flag beats the environment, which
    beats the file, which beats the default; a blank value never overrides; and
    the source reported is the layer the value came from.  What is not a setting
    -- identity, session, services -- comes from the file alone. *)
Theorem load_precedence flags w r k :
  NoDup flags.*1 → k ∈ configKeys → loadConfig flags w = Ok r →
  ∃ fc exists_, readConfigFile (configPath w) w = Ok (fc, exists_) ∧
    seen k r
    = layer (default "" ((list_to_map flags : gmap string string) !! k)) fromFlag
        (layer (env (env_name k)) fromEnv
           (layer (if (exists_ : bool) then value k fc else "") fromFile
              (value k defaultConfig, Some fromDefault))) ∧
    carried (rv_Config r) = carried (if exists_ then fc else emptyConfig).
Proof.
  intros Hnd Hk. unfold loadConfig, mbind, res_bind.
  destruct (readConfigFile (configPath w) w) as [[fc ex]|e] eqn:Ef; [|done]. intros [= <-].
  exists fc, ex. split; [done|]. split.
  - rewrite seen_flags, seen_env by done. do 2 f_equal.
    destruct ex; [rewrite seen_file by done; f_equal|]; known_keys Hk; reflexivity.
  - rewrite carried_flags, carried_env. destruct ex; [apply carried_file|done].
Qed.
(** ** What is saved is what is read *)

Class ClientHostLaws := {
  chl_chmod_read p q w : fs_ReadFile q (ch_Chmod p w).2 = fs_ReadFile q w;
  chl_chmod_stat p q w : ch_Stat q (ch_Chmod p w).2 = ch_Stat q w;
  chl_write_stat p d w w' : fs_WriteFile p d w = (Ok (), w') → is_ok (ch_Stat p w') = true
}.

(** [MarshalIndent] and a final newline, read back. *)
Class SettingsCodec (wf : Config → Prop) :=
  Unmarshal_saved c s : wf c → Marshal c = Ok s → Unmarshal (s +:+ nl) = Ok c.

Context `{!FileSystemLaws W} `{!ClientHostLaws} {wf : Config → Prop} `{!SettingsCodec wf}.

Lemma saveConfigTo_ok path c w p w' :
  wf c → saveConfigTo path c w = (Ok p, w') →
  p = path ∧ readConfigFile path w' = Ok (c, true) ∧ is_ok (ch_Stat path w') = true.
Proof.
  intros Hwf. unfold saveConfigTo. destruct (path =? "")%string; [done|].
  unfold mbind, M_bind, mlift. destruct (fs_MkdirAll _ w) as [[[]|e] w1]; [|done].
  destruct (Marshal c) as [data|e] eqn:Em; [|done].
  destruct (fs_WriteFile path (data +:+ nl) w1) as [[[]|e] w2] eqn:Ew; [|done].
  destruct (ch_Chmod path w2) as [[[]|e] w3] eqn:Ec; [|done]. intros [= <- <-].
  assert (w3 = (ch_Chmod path w2).2) as -> by (by rewrite Ec).
  split_and!; [done| |].
  - unfold readConfigFile. rewrite chl_chmod_read, (fs_write_read _ _ _ _ Ew).
    by rewrite (Unmarshal_saved c data).
  - rewrite chl_chmod_stat. by eapply chl_write_stat.
Qed.

(** A saved configuration reads back from the path that was reported, and when
    the per-user file is where it went, that file is the one the next command
    reads -- unless [BEACON_CONFIG] names another. *)
Lemma saveConfig_ok c w path w' :
  wf c → saveConfig c w = (Ok path, w') →
  (path = configPath w ∨ path = userConfigPath) ∧ readConfigFile path w' = Ok (c, true) ∧
  (env "BEACON_CONFIG" = "" → path = userConfigPath → configPath w' = path).
Proof.
  intros Hwf. unfold saveConfig. destruct (writableConfig (configPath w) w) as [ok w1].
  assert (∀ p p' w', saveConfigTo p c w1 = (Ok p', w') →
    p' = p ∧ readConfigFile p w' = Ok (c, true) ∧
    (env "BEACON_CONFIG" = "" → p = userConfigPath → configPath w' = p)) as Hs.
  { intros p p' w2 Hs.
    assert (p ≠ "") as Hne by (intros ->; unfold saveConfigTo in Hs; done).
    apply saveConfigTo_ok in Hs as (-> & Hr & Hst); [|done]. split_and!; [done..|].
    intros He ->. unfold configPath. rewrite He. cbn [String.eqb negb].
    by rewrite Hst, (proj2 (String.eqb_neq _ _) Hne). }
  destruct ok; [|destruct (negb _)]; intros (-> & ? & ?)%Hs; auto.
Qed.

Lemma set_args_keeps args c c' :
  set_args c args = Ok c' → carried c' = carried c ∧ Token c' = Token c ∧ Username c' = Username c.
Proof.
  revert c. induction args as [|arg args IH]; intros c; cbn; [by intros [= ->]|].
  unfold mbind, res_bind. destruct (set_arg c arg) as [c1|e] eqn:E; [|done].
  intros (-> & -> & ->)%IH. unfold set_arg in E. destruct (Cut arg "=") as [[k v]|]; [|done].
  repeat (destruct (k =? _)%string; [by injection E as <-|]). done.
Qed.

(** Editing a setting with [beacon config set] leaves the machine's identity,
    its session and its services in the file as they were. *)
Theorem configSet_keeps_identity args w c path w' :
  configSet args w = (Ok (c, path), w') → wf c →
  ∃ current exists_, readConfigFile (configPath w) w = Ok (current, exists_) ∧
    readConfigFile path w' = Ok (c, true) ∧
    carried c = carried current ∧ Token c = Token current ∧ Username c = Username current.
Proof.
  unfold configSet. destruct args as [|arg args]; [done|].
  destruct (readConfigFile (configPath w) w) as [[current ex]|e]; [|done].
  destruct (set_args current (arg :: args)) as [c1|e] eqn:Ea; [|done].
  intros (p & w1 & Hs & Hr)%M_bind_ok_inv Hwf. injection Hr as <- <- <-.
  exists current, ex. apply saveConfig_ok in Hs as (_ & Hs & _); [|done].
  split; [done|]. split; [done|]. by eapply set_args_keeps.
Qed.

(** Editing the same settings in the form of [beacon config] does not: whatever
    is typed, saving it writes a file without the agent's key, its assertion, the
    session, the token, the host key, the services and the update setting.  The
    machine is no longer enrolled. *)
Theorem config_form_forgets_identity `{URLParse} keys r w saved path w' :
  runConfigForm keys r w = (Ok (Some (saved, path)), w') → wf saved →
  readConfigFile path w' = Ok (saved, true) ∧
  carried saved = ("", "", "", "", None, None) ∧ Token saved = "" ∧ Username saved = "".
Proof.
  unfold runConfigForm. destruct (negb _); [done|].
  intros (p & w1 & Hs & Hr)%M_bind_ok_inv Hwf. injection Hr as <- <- <-.
  apply saveConfig_ok in Hs as (_ & Hs & _); [|done]. done.
Qed.

(** Signing out writes the environment's admin token into the settings file:
    the configuration it saves is the effective one, not the file's. *)
Theorem logout_persists_env_token w cfg path w' :
  loadConfig [] w = Ok cfg → wf (set_Session "" (rv_Config cfg)) → TrimSpace (env "BEACON_TOKEN") ≠ "" →
  cmdLogout w = (Ok (Some path), w') →
  ∃ c, readConfigFile path w' = Ok (c, true) ∧ Token c = TrimSpace (env "BEACON_TOKEN").
Proof.
  intros El Hwf Ht. unfold cmdLogout. rewrite El.
  destruct (Session _ =? "")%string; [done|].
  intros (p & w1 & Hs & Hr)%M_bind_ok_inv. injection Hr as <- <-.
  apply saveConfig_ok in Hs as (_ & Hs & _); [|done].
  eexists. split; [exact Hs|]. cbn.
  unfold loadConfig, mbind, res_bind in El. destruct (readConfigFile _ w) as [[fc ex]|e]; [|done].
  injection El as <-. unfold apply_flags. cbn [fold_left].
  assert (keyToken ∈ configKeys) as Hk by (repeat constructor).
  pose proof (seen_env (if ex then apply_file fc (mkResolved defaultConfig (list_to_map ((λ k, (k, fromDefault)) <$> configKeys)) (configPath w) ex)
    else mkResolved defaultConfig (list_to_map ((λ k, (k, fromDefault)) <$> configKeys)) (configPath w) ex) keyToken Hk) as Hseen.
  unfold layer in Hseen. cbn [env_name keyToken] in Hseen.
  change (env_name keyToken) with "BEACON_TOKEN" in Hseen.
  rewrite (proj2 (String.eqb_neq _ _) Ht) in Hseen. by injection Hseen.
Qed.
End settings.

(** ** Witnesses: a disk where some paths are read only *)
Module Box.
Record t := mk { files : gmap string string; readonly : gset string }.

#[global] Instance fs : FileSystem t := {|
  fs_ReadFile p w := match files w !! p with Some s => Ok s | None => Err (errNotExist p) end;
  fs_WriteFile p d w :=
    if decide (p ∈ readonly w) then (Err (mkError "permission denied" [ErrPermission]), w)
    else (Ok (), mk (<[p := d]> (files w)) (readonly w));
  fs_MkdirAll _ w := (Ok (), w)
|}.
#[global] Instance fs_laws : FileSystemLaws t.
Proof.
  split; cbn.
  - intros p d w w'. case_decide; [done|]. intros [= <-]. cbn. by rewrite lookup_insert_eq.
  - intros p q d w Hne. case_decide; [done|]. cbn. by rewrite lookup_insert_ne.
  - done.
Qed.
#[global] Instance host : ClientHost t := {|
  ch_Stat p w := match files w !! p with Some _ => Ok () | None => Err (errNotExist p) end;
  ch_OpenForWriting p w :=
    if decide (p ∈ readonly w) then Err (mkError "permission denied" [ErrPermission])
    else match files w !! p with Some _ => Ok () | None => Err (errNotExist p) end;
  ch_Create p w := (Ok (), mk (<[p := ""]> (files w)) (readonly w));
  ch_Remove p w := mk (delete p (files w)) (readonly w);
  ch_Chmod _ w := (Ok (), w)
|}.
#[global] Instance host_laws : ClientHostLaws (W := t).
Proof.
  split; cbn; [done..|]. intros p d w w'. case_decide; [done|]. intros [= <-]. cbn.
  by rewrite lookup_insert_eq.
Qed.
#[global] Instance codec : JSON Config := {|
  Marshal c := Marshal (JSON := ToyJSON.toy_json Config) c;
  Unmarshal s := Decode (JSON := ToyJSON.toy_json Config) s;
  Decode := Decode (JSON := ToyJSON.toy_json Config)
|}.
#[global] Instance codec_law : SettingsCodec (λ _, True).
Proof.
  intros c s Hc Hm. exact (Decode_line (H0 := ToyJSON.toy_json_laws Config) c s Hc Hm).
Qed.
#[global] Instance urls : URLParse := λ s,
  match Cut s "://" with Some (a, b) => Ok (a, b) | None => Ok ("", "") end.

Definition enrolled : Config :=
  mkConfig "https://relay" "lab-1" "" "" "ana" "cookie" "KEY" "ASSERTION" "HOSTKEY" (Some false)
    (Some {["db" := "127.0.0.1:5432"]}).
Definition text (c : Config) : string := match Marshal c with Ok s => s +:+ nl | Err _ => "" end.
Definition installed : t := mk {["/etc/beacon/config.json" := text enrolled]} ∅.
Definition around : Surroundings :=
  mkSurroundings {["BEACON_TOKEN" := "admin"]} (Ok "/root/.config") "lab-1.local".
End Box.

Lemma load_precedence_witness :
  let r := match loadConfig Box.around [("server", "http://other")] Box.installed with
           | Ok r => r | Err _ => mkResolved emptyConfig ∅ "" false end in
  seen keyServer r = ("http://other", Some fromFlag) ∧ seen keyToken r = ("admin", Some fromEnv) ∧
  carried (rv_Config r) = carried Box.enrolled.
Proof.
  intros r.
  assert (loadConfig Box.around [("server", "http://other")] Box.installed = Ok r) as Hr
    by (vm_compute; reflexivity).
  assert (NoDup [("server", "http://other")].*1) as Hnd by (apply NoDup_singleton).
  destruct (load_precedence Box.around _ _ r keyServer Hnd ltac:(repeat constructor) Hr)
    as (fc & ex & Hf & Hs & Hc).
  destruct (load_precedence Box.around _ _ r keyToken Hnd ltac:(repeat constructor) Hr)
    as (fc' & ex' & Hf' & Hs' & _).
  assert (readConfigFile (configPath Box.around Box.installed) Box.installed = Ok (Box.enrolled, true))
    as He by (vm_compute; reflexivity).
  rewrite He in Hf, Hf'. injection Hf as <- <-. injection Hf' as <- <-.
  split_and!; [rewrite Hs|rewrite Hs'|exact Hc]; vm_compute; reflexivity.
Defined.

Lemma configSet_keeps_identity_witness :
  let run := configSet Box.around ["id=lab-9"] Box.installed in
  ∃ c path, fst run = Ok (c, path) ∧ AgentID c = "lab-9" ∧ carried c = carried Box.enrolled.
Proof.
  intros run. destruct (fst run) as [[c path]|e] eqn:E; [|vm_compute in E; discriminate].
  destruct (configSet_keeps_identity Box.around (wf := λ _, True) ["id=lab-9"] Box.installed c path (snd run))
    as (cur & ex & Hr & _ & Hc & _); [by apply run_result|exact I|].
  exists c, path. split; [done|]. split.
  - vm_compute in E. by injection E as <- _.
  - rewrite Hc. vm_compute in Hr. by injection Hr as <- _.
Defined.

Lemma config_form_forgets_identity_witness :
  let r := mkResolved Box.enrolled ∅ "/etc/beacon/config.json" true in
  let run := runConfigForm Box.around [KNext; KType (λ s, s +:+ "b"); KEnter] r Box.installed in
  ∃ saved path, fst run = Ok (Some (saved, path)) ∧ AgentID saved = "lab-1b" ∧ AgentKey saved = "" ∧
                Assertion saved = "".
Proof.
  intros r run. destruct (fst run) as [[[saved path]|]|e] eqn:E; try (vm_compute in E; discriminate).
  destruct (config_form_forgets_identity Box.around (wf := λ _, True)
    [KNext; KType (λ s, s +:+ "b"); KEnter] r Box.installed saved path (snd run))
    as (_ & Hc & _); [by apply run_result|exact I|].
  exists saved, path. unfold carried in Hc. injection Hc as _ Hk Ha _ _ _. split_and!; [done| |done..].
  vm_compute in E. by injection E as <- _.
Defined.

Lemma logout_persists_env_token_witness :
  let run := cmdLogout Box.around Box.installed in
  ∃ path c, fst run = Ok (Some path) ∧ readConfigFile path (snd run) = Ok (c, true) ∧ Token c = "admin".
Proof.
  intros run. destruct (fst run) as [[path|]|e] eqn:E; try (vm_compute in E; discriminate).
  destruct (loadConfig Box.around [] Box.installed) as [cfg|e] eqn:El; [|vm_compute in El; discriminate].
  destruct (logout_persists_env_token Box.around (wf := λ _, True) Box.installed cfg path (snd run) El I)
    as (c & Hr & Ht); [vm_compute; discriminate|by apply run_result|].
  exists path, c. split_and!; [done|exact Hr|]. rewrite Ht. vm_compute. reflexivity.
Defined.
