(* ===== verification/Flags.v ===== *)
(** * Command-line flags (the standard library's flag; client/run.go:
    explicitFlags; the flag sets of the commands)

    [flag.FlagSet.Parse] with [flag.ExitOnError]: what an argument list sets, and
    where it stops.  A set is the list of its flags in the order they are
    registered; registering a name twice panics. *)

From Stdlib Require Import Ascii.
From S2P Require Import Prelude GoStrings GoNum Interfaces ClientConfig.

Open Scope string_scope.
Open Scope list_scope.
Open Scope Z_scope.

Inductive flag_kind := FString (def : string) | FBool.
Notation flagset := (list (string * flag_kind)).

(** [fs.Var] panics on a name that begins with a dash, contains an equals sign or
    is taken. *)
Definition registrable (name : string) : bool := negb (HasPrefix name "-") && no_char 61 name.
Definition registers (fs : flagset) : bool := bool_decide (NoDup fs.*1) && forallb registrable fs.*1.

Definition lookup_flag (fs : flagset) (name : string) : option flag_kind := (list_to_map fs : gmap string flag_kind) !! name.

(** [strconv.ParseBool] *)
Definition ParseBool (s : string) : option bool :=
  if existsb (String.eqb s) ["1"; "t"; "T"; "TRUE"; "true"; "True"] then Some true
  else if existsb (String.eqb s) ["0"; "f"; "F"; "FALSE"; "false"; "False"] then Some false
  else None.
Definition FormatBool (b : bool) : string := if b then "true" else "false".

Inductive flag_error := ErrHelp | BadSyntax (s : string) | Undefined (name : string) | NeedsArgument (name : string)
  | InvalidValue (value name : string).

(** The flags given so far, by name, with what [Value.String()] says of each. *)
Notation actual := (gmap string string).

(** The name of [s[numMinus:]] and the value behind its first equals sign, which
    cannot be its first character. *)
Definition split_flag (s : string) : string * option string :=
  match s with
  | String c rest => match Cut rest "=" with Some (a, v) => (String c a, Some v) | None => (s, None) end
  | EmptyString => ("", None)
  end.

(** [parseOne] once the name is known. *)
Definition set_flag (fs : flagset) (name : string) (given : option string) (args : list string) (act : actual)
    : flag_error + (list string * actual) :=
  match lookup_flag fs name with
  | None => if (name =? "help")%string || (name =? "h")%string then inl ErrHelp else inl (Undefined name)
  | Some FBool =>
      match given with
      | None => inr (args, <[name := "true"]> act)
      | Some v => match ParseBool v with
                  | Some b => inr (args, <[name := FormatBool b]> act)
                  | None => inl (InvalidValue v name)
                  end
      end
  | Some (FString _) =>
      match given, args with
      | Some v, _ => inr (args, <[name := v]> act)
      | None, v :: args => inr (args, <[name := v]> act)
      | None, [] => inl (NeedsArgument name)
      end
  end.

(** Each flag takes an argument off the list, so its length is fuel enough. *)
Fixpoint parse_flags (fuel : nat) (fs : flagset) (args : list string) (act : actual)
    : flag_error + (actual * list string) :=
  match fuel, args with
  | S fuel, s :: rest =>
      if (len s <? 2) || negb (HasPrefix s "-") then inr (act, args)
      else if (s =? "--")%string then inr (act, rest)
      else
        let name := if HasPrefix s "--" then sdrop 2 s else sdrop 1 s in
        if (name =? "")%string || HasPrefix name "-" || HasPrefix name "=" then inl (BadSyntax s)
        else
          let '(name, given) := split_flag name in
          match set_flag fs name given rest act with
          | inl e => inl e
          | inr (args, act) => parse_flags fuel fs args act
          end
  | _, _ => inr (act, args)
  end.

Definition Parse (fs : flagset) (args : list string) : flag_error + (actual * list string) :=
  parse_flags (length args) fs args ∅.

(** [flag.ExitOnError]: asked for help the process ends well, otherwise not. *)
Definition exit_on_error (e : flag_error) : Z := match e with ErrHelp => 0 | _ => 2 end.

(** [explicitFlags]: the flags that were given; [Visit] goes by name, and the
    result is a map. *)
Definition explicitFlags (act : actual) : list (string * string) := map_to_list act.

(** [*p] of what [fs.String] and [fs.Bool] returned. *)
Definition string_flag (fs : flagset) (act : actual) (name : string) : string :=
  match act !! name with
  | Some v => v
  | None => match lookup_flag fs name with Some (FString d) => d | _ => "" end
  end.
Definition bool_flag (act : actual) (name : string) : bool := bool_decide (act !! name = Some "true").

(** ** The fuel is enough *)
Lemma set_flag_shrinks fs name given args act args' act' :
  set_flag fs name given args act = inr (args', act') → (length args' ≤ length args)%nat.
Proof.
  unfold set_flag. destruct (lookup_flag fs name) as [[d|]|].
  - destruct given, args as [|v args]; intros [= <- <-]; cbn; lia.
  - destruct given as [v|]; [destruct (ParseBool v); [|done]|]; by intros [= <- <-].
  - by destruct (_ || _).
Qed.

Lemma parse_fuel fs n args act : (length args ≤ n)%nat → parse_flags n fs args act = parse_flags (length args) fs args act.
Proof.
  enough (∀ n m args act, (length args ≤ n)%nat → (length args ≤ m)%nat → parse_flags n fs args act = parse_flags m fs args act)
    by auto.
  clear. intros n. induction n as [|n IH]; intros [|m] [|s args] act Hn Hm; cbn in Hn, Hm; try done; try lia.
  cbn [parse_flags]. destruct (_ || _); [done|]. destruct (s =? "--")%string; [done|].
  set (name := if HasPrefix s "--" then _ else _). destruct (_ || _); [done|].
  destruct (split_flag name) as [name' given]. destruct (set_flag fs name' given args act) as [e|[args' act']] eqn:E; [done|].
  apply set_flag_shrinks in E. apply IH; lia.
Qed.

(** ** Writing flags *)

(** One flag the way a person writes it: with one dash or two, its value behind an
    equals sign or as the next argument. *)
Record spelled := mkSpelled { sf_name : string; sf_value : string; sf_double : bool; sf_joined : bool }.

Definition spell (s : spelled) : list string :=
  let dash := if sf_double s then "--" else "-" in
  if sf_joined s then [dash +:+ sf_name s +:+ "=" +:+ sf_value s] else [dash +:+ sf_name s; sf_value s].

Definition given (ss : list spelled) (act : actual) : actual :=
  fold_left (λ act s, <[sf_name s := sf_value s]> act) ss act.

(** Where parsing stops: at a word that is no flag. *)
Definition stops (rest : list string) : bool :=
  match rest with [] => true | s :: _ => (len s <? 2) || negb (HasPrefix s "-") end.

Definition string_name (fs : flagset) (name : string) : Prop := ∃ d, lookup_flag fs name = Some (FString d).

Lemma parse_flags_stops fuel fs rest act : stops rest = true → parse_flags fuel fs rest act = inr (act, rest).
Proof. intros Hs. destruct fuel, rest as [|s rest]; try done. cbn [parse_flags stops] in *. by rewrite Hs. Qed.

Lemma split_flag_joined name v : registrable name = true → name ≠ "" → split_flag (name +:+ "=" +:+ v) = (name, Some v).
Proof.
  intros [_ Hn]%andb_prop Hne. destruct name as [|c name]; [done|].
  unfold no_char in Hn. cbn in Hn. apply andb_prop in Hn as [_ Hn].
  rewrite sapp_cons. cbn [split_flag].
  change (Cut (name +:+ "=" +:+ v) "=") with (Cut (name +:+ String (byte 61) v) (String (byte 61) "")).
  by rewrite Cut_char.
Qed.
Lemma split_flag_alone name : registrable name = true → split_flag name = (name, None).
Proof.
  intros [_ Hn]%andb_prop. destruct name as [|c name]; [done|].
  unfold no_char in Hn. cbn in Hn. apply andb_prop in Hn as [_ Hn]. cbn [split_flag].
  change "=" with (String (byte 61) ""). by rewrite (proj2 (Cut_char_None 61 name) Hn).
Qed.

Lemma set_flag_given fs name v args act : string_name fs name →
  set_flag fs name (Some v) args act = inr (args, <[name := v]> act) ∧
  set_flag fs name None (v :: args) act = inr (args, <[name := v]> act).
Proof. intros [d Hd]. unfold set_flag. by rewrite Hd. Qed.

Lemma looked_up_registrable fs name k : registers fs = true → lookup_flag fs name = Some k → registrable name = true.
Proof.
  unfold registers, lookup_flag. intros [Hnd Hr]%andb_prop Hl%elem_of_list_to_map_2.
  rewrite forallb_forall in Hr. apply Hr, list_elem_of_In. apply list_elem_of_fmap. by exists (name, k).
Qed.

(** What follows the dashes of a flag is its name, with or without a value. *)
Lemma after_dashes double name tail :
  registrable name = true → name ≠ "" →
  let s := (if double : bool then "--" else "-") +:+ name +:+ tail in
  2 ≤ len s ∧ HasPrefix s "-" = true ∧ s ≠ "--" ∧
  (if HasPrefix s "--" then sdrop 2 s else sdrop 1 s) = name +:+ tail.
Proof.
  intros [Hd _]%andb_prop Hne s. destruct name as [|c name]; [done|].
  change "-" with (String (byte 45) "") in Hd. rewrite HasPrefix_char in Hd. apply negb_true_iff in Hd.
  pose proof (len_nonneg (name +:+ tail)) as Hl.
  assert (HasPrefix (String (byte 45) (String c (name +:+ tail))) "--" = false) as Hone.
  { change (HasPrefix _ _) with (HasPrefix (String c (name +:+ tail)) (String (byte 45) "")). by rewrite HasPrefix_char. }
  unfold s. destruct double; rewrite !sapp_cons, ?sapp_nil_l, !len_cons; (split; [lia|]); (split; [done|]).
  - by split.
  - change (HasPrefix (String "-" (String c (name +:+ tail))) "--" = false) in Hone. rewrite Hone. split; [|done].
    intros [= Hc _]. rewrite Hc in Hd. done.
Qed.

Lemma parse_one fuel fs s args act :
  registers fs = true → string_name fs (sf_name s) → sf_name s ≠ "" →
  parse_flags (S fuel) fs (spell s ++ args) act = parse_flags fuel fs args (<[sf_name s := sf_value s]> act).
Proof.
  intros Hreg [d Hd] Hne. pose proof (looked_up_registrable _ _ _ Hreg Hd) as Hr.
  destruct (set_flag_given fs (sf_name s) (sf_value s) args act ltac:(by exists d)) as [Hg1 Hg2].
  assert (HasPrefix (sf_name s) "-" = false ∧ HasPrefix (sf_name s) "=" = false) as [Hp1 Hp2].
  { unfold registrable in Hr. apply andb_prop in Hr as [Hr1 Hr2]. split; [by apply negb_true_iff|].
    destruct (sf_name s) as [|c n]; [done|]. change "=" with (String (byte 61) ""). rewrite HasPrefix_char.
    unfold no_char in Hr2. cbn in Hr2. apply andb_prop in Hr2 as [Hc _]. by apply negb_true_iff. }
  assert (∀ tail, HasPrefix (sf_name s +:+ tail) "-" = false ∧ HasPrefix (sf_name s +:+ tail) "=" = false ∧
    ((sf_name s +:+ tail) =? "")%string = false) as Htail.
  { intros tail. destruct (sf_name s) as [|c n]; [done|]. rewrite sapp_cons.
    change "=" with (String (byte 61) "") in *. change "-" with (String (byte 45) "") in *.
    by rewrite !HasPrefix_char in *. }
  unfold spell. destruct (sf_joined s); cbn [app parse_flags].
  - destruct (after_dashes (sf_double s) (sf_name s) ("=" +:+ sf_value s) Hr Hne) as (Hl & Hd1 & Hd2 & Hn). cbn zeta in *.
    rewrite (proj2 (Z.ltb_ge _ _) Hl), Hd1, (proj2 (String.eqb_neq _ _) Hd2), Hn. cbn [orb negb].
    destruct (Htail ("=" +:+ sf_value s)) as (-> & -> & ->). cbn [orb]. rewrite split_flag_joined by done. by rewrite Hg1.
  - destruct (after_dashes (sf_double s) (sf_name s) "" Hr Hne) as (Hl & Hd1 & Hd2 & Hn). rewrite !sapp_nil_r in *. cbn zeta in *.
    rewrite (proj2 (Z.ltb_ge _ _) Hl), Hd1, (proj2 (String.eqb_neq _ _) Hd2), Hn. cbn [orb negb].
    rewrite Hp1, Hp2, (proj2 (String.eqb_neq _ _) Hne). cbn [orb]. rewrite split_flag_alone by done. by rewrite Hg2.
Qed.

Lemma parse_spelled fs ss rest act fuel :
  registers fs = true → Forall (λ s, string_name fs (sf_name s) ∧ sf_name s ≠ "") ss → stops rest = true →
  (length ss ≤ fuel)%nat →
  parse_flags fuel fs (concat (spell <$> ss) ++ rest) act = inr (given ss act, rest).
Proof.
  intros Hreg Hss Hst. revert act fuel. induction Hss as [|s ss [Hs Hne] _ IH]; intros act fuel Hf.
  { by apply parse_flags_stops. }
  cbn in Hf. destruct fuel as [|fuel]; [lia|]. cbn [fmap list_fmap concat]. rewrite <-app_assoc.
  rewrite parse_one by done. by rewrite IH by lia.
Qed.

Lemma spell_length s : (1 ≤ length (spell s))%nat.
Proof. unfold spell. destruct (sf_joined s); cbn; lia. Qed.

Lemma parse_round_trip fs ss rest :
  registers fs = true → Forall (λ s, string_name fs (sf_name s) ∧ sf_name s ≠ "") ss → stops rest = true →
  Parse fs (concat (spell <$> ss) ++ rest) = inr (given ss ∅, rest).
Proof.
  intros Hreg Hss Hst. apply parse_spelled; [done..|]. rewrite length_app.
  clear. induction ss as [|s ss IH]; [cbn; lia|]. cbn [fmap list_fmap concat]. rewrite length_app.
  pose proof (spell_length s). cbn. lia.
Qed.
