(* ===== verification/ClientURLs.v ===== *)
(** * The addresses the client dials (client/identity.go: relayURL;
    client/sshcmd.go: shellURL; client/forwardcmd.go: forwardURL;
    client/session.go: hostPort)

    [net/url]: parsing is the class [URLParser]; escaping and printing, which
    decide what reaches the relay, are written out. *)

From Stdlib Require Import Ascii.
From S2P Require Import Prelude GoStrings GoNum GoBase64 Interfaces GoNet Mux.

Open Scope string_scope.
Open Scope list_scope.
Open Scope Z_scope.

(** ** net/url *)
Record URL := mkURL {
  u_Scheme : string;
  u_Opaque : string;
  u_User : option string;       (* Userinfo.String() *)
  u_Host : string;
  u_Path : string;
  u_RawPath : string;
  u_OmitHost : bool;
  u_ForceQuery : bool;
  u_RawQuery : string;
  u_Fragment : string           (* EscapedFragment() *)
}.

Class URLParser := Parse : string → res URL.

Definition set_Scheme v u := mkURL v (u_Opaque u) (u_User u) (u_Host u) (u_Path u) (u_RawPath u)
  (u_OmitHost u) (u_ForceQuery u) (u_RawQuery u) (u_Fragment u).
Definition set_Path v u := mkURL (u_Scheme u) (u_Opaque u) (u_User u) (u_Host u) v (u_RawPath u)
  (u_OmitHost u) (u_ForceQuery u) (u_RawQuery u) (u_Fragment u).
Definition set_RawQuery v u := mkURL (u_Scheme u) (u_Opaque u) (u_User u) (u_Host u) (u_Path u) (u_RawPath u)
  (u_OmitHost u) (u_ForceQuery u) v (u_Fragment u).

Inductive encoding := encodePath | encodePathSegment | encodeHost.

Definition is_alnum (c : ascii) : bool :=
  let n := val c in
  (97 <=? n) && (n <=? 122) || (65 <=? n) && (n <=? 90) || (48 <=? n) && (n <=? 57).
Definition one_of (cs : list N) (c : ascii) : bool := existsb (λ n, is_char n c) cs.

(** The characters are ! $ & ' ( ) * + , ; = : [ ] < > and the double quote;
    - _ . ~ ; and $ & + , / : ; = ? @. *)
Definition shouldEscape (mode : encoding) (c : ascii) : bool :=
  if is_alnum c then false
  else if match mode with
          | encodeHost => one_of [33; 36; 38; 39; 40; 41; 42; 43; 44; 59; 61; 58; 91; 93; 60; 62; 34]%N c
          | _ => false
          end then false
  else if one_of [45; 95; 46; 126]%N c then false
  else if one_of [36; 38; 43; 44; 47; 58; 59; 61; 63; 64]%N c then
    match mode with
    | encodePath => is_char 63 c
    | encodePathSegment => one_of [47; 59; 44; 63]%N c
    | encodeHost => true
    end
  else true.

Definition upper_hex (n : Z) : ascii :=
  byte (Z.to_N (if n <? 10 then 48 + n else 55 + n)).

Fixpoint escape (mode : encoding) (s : string) : string :=
  match s with
  | EmptyString => ""
  | String c s' =>
      if shouldEscape mode c
      then String (byte 37) (String (upper_hex (val c / 16)) (String (upper_hex (val c mod 16)) (escape mode s')))
      else String c (escape mode s')
  end.

Definition PathEscape : string → string := escape encodePathSegment.

(** [validEncoded(s, encodePath)]: besides what needs no escape, ! $ & ' ( ) *
    + , ; = : @ [ ] and the percent sign. *)
Definition validEncodedPath : string → bool :=
  schars (λ c, one_of [33; 36; 38; 39; 40; 41; 42; 43; 44; 59; 61; 58; 64; 91; 93; 37]%N c
               || negb (shouldEscape encodePath c)).

Definition EscapedPath (u : URL) : string :=
  if negb (u_RawPath u =? "")%string && validEncodedPath (u_RawPath u)
     && bool_decide (PathUnescape (u_RawPath u) = Some (u_Path u))
  then u_RawPath u
  else if (u_Path u =? "*")%string then "*" else escape encodePath (u_Path u).

(** [URL.String] *)
Definition authority (u : URL) : string :=
  if negb (u_Scheme u =? "")%string || negb (u_Host u =? "")%string || bool_decide (is_Some (u_User u)) then
    if u_OmitHost u && (u_Host u =? "")%string && negb (bool_decide (is_Some (u_User u))) then ""
    else
      (if negb (u_Host u =? "")%string || negb (u_Path u =? "")%string || bool_decide (is_Some (u_User u))
       then "//" else "")
      +:+ (match u_User u with Some ui => ui +:+ "@" | None => "" end)
      +:+ (if negb (u_Host u =? "")%string then escape encodeHost (u_Host u) else "")
  else "".

Definition url_String (u : URL) : string :=
  let scheme := if negb (u_Scheme u =? "")%string then u_Scheme u +:+ ":" else "" in
  let body :=
    if negb (u_Opaque u =? "")%string then u_Opaque u
    else
      let auth := authority u in
      let path := EscapedPath u in
      let slash := if negb (path =? "")%string && negb (HasPrefix path "/") && negb (u_Host u =? "")%string
                   then "/" else "" in
      let dot := if (scheme +:+ auth +:+ slash =? "")%string
                    && Contains (match Cut path "/" with Some (a, _) => a | None => path end) ":"
                 then "./" else "" in
      auth +:+ slash +:+ dot +:+ path in
  scheme +:+ body
  +:+ (if u_ForceQuery u || negb (u_RawQuery u =? "")%string then "?" +:+ u_RawQuery u else "")
  +:+ (if negb (u_Fragment u =? "")%string then "#" +:+ u_Fragment u else "").

(** The port of a host, ":port" being optional, and the host without it. *)
Definition validOptionalPort (port : string) : bool :=
  match port with
  | EmptyString => true
  | String c rest => is_char 58 c && schars is_digit rest
  end.

Definition split_port (hostport : string) : string * string :=
  match CutLast hostport 58 with
  | Some (h, p) => if schars is_digit p then (h, p) else (hostport, "")
  | None => (hostport, "")
  end.

Definition Port (u : URL) : string := snd (split_port (u_Host u)).
Definition Hostname (u : URL) : string :=
  let h := fst (split_port (u_Host u)) in
  if HasPrefix h "[" && HasSuffix h "]" then stake (len h - 2) (sdrop 1 h) else h.

(** ** The client *)
Section urls.
  Context `{URLParser}.

Definition no_host (server : string) : error := errorf ("server URL " +:+ quote server +:+ " has no host").

Definition relayURL (server path : string) : res string :=
  u ← Parse server;
  if (u_Host u =? "")%string then Err (no_host server)
  else Ok (url_String (set_RawQuery "" (set_Path path u))).

(** The switch of [shellURL] and [forwardURL]. *)
Definition websocket_scheme (scheme : string) : res string :=
  if (scheme =? "https")%string then Ok "wss"
  else if (scheme =? "http")%string then Ok "ws"
  else Err (errorf ("unsupported scheme " +:+ quote scheme +:+ ", expected http or https")).

Definition api_url (server path : string) : res URL :=
  u ← Parse server;
  s ← websocket_scheme (u_Scheme u);
  if (u_Host u =? "")%string then Err (no_host server)
  else Ok (set_RawQuery "" (set_Path path (set_Scheme s u))).

Definition shell_path (agent : string) : string := "/api/agents/" +:+ PathEscape agent +:+ "/shell".
Definition forward_path (agent service : string) : string :=
  "/api/agents/" +:+ PathEscape agent +:+ "/forward/" +:+ PathEscape service.

Definition shellURL (server agent : string) : res string :=
  u ← api_url server (shell_path agent); Ok (url_String u).
Definition forwardURL (server agent service : string) : res string :=
  u ← api_url server (forward_path agent service); Ok (url_String u).

Definition hostPort (u : URL) : string :=
  if negb (Port u =? "")%string then u_Host u
  else if (u_Scheme u =? "https")%string then JoinHostPort (Hostname u) "443"
  else JoinHostPort (Hostname u) "80".
End urls.

Example PathEscape_space : PathEscape "my lab" = "my%20lab".
Proof. reflexivity. Qed.
Example split_port_v6 : split_port "[::1]:8443" = ("[::1]", "8443").
Proof. reflexivity. Qed.

(** ** What the relay gets to see *)

Definition simple_url (u : URL) : Prop := u_RawPath u = "".

Lemma escape_app mode a b : escape mode (a +:+ b) = escape mode a +:+ escape mode b.
Proof. induction a as [|c a IH]; [done|]. rewrite !sapp_cons. cbn. destruct (shouldEscape mode c); by rewrite IH. Qed.

Lemma escape_none mode s : schars (λ c, negb (shouldEscape mode c)) s = true → escape mode s = s.
Proof.
  induction s as [|c s IH]; [done|]. cbn. intros [Hc Hs]%andb_true_iff.
  destruct (shouldEscape mode c); [done|]. by rewrite IH.
Qed.

Lemma byte_hex : ∀ n, (n < 256)%N →
  hex_val (upper_hex (Z.of_N n / 16)) = Some (Z.of_N n / 16) ∧
  hex_val (upper_hex (Z.of_N n mod 16)) = Some (Z.of_N n mod 16).
Proof.
  assert (forallb (λ n, bool_decide (hex_val (upper_hex (Z.of_nat n / 16)) = Some (Z.of_nat n / 16))
                        && bool_decide (hex_val (upper_hex (Z.of_nat n mod 16)) = Some (Z.of_nat n mod 16)))
                  (seq 0 256) = true) as Hall by (vm_compute; reflexivity).
  intros n Hn. rewrite forallb_forall in Hall.
  specialize (Hall (N.to_nat n)). rewrite in_seq, N_nat_Z in Hall.
  apply andb_true_iff in Hall as [H1 H2]; [|lia]. by rewrite !bool_decide_eq_true in *.
Qed.

(** A segment or path, escaped and unescaped, is itself. *)
Lemma PathUnescape_escape mode s : mode ≠ encodeHost → PathUnescape (escape mode s) = Some s.
Proof.
  intros Hm. induction s as [|c s IH]; [done|]. cbn [escape].
  destruct (shouldEscape mode c) eqn:E.
  - cbn [PathUnescape]. change (is_char 37 (byte 37)) with true. cbn match.
    destruct (byte_hex (code c) (code_bound c)) as [H1 H2]. unfold val. rewrite H1, H2. cbn [mbind option_bind].
    rewrite IH. cbn. f_equal. f_equal.
    replace (Z.of_N (code c) / 16 * 16 + Z.of_N (code c) mod 16) with (Z.of_N (code c))
      by (pose proof (Z.div_mod (Z.of_N (code c)) 16); lia).
    by rewrite N2Z.id, byte_code.
  - rewrite PathUnescape_char; [by rewrite IH|].
    destruct (is_char 37 c) eqn:Ec; [|done]. exfalso. unfold is_char in Ec. apply Ascii.eqb_eq in Ec as ->.
    destruct mode; done.
Qed.

Lemma escape_inj mode s t : mode ≠ encodeHost → escape mode s = escape mode t → s = t.
Proof.
  intros Hm He. assert (Some s = Some t) as Hs; [|by injection Hs].
  by rewrite <-(PathUnescape_escape mode s), <-(PathUnescape_escape mode t), He.
Qed.

Lemma upper_hex_no_slash c :
  is_char 47 (upper_hex (val c / 16)) = false ∧ is_char 47 (upper_hex (val c mod 16)) = false.
Proof.
  destruct (byte_hex (code c) (code_bound c)) as [H1 H2]. unfold val.
  split; apply not_true_is_false; unfold is_char; intros He%Ascii.eqb_eq; rewrite He in *; done.
Qed.

Lemma no_slash_cons mode c s :
  shouldEscape mode c = true ∨ is_char 47 c = false →
  no_char 47 (escape mode s) = true → no_char 47 (escape mode (String c s)) = true.
Proof.
  intros Hc Hs. cbn [escape]. unfold no_char in *. destruct (upper_hex_no_slash c) as [H1 H2].
  destruct (shouldEscape mode c) eqn:E; cbn [schars].
  - rewrite H1, H2, Hs. done.
  - destruct Hc as [?|Hc]; [done|]. by rewrite Hc, Hs.
Qed.

Lemma PathEscape_no_slash s : no_char 47 (PathEscape s) = true.
Proof.
  unfold PathEscape. induction s as [|c s IH]; [done|]. apply no_slash_cons; [|done].
  destruct (is_char 47 c) eqn:E; [left|by right]. unfold is_char in E. by apply Ascii.eqb_eq in E as ->.
Qed.

Lemma escape_no_slash mode s : no_char 47 s = true → no_char 47 (escape mode s) = true.
Proof.
  induction s as [|c s IH]; [done|]. unfold no_char in *. cbn [schars]. intros [Hc Hs]%andb_true_iff.
  apply no_slash_cons; [right; by apply negb_true_iff|by apply IH].
Qed.

(** A segment the path cleaning of the mux leaves alone. *)
Definition plain_segment (s : string) : Prop := s ≠ "" ∧ s ≠ "." ∧ s ≠ "..".

Lemma plain_escape mode s : mode ≠ encodeHost → plain_segment s → plain_segment (escape mode s).
Proof.
  intros Hm (H1 & H2 & H3).
  split_and!; intros He; [apply H1|apply H2|apply H3]; apply (escape_inj mode); try done; rewrite He;
    by destruct mode.
Qed.

(** Twice escaped: the segment as it goes on the wire. *)
Definition wire_segment (s : string) : string := escape encodePath (PathEscape s).

Lemma wire_segment_spec s :
  plain_segment s →
  no_char 47 (wire_segment s) = true ∧ plain_segment (wire_segment s) ∧
  path_segment (wire_segment s) = PathEscape s ∧ PathEscape s ≠ "".
Proof.
  intros Hs. split_and!.
  - apply escape_no_slash, PathEscape_no_slash.
  - unfold wire_segment, PathEscape. refine (plain_escape _ _ _ (plain_escape _ _ _ Hs)); done.
  - unfold path_segment, wire_segment. by rewrite PathUnescape_escape.
  - refine (proj1 (plain_escape encodePathSegment s _ Hs)). done.
Qed.

Lemma clean_step_plain stack s : plain_segment s → clean_step stack s = s :: stack.
Proof.
  intros (H1 & H2 & H3). unfold clean_step. by rewrite !(proj2 (String.eqb_neq _ _)).
Qed.

Lemma Split_unsegments segs :
  segs ≠ [] → Forall (λ s, no_char 47 s = true) segs → segments (unsegments segs) = segs.
Proof.
  intros Hne Hs. unfold segments, unsegments. rewrite TrimPrefix_app.
  induction Hs as [|s segs Hs Hsegs IH]; [done|]. destruct segs as [|s' segs].
  - cbn. by apply Split_no_char.
  - cbn [Join]. change ("/" +:+ ?x) with (String (byte 47) x). rewrite Split_app by done.
    f_equal. by apply IH.
Qed.

Lemma cleanPath_plain segs :
  segs ≠ [] → Forall (λ s, no_char 47 s = true) segs → Forall plain_segment segs →
  cleanPath (unsegments segs) = unsegments segs.
Proof.
  intros Hne Hns Hp. unfold cleanPath. rewrite Split_unsegments by done.
  assert (∀ stack, fold_left clean_step segs stack = reverse segs ++ stack) as Hfold.
  { clear -Hp. induction Hp as [|s segs Hs Hp IH]; intros stack; [done|]. cbn [fold_left].
    rewrite clean_step_plain, IH by done. by rewrite reverse_cons, <-app_assoc. }
  rewrite Hfold, app_nil_r, reverse_involutive.
  rewrite bool_decide_eq_false_2; [done|].
  intros Hl. apply last_Some in Hl as [l' ->]. apply Forall_app in Hp as [_ Hp].
  apply Forall_cons in Hp as [Hp _]. by destruct Hp.
Qed.

(** ** From the client's URL to the relay's handler *)
From S2P Require Import Dashboard.

Lemma EscapedPath_set path u :
  u_RawPath u = "" → path ≠ "*" → EscapedPath (set_RawQuery "" (set_Path path u)) = escape encodePath path.
Proof.
  intros Hr Hp. unfold EscapedPath. cbn. rewrite Hr. cbn. by rewrite (proj2 (String.eqb_neq _ _) Hp).
Qed.

Lemma wire_shell agent :
  escape encodePath (shell_path agent) = unsegments ["api"; "agents"; wire_segment agent; "shell"].
Proof. unfold shell_path. rewrite !escape_app. reflexivity. Qed.

Lemma wire_forward agent service :
  escape encodePath (forward_path agent service)
  = unsegments ["api"; "agents"; wire_segment agent; "forward"; wire_segment service].
Proof. unfold forward_path. rewrite !escape_app. reflexivity. Qed.

Lemma mux_plain segs :
  segs ≠ [] → Forall (λ s, no_char 47 s = true) segs → Forall plain_segment segs →
  ∀ p rt params, lookup route_table "GET" (path_segment <$> segs) = Some (p, rt, params) →
    exact_match p (path_segment <$> segs) = true →
    ServeMux route_table "GET" (unsegments segs) = MuxFound rt params.
Proof.
  intros Hne Hns Hp p rt params Hl He. unfold ServeMux.
  change ("GET" =? "CONNECT")%string with false. cbv beta iota zeta.
  rewrite cleanPath_plain, Split_unsegments by done. rewrite Hl. cbn [found_exact].
  rewrite He, String.eqb_refl. reflexivity.
Qed.

(** The id a shell or a forward session asks for is the one the operator typed
    exactly when it needs no escaping; the relay otherwise sees it escaped,
    because the client escapes the segment and [URL.String] escapes the path
    again. *)
Theorem client_paths_reach_agent u agent service :
  u_RawPath u = "" → plain_segment agent → plain_segment service →
  let raw p := EscapedPath (set_RawQuery "" (set_Path p u)) in
  ServeMux route_table "GET" (raw (shell_path agent)) = MuxFound RShell [("id", PathEscape agent)] ∧
  ServeMux route_table "GET" (raw (forward_path agent service))
  = MuxFound RForward [("id", PathEscape agent); ("service", PathEscape service)] ∧
  (PathEscape agent = agent ↔ schars (λ c, negb (shouldEscape encodePathSegment c)) agent = true).
Proof.
  intros Hr Ha Hs raw. unfold raw.
  destruct (wire_segment_spec agent Ha) as (Hn1 & Hp1 & He1 & Hne1).
  destruct (wire_segment_spec service Hs) as (Hn2 & Hp2 & He2 & Hne2).
  rewrite !EscapedPath_set by done. rewrite wire_shell, wire_forward. split_and!.
  - eapply (mux_plain ["api"; "agents"; wire_segment agent; "shell"]);
      [done|by rewrite !Forall_cons|by rewrite !Forall_cons| |].
    + cbn [fmap list_fmap]. rewrite He1. cbn. by rewrite (proj2 (String.eqb_neq _ _) Hne1).
    + done.
  - eapply (mux_plain ["api"; "agents"; wire_segment agent; "forward"; wire_segment service]);
      [done|by rewrite !Forall_cons|by rewrite !Forall_cons| |].
    + cbn [fmap list_fmap]. rewrite He1, He2. cbn.
      by rewrite (proj2 (String.eqb_neq _ _) Hne1), (proj2 (String.eqb_neq _ _) Hne2).
    + done.
  - split; [|apply escape_none]. intros He. clear -He. unfold PathEscape in He.
    assert (∀ s, len s ≤ len (escape encodePathSegment s)) as Hlen.
    { clear. induction s as [|c s IH]; [done|]. cbn [escape].
      destruct (shouldEscape _ c); rewrite !len_cons; lia. }
    induction agent as [|c s IH]; [done|]. cbn [escape] in He. cbn [schars].
    destruct (shouldEscape encodePathSegment c).
    + exfalso. apply (f_equal len) in He. rewrite !len_cons in He. specialize (Hlen s). lia.
    + injection He as He. by apply IH.
Qed.

Lemma client_paths_reach_agent_witness :
  let u := mkURL "wss" "" None "relay.example.com" "" "" false false "" "" in
  ServeMux route_table "GET" (EscapedPath (set_RawQuery "" (set_Path (shell_path "my lab") u)))
  = MuxFound RShell [("id", "my%20lab")].
Proof.
  intros u. refine (proj1 (client_paths_reach_agent u "my lab" "ssh" _ _ _)); done.
Defined.
