(* ===== verification/Updater.v ===== *)
(** * Self-update (client/update.go, client/updateapply.go)

    A release is fetched, checked, put in place by renames and brought into
    service, or rolled back.  The disk and the service manager are written out
    here as a small machine whose every call may fail, so that what a failure or
    a crash leaves behind can be stated: [um_history] keeps every state the disk
    and the service went through. *)

From Stdlib Require Import Ascii.
From S2P Require Import Prelude GoStrings GoNum GoBase64 Interfaces GoNet.

Open Scope string_scope.
Open Scope list_scope.
Open Scope Z_scope.

(** ** Finding a release *)

(** [path.Base] *)
Fixpoint trim_slashes (s : string) : string :=
  match s with
  | EmptyString => ""
  | String c s' => let r := trim_slashes s' in
                   if is_char 47 c && (r =? "")%string then "" else String c r
  end.
Definition path_Base (p : string) : string :=
  if (p =? "")%string then "."
  else
    let s := trim_slashes p in
    let b := match CutLast s 47 with Some (_, b) => b | None => s end in
    if (b =? "")%string then "/" else b.

Example path_Base_tag :
  path_Base "https://github.com/bolchisb/go-beacon/releases/tag/v1.4.0" = "v1.4.0".
Proof. reflexivity. Qed.

Definition updateRepo := "bolchisb/go-beacon".
Definition verifyTimeout : Z := 3 * Minute.

(** An answer over HTTP: status code, status line, Location header, and the
    result of reading the body. *)
Record Fetched := mkFetched { ft_code : Z; ft_status : string; ft_location : string; ft_body : res string }.

Record svcInfo := mkSvcInfo { Installed : bool; Running : bool }.

Section release.
  (** [fetch] is a GET, redirects followed; [fetch_raw] one that stops at the
      redirect.  [sha256_hex] is the digest in hexadecimal. *)
  Context (fetch fetch_raw : string → res Fetched) (sha256_hex : string → string)
          (GOOS GOARCH version : string).

Definition latestTag : res string :=
  let url := "https://github.com/" +:+ updateRepo +:+ "/releases/latest" in
  resp ← fetch_raw url;
  if (ft_location resp =? "")%string
  then Err (errorf (url +:+ ": no redirect to a release, got " +:+ ft_status resp))
  else
    let tag := path_Base (ft_location resp) in
    if (tag =? "")%string || (tag =? "releases")%string
    then Err (errorf ("cannot read a tag out of " +:+ quote (ft_location resp)))
    else Ok tag.

Definition assetName : string :=
  "beacon-" +:+ GOOS +:+ "-" +:+ GOARCH +:+ (if (GOOS =? "windows")%string then ".exe" else "").

Definition assetURL (tag name : string) : string :=
  "https://github.com/" +:+ updateRepo +:+ "/releases/download/" +:+ tag +:+ "/" +:+ name.

Definition download (url : string) : res string :=
  resp ← fetch url;
  if negb (ft_code resp =? 200) then Err (errorf (url +:+ ": " +:+ ft_status resp)) else ft_body resp.

(** The first line of SHA256SUMS for [name]. *)
Fixpoint find_digest (name : string) (lines : list string) : string :=
  match lines with
  | [] => ""
  | line :: lines =>
      match Cut (TrimSpace line) "  " with
      | Some (digest, n) => if (n =? name)%string then digest else find_digest name lines
      | None => find_digest name lines
      end
  end.

Definition verifyChecksum (tag blob : string) : res () :=
  match download (assetURL tag "SHA256SUMS") with
  | Err e => Err (wrapf "checksums: " e)
  | Ok sums =>
      let want := find_digest assetName (Split sums 10) in
      if (want =? "")%string then Err (errorf ("SHA256SUMS has no entry for " +:+ assetName))
      else
        let got := sha256_hex blob in
        if negb (got =? want)%string
        then Err (errorf ("checksum mismatch: got " +:+ got +:+ ", expected " +:+ want))
        else Ok ()
  end.

(** ** The machine *)

(** [um_running] is the build the service manager is running.  [um_faults] is
    the outcome of the calls to come: [Some (k, e)] fails with [e], a write
    leaving the first [k] bytes (none of the file when [k] is negative).  What a write
    that succeeded left is taken to stay: the code never syncs, and what a loss of
    power makes of unsynced data is not modelled. *)
Record Machine := mkMachine {
  um_files : gmap string string;
  um_running : option string;
  um_faults : list (option (Z * error));
  um_history : list (gmap string string * option string)
}.

Notation UM := (M Machine).

(** One system call: [act] is what it does when it succeeds, [broken] what it
    leaves when it fails. *)
Definition syscall {A} (act : Machine → res A * Machine) (broken : Z → Machine → Machine) : UM A := λ m,
  let '(fault, faults) := match um_faults m with [] => (None, []) | f :: fs => (f, fs) end in
  let m := mkMachine (um_files m) (um_running m) faults (um_history m) in
  let '(r, m) := match fault with
                 | None => act m
                 | Some (k, e) => (Err e, broken k m)
                 end in
  (r, mkMachine (um_files m) (um_running m) (um_faults m)
        (um_history m ++ [(um_files m, um_running m)])).

Definition with_files (f : gmap string string) (m : Machine) : Machine :=
  mkMachine f (um_running m) (um_faults m) (um_history m).
Definition with_running (r : option string) (m : Machine) : Machine :=
  mkMachine (um_files m) r (um_faults m) (um_history m).

Definition no_such_file : error := mkError "no such file or directory" [ErrNotExist].

Definition os_WriteFile (p d : string) : UM () :=
  syscall (λ m, (Ok (), with_files (<[p := d]> (um_files m)) m))
          (λ k m, if k <? 0 then m else with_files (<[p := stake k d]> (um_files m)) m).
Definition os_Chmod (p : string) : UM () := syscall (λ m, (Ok (), m)) (λ _ m, m).
Definition os_Remove (p : string) : UM () :=
  attempt (syscall (λ m, (Ok (), with_files (delete p (um_files m)) m)) (λ _ m, m));; mret ().
Definition os_Stat (p : string) : UM () :=
  syscall (λ m, (match um_files m !! p with Some _ => Ok () | None => Err no_such_file end, m)) (λ _ m, m).
Definition os_Rename (a b : string) : UM () :=
  syscall (λ m, match um_files m !! a with
                | None => (Err no_such_file, m)
                | Some d => (Ok (), with_files (<[b := d]> (delete a (um_files m))) m)
                end) (λ _ m, m).

(** The service runs whatever is installed at [target] when it is started.  The
    managers differ in how they stop and start (Service.v, ServiceWindows.v): a start
    one of them refuses, because its stop unloads the service or is not over yet, is a
    fault of the call here. *)
Definition serviceStop : UM () := syscall (λ m, (Ok (), with_running None m)) (λ _ m, m).
Definition serviceStart (target : string) : UM () :=
  syscall (λ m, match um_files m !! target with
                | None => (Err no_such_file, m)
                | Some d => (Ok (), with_running (Some d) m)
                end) (λ _ m, m).

(** ** Putting a build in place *)
Definition elevationHint (exe : string) (e : error) : error :=
  if errors_Is e ErrPermission
  then errorf ("cannot replace " +:+ exe +:+ ": permission denied, try sudo") else e.

(** The last rename of [replaceBinary], and what undoes the first. *)
Definition swapIn (exe : string) (movedAside : bool) : UM () :=
  let staged := exe +:+ ".new" in
  let previous := exe +:+ ".old" in
  r ← attempt (os_Rename staged exe);
  match r with
  | Err e =>
      (if movedAside then attempt (os_Rename previous exe);; mret () else mret ());;
      os_Remove staged;;
      mthrow (elevationHint exe e)
  | Ok _ => mret ()
  end.

Definition replaceBinary (exe blob : string) : UM () :=
  let staged := exe +:+ ".new" in
  let previous := exe +:+ ".old" in
  r ← attempt (os_WriteFile staged blob);
  match r with
  | Err e => mthrow (elevationHint exe e)
  | Ok _ =>
      r ← attempt (os_Chmod staged);
      match r with
      | Err e => os_Remove staged;; mthrow e
      | Ok _ =>
          os_Remove previous;;
          st ← attempt (os_Stat exe);
          match st with
          | Err _ => swapIn exe false
          | Ok _ =>
              r ← attempt (os_Rename exe previous);
              match r with
              | Err e => os_Remove staged;; mthrow (elevationHint exe e)
              | Ok _ => swapIn exe true
              end
          end
      end
  end.

Definition rollback (target : string) : UM () :=
  let previous := target +:+ ".old" in
  st ← attempt (os_Stat previous);
  match st with
  | Err e => mthrow (wrapf ("no previous binary at " +:+ previous +:+ ": ") e)
  | Ok _ =>
      attempt serviceStop;;
      os_Remove (target +:+ ".failed");;
      os_Rename target (target +:+ ".failed");;
      os_Rename previous target
  end.

(** The poll loop: a clock reading, and what [fetchStatus] said. *)
Fixpoint waitForAgent (deadline : Z) (polls : list (Z * bool)) : bool :=
  match polls with
  | [] => false
  | (now, answered) :: polls =>
      if negb (now <? deadline) then false else if answered then true else waitForAgent deadline polls
  end.

(** [now] is read when the wait begins. *)
Definition restartAndVerify (target : string) (now : Z) (polls : list (Z * bool)) : UM () :=
  attempt serviceStop;;
  r ← attempt (serviceStart target);
  match r with
  | Err e =>
      rb ← attempt (rollback target);
      match rb with
      | Err rollbackErr =>
          mthrow (wrapf ("the new binary would not start (" +:+ err_text e
                         +:+ ") and the previous one could not be restored: ") rollbackErr)
      | Ok _ => mthrow (wrapf "the new binary would not start, previous one restored: " e)
      end
  | Ok _ =>
      if waitForAgent (now + verifyTimeout) polls then mret ()
      else
        rb ← attempt (rollback target);
        match rb with
        | Err e => mthrow (wrapf "the new binary never answered and the previous one could not be restored: " e)
        | Ok _ =>
            r ← attempt (serviceStart target);
            match r with
            | Err e => mthrow (wrapf "rolled back, but the service would not start: " e)
            | Ok _ => mthrow (errorf "the new binary never answered; the previous one was restored")
            end
        end
  end.

(** [streams] is the [Streams] of [fetchStatus], when something answers. *)
Definition guardActiveStreams (force : bool) (streams : res Z) : res () :=
  match streams with
  | Err _ => Ok ()
  | Ok n => if (n =? 0) || force then Ok ()
            else Err (errorf (itoa n +:+ " stream(s) in use right now; wait, or pass --force to interrupt them"))
  end.

(** [autoUpdateOnce]; [helper] is the result of [spawnRestartHelper].  True
    when a new build was put in place. *)
Definition autoUpdateOnce (target : string) (streams : res Z) (helper : res ()) : UM bool :=
  latest ← mlift latestTag;
  if (latest =? version)%string then mret false
  else match guardActiveStreams false streams with
       | Err _ => mret false
       | Ok _ =>
           blob ← mlift (download (assetURL latest assetName));
           mlift (verifyChecksum latest blob);;
           replaceBinary target blob;;
           mlift helper;; mret true
       end.

Definition applyRestart (target : string) (svc : res svcInfo) (answers : bool) (now : Z)
    (polls : list (Z * bool)) : UM string :=
  let by_hand := mret (if answers then "running in the foreground, restart it yourself" else "not running") in
  match svc with
  | Err _ => by_hand
  | Ok info =>
      if Installed info && Running info then
        r ← attempt (restartAndVerify target now polls);
        mret (match r with Err e => err_text e | Ok _ => "service restarted and answering" end)
      else if Installed info then
        r ← attempt (serviceStart target);
        mret (match r with Err e => "service would not start: " +:+ err_text e | Ok _ => "service started" end)
      else by_hand
  end.

(** How [cmdUpdate] ends, besides its panels. *)
Inductive update_outcome := UpToDate | UpdateAvailable (latest : string) | Updated (latest agent : string).

Definition cmdUpdate (check force : bool) (exe : string) (streams : res Z) (svc : res svcInfo) (now : Z)
    (polls : list (Z * bool)) : UM update_outcome :=
  os_Remove (exe +:+ ".old");;
  latest ← mlift latestTag;
  if check then mret (if (latest =? version)%string then UpToDate else UpdateAvailable latest)
  else if (latest =? version)%string && negb force then mret UpToDate
  else
    mlift (guardActiveStreams force streams);;
    blob ← mlift (download (assetURL latest assetName));
    mlift (verifyChecksum latest blob);;
    replaceBinary exe blob;;
    agent ← applyRestart exe svc (is_ok streams) now polls;
    mret (Updated latest agent).
End release.

(** ** What each call does to the disk *)

(** One more state in the history; the service is not touched. *)
Definition disk_step (m m' : Machine) : Prop :=
  um_running m' = um_running m ∧
  um_history m' = um_history m ++ [(um_files m', um_running m')].

Lemma syscall_inv {A} act broken (m : Machine) (r : res A) m' :
  syscall act broken m = (r, m') →
  ∃ m0 m1, um_files m0 = um_files m ∧ um_running m0 = um_running m ∧ um_history m0 = um_history m ∧
    um_files m' = um_files m1 ∧ um_running m' = um_running m1 ∧
    um_history m' = um_history m1 ++ [(um_files m1, um_running m1)] ∧
    (act m0 = (r, m1) ∨ ∃ k e, r = Err e ∧ m1 = broken k m0).
Proof.
  unfold syscall. intros H.
  destruct (match um_faults m with [] => _ | f :: fs => (f, fs) end) as [fault faults].
  set (m0 := mkMachine (um_files m) (um_running m) faults (um_history m)) in *.
  destruct fault as [[k e]|].
  - injection H as <- <-. exists m0, (broken k m0). split_and!; try done. right; eauto.
  - destruct (act m0) as [r1 m1] eqn:E. injection H as <- <-. exists m0, m1. split_and!; try done. by left.
Qed.

Ltac open_syscall H :=
  apply syscall_inv in H as (m0 & m1 & Hf0 & Hr0 & Hh0 & Hf & Hr & Hh & H);
  unfold disk_step; rewrite Hh, Hf, Hr.

Lemma WriteFile_spec p d m r m' :
  os_WriteFile p d m = (r, m') →
  disk_step m m' ∧
  match r with
  | Ok _ => um_files m' = <[p := d]> (um_files m)
  | Err _ => um_files m' = um_files m ∨ ∃ x, um_files m' = <[p := x]> (um_files m)
  end.
Proof.
  intros H. open_syscall H. destruct H as [[= <- <-]|(k & e & -> & ->)].
  - cbn. by rewrite Hf0, Hr0, Hh0.
  - destruct (k <? 0); cbn; rewrite Hf0, Hr0, Hh0; eauto.
Qed.

Lemma Chmod_spec p m r m' : os_Chmod p m = (r, m') → disk_step m m' ∧ um_files m' = um_files m.
Proof.
  intros H. open_syscall H. destruct H as [[= <- <-]|(k & e & -> & ->)]; by rewrite Hf0, Hr0, Hh0.
Qed.

Lemma Remove_spec p m r m' :
  os_Remove p m = (r, m') →
  r = Ok () ∧ disk_step m m' ∧ (um_files m' = um_files m ∨ um_files m' = delete p (um_files m)).
Proof.
  unfold os_Remove, mbind, M_bind, attempt. destruct (syscall _ _ m) as [r1 m2] eqn:H. intros [= <- <-].
  open_syscall H. destruct H as [[= <- <-]|(k & e & -> & ->)]; cbn; rewrite Hf0, Hr0, Hh0; auto.
Qed.

Lemma Stat_spec p m r m' :
  os_Stat p m = (r, m') →
  disk_step m m' ∧ um_files m' = um_files m ∧ (is_ok r = true → is_Some (um_files m !! p)).
Proof.
  intros H. open_syscall H. destruct H as [H|(k & e & -> & ->)].
  - rewrite <-Hf0. destruct (um_files m0 !! p) as [d|]; injection H as <- <-; rewrite Hr0, Hh0; eauto.
    by split_and!.
  - rewrite Hf0, Hr0, Hh0. by split_and!.
Qed.

Lemma Rename_spec a b m r m' :
  os_Rename a b m = (r, m') →
  disk_step m m' ∧
  match r with
  | Ok _ => ∃ d, um_files m !! a = Some d ∧ um_files m' = <[b := d]> (delete a (um_files m))
  | Err _ => um_files m' = um_files m
  end.
Proof.
  intros H. open_syscall H. destruct H as [H|(k & e & -> & ->)]; [|by rewrite Hf0, Hr0, Hh0].
  destruct (um_files m0 !! a) as [d|] eqn:E; injection H as <- <-; cbn; rewrite Hr0, Hh0, ?Hf0; [|done].
  rewrite <-Hf0. eauto.
Qed.

(** ** Names beside the binary *)
Lemma beside exe s : s ≠ "" → exe +:+ s ≠ exe.
Proof.
  intros Hs He. apply (f_equal len) in He. rewrite len_app in He.
  destruct s as [|c s]; [done|]. rewrite len_cons in He. pose proof (len_nonneg s). lia.
Qed.
Lemma beside_inj exe s t : exe +:+ s = exe +:+ t → s = t.
Proof. induction exe as [|c exe IH]; [done|]. rewrite !sapp_cons. intros [= He]. by apply IH. Qed.

(** ** Replacing the binary *)
Section replace.
  Context (exe blob old : string).

(** The binary is the old build or the whole new one; for the moment between
    the two renames it is missing, and the old build is at [.old]. *)
Definition never_half (f : gmap string string) : Prop :=
  f !! exe = Some old ∨ f !! exe = Some blob ∨ (f !! exe = None ∧ f !! (exe +:+ ".old") = Some old).

Definition good_history (m m' : Machine) : Prop :=
  um_running m' = um_running m ∧
  ∃ hs, um_history m' = um_history m ++ hs ∧ Forall (λ h, never_half h.1 ∧ h.2 = um_running m) hs.

Lemma good_refl m : good_history m m.
Proof. split; [done|]. exists []. by rewrite app_nil_r. Qed.

Lemma good_step m m1 m2 :
  good_history m m1 → disk_step m1 m2 → never_half (um_files m2) → good_history m m2.
Proof.
  intros (Hr & hs & Hh & Hg) [Hr2 Hh2] Hn. split; [congruence|].
  exists (hs ++ [(um_files m2, um_running m2)]). rewrite Hh2, Hh, <-app_assoc. split; [done|].
  apply Forall_app. split; [done|]. constructor; [|done]. split; [done|]. cbn. congruence.
Qed.

Lemma half_old f : f !! exe = Some old → never_half f.
Proof. by left. Qed.
Hint Resolve half_old : core.

Notation new := (exe +:+ ".new").
Notation prev := (exe +:+ ".old").

Lemma new_ne : new ≠ exe ∧ prev ≠ exe ∧ new ≠ prev.
Proof.
  split_and!; [by apply beside|by apply beside|]. intros He%beside_inj. done.
Qed.

(** What is promised once the replacement returns. *)
Definition settled (m m' : Machine) (r : res ()) : Prop :=
  good_history m m' ∧
  match r with
  | Ok _ => um_files m' !! exe = Some blob
  | Err _ => um_files m' !! exe = Some old ∨ (um_files m' !! exe = None ∧ um_files m' !! prev = Some old)
  end.

Definition kept (f : gmap string string) : Prop :=
  f !! exe = Some old ∨ (f !! exe = None ∧ f !! prev = Some old).

Lemma kept_never_half f : kept f → never_half f.
Proof. intros [?|?]; [by left|by right; right]. Qed.

Lemma kept_delete_new f : kept f → kept (delete new f).
Proof. destruct new_ne as (? & ? & ?). unfold kept. by rewrite !lookup_delete_ne. Qed.

(** The failure exit while the old build is somewhere. *)
Lemma backs_out m m1 e r m' :
  good_history m m1 → kept (um_files m1) →
  (os_Remove new;; mthrow (A := ()) e) m1 = (r, m') → settled m m' r.
Proof.
  intros G1 H1. destruct (os_Remove new m1) as [r2 m2] eqn:E2.
  pose proof (Remove_spec _ _ _ _ E2) as (-> & S2 & F2). rewrite (bind_ok _ _ _ _ _ E2).
  intros [= <- <-].
  assert (kept (um_files m2)) as H2
    by (destruct F2 as [-> | ->]; [done|by apply kept_delete_new]).
  split; [exact (good_step _ _ _ G1 S2 (kept_never_half _ H2))|done].
Qed.

Definition aside_state (aside : bool) (f : gmap string string) : Prop :=
  if aside then f !! exe = None ∧ f !! prev = Some old else f !! exe = Some old.

Lemma aside_kept aside f : aside_state aside f → kept f.
Proof. destruct aside; [by right|by left]. Qed.

(** The second rename, with the new build staged in full. *)
Lemma swapIn_spec m m1 aside r m' :
  good_history m m1 → aside_state aside (um_files m1) → um_files m1 !! new = Some blob →
  swapIn exe aside m1 = (r, m') → settled m m' r.
Proof.
  destruct new_ne as (Hn1 & Hn2 & Hn3). intros G1 H1 Hnew. unfold swapIn.
  destruct (os_Rename new exe m1) as [r2 m2] eqn:E2. rewrite (bind_attempt _ _ _ _ _ E2).
  apply Rename_spec in E2 as [S2 F2]. destruct r2 as [[]|e].
  - destruct F2 as (d & Hd & F2). rewrite Hnew in Hd. injection Hd as <-. intros [= <- <-].
    assert (um_files m2 !! exe = Some blob) as H2 by (by rewrite F2, lookup_insert_eq).
    split; [|done]. apply (good_step _ _ _ G1 S2). by right; left.
  - rewrite <-F2 in H1. pose proof (aside_kept _ _ H1) as H2.
    pose proof (good_step _ _ _ G1 S2 (kept_never_half _ H2)) as G2.
    destruct aside; [|by apply backs_out].
    rewrite M_bind_assoc. destruct (os_Rename prev exe m2) as [r3 m3] eqn:E3.
    rewrite (bind_attempt _ _ _ _ _ E3). apply Rename_spec in E3 as [S3 F3].
    assert (kept (um_files m3)) as H3.
    { destruct r3 as [[]|e']; [|by rewrite F3]. destruct F3 as (d & Hd & ->).
      destruct H1 as [_ H1]. left. rewrite lookup_insert_eq. congruence. }
    apply backs_out; [|done]. exact (good_step _ _ _ G2 S3 (kept_never_half _ H3)).
Qed.

Lemma replaceBinary_settled m r m' :
  um_files m !! exe = Some old → replaceBinary exe blob m = (r, m') → settled m m' r.
Proof.
  intros Hold.
  destruct new_ne as (Hn1 & Hn2 & Hn3). unfold replaceBinary.
  destruct (os_WriteFile new blob m) as [r1 m1] eqn:E1. rewrite (bind_attempt _ _ _ _ _ E1).
  apply WriteFile_spec in E1 as [S1 F1].
  assert (um_files m1 !! exe = Some old) as H1.
  { destruct r1; [rewrite F1; by rewrite lookup_insert_ne|].
    destruct F1 as [-> | [x ->]]; [done|by rewrite lookup_insert_ne]. }
  pose proof (good_step _ _ _ (good_refl m) S1 (half_old _ H1)) as G1.
  destruct r1 as [[]|e1]; [|intros [= <- <-]; by split; [|left]].
  assert (um_files m1 !! new = Some blob) as N1 by (by rewrite F1, lookup_insert_eq).
  destruct (os_Chmod new m1) as [r2 m2] eqn:E2. rewrite (bind_attempt _ _ _ _ _ E2).
  apply Chmod_spec in E2 as [S2 F2]. rewrite <-F2 in H1, N1.
  pose proof (good_step _ _ _ G1 S2 (half_old _ H1)) as G2.
  destruct r2 as [[]|e2]; [|apply backs_out; [done|by left]].
  destruct (os_Remove prev m2) as [r3 m3] eqn:E3. pose proof (Remove_spec _ _ _ _ E3) as (-> & S3 & F3).
  rewrite (bind_ok _ _ _ _ _ E3).
  assert (um_files m3 !! exe = Some old ∧ um_files m3 !! new = Some blob) as [H3 N3]
    by (destruct F3 as [-> | ->]; [done|by rewrite !lookup_delete_ne]).
  pose proof (good_step _ _ _ G2 S3 (half_old _ H3)) as G3.
  destruct (os_Stat exe m3) as [r4 m4] eqn:E4. rewrite (bind_attempt _ _ _ _ _ E4).
  apply Stat_spec in E4 as (S4 & F4 & _). rewrite <-F4 in H3, N3.
  pose proof (good_step _ _ _ G3 S4 (half_old _ H3)) as G4.
  destruct r4 as [[]|e4]; [|by apply swapIn_spec].
  destruct (os_Rename exe prev m4) as [r5 m5] eqn:E5. rewrite (bind_attempt _ _ _ _ _ E5).
  apply Rename_spec in E5 as [S5 F5]. destruct r5 as [[]|e5].
  - destruct F5 as (d & Hd & F5). rewrite H3 in Hd. injection Hd as <-.
    assert (aside_state true (um_files m5)) as H5.
    { split; rewrite F5; [rewrite lookup_insert_ne by done; apply lookup_delete_eq|apply lookup_insert_eq]. }
    apply swapIn_spec; [|done|].
    + exact (good_step _ _ _ G4 S5 (kept_never_half _ (aside_kept _ _ H5))).
    + rewrite F5, lookup_insert_ne, lookup_delete_ne by done. done.
  - rewrite <-F5 in H3. apply backs_out; [|by left]. exact (good_step _ _ _ G4 S5 (half_old _ H3)).
Qed.

(** C18: Whatever fails on the way and wherever the machine dies, the path of the
    binary never holds part of a build; success is the new build in place; and
    on failure the old one is in place, or at [.old] if putting it back failed
    too. *)
Theorem replace_binary_never_half m r m' :
  um_files m !! exe = Some old → replaceBinary exe blob m = (r, m') →
  um_running m' = um_running m ∧
  (∃ hs, um_history m' = um_history m ++ hs ∧ Forall (λ h, never_half h.1 ∧ h.2 = um_running m) hs) ∧
  match r with
  | Ok _ => um_files m' !! exe = Some blob
  | Err _ => um_files m' !! exe = Some old ∨ (um_files m' !! exe = None ∧ um_files m' !! prev = Some old)
  end.
Proof. intros Hold Hrun. by destruct (replaceBinary_settled m r m' Hold Hrun) as [[? ?] ?]. Qed.
End replace.

Lemma replace_binary_never_half_witness :
  let m := mkMachine {["/b" := "v1"]} (Some "v1") [None; None; None; None; None; Some (0, errorf "EIO")] [] in
  um_files (replaceBinary "/b" "v2" m).2 !! "/b" = Some "v1" ∨
  (um_files (replaceBinary "/b" "v2" m).2 !! "/b" = None ∧
   um_files (replaceBinary "/b" "v2" m).2 !! "/b.old" = Some "v1").
Proof.
  intros m.
  refine (proj2 (proj2 (replace_binary_never_half "/b" "v2" "v1" m (Err (errorf "EIO")) _ _ _)));
    [reflexivity|]. apply run_result. vm_compute. reflexivity.
Defined.

(** ** Only a verified build is ever installed *)
Section verified.
  Context (fetch fetch_raw : string → res Fetched) (sha256_hex : string → string)
          (GOOS GOARCH version : string).

Lemma verifyChecksum_ok tag blob :
  verifyChecksum fetch sha256_hex GOOS GOARCH tag blob = Ok () →
  ∃ sums, download fetch (assetURL tag "SHA256SUMS") = Ok sums ∧ sha256_hex blob ≠ "" ∧
          sha256_hex blob = find_digest (assetName GOOS GOARCH) (Split sums 10).
Proof.
  unfold verifyChecksum. destruct (download _ _) as [sums|e]; [|done].
  destruct (_ =? "")%string eqn:E1; [done|]. destruct (negb _) eqn:E2; [done|]. intros _.
  apply negb_false_iff, String.eqb_eq in E2. apply String.eqb_neq in E1.
  exists sums. by rewrite E2.
Qed.

(** A round of the unattended updater: nothing, or one replacement. *)
Lemma autoUpdateOnce_inv target streams helper m r m' :
  autoUpdateOnce fetch fetch_raw sha256_hex GOOS GOARCH version target streams helper m = (r, m') →
  m' = m ∨
  ∃ latest blob sums r1,
    latestTag fetch_raw = Ok latest ∧ latest ≠ version ∧ (∀ n, streams = Ok n → n = 0) ∧
    download fetch (assetURL latest (assetName GOOS GOARCH)) = Ok blob ∧
    download fetch (assetURL latest "SHA256SUMS") = Ok sums ∧
    sha256_hex blob = find_digest (assetName GOOS GOARCH) (Split sums 10) ∧
    replaceBinary target blob m = (r1, m').
Proof.
  unfold autoUpdateOnce, mbind at 1, M_bind at 1, mlift at 1.
  destruct (latestTag fetch_raw) as [latest|e]; [|intros [= _ <-]; by left].
  destruct (String.eqb_spec latest version) as [->|Hne]; [intros [= _ <-]; by left|].
  destruct (guardActiveStreams false streams) as [[]|e] eqn:Eg; [|intros [= _ <-]; by left].
  unfold mbind at 1, M_bind at 1, mlift at 1.
  destruct (download fetch (assetURL latest (assetName GOOS GOARCH))) as [blob|e] eqn:Ed;
    [|intros [= _ <-]; by left].
  unfold mbind at 1, M_bind at 1, mlift at 1.
  destruct (verifyChecksum _ _ _ _ latest blob) as [[]|e] eqn:Ev; [|intros [= _ <-]; by left].
  apply verifyChecksum_ok in Ev as (sums & Hs & _ & Hd).
  unfold mbind at 1, M_bind at 1. destruct (replaceBinary target blob m) as [r1 m1] eqn:Er.
  intros Hrest. assert (m' = m1) as ->.
  { destruct r1 as [[]|e]; [|by injection Hrest]. unfold mbind, M_bind, mlift in Hrest.
    destruct helper; by injection Hrest. }
  right. exists latest, blob, sums, r1. split_and!; try done.
  intros n ->. unfold guardActiveStreams in Eg. rewrite orb_false_r in Eg.
  destruct (n =? 0) eqn:E; [|done]. by apply Z.eqb_eq.
Qed.

(** The unattended updater touches the machine only for a release other than
    the one running, when nobody is working through the agent, and with a
    download whose digest is the one published for this platform; and it leaves
    the old build or that one. *)
Theorem auto_update_installs_only_verified target streams helper m r m' old :
  um_files m !! target = Some old →
  autoUpdateOnce fetch fetch_raw sha256_hex GOOS GOARCH version target streams helper m = (r, m') →
  m' = m ∨
  ∃ latest blob sums,
    latestTag fetch_raw = Ok latest ∧ latest ≠ version ∧ (∀ n, streams = Ok n → n = 0) ∧
    download fetch (assetURL latest (assetName GOOS GOARCH)) = Ok blob ∧
    download fetch (assetURL latest "SHA256SUMS") = Ok sums ∧
    sha256_hex blob = find_digest (assetName GOOS GOARCH) (Split sums 10) ∧
    never_half target blob old (um_files m') ∧ um_running m' = um_running m.
Proof.
  intros Hold Hrun. destruct (autoUpdateOnce_inv _ _ _ _ _ _ Hrun) as [->|Hup]; [by left|].
  destruct Hup as (latest & blob & sums & r1 & ? & ? & ? & ? & ? & ? & Hr).
  destruct (replaceBinary_settled target blob old m r1 m' Hold Hr) as [[Hrunning _] Hset].
  right. exists latest, blob, sums. split_and!; try done.
  destruct r1; [by right; left|]. destruct Hset; [by left|by right; right].
Qed.
End verified.

(** ** Bringing a build into service *)

Lemma serviceStop_spec m r m' :
  serviceStop m = (r, m') →
  um_files m' = um_files m ∧ match r with Ok _ => um_running m' = None | Err _ => um_running m' = um_running m end.
Proof.
  intros H. apply syscall_inv in H as (m0 & m1 & Hf0 & Hr0 & _ & Hf & Hr & _ & H). rewrite Hf, Hr.
  destruct H as [[= <- <-]|(k & e & -> & ->)]; cbn; by rewrite ?Hf0, ?Hr0.
Qed.

Lemma serviceStart_spec target m r m' :
  serviceStart target m = (r, m') →
  um_files m' = um_files m ∧
  match r with
  | Ok _ => ∃ d, um_files m !! target = Some d ∧ um_running m' = Some d
  | Err _ => um_running m' = um_running m
  end.
Proof.
  intros H. apply syscall_inv in H as (m0 & m1 & Hf0 & Hr0 & _ & Hf & Hr & _ & H). rewrite Hf, Hr.
  destruct H as [H|(k & e & -> & ->)]; [|by rewrite Hf0, Hr0].
  destruct (um_files m0 !! target) as [d|] eqn:E; injection H as <- <-; cbn; rewrite ?Hf0, ?Hr0; [|done].
  rewrite <-Hf0. eauto.
Qed.

Section back.
  Context (target old new : string).

Notation prev := (target +:+ ".old").
Notation failed := (target +:+ ".failed").

(** The old build is back and the new one kept as evidence; or nothing has been
    touched; or the second of the two renames is missing. *)
Definition restored (f : gmap string string) : Prop := f !! target = Some old ∧ f !! failed = Some new.
Definition untouched (f : gmap string string) : Prop := f !! target = Some new ∧ f !! prev = Some old.
Definition half_way (f : gmap string string) : Prop :=
  f !! target = None ∧ f !! prev = Some old ∧ f !! failed = Some new.

Lemma rollback_spec m r m' :
  untouched (um_files m) → rollback target m = (r, m') →
  match r with
  | Ok _ => restored (um_files m')
  | Err _ => untouched (um_files m') ∨ half_way (um_files m')
  end.
Proof.
  intros [Ht Hp]. assert (failed ≠ target) as H1 by (by apply beside). assert (prev ≠ target) as H2 by (by apply beside).
  assert (failed ≠ prev) as H3 by (by intros ?%beside_inj).
  unfold rollback. destruct (os_Stat prev m) as [r1 m1] eqn:E1. rewrite (bind_attempt _ _ _ _ _ E1).
  apply Stat_spec in E1 as (_ & F1 & _). rewrite <-F1 in Ht, Hp.
  destruct r1 as [[]|e1]; [|intros [= <- <-]; by left].
  destruct (serviceStop m1) as [r2 m2] eqn:E2. rewrite (bind_attempt _ _ _ _ _ E2).
  apply serviceStop_spec in E2 as [F2 _]. rewrite <-F2 in Ht, Hp. clear r2.
  destruct (os_Remove failed m2) as [r3 m3] eqn:E3. pose proof (Remove_spec _ _ _ _ E3) as (-> & _ & F3).
  rewrite (bind_ok _ _ _ _ _ E3).
  assert (um_files m3 !! target = Some new ∧ um_files m3 !! prev = Some old) as [Ht3 Hp3]
    by (destruct F3 as [-> | ->]; [done|by rewrite !lookup_delete_ne]).
  destruct (os_Rename target failed m3) as [r4 m4] eqn:E4. pose proof (Rename_spec _ _ _ _ _ E4) as [_ F4].
  destruct r4 as [[]|e4]; [rewrite (bind_ok _ _ _ _ _ E4)|rewrite (bind_err _ _ _ _ _ E4); intros [= <- <-]; left; by rewrite F4].
  destruct F4 as (d & Hd & F4). rewrite Ht3 in Hd. injection Hd as <-.
  assert (half_way (um_files m4)) as Hh.
  { rewrite F4. unfold half_way. rewrite lookup_insert_eq, !lookup_insert_ne, lookup_delete_eq, lookup_delete_ne by done. done. }
  intros E5. pose proof (Rename_spec _ _ _ _ _ E5) as [_ F5]. destruct Hh as (Ht4 & Hp4 & Hf4).
  destruct r as [[]|e5]; [|right; by rewrite F5].
  destruct F5 as (d & Hd & F5). rewrite Hp4 in Hd. injection Hd as <-.
  rewrite F5. split; [by rewrite lookup_insert_eq|]. by rewrite lookup_insert_ne, lookup_delete_ne by done.
Qed.

Definition never_answered : error := errorf "the new binary never answered; the previous one was restored".

(** C19: A build that starts and never answers, on a machine whose every call may fail:
    the report says truly what became of it.  [restartAndVerify] never reports success.
    "The previous one was restored" is said only when the old build is installed and
    running again and the bad one kept as evidence, and if no call fails that is what
    happens and what is said.  Otherwise the report is another one, and whatever
    failed, neither build is lost: the old one is back, or the rollback has not
    touched anything, or it stopped between its two renames. *)
Theorem silent_build_is_rolled_back now polls run faults hist f :
  f !! target = Some new → f !! prev = Some old →
  waitForAgent (now + verifyTimeout) polls = false →
  let '(r, m') := restartAndVerify target now polls (mkMachine f run faults hist) in
  is_ok r = false ∧
  (faults = [] → r = Err never_answered) ∧
  (r = Err never_answered → um_running m' = Some old ∧ restored (um_files m')) ∧
  (restored (um_files m') ∨ untouched (um_files m') ∨ half_way (um_files m')).
Proof.
  intros Ht Hp Hw.
  assert (faults = [] → fst (restartAndVerify target now polls (mkMachine f run faults hist)) = Err never_answered) as Hcalm.
  { intros ->. assert (failed ≠ target) as H1 by (by apply beside). assert (prev ≠ target) as H2 by (by apply beside).
    assert (failed ≠ prev) as H3 by (by intros ?%beside_inj).
    unfold restartAndVerify, rollback, serviceStop, serviceStart, os_Stat, os_Remove, os_Rename, mbind, M_bind,
      attempt, syscall, with_running, with_files. cbn [um_faults um_files um_running um_history].
    rewrite Ht. cbn -[waitForAgent]. rewrite Hw. cbn. rewrite Hp. cbn.
    rewrite lookup_delete_ne, Ht by done. cbn.
    rewrite lookup_insert_ne, lookup_delete_ne, lookup_delete_ne, Hp by done. cbn.
    by rewrite lookup_insert_eq. }
  destruct (restartAndVerify _ _ _ _) as [r m'] eqn:E. cbn [fst] in Hcalm. revert E.
  assert (untouched (um_files (mkMachine f run faults hist))) as Hu by done.
  generalize dependent (mkMachine f run faults hist). intros m Hu. unfold restartAndVerify.
  assert (∀ e m1, restored (um_files m1) ∨ untouched (um_files m1) ∨ half_way (um_files m1) →
    err_text e ≠ err_text never_answered → (mthrow e : M Machine ()) m1 = (r, m') → is_ok r = false ∧
    (faults = [] → r = Err never_answered) ∧ (r = Err never_answered → um_running m' = Some old ∧ restored (um_files m')) ∧
    (restored (um_files m') ∨ untouched (um_files m') ∨ half_way (um_files m'))) as Hother.
  { intros e m1 Hk He [= <- <-]. split_and!; [done|exact Hcalm| |done]. intros [= ->]. done. }
  destruct (serviceStop m) as [r1 m1] eqn:E1. rewrite (bind_attempt _ _ _ _ _ E1).
  apply serviceStop_spec in E1 as [F1 _]. rewrite <-F1 in Hu. clear r1 F1.
  destruct (serviceStart target m1) as [r2 m2] eqn:E2. rewrite (bind_attempt _ _ _ _ _ E2).
  apply serviceStart_spec in E2 as [F2 _]. rewrite <-F2 in Hu.
  destruct (rollback target m2) as [r3 m3] eqn:E3. pose proof (rollback_spec _ _ _ Hu E3) as H3.
  destruct r2 as [[]|e2]; [rewrite Hw|]; rewrite (bind_attempt _ _ _ _ _ E3); destruct r3 as [[]|e3].
  - destruct (serviceStart target m3) as [r4 m4] eqn:E4. rewrite (bind_attempt _ _ _ _ _ E4).
    apply serviceStart_spec in E4 as [F4 R4]. rewrite <-F4 in H3. destruct r4 as [[]|e4].
    + intros [= <- <-]. destruct R4 as (d & Hd & R4). destruct H3 as [H3 H3']. rewrite <-F4, H3 in Hd. injection Hd as <-.
      by split_and!; [..|left].
    + apply Hother; [by left|]. cbn. discriminate.
  - apply Hother; [tauto|]. cbn. discriminate.
  - apply Hother; [by left|]. cbn. discriminate.
  - apply Hother; [tauto|]. cbn. discriminate.
Qed.
End back.

(** A build that does not even start is taken out too, but the old one is only
    put back on the disk: nothing starts it, and the machine is left without an
    agent. *)
Theorem failed_start_leaves_no_agent target old new run hist now polls f e :
  f !! target = Some new → f !! (target +:+ ".old") = Some old →
  let '(r, m') := restartAndVerify target now polls (mkMachine f run [None; Some (0, e)] hist) in
  r = Err (wrapf "the new binary would not start, previous one restored: " e) ∧
  um_files m' !! target = Some old ∧ um_running m' = None.
Proof.
  intros Ht Hp.
  assert (target +:+ ".failed" ≠ target) as H1 by (by apply beside).
  assert (target +:+ ".old" ≠ target) as H2 by (by apply beside).
  assert (target +:+ ".failed" ≠ target +:+ ".old") as H3 by (by intros ?%beside_inj).
  unfold restartAndVerify, rollback, serviceStop, serviceStart, os_Stat, os_Remove, os_Rename, mbind, M_bind,
    attempt, syscall, with_running, with_files. cbn [um_faults um_files um_running um_history].
  cbn. rewrite Hp. cbn. rewrite lookup_delete_ne, Ht by done. cbn.
  rewrite lookup_insert_ne, lookup_delete_ne, lookup_delete_ne, Hp by done. cbn.
  split_and!; try done. by rewrite lookup_insert_eq.
Qed.

(** ** Witnesses *)
Definition toy_fetch (url : string) : res Fetched :=
  if HasSuffix url "SHA256SUMS"
  then Ok (mkFetched 200 "200 OK" "" (Ok ("digest-of-other  beacon-linux-arm64" +:+ nl
                                          +:+ "digest-of-v2  beacon-linux-amd64" +:+ nl)))
  else Ok (mkFetched 200 "200 OK" "" (Ok "v2")).
Definition toy_fetch_raw (url : string) : res Fetched :=
  Ok (mkFetched 302 "302 Found" "https://github.com/bolchisb/go-beacon/releases/tag/v1.5.0" (Ok "")).
Definition toy_digest (blob : string) : string := "digest-of-" +:+ blob.
Definition toy_machine : Machine := mkMachine {["/b" := "v1"]} (Some "v1") [] [].

Lemma auto_update_installs_only_verified_witness :
  let run := autoUpdateOnce toy_fetch toy_fetch_raw toy_digest "linux" "amd64" "v1.4.0" "/b" (Ok 0) (Ok ())
               toy_machine in
  um_files (snd run) !! "/b" = Some "v2" ∧
  (snd run = toy_machine ∨
   ∃ latest blob sums,
     latestTag toy_fetch_raw = Ok latest ∧ latest ≠ "v1.4.0" ∧ (∀ n, Ok 0 = Ok n → n = 0) ∧
     download toy_fetch (assetURL latest "beacon-linux-amd64") = Ok blob ∧
     download toy_fetch (assetURL latest "SHA256SUMS") = Ok sums ∧
     toy_digest blob = find_digest "beacon-linux-amd64" (Split sums 10) ∧
     never_half "/b" blob "v1" (um_files (snd run)) ∧ um_running (snd run) = Some "v1").
Proof.
  intros run. split; [vm_compute; reflexivity|].
  eapply (auto_update_installs_only_verified toy_fetch toy_fetch_raw toy_digest "linux" "amd64" "v1.4.0"
            "/b" (Ok 0) (Ok ()) toy_machine (Ok true)); [reflexivity|].
  apply run_result. vm_compute. reflexivity.
Defined.

(** Nothing fails; and on a machine whose service manager refuses the second start. *)
Lemma silent_build_is_rolled_back_witness :
  let run faults := restartAndVerify "/b" 0 [(1, false); (4 * Minute, true)]
                      (mkMachine {["/b" := "v2"; "/b.old" := "v1"]} (Some "v1") faults []) in
  (fst (run []) = Err never_answered ∧ um_running (snd (run [])) = Some "v1" ∧
   restored "/b" "v1" "v2" (um_files (snd (run [])))) ∧
  let refused := run (replicate 7 None ++ [Some (0, errorf "busy")]) in
  fst refused ≠ Err never_answered ∧ is_ok (fst refused) = false ∧ um_running (snd refused) = None.
Proof.
  intros run. split.
  - pose proof (silent_build_is_rolled_back "/b" "v1" "v2" 0 [(1, false); (4 * Minute, true)] (Some "v1") [] []
      {["/b" := "v2"; "/b.old" := "v1"]} eq_refl eq_refl eq_refl) as H. fold (run []) in H.
    destruct (run []) as [r m']. destruct H as (_ & Hr & Hb & _). specialize (Hr eq_refl). split; [exact Hr|exact (Hb Hr)].
  - intros refused. pose proof (silent_build_is_rolled_back "/b" "v1" "v2" 0 [(1, false); (4 * Minute, true)] (Some "v1")
      (replicate 7 None ++ [Some (0, errorf "busy")]) [] {["/b" := "v2"; "/b.old" := "v1"]} eq_refl eq_refl eq_refl) as H.
    fold (run (replicate 7 None ++ [Some (0, errorf "busy")])) in H. fold refused in H.
    split; [vm_compute; discriminate|]. split; [|vm_compute; reflexivity].
    destruct refused as [r m']. exact (proj1 H).
Defined.

Lemma failed_start_leaves_no_agent_witness :
  let e := errorf "exec format error" in
  let '(r, m') := restartAndVerify "/b" 0 []
                    (mkMachine {["/b" := "v2"; "/b.old" := "v1"]} (Some "v1") [None; Some (0, e)] []) in
  r = Err (wrapf "the new binary would not start, previous one restored: " e) ∧
  um_files m' !! "/b" = Some "v1" ∧ um_running m' = None.
Proof.
  intros e. apply (failed_start_leaves_no_agent "/b" "v1" "v2" (Some "v1") [] 0 []
           {["/b" := "v2"; "/b.old" := "v1"]} e); vm_compute; reflexivity.
Defined.
