(* ===== verification/AgentLoop.v ===== *)
(** * The agent's life (client/control.go: agentState; client/run.go:
    superviseSessions; client/session.go: pingLoop; internal/supervise)

    One session at a time, for ever: an attempt, what became of it, a pause that
    grows while attempts fail.  [agentState] is what [beacon status] shows of
    it. *)

From Stdlib Require Import Ascii.
From S2P Require Import Prelude GoStrings GoNum GoBase64 Interfaces Wire.

Open Scope string_scope.
Open Scope list_scope.
Open Scope Z_scope.

(** ** internal/supervise *)

(** How a unit of work ends: it returns, or it panics with a value that prints
    as [v]. *)
Inductive work := Returned (r : res ()) | Panicked (v : string).

(** [supervise.Do] *)
Definition supervise_Do (name : string) (w : work) : res () :=
  match w with
  | Returned r => r
  | Panicked v => Err (errorf (name +:+ " panicked: " +:+ v))
  end.

(** ** agentState *)
Record statusPayload := mkStatus {
  sp_Version : string;
  sp_AgentID : string;
  sp_Server : string;
  sp_ConfigPath : string;
  sp_PID : Z;
  sp_StartedAt : Z;
  sp_Connected : bool;
  sp_Connecting : bool;
  sp_Since : Z;
  sp_RTTNanos : option Z;
  sp_Streams : Z;
  sp_BytesIn : Z;
  sp_BytesOut : Z;
  sp_LastError : string;
  sp_NextRetry : option Z
}.

Record agentState := mkAgentState {
  st_base : statusPayload;
  st_sess : option Z;
  st_conn : Z;
  st_rttNanos : Z;
  st_lastError : string;
  st_nextRetry : option Z
}.

(** The three fields of [base] the state changes. *)
Definition with_link (connected connecting : bool) (since : Z) (b : statusPayload) : statusPayload :=
  mkStatus (sp_Version b) (sp_AgentID b) (sp_Server b) (sp_ConfigPath b) (sp_PID b) (sp_StartedAt b)
    connected connecting since (sp_RTTNanos b) (sp_Streams b) (sp_BytesIn b) (sp_BytesOut b)
    (sp_LastError b) (sp_NextRetry b).

Definition newAgentState (version agentID server configPath : string) (pid now1 now2 : Z) : agentState :=
  mkAgentState (mkStatus version agentID server configPath pid now1 false false now2 None 0 0 0 "" None)
    None 0 (-1) "" None.

Definition connected (sess conn now : Z) (s : agentState) : agentState :=
  mkAgentState (with_link true false now (st_base s)) (Some sess) conn (-1) "" None.

(** [nextRetry] is the zero time when there is none. *)
Definition disconnected (e : option error) (nextRetry now : Z) (s : agentState) : agentState :=
  let b := st_base s in
  let since := if sp_Connected b then now else sp_Since b in
  mkAgentState (with_link false false since b) None (st_conn s) (-1)
    (match e with Some e => err_text e | None => st_lastError s end)
    (if IsZero nextRetry then None else Some nextRetry).

Definition connecting (s : agentState) : agentState :=
  let b := st_base s in
  mkAgentState (with_link (sp_Connected b) true (sp_Since b) b) (st_sess s) (st_conn s) (st_rttNanos s)
    (st_lastError s) None.

Definition StoreRTT (rtt : Z) (s : agentState) : agentState :=
  mkAgentState (st_base s) (st_sess s) (st_conn s) rtt (st_lastError s) (st_nextRetry s).

(** [streams] and [conns] are what the live session and connection report. *)
Definition snapshot (streams : Z → Z) (conns : Z → CountingConn) (s : agentState) : statusPayload :=
  let b := st_base s in
  let shown rtt n i o :=
    mkStatus (sp_Version b) (sp_AgentID b) (sp_Server b) (sp_ConfigPath b) (sp_PID b) (sp_StartedAt b)
      (sp_Connected b) (sp_Connecting b) (sp_Since b) rtt n i o (st_lastError s) (st_nextRetry s) in
  match st_sess s with
  | None => shown (sp_RTTNanos b) (sp_Streams b) (sp_BytesIn b) (sp_BytesOut b)
  | Some sess =>
      shown (if 0 <=? st_rttNanos s then Some (st_rttNanos s) else sp_RTTNanos b)
        (streams sess) (CountingConn_In (conns (st_conn s))) (CountingConn_Out (conns (st_conn s)))
  end.

(** ** One session, as far as the state sees it *)

(** What the ping loop waits for: the session closing, or a tick and the result
    of [sess.Ping]. *)
Inductive ping_wake := PClosed | PTick (rtt : res Z).

Fixpoint pingTicks (wakes : list ping_wake) (s : agentState) : agentState :=
  match wakes with
  | [] | PClosed :: _ => s
  | PTick (Err _) :: _ => s
  | PTick (Ok rtt) :: wakes => pingTicks wakes (StoreRTT rtt s)
  end.

Definition pingLoop (first : res Z) (wakes : list ping_wake) (s : agentState) : agentState :=
  match first with Err _ => s | Ok rtt => pingTicks wakes (StoreRTT rtt s) end.

(** A session that got as far as [st.connected]. *)
Record Established := mkEstablished {
  es_sess : Z; es_conn : Z; es_now : Z; es_first : res Z; es_wakes : list ping_wake
}.

(** ** superviseSessions *)
Definition minBackoff : Z := Second.
Definition maxBackoff : Z := 30 * Second.
Definition healthySession : Z := 30 * Second.

(** The nearest integer to [p / q], ties to even. *)
Definition div_rne (p q : Z) : Z :=
  let k := p / q in
  match 2 * (p mod q) ?= q with
  | Lt => k
  | Gt => k + 1
  | Eq => if Z.even k then k else k + 1
  end.

(** The product of two integers as a [float64] has it: 53 significant bits. *)
Definition round53 (p : Z) : Z :=
  let e := Z.max 0 (Z.log2 p - 52) in div_rne p (2 ^ e) * 2 ^ e.

(** [rand.Float64()] is [u / 2^53] for a 53-bit [u]; half of it added to [0.5] is
    rounded to a multiple of [2^-53], and the conversion truncates. *)
Definition jitter (u d : Z) : Z := round53 (d * div_rne (2 ^ 53 + u) 2) / 2 ^ 53.

(** One turn of the loop: the clock when it starts and when the session has
    ended, whether and how a session was established, how the work ended, the
    random number, and whether the context was cancelled before the turn, during
    the session, or during the pause. *)
Record Attempt := mkAttempt {
  at_start : Z;
  at_established : option Established;
  at_work : work;
  at_end : Z;
  at_rand : Z;
  at_now : Z;
  at_cancelled : bool;
  at_cancelled_in_session : bool;
  at_cancelled_in_pause : bool
}.

Record Loop := mkLoop { lp_backoff : Z; lp_state : agentState; lp_delays : list Z }.

Definition session_effect (e : option Established) (s : agentState) : agentState :=
  match e with
  | None => s
  | Some e => pingLoop (es_first e) (es_wakes e) (connected (es_sess e) (es_conn e) (es_now e) s)
  end.

Definition grow (backoff : Z) : Z := if backoff <? maxBackoff then Z.min (backoff * 2) maxBackoff else backoff.

(** The next turn, or the end. *)
Definition turn (a : Attempt) (l : Loop) : option Loop * Loop :=
  if at_cancelled a then (None, l)
  else
    let st := session_effect (at_established a) (connecting (lp_state l)) in
    let err := supervise_Do "session" (at_work a) in
    if at_cancelled_in_session a then (None, mkLoop (lp_backoff l) st (lp_delays l))
    else
      let backoff := if healthySession <=? at_end a - at_start a then minBackoff else lp_backoff l in
      let delay := jitter (at_rand a) backoff in
      let st := disconnected (match err with Err e => Some e | Ok _ => None end) (at_now a + delay) (at_now a) st in
      let l := mkLoop backoff st (lp_delays l ++ [delay]) in
      if at_cancelled_in_pause a then (None, l)
      else (Some (mkLoop (grow backoff) st (lp_delays l)), l).

Fixpoint superviseLoop (attempts : list Attempt) (l : Loop) : Loop :=
  match attempts with
  | [] => l
  | a :: attempts => match turn a l with
                     | (Some l, _) => superviseLoop attempts l
                     | (None, l) => l
                     end
  end.

Definition superviseSessions (attempts : list Attempt) (st : agentState) : Loop :=
  superviseLoop attempts (mkLoop minBackoff st []).

(** ** Theorems *)

Definition rand_ok (a : Attempt) : Prop := 0 ≤ at_rand a < 2 ^ 53.

Lemma div_rne_bounds p q : 0 < q → p / q ≤ div_rne p q ≤ p / q + 1.
Proof. intros Hq. unfold div_rne. destruct (_ ?= _); [destruct (Z.even _)|..]; lia. Qed.

Lemma div_rne_exact k q : 0 < q → div_rne (k * q) q = k.
Proof.
  intros Hq. unfold div_rne. rewrite Z.div_mul, Z.mod_mul by lia.
  destruct (Z.compare_spec (2 * 0) q); lia.
Qed.

(** Rounding does not step over a multiple of the grid. *)
Lemma div_rne_upper p q k : 0 < q → p ≤ k * q → div_rne p q ≤ k.
Proof.
  intros Hq Hp. destruct (Z.eq_dec p (k * q)) as [->|Hn]; [by rewrite div_rne_exact|].
  assert (p / q < k) by (apply Z.div_lt_upper_bound; lia). pose proof (div_rne_bounds p q Hq). lia.
Qed.

Lemma div_rne_lower p q k : 0 < q → k * q ≤ p → k ≤ div_rne p q.
Proof.
  intros Hq Hp. assert (k ≤ p / q) by (apply Z.div_le_lower_bound; lia).
  pose proof (div_rne_bounds p q Hq). lia.
Qed.

Lemma round53_between a b n p :
  0 ≤ n → 0 ≤ p → Z.log2 p - 52 ≤ n → a * 2 ^ n ≤ p ≤ b * 2 ^ n → a * 2 ^ n ≤ round53 p ≤ b * 2 ^ n.
Proof.
  intros Hn Hp Hl Hab. unfold round53. set (e := Z.max 0 (Z.log2 p - 52)).
  assert (0 ≤ e ≤ n) as He by (unfold e; lia). pose proof (Z.pow_pos_nonneg 2 e) as Hpos.
  replace (2 ^ n) with (2 ^ (n - e) * 2 ^ e) in * by (rewrite <-Z.pow_add_r by lia; f_equal; lia).
  rewrite !Z.mul_assoc in *. split; apply Z.mul_le_mono_nonneg_r; try lia.
  - apply div_rne_lower; lia.
  - apply div_rne_upper; lia.
Qed.

Lemma jitter_bounds u d : 0 ≤ u < 2 ^ 53 → 0 ≤ d < 2 ^ 36 → d / 2 ≤ jitter u d ≤ d.
Proof.
  intros Hu Hd. unfold jitter. set (m := div_rne (2 ^ 53 + u) 2).
  assert (2 ^ 52 ≤ m ≤ 2 ^ 53) as Hm.
  { split; [apply div_rne_lower|apply div_rne_upper]; lia. }
  assert (0 ≤ d * m < 2 ^ 90) as Hb by nia.
  assert (Z.log2 (d * m) - 52 ≤ 52) as Hl.
  { destruct (Z.eq_dec (d * m) 0) as [->|]; [done|].
    assert (Z.log2 (d * m) < 90) by (apply Z.log2_lt_pow2; lia). lia. }
  destruct (round53_between d (2 * d) 52 (d * m)) as [Hlo Hhi]; [lia..|nia|]. split.
  - apply Z.div_le_lower_bound; [lia|]. pose proof (Z.mul_div_le d 2). lia.
  - apply Z.div_le_upper_bound; lia.
Qed.

Definition uncancelled (a : Attempt) : bool :=
  negb (at_cancelled a || at_cancelled_in_session a || at_cancelled_in_pause a).
Definition healthy (a : Attempt) : bool := healthySession <=? at_end a - at_start a.

Definition paced (backoff : Z) : Prop := minBackoff ≤ backoff ≤ maxBackoff.

Lemma grow_paced b : paced b → paced (grow b).
Proof.
  unfold paced, grow. intros Hb. change minBackoff with 1000000000 in *. change maxBackoff with 30000000000 in *.
  destruct (b <? _) eqn:E; lia.
Qed.

Lemma grow_doubles x :
  1 ≤ x → grow (Z.min (minBackoff * x) maxBackoff) = Z.min (minBackoff * (2 * x)) maxBackoff.
Proof.
  intros Hx. unfold grow. change minBackoff with 1000000000. change maxBackoff with 30000000000.
  destruct (Z.ltb_spec (Z.min (1000000000 * x) 30000000000) 30000000000); lia.
Qed.

Lemma paced_small b : paced b → 0 ≤ b < 2 ^ 36.
Proof. unfold paced. change minBackoff with 1000000000. change maxBackoff with 30000000000. lia. Qed.

(** One turn of a loop nobody stops. *)
Lemma turn_ok a l :
  uncancelled a = true → rand_ok a → paced (lp_backoff l) →
  ∃ l' l2 delay, turn a l = (Some l', l2) ∧ lp_delays l' = lp_delays l ++ [delay] ∧ paced (lp_backoff l') ∧
    minBackoff / 2 ≤ delay ≤ maxBackoff ∧ (healthy a = true → delay ≤ minBackoff) ∧
    lp_backoff l' = grow (if healthy a then minBackoff else lp_backoff l).
Proof.
  intros Hu Hr Hp. unfold uncancelled in Hu. rewrite !negb_orb in Hu.
  apply andb_true_iff in Hu as [[Hu1 Hu2]%andb_true_iff Hu3]. rewrite negb_true_iff in Hu1, Hu2, Hu3.
  unfold turn. rewrite Hu1, Hu2, Hu3. fold (healthy a).
  set (b := if healthy a then minBackoff else lp_backoff l).
  assert (paced b) as Hb by (unfold b; destruct (healthy a); [done|exact Hp]).
  destruct (jitter_bounds (at_rand a) b) as [Hj1 Hj2]; [exact Hr|by apply paced_small|].
  eexists _, _, (jitter (at_rand a) b). split; [done|]. cbn [lp_delays lp_backoff]. split_and!.
  - done.
  - by apply grow_paced.
  - unfold paced in Hb. etrans; [|exact Hj1]. apply Z.div_le_mono; lia.
  - unfold paced in Hb. lia.
  - intros Hh. unfold b in *. by rewrite Hh in *.
  - done.
Qed.

Lemma superviseLoop_ok attempts l :
  forallb uncancelled attempts = true → Forall rand_ok attempts → paced (lp_backoff l) →
  ∃ ds, lp_delays (superviseLoop attempts l) = lp_delays l ++ ds ∧
    Forall2 (λ a d, minBackoff / 2 ≤ d ≤ maxBackoff ∧ (healthy a = true → d ≤ minBackoff)) attempts ds.
Proof.
  intros Hu Hr. revert l. induction Hr as [|a attempts Ha Hr IH]; intros l Hp.
  - exists []. by rewrite app_nil_r.
  - cbn [forallb] in Hu. apply andb_true_iff in Hu as [Hu1 Hu2]. cbn [superviseLoop].
    destruct (turn_ok a l Hu1 Ha Hp) as (l' & l2 & d & -> & Hd & Hp' & Hb & Hh & _).
    destruct (IH Hu2 l' Hp') as (ds & -> & Hds). exists (d :: ds). rewrite Hd, <-app_assoc. auto.
Qed.

(** C30: An agent does not give up: every attempt that is not cut short by the
    operator is followed by another, after a pause between half a second and
    thirty seconds, and of a second at most once a session has lasted. *)
Theorem retries_are_paced attempts st :
  forallb uncancelled attempts = true → Forall rand_ok attempts →
  Forall2 (λ a d, minBackoff / 2 ≤ d ≤ maxBackoff ∧ (healthy a = true → d ≤ minBackoff))
          attempts (lp_delays (superviseSessions attempts st)).
Proof.
  intros Hu Hr.
  destruct (superviseLoop_ok attempts (mkLoop minBackoff st []) Hu Hr) as (ds & Hd & Hds); [done|].
  unfold superviseSessions. by rewrite Hd.
Qed.

(** The window doubles with every short-lived attempt, up to the ceiling. *)
Theorem backoff_doubles attempts st :
  forallb uncancelled attempts = true → forallb (λ a, negb (healthy a)) attempts = true →
  Forall rand_ok attempts →
  lp_backoff (superviseSessions attempts st)
  = Z.min (minBackoff * 2 ^ Z.of_nat (length attempts)) maxBackoff.
Proof.
  intros Hu Hq Hr. unfold superviseSessions.
  assert (∀ n l, paced (lp_backoff l) →
    lp_backoff l = Z.min (minBackoff * 2 ^ Z.of_nat n) maxBackoff →
    lp_backoff (superviseLoop attempts l)
    = Z.min (minBackoff * 2 ^ Z.of_nat (n + length attempts)) maxBackoff) as Hgen.
  { induction Hr as [|a attempts Ha Hr IH]; intros n l Hp Hl; [by rewrite Nat.add_0_r|].
    cbn [forallb] in Hu, Hq. apply andb_true_iff in Hu as [Hu1 Hu2], Hq as [Hq1 Hq2]. cbn [superviseLoop].
    destruct (turn_ok a l Hu1 Ha Hp) as (l' & l2 & d & -> & _ & Hp' & _ & _ & Hb).
    apply negb_true_iff in Hq1. rewrite Hq1 in Hb.
    cbn [length]. rewrite <-Nat.add_succ_comm. apply IH; try done. rewrite Hb, Hl.
    rewrite Nat2Z.inj_succ, Z.pow_succ_r by lia.
    apply grow_doubles. pose proof (Z.pow_pos_nonneg 2 (Z.of_nat n)). lia. }
  apply (Hgen 0%nat); [done|]. reflexivity.
Qed.

(** ** What status shows *)

(** The transitions of the state, in the order the loop makes them.  A ping may
    still be stored after its session has gone. *)
Inductive st_step : agentState → agentState → Prop :=
  | step_connecting s : st_sess s = None → st_step s (connecting s)
  | step_connected s sess conn now :
      st_sess s = None → sp_Connecting (st_base s) = true → st_step s (connected sess conn now s)
  | step_rtt s rtt : st_step s (StoreRTT rtt s)
  | step_disconnected s e next now : st_step s (disconnected e next now s).

Record consistent (s : agentState) : Prop := mkConsistent {
  co_session : sp_Connected (st_base s) = true ↔ is_Some (st_sess s);
  co_exclusive : sp_Connected (st_base s) = true → sp_Connecting (st_base s) = false;
  co_connected : sp_Connected (st_base s) = true → st_lastError s = "" ∧ st_nextRetry s = None;
  co_connecting : sp_Connecting (st_base s) = true → st_nextRetry s = None;
  co_base : (sp_RTTNanos (st_base s), sp_Streams (st_base s), sp_BytesIn (st_base s), sp_BytesOut (st_base s))
            = (None, 0, 0, 0)
}.

Lemma consistent_step s s' : consistent s → st_step s s' → consistent s'.
Proof.
  intros [H1 H2 H3 H4 H5] Hs. destruct Hs as [s Hn|s sess conn now Hn Hc|s rtt|s e next now].
  - assert (¬ sp_Connected (st_base s) = true) as Hc by (rewrite Hn in H1; intros [? ?]%H1; done).
    split; cbn; try done; by intros ?%Hc.
  - split; cbn; done.
  - by split.
  - split; cbn; done.
Qed.

(** The loop makes only these steps. *)
Lemma pingTicks_steps wakes s : rtc st_step s (pingTicks wakes s).
Proof.
  revert s. induction wakes as [|[|[rtt|e]] wakes IH]; intros s; cbn; try reflexivity.
  eapply rtc_l; [apply step_rtt|apply IH].
Qed.

Lemma session_effect_steps e s :
  st_sess s = None → sp_Connecting (st_base s) = true → rtc st_step s (session_effect e s).
Proof.
  intros Hn Hc. destruct e as [[sess conn now first wakes]|]; [|reflexivity]. cbn.
  eapply rtc_l; [by apply step_connected|]. unfold pingLoop. destruct first as [rtt|]; [|reflexivity].
  eapply rtc_l; [apply step_rtt|apply pingTicks_steps].
Qed.

Lemma turn_steps a l :
  st_sess (lp_state l) = None →
  match turn a l with
  | (Some l', _) => rtc st_step (lp_state l) (lp_state l') ∧ st_sess (lp_state l') = None
  | (None, l') => rtc st_step (lp_state l) (lp_state l')
  end.
Proof.
  intros Hn. unfold turn. destruct (at_cancelled a); [reflexivity|].
  assert (rtc st_step (lp_state l) (session_effect (at_established a) (connecting (lp_state l)))) as Hs.
  { eapply rtc_l; [by apply step_connecting|by apply session_effect_steps]. }
  destruct (at_cancelled_in_session a); [exact Hs|]. cbn zeta.
  destruct (at_cancelled_in_pause a); [|split; [|done]]; eapply rtc_r; eauto; apply step_disconnected.
Qed.

Lemma superviseSessions_steps attempts st :
  st_sess st = None → rtc st_step st (lp_state (superviseSessions attempts st)).
Proof.
  unfold superviseSessions.
  assert (∀ l, st_sess (lp_state l) = None → rtc st_step (lp_state l) (lp_state (superviseLoop attempts l))) as H.
  { induction attempts as [|a attempts IH]; intros l Hl; [reflexivity|]. cbn.
    pose proof (turn_steps a l Hl) as Ht. destruct (turn a l) as [[l'|] l2]; [|exact Ht].
    etrans; [apply Ht|]. apply IH, Ht. }
  exact (H (mkLoop minBackoff st [])).
Qed.

(** C31: What [beacon status] prints is never a mixture: an agent with a session shows
    no old failure and no pending retry, one without shows no round trip, no
    streams and no bytes, and one that is trying again no retry time. *)
Theorem status_consistent version agentID server configPath pid now1 now2 s streams conns :
  rtc st_step (newAgentState version agentID server configPath pid now1 now2) s →
  let p := snapshot streams conns s in
  ¬ (sp_Connected p = true ∧ sp_Connecting p = true) ∧
  (sp_Connected p = true → sp_LastError p = "" ∧ sp_NextRetry p = None) ∧
  (sp_Connecting p = true → sp_NextRetry p = None) ∧
  (sp_Connected p = false →
    (sp_RTTNanos p, sp_Streams p, sp_BytesIn p, sp_BytesOut p) = (None, 0, 0, 0)).
Proof.
  intros Hs p. assert (consistent s) as [H1 H2 H3 H4 H5].
  { eapply invariant_star; [exact consistent_step|exact Hs|]. split; cbn; done. }
  assert (sp_Connected p = sp_Connected (st_base s) ∧ sp_Connecting p = sp_Connecting (st_base s)
    ∧ sp_LastError p = st_lastError s ∧ sp_NextRetry p = st_nextRetry s) as (-> & -> & -> & ->).
  { unfold p, snapshot. by destruct (st_sess s). }
  split_and!.
  - intros [Hc Hg]. by rewrite (H2 Hc) in Hg.
  - exact H3.
  - exact H4.
  - intros Hc. unfold p, snapshot. destruct (st_sess s); [|exact H5].
    rewrite (proj2 H1 (ex_intro _ _ eq_refl)) in Hc. done.
Qed.

(** ** Witnesses *)

Definition failed_attempt (now rand : Z) : Attempt :=
  mkAttempt now None (Returned (Err (errorf "upgrade rejected: 401 Unauthorized"))) (now + 1) rand (now + 1)
    false false false.
Definition crashed_attempt (now rand : Z) : Attempt :=
  mkAttempt now (Some (mkEstablished 7 8 now (Ok 12) [PTick (Ok 15); PClosed]))
    (Panicked "index out of range") (now + healthySession) rand (now + healthySession) false false false.
Definition new_agent : agentState := newAgentState "1.2" "lab" "https://relay" "/etc/beacon.json" 42 5 5.

Lemma retries_are_paced_witness :
  lp_delays (superviseSessions [failed_attempt 10 0; failed_attempt 20 (2 ^ 53 - 1); crashed_attempt 30 (2 ^ 52)]
    new_agent) = [500000000; 2000000000; 750000000] ∧
  Forall2 (λ a d, minBackoff / 2 ≤ d ≤ maxBackoff ∧ (healthy a = true → d ≤ minBackoff))
    [failed_attempt 10 0; failed_attempt 20 (2 ^ 53 - 1); crashed_attempt 30 (2 ^ 52)]
    (lp_delays (superviseSessions [failed_attempt 10 0; failed_attempt 20 (2 ^ 53 - 1); crashed_attempt 30 (2 ^ 52)]
      new_agent)).
Proof.
  split; [vm_compute; reflexivity|]. apply retries_are_paced; [reflexivity|].
  repeat (apply Forall_cons; split; [unfold rand_ok; cbn; lia|]). apply Forall_nil. exact I.
Defined.

Lemma backoff_doubles_witness :
  lp_backoff (superviseSessions [failed_attempt 10 0; failed_attempt 20 5; failed_attempt 30 7] new_agent)
  = 8 * Second.
Proof.
  refine (eq_trans (backoff_doubles [failed_attempt 10 0; failed_attempt 20 5; failed_attempt 30 7] new_agent
    eq_refl eq_refl _) eq_refl).
  repeat (apply Forall_cons; split; [unfold rand_ok; cbn; lia|]). apply Forall_nil. exact I.
Defined.

Lemma status_consistent_witness :
  let s := lp_state (superviseSessions [crashed_attempt 30 (2 ^ 52)] new_agent) in
  let p := snapshot (λ _, 3) (λ _, mkCountingConn 100 200) s in
  sp_LastError p = "session panicked: index out of range" ∧ sp_Streams p = 0 ∧
  ¬ (sp_Connected p = true ∧ sp_Connecting p = true) ∧
  (sp_Connected p = true → sp_LastError p = "" ∧ sp_NextRetry p = None) ∧
  (sp_Connecting p = true → sp_NextRetry p = None) ∧
  (sp_Connected p = false →
    (sp_RTTNanos p, sp_Streams p, sp_BytesIn p, sp_BytesOut p) = (None, 0, 0, 0)).
Proof.
  split; [reflexivity|]. split; [reflexivity|].
  apply (status_consistent "1.2" "lab" "https://relay" "/etc/beacon.json" 42 5 5).
  by apply superviseSessions_steps.
Defined.
