(* ===== verification/Identity.v ===== *)
(** * The machine's identity and the operator's session, from the client's side
    (client/identity.go; client/service.go: enrollThisMachineAs;
    client/enrollcmd.go, client/logincmd.go; client/run.go: tlsConfig)

    What the client sends, what it makes of the answer, and what it keeps.  The
    exchange itself is [http_Do]; crypto/x509 and the JSON of the bodies are
    interfaces. *)

From S2P Require Import Prelude GoStrings GoNum GoBase64 Interfaces GoNet Wire Assertions Host Mux.
From S2P Require Import ClientURLs ClientConfig.

Open Scope string_scope.
Open Scope list_scope.
Open Scope Z_scope.

(** ** What an exchange is made of *)
Inductive payload := PNone | PBytes (s : string) | PForm (fields : list (string * string)).

Record HTTPRequest := mkHTTPRequest {
  hq_Method : string;
  hq_URL : string;
  hq_Type : string;                         (* Content-Type *)
  hq_Body : payload
}.

Record HTTPAnswer := mkHTTPAnswer {
  ha_StatusCode : Z;
  ha_Status : string;
  ha_Cookies : list (string * string);      (* resp.Cookies() *)
  ha_Body : string
}.

(** crypto/x509, as [tlsConfig] uses it; the last operation is [None] where
    [AppendCertsFromPEM] returns false. *)
Class X509 (CertPool : Type) := {
  SystemCertPool : res CertPool;
  NewCertPool : CertPool;
  AppendCertsFromPEM : CertPool → string → option CertPool
}.

Record TLSConfig (CertPool : Type) := mkTLS { tls_MinVersion : Z; tls_RootCAs : option CertPool }.
Arguments mkTLS {CertPool}.
Arguments tls_MinVersion {CertPool}.
Arguments tls_RootCAs {CertPool}.
Definition VersionTLS12 : Z := 771.

(** The two clients the commands build; a zero timeout is none. *)
Record HTTPClient (CertPool : Type) := mkClient {
  cl_Timeout : Z;
  cl_TLS : TLSConfig CertPool;
  cl_follow_redirects : bool
}.
Arguments mkClient {CertPool}.
Arguments cl_Timeout {CertPool}.
Arguments cl_TLS {CertPool}.
Arguments cl_follow_redirects {CertPool}.

Class Internet (CertPool W : Type) := http_Do : HTTPClient CertPool → HTTPRequest → M W HTTPAnswer.

(** The anonymous struct of [enroll]. *)
Record EnrollOut := mkEnrollOut { eo_Assertion : string; eo_ExpiresAt : string; eo_Error : string }.

(** [json.Marshal] of a [map[string]any], and what [Decode] makes of the two
    answers: [enroll] ignores its error, so there it is what is left in the
    struct. *)
Class ClientJSON := {
  Marshal_map : list (string * json) → res string;
  Decode_enroll_out : string → EnrollOut;
  Decode_challenge : string → res string
}.

Definition sessionCookieName : string := "beacon_session".

Section identity.
  Context {CertPool W : Type} `{ClientHost W} `{X509 CertPool} `{Internet CertPool W} `{URLParser}
    `{ClientJSON} `{JSON Config} `{Ed25519} (sr : Surroundings).

Notation Client := (HTTPClient CertPool).

(** ** Trust *)
Definition tlsConfig (caFile : string) (w : W) : res (TLSConfig CertPool) :=
  if (caFile =? "")%string then Ok (mkTLS VersionTLS12 None)
  else
    pem ← fs_ReadFile caFile w;
    let pool := match SystemCertPool with Ok pool => pool | Err _ => NewCertPool end in
    match AppendCertsFromPEM pool pem with
    | None => Err (errorf ("no certificate found in " +:+ caFile))
    | Some pool => Ok (mkTLS VersionTLS12 (Some pool))
    end.

Definition relayClient (caFile : string) : M W Client := λ w,
  (match tlsConfig caFile w with
   | Err e => Err e
   | Ok tlsCfg => Ok (mkClient (15 * Second) tlsCfg true)
   end, w).

(** ** The keypair

    [gen] is what [ed25519.GenerateKey] would return. *)
Definition ensureKeypair (gen : res string) (cfg : Config) : res (string * Config) :=
  if negb (AgentKey cfg =? "")%string then
    match std_decode (AgentKey cfg) with
    | None => Err (errorf "the stored agent key is unreadable: illegal base64 data")
    | Some raw =>
        if negb (len raw =? PrivateKeySize)
        then Err (errorf "the stored agent key is the wrong size")
        else Ok (raw, cfg)
    end
  else
    priv ← gen;
    Ok (priv, set_AgentKey (std_encode priv) cfg).

Definition publicKeyOf (priv : string) : string := std_encode (ed_public priv).

(** ** The calls

    The fields in the order [json.Marshal] gives a map's keys. *)
Definition enroll_fields (username password agentID publicKey : string) (rebind : bool)
    : list (string * json) :=
  [("agent_id", JStr agentID); ("password", JStr password); ("public_key", JStr publicKey);
   ("rebind", JBool rebind); ("username", JStr username)].

Definition enroll (server caFile username password agentID publicKey : string) (rebind : bool)
    : M W string :=
  u ← mlift (relayURL server EnrollPath);
  body ← mlift (Marshal_map (enroll_fields username password agentID publicKey rebind));
  client ← relayClient caFile;
  resp ← http_Do client (mkHTTPRequest "POST" u "application/json" (PBytes body));
  let out := Decode_enroll_out (ha_Body resp) in
  if negb (ha_StatusCode resp =? StatusOK) then
    if negb (eo_Error out =? "")%string then mthrow (errorf (eo_Error out))
    else mthrow (errorf ("the relay refused enrolment: " +:+ ha_Status resp))
  else if (eo_Assertion out =? "")%string
  then mthrow (errorf "the relay accepted enrolment but issued no assertion")
  else mret (eo_Assertion out).

Definition fetchChallenge (server caFile : string) : M W string :=
  u ← mlift (relayURL server ChallengePath);
  client ← relayClient caFile;
  resp ← http_Do client (mkHTTPRequest "GET" u "" PNone);
  if negb (ha_StatusCode resp =? StatusOK)
  then mthrow (errorf ("the relay would not issue a challenge: " +:+ ha_Status resp))
  else
    challenge ← mlift (Decode_challenge (ha_Body resp));
    if (challenge =? "")%string then mthrow (errorf "the relay issued an empty challenge")
    else mret challenge.

(** An [http.Header] with one value per name. *)
Definition identityHeaders (cfg : Config) (priv : string) : M W (gmap string string) :=
  if (Assertion cfg =? "")%string
  then mthrow (errorf "this agent is not enrolled: run `beacon enroll` on this machine")
  else
    nonce ← fetchChallenge (Server cfg) (CAFile cfg);
    mret (<[HeaderSignature := std_encode (ed_sign priv nonce)]>
            (<[HeaderChallenge := nonce]> (<[HeaderAssertion := Assertion cfg]> ∅))).

(** ** beacon enroll

    [user] and [password] are what the two prompts return. *)
Definition enrollThisMachineAs (gen user password : res string) (rebind : bool) (cfg : Config)
    : M W Config :=
  '(priv, cfg) ← mlift (ensureKeypair gen cfg);
  username ← mlift (if (Username cfg =? "")%string then user else Ok (Username cfg));
  password ← mlift password;
  r ← attempt (enroll (Server cfg) (CAFile cfg) username password (AgentID cfg) (publicKeyOf priv) rebind);
  match r with
  | Err e => mthrow (wrapf "enrolment failed: " e)
  | Ok assertion => mret (set_Username username (set_Assertion assertion cfg))
  end.

Definition enrollThisMachine (gen user password : res string) : Config → M W Config :=
  enrollThisMachineAs gen user password false.

(** [elevated] is [requireElevation]; the panel is left out. *)
Definition cmdEnroll (flags : list (string * string)) (elevated : res ()) (gen user password : res string)
    (rebind : bool) : M W Config := λ w,
  (cfg ← mlift (loadConfig sr flags w);
   mlift elevated;;
   c ← enrollThisMachineAs gen user password rebind (rv_Config cfg);
   saveConfig sr c;;
   mret c) w.

(** ** beacon login *)
Fixpoint session_cookie_in (cookies : list (string * string)) : option string :=
  match cookies with
  | [] => None
  | (name, value) :: cookies =>
      if (name =? sessionCookieName)%string && negb (value =? "")%string then Some value
      else session_cookie_in cookies
  end.

Definition login (server caFile username password : string) : M W string := λ w,
  (tlsCfg ← mlift (tlsConfig caFile w);
   u ← mlift (Parse server);
   if (u_Host u =? "")%string then mthrow (no_host server)
   else
     let u := set_RawQuery "" (set_Path "/api/login" u) in
     let client := mkClient 0 tlsCfg false in
     resp ← http_Do client (mkHTTPRequest "POST" (url_String u) "application/x-www-form-urlencoded"
                              (PForm [("password", password); ("username", username)]));
     if ha_StatusCode resp =? StatusUnauthorized
     then mthrow (errorf "the relay did not accept those credentials")
     else if ha_StatusCode resp =? StatusNotFound
     then mthrow (errorf "this relay has no operator account yet; set one up in the dashboard first")
     else if (ha_StatusCode resp <? 200) || (399 <? ha_StatusCode resp)
     then mthrow (errorf ("relay refused the sign-in: " +:+ ha_Status resp))
     else match session_cookie_in (ha_Cookies resp) with
          | Some v => mret v
          | None => mthrow (errorf "the relay accepted the sign-in but issued no session")
          end) w.

Definition cmdLogin (flags : list (string * string)) (user password : res string)
    : M W (Config * string) := λ w,
  (cfg ← mlift (loadConfig sr flags w);
   let c := rv_Config cfg in
   username ← mlift (if (Username c =? "")%string then user else Ok (Username c));
   password ← mlift password;
   session ← login (Server c) (CAFile c) username password;
   let saved := set_Session session (set_Username username c) in
   path ← saveConfig sr saved;
   mret (saved, path)) w.

(** ** What an enrolment leaves *)
Lemma ensureKeypair_keeps gen cfg priv c :
  ensureKeypair gen cfg = Ok (priv, c) →
  Server c = Server cfg ∧ CAFile c = CAFile cfg ∧ AgentID c = AgentID cfg ∧ Username c = Username cfg ∧
  Assertion c = Assertion cfg.
Proof.
  unfold ensureKeypair. destruct (negb _).
  - destruct (std_decode _); [|done]. destruct (negb _); [done|]. by intros [= <- <-].
  - destruct gen; [|done]. by intros [= <- <-].
Qed.

Lemma enroll_nonempty server caFile u p id pk rb n text n' :
  enroll server caFile u p id pk rb n = (Ok text, n') → text ≠ "".
Proof.
  unfold enroll. intros (? & ? & _ & He)%M_bind_ok_inv. apply M_bind_ok_inv in He as (? & ? & _ & He).
  apply M_bind_ok_inv in He as (? & ? & _ & He). apply M_bind_ok_inv in He as (resp & ? & _ & He).
  destruct (negb (ha_StatusCode resp =? StatusOK)); [by destruct (negb _)|].
  destruct (String.eqb_spec (eo_Assertion (Decode_enroll_out (ha_Body resp))) ""); [done|]. by injection He as <- _.
Qed.

Lemma enrollThisMachineAs_inv gen user password rb cfg n cfg' n1 :
  enrollThisMachineAs gen user password rb cfg n = (Ok cfg', n1) →
  ∃ priv c1 username pass text,
    ensureKeypair gen cfg = Ok (priv, c1) ∧
    (if (Username c1 =? "")%string then user else Ok (Username c1)) = Ok username ∧ password = Ok pass ∧
    enroll (Server c1) (CAFile c1) username pass (AgentID c1)
      (publicKeyOf priv) rb n = (Ok text, n1) ∧
    cfg' = set_Username username (set_Assertion text c1).
Proof.
  unfold enrollThisMachineAs. intros He.
  apply M_bind_ok_inv in He as ([priv c1] & ? & [= Hk <-] & He).
  apply M_bind_ok_inv in He as (username & ? & [= Hu <-] & He).
  apply M_bind_ok_inv in He as (pass & ? & [= Hp <-] & He).
  unfold mbind, M_bind, attempt in He.
  destruct (enroll _ _ _ _ _ _ _ n) as [[text|e] n2] eqn:Ee; [|done]. injection He as <- <-.
  by exists priv, c1, username, pass, text.
Qed.

Lemma enrollThisMachine_assertion gen user password cfg w c w' :
  enrollThisMachine gen user password cfg w = (Ok c, w') → Assertion c ≠ "".
Proof.
  intros (priv & c1 & username & pass & text & _ & _ & _ & He & ->)%enrollThisMachineAs_inv.
  by eapply enroll_nonempty.
Qed.
End identity.
