(* ===== verification/AgentSession.v ===== *)
(** * One session of the agent (client/session.go: dialUpgrade, upgrade, runSession;
    client/run.go: the body of superviseSessions)

    From the challenge to the tunnel's end.  The connection is the class
    [Network]: what dialling, writing the request and reading the response do;
    yamux is the session's environment. *)

From S2P Require Import Prelude GoStrings GoNum GoBase64 Interfaces GoNet Wire Assertions Host Mux.
From S2P Require Import ClientURLs ClientConfig AgentLoop Identity.

Open Scope string_scope.
Open Scope list_scope.
Open Scope Z_scope.

(** A dialled connection.  [nw_Write] is [req.Write] of a GET request with this
    URL and these headers; [nw_ReadResponse] is [http.ReadResponse], with what
    its reader holds or will still deliver. *)
Class Network (CertPool W : Type) := {
  nw_Dial : string → option (TLSConfig CertPool) → M W ();
  nw_SetDeadline : M W ();
  nw_Write : string → gmap string string → M W ();
  nw_ReadResponse : M W (Z * string * BufReader);
  nw_ClearDeadline : M W ();
  nw_Close : W → W
}.

Definition StatusSwitchingProtocols : Z := 101.

Section session.
  Context {CertPool W : Type} `{ClientHost W} `{X509 CertPool} `{Internet CertPool W}
    `{Network CertPool W} `{URLParser} `{ClientJSON} `{Ed25519}.

Definition dial (u : URL) (tlsCfg : TLSConfig CertPool) : M W () :=
  let addr := hostPort u in
  if (u_Scheme u =? "https")%string then nw_Dial addr (Some tlsCfg) else nw_Dial addr None.

(** The headers [upgrade] sets, the identity last. *)
Definition upgrade_header (hello : Hello) (identity : gmap string string) : gmap string string :=
  identity ∪ SetHeaders hello (<["Upgrade" := UpgradeProto]> (<["Connection" := "Upgrade"]> ∅)).

(** The bytes the tunnel yields are those [WithBuffered] hands on. *)
Definition upgrade (u : URL) (hello : Hello) (identity : gmap string string) : M W string :=
  mlift (Parse (url_String u));;
  nw_SetDeadline;;
  nw_Write (url_String u) (upgrade_header hello identity);;
  r ← attempt nw_ReadResponse;
  match r with
  | Err e => mthrow (wrapf ("connected, but the upgrade went unanswered for 10s "
                            +:+ "(a proxy in the path may not be passing it through): ") e)
  | Ok (code, status, br) =>
      if negb (code =? StatusSwitchingProtocols)
      then mthrow (errorf ("upgrade rejected: " +:+ status))
      else nw_ClearDeadline;; mret (WithBuffered br)
  end.

Definition dialUpgrade (server : string) (hello : Hello) (tlsCfg : TLSConfig CertPool)
    (identity : gmap string string) : M W string :=
  u ← mlift (Parse server);
  if (u_Host u =? "")%string then mthrow (no_host server)
  else if negb ((u_Scheme u =? "http")%string || (u_Scheme u =? "https")%string)
  then mthrow (errorf ("unsupported scheme " +:+ quote (u_Scheme u) +:+ ", expected http or https"))
  else
    let u := set_Path ConnectPath u in
    dial u tlsCfg;;
    r ← attempt (upgrade u hello identity);
    match r with
    | Err e => mmodify nw_Close;; mthrow e
    | Ok tunnel => mret tunnel
    end.

(** What the tunnel brings: [yamux.Client]; the identities of session and
    connection, the clock, the pings; and how [AcceptStream] finally fails. *)
Record Tunnel_life := mkLife {
  tl_yamux : res Z;
  tl_conn : Z;
  tl_now : Z;
  tl_first : res Z;
  tl_wakes : list ping_wake;
  tl_accept : error
}.

Definition runSession (server : string) (hello : Hello) (tlsCfg : TLSConfig CertPool)
    (identity : gmap string string) (life : Tunnel_life) : W → (option Established * res ()) * W := λ w,
  match dialUpgrade server hello tlsCfg identity w with
  | (Err e, w) => ((None, Err e), w)
  | (Ok _, w) =>
      match tl_yamux life with
      | Err e => ((None, Err e), nw_Close w)
      | Ok sess => ((Some (mkEstablished sess (tl_conn life) (tl_now life) (tl_first life) (tl_wakes life)),
                     Err (tl_accept life)), nw_Close w)
      end
  end.

(** The unit of work of [superviseSessions]. *)
Definition session_attempt (cfg : Config) (priv : string) (hello : Hello) (tlsCfg : TLSConfig CertPool)
    (life : Tunnel_life) : W → (option Established * res ()) * W := λ w,
  match identityHeaders cfg priv w with
  | (Err e, w) => ((None, Err e), w)
  | (Ok identity, w) => runSession (Server cfg) hello tlsCfg identity life w
  end.
End session.
