(* ===== verification/EndToEnd.v ===== *)
(** * The client against the relay

    The client's commands (Identity.v, AgentSession.v) over a network whose
    other end is the relay (Dashboard.v): every exchange is one request put
    through the relay's routes.  What is proved of the two ends separately holds
    of the pair: a machine that was enrolled connects, and an operator who signed
    in is let through. *)

From Stdlib Require Import Ascii.
From S2P Require Import Prelude GoStrings GoNum GoBase64 Interfaces GoNet.
From S2P Require Import ClientURLs ClientConfig AgentLoop Identity AgentSession.
From S2P Require Import Wire Assertions Host Mux.
From S2P Require Import Challenges Events Registry Proxies ServerConfig VaultClient KVStore AgentKeys.
From S2P Require Import OperatorStore Auth AuthProofs Server Enroll EnrollProofs AgentConn AgentRpc.
From S2P Require Import RelayTools VaultProofs ToyVault OperatorProofs Dashboard.

Open Scope string_scope.
Open Scope list_scope.
Open Scope Z_scope.

(** The client's machine, the relay, the relay's inputs for the requests to
    come, and the request written on the connection being upgraded. *)
Record Net (WC W : Type) := mkNet {
  nt_client : WC;
  nt_relay : Server W;
  nt_env : list (Inputs * Z);
  nt_pending : option (string * gmap string string)
}.
Arguments mkNet {WC W}.
Arguments nt_client {WC W}.
Arguments nt_relay {WC W}.
Arguments nt_env {WC W}.
Arguments nt_pending {WC W}.

Definition set_client {WC W} (c : WC) (n : Net WC W) : Net WC W :=
  mkNet c (nt_relay n) (nt_env n) (nt_pending n).

(** The client's own files. *)
#[export] Instance net_files {WC W} `{FileSystem WC} : FileSystem (Net WC W) := {|
  fs_ReadFile p n := fs_ReadFile p (nt_client n);
  fs_WriteFile p d := zoom nt_client set_client (fs_WriteFile p d);
  fs_MkdirAll p := zoom nt_client set_client (fs_MkdirAll p)
|}.
#[export] Instance net_host {WC W} `{ClientHost WC} : ClientHost (Net WC W) := {|
  ch_Stat p n := ch_Stat p (nt_client n);
  ch_OpenForWriting p n := ch_OpenForWriting p (nt_client n);
  ch_Create p := zoom nt_client set_client (ch_Create p);
  ch_Remove p n := set_client (ch_Remove p (nt_client n)) n;
  ch_Chmod p := zoom nt_client set_client (ch_Chmod p)
|}.

(** The encodings between the two ends: JSON bodies, the [Cookie] header, and
    the reading of the upgrade response; documented behaviour of the standard
    library, as far as the two programs rely on it. *)
Class Encodings := {
  enc_body : body → string;
  enc_status : Z → string;
  enc_cookies : string → list (string * string);
  enc_upgrade : string → res (Z * string * BufReader)
}.

(** Characters no cookie encoding touches. *)
Definition cookie_char (c : ascii) : bool := is_alnum c || is_char 46 c || is_char 45 c.

Class EncodingsLaws `{Encodings} `{ClientJSON} `{JSON enrollRequest} (text_ok : string → Prop) := {
  el_enroll a e : Decode_enroll_out (enc_body (BJson (JObj [("assertion", JStr a); ("expires_at", JStr e)])))
                  = mkEnrollOut a e "";
  el_challenge n : Decode_challenge (enc_body (BJson (JObj [("challenge", JStr n)]))) = Ok n;
  el_request u p id pk rb text :
    text_ok u → text_ok p → text_ok id → text_ok pk →
    Marshal_map (enroll_fields u p id pk rb) = Ok text → len text ≤ 2 ^ 20 →
    Decode text = Ok (mkEnrollRequest u p id pk rb);
  el_cookie v : v ≠ "" → schars cookie_char v = true →
    enc_cookies (sessionCookieName +:+ "=" +:+ v) = [(sessionCookieName, v)];
  el_upgrade : ∃ br, enc_upgrade upgrade_response = Ok (101, "101 Switching Protocols", br)
}.

Section net.
  Context {WC W CertPool : Type} `{ClientHost WC} `{X509 CertPool} `{URLParser} `{!ClientJSON} `{!Encodings}
    `{JSON ClientConfig.Config}.
  Context `{FileSystem W} `{VaultHTTP W} `{VaultJSON} `{Argon2} `{HMAC} `{Ed25519}
    `{JSON Assertion} `{JSON (option key_map)} `{JSON enrollRequest} `{JSON operator} `{JSON Event}
    `{Tunnel W} `{JSON RPCRequest} `{JSON RPCResponse} `{MuxRedirectStatus}.
  Context (format nano ms : Z → string) (version : string)
    (range : Registry → list (string * agentRec)) (streams : Z → Z) (conns : Z → CountingConn).
  Context (remote : string) (tls : option string).

Notation N := (Net WC W).
Notation Routes := (routes format nano ms version range streams conns).

(** A request as the relay's [net/http] hands it to the routes. *)
Definition to_relay (u : URL) (header : gmap string string) (b : payload) : Request :=
  mkRequest (u_Path u) header remote tls (enc_cookies (Header_Get header "Cookie"))
    (match b with PForm fields => list_to_map fields | _ => ∅ end) ∅
    (match b with PBytes s => s | _ => "" end).

(** One request put through the routes, with the next of the relay's inputs;
    when there is none the relay does not answer. *)
Definition exchange (method url : string) (header : gmap string string) (b : payload) : M N answer := λ n,
  match nt_env n with
  | [] => (Err (errorf "context deadline exceeded"), n)
  | (i, now) :: env =>
      match Parse url with
      | Err e => (Err e, n)
      | Ok u =>
          let '(a, s) := Routes method (EscapedPath u) i now (to_relay u header b) (nt_relay n) in
          (match a with Ok a => Ok a | Err _ => Err (errorf "EOF") end,
           mkNet (nt_client n) s env (nt_pending n))
      end
  end.

#[export] Instance relay_internet : Internet CertPool N := λ _ req,
  a ← exchange (hq_Method req) (hq_URL req)
        (if (hq_Type req =? "")%string then ∅ else {["Content-Type" := hq_Type req]}) (hq_Body req);
  match a with
  | AResponse resp =>
      mret (mkHTTPAnswer (rs_status resp) (enc_status (rs_status resp))
              ((λ c, (ck_name c, ck_value c)) <$> rs_cookies resp) (enc_body (rs_body resp)))
  | _ => mthrow (errorf "unexpected EOF")
  end.

(** On the connection being upgraded the relay's answer is what it writes after
    the hijack; a session then begins, dated by the clock of the inputs. *)
#[export] Instance relay_network : Network CertPool N := {|
  nw_Dial _ _ := mret ();
  nw_SetDeadline := mret ();
  nw_Write url header n := (Ok (), mkNet (nt_client n) (nt_relay n) (nt_env n) (Some (url, header)));
  nw_ReadResponse := λ n,
    match nt_pending n with
    | None => (Err ErrorEOF, n)
    | Some (url, header) =>
        let now k := match nt_env n with (i, _) :: _ => in_now i k | [] => 0 end in
        (a ← exchange "GET" url header PNone;
         match a with
         | AConnect (Served h addr sess sent _ tr detail) =>
             zoom nt_relay (λ s n, mkNet (nt_client n) s (nt_env n) (nt_pending n))
               (serveSession_begin h addr sess sess tr detail (now 3%nat) (now 4%nat));;
             mlift (enc_upgrade sent)
         | AResponse resp => mret (rs_status resp, enc_status (rs_status resp), mkBufReader "" [])
         | AConnect (Answered resp) => mret (rs_status resp, enc_status (rs_status resp), mkBufReader "" [])
         | _ => mthrow ErrorUnexpectedEOF
         end) n
    end;
  nw_ClearDeadline := mret ();
  nw_Close n := n
|}.

(** ** Getting through *)
Notation Serve := (serve format nano ms version range streams conns).

(** The server's address, and that the URLs built from it are read back. *)
Definition called_paths : list string := [EnrollPath; ChallengePath; ConnectPath; "/api/login"].
Definition reaches (server : string) : Prop :=
  ∃ u, Parse server = Ok u ∧ u_Host u ≠ "" ∧ u_Scheme u ∈ ["http"; "https"] ∧
    ∀ q p, p ∈ called_paths →
      ∃ u', Parse (url_String (set_RawQuery q (set_Path p u))) = Ok u' ∧ u_Path u' = p ∧ EscapedPath u' = p.

Lemma exchange_route method url u p rt header b n i now env :
  nt_env n = (i, now) :: env → Parse url = Ok u → u_Path u = p → EscapedPath u = p →
  open p = true → ServeMux route_table method p = MuxFound rt [] →
  exchange method url header b n
  = let '(a, s) := Serve rt i (with_params [] (to_relay u header b)) (nt_relay n) in
    (match a with Ok a => Ok a | Err _ => Err (errorf "EOF") end,
     mkNet (nt_client n) s env (nt_pending n)).
Proof.
  intros He Hu Hp Hr Ho Hm. unfold exchange. rewrite He, Hu, Hr.
  unfold routes, protect. change (rq_path (to_relay u header b)) with (u_Path u).
  rewrite Hp, Ho, orb_true_r. cbn [orb]. unfold mux. by rewrite Hm.
Qed.

Lemma relayURL_reaches server p :
  reaches server → p ∈ called_paths →
  ∃ url u', relayURL server p = Ok url ∧ Parse url = Ok u' ∧ u_Path u' = p ∧ EscapedPath u' = p.
Proof.
  intros (u & Hu & Hh & _ & Hp) Hin. destruct (Hp "" p Hin) as (u' & ? & ? & ?).
  eexists _, u'. split; [|done]. unfold relayURL. rewrite Hu. cbn.
  by rewrite (proj2 (String.eqb_neq _ _) Hh).
Qed.

Definition answered (resp : Response) : HTTPAnswer :=
  mkHTTPAnswer (rs_status resp) (enc_status (rs_status resp))
    ((λ c, (ck_name c, ck_value c)) <$> rs_cookies resp) (enc_body (rs_body resp)).

Lemma http_Do_route client req u p rt n i now env resp s' :
  nt_env n = (i, now) :: env → Parse (hq_URL req) = Ok u → u_Path u = p → EscapedPath u = p →
  open p = true → ServeMux route_table (hq_Method req) p = MuxFound rt [] →
  Serve rt i (with_params [] (to_relay u (if (hq_Type req =? "")%string then ∅
                                          else {["Content-Type" := hq_Type req]}) (hq_Body req))) (nt_relay n)
  = (Ok (AResponse resp), s') →
  relay_internet (client : HTTPClient CertPool) req n
  = (Ok (answered resp), mkNet (nt_client n) s' env (nt_pending n)).
Proof.
  intros Henv Hu Hp Hr Ho Hm Hs. unfold relay_internet. erewrite bind_ok; [|].
  2: { erewrite exchange_route by done. rewrite Hs. reflexivity. }
  reflexivity.
Qed.

Lemma respond_inv {S} (m : M S Response) s a s' :
  (resp ← m; mret (AResponse resp)) s = (Ok a, s') → ∃ resp, m s = (Ok resp, s') ∧ a = AResponse resp.
Proof. unfold mbind, M_bind. destruct (m s) as [[resp|e] s1]; [|done]. intros [= <- <-]. eauto. Qed.

(** A successful enrolment, seen from the client, is a successful enrolment at
    the relay. *)
Lemma enroll_at_relay server caFile u p id pk rb n text n' :
  reaches server → enroll (CertPool := CertPool) server caFile u p id pk rb n = (Ok text, n') →
  ∃ i now env body url header resp s',
    nt_env n = (i, now) :: env ∧ Marshal_map (enroll_fields u p id pk rb) = Ok body ∧
    handleEnroll format (with_params [] (to_relay url header (PBytes body)))
      (in_now i 0%nat) (in_now i 1%nat) (in_now i 2%nat) (nt_relay n) = (Ok resp, s') ∧
    rs_status resp = StatusOK ∧ text = eo_Assertion (Decode_enroll_out (enc_body (rs_body resp))) ∧
    n' = mkNet (nt_client n) s' env (nt_pending n).
Proof.
  intros Hr He. destruct (relayURL_reaches server EnrollPath Hr) as (url & u' & Hurl & Hpu & Hpath & Hesc);
    [by repeat constructor|].
  unfold enroll in He. rewrite Hurl in He.
  apply M_bind_ok_inv in He as (? & ? & [= <- <-] & He).
  apply M_bind_ok_inv in He as (body & n1 & Hb & He). unfold mlift in Hb. injection Hb as Hb <-.
  apply M_bind_ok_inv in He as (client & n1 & Hc & He). unfold relayClient in Hc. injection Hc as _ <-.
  apply M_bind_ok_inv in He as (resp & n1 & Hd & He).
  unfold http_Do, relay_internet in Hd. apply M_bind_ok_inv in Hd as (a & n2 & Hx & Hd).
  destruct (nt_env n) as [|[i now] env] eqn:Henv; [by unfold exchange in Hx; rewrite Henv in Hx|].
  erewrite exchange_route in Hx; [|exact Henv|exact Hpu|exact Hpath|exact Hesc|reflexivity|].
  2: { vm_compute. reflexivity. }
  cbn [serve hq_Method hq_Body] in Hx.
  destruct (respond _ (nt_relay n)) as [[a'|e] s'] eqn:Es; [|done]. injection Hx as -> <-.
  apply respond_inv in Es as (r & Hh & ->). injection Hd as <- <-. cbn [ha_StatusCode ha_Body] in He.
  destruct (rs_status r =? StatusOK) eqn:Est; cbn [negb] in He; [|by destruct (negb _)].
  apply Z.eqb_eq in Est. destruct (_ =? "")%string; [done|]. injection He as <- <-.
  eexists i, now, env, body, u', _, r, s'. split_and!; try done.
Qed.

Context {text_ok : string → Prop} `{!EncodingsLaws text_ok} {wf : Assertion → Prop}
  `{!JSONLaws Assertion wf} `{!Ed25519Laws}.

Lemma fetchChallenge_at_relay server caFile n i now env nonce seen tlsCfg :
  reaches server → tlsConfig (CertPool := CertPool) caFile n = Ok tlsCfg → nt_env n = (i, now) :: env →
  issue (in_rnd i) (in_now i 0%nat) (in_now i 1%nat) (sv_challenges (nt_relay n)) = (Ok nonce, seen) →
  nonce ≠ "" →
  fetchChallenge (CertPool := CertPool) server caFile n
  = (Ok nonce, mkNet (nt_client n) (set_challenges seen (nt_relay n)) env (nt_pending n)).
Proof.
  intros Hr Ht Henv Hi Hne.
  destruct (relayURL_reaches server ChallengePath Hr) as (url & u' & Hurl & Hpu & Hpath & Hesc);
    [by repeat constructor|].
  unfold fetchChallenge. rewrite Hurl.
  erewrite bind_ok by reflexivity. erewrite bind_ok; [|unfold relayClient; by rewrite Ht].
  erewrite bind_ok.
  2: { eapply http_Do_route; [exact Henv|exact Hpu|exact Hpath|exact Hesc|reflexivity|vm_compute; reflexivity|].
       cbn [serve]. unfold respond, handleAgentChallenge, mbind, M_bind, attempt, on_challenges, zoom.
       rewrite Hi. reflexivity. }
  cbn [answered ha_StatusCode ha_Body rs_status rs_body writeJSON]. rewrite Z.eqb_refl. cbn [negb].
  erewrite bind_ok; [|unfold mlift; by rewrite el_challenge].
  by rewrite (proj2 (String.eqb_neq _ _) Hne).
Qed.

Lemma identity_lookup sig nonce assertion k :
  (<[HeaderSignature := sig]> (<[HeaderChallenge := nonce]> (<[HeaderAssertion := assertion]> (∅ : gmap string string)))) !! k
  = if decide (k = HeaderSignature) then Some sig
    else if decide (k = HeaderChallenge) then Some nonce
    else if decide (k = HeaderAssertion) then Some assertion else None.
Proof. repeat case_decide; simplify_map_eq; done. Qed.

(** The headers of the upgrade: the identity, the hello and the protocol. *)
Lemma upgrade_header_lookup hello sig nonce assertion :
  let h := upgrade_header hello
    (<[HeaderSignature := sig]> (<[HeaderChallenge := nonce]> (<[HeaderAssertion := assertion]> ∅))) in
  Header_Get h HeaderAssertion = assertion ∧ Header_Get h HeaderChallenge = nonce ∧
  Header_Get h HeaderSignature = sig ∧ Header_Get h "Upgrade" = UpgradeProto ∧
  HelloFromHeaders h = HelloFromHeaders (SetHeaders hello ∅).
Proof.
  intros h.
  assert (∀ k, h !! k = (if decide (k = HeaderSignature) then Some sig
      else if decide (k = HeaderChallenge) then Some nonce
      else if decide (k = HeaderAssertion) then Some assertion
      else SetHeaders hello (<["Upgrade" := UpgradeProto]> (<["Connection" := "Upgrade"]> ∅)) !! k)) as Hl.
  { intros k. unfold h, upgrade_header. rewrite lookup_union, identity_lookup.
    repeat case_decide; by rewrite ?union_Some_l, ?(left_id_L None _). }
  unfold Header_Get. split_and!; [by rewrite Hl..| |]; [by rewrite Hl|].
  unfold HelloFromHeaders, Header_Get. rewrite !Hl. reflexivity.
Qed.

Definition established (life : Tunnel_life) (x : Z) : Established :=
  mkEstablished x (tl_conn life) (tl_now life) (tl_first life) (tl_wakes life).

Definition clean_hijack (sess : Z) (hj : Hijack) : Prop :=
  ∃ br, hj = mkHijack true (Ok (mkWriter "" [], br)) (Ok ()) (Ok ()) (Ok sess).

(** The relay's answer to a request whose identity it accepts. *)
Lemma serve_connect i r hello id s1 sess (s : Server W) :
  HelloFromHeaders (rq_header r) = Ok hello →
  verifyAgent format r (in_now i 0%nat) (in_now i 1%nat) s = (Ok id, s1) →
  Header_Get (rq_header r) "Upgrade" = UpgradeProto → clean_hijack sess (in_hijack i) →
  ∃ pipelined tr detail,
    Serve RConnect i r s
    = (Ok (AConnect (Served (with_AgentID id hello) (rq_remote r) sess upgrade_response pipelined tr detail)), s1).
Proof.
  intros Hh Hv Hu (br & Hj). cbn [serve]. unfold handleAgentConnect, identify. rewrite Hh, Hj.
  unfold mbind at 1, M_bind at 1. unfold mbind at 1, M_bind at 1. unfold attempt. rewrite Hv.
  rewrite Hu. change (EqualFold UpgradeProto UpgradeProto) with true. cbn [negb hj_supported hj_result].
  unfold completeUpgrade. cbn [hj_deadline hj_clear hj_yamux]. rewrite write_ok.
  unfold mbind, M_bind, mget. destruct (transportOf _ r) as [tr detail]. by eexists _, tr, detail.
Qed.

Lemma serveSession_begin_current h addr sess conn tr detail now te (s : Server W) :
  ∃ stale s', serveSession_begin h addr sess conn tr detail now te s = (Ok stale, s') ∧
    Registry.Session (AgentID h) (sv_registry s') = Some sess.
Proof.
  unfold serveSession_begin, mbind, M_bind, mget, mmodify.
  destruct (Connect h addr sess conn tr detail now (sv_registry s)) as [[re stale] reg] eqn:Ec.
  rewrite publish_state. eexists _, _. split; [done|]. cbn [sv_registry set_events set_registry].
  assert (reg = snd (Connect h addr sess conn tr detail now (sv_registry s))) as -> by (by rewrite Ec).
  unfold Connect. destruct (sv_registry s !! AgentID h); cbn; unfold Registry.Session; by rewrite lookup_insert_eq.
Qed.

Lemma runSession_at_relay server hello tlsCfg sig nonce assertion n i now env id s1 sess life x :
  let identity := <[HeaderSignature := sig]> (<[HeaderChallenge := nonce]> (<[HeaderAssertion := assertion]> ∅)) in
  reaches server → nt_env n = (i, now) :: env → hello_ok hello = true →
  (∀ u, verifyAgent format (with_params [] (to_relay u (upgrade_header hello identity) PNone))
          (in_now i 0%nat) (in_now i 1%nat) (nt_relay n) = (Ok id, s1)) →
  clean_hijack sess (in_hijack i) → tl_yamux life = Ok x →
  ∃ n', runSession (CertPool := CertPool) server hello tlsCfg identity life n
        = ((Some (established life x), Err (tl_accept life)), n') ∧
    Registry.Session id (sv_registry (nt_relay n')) = Some sess.
Proof.
  intros identity (u & Hu & Hh & Hsch & Hp) Henv Hhello Hv Hj Hy.
  destruct (Hp (u_RawQuery u) ConnectPath) as (u' & Hpu & Hpath & Hesc); [by repeat constructor|].
  replace (set_RawQuery (u_RawQuery u) (set_Path ConnectPath u)) with (set_Path ConnectPath u) in Hpu
    by (by destruct u).
  destruct (upgrade_header_lookup hello sig nonce assertion) as (_ & _ & _ & Hup & Hhl).
  fold identity in Hup, Hhl. rewrite hello_roundtrip in Hhl by done.
  set (header := upgrade_header hello identity) in *.
  destruct (serve_connect i (with_params [] (to_relay u' header PNone)) hello id s1 sess (nt_relay n))
    as (pip & tr & detail & Hserve); [exact Hhl|apply Hv|exact Hup|exact Hj|].
  destruct (serveSession_begin_current (with_AgentID id hello) remote sess sess tr detail
    (in_now i 3%nat) (in_now i 4%nat) s1) as (stale & s2 & Hbegin & Hreg).
  destruct el_upgrade as [br Hbr].
  assert (ServeMux route_table "GET" ConnectPath = MuxFound RConnect []) as Hmux by (vm_compute; reflexivity).
  set (n' := mkNet (nt_client n) s2 env (Some (url_String (set_Path ConnectPath u), header))).
  exists n'. split; [|exact Hreg].
  unfold runSession, dialUpgrade. erewrite bind_ok; [|unfold mlift; by rewrite Hu].
  rewrite (proj2 (String.eqb_neq _ _) Hh).
  assert ((u_Scheme u =? "http")%string || (u_Scheme u =? "https")%string = true) as ->.
  { rewrite !elem_of_cons in Hsch. destruct Hsch as [->|[->|Hn]]; [done|done|by apply elem_of_nil in Hn]. }
  cbn [negb].
  assert (dial (CertPool := CertPool) (set_Path ConnectPath u) tlsCfg n = (Ok (), n)) as Hdial
    by (unfold dial; by destruct (_ =? _)%string).
  erewrite bind_ok; [|exact Hdial].
  erewrite bind_attempt; [|].
  2: { unfold upgrade. erewrite bind_ok; [|unfold mlift; by rewrite Hpu].
       erewrite bind_ok; [|reflexivity]. erewrite bind_ok; [|reflexivity].
       erewrite bind_attempt; [|].
       2: { cbn [nw_ReadResponse relay_network nt_pending nt_env]. rewrite Henv. erewrite bind_ok; [|].
            2: { fold header. rewrite (exchange_route "GET" _ u' ConnectPath RConnect header PNone
                   (mkNet (nt_client n) (nt_relay n) ((i, now) :: env)
                          (Some (url_String (set_Path ConnectPath u), header))) i now env
                   eq_refl Hpu Hpath Hesc eq_refl Hmux).
                 cbn [nt_relay]. rewrite Hserve. reflexivity. }
            cbn beta iota. erewrite bind_ok.
            2: { unfold zoom. cbn [nt_relay].
                 change (rq_remote _) with remote. rewrite Hbegin. reflexivity. }
            unfold mlift. rewrite Hbr. reflexivity. }
       reflexivity. }
  cbn beta iota. unfold mret, M_ret. rewrite Hy. reflexivity.
Qed.

Lemma issue_pending rnd t0 t seen nonce seen' :
  issue rnd t0 t seen = (Ok nonce, seen') → seen' !! nonce = Some t.
Proof.
  unfold issue. destruct rnd as [b|e]; [|done]. destruct (_ <=? _); [done|]. intros [= <- <-].
  by rewrite lookup_insert_eq.
Qed.

(** What enrolling changes in the settings: the key if there was none, the
    assertion, and the name it was done under. *)
Lemma verifyAgent_header r r' now nr (s : Server W) :
  rq_header r = rq_header r' → verifyAgent format r now nr s = verifyAgent format r' now nr s.
Proof. intros Hr. unfold verifyAgent. by rewrite Hr. Qed.

(** The settings after [beacon enroll], and what they are good for: the relay
    accepts a request that carries the assertion and a signature by the key over
    a nonce it is waiting for. *)
Lemma enrolled_is_accepted gen user password rb cfg n i0 g0 env0 cfg' n1 priv c1 username pass :
  reaches (ClientConfig.Server cfg) → nt_env n = (i0, g0) :: env0 →
  enrollThisMachineAs (CertPool := CertPool) gen user password rb cfg n = (Ok cfg', n1) →
  ensureKeypair gen cfg = Ok (priv, c1) → len priv = PrivateKeySize →
  (if (Username cfg =? "")%string then user else Ok (Username cfg)) = Ok username → password = Ok pass →
  text_ok username → text_ok pass → text_ok (ClientConfig.AgentID cfg) → text_ok (publicKeyOf priv) →
  (∀ body, Marshal_map (enroll_fields username pass (ClientConfig.AgentID cfg) (publicKeyOf priv) rb) = Ok body →
           len body ≤ 2 ^ 20) →
  let id := TrimSpace (ClientConfig.AgentID cfg) in
  let a := mkAssertion id (publicKeyOf priv) (in_now i0 1%nat) (in_now i0 1%nat + assertionTTL) in
  let vw1 := (claim format id (publicKeyOf priv) username rb (in_now i0 0%nat) (sv_vault (nt_relay n))).2 in
  (∀ doc sig vw2, MarshalAssertion a = Ok doc → Sign doc vw1 = (Ok sig, vw2) →
     Verify (fst (sv_vault (nt_relay n))) doc sig = true) →
  wf a →
  ∃ text, cfg' = set_Username username (set_Assertion text c1) ∧ text ≠ "" ∧
    ∀ r (s : Server W) t now nr,
      va_pubKeys (fst (sv_vault s)) = va_pubKeys (fst (sv_vault (nt_relay n))) →
      Header_Get (rq_header r) HeaderAssertion = text →
      Header_Get (rq_header r) HeaderSignature
      = std_encode (ed_sign priv (Header_Get (rq_header r) HeaderChallenge)) →
      sv_challenges s !! Header_Get (rq_header r) HeaderChallenge = Some t →
      nr ≤ t + challengeTTL → now ≤ in_now i0 1%nat + assertionTTL →
      fst (verifyAgent format r now nr s) = Ok id.
Proof.
  intros Hr Henv He Hk Hlen Hu Hp Htu Htp Hti Htk Hbody id a vw1 Hsign Hwf.
  apply enrollThisMachineAs_inv in He as (priv' & c1' & un & pw & text & Hk' & Hu' & Hp' & He & ->).
  rewrite Hk in Hk'. injection Hk' as <- <-. rewrite Hp in Hp'. injection Hp' as <-.
  destruct (ensureKeypair_keeps _ _ _ _ Hk) as (Hs1 & Hc1 & Hi1 & Hu1 & _). rewrite Hu1, Hu in Hu'. injection Hu' as <-.
  rewrite Hs1, Hc1, Hi1 in He. clear Hu Hp Hk.
  pose proof He as (i & now & env' & body & url & header & resp & s' & Henv' & Hm & Hh & Hst & Ht & _)%enroll_at_relay;
    [|done].
  rewrite Henv in Henv'. injection Henv' as <- <- <-. specialize (Hbody _ Hm).
  set (r := with_params [] (to_relay url header (PBytes body))) in *.
  set (req := mkEnrollRequest username pass (ClientConfig.AgentID cfg) (publicKeyOf priv) rb).
  assert (decodeJSON r = Ok req) as Hdec.
  { unfold decodeJSON. change (rq_body r) with body. rewrite stake_all by done.
    by rewrite (el_request username pass (ClientConfig.AgentID cfg) (publicKeyOf priv) rb body). }
  destruct (handleEnroll_ok_inv _ _ _ _ _ _ _ _ Hh Hst) as (req' & doc & sig & _ & _ & _ & _ & _ & _ & _ & _ & _ & Hb & _).
  rewrite Hb, el_enroll in Ht. cbn [eo_Assertion] in Ht. exists text. split_and!; [done|by eapply enroll_nonempty|].
  intros r2 s t now2 nr Hkeys Hass Hsig Hch Hnr Hnow.
  eapply (enroll_connects format r (in_now i0 0%nat) (in_now i0 1%nat) (in_now i0 2%nat) (nt_relay n) resp s'
    text _ priv req); try done. by rewrite Ht.
Qed.

(** C2: From the prompt to the dashboard: a machine that [beacon enroll] enrolled
    with this relay, run by [beacon run], gets its session -- the relay finds it
    under the id it was enrolled with -- as long as the assertion lasts, the
    relay has kept its Vault keys, and the connection follows its challenge in
    time.  [tls], [remote] and what happens at the relay in between are
    arbitrary; the hypothesis on [Sign] is Vault's promise that its signatures
    verify under the keys the relay has cached. *)
Theorem enrolled_machine_connects gen user password rb cfg n i0 g0 env0 cfg' n1 priv c1 username pass
    n2 i1 g1 i2 g2 env nonce seen tlsCfg hello life sess x :
  reaches (ClientConfig.Server cfg) → nt_env n = (i0, g0) :: env0 →
  enrollThisMachineAs (CertPool := CertPool) gen user password rb cfg n = (Ok cfg', n1) →
  ensureKeypair gen cfg = Ok (priv, c1) → len priv = PrivateKeySize →
  (if (Username cfg =? "")%string then user else Ok (Username cfg)) = Ok username → password = Ok pass →
  text_ok username → text_ok pass → text_ok (ClientConfig.AgentID cfg) → text_ok (publicKeyOf priv) →
  (∀ body, Marshal_map (enroll_fields username pass (ClientConfig.AgentID cfg) (publicKeyOf priv) rb) = Ok body →
           len body ≤ 2 ^ 20) →
  let id := TrimSpace (ClientConfig.AgentID cfg) in
  let a := mkAssertion id (publicKeyOf priv) (in_now i0 1%nat) (in_now i0 1%nat + assertionTTL) in
  let vw1 := (claim format id (publicKeyOf priv) username rb (in_now i0 0%nat) (sv_vault (nt_relay n))).2 in
  (∀ doc sig vw2, MarshalAssertion a = Ok doc → Sign doc vw1 = (Ok sig, vw2) →
     Verify (fst (sv_vault (nt_relay n))) doc sig = true) →
  wf a →
  va_pubKeys (fst (sv_vault (nt_relay n2))) = va_pubKeys (fst (sv_vault (nt_relay n))) →
  nt_env n2 = (i1, g1) :: (i2, g2) :: env → tlsConfig (CertPool := CertPool) (CAFile cfg) n2 = Ok tlsCfg →
  issue (in_rnd i1) (in_now i1 0%nat) (in_now i1 1%nat) (sv_challenges (nt_relay n2)) = (Ok nonce, seen) →
  nonce ≠ "" → in_now i2 1%nat ≤ in_now i1 1%nat + challengeTTL →
  in_now i2 0%nat ≤ in_now i0 1%nat + assertionTTL →
  hello_ok hello = true → clean_hijack sess (in_hijack i2) → tl_yamux life = Ok x →
  ∃ n3, session_attempt cfg' priv hello tlsCfg life n2
        = ((Some (established life x), Err (tl_accept life)), n3) ∧
    Registry.Session id (sv_registry (nt_relay n3)) = Some sess.
Proof.
  intros Hr Henv He Hk Hlen Hu Hp Htu Htp Hti Htk Hbody id a vw1 Hsign Hwf Hkeys Henv2 Htls Hissue Hne
    Hnr Hnow Hhello Hj Hy.
  destruct (ensureKeypair_keeps _ _ _ _ Hk) as (Hs1 & Hc1 & _).
  destruct (enrolled_is_accepted gen user password rb cfg n i0 g0 env0 cfg' n1 priv c1 username pass)
    as (text & -> & Htne & Hacc); try done.
  set (ident := <[HeaderSignature := std_encode (ed_sign priv nonce)]>
    (<[HeaderChallenge := nonce]> (<[HeaderAssertion := text]> (∅ : gmap string string)))).
  set (n2' := mkNet (nt_client n2) (set_challenges seen (nt_relay n2)) ((i2, g2) :: env) (nt_pending n2)).
  destruct (upgrade_header_lookup hello (std_encode (ed_sign priv nonce)) nonce text) as (Hass & Hch & Hsig & _).
  fold ident in Hass, Hch, Hsig.
  set (r u := with_params [] (to_relay u (upgrade_header hello ident) PNone)).
  assert (∀ u, fst (verifyAgent format (r u) (in_now i2 0%nat) (in_now i2 1%nat) (nt_relay n2')) = Ok id) as Hv.
  { intros u. eapply Hacc; try done.
    change (rq_header (r u)) with (upgrade_header hello ident). rewrite Hch. by eapply issue_pending. }
  set (u0 := mkURL "" "" None "" "" "" false false "" "").
  assert (∀ u, verifyAgent format (r u) (in_now i2 0%nat) (in_now i2 1%nat) (nt_relay n2')
    = (Ok id, (verifyAgent format (r u0) (in_now i2 0%nat) (in_now i2 1%nat) (nt_relay n2')).2)) as Hv1.
  { intros u. rewrite (verifyAgent_header (r u) (r u0)) by done. apply run_result, Hv. }
  unfold session_attempt, identityHeaders.
  change (ClientConfig.Assertion _) with text. change (ClientConfig.Server _) with (ClientConfig.Server c1).
  change (CAFile _) with (CAFile c1).
  rewrite (proj2 (String.eqb_neq _ _) Htne), Hs1, Hc1.
  erewrite bind_ok; [|by eapply fetchChallenge_at_relay].
  by eapply runSession_at_relay.
Qed.

(** ** Signing in *)

Lemma session_chars a expiry : schars cookie_char (session a expiry) = true ∧ session a expiry ≠ "".
Proof.
  unfold session. split; [|by destruct (itoa _)]. rewrite !schars_app.
  assert (schars cookie_char (itoa (Unix_of expiry)) = true) as ->.
  { assert (∀ n, schars cookie_char (utoa n) = true) as Hu.
    { intros n. eapply schars_mono; [|apply utoa_digits]. intros c Hc.
      unfold cookie_char, is_alnum, val. unfold is_digit in Hc. lia. }
    unfold itoa. destruct (_ <? _); [|apply Hu]. cbn [schars]. by rewrite Hu. }
  unfold sign. by rewrite hex_encode_chars by (vm_compute; reflexivity).
Qed.

Lemma handleLogin_cookie a r t1 t2 resp v :
  handleLogin a r t1 t2 = Ok resp →
  session_cookie_in ((λ c, (ck_name c, ck_value c)) <$> rs_cookies resp) = Some v →
  login_ok a (TrimSpace (FormValue r "username")) (FormValue r "password") (TrimSpace (FormValue r "token"))
  = Ok true ∧ v = session a (t1 + sessionTTL).
Proof.
  unfold handleLogin. destruct (negb (enabled a)); [by intros [= <-]|].
  destruct (bootstrapping a && _); [intros [= <-]; unfold serveSignIn; by destruct (bootstrapping a)|].
  destruct (login_ok _ _ _ _) as [[]|e]; cbn [mbind res_bind negb]; [|by destruct (wantsHTML r); intros [= <-]|done].
  assert (∀ resp0, rs_cookies resp0 = [] →
    Ok (setSession a r t1 t2 resp0) = Ok resp →
    session_cookie_in ((λ c, (ck_name c, ck_value c)) <$> rs_cookies resp) = Some v →
    Ok true = @Ok bool true ∧ v = session a (t1 + sessionTTL)) as Hs.
  { intros resp0 Hnone [= <-]. unfold setSession, with_cookie. cbn [rs_cookies fmap list_fmap].
    cbn [session_cookie ck_name ck_value session_cookie_in].
    change (sessionCookie =? sessionCookieName)%string with true. cbn [andb].
    rewrite (proj2 (String.eqb_neq _ _) (proj2 (session_chars a (t1 + sessionTTL)))). cbn [negb].
    by intros [= <-]. }
  intros Hr. by eapply Hs; [|exact Hr]; destruct (wantsHTML r).
Qed.

Lemma login_at_relay server caFile u p n v n' :
  reaches server → Identity.login (CertPool := CertPool) server caFile u p n = (Ok v, n') →
  ∃ i now env, nt_env n = (i, now) :: env ∧
    login_ok (sv_auth (nt_relay n)) (TrimSpace u) p "" = Ok true ∧
    v = session (sv_auth (nt_relay n)) (in_now i 0%nat + sessionTTL).
Proof.
  intros Hr Hl. destruct (relayURL_reaches server "/api/login" Hr) as (url & u' & Hurl & Hpu & Hpath & Hesc);
    [by repeat constructor|].
  unfold Identity.login in Hl. apply M_bind_ok_inv in Hl as (tls' & ? & [= _ <-] & Hl).
  apply M_bind_ok_inv in Hl as (u0 & ? & [= Hu0 <-] & Hl).
  unfold relayURL in Hurl. rewrite Hu0 in Hurl. cbn in Hurl. destruct (u_Host u0 =? "")%string; [done|].
  injection Hurl as <-.
  apply M_bind_ok_inv in Hl as (ans & n1 & Hd & Hl).
  unfold http_Do, relay_internet in Hd. apply M_bind_ok_inv in Hd as (a & n2 & Hx & Hd).
  destruct (nt_env n) as [|[i now] env] eqn:Henv; [by unfold exchange in Hx; rewrite Henv in Hx|].
  erewrite exchange_route in Hx; [|exact Henv|exact Hpu|exact Hpath|exact Hesc|reflexivity|].
  2: { vm_compute. reflexivity. }
  cbn [serve] in Hx. unfold mbind at 1, M_bind at 1, mget in Hx.
  destruct (respond _ (nt_relay n)) as [[a'|e] s'] eqn:Es; [|done]. injection Hx as -> <-.
  apply respond_inv in Es as (r & Hh & ->). injection Hd as <- <-. cbn [ha_StatusCode ha_Cookies] in Hl.
  destruct (_ =? StatusUnauthorized); [done|]. destruct (_ =? StatusNotFound); [done|].
  destruct (_ || _); [done|].
  destruct (session_cookie_in _) as [v'|] eqn:Ec; [|done]. injection Hl as <- _.
  injection Hh as Hh _. eapply handleLogin_cookie in Ec; [|exact Hh].
  exists i, now, env. split; [done|exact Ec].
Qed.

(** C13: What [beacon login] saves opens the relay: the session it kept was issued
    for the operator's own credentials, and the header the client's calls are
    made with carries it through the gate to every route for twelve hours --
    for as long as the key it was signed with is the current one. *)
Theorem login_opens_the_relay server caFile user pass n v n' i0 g0 env0 :
  reaches server → nt_env n = (i0, g0) :: env0 →
  Identity.login (CertPool := CertPool) server caFile user pass n = (Ok v, n') →
  (∃ ops, au_ops (sv_auth (nt_relay n)) = Some ops ∧ verify ops (TrimSpace user) pass = Ok true) ∧
  ∀ token, ∃ k h, apiHeader token v = Some (k, h) ∧
    ∀ method url b i now (s : Server W) header,
      sessionKey (sv_auth s) = sessionKey (sv_auth (nt_relay n)) → Header_Get header k = h →
      let expires := in_now i0 0%nat + sessionTTL in
      in_int64 (Unix_of expires) = true → now < time_Unix (Unix_of expires) →
      Routes method (EscapedPath url) i now (to_relay url header b) s
      = mux format nano ms version range streams conns method (EscapedPath url) i (to_relay url header b) s.
Proof.
  intros Hr Henv (i & now & env & Henv' & Hok & ->)%login_at_relay; [|done].
  rewrite Henv in Henv'. injection Henv' as <- <- <-. split.
  { unfold login_ok in Hok. cbn in Hok. destruct (au_ops _) as [ops|]; [|done]. by exists ops. }
  intros token. set (a := sv_auth (nt_relay n)). set (t := in_now i0 0%nat + sessionTTL).
  destruct (session_chars a t) as [Hc Hne]. eexists "Cookie", _. split.
  { unfold apiHeader. by rewrite (proj2 (String.eqb_neq _ _) Hne). }
  intros method url b i now s header Hkey Hhdr expires Hin Hnow.
  unfold routes, protect.
  assert (authenticated (sv_auth s) now (to_relay url header b) = true) as ->; [|by rewrite orb_true_r].
  unfold authenticated. destruct (_ && _); [done|].
  assert (Request_Cookie (to_relay url header b) sessionCookie = Some (session a t)) as ->.
  { unfold Request_Cookie. cbn [rq_cookies to_relay]. rewrite Hhdr.
    change ("beacon_session=" +:+ session a t) with (sessionCookieName +:+ "=" +:+ session a t).
    by rewrite el_cookie. }
  assert (validSession (sv_auth s) now (session a t) = validSession a now (session a t)) as ->.
  { unfold validSession. destruct (Cut _ _) as [[e m]|]; [|done]. unfold sign. by rewrite Hkey. }
  rewrite validSession_minted by done. by apply Z.ltb_lt.
Qed.
End net.

(** ** Witnesses: both ends on the concrete disk and the concrete Vault *)
Section witnesses.
  Local Existing Instances ToyCrypto.toy_hmac ToyCrypto.toy_argon2.
  Local Existing Instances toy_event_json toy_redirect no_tunnel ToyCrypto.toy_ed25519_laws.

Definition after (p s : string) : option string := if HasPrefix s p then Some (TrimPrefix s p) else None.

#[local] Instance toy_urls : URLParser := λ s,
  match after "https://relay" s with
  | None => Err (errorf "parse")
  | Some rest =>
      let p := match filter (λ p, HasPrefix rest p = true) called_paths with p :: _ => p | [] => "" end in
      Ok (mkURL "https" "" None "relay" p "" false false "" "")
  end.

#[local] Instance toy_x509 : X509 () := {|
  SystemCertPool := Ok (); NewCertPool := (); AppendCertsFromPEM _ _ := Some ()
|}.

Definition request_of (fields : list (string * json)) : enrollRequest :=
  match fields with
  | [(_, JStr id); (_, JStr p); (_, JStr pk); (_, JBool rb); (_, JStr u)] => mkEnrollRequest u p id pk rb
  | _ => mkEnrollRequest "" "" "" "" false
  end.

#[local] Instance toy_client_json : ClientJSON := {|
  Marshal_map fields := Marshal (request_of fields);
  Decode_enroll_out s :=
    match after "A" s with
    | Some t => match decode (A := string * string) (text_pos t) with
                | Some (a, e) => mkEnrollOut a e ""
                | None => mkEnrollOut "" "" ""
                end
    | None => mkEnrollOut "" "" ""
    end;
  Decode_challenge s := match after "C" s with Some t => Ok t | None => Err (errorf "invalid character") end
|}.

#[local] Instance toy_encodings : Encodings := {|
  enc_body b := match b with
                | BJson (JObj [(_, JStr a); (_, JStr e)]) => "A" +:+ pos_text (encode (a, e))
                | BJson (JObj [(_, JStr n)]) => "C" +:+ n
                | _ => ""
                end;
  enc_status _ := "status";
  enc_cookies s := match Cut s "=" with Some kv => [kv] | None => [] end;
  enc_upgrade _ := Ok (101, "101 Switching Protocols", mkBufReader "" [])
|}.

Lemma after_app p s : after p (p +:+ s) = Some s.
Proof. unfold after. by rewrite HasPrefix_app, TrimPrefix_app. Qed.

#[local] Instance toy_encodings_laws : EncodingsLaws (λ _, True).
Proof.
  split.
  - intros a e. unfold Decode_enroll_out. cbn [toy_client_json enc_body toy_encodings].
    by rewrite after_app, text_pos_text, decode_encode.
  - intros n. unfold Decode_challenge. cbn [toy_client_json enc_body toy_encodings]. by rewrite after_app.
  - intros u p id pk rb text _ _ _ _ [= <-] _. unfold Decode, toy_enroll_json, ToyJSON.toy_json.
    rewrite (proj2 (Cut_char_None 10 _) (ToyJSON.pos_text_no_nl _)).
    unfold ToyJSON.toy_unmarshal. by rewrite text_pos_text, decode_encode.
  - intros v _ _. unfold enc_cookies. cbn [toy_encodings].
    change ("=" +:+ v) with (String (byte 61) v). by rewrite (Cut_char 61 sessionCookieName v eq_refl : Cut _ "=" = _).
  - by eexists.
Qed.

Lemma toy_reaches : reaches "https://relay".
Proof.
  eexists. split_and!; [reflexivity|done|by right; left|].
  intros q p Hp. assert (∃ p', p' ∈ called_paths ∧ p = p') as (p' & Hin & ->) by eauto.
  destruct (String.eqb_spec q "") as [->|Hq].
  all: unfold called_paths in Hin; rewrite !elem_of_cons in Hin.
  all: destruct Hin as [->|[->|[->|[->|[]%elem_of_nil]]]]; eexists; split_and!; try reflexivity.
  all: unfold url_String; cbn [u_ForceQuery u_RawQuery set_RawQuery set_Path orb];
    rewrite (proj2 (String.eqb_neq _ _) Hq); reflexivity.
Qed.

Definition toy_settings : ClientConfig.Config :=
  ClientConfig.mkConfig "https://relay" " lab-1 " "" "" "ana" "" (std_encode agent_sk) "" "" None None.
Definition toy_net : Net Box.t World :=
  mkNet (Box.mk ∅ ∅) toy_server [(toy_inputs, 100)] None.

#[local] Notation on_toy f := (f toy_format toy_format toy_format "v1" map_to_list (λ _, 0)
  (λ _, mkCountingConn 0 0) "10.0.0.1:1" None) (only parsing).
#[local] Instance toy_internet : Internet () (Net Box.t World) := on_toy relay_internet.
#[local] Instance toy_network : Network () (Net Box.t World) := on_toy relay_network.

Definition toy_enrolment : res ClientConfig.Config * Net Box.t World :=
  enrollThisMachineAs (CertPool := ()) (Err ErrorEOF) (Err ErrorEOF) (Ok "correct horse") false toy_settings toy_net.

Definition toy_signs (a : Assertion) (vw : vault * World) : bool :=
  match MarshalAssertion a with
  | Ok doc => match fst (Sign doc vw) with Ok sig => Verify (fst (sv_vault toy_server)) doc sig | Err _ => true end
  | Err _ => true
  end.

Lemma enrolled_machine_connects_witness :
  match toy_enrolment with
  | (Ok cfg', n1) =>
      let n2 := mkNet (nt_client n1) (nt_relay n1) [(toy_inputs, 100); (toy_inputs, 100)] None in
      ∃ n3, session_attempt (CertPool := ()) cfg' agent_sk (mkHello "lab" "lab" "linux" "amd64" "v1")
              (mkTLS VersionTLS12 None) (mkLife (Ok 5) 6 100 (Ok 1) [] ErrorEOF) n2
            = ((Some (mkEstablished 5 6 100 (Ok 1) []), Err ErrorEOF), n3) ∧
        Registry.Session "lab-1" (sv_registry (nt_relay n3)) = Some 7
  | (Err _, _) => False
  end.
Proof.
  destruct toy_enrolment as [[cfg'|e] n1] eqn:E; [|vm_compute in E; discriminate].
  set (n2 := mkNet (nt_client n1) (nt_relay n1) [(toy_inputs, 100); (toy_inputs, 100)] None).
  assert (n1 = snd toy_enrolment) as Hn1 by (by rewrite E).
  assert (sv_challenges (nt_relay n1) = ∅) as Hch by (rewrite Hn1; vm_compute; reflexivity).
  assert (va_pubKeys (fst (sv_vault (nt_relay n1))) = va_pubKeys (fst (sv_vault (nt_relay toy_net)))) as Hkeys
    by (rewrite Hn1; vm_compute; reflexivity).
  pose proof (enrolled_machine_connects toy_format toy_format toy_format "v1" map_to_list (λ _, 0)
    (λ _, mkCountingConn 0 0) "10.0.0.1:1" None (Err ErrorEOF) (Err ErrorEOF) (Ok "correct horse") false
    toy_settings toy_net toy_inputs 100 [] cfg' n1 agent_sk toy_settings "ana" "correct horse" n2
    toy_inputs 100 toy_inputs 100 [] (rawurl_encode "rnd") {[rawurl_encode "rnd" := 100]}
    (mkTLS VersionTLS12 None) (mkHello "lab" "lab" "linux" "amd64" "v1")
    (mkLife (Ok 5) 6 100 (Ok 1) [] ErrorEOF) 7 5) as H.
  change (TrimSpace (ClientConfig.AgentID toy_settings)) with "lab-1" in H.
  apply H; clear H.
  { exact toy_reaches. }
  { reflexivity. }
  { exact E. }
  { vm_compute. reflexivity. }
  { vm_compute. reflexivity. }
  { reflexivity. }
  { reflexivity. }
  { done. }
  { done. }
  { done. }
  { done. }
  { intros body. assert (match Marshal_map (enroll_fields "ana" "correct horse" " lab-1 " (publicKeyOf agent_sk) false)
      with Ok b => len b <=? 2 ^ 20 | Err _ => true end = true) as Hl by (vm_compute; reflexivity).
    intros Hb. change (ClientConfig.AgentID toy_settings) with " lab-1 " in Hb. rewrite Hb in Hl. by apply Z.leb_le. }
  { intros doc sig vw2 Hd Hs.
    assert (toy_signs (mkAssertion "lab-1" (publicKeyOf agent_sk) 100 (100 + assertionTTL))
              (claim toy_format "lab-1" (publicKeyOf agent_sk) "ana" false 100 (sv_vault toy_server)).2 = true)
      as Hv by (vm_compute; reflexivity).
    unfold toy_signs in Hv. change (in_now toy_inputs 1%nat) with 100 in Hd.
    change (in_now toy_inputs 0%nat) with 100 in Hs. change (nt_relay toy_net) with toy_server in Hs.
    rewrite Hd, Hs in Hv. exact Hv. }
  { done. }
  { exact Hkeys. }
  { reflexivity. }
  { reflexivity. }
  { change (sv_challenges (nt_relay n2)) with (sv_challenges (nt_relay n1)). rewrite Hch. vm_compute. reflexivity. }
  { vm_compute. discriminate. }
  { vm_compute. discriminate. }
  { vm_compute. discriminate. }
  { vm_compute. reflexivity. }
  { exact (ex_intro _ (mkBufReader "frames" []) eq_refl). }
  { reflexivity. }
Defined.

Definition toy_login : res string * Net Box.t World :=
  Identity.login (CertPool := ()) "https://relay" "" "ana" "correct horse" toy_net.

#[local] Notation toy_relay_routes := (routes toy_format toy_format toy_format "v1" map_to_list (λ _, 0)
  (λ _, mkCountingConn 0 0) (W := World)) (only parsing).
#[local] Notation toy_mux := (mux toy_format toy_format toy_format "v1" map_to_list (λ _, 0)
  (λ _, mkCountingConn 0 0) (W := World)) (only parsing).

Lemma login_opens_the_relay_witness :
  match toy_login with
  | (Ok v, _) =>
      let url := mkURL "https" "" None "relay" "/api/agents" "" false false "" "" in
      let r := to_relay "10.0.0.1:1" None url {["Cookie" := "beacon_session=" +:+ v]} PNone in
      toy_relay_routes "GET" (EscapedPath url) toy_inputs 200 r toy_server
      = toy_mux "GET" (EscapedPath url) toy_inputs r toy_server
  | (Err _, _) => False
  end.
Proof.
  destruct toy_login as [[v|e] n'] eqn:E; [|vm_compute in E; discriminate].
  pose proof (login_opens_the_relay toy_format toy_format toy_format "v1" map_to_list (λ _, 0)
    (λ _, mkCountingConn 0 0) "10.0.0.1:1" None "https://relay" "" "ana" "correct horse" toy_net v n'
    toy_inputs 100 []) as Hopen.
  specialize (Hopen toy_reaches). specialize (Hopen eq_refl). specialize (Hopen E). destruct Hopen as [_ Hopen].
  destruct (Hopen "") as (k & h & Hh & Hgo).
  assert (v ≠ "") as Hv by (vm_compute in E; congruence).
  unfold apiHeader in Hh. rewrite (proj2 (String.eqb_neq _ _) Hv) in Hh. injection Hh as <- <-.
  apply Hgo; [reflexivity|reflexivity|vm_compute; reflexivity|vm_compute; reflexivity].
Defined.
End witnesses.
