(* ===== verification/LogShip.v ===== *)
(** * Warnings shipped to the relay (client/logship.go; client/session.go: the
    log stream of runSession)

    Three parties share the sink: the loggers, which queue a line or drop it; the
    sessions, which attach and detach streams; and the goroutine [run], which
    takes one line at a time and writes it.  [step] is one of their atomic steps,
    a run any sequence of them.  The other end is [handleAgentStream]. *)

From S2P Require Import Prelude GoStrings GoNum GoBase64 Interfaces Wire.
From S2P Require Import Assertions Challenges Events Registry Proxies Host ServerConfig VaultClient.
From S2P Require Import OperatorStore Auth Server AgentConn.

Open Scope string_scope.
Open Scope list_scope.
Open Scope Z_scope.

(** ** log/slog *)
Definition LevelDebug : Z := -4.
Definition LevelInfo : Z := 0.
Definition LevelWarn : Z := 4.
Definition LevelError : Z := 8.

(** [%+d] *)
Definition plus_d (n : Z) : string := (if n <? 0 then "" else "+") +:+ itoa n.

(** [Level.String] *)
Definition Level_String (l : Z) : string :=
  let str base val := if val =? 0 then base else base +:+ plus_d val in
  if l <? LevelInfo then str "DEBUG" (l - LevelDebug)
  else if l <? LevelWarn then str "INFO" (l - LevelInfo)
  else if l <? LevelError then str "WARN" (l - LevelWarn)
  else str "ERROR" (l - LevelError).

(** [slog.Record]; the attributes' values arrive rendered by [%v]. *)
Record LogRecord := mkLogRecord {
  lr_Time : Z;
  lr_Level : Z;
  lr_Message : string;
  lr_Attrs : list (string * string)
}.

Definition line_of (r : LogRecord) : LogLine :=
  mkLogLine (lr_Time r) (Level_String (lr_Level r)) (lr_Message r)
    (JoinAttrs ((λ '(k, v), FormatAttr k v) <$> lr_Attrs r)).

(** ** The sink *)
Definition shipQueue : nat := 128.

(** Where [run] is: waiting for a line, holding one, writing it to the stream it
    read, or about to give that stream up. *)
Inductive sink_pc := PIdle | PTaken (l : LogLine) | PWriting (l : LogLine) (w : Z) | PFailed (w : Z).

(** [sk_lines] is the channel, [sk_w] the stream under the mutex; [sk_sent] what
    [run] has written so far, and where. *)
Record logSink := mkSink {
  sk_lines : list LogLine;
  sk_w : option Z;
  sk_at : sink_pc;
  sk_sent : list (Z * string)
}.

Definition newSink : logSink := mkSink [] None PIdle [].
Definition set_w (w : option Z) (s : logSink) : logSink := mkSink (sk_lines s) w (sk_at s) (sk_sent s).
Definition set_at (at_ : sink_pc) (s : logSink) : logSink := mkSink (sk_lines s) (sk_w s) at_ (sk_sent s).

(** A logger's call; [base] is what local logging returns. *)
Definition Handle (r : LogRecord) (base : res ()) (s : logSink) : res () * logSink :=
  (base,
   if LevelWarn <=? lr_Level r then
     if decide (length (sk_lines s) < shipQueue)%nat
     then mkSink (sk_lines s ++ [line_of r]) (sk_w s) (sk_at s) (sk_sent s)
     else s
   else s).

(** The handler over any other, [base]; the ones derived from it share its sink. *)
Class SlogHandler (B : Type) := {
  sh_Enabled : B → Z → bool;
  sh_Handle : B → LogRecord → res ();
  sh_WithAttrs : list (string * string) → B → B;
  sh_WithGroup : string → B → B
}.

Record logHandler (B : Type) := mkLogHandler { lh_base : B }.
Arguments mkLogHandler {B}.
Arguments lh_base {B}.

Section handler.
  Context {B : Type} `{SlogHandler B}.

Definition Enabled (h : logHandler B) (level : Z) : bool := sh_Enabled (lh_base h) level.
Definition logHandler_Handle (h : logHandler B) (r : LogRecord) : logSink → res () * logSink :=
  Handle r (sh_Handle (lh_base h) r).
Definition WithAttrs (attrs : list (string * string)) (h : logHandler B) : logHandler B :=
  mkLogHandler (sh_WithAttrs attrs (lh_base h)).
Definition WithGroup (name : string) (h : logHandler B) : logHandler B := mkLogHandler (sh_WithGroup name (lh_base h)).

(** What a derived logger was given reaches the local log alone: the line that is
    shipped is the one the plain logger would have shipped. *)
Lemma derived_attributes_stay_local attrs h r s :
  fst (logHandler_Handle (WithAttrs attrs h) r s) = sh_Handle (sh_WithAttrs attrs (lh_base h)) r ∧
  snd (logHandler_Handle (WithAttrs attrs h) r s) = snd (logHandler_Handle h r s).
Proof. done. Qed.
End handler.

Definition attach (w : Z) (s : logSink) : logSink := set_w (Some w) s.
Definition detach (w : Z) (s : logSink) : logSink :=
  if decide (sk_w s = Some w) then set_w None s else s.

(** [json.Encoder.Encode]: the value and a newline in one write. *)
Definition Encode_line `{JSON LogLine} (l : LogLine) : res string :=
  match Marshal l with Ok s => Ok (s +:+ nl) | Err e => Err e end.

Section sink.
  Context `{JSON LogLine}.

(** The steps of [run]; [None] where the goroutine is elsewhere, or waits. *)
Definition run_receive (s : logSink) : option logSink :=
  match sk_at s, sk_lines s with
  | PIdle, l :: ls => Some (mkSink ls (sk_w s) (PTaken l) (sk_sent s))
  | _, _ => None
  end.
Definition run_read (s : logSink) : option logSink :=
  match sk_at s with
  | PTaken l => Some (set_at (match sk_w s with None => PIdle | Some w => PWriting l w end) s)
  | _ => None
  end.
(** [fault] is how the write stops short. *)
Definition run_write (fault : option (Z * error)) (s : logSink) : option logSink :=
  match sk_at s with
  | PWriting l w =>
      Some (match Encode_line l, fault with
            | Err _, _ => set_at (PFailed w) s
            | Ok b, None => mkSink (sk_lines s) (sk_w s) PIdle (sk_sent s ++ [(w, b)])
            | Ok b, Some (k, _) => mkSink (sk_lines s) (sk_w s) (PFailed w) (sk_sent s ++ [(w, stake k b)])
            end)
  | _ => None
  end.
Definition run_drop (s : logSink) : option logSink :=
  match sk_at s with
  | PFailed w => Some (set_at PIdle (detach w s))
  | _ => None
  end.

Inductive op :=
  | OHandle (r : LogRecord) (base : res ())
  | OAttach (w : Z)
  | ODetach (w : Z)
  | OReceive
  | ORead
  | OWrite (fault : option (Z * error))
  | ODrop.

Definition step (o : op) (s : logSink) : option logSink :=
  match o with
  | OHandle r base => Some (snd (Handle r base s))
  | OAttach w => Some (attach w s)
  | ODetach w => Some (detach w s)
  | OReceive => run_receive s
  | ORead => run_read s
  | OWrite fault => run_write fault s
  | ODrop => run_drop s
  end.

Fixpoint run_ops (os : list op) (s : logSink) : option logSink :=
  match os with
  | [] => Some s
  | o :: os => match step o s with None => None | Some s => run_ops os s end
  end.

(** What a session does with its log stream before its accept loop: the stream
    that was attached, to be detached when the session ends. *)
Definition session_log (stream : res Z) (header : res ()) (s : logSink) : option Z * logSink :=
  match stream, header with
  | Ok w, Ok _ => (Some w, attach w s)
  | _, _ => (None, s)
  end.

(** ** What is kept and what is dropped *)

(** The lines the loggers asked for. *)
Definition warning (o : op) : option LogLine :=
  match o with
  | OHandle r _ => if LevelWarn <=? lr_Level r then Some (line_of r) else None
  | _ => None
  end.
Definition in_hand (s : logSink) : list LogLine :=
  match sk_at s with PTaken l | PWriting l _ => [l] | _ => [] end.
Definition pending (s : logSink) : list LogLine := in_hand s ++ sk_lines s.
Definition sent_part (x : Z * string) (l : LogLine) : Prop :=
  ∃ b, Encode_line l = Ok b ∧ (snd x = b ∨ ∃ k, snd x = stake k b).

Lemma step_bounded o s s' :
  (length (sk_lines s) ≤ shipQueue)%nat → step o s = Some s' → (length (sk_lines s') ≤ shipQueue)%nat.
Proof.
  intros Hb Hs. destruct o as [r base|w|w| | |f|]; cbn [step] in Hs.
  - injection Hs as <-. unfold Handle. destruct (_ <=? _); [|done]. case_decide; [|done].
    cbn. rewrite length_app. cbn. lia.
  - by injection Hs as <-.
  - injection Hs as <-. unfold detach. by case_decide.
  - unfold run_receive in Hs. destruct (sk_at s); try done. destruct (sk_lines s); [done|].
    injection Hs as <-. cbn in *. lia.
  - unfold run_read in Hs. destruct (sk_at s); try done. by injection Hs as <-.
  - unfold run_write in Hs. destruct (sk_at s); try done. injection Hs as <-.
    destruct (Encode_line l); [|done]. by destruct f as [[k e]|].
  - unfold run_drop in Hs. destruct (sk_at s); try done. injection Hs as <-. unfold detach. by case_decide.
Qed.

(** Whatever loggers, sessions and the writer do, the queue holds at most 128
    lines, and a logger's call is never held up: it is a step in every state. *)
Theorem shipping_never_blocks os s r base :
  run_ops os newSink = Some s →
  (length (sk_lines s) ≤ shipQueue)%nat ∧ ∃ s', step (OHandle r base) s = Some s' ∧ fst (Handle r base s) = base.
Proof.
  intros Hr. split; [|by eexists].
  assert (∀ os s0, (length (sk_lines s0) ≤ shipQueue)%nat → run_ops os s0 = Some s →
            (length (sk_lines s) ≤ shipQueue)%nat) as Hgen; [|eapply (Hgen os newSink); [cbn; lia|done]].
  clear. intros os. induction os as [|o os IH]; intros s0 Hb; cbn [run_ops]; [by intros [= <-]|].
  destruct (step o s0) eqn:E; [|done]. apply IH. by eapply step_bounded.
Qed.

(** One step keeps what was written, what is under way and what is queued a
    subsequence of what was logged. *)
Lemma step_ordered o s s' ls logged :
  step o s = Some s' → Forall2 sent_part (sk_sent s) ls → ls ++ pending s `sublist_of` logged →
  ∃ ls', Forall2 sent_part (sk_sent s') ls' ∧ ls' ++ pending s' `sublist_of` logged ++ option_list (warning o).
Proof.
  intros Hs Hf Hsub. unfold pending, in_hand in *.
  destruct o as [r base|w|w| | |f|]; cbn [step warning option_list] in *; rewrite ?app_nil_r.
  - injection Hs as <-. exists ls. unfold Handle. cbn [snd]. destruct (_ <=? _); cbn [option_list]; [|by rewrite app_nil_r].
    case_decide; cbn [sk_sent sk_at sk_lines].
    + split; [done|]. rewrite !app_assoc. rewrite app_assoc in Hsub. by apply sublist_app.
    + split; [done|]. by apply sublist_inserts_r.
  - injection Hs as <-. by exists ls.
  - injection Hs as <-. exists ls. unfold detach. by case_decide.
  - unfold run_receive in Hs. destruct (sk_at s); try done. destruct (sk_lines s); [done|]. injection Hs as <-. by exists ls.
  - unfold run_read in Hs. destruct (sk_at s) as [|l| |]; try done. injection Hs as <-. exists ls.
    split; [done|]. cbn. destruct (sk_w s); [done|]. etrans; [|exact Hsub]. apply sublist_app; [done|]. by apply sublist_cons.
  - unfold run_write in Hs. destruct (sk_at s) as [| |l w|]; try done. injection Hs as <-.
    destruct (Encode_line l) as [b|] eqn:Eb; [exists (ls ++ [l])|exists ls].
    + destruct f as [[k e]|]; cbn [sk_sent sk_at sk_lines]; (split; [|by rewrite <-app_assoc]).
      all: apply Forall2_app; [done|]; repeat constructor; exists b; eauto.
    + split; [done|]. cbn. etrans; [|exact Hsub]. apply sublist_app; [done|]. by apply sublist_cons.
  - unfold run_drop in Hs. destruct (sk_at s); try done. injection Hs as <-. exists ls. unfold detach. by case_decide.
Qed.

(** What reaches the relay is a subsequence, in order, of the warnings that were
    logged, each at most once and none below warning: whichever sessions come
    and go and however their streams fail, every write is a line's encoding, or
    the part of it that got out before the write failed. *)
Theorem shipped_in_order os s :
  run_ops os newSink = Some s →
  ∃ ls, Forall2 sent_part (sk_sent s) ls ∧ ls `sublist_of` omap warning os.
Proof.
  assert (∀ os s0 ls logged, Forall2 sent_part (sk_sent s0) ls → ls ++ pending s0 `sublist_of` logged →
    run_ops os s0 = Some s →
    ∃ ls', Forall2 sent_part (sk_sent s) ls' ∧ ls' ++ pending s `sublist_of` logged ++ omap warning os) as Hgen.
  { clear. intros os. induction os as [|o os IH]; intros s0 ls logged Hf Hsub; cbn [run_ops omap list_omap].
    - intros [= <-]. exists ls. by rewrite app_nil_r.
    - destruct (step o s0) as [s1|] eqn:E; [|done].
      destruct (step_ordered _ _ _ _ _ E Hf Hsub) as (ls1 & Hf1 & Hsub1).
      intros (ls' & ? & Hsub')%(IH _ _ _ Hf1 Hsub1). exists ls'. split; [done|].
      destruct (warning o); cbn in *; by rewrite <-app_assoc in Hsub'. }
  intros (ls & Hf & Hsub)%(Hgen os newSink [] []); [|constructor|done].
  exists ls. split; [done|]. etrans; [|exact Hsub]. by apply sublist_inserts_r.
Qed.

(** A session's stream stays the current one until another is attached, it is
    detached itself, or a write to it fails: neither the end of an older session
    nor a failed write to an older stream silences it. *)
Theorem newest_stream_kept os s s' w :
  run_ops os s = Some s' → sk_w s = Some w → (∀ w', OAttach w' ∉ os) → ODetach w ∉ os →
  sk_w s' = Some w ∨
  ∃ os1 os2 s1, os = os1 ++ ODrop :: os2 ∧ run_ops os1 s = Some s1 ∧ sk_at s1 = PFailed w.
Proof.
  revert s. induction os as [|o os IH]; intros s Hr Hw Ha Hd; cbn [run_ops] in Hr.
  { injection Hr as <-. by left. }
  destruct (step o s) as [s1|] eqn:E; [|done].
  assert (sk_w s1 = Some w ∨ (o = ODrop ∧ sk_at s = PFailed w)) as [Hw1|[-> Hf]]; [| |by right; exists [], os, s].
  { destruct o as [r base|w'|w'| | |f|]; cbn [step] in E; [left..|].
    - injection E as <-. unfold Handle. cbn. destruct (_ <=? _); [|done]. by case_decide.
    - exfalso. apply (Ha w'). by left.
    - injection E as <-. unfold detach. case_decide as Hc; [|done]. exfalso. apply Hd. rewrite Hw in Hc.
      injection Hc as ->. by left.
    - unfold run_receive in E. destruct (sk_at s); try done. destruct (sk_lines s); [done|]. by injection E as <-.
    - unfold run_read in E. destruct (sk_at s); try done. by injection E as <-.
    - unfold run_write in E. destruct (sk_at s); try done. injection E as <-.
      destruct (Encode_line l); [|done]. by destruct f as [[k e]|].
    - unfold run_drop in E. destruct (sk_at s) as [| | |w'] eqn:Hpc; try done. injection E as <-. unfold detach.
      case_decide as Hc; [right|by left]. split; [done|]. congruence. }
  destruct (IH s1 Hr Hw1) as [Hl|(os1 & os2 & s2 & -> & Hr1 & Hf)].
  - intros w' Hin. apply (Ha w'). by right.
  - intros Hin. apply Hd. by right.
  - by left.
  - right. exists (o :: os1), os2, s2. split_and!; [done| |done]. cbn [run_ops]. by rewrite E.
Qed.

(** A full queue keeps what it holds; it is the new line that is lost. *)
Theorem full_queue_drops_newest r base s :
  (shipQueue ≤ length (sk_lines s))%nat → snd (Handle r base s) = s.
Proof. intros Hf. unfold Handle. destruct (_ <=? _); [|done]. case_decide; [lia|done]. Qed.
End sink.

(** ** From the logger to the feed *)
Section shipping.
  Context `{JSONLaws LogLine wf}.

(** Nothing in the way: the queue has room, the stream stays and no write fails. *)
Definition calm (w : Z) (o : op) (s : logSink) : Prop :=
  match o with
  | OHandle r _ => (LevelWarn <=? lr_Level r) = true → (length (sk_lines s) < shipQueue)%nat ∧ wf (line_of r)
  | OAttach _ => False
  | ODetach w' => w' ≠ w
  | OWrite fault => fault = None
  | _ => True
  end.
Fixpoint calm_run (w : Z) (os : list op) (s : logSink) : Prop :=
  match os with
  | [] => True
  | o :: os => calm w o s ∧ match step o s with Some s => calm_run w os s | None => True end
  end.

(** The sink serves [w] and nothing else. *)
Definition serving (w : Z) (s : logSink) : Prop :=
  sk_w s = Some w ∧ Forall wf (pending s) ∧
  match sk_at s with PFailed _ => False | PWriting _ w' => w' = w | _ => True end.

Lemma calm_step w o s s' :
  serving w s → calm w o s → step o s = Some s' →
  serving w s' ∧ ∃ ls bs, Forall2 (λ l b, Encode_line l = Ok b) ls bs ∧
    sk_sent s' = sk_sent s ++ (pair w <$> bs) ∧ ls ++ pending s' = pending s ++ option_list (warning o).
Proof.
  intros (Hw & Hwf & Hpc) Hc Hs. unfold serving, pending, in_hand in *.
  destruct o as [r base|w'|w'| | |f|]; cbn [step calm warning option_list] in *.
  - injection Hs as <-. unfold Handle. cbn [snd]. destruct (_ <=? _).
    + destruct Hc as [Hc Hwr]; [done|]. rewrite decide_True by done. cbn [sk_w sk_at sk_lines sk_sent]. split.
      * split_and!; [done| |done]. rewrite app_assoc. apply Forall_app. by split; [|constructor].
      * exists [], []. rewrite app_nil_r. by rewrite <-app_assoc.
    + split; [done|]. exists [], []. by rewrite !app_nil_r.
  - done.
  - injection Hs as <-. unfold detach. rewrite decide_False by congruence. split; [done|].
    exists [], []. by rewrite !app_nil_r.
  - unfold run_receive in Hs. destruct (sk_at s) eqn:Ea; try done. destruct (sk_lines s) eqn:El; [done|].
    injection Hs as <-. split; [done|]. exists [], []. by rewrite !app_nil_r.
  - unfold run_read in Hs. destruct (sk_at s) eqn:Ea; try done. injection Hs as <-. rewrite Hw.
    split; [done|]. exists [], []. by rewrite !app_nil_r.
  - unfold run_write in Hs. destruct (sk_at s) as [| |l w1|] eqn:Ea; try done. injection Hs as <-. subst f w1.
    cbn [app] in Hwf. inversion_clear Hwf as [|? ? Hl Hrest].
    destruct (Marshal_ok l Hl) as [b Hb]. unfold Encode_line. rewrite Hb. cbn [sk_w sk_at sk_lines sk_sent].
    split; [done|]. exists [l], [b +:+ nl]. split_and!; [|done|by rewrite app_nil_r].
    repeat constructor. unfold Encode_line. by rewrite Hb.
  - unfold run_drop in Hs. by destruct (sk_at s).
Qed.

Lemma calm_run_sent w os s s' :
  serving w s → calm_run w os s → run_ops os s = Some s' →
  serving w s' ∧ ∃ ls bs, Forall2 (λ l b, Encode_line l = Ok b) ls bs ∧
    sk_sent s' = sk_sent s ++ (pair w <$> bs) ∧ ls ++ pending s' = pending s ++ omap warning os.
Proof.
  revert s. induction os as [|o os IH]; intros s Hsv; cbn [calm_run run_ops omap list_omap].
  - intros _ [= <-]. split; [done|]. exists [], []. by rewrite !app_nil_r.
  - intros [Hc Hcs] Hr. destruct (step o s) as [s1|] eqn:E; [|done].
    destruct (calm_step _ _ _ _ Hsv Hc E) as (Hsv1 & ls1 & bs1 & Hf1 & Hsent1 & Hp1).
    destruct (IH _ Hsv1 Hcs Hr) as (Hsv2 & ls2 & bs2 & Hf2 & Hsent2 & Hp2).
    split; [done|]. exists (ls1 ++ ls2), (bs1 ++ bs2). split_and!; [by apply Forall2_app| |].
    + by rewrite Hsent2, Hsent1, fmap_app, app_assoc.
    + rewrite <-app_assoc, Hp2, app_assoc, Hp1, <-app_assoc. by destruct (warning o).
Qed.

(** The writer alone empties the sink within [n] steps. *)
Definition drains (w : Z) (n : nat) (s : logSink) : Prop :=
  ∃ os s', Forall (λ o, warning o = None) os ∧ (length os ≤ n)%nat ∧
    run_ops os s = Some s' ∧ calm_run w os s ∧ pending s' = [].

Lemma drains_step w n o s s1 :
  warning o = None → calm w o s → step o s = Some s1 → drains w n s1 → drains w (S n) s.
Proof.
  intros Hq Hc Hs (os & s' & ? & ? & ? & ? & ?). exists (o :: os), s'. cbn [run_ops calm_run length]. rewrite Hs.
  split_and!; [by constructor|lia|done..].
Qed.

Lemma drains_writing w ls l s :
  serving w s → sk_at s = PWriting l w → sk_lines s = ls → drains w (S (3 * length ls)) s.
Proof.
  revert l s. induction ls as [|l' ls IH]; intros l s (Hw & Hwf & _) Ha Hl;
    unfold pending, in_hand in Hwf; rewrite Ha, Hl in Hwf; inversion_clear Hwf as [|? ? Hwl Hwls].
  all: destruct (Marshal_ok l Hwl) as [b Hb].
  all: eapply (drains_step _ _ (OWrite None)); [done|done| |].
  1,3: cbn [step]; unfold run_write; rewrite Ha; unfold Encode_line; rewrite Hb, Hl, Hw; reflexivity.
  - by exists [], (mkSink [] (Some w) PIdle (sk_sent s ++ [(w, b +:+ nl)])).
  - replace (3 * length (l' :: ls))%nat with (S (S (S (3 * length ls)))) by (cbn; lia).
    eapply (drains_step _ _ OReceive); [done..|]. eapply (drains_step _ _ ORead); [done..|].
    by apply (IH l').
Qed.

Lemma sink_drains w s : serving w s → drains w (3 * length (pending s)) s.
Proof.
  intros Hsv. pose proof Hsv as (Hw & Hwf & Hpc).
  assert (∀ n s1, drains w n s1 → ∀ m, (n ≤ m)%nat → drains w m s1) as Hmono.
  { intros n s1 (os & s' & ? & ? & ?) m Hm. exists os, s'. split; [done|]. split; [lia|done]. }
  assert (∀ l, sk_at s = PTaken l → drains w (S (S (3 * length (sk_lines s)))) s) as Htaken.
  { intros l Ha. eapply (drains_step _ _ ORead); [done|done| |].
    - cbn [step]. unfold run_read. by rewrite Ha, Hw.
    - apply (drains_writing w _ l); [|done..]. unfold serving, pending, in_hand in *. by rewrite Ha in Hwf. }
  unfold pending, in_hand in *. destruct (sk_at s) as [|l|l w'|w'] eqn:Ha; cbn [app length].
  - destruct (sk_lines s) as [|l ls] eqn:Hl.
    { exists [], s. unfold pending, in_hand. by rewrite Ha, Hl. }
    eapply Hmono; [|cbn [length]; apply le_n]. replace (3 * S (length ls))%nat with (S (S (S (3 * length ls)))) by lia.
    eapply (drains_step _ _ OReceive); [done|done| |].
    { cbn [step]. unfold run_receive. rewrite Ha, Hl. reflexivity. }
    eapply (drains_step _ _ ORead); [done|done| |].
    { cbn [step]. unfold run_read. cbn [sk_at sk_w]. rewrite Hw. reflexivity. }
    by apply (drains_writing w _ l).
  - eapply Hmono; [by eapply Htaken|]. lia.
  - subst w'. eapply Hmono; [by eapply (drains_writing w _ l)|]. lia.
  - done.
Qed.

(** The level a line travels with is the type its event gets. *)
Lemma level_event_type l :
  LevelWarn ≤ l → eventTypeForLevel (Level_String l) = if LevelError <=? l then "error" else "warn".
Proof.
  unfold LevelWarn, LevelError, Level_String, LevelInfo, LevelWarn, LevelError. intros Hl.
  rewrite (proj2 (Z.ltb_ge l 0)), (proj2 (Z.ltb_ge l 4)) by lia.
  destruct (Z.ltb_spec l 8), (Z.leb_spec 8 l); try lia; destruct (_ =? 0); try done.
  all: unfold eventTypeForLevel; cbn; try rewrite HasPrefix_app; done.
Qed.

Definition event_of (id : string) (r : LogRecord) : Event :=
  mkEvent (if LevelError <=? lr_Level r then "error" else "warn") id
    (LogLine_Text (line_of r)) (lr_Time r).
Definition logged_event (id : string) (o : op) : option Event :=
  match o with
  | OHandle r _ => if LevelWarn <=? lr_Level r then Some (event_of id r) else None
  | _ => None
  end.

Section relay.
  Context {W : Type} (decode_lines : string → list LogLine).
  (** A [json.Decoder] yields the values a [json.Encoder] wrote. *)
  Hypothesis decode_encoded : ∀ ls bs,
    Forall wf ls → Forall2 (λ l b, Encode_line l = Ok b) ls bs → decode_lines (sconcat bs) = ls.

Lemma consumeAgentLog_publishes id ls now (s : Server W) :
  consumeAgentLog id ls now s
  = (Ok (), set_events (foldl (λ b l, Publish now (mkEvent (eventTypeForLevel (ll_level l)) id (LogLine_Text l)
                                                           (ll_time l)) b) (sv_events s) ls) s).
Proof.
  revert s. induction ls as [|l ls IH]; intros s; cbn [consumeAgentLog foldl]; [by destruct s|].
  erewrite bind_ok by reflexivity. rewrite IH. by destruct s.
Qed.

Lemma warnings_as_events id now b os :
  foldl (λ b l, Publish now (mkEvent (eventTypeForLevel (ll_level l)) id (LogLine_Text l) (ll_time l)) b) b
    (omap warning os)
  = foldl (λ b e, Publish now e b) b (omap (logged_event id) os).
Proof.
  revert b. induction os as [|o os IH]; intros b; [done|]. cbn [omap list_omap].
  destruct o as [r base|w|w| | |f|]; cbn [warning logged_event]; try apply IH.
  destruct (Z.leb_spec LevelWarn (lr_Level r)); [|apply IH]. cbn [foldl]. rewrite IH. unfold event_of.
  cbn [line_of ll_level ll_time]. by rewrite level_event_type.
Qed.

(** C22: Once a session has attached its stream to an idle sink, and as long as
    nothing gets in its way -- the queue has room, no other stream takes over, no write fails -- the writer
    needs at most three steps for each pending line to have sent everything; and
    the relay, reading the stream in any pieces, then publishes one event for
    each warning logged, in order, under the machine's id, with the type its
    level calls for and the time it was logged. *)
Theorem warnings_reach_the_feed w os s0 s' id now (srv : Server W) :
  let s := snd (session_log (Ok w) (Ok ()) s0) in
  pending s0 = [] → sk_at s0 = PIdle → calm_run w os s → run_ops os s = Some s' →
  ∃ rest s'' bs, (length rest ≤ 3 * length (pending s'))%nat ∧ Forall (λ o, warning o = None) rest ∧
    run_ops rest s' = Some s'' ∧ sk_sent s'' = sk_sent s ++ (pair w <$> bs) ∧
    ∀ br, remaining br = (StreamLog +:+ nl) +:+ sconcat bs →
      handleAgentStream decode_lines id br now srv
      = (Ok (), set_events (foldl (λ b e, Publish now e b) (sv_events srv) (omap (logged_event id) os)) srv).
Proof.
  intros s Hp0 Hpc Hc Hr.
  assert (pending s = []) as Hp by exact Hp0.
  assert (serving w s) as Hsv.
  { unfold serving. rewrite Hp. change (sk_at s) with (sk_at s0). by rewrite Hpc. }
  destruct (calm_run_sent _ _ _ _ Hsv Hc Hr) as (Hsv' & ls1 & bs1 & Hf1 & Hsent1 & Hp1). rewrite Hp in Hp1. cbn in Hp1.
  destruct (sink_drains _ _ Hsv') as (rest & s'' & Hq & Hlen & Hr' & Hc' & Hp'').
  destruct (calm_run_sent _ _ _ _ Hsv' Hc' Hr') as (_ & ls2 & bs2 & Hf2 & Hsent2 & Hp2).
  assert (omap warning rest = []) as Hnone.
  { clear -Hq. induction Hq as [|o os Ho _ IH]; [done|]. cbn [omap list_omap]. by rewrite Ho. }
  rewrite Hnone, Hp'', !app_nil_r in Hp2.
  assert (ls1 ++ ls2 = omap warning os) as Hls by congruence.
  exists rest, s'', (bs1 ++ bs2). split_and!; [done..|by rewrite Hsent2, Hsent1, fmap_app, app_assoc|].
  intros br Hbr. unfold handleAgentStream.
  destruct (ReadStreamHeader_line br StreamLog (sconcat (bs1 ++ bs2))) as (br' & -> & Hrem);
    [reflexivity|done|].
  rewrite String.eqb_refl, consumeAgentLog_publishes, Hrem, (decode_encoded (ls1 ++ ls2)), Hls.
  - by rewrite warnings_as_events.
  - assert (∀ os s s', calm_run w os s → run_ops os s = Some s' → Forall wf (omap warning os)) as Hwf.
    { clear. intros os. induction os as [|o os IH]; intros s s'; cbn [calm_run run_ops omap list_omap]; [constructor|].
      intros [Hc Hcs] Hr. destruct (step o s) as [s1|] eqn:E; [|done]. pose proof (IH _ _ Hcs Hr).
      destruct o; cbn [warning calm] in *; try done. destruct (_ <=? _); [|done].
      constructor; [by apply Hc|done]. }
    rewrite Hls. by eapply Hwf.
  - by apply Forall2_app.
Qed.
End relay.
End shipping.

(** ** Witnesses *)
#[export] Instance LogLine_eq_dec : EqDecision LogLine.
Proof. solve_decision. Defined.
#[export] Instance LogLine_countable : Countable LogLine.
Proof.
  by refine (inj_countable' (λ l, (ll_time l, ll_level l, ll_msg l, ll_attrs l))
    (λ '(t, l, m, a), mkLogLine t l m a) _); intros [].
Defined.
#[export] Instance toy_line_json : JSON LogLine := ToyJSON.toy_json LogLine.
#[export] Instance toy_line_laws : JSONLaws LogLine (λ _, True) := ToyJSON.toy_json_laws LogLine.

Fixpoint toy_lines (n : nat) (s : string) : list LogLine :=
  match n with
  | O => []
  | S n => match Cut s nl with
           | Some (v, rest) => match Unmarshal v with Ok l => l :: toy_lines n rest | Err _ => [] end
           | None => []
           end
  end.
Definition toy_decode (s : string) : list LogLine := toy_lines (String.length s) s.

Lemma toy_decode_encoded ls bs :
  Forall (λ _ : LogLine, True) ls → Forall2 (λ l b, Encode_line l = Ok b) ls bs → toy_decode (sconcat bs) = ls.
Proof.
  intros _ Hf. unfold toy_decode.
  assert (∀ n, (length bs ≤ n)%nat → toy_lines n (sconcat bs) = ls) as Hn.
  { induction Hf as [|l b ls bs Hl Hf IH]; intros n Hlen; [by destruct n|].
    destruct n as [|n]; [cbn in Hlen; lia|]. cbn [toy_lines sconcat].
    injection Hl as <-. rewrite sapp_assoc. unfold nl at 1 2. rewrite sapp_cons, sapp_nil_l, Cut_char by apply ToyJSON.pos_text_no_nl.
    unfold Unmarshal. cbn. unfold ToyJSON.toy_unmarshal. rewrite text_pos_text, decode_encode. f_equal.
    apply IH. cbn in Hlen. lia. }
  apply Hn. clear Hn. induction Hf as [|l b ls bs Hl Hf IH]; [cbn; lia|]. cbn [sconcat length].
  injection Hl as <-. pose proof (len_app (pos_text (encode l) +:+ nl) (sconcat bs)) as Ha.
  pose proof (len_app (pos_text (encode l)) nl) as Hb. unfold len in *. cbn in Hb. lia.
Qed.

Definition refused_forward : LogRecord := mkLogRecord 100 4 "forward refused" [("service", "db")].
Definition burst : list op :=
  [OHandle (mkLogRecord 99 0 "tunnel established" []) (Ok ()); OHandle refused_forward (Ok ()); OReceive; ORead;
   OHandle (mkLogRecord 101 8 "panic" []) (Ok ())].
Definition toy_sink (os : list op) (s : logSink) : logSink := default s (run_ops os s).

Lemma shipped_in_order_witness :
  let s := toy_sink (OAttach 7 :: burst ++ [OWrite (Some (3, ErrorEOF)); ODrop]) newSink in
  ∃ ls, Forall2 sent_part (sk_sent s) ls ∧
    ls `sublist_of` omap warning (OAttach 7 :: burst ++ [OWrite (Some (3, ErrorEOF)); ODrop]).
Proof. intros s. apply (shipped_in_order _ s). vm_compute. reflexivity. Defined.

Lemma newest_stream_kept_witness :
  let s := toy_sink [OAttach 7; OHandle refused_forward (Ok ()); OReceive; ORead; OAttach 8] newSink in
  let os := [OWrite (Some (0, ErrorEOF)); ODrop; ODetach 7] in
  sk_w (toy_sink os s) = Some 8 ∨
  ∃ os1 os2 s1, os = os1 ++ ODrop :: os2 ∧ run_ops os1 s = Some s1 ∧ sk_at s1 = PFailed 8.
Proof.
  intros s os. apply (newest_stream_kept os s); [vm_compute; reflexivity|reflexivity| |].
  - intros w'. unfold os. rewrite !not_elem_of_cons. split_and!; try done. by apply not_elem_of_nil.
  - unfold os. rewrite !not_elem_of_cons. split_and!; try done. by apply not_elem_of_nil.
Defined.

Lemma warnings_reach_the_feed_witness :
  let srv := newServer (mkConfig ":8080" "admin" "" "" "" "" "" "" "" "") tt 0 in
  let s := attach 7 newSink in
  ∃ rest s'' bs, (length rest ≤ 3 * length (pending (toy_sink burst s)))%nat ∧ Forall (λ o, warning o = None) rest ∧
    run_ops rest (toy_sink burst s) = Some s'' ∧ sk_sent s'' = sk_sent s ++ (pair 7 <$> bs) ∧
    ∀ br, remaining br = (StreamLog +:+ nl) +:+ sconcat bs →
      handleAgentStream toy_decode "lab-1" br 200 srv
      = (Ok (), set_events (foldl (λ b e, Publish 200 e b) (sv_events srv)
           [mkEvent "warn" "lab-1" "forward refused (service=db)" 100; mkEvent "error" "lab-1" "panic" 101]) srv).
Proof.
  intros srv s.
  apply (warnings_reach_the_feed toy_decode toy_decode_encoded 7 burst newSink (toy_sink burst s) "lab-1" 200 srv).
  - reflexivity.
  - reflexivity.
  - repeat split; vm_compute; lia.
  - vm_compute. reflexivity.
Defined.
