(* ===== verification/Service.v ===== *)
(** * Installing and controlling the agent's service (client/service.go,
    client/service_unix.go, client/usermode_other.go; client/paths.go)

    The commands are written against [Platform], what one operating system's
    service manager offers; [unix] is the platform of systemd and launchd.  The
    disk and the programs that are run are the classes [ClientHost] and
    [Processes]. *)

From S2P Require Import Prelude GoStrings GoNum GoBase64 Interfaces GoNet Wire Host Mux.
From S2P Require Import ClientURLs ClientConfig Identity Updater.

Open Scope string_scope.
Open Scope list_scope.
Open Scope Z_scope.

(** ** The machine

    [ps_CombinedOutput] runs a program: what it printed, and the error of a
    failed run.  [ps_Sleep] is the world a pause later. *)
Class Processes (W : Type) := {
  ps_CombinedOutput : string → list string → W → (string * option error) * W;
  ps_Geteuid : W → Z;
  ps_Remove : string → M W ();
  ps_Rename : string → string → M W ();
  ps_Sleep : Z → W → W
}.

(** The service manager and the per-user task, as the commands use them. *)
Class Platform (W : Type) := {
  requireElevation : M W ();
  serviceInstall : string → M W ();
  serviceUninstall : M W ();
  serviceStart : M W ();
  serviceStop : M W ();
  serviceStatus : W → (svcInfo * option error) * W;
  userInstall : string → M W ();
  userUninstall : M W ();
  userStart : M W ();
  userStop : M W ();
  userInstalled : W → bool * W;
  installPath : string;
  userInstallPath : string;
  socketPaths : list string;
  installPlan : resolved → string → string → string
}.

(** ** systemd and launchd *)
Definition systemdUnit : string := "/etc/systemd/system/beacon.service".
Definition launchdLabel : string := "com.gobeacon.agent".
Definition launchdPlist : string := "/Library/LaunchDaemons/" +:+ launchdLabel +:+ ".plist".

Definition lines_of (ls : list string) : string := Join ls nl +:+ nl.
Definition dq : string := String (byte 34) "".

Definition unitContent (target : string) : string := lines_of
  ["[Unit]"; "Description=go-beacon agent"; "After=network-online.target"; "Wants=network-online.target"; "";
   "[Service]"; "Type=simple"; "ExecStart=" +:+ target +:+ " run"; "Restart=always"; "RestartSec=5"; "";
   "[Install]"; "WantedBy=multi-user.target"].

Definition plistContent (target : string) : string := lines_of
  ["<?xml version=" +:+ dq +:+ "1.0" +:+ dq +:+ " encoding=" +:+ dq +:+ "UTF-8" +:+ dq +:+ "?>";
   "<!DOCTYPE plist PUBLIC " +:+ dq +:+ "-//Apple//DTD PLIST 1.0//EN" +:+ dq +:+ " "
     +:+ dq +:+ "http://www.apple.com/DTDs/PropertyList-1.0.dtd" +:+ dq +:+ ">";
   "<plist version=" +:+ dq +:+ "1.0" +:+ dq +:+ ">"; "<dict>";
   "  <key>Label</key><string>" +:+ launchdLabel +:+ "</string>";
   "  <key>ProgramArguments</key>"; "  <array>"; "    <string>" +:+ target +:+ "</string>"; "    <string>run</string>";
   "  </array>"; "  <key>RunAtLoad</key><true/>"; "  <key>KeepAlive</key><true/>";
   "  <key>StandardOutPath</key><string>/var/log/beacon.log</string>";
   "  <key>StandardErrorPath</key><string>/var/log/beacon.log</string>"; "</dict>"; "</plist>"].

Section commands.
  Context {W : Type} `{ClientHost W} `{Processes W}.

(** [run] *)
Definition run (name : string) (args : list string) : M W () := λ w,
  match ps_CombinedOutput name args w with
  | ((_, None), w) => (Ok (), w)
  | ((out, Some err), w) =>
      let msg := TrimSpace out in
      let command := name +:+ " " +:+ Join args " " +:+ ": " in
      (Err (if (msg =? "")%string then wrapf command err else errorf (command +:+ msg)), w)
  end.

(** [os.Remove] of a file that may be gone already. *)
Definition remove_if_there (p : string) : M W () :=
  r ← attempt (ps_Remove p);
  match r with
  | Err e => if errors_Is e ErrNotExist then mret () else mthrow e
  | Ok _ => mret ()
  end.

(** A service file and the directory it goes to. *)
Definition install_file (path content : string) : M W () :=
  fs_MkdirAll (filepath_Dir path);;
  fs_WriteFile path content.

Section unix.
  Context (GOOS : string) (sr : Surroundings).

Definition darwin : bool := (GOOS =? "darwin")%string.
Definition launchd_service : string := "system/" +:+ launchdLabel.

Definition unix_requireElevation : M W () := λ w,
  (if negb (ps_Geteuid w =? 0) then Err (errorf "this needs root: try sudo") else Ok (), w).

Definition unix_serviceInstall (target : string) : M W () :=
  if darwin then
    install_file launchdPlist (plistContent target);;
    attempt (run "launchctl" ["bootout"; launchd_service]);;
    run "launchctl" ["bootstrap"; "system"; launchdPlist]
  else
    install_file systemdUnit (unitContent target);;
    run "systemctl" ["daemon-reload"];;
    run "systemctl" ["enable"; "beacon"].

Definition unix_serviceUninstall : M W () :=
  if darwin then
    attempt (run "launchctl" ["bootout"; launchd_service]);;
    remove_if_there launchdPlist
  else
    attempt (run "systemctl" ["disable"; "--now"; "beacon"]);;
    remove_if_there systemdUnit;;
    run "systemctl" ["daemon-reload"].

Definition unix_serviceStart : M W () :=
  if darwin then run "launchctl" ["kickstart"; "-k"; launchd_service] else run "systemctl" ["start"; "beacon"].

Definition unix_serviceStop : M W () :=
  if darwin then run "launchctl" ["bootout"; launchd_service] else run "systemctl" ["stop"; "beacon"].

Definition unix_serviceStatus (w : W) : (svcInfo * option error) * W :=
  let path := if darwin then launchdPlist else systemdUnit in
  match ch_Stat path w with
  | Err _ => ((mkSvcInfo false false, None), w)
  | Ok _ =>
      let '(r, w) := if darwin then run "launchctl" ["print"; launchd_service] w
                     else run "systemctl" ["is-active"; "--quiet"; "beacon"] w in
      ((mkSvcInfo true (is_ok r), None), w)
  end.

Definition windows_only {A} : M W A := mthrow (errorf "a per-user install is only available on Windows").

Definition unix_userInstallPath : string :=
  let dir := default "" (sr_env sr !! "LOCALAPPDATA") in
  if (dir =? "")%string then "" else filepath_Join (filepath_Join dir "beacon") "beacon.exe".

Definition unix_socketPaths : list string :=
  let p := default "" (sr_env sr !! "BEACON_SOCKET") in
  if negb (p =? "")%string then [p]
  else (if darwin then "/var/run/beacon.sock" else "/run/beacon.sock")
       :: match sr_UserConfigDir sr with
          | Ok dir => [filepath_Join (filepath_Join dir "beacon") "control.sock"]
          | Err _ => []
          end.

Definition unix_installPlan (cfg : resolved) (target path : string) : string :=
  let c := rv_Config cfg in
  lines_of (["would copy   " +:+ target; "would write  " +:+ path] ++
    (if darwin then
       ["would write  " +:+ launchdPlist; ""; plistContent target;
        "would run    launchctl bootstrap system " +:+ launchdPlist;
        "would run    launchctl kickstart -k " +:+ launchd_service]
     else
       ["would write  " +:+ systemdUnit; ""; unitContent target; "would run    systemctl daemon-reload";
        "would run    systemctl enable beacon"; "would run    systemctl start beacon"]) ++
    [""; "relay        " +:+ Server c; "agent id     " +:+ AgentID c]).

Definition unix : Platform W := {|
  requireElevation := unix_requireElevation;
  serviceInstall := unix_serviceInstall;
  serviceUninstall := unix_serviceUninstall;
  serviceStart := unix_serviceStart;
  serviceStop := unix_serviceStop;
  serviceStatus := unix_serviceStatus;
  userInstall _ := windows_only;
  userUninstall := windows_only;
  userStart := windows_only;
  userStop := windows_only;
  userInstalled w := (false, w);
  installPath := "/usr/local/bin/beacon";
  userInstallPath := unix_userInstallPath;
  socketPaths := unix_socketPaths;
  installPlan := unix_installPlan
|}.
End unix.

(** ** The commands *)
Section control.
  Context `{Platform W}.

(** Reading the world, and asking it. *)
Definition ask {A} (f : W → A * W) : M W A := λ w, let '(a, w) := f w in (Ok a, w).
Definition read {A} (f : W → A) : M W A := λ w, (Ok (f w), w).

(** [os.Executable] and [filepath.EvalSymlinks] as [self] and [resolve]. *)
Definition copyExecutable (self : res string) (resolve : string → res string) (target : string) : M W () :=
  self ← mlift self;
  let self := match resolve self with Ok s => s | Err _ => self end in
  if (self =? target)%string then mret ()
  else
    data ← (λ w, (fs_ReadFile self w, w));
    fs_MkdirAll (filepath_Dir target);;
    there ← read (λ w, is_ok (ch_Stat target w));
    if (there : bool) then
      ps_Rename target (target +:+ ".old");;
      r ← attempt (fs_WriteFile target data);
      attempt (ps_Remove (target +:+ ".old"));;
      mlift r
    else fs_WriteFile target data.

(** The polls of [settled] that are left, and what the last one saw. *)
Fixpoint settle (n : nat) (wantRunning : bool) (info : svcInfo) (w : W) : svcInfo * W :=
  match n with
  | O => (info, w)
  | S n =>
      let '((info, err), w) := serviceStatus w in
      if bool_decide (err = None) && Bool.eqb (Running info) wantRunning then (info, w)
      else settle n wantRunning info (ps_Sleep (100 * Millisecond) w)
  end.
Definition settled (wantRunning : bool) : W → svcInfo * W := settle 20 wantRunning (mkSvcInfo false false).

Definition serviceStateText (info : svcInfo) : string :=
  if negb (Installed info) then "not installed"
  else if Running info then "running" else "registered, not running".

(** How [cmdServiceControl] ends, by its panel; [NotInstalled] and [Unconfirmed]
    end the process with a failure that says nothing more. *)
Inductive control_panel :=
  | UserDone | NotInstalled | AlreadyRunning | AlreadyStopped | Unconfirmed (info : svcInfo) | Done (info : svcInfo).
Definition silent_failure (p : control_panel) : bool :=
  match p with NotInstalled | Unconfirmed _ => true | _ => false end.

Definition user_control (name : string) : M W () :=
  if (name =? "start")%string then userStart
  else if (name =? "stop")%string then userStop
  else if (name =? "restart")%string then (userStop;; userStart)
  else mret ().

Definition service_control (name : string) (running : bool) : M W () :=
  if (name =? "start")%string then serviceStart
  else if (name =? "stop")%string then serviceStop
  else ((if running then serviceStop else mret ());; serviceStart).

Definition cmdServiceControl (name : string) : M W control_panel :=
  user ← ask userInstalled;
  if (user : bool) then user_control name;; mret UserDone
  else
    requireElevation;;
    st ← ask serviceStatus;
    before ← mlift (match snd st with None => Ok (fst st) | Some e => Err e end);
    if negb (Installed before) then mret NotInstalled
    else if (name =? "start")%string && Running before then mret AlreadyRunning
    else if (name =? "stop")%string && negb (Running before) then mret AlreadyStopped
    else
      service_control name (Running before);;
      let wantRunning := negb (name =? "stop")%string in
      after ← ask (settled wantRunning);
      mret (if negb (Bool.eqb (Running after) wantRunning) then Unconfirmed after else Done after).

Definition remove_sockets : M W () :=
  foldr (λ p m, attempt (ps_Remove p);; m) (mret ()) socketPaths.

(** True when it was the per-user install that was removed. *)
Definition cmdUninstall (sr : Surroundings) : M W bool :=
  user ← ask userInstalled;
  if (user : bool) then
    userUninstall;;
    (if negb (userConfigPath sr =? "")%string then attempt (ps_Remove (userConfigPath sr));; mret () else mret ());;
    remove_sockets;;
    mret true
  else
    requireElevation;;
    serviceUninstall;;
    remove_sockets;;
    remove_if_there installPath;;
    mret false.

(** How [cmdInstall] ends. *)
Inductive install_outcome :=
  | Planned (plan : string)
  | InstalledAgent (again : bool) (target : string) (cfg : Config) (after : svcInfo).

Context {CertPool : Type} `{X509 CertPool} `{Internet CertPool W} `{URLParser} `{ClientJSON} `{JSON Config} `{Ed25519}.

(** The part that changes the machine, for an account that is enrolled. *)
Definition install_files (sr : Surroundings) (self : res string) (resolve : string → res string)
    (perUser : bool) (target : string) (cfg : Config) : M W () :=
  if perUser then
    userInstall target;;
    saveConfigTo (userConfigPath sr) cfg;;
    userStart
  else
    copyExecutable self resolve target;;
    saveConfig sr cfg;;
    serviceInstall target;;
    serviceStart.

(** [run_as] is the password prompt's answer when there is a --run-as account;
    the account and its password reach [serviceInstall] through the platform. *)
Definition cmdInstall (sr : Surroundings) (flags : list (string * string)) (perUser dryRun : bool)
    (runAs : option (res string)) (self : res string) (resolve : string → res string)
    (gen user password : res string) : M W install_outcome := λ w,
  (if perUser && bool_decide (is_Some runAs)
   then mthrow (errorf "--per-user and --run-as are different ways to leave LocalSystem; pick one")
   else
     cfg ← mlift (loadConfig sr flags w);
     let target := if perUser then userInstallPath else installPath in
     if perUser && (target =? "")%string
     then mthrow (errorf "--per-user needs LOCALAPPDATA, which only exists on windows")
     else if dryRun then mret (Planned (installPlan cfg target (configPath sr w)))
     else
       (if perUser then mret () else requireElevation);;
       mlift (match runAs with Some (Err e) => Err e | _ => Ok () end);;
       c ← enrollThisMachine (CertPool := CertPool) gen user password (rv_Config cfg);
       before ← ask serviceStatus;
       install_files sr self resolve perUser target c;;
       after ← ask (settled true);
       mret (InstalledAgent (Installed (fst before)) target c after)) w.
End control.

(** ** What a report says *)

(** A status query that fails reports a service that is not running. *)
Class HonestStatus `{Platform W} :=
  failed_status w info e w' : serviceStatus w = ((info, Some e), w') → Running info = false.

#[export] Instance unix_honest GOOS sr : HonestStatus (H2 := unix GOOS sr).
Proof.
  intros w info e w'. cbn [serviceStatus unix]. unfold unix_serviceStatus.
  destruct (ch_Stat _ w); [|by intros [= <-]]. destruct (if darwin GOOS then _ else _) as [r w1]. by intros [= <-].
Qed.

Section reports.
  Context `{HonestStatus}.

Lemma settle_saw n want info w after w' :
  settle n want info w = (after, w') → Running after = want →
  (∃ w1, serviceStatus w1 = ((after, None), w')) ∨ (n = O ∧ after = info) ∨
  (∃ w1 e w2, serviceStatus w1 = ((after, Some e), w2)).
Proof.
  revert info w. induction n as [|n IH]; intros info w; cbn [settle]; [intros [= -> ->]; eauto|].
  destruct (serviceStatus w) as [[info1 err] w1] eqn:E.
  destruct err as [e|]; cbn [bool_decide andb].
  - rewrite bool_decide_eq_false_2 by done. cbn [andb]. intros Hs Hr.
    destruct (IH _ _ Hs Hr) as [?|[[_ ->]|?]]; eauto 10.
  - rewrite bool_decide_eq_true_2 by done. cbn [andb].
    destruct (Bool.eqb (Running info1) want) eqn:Eq; [intros [= <- <-] _; eauto|]. intros Hs Hr.
    destruct (IH _ _ Hs Hr) as [?|[[_ ->]|?]]; eauto 10. by rewrite Hr, Bool.eqb_reflx in Eq.
Qed.

(** No panel claims more than the service manager said.  STARTED and RESTARTED
    mean that a status query, the last of at most twenty, found the service
    running; the two ALREADY panels and NOT INSTALLED that the query before
    anything was touched said so. *)
Theorem control_reports_what_it_saw name w p w' :
  cmdServiceControl name w = (Ok p, w') →
  match p with
  | UserDone => fst (userInstalled w) = true
  | NotInstalled => ∃ w1 info, serviceStatus w1 = ((info, None), w') ∧ Installed info = false
  | AlreadyRunning => name = "start" ∧ ∃ w1 info, serviceStatus w1 = ((info, None), w') ∧ Running info = true
  | AlreadyStopped => name = "stop" ∧ ∃ w1 info, serviceStatus w1 = ((info, None), w') ∧ Running info = false
  | Unconfirmed info => Running info = (name =? "stop")%string
  | Done info => Running info = negb (name =? "stop")%string ∧
      (name ≠ "stop" → ∃ w1, serviceStatus w1 = ((info, None), w'))
  end.
Proof.
  unfold cmdServiceControl. unfold mbind at 1, M_bind at 1, ask at 1.
  destruct (userInstalled w) as [[] wu] eqn:Eu.
  { intros ([] & w1 & _ & [= <- _])%M_bind_ok_inv. done. }
  intros ([] & w0 & _ & Hc)%M_bind_ok_inv.
  apply M_bind_ok_inv in Hc as ([info err] & w1 & Hq & Hc). unfold ask in Hq.
  destruct (serviceStatus w0) as [[i e] w2] eqn:Es. injection Hq as -> -> ->. cbn [fst snd] in Hc.
  apply M_bind_ok_inv in Hc as (before & w3 & Hb & Hc). destruct err; [done|]. injection Hb as <- <-.
  destruct (Installed info) eqn:Ei; cbn [negb] in Hc; [|injection Hc as <- <-; eauto].
  destruct ((name =? "start")%string && Running info) eqn:E1.
  { apply andb_true_iff in E1 as [->%String.eqb_eq ?]. injection Hc as <- <-. eauto. }
  destruct ((name =? "stop")%string && negb (Running info)) eqn:E2.
  { apply andb_true_iff in E2 as [->%String.eqb_eq ?%negb_true_iff]. injection Hc as <- <-. eauto. }
  apply M_bind_ok_inv in Hc as ([] & w3 & _ & Hc). apply M_bind_ok_inv in Hc as (after & w4 & Ha & Hc).
  unfold ask in Ha. destruct (settled _ w3) as [a w5] eqn:Ese. injection Ha as -> ->. injection Hc as <- <-.
  destruct (Bool.eqb (Running after) _) eqn:Eq; cbn [negb].
  - apply Bool.eqb_prop in Eq. split; [done|]. intros Hn.
    apply String.eqb_neq in Hn. rewrite Hn in *. cbn [negb] in *.
    destruct (settle_saw _ _ _ _ _ _ Ese Eq) as [?|[[? _]|(w5 & e5 & w6 & Hf)]]; [done|done|].
    by rewrite (failed_status _ _ _ _ Hf) in Eq.
  - apply Bool.eqb_false_iff in Eq. destruct (Running after), (name =? "stop")%string; done.
Qed.
End reports.

(** ** What the disk holds

    [file w p] is the content of [p] in [w].  The laws are what the standard
    library documents of a local disk; other programs, the network and time are
    held to leave the paths in [own] alone. *)
Class DiskView (file : W → string → option string) (own : string → Prop) := {
  dv_read p d w : fs_ReadFile p w = Ok d → file w p = Some d;
  dv_write p d w r w' : fs_WriteFile p d w = (r, w') →
    (∀ q, q ≠ p → file w' q = file w q) ∧ (r = Ok () → file w' p = Some d);
  dv_mkdir p w q : file (fs_MkdirAll p w).2 q = file w q;
  dv_chmod p w q : file (ch_Chmod p w).2 q = file w q;
  dv_create p w q : q ≠ p → file (ch_Create p w).2 q = file w q;
  dv_probe p w q : q ≠ p → file (ch_Remove p w) q = file w q;
  dv_remove p w r w' : ps_Remove p w = (r, w') → ∀ q, q ≠ p → file w' q = file w q;
  dv_rename a b w r w' : ps_Rename a b w = (r, w') →
    (∀ q, q ≠ a → q ≠ b → file w' q = file w q) ∧ (is_ok r = false → file w' a = file w a);
  dv_run name args w q : own q → file (ps_CombinedOutput name args w).2 q = file w q;
  dv_sleep t w q : own q → file (ps_Sleep t w) q = file w q
}.

Section disk.
  Context {file : W → string → option string} {own : string → Prop} `{!DiskView file own}.

(** [m] leaves the paths in [P] alone. *)
Definition keeps (P : string → Prop) {A} (m : M W A) : Prop :=
  ∀ w r w' q, m w = (r, w') → P q → file w' q = file w q.

Lemma keeps_bind (P : string → Prop) {A B} (m : M W A) (k : A → M W B) :
  keeps P m → (∀ a, keeps P (k a)) → keeps P (m ≫= k).
Proof.
  intros Hm Hk w r w' q. unfold mbind, M_bind. destruct (m w) as [[a|e] w1] eqn:E; intros Hr Hq.
  - by rewrite (Hk _ _ _ _ _ Hr Hq), (Hm _ _ _ _ E Hq).
  - injection Hr as <- <-. by eapply Hm.
Qed.
Lemma keeps_attempt (P : string → Prop) {A} (m : M W A) : keeps P m → keeps P (attempt m).
Proof. intros Hm w r w' q. unfold attempt. destruct (m w) as [r1 w1] eqn:E. intros [= _ <-]. by eapply Hm. Qed.
Lemma keeps_mret (P : string → Prop) {A} (a : A) : keeps P (mret a : M W A).
Proof. by intros w r w' q [= _ <-]. Qed.
Lemma keeps_mlift (P : string → Prop) {A} (x : res A) : keeps P (mlift x : M W A).
Proof. by intros w r w' q [= _ <-]. Qed.
Lemma keeps_read (P : string → Prop) {A} (f : W → A) : keeps P (read f).
Proof. by intros w r w' q [= _ <-]. Qed.
Lemma keeps_mkdir (P : string → Prop) p : keeps P (fs_MkdirAll p).
Proof. intros w r w' q E _. rewrite <-(dv_mkdir p w q). by rewrite E. Qed.
Lemma keeps_chmod (P : string → Prop) p : keeps P (ch_Chmod p).
Proof. intros w r w' q E _. rewrite <-(dv_chmod p w q). by rewrite E. Qed.
Lemma keeps_write p d : keeps (λ q, q ≠ p) (fs_WriteFile p d).
Proof. intros w r w' q E Hq. by apply (dv_write _ _ _ _ _ E). Qed.
Lemma keeps_run name args : keeps own (run name args).
Proof.
  intros w r w' q E Hq. unfold run in E. rewrite <-(dv_run name args w q Hq).
  destruct (ps_CombinedOutput name args w) as [[out [e|]] w1]; by injection E as <- <-.
Qed.
Lemma keeps_weaken (P Q : string → Prop) {A} (m : M W A) : keeps P m → (∀ q, Q q → P q) → keeps Q m.
Proof. intros Hm HQ w r w' q E Hq. eapply Hm; [exact E|auto]. Qed.
#[local] Hint Resolve keeps_bind keeps_attempt keeps_mret keeps_mlift keeps_read keeps_mkdir keeps_chmod keeps_write
  keeps_run : keeps.

Lemma install_file_written path content w w' :
  install_file path content w = (Ok (), w') →
  file w' path = Some content ∧ ∀ q, q ≠ path → file w' q = file w q.
Proof.
  intros ([] & w1 & Hm & Hw)%M_bind_ok_inv. destruct (dv_write _ _ _ _ _ Hw) as [Hq Hp].
  split; [by apply Hp|]. intros q Hne. rewrite Hq by done. by eapply (keeps_mkdir (λ _, True)).
Qed.

(** A successful [copyExecutable] puts the running build at [target] and touches
    nothing else but the name beside it. *)
Lemma copyExecutable_ok self resolve target w w' :
  let src := match resolve self with Ok s => s | Err _ => self end in
  copyExecutable (Ok self) resolve target w = (Ok (), w') →
  (∀ q, q ≠ target → q ≠ target +:+ ".old" → file w' q = file w q) ∧
  (src = target ∧ w' = w ∨ ∃ build, file w src = Some build ∧ file w' target = Some build).
Proof.
  intros src. unfold copyExecutable. intros (s & w1 & [= <- <-] & Hc)%M_bind_ok_inv. fold src in Hc.
  destruct (String.eqb_spec src target) as [He|Hne]; [injection Hc as <-; auto|].
  apply M_bind_ok_inv in Hc as (data & w1 & Hd & Hc). injection Hd as Hd <-. apply dv_read in Hd.
  apply M_bind_ok_inv in Hc as ([] & w2 & Hm & Hc).
  apply M_bind_ok_inv in Hc as (there & w3 & Ht & Hc). injection Ht as Ht <-.
  assert (target +:+ ".old" ≠ target) as Hold by (by apply beside).
  pose proof (λ q, keeps_mkdir (λ _, True) _ _ _ _ q Hm I) as Hk.
  destruct there.
  - apply M_bind_ok_inv in Hc as ([] & w4 & Hr & Hc). apply M_bind_ok_inv in Hc as (r & w5 & Hw & Hc).
    unfold attempt in Hw. destruct (fs_WriteFile target data w4) as [r1 w5'] eqn:Ew. injection Hw as -> ->.
    apply M_bind_ok_inv in Hc as (r2 & w6 & Hrm & Hc). unfold attempt in Hrm.
    destruct (ps_Remove _ w5) as [r3 w6'] eqn:Er. injection Hrm as -> ->.
    injection Hc as -> <-. pose proof (dv_remove _ _ _ _ Er) as Hrm.
    destruct (dv_write _ _ _ _ _ Ew) as [Hwq Hwp], (dv_rename _ _ _ _ _ Hr) as [Hrq _]. split.
    + intros q Hq Hq'. by rewrite Hrm, Hwq, Hrq, Hk.
    + right. exists data. split; [done|]. rewrite Hrm by done. by apply Hwp.
  - destruct (dv_write _ _ _ _ _ Hc) as [Hwq Hwp]. split.
    + intros q Hq _. by rewrite Hwq, Hk.
    + right. exists data. split; [done|]. by apply Hwp.
Qed.

(** The places a configuration is kept, and the name beside it that a check for
    write access may use. *)
Definition config_places (sr : Surroundings) : list string :=
  [default "" (sr_env sr !! "BEACON_CONFIG"); userConfigPath sr; machineConfigPath].
Definition probe_of (path : string) : string := filepath_Join (filepath_Dir path) ".beacon-write-probe".

Lemma configPath_places sr w : configPath sr w ∈ config_places sr.
Proof.
  unfold configPath, config_places. destruct (negb _); [by left|].
  destruct (_ && _); [by right; left|by right; right; left].
Qed.

Context `{JSON Config}.

Lemma saveConfigTo_file path c w p w' :
  saveConfigTo path c w = (Ok p, w') →
  p = path ∧ ∃ text, Marshal c = Ok text ∧ file w' path = Some (text +:+ nl) ∧ ∀ q, q ≠ path → file w' q = file w q.
Proof.
  unfold saveConfigTo. destruct (path =? "")%string; [done|].
  intros ([] & w1 & Hm & Hs)%M_bind_ok_inv. apply M_bind_ok_inv in Hs as (text & w2 & Ht & Hs). injection Ht as Ht <-.
  apply M_bind_ok_inv in Hs as ([] & w3 & Hw & Hs). apply M_bind_ok_inv in Hs as ([] & w4 & Hc & Hs). injection Hs as <- <-.
  pose proof (λ q, keeps_mkdir (λ _, True) _ _ _ _ q Hm I) as Hkm.
  pose proof (λ q, keeps_chmod (λ _, True) _ _ _ _ q Hc I) as Hkc.
  destruct (dv_write _ _ _ _ _ Hw) as [Hq Hp]. split; [done|]. exists text. split_and!; [done|by rewrite Hkc, Hp|].
  intros q Hne. by rewrite Hkc, Hq, Hkm.
Qed.

Lemma writableConfig_keeps path w ok w' q :
  writableConfig path w = (ok, w') → q ≠ probe_of path → file w' q = file w q.
Proof.
  unfold writableConfig. destruct (ch_OpenForWriting path w) as [|e]; [by intros [= _ <-]|].
  destruct (negb _); [by intros [= _ <-]|].
  destruct (fs_MkdirAll _ w) as [r1 w1] eqn:Em. pose proof (keeps_mkdir (λ _, True) _ _ _ _ q Em I) as Hm.
  destruct r1; [|by intros [= _ <-]]. fold (probe_of path).
  destruct (ch_Create _ w1) as [r2 w2] eqn:Ec. intros Hr Hq.
  assert (file w2 q = file w1 q) as Hc by (rewrite <-(dv_create _ w1 q Hq); by rewrite Ec).
  destruct r2; injection Hr as <- <-; [rewrite dv_probe by done|]; by rewrite Hc.
Qed.

Lemma saveConfig_file sr c w path w' :
  saveConfig sr c w = (Ok path, w') →
  path ∈ config_places sr ∧ ∃ text, Marshal c = Ok text ∧ file w' path = Some (text +:+ nl) ∧
    ∀ q, q ≠ path → q ≠ probe_of (configPath sr w) → file w' q = file w q.
Proof.
  unfold saveConfig. destruct (writableConfig (configPath sr w) w) as [ok w1] eqn:Ew. intros Hs.
  assert (∀ p, p ∈ config_places sr → saveConfigTo p c w1 = (Ok path, w') → path ∈ config_places sr ∧
    ∃ text, Marshal c = Ok text ∧ file w' path = Some (text +:+ nl) ∧
      ∀ q, q ≠ path → q ≠ probe_of (configPath sr w) → file w' q = file w q) as Hgo.
  { intros p Hin (-> & text & ? & ? & Hq)%saveConfigTo_file. split; [done|]. exists text. split_and!; [done..|].
    intros q Hne Hp. rewrite Hq by done. by eapply writableConfig_keeps. }
  destruct ok; [|destruct (negb _)]; (eapply Hgo; [|exact Hs]); try apply configPath_places. by right; left.
Qed.

(** *** What an installation leaves *)
Section install.
  Context {CertPool : Type} `{X509 CertPool} `{Internet CertPool W} `{URLParser} `{ClientJSON} `{Ed25519}.
  Context (GOOS : string) (sr : Surroundings).
  #[local] Existing Instance unix.
  Hypothesis http_keeps : ∀ c rq, keeps own (http_Do (CertPool := CertPool) (W := W) c rq).

Definition service_file : string * string :=
  if darwin GOOS then (launchdPlist, plistContent "/usr/local/bin/beacon")
  else (systemdUnit, unitContent "/usr/local/bin/beacon").

Lemma enrollThisMachine_keeps gen user password cfg : keeps own (enrollThisMachine (CertPool := CertPool) (W := W) gen user password cfg).
Proof.
  unfold enrollThisMachine, enrollThisMachineAs. apply keeps_bind; [apply keeps_mlift|]. intros [priv c].
  apply keeps_bind; [apply keeps_mlift|]. intros username. apply keeps_bind; [apply keeps_mlift|]. intros pass.
  apply keeps_bind; [apply keeps_attempt|intros []; [apply keeps_mret|by intros w r w' q [= _ <-]]].
  unfold enroll. apply keeps_bind; [apply keeps_mlift|]. intros u. apply keeps_bind; [apply keeps_mlift|]. intros body.
  apply keeps_bind. { intros w r w' q. unfold relayClient. by intros [= _ <-]. }
  intros client. apply keeps_bind; [apply http_keeps|]. intros resp w r w' q Hr _.
  destruct (negb _); [destruct (negb _)|destruct (_ =? _)%string]; by injection Hr as _ <-.
Qed.

Lemma serviceStatus_keeps : keeps own (ask (serviceStatus (Platform := unix GOOS sr))).
Proof.
  intros w r w' q. unfold ask. cbn [serviceStatus unix]. unfold unix_serviceStatus.
  destruct (ch_Stat _ w); [|by intros [= _ <-]]. intros Hr Hq.
  destruct (darwin GOOS); [destruct (run "launchctl" _ w) as [r1 w1] eqn:E|destruct (run "systemctl" _ w) as [r1 w1] eqn:E];
    injection Hr as _ <-; by eapply keeps_run.
Qed.

Lemma settle_keeps n want info w after w' q :
  settle (H2 := unix GOOS sr) n want info w = (after, w') → own q → file w' q = file w q.
Proof.
  revert info w. induction n as [|n IH]; intros info w; cbn [settle]; [by intros [= _ <-]|]. intros Hr Hq.
  destruct (serviceStatus w) as [[info1 err] w1] eqn:E.
  assert (file w1 q = file w q) as Hs by (eapply serviceStatus_keeps; [unfold ask; by rewrite E|done]).
  destruct (_ && _); [by injection Hr as _ <-|]. rewrite (IH _ _ Hr Hq), dv_sleep, Hs; done.
Qed.

Lemma serviceInstall_ok w w' :
  own (fst service_file) → serviceInstall (Platform := unix GOOS sr) "/usr/local/bin/beacon" w = (Ok (), w') →
  file w' (fst service_file) = Some (snd service_file) ∧
  ∀ q, q ≠ fst service_file → own q → file w' q = file w q.
Proof.
  cbn [serviceInstall unix]. unfold unix_serviceInstall, service_file.
  destruct (darwin GOOS); cbn [fst snd]; intros Ho ([] & w1 & (Hf & Hk)%install_file_written & Hr)%M_bind_ok_inv.
  all: apply M_bind_ok_inv in Hr as (a & w2 & H1' & H2').
  all: assert (∀ q, own q → file w' q = file w1 q) as Hw
    by (intros q Hq; rewrite (keeps_run _ _ _ _ _ q H2' Hq);
        first [by eapply keeps_run | eapply (keeps_attempt own); [apply keeps_run|done..]]).
  all: split; [by rewrite Hw|intros q Hne Hq; by rewrite Hw, Hk].
Qed.

Lemma install_files_ok self resolve c w w' :
  let bin := "/usr/local/bin/beacon" in
  let src := match resolve self with Ok s => s | Err _ => self end in
  install_files (H2 := unix GOOS sr) sr (Ok self) resolve false bin c w = (Ok (), w') →
  own bin → own (fst service_file) →
  (∀ p, p ∈ config_places sr → own p ∧ p ≠ bin ∧ p ≠ fst service_file ∧ probe_of p ≠ bin) →
  file w' (fst service_file) = Some (snd service_file) ∧
  (∃ path text, path ∈ config_places sr ∧ Marshal c = Ok text ∧ file w' path = Some (text +:+ nl)) ∧
  (src = bin ∨ ∃ build, file w src = Some build ∧ file w' bin = Some build).
Proof.
  intros bin src Hi Hob Hos Hsep. unfold install_files in Hi.
  apply M_bind_ok_inv in Hi as ([] & w1 & Hcp & Hi). apply M_bind_ok_inv in Hi as (path & w2 & Hsv & Hi).
  apply M_bind_ok_inv in Hi as ([] & w3 & Hin & Hst).
  destruct (copyExecutable_ok _ _ _ _ _ Hcp) as [_ Hb].
  destruct (saveConfig_file _ _ _ _ _ Hsv) as (Hpl & text & Hm & Hf & Hk).
  destruct (Hsep path Hpl) as (Hop & Hpb & Hps & _).
  destruct (Hsep _ (configPath_places sr w1)) as (_ & _ & _ & Hprobe).
  destruct (serviceInstall_ok _ _ Hos Hin) as [Hsf Hsk].
  assert (∀ q, own q → file w' q = file w3 q) as Hlast.
  { intros q Hq. cbn [serviceStart unix] in Hst. unfold unix_serviceStart in Hst.
    destruct (darwin GOOS); by eapply keeps_run. }
  assert (bin ≠ fst service_file) as Hbs by (unfold service_file; by destruct (darwin GOOS)).
  split_and!; [by rewrite Hlast|exists path, text; split_and!; [done..|]; by rewrite Hlast, Hsk|].
  destruct Hb as [[Hb _]|(build & ? & Hb)]; [by left|right]. exists build. split; [done|].
  rewrite Hlast, Hsk, Hk by (done || congruence). exact Hb.
Qed.

(** C26: When [beacon install] says INSTALLED on Linux or macOS, the machine holds an
    assertion; the service manager's file is the one for the installed binary;
    the configuration with the agent's identity is on disk; and the installed
    binary is the build that was run.  The hypotheses keep the configuration
    apart from the two files and say that the network, the service manager's
    programs and time leave these paths alone. *)
Theorem install_puts_the_agent_in_place flags runAs self resolve gen user password w again target c after w' :
  let bin := "/usr/local/bin/beacon" in
  let src := match resolve self with Ok s => s | Err _ => self end in
  cmdInstall (H2 := unix GOOS sr) (CertPool := CertPool) sr flags false false runAs (Ok self) resolve
    gen user password w = (Ok (InstalledAgent again target c after), w') →
  own bin → own src → own (fst service_file) →
  (∀ p, p ∈ config_places sr → own p ∧ p ≠ bin ∧ p ≠ fst service_file ∧ probe_of p ≠ bin) →
  target = bin ∧ Assertion c ≠ "" ∧
  file w' (fst service_file) = Some (snd service_file) ∧
  (∃ path text, path ∈ config_places sr ∧ Marshal c = Ok text ∧ file w' path = Some (text +:+ nl)) ∧
  (src = bin ∨ ∃ build, file w src = Some build ∧ file w' bin = Some build).
Proof.
  intros bin src Hi Hob Hosrc Hos Hsep. unfold cmdInstall in Hi. cbn [andb] in Hi.
  apply M_bind_ok_inv in Hi as (cfg & w0 & Hl & Hi). injection Hl as Hl <-.
  apply M_bind_ok_inv in Hi as ([] & w0 & He & Hi).
  assert (w0 = w) as ->.
  { cbn [requireElevation unix] in He. unfold unix_requireElevation in He. destruct (negb _); [done|]. by injection He. }
  apply M_bind_ok_inv in Hi as ([] & w0 & Hp & Hi). injection Hp as _ <-.
  apply M_bind_ok_inv in Hi as (c1 & w1 & Hen & Hi). apply M_bind_ok_inv in Hi as (before & w2 & Hb & Hi).
  apply M_bind_ok_inv in Hi as ([] & w3 & Hf & Hi). apply M_bind_ok_inv in Hi as (after1 & w4 & Ha & Hi).
  injection Hi as <- <- <- <- <-.
  pose proof (λ q, enrollThisMachine_keeps _ _ _ _ _ _ _ q Hen) as Hk1.
  pose proof (λ q, serviceStatus_keeps _ _ _ q Hb) as Hk2.
  assert (∀ q, own q → file w4 q = file w3 q) as Hk4.
  { intros q Hq. unfold ask in Ha. destruct (settled _ w3) as [a w5] eqn:Es. injection Ha as _ <-. by eapply settle_keeps. }
  destruct (install_files_ok _ _ _ _ _ Hf Hob Hos Hsep) as (Hs & (path & text & Hin & Hm & Ht) & Hbin).
  split_and!; [done|by eapply enrollThisMachine_assertion|by rewrite Hk4| |].
  - exists path, text. split_and!; [done..|]. rewrite Hk4; [done|]. by apply Hsep.
  - destruct Hbin as [?|(build & Hr & ?)]; [by left|right]. exists build. fold src in Hr.
    rewrite Hk4 by done. split; [|done]. by rewrite <-Hr, Hk2, Hk1.
Qed.
End install.
End disk.

(** ** launchd *)
Section launchd.
  Context (sr : Surroundings) (loaded : W → bool).

(** [launchctl bootout] takes the service out of the domain; a service that is
    not in it cannot be kickstarted. *)
Class Launchctl := {
  lc_bootout w o w' :
    ps_CombinedOutput "launchctl" ["bootout"; launchd_service] w = ((o, None), w') → loaded w' = false;
  lc_kickstart w : loaded w = false →
    ∃ o e w', ps_CombinedOutput "launchctl" ["kickstart"; "-k"; launchd_service] w = ((o, Some e), w') ∧
      loaded w' = false;
  lc_print w o w' :
    ps_CombinedOutput "launchctl" ["print"; launchd_service] w = ((o, None), w') → loaded w' = true
}.
Context `{!Launchctl}.

Lemma kickstart_fails w : loaded w = false →
  ∃ e w', unix_serviceStart "darwin" w = (Err e, w') ∧ loaded w' = false.
Proof.
  intros (o & e & w' & E & Hl)%lc_kickstart.
  change (unix_serviceStart "darwin") with (run "launchctl" ["kickstart"; "-k"; launchd_service]).
  unfold run. rewrite E. eauto.
Qed.

(** On macOS [beacon restart] never restarts a running agent: it takes the
    service out of launchd's domain and then asks launchd to kick a service it
    no longer knows.  The command fails and the agent stays down. *)
Theorem macos_restart_stops_the_agent w p w' w1 w2 info :
  cmdServiceControl (H2 := unix "darwin" sr) "restart" w = (p, w') →
  unix_serviceStatus "darwin" w = ((info, None), w1) → Running info = true → ps_Geteuid w = 0 →
  unix_serviceStop "darwin" w1 = (Ok (), w2) →
  is_ok p = false ∧ loaded w' = false.
Proof.
  intros Hc Hs Hrun Hu Hstop. unfold cmdServiceControl in Hc.
  erewrite bind_ok in Hc by reflexivity. cbn beta iota in Hc.
  erewrite bind_ok in Hc; [|cbn [requireElevation unix]; unfold unix_requireElevation; by rewrite Hu].
  erewrite bind_ok in Hc; [|unfold ask; cbn [serviceStatus unix]; by rewrite Hs].
  erewrite bind_ok in Hc by reflexivity. cbn [fst] in Hc.
  assert (Installed info = true) as Hinst.
  { unfold unix_serviceStatus in Hs. destruct (ch_Stat _ w); [|by injection Hs as <- _].
    cbn in Hs. destruct (run _ _ w). by injection Hs as <- _. }
  rewrite Hinst, Hrun in Hc. cbn [negb andb] in Hc.
  change ("restart" =? "start")%string with false in Hc. change ("restart" =? "stop")%string with false in Hc.
  assert (loaded w2 = false) as Hl.
  { change (unix_serviceStop "darwin") with (run "launchctl" ["bootout"; launchd_service]) in Hstop. unfold run in Hstop.
    destruct (ps_CombinedOutput _ _ w1) as [[o [e|]] w3] eqn:E; [done|]. injection Hstop as <-. by eapply lc_bootout. }
  destruct (kickstart_fails w2 Hl) as (e & w3 & Hk & Hl3).
  assert (service_control (H2 := unix "darwin" sr) "restart" true w1 = (Err e, w3)) as Hsc
    by (change (service_control (H2 := unix "darwin" sr) "restart" true)
          with (unix_serviceStop "darwin";; unix_serviceStart "darwin"); by rewrite (bind_ok _ _ _ _ _ Hstop)).
  cbn [andb] in Hc. unfold mbind at 1, M_bind at 1 in Hc. rewrite Hsc in Hc. by injection Hc as <- <-.
Qed.
End launchd.
End commands.

(** ** Witnesses: a machine with systemd and launchd

    [running] is the build the service runs, [loaded] whether launchd knows the
    service; a full disk leaves an empty file behind. *)
Module Unix.
Record t := mk { files : gmap string string; full : bool; running : option string; loaded : bool }.
Definition with_files (f : gmap string string) (w : t) : t := mk f (full w) (running w) (loaded w).
Definition with_service (r : option string) (l : bool) (w : t) : t := mk (files w) (full w) r l.

#[global] Instance fs : FileSystem t := {|
  fs_ReadFile p w := match files w !! p with Some s => Ok s | None => Err (errNotExist p) end;
  fs_WriteFile p d w :=
    if full w then (Err (errorf "no space left on device"), with_files (<[p := ""]> (files w)) w)
    else (Ok (), with_files (<[p := d]> (files w)) w);
  fs_MkdirAll _ w := (Ok (), w)
|}.
#[global] Instance host : ClientHost t := {|
  ch_Stat p w := match files w !! p with Some _ => Ok () | None => Err (errNotExist p) end;
  ch_OpenForWriting p w := match files w !! p with Some _ => Ok () | None => Err (errNotExist p) end;
  ch_Create p w := (Ok (), with_files (<[p := ""]> (files w)) w);
  ch_Remove p w := with_files (delete p (files w)) w;
  ch_Chmod _ w := (Ok (), w)
|}.

Definition start (w : t) : (string * option error) * t :=
  match files w !! "/usr/local/bin/beacon" with
  | None => (("", Some (errorf "exit status 203")), w)
  | Some b => (("", None), with_service (Some b) true w)
  end.
Definition failed (msg : string) (w : t) : (string * option error) * t := ((msg, Some (errorf "exit status 1")), w).

Definition exec (name : string) (args : list string) (w : t) : (string * option error) * t :=
  match args with
  | "start" :: _ => match running w with Some _ => (("", None), w) | None => start w end
  | "stop" :: _ => (("", None), with_service None (loaded w) w)
  | "is-active" :: _ => match running w with Some _ => (("", None), w) | None => failed "" w end
  | "bootstrap" :: _ => start w
  | "bootout" :: _ => if loaded w then (("", None), with_service None false w) else failed "No such process" w
  | "kickstart" :: _ => if loaded w then start w else failed "Could not find service" w
  | "print" :: _ => if loaded w then (("", None), w) else failed "Could not find service" w
  | _ => (("", None), w)
  end.

#[global] Instance processes : Processes t := {|
  ps_CombinedOutput := exec;
  ps_Geteuid _ := 0;
  ps_Remove p w := match files w !! p with
                   | None => (Err (errNotExist p), w)
                   | Some _ => (Ok (), with_files (delete p (files w)) w)
                   end;
  ps_Rename a b w := match files w !! a with
                     | None => (Err (errNotExist a), w)
                     | Some d => (Ok (), with_files (<[b := d]> (delete a (files w))) w)
                     end;
  ps_Sleep _ w := w
|}.

Definition file (w : t) (p : string) : option string := files w !! p.

Lemma exec_files name args w : files (exec name args w).2 = files w.
Proof. unfold exec, failed, start. repeat case_match; done. Qed.

#[global] Instance view : DiskView file (λ _, True).
Proof.
  unfold file. split; cbn.
  - intros p d w. destruct (files w !! p); by intros [= ->].
  - intros p d w r w'. destruct (full w); intros [= <- <-]; (split; [intros q Hq; cbn; by rewrite lookup_insert_ne|]);
      [done|intros _; cbn; by rewrite lookup_insert_eq].
  - done.
  - done.
  - intros p w q Hq. by rewrite lookup_insert_ne.
  - intros p w q Hq. by rewrite lookup_delete_ne.
  - intros p w r w'. destruct (files w !! p); intros [= <- <-] q Hq; cbn; by rewrite ?lookup_delete_ne.
  - intros a b w r w'. destruct (files w !! a) eqn:E; intros [= <- <-]; cbn; (split; [|done]).
    + intros q Ha Hb. by rewrite lookup_insert_ne, lookup_delete_ne.
    + done.
  - intros name args w q _. by rewrite exec_files.
  - done.
Qed.
#[global] Instance launchctl : Launchctl loaded.
Proof.
  split; cbn.
  - intros w o w'. destruct (loaded w); by intros [= _ <-].
  - intros w Hl. rewrite Hl. by eexists _, _, _.
  - intros w o w'. destruct (loaded w) eqn:El; by intros [= _ <-].
Qed.

#[global] Instance no_certs : X509 () := {| SystemCertPool := Ok (); NewCertPool := (); AppendCertsFromPEM _ _ := None |}.
#[global] Instance relay : Internet () t := λ _ _, mret (mkHTTPAnswer 200 "200 OK" [] "ASSERTION").
#[global] Instance urls : URLParser := λ s, Ok (mkURL "https" "" None "relay" "" "" false false "" "").
#[global] Instance bodies : ClientJSON := {|
  Marshal_map _ := Ok "{}";
  Decode_enroll_out s := mkEnrollOut s "" "";
  Decode_challenge s := Ok s
|}.

#[export] Instance settings : JSON Config := {|
  Marshal c := Ok (Server c +:+ " " +:+ AgentID c +:+ " " +:+ Assertion c);
  Unmarshal _ := Err ErrorEOF;
  Decode _ := Err ErrorEOF
|}.

Definition here : Surroundings := mkSurroundings ∅ (Err (errorf "HOME is not defined")) "lab-1".
Definition self : string := "/home/ana/beacon".
Definition flags : list (string * string) := [("server", "https://relay"); ("id", "lab-1"); ("user", "ana")].
Definition fresh : t := mk {[self := "v2"]} false None false.
Definition installed (running : option string) (full : bool) : t :=
  mk {[self := "v2"; "/usr/local/bin/beacon" := "v1"; launchdPlist := ""; systemdUnit := ""]} full running true.

Definition install (GOOS : string) (w : t) : res install_outcome * t :=
  cmdInstall (H2 := unix GOOS here) (CertPool := ()) (H8 := ToyCrypto.toy_ed25519) here flags false false None (Ok self) Ok
    (Ok (pad_to 64 "seed")) (Err ErrorEOF) (Ok "pw") w.
End Unix.

Section witnesses.
  Local Existing Instances ToyCrypto.toy_ed25519.
  Import Unix.

Lemma control_reports_what_it_saw_witness :
  match cmdServiceControl (H2 := unix "linux" here) "restart" (installed (Some "v1") false) with
  | (Ok (Done info), w') => Running info = true ∧ ("restart" ≠ "stop" → ∃ w1,
      unix_serviceStatus "linux" w1 = ((info, None), w'))
  | _ => False
  end.
Proof.
  destruct (cmdServiceControl _ _) as [[p|e] w'] eqn:E; [|vm_compute in E; discriminate].
  destruct p; try (vm_compute in E; discriminate).
  exact (control_reports_what_it_saw (H2 := unix "linux" here) "restart" _ (Done info) w' E).
Defined.

Lemma install_puts_the_agent_in_place_witness :
  match install "linux" fresh with
  | (Ok (InstalledAgent again target c after), w') =>
      target = "/usr/local/bin/beacon" ∧ Assertion c ≠ "" ∧
      file w' systemdUnit = Some (unitContent "/usr/local/bin/beacon") ∧
      (∃ path text, path ∈ config_places here ∧ Marshal c = Ok text ∧ file w' path = Some (text +:+ nl)) ∧
      (self = "/usr/local/bin/beacon" ∨
       ∃ build, file fresh self = Some build ∧ file w' "/usr/local/bin/beacon" = Some build)
  | _ => False
  end.
Proof.
  destruct (install "linux" fresh) as [[[plan|again target c after]|e] w'] eqn:E; try (vm_compute in E; discriminate).
  eapply (install_puts_the_agent_in_place (own := λ _, True) "linux" here _ flags None self Ok (Ok (pad_to 64 "seed"))
            (Err ErrorEOF) (Ok "pw") fresh again target c after w'); [exact E|done..|].
  intros p Hp. unfold config_places in Hp. rewrite !elem_of_cons in Hp.
  destruct Hp as [->|[->|[->|Hn]]]; [vm_compute; repeat split; discriminate..|by apply elem_of_nil in Hn].
  Unshelve. intros cl rq w r w2 q [= _ <-] _. reflexivity.
Defined.

Lemma macos_restart_stops_the_agent_witness :
  let w := installed (Some "v1") false in
  let '(p, w') := cmdServiceControl (H2 := unix "darwin" here) "restart" w in
  is_ok p = false ∧ loaded w' = false.
Proof.
  intros w. destruct (cmdServiceControl _ w) as [p w'] eqn:E.
  eapply (macos_restart_stops_the_agent here loaded w p w' w _ (mkSvcInfo true true)); [exact E|reflexivity..].
Defined.

(** A reinstall over a running service on Linux copies the new build and leaves
    the old one running: [systemctl start] does nothing for a unit that is
    active, and the command asks for nothing else. *)
Lemma reinstall_keeps_the_old_process :
  match install "linux" (installed (Some "v1") false) with
  | (Ok (InstalledAgent again _ _ after), w') =>
      again = true ∧ serviceStateText after = "running" ∧
      file w' "/usr/local/bin/beacon" = Some "v2" ∧ running w' = Some "v1"
  | _ => False
  end.
Proof. vm_compute. repeat split. Qed.

(** When the disk fills up while the binary is copied, the previous build is
    removed all the same and what stands in its place is empty. *)
Lemma failed_copy_loses_both_builds :
  let '(r, w') := copyExecutable (Ok self) Ok "/usr/local/bin/beacon" (installed (Some "v1") true) in
  is_ok r = false ∧ file w' "/usr/local/bin/beacon" = Some "" ∧ file w' "/usr/local/bin/beacon.old" = None.
Proof. vm_compute. repeat split. Qed.
End witnesses.
