(* ===== verification/ServiceWindows.v ===== *)
(** * The service on Windows (client/service_windows.go, client/usermode_windows.go)

    The platform of the Service Control Manager and of the per-user logon task,
    and the handler the manager drives while the service runs.  The manager's
    calls are the class [SCM]; programs and files are those of Service.v. *)

From S2P Require Import Prelude GoStrings GoNum GoBase64 Interfaces GoNet Wire Host Mux.
From S2P Require Import ClientURLs ClientConfig Identity Updater Service.

Open Scope string_scope.
Open Scope list_scope.
Open Scope Z_scope.

Definition winServiceName : string := "beacon".
Definition winDisplayName : string := "go-beacon agent".
Definition winDescription : string := "Maintains the outbound tunnel to the go-beacon relay.".
Definition userTaskName : string := "beacon-agent".
Definition maxServiceLogBytes : Z := Z.shiftl 5 20.

(** [mgr.Config], as far as it is set; the start type is automatic and errors
    are normal. *)
Record SvcConfig := mkSvcConfig {
  sc_DisplayName : string;
  sc_Description : string;
  sc_ServiceStartName : string;
  sc_Password : string
}.

Inductive svc_state := Stopped | StartPending | StopPending | SvcRunning.

(** [mgr.Connect], and what a handle of the service named beacon can do. *)
Class SCM (W : Type) := {
  sm_Connect : W → res ();
  sm_OpenService : W → res ();
  sm_Stop : M W ();                          (* Control(svc.Stop) *)
  sm_Delete : M W ();
  sm_CreateService : string → SvcConfig → list string → M W ();
  sm_SetRecoveryActions : M W ();            (* one restart, five seconds later *)
  sm_SetRecoveryOnNonCrash : M W ();
  sm_Start : M W ();
  sm_Query : W → res svc_state
}.

(** A file's size, and opening one to append. *)
Class LogFiles (W : Type) := {
  lf_Size : string → W → res Z;
  lf_OpenAppend : string → M W ()
}.

Section windows.
  Context {W : Type} `{ClientHost W} `{Processes W} `{SCM W}.
  (** [os.Executable] and [filepath.EvalSymlinks]; the account of --run-as. *)
  Context (self : res string) (resolve : string → res string) (runAsAccount runAsPassword : string).
  (** The two places of the binary, and where the control socket goes. *)
  Context (program_path profile_path log_path : string) (sockets : list string).

Definition win_requireElevation : M W () := λ w,
  (match sm_Connect w with Err e => Err (wrapf "this needs an elevated prompt: " e) | Ok _ => Ok () end, w).

Definition withService (fn : M W ()) : M W () := λ w,
  match sm_Connect w with
  | Err e => (Err e, w)
  | Ok _ =>
      match sm_OpenService w with
      | Err _ => (Err (errorf ("service " +:+ quote winServiceName +:+ " is not installed")), w)
      | Ok _ => fn w
      end
  end.

Definition win_serviceStart : M W () := withService sm_Start.
Definition win_serviceStop : M W () := withService sm_Stop.

Definition logon_right_hint : string :=
  nl +:+ nl +:+ "If this is a logon-rights problem, grant the account the "
  +:+ dq +:+ "Log on as a service" +:+ dq +:+ " right:" +:+ nl
  +:+ "  secpol.msc -> Local Policies -> User Rights Assignment -> Log on as a service".

Definition win_serviceInstall (target : string) : M W () := λ w,
  match sm_Connect w with
  | Err e => (Err e, w)
  | Ok _ =>
      ((if is_ok (sm_OpenService w) then attempt sm_Stop;; attempt sm_Delete;; mret () else mret ());;
       let cfg := mkSvcConfig winDisplayName winDescription
                    runAsAccount (if (runAsAccount =? "")%string then "" else runAsPassword) in
       r ← attempt (sm_CreateService target cfg ["run"]);
       match r with
       | Err e =>
           if negb (runAsAccount =? "")%string
           then mthrow (mkError ("registering the service as " +:+ runAsAccount +:+ " failed: " +:+ err_text e
                                 +:+ logon_right_hint) (err_chain e))
           else mthrow e
       | Ok _ =>
           sm_SetRecoveryActions;;
           attempt sm_SetRecoveryOnNonCrash;;
           mret ()
       end) w
  end.

Definition win_serviceUninstall : M W () := λ w,
  match sm_Connect w with
  | Err e => (Err e, w)
  | Ok _ =>
      match sm_OpenService w with
      | Err _ => (Ok (), w)
      | Ok _ => (attempt sm_Stop;; sm_Delete) w
      end
  end.

Definition win_serviceStatus (w : W) : (svcInfo * option error) * W :=
  match sm_Connect w with
  | Err e => ((mkSvcInfo false false, Some e), w)
  | Ok _ =>
      match sm_OpenService w with
      | Err _ => ((mkSvcInfo false false, None), w)
      | Ok _ =>
          match sm_Query w with
          | Err e => ((mkSvcInfo true false, Some e), w)
          | Ok st => ((mkSvcInfo true (match st with SvcRunning => true | _ => false end), None), w)
          end
      end
  end.

(** ** The per-user task

    A failed run is reported by what it printed. *)
Definition schtasks (args : list string) (complaint : string) (tolerated : string → bool) : M W () := λ w,
  match ps_CombinedOutput "schtasks.exe" args w with
  | ((_, None), w) => (Ok (), w)
  | ((out, Some _), w) =>
      (if tolerated out then Ok () else Err (errorf (complaint +:+ TrimSpace out)), w)
  end.
Definition never (_ : string) : bool := false.

Definition win_userInstall (target : string) : M W () :=
  if (target =? "")%string then mthrow (errorf "no per-user install path: LOCALAPPDATA is not set")
  else
    fs_MkdirAll (filepath_Dir target);;
    copyExecutable self resolve target;;
    schtasks ["/Create"; "/TN"; userTaskName; "/TR"; dq +:+ target +:+ dq +:+ " run"; "/SC"; "ONLOGON";
              "/RL"; "LIMITED"; "/F"] "registering the logon task failed: " never.

Definition win_userUninstall : M W () :=
  schtasks ["/Delete"; "/TN"; userTaskName; "/F"] "removing the logon task failed: "
    (λ out, Contains out "cannot find");;
  (if negb (profile_path =? "")%string then attempt (ps_Remove profile_path);; mret () else mret ()).

Definition win_userStart : M W () := schtasks ["/Run"; "/TN"; userTaskName] "starting the agent failed: " never.
Definition win_userStop : M W () := schtasks ["/End"; "/TN"; userTaskName] "stopping the agent failed: " never.

Definition win_userInstalled (w : W) : bool * W :=
  let '((_, err), w) := ps_CombinedOutput "schtasks.exe" ["/Query"; "/TN"; userTaskName] w in
  (bool_decide (err = None), w).

Definition win_installPlan (cfg : resolved) (target path : string) : string :=
  let c := rv_Config cfg in
  lines_of
    ["would copy     " +:+ target; "would write    " +:+ path;
     "would register service " +:+ quote winServiceName +:+ " (" +:+ winDisplayName +:+ ")";
     "would log to   " +:+ log_path;
     "               start type automatic, restart after 5s on failure";
     "               command: " +:+ target +:+ " run"; "";
     "relay          " +:+ Server c; "agent id       " +:+ AgentID c].

Definition windows : Platform W := {|
  requireElevation := win_requireElevation;
  serviceInstall := win_serviceInstall;
  serviceUninstall := win_serviceUninstall;
  serviceStart := win_serviceStart;
  serviceStop := win_serviceStop;
  serviceStatus := win_serviceStatus;
  userInstall := win_userInstall;
  userUninstall := win_userUninstall;
  userStart := win_userStart;
  userStop := win_userStop;
  userInstalled := win_userInstalled;
  installPath := program_path;
  userInstallPath := profile_path;
  socketPaths := sockets;
  installPlan := win_installPlan
|}.

#[export] Instance windows_honest : HonestStatus (H2 := windows).
Proof.
  intros w info e w'. cbn [serviceStatus windows]. unfold win_serviceStatus.
  destruct (sm_Connect w); [|by intros [= <-]]. destruct (sm_OpenService w); [|by intros [= <-]].
  destruct (sm_Query w); by intros [= <-].
Qed.

(** ** The log file *)
Context `{LogFiles W}.

Definition openServiceLog : M W () :=
  fs_MkdirAll (filepath_Dir log_path);;
  big ← read (λ w, match lf_Size log_path w with Ok n => maxServiceLogBytes <? n | Err _ => false end);
  (if (big : bool) then attempt (ps_Remove (log_path +:+ ".1"));; attempt (ps_Rename log_path (log_path +:+ ".1"));; mret ()
   else mret ());;
  lf_OpenAppend log_path.

(** Whether the process was started by the service manager, and how the service
    ended; [svc_Run] is [svc.Run] with the handler [Execute].  Not being able to
    log does not stop it. *)
Definition runUnderServiceManager (IsWindowsService : res bool) (svc_Run : M W ()) : W → (bool * option error) * W := λ w,
  match IsWindowsService with
  | Err e => ((false, Some e), w)
  | Ok false => ((false, None), w)
  | Ok true =>
      let '(_, w) := openServiceLog w in
      let '(r, w) := svc_Run w in
      ((true, match r with Ok _ => None | Err e => Some e end), w)
  end.

(** ** Restarting *)

(** The manager as it documents itself: a service that is not stopped cannot be
    started, and [Control(svc.Stop)] returns when the service has been told, not
    when it has stopped.  [state] is the service's state in the manager. *)
Class SCMLaws (state : W → svc_state) := {
  sl_start w : state w ≠ Stopped → ∃ e, sm_Start w = (Err e, w);
  sl_query w st : sm_Query w = Ok st → state w = st
}.

(** [beacon restart] gives the service no time: while it is still stopping the
    command's start is refused, and the agent then stays stopped. *)
Theorem windows_restart_does_not_wait state `{!SCMLaws state} w w1 wu :
  win_userInstalled w = (false, wu) → sm_Connect wu = Ok () → sm_OpenService wu = Ok () → sm_Query wu = Ok SvcRunning →
  sm_Stop wu = (Ok (), w1) → state w1 = StopPending → sm_Connect w1 = Ok () → sm_OpenService w1 = Ok () →
  ∃ e, cmdServiceControl (H2 := windows) "restart" w = (Err e, w1).
Proof.
  intros Hu Hc Ho Hq Hs Hst Hc1 Ho1. destruct (sl_start w1) as [e He]; [by rewrite Hst|]. exists e.
  unfold cmdServiceControl. erewrite bind_ok; [|unfold ask; cbn [userInstalled windows]; by rewrite Hu].
  cbn beta iota. erewrite bind_ok; [|cbn [requireElevation windows]; unfold win_requireElevation; by rewrite Hc].
  erewrite bind_ok; [|unfold ask; cbn [serviceStatus windows]; unfold win_serviceStatus; by rewrite Hc, Ho, Hq].
  erewrite bind_ok by reflexivity. cbn [fst Installed Running negb andb].
  change ("restart" =? "start")%string with false. change ("restart" =? "stop")%string with false. cbn [andb].
  assert (service_control (H2 := windows) "restart" true wu = (Err e, w1)) as Hsc.
  { change (service_control (H2 := windows) "restart" true) with (win_serviceStop;; win_serviceStart).
    erewrite bind_ok; [|unfold win_serviceStop, withService; by rewrite Hc, Ho, Hs].
    unfold win_serviceStart, withService. by rewrite Hc1, Ho1. }
  unfold mbind at 1, M_bind at 1. by rewrite Hsc.
Qed.
End windows.

(** ** The handler of the manager's requests *)
Inductive svc_cmd := Interrogate | Stop | Shutdown | OtherCmd.

(** What [Execute] waits for: the agent ending, or a request with the status the
    manager believes in; after a stop, [waited] is whether the agent ended within
    ten seconds. *)
Inductive svc_wake := AgentDone | Request (c : svc_cmd) (current : svc_state) (waited : bool).

(** The statuses sent and whether the agent was told to stop; [None] while the
    handler still waits. *)
Record svc_run := mkSvcRun { sr_statuses : list svc_state; sr_cancelled : bool; sr_exit : option (bool * Z) }.

Fixpoint service_loop (wakes : list svc_wake) (sent : list svc_state) : svc_run :=
  match wakes with
  | [] => mkSvcRun sent false None
  | AgentDone :: _ => mkSvcRun sent true (Some (false, 0))
  | Request Interrogate current _ :: wakes => service_loop wakes (sent ++ [current])
  | Request (Stop | Shutdown) _ _ :: _ => mkSvcRun (sent ++ [StopPending]) true (Some (false, 0))
  | Request OtherCmd _ _ :: wakes => service_loop wakes sent
  end.
Definition Execute (wakes : list svc_wake) : svc_run := service_loop wakes [StartPending; SvcRunning].

Definition answers_of (wakes : list svc_wake) : list svc_state :=
  omap (λ w, match w with Request Interrogate st _ => Some st | _ => None end) wakes.
Definition ends (w : svc_wake) : bool :=
  match w with AgentDone | Request (Stop | Shutdown) _ _ => true | _ => false end.

(** The handler reports that it starts and runs, echoes every interrogation, and
    returns at the first stop, shutdown or end of the agent -- never before --
    announcing a stop it was asked for and always ending the agent. *)
Theorem service_handler_protocol wakes pre w post :
  wakes = pre ++ w :: post → forallb (λ x, negb (ends x)) pre = true → ends w = true →
  Execute wakes = mkSvcRun ([StartPending; SvcRunning] ++ answers_of pre ++
                            match w with AgentDone => [] | _ => [StopPending] end) true (Some (false, 0)).
Proof.
  intros -> Hpre Hw. unfold Execute. generalize ([StartPending; SvcRunning]) as sent.
  induction pre as [|x pre IH]; intros sent; cbn [app forallb service_loop] in *.
  - destruct w as [|[] st b]; try done. cbn. by rewrite app_nil_r.
  - apply andb_true_iff in Hpre as [Hx Hpre]. destruct x as [|[] st b]; try done; rewrite IH by done.
    + cbn. by rewrite <-app_assoc.
    + done.
Qed.

(** ** Witnesses: on the machine of Service.v, with a manager for which a service
    that was just stopped is stopping *)
Module Windows.
Definition state (w : Unix.t) : svc_state :=
  match Unix.running w with Some _ => SvcRunning | None => if Unix.loaded w then StopPending else Stopped end.
#[export] Instance scm : SCM Unix.t := {|
  sm_Connect _ := Ok ();
  sm_OpenService _ := Ok ();
  sm_Stop w := (Ok (), Unix.with_service None (Unix.loaded w) w);
  sm_Delete w := (Ok (), w);
  sm_CreateService _ _ _ w := (Ok (), w);
  sm_SetRecoveryActions w := (Ok (), w);
  sm_SetRecoveryOnNonCrash w := (Ok (), w);
  sm_Start w := match state w with
                | Stopped => (Ok (), Unix.with_service (Some "build") true w)
                | _ => (Err (errorf "An instance of the service is already running."), w)
                end;
  sm_Query w := Ok (state w)
|}.
#[export] Instance scm_laws : SCMLaws state.
Proof.
  split.
  - intros w Hs. cbn. destruct (state w); [done|eauto..].
  - by intros w st [= <-].
Qed.
(** No logon task. *)
#[export] Instance no_task : Processes Unix.t := {|
  ps_CombinedOutput _ _ w := (("ERROR: The system cannot find the file specified.", Some (errorf "exit status 1")), w);
  ps_Geteuid _ := -1;
  ps_Remove p w := (Ok (), w);
  ps_Rename a b w := (Ok (), w);
  ps_Sleep _ w := w
|}.
End Windows.

Section witnesses.
  Import Windows.

Lemma windows_restart_does_not_wait_witness :
  let w := Unix.installed (Some "v1") false in
  ∃ e, cmdServiceControl (H1 := no_task) (H2 := windows (H1 := no_task) (Ok "beacon.exe") Ok "" "" "beacon.exe" "" "" []) "restart" w
       = (Err e, Unix.with_service None true w).
Proof.
  intros w. apply (windows_restart_does_not_wait (H1 := no_task) (Ok "beacon.exe") Ok "" "" "beacon.exe" "" "" [] state w
    (Unix.with_service None true w) w); reflexivity.
Defined.

Lemma service_handler_protocol_witness :
  Execute [Request Interrogate SvcRunning false; Request OtherCmd SvcRunning false; Request Stop SvcRunning true; AgentDone]
  = mkSvcRun [StartPending; SvcRunning; SvcRunning; StopPending] true (Some (false, 0)).
Proof.
  apply (service_handler_protocol _ [Request Interrogate SvcRunning false; Request OtherCmd SvcRunning false]
    (Request Stop SvcRunning true) [AgentDone]); reflexivity.
Defined.
End witnesses.
