(* ===== verification/Panel.v ===== *)
(** * What the commands print (client/ui.go, client/status.go)

    Panels, and the status command.  The terminal -- how wide a text is shown and
    how a style is applied -- is lipgloss, the class [Terminal].  [None] is a
    panic: a slice out of range, or a negative count given to [strings.Repeat]. *)

From Stdlib Require Import Ascii.
From S2P Require Import Prelude GoStrings GoNum GoBase64 Interfaces GoUtf8 Wire.
From S2P Require Import GoNet ClientConfig AgentLoop Updater Service.

Open Scope string_scope.
Open Scope list_scope.
Open Scope Z_scope.

Inductive style := styBorder | styLabel | styValue | styTitle | styDim | styOK | styWarn | styErr.

(** [rune_cap n] is the capacity of the slice a conversion to [n] runes makes. *)
Class Terminal := {
  Width : string → Z;
  Render : style → string → string;
  rune_cap : nat → nat
}.

Definition labelWidth : Z := 10.
Definition minInner : Z := 44.
Definition maxInner : Z := 72.
Definition sidePad : Z := 2.

Definition markDone : string := "✓".
Definition markLive : string := "●".
Definition markIdle : string := "○".
Definition markFail : string := "✗".
Definition markWarn : string := "!".

(** ** Runes *)

(** [[]rune(s)], each rune in its encoding; a byte that is no part of one is
    U+FFFD. *)
Fixpoint runes_from (n : nat) (s : string) : list string :=
  match n, s with
  | O, _ | _, EmptyString => []
  | S n, _ =>
      match rune_len s with
      | Some k => stake k s :: runes_from n (sdrop k s)
      | None => "�" :: runes_from n (sdrop 1 s)
      end
  end.
Definition runes (s : string) : list string := runes_from (String.length s) s.

Fixpoint Repeat_nat (s : string) (n : nat) : string :=
  match n with O => "" | S n => s +:+ Repeat_nat s n end.
(** [strings.Repeat] *)
Definition Repeat (s : string) (n : Z) : option string :=
  if n <? 0 then None else Some (Repeat_nat s (Z.to_nat n)).

Definition NUL : string := String (byte 0) "".
Definition backslash : string := String (byte 92) "".

Definition looksLikePath (s : string) : bool :=
  if HasPrefix s "/" || HasPrefix s backslash then true
  else match s with
       | String c (String colon (String sep _)) =>
           if is_char 58 colon && (is_char 92 sep || is_char 47 sep)
           then let c := Z.lor (val c) 32 in (97 <=? c) && (c <=? 122)
           else false
       | _ => false
       end.

(** ** Numbers *)

(** The unit is a power of 1024, so dividing is exact: [float64(n)] is what is
    scaled, and one decimal is printed to the nearest, ties to even. *)
Fixpoint byte_unit (fuel : nat) (v unit exp : Z) : Z * Z :=
  match fuel with
  | O => (unit, exp)
  | S fuel => if (1024 * unit <=? v) && (exp <? 3) then byte_unit fuel v (unit * 1024) (exp + 1) else (unit, exp)
  end.
Definition unit_letter (exp : Z) : string :=
  if exp =? 0 then "K" else if exp =? 1 then "M" else if exp =? 2 then "G" else "T".

Definition one_decimal (tenths : Z) : string := itoa (tenths / 10) +:+ "." +:+ itoa (tenths mod 10).

Definition humanBytes (n : Z) : string :=
  if n <? 1024 then itoa n +:+ " B"
  else
    let v := round53 n in
    let '(unit, exp) := byte_unit 3 v 1024 0 in
    one_decimal (div_rne (v * 10) unit) +:+ " " +:+ unit_letter exp +:+ "B".

(** [int(d.Seconds())]: the seconds and the fraction are added as floating-point
    numbers, so after some months the sum may round up to the next second. *)
Definition int_Seconds (d : Z) : Z :=
  let bits := 2 ^ Z.max 0 (52 - Z.log2 (d / Second)) in
  div_rne (d * bits) Second / bits.

Definition humanDuration (d : Z) : string :=
  let d := if d <? 0 then 0 else d in
  let sec := int_Seconds d in
  if 86400 <=? sec then itoa (sec / 86400) +:+ "d " +:+ itoa (sec mod 86400 / 3600) +:+ "h"
  else if 3600 <=? sec then itoa (sec / 3600) +:+ "h " +:+ itoa (sec mod 3600 / 60) +:+ "m"
  else if 60 <=? sec then itoa (sec / 60) +:+ "m " +:+ itoa (sec mod 60) +:+ "s"
  else itoa sec +:+ "s".

(** ** Panels *)
Record panel := mkPanel { pn_title : string; pn_right : string; pn_footer : string; pn_rows : list string }.
Definition line (s : string) (p : panel) : panel := mkPanel (pn_title p) (pn_right p) (pn_footer p) (pn_rows p ++ [s]).
Definition blank : panel → panel := line "".
Definition with_footer (f : string) (p : panel) : panel := mkPanel (pn_title p) (pn_right p) f (pn_rows p).

Section panel.
  Context `{Terminal}.

Definition fixed (s : string) (w : Z) : string :=
  if 0 <? w - Width s then s +:+ Repeat_nat " " (Z.to_nat (w - Width s)) else s.
Definition label2col (label : string) : string := fixed label (labelWidth - 1) +:+ " ".

(** [r[:k]] and [r[len(r)-k:]]; between length and capacity a slice shows the
    zero runes behind it. *)
Definition head_runes (k : Z) (r : list string) : option string :=
  let n := Z.of_nat (length r) in
  if k <=? n then Some (sconcat (take (Z.to_nat k) r))
  else if k <=? Z.of_nat (rune_cap (length r)) then Some (sconcat r +:+ Repeat_nat NUL (Z.to_nat (k - n)))
  else None.
Definition tail_runes (k : Z) (r : list string) : option string :=
  let n := Z.of_nat (length r) in
  if k <=? n then Some (sconcat (drop (Z.to_nat (n - k)) r)) else None.

Definition elide (s : string) (w : Z) : option string :=
  if (w <? 4) || (Width s <=? w) then Some s
  else if looksLikePath s then (λ t, "…" +:+ t) <$> tail_runes (w - 1) (runes s)
  else (λ t, t +:+ "…") <$> head_runes (w - 1) (runes s).

Definition kv (label value : string) (p : panel) : option panel :=
  value ← elide value (maxInner - labelWidth);
  Some (line (Render styLabel (label2col label) +:+ Render styValue value) p).

Definition kv2 (l1 v1 l2 v2 : string) (p : panel) : panel :=
  let left := Render styLabel (label2col l1) +:+ Render styValue (fixed v1 14) in
  line (left +:+ Render styLabel (fixed l2 9) +:+ Render styValue v2) p.

Definition statusMark (st : style) (mark state detail : string) (p : panel) : panel :=
  let row := Render st (mark +:+ " " +:+ state) in
  line (if negb (detail =? "")%string
        then row +:+ Repeat_nat " " (Z.to_nat (Z.max 1 (21 - Width row))) +:+ Render styDim detail
        else row) p.
Definition status (st : style) (state detail : string) : panel → panel := statusMark st markLive state detail.

Definition resultPanel (version title mark : string) (st : style) (state detail : string) : panel :=
  blank (statusMark st mark state detail (blank (mkPanel title version "" []))).

(** One border, without its newline. *)
Definition edge_used (left right : string) : Z :=
  (if negb (left =? "")%string then 3 + Width left else 0) + (if negb (right =? "")%string then 3 + Width right else 0).
Definition edge (open_ close_ left right : string) (inner : Z) (leftStyle : style) : string :=
  let total := inner + 2 * sidePad in
  Render styBorder open_
  +:+ (if negb (left =? "")%string then Render styBorder "─ " +:+ Render leftStyle left +:+ " " else "")
  +:+ Render styBorder (Repeat_nat "─" (Z.to_nat (Z.max 1 (total - edge_used left right))))
  +:+ (if negb (right =? "")%string then " " +:+ Render styDim right +:+ Render styBorder " ─" else "")
  +:+ Render styBorder close_.

Definition panel_inner (p : panel) : Z :=
  let inner := foldl (λ n r, Z.max n (Width r)) minInner (pn_rows p) in
  let inner := Z.max inner (Width (pn_title p) + Width (pn_right p) + 6 - 2 * sidePad) in
  let inner := Z.max inner (Width (pn_footer p) + 3 - 2 * sidePad) in
  Z.min inner maxInner.

Definition render_row (inner : Z) (r : string) : option string :=
  pad ← Repeat " " (inner - Width r + sidePad);
  Some (Render styBorder "│" +:+ Repeat_nat " " (Z.to_nat sidePad) +:+ r +:+ pad +:+ Render styBorder "│").

(** The lines of [render]; each is followed by a newline. *)
Definition render_lines (p : panel) : option (list string) :=
  footer ← elide (pn_footer p) maxInner;
  let p := with_footer footer p in
  let inner := panel_inner p in
  body ← mapM (render_row inner) (pn_rows p);
  Some (edge "╭" "╮" (pn_title p) (pn_right p) inner styTitle :: body ++
        [edge "╰" "╯" (pn_footer p) "" inner styDim]).
Definition render (p : panel) : option string := (λ ls, sconcat ((λ l, l +:+ nl) <$> ls)) <$> render_lines p.

Definition errorPanel (version command : string) (e : error) : option string :=
  p ← kv "error" (err_text e) (resultPanel version command markFail styErr "FAILED" "");
  render (blank p).
End panel.

(** ** beacon status *)
Section status_command.
  Context `{Terminal} (version : string) (ms : Z → string).

Definition rttText (rtt : option Z) : string := match rtt with None => "—" | Some ns => ms ns +:+ " ms" end.

(** [st] is what [fetchStatus] returned; [svc] what the service manager says,
    asked only when nothing answered; [cfg] is [loadConfig(nil)]. *)
Definition status_panel (st : res statusPayload) (svc : svcInfo * option error) (now : Z)
    (sockets : list string) (cfg : res resolved) : option panel :=
  let p := blank (mkPanel "beacon" version "" []) in
  let offline state detail st more :=
    let p := blank (status styWarn state detail p) in
    p ← kv "agent" (sp_AgentID st) p;
    p ← kv "relay" (sp_Server st) p;
    p ← more p;
    if negb (sp_LastError st =? "")%string then kv "error" (sp_LastError st) p else Some p in
  p ← match st with
      | Ok st =>
          if sp_Connected st then
            let p := blank (status styOK "CONNECTED" (humanDuration (now - sp_Since st)) p) in
            p ← kv "agent" (sp_AgentID st) p;
            p ← kv "relay" (sp_Server st) p;
            kv "traffic" (humanBytes (sp_BytesIn st) +:+ " in / " +:+ humanBytes (sp_BytesOut st) +:+ " out")
              (kv2 "rtt" (rttText (sp_RTTNanos st)) "streams" (itoa (sp_Streams st)) p)
          else
            let detail := "offline for " +:+ humanDuration (now - sp_Since st) in
            if sp_Connecting st then offline "CONNECTING" detail st (kv "next try" "in progress")
            else offline "RECONNECTING" detail st
                   (λ p, match sp_NextRetry st with
                         | Some t => kv "next try" ("in " +:+ humanDuration (t - now)) p
                         | None => Some p
                         end)
      | Err _ =>
          if bool_decide (snd svc = None) && Installed (fst svc) && Running (fst svc) then
            p ← kv "checked" (default "" (head sockets)) (blank (status styErr "NOT RESPONDING" "service is running" p));
            kv "hint" "beacon restart, then check the service log" p
          else if bool_decide (snd svc = None) && Installed (fst svc) then
            kv "start it" "beacon start" (blank (status styDim "NOT RUNNING" "service installed, stopped" p))
          else
            p ← kv "install" "beacon install --server https://relay.example.com"
                  (blank (status styDim "NOT INSTALLED" "" p));
            kv "or run" "beacon run --server https://relay.example.com" p
      end;
  let footer :=
    match st, cfg with
    | Ok st, cfg => if negb (sp_ConfigPath st =? "")%string then sp_ConfigPath st
                    else match cfg with Ok r => if rv_exists r then rv_path r else "no config file" | Err _ => "no config file" end
    | Err _, Ok r => if rv_exists r then rv_path r else "no config file"
    | Err _, Err _ => "no config file"
    end in
  Some (with_footer footer (blank p)).

(** What is printed and the exit status; [None] is a panic. *)
Definition cmdStatus (st : res statusPayload) (svc : svcInfo * option error) (now : Z)
    (sockets : list string) (cfg : res resolved) : option (string * Z) :=
  p ← status_panel st svc now sockets cfg;
  out ← render p;
  Some (out, match st with Ok st => if sp_Connected st then 0 else 1 | Err _ => 1 end).
End status_command.

(** ** What the terminal does

    [text s] says that [s] is made of whole characters and style sequences, so
    that what follows it is not drawn into it; on such text widths add up, and a
    style takes no room. *)
Class TerminalLaws `{Terminal} (text : string → Prop) := {
  tl_empty : text "" ∧ Width "" = 0;
  tl_app a b : text a → text b → text (a +:+ b) ∧ Width (a +:+ b) = Width a + Width b;
  tl_render st s : text s → text (Render st s) ∧ Width (Render st s) = Width s;
  tl_drawn s : s ∈ [" "; "─"; "│"; "╭"; "╮"; "╰"; "╯"; "…"] → text s ∧ Width s = 1;
  tl_nonneg s : 0 ≤ Width s;
  tl_cap n : (n ≤ rune_cap n)%nat
}.

Section box.
  Context `{TerminalLaws text}.

(** [text] of a known width. *)
Definition shown (s : string) (n : Z) : Prop := text s ∧ Width s = n.

Lemma shown_app a b n m : shown a n → shown b m → shown (a +:+ b) (n + m).
Proof. intros [Ha <-] [Hb <-]. by apply tl_app. Qed.
Lemma shown_render st s n : shown s n → shown (Render st s) n.
Proof. intros [Hs <-]. by apply tl_render. Qed.
Lemma shown_drawn s : s ∈ [" "; "─"; "│"; "╭"; "╮"; "╰"; "╯"; "…"] → shown s 1.
Proof. apply tl_drawn. Qed.
Lemma shown_repeat s n : shown s 1 → shown (Repeat_nat s n) (Z.of_nat n).
Proof.
  intros Hs. induction n as [|n IH]; cbn [Repeat_nat]; [apply tl_empty|].
  replace (Z.of_nat (S n)) with (1 + Z.of_nat n) by lia. by apply shown_app.
Qed.

Lemma shown_edge open_ close_ left right inner st :
  shown open_ 1 → shown close_ 1 → text left → text right →
  let total := inner + 2 * sidePad in
  shown (edge open_ close_ left right inner st)
    (if edge_used left right <? total then total + 2 else edge_used left right + 3).
Proof.
  intros Ho Hc Hl Hr total. unfold edge. fold total.
  assert (shown " " 1 ∧ shown "─" 1) as [Hsp Hd] by (split; apply shown_drawn; repeat constructor).
  assert (shown "─ " 2) as Hl2 by (apply (shown_app "─" " " 1 1); done).
  assert (shown " ─" 2) as Hr2 by (apply (shown_app " " "─" 1 1); done).
  replace (if edge_used left right <? total then total + 2 else edge_used left right + 3)
    with (1 + ((if negb (left =? "")%string then 3 + Width left else 0)
          + (Z.max 1 (total - edge_used left right)
          + ((if negb (right =? "")%string then 3 + Width right else 0) + 1)))).
  2: { unfold edge_used. destruct (Z.ltb_spec ((if negb (left =? "")%string then 3 + Width left else 0)
         + (if negb (right =? "")%string then 3 + Width right else 0)) total); lia. }
  apply shown_app; [by apply shown_render|]. apply shown_app.
  { destruct (negb _); [|apply tl_empty]. replace (3 + Width left) with (2 + (Width left + 1)) by lia.
    apply shown_app; [by apply shown_render|]. by apply shown_app; [apply shown_render|]. }
  apply shown_app.
  { apply shown_render. rewrite <-(Z2Nat.id (Z.max 1 _)) at 2 by lia. by apply shown_repeat. }
  apply shown_app; [|by apply shown_render]. destruct (negb _); [|apply tl_empty].
  replace (3 + Width right) with (1 + (Width right + 2)) by lia.
  apply shown_app; [done|]. by apply shown_app; apply shown_render.
Qed.

Lemma render_row_spec inner r :
  text r →
  match render_row inner r with
  | Some l => shown l (inner + 2 * sidePad + 2) ∧ Width r ≤ inner + sidePad
  | None => inner + sidePad < Width r
  end.
Proof.
  intros Hr. unfold render_row, Repeat, sidePad.
  destruct (Z.ltb_spec (inner - Width r + 2) 0); cbn [mbind option_bind]; [lia|]. split; [|lia].
  assert (shown " " 1 ∧ shown "│" 1) as [Hsp Hb] by (split; apply shown_drawn; repeat constructor).
  replace (inner + 2 * 2 + 2) with (1 + (2 + (Width r + ((inner - Width r + 2) + 1)))) by lia.
  apply shown_app; [by apply shown_render|]. apply shown_app; [by apply (shown_repeat " " 2)|].
  apply shown_app; [done|]. apply shown_app; [|by apply shown_render].
  rewrite <-(Z2Nat.id (inner - Width r + 2)) at 2 by lia. by apply shown_repeat.
Qed.

(** C40: A panel is a box.  Every row has the same width; the two borders have it too
    unless their text fills them, in which case a border is longer than the box.
    And it is drawn at all only when no row is more than two columns too wide. *)
Theorem panel_is_a_box p lines :
  text (pn_title p) → text (pn_right p) → Forall text (pn_rows p) →
  (∀ f, elide (pn_footer p) maxInner = Some f → text f) →
  render_lines p = Some lines →
  ∃ footer top body bottom, elide (pn_footer p) maxInner = Some footer ∧ lines = top :: body ++ [bottom] ∧
    let total := panel_inner (with_footer footer p) + 2 * sidePad in
    length body = length (pn_rows p) ∧ Forall (λ l, Width l = total + 2) body ∧
    Width top = (let used := edge_used (pn_title p) (pn_right p) in if used <? total then total + 2 else used + 3) ∧
    Width bottom = (let used := edge_used footer "" in if used <? total then total + 2 else used + 3) ∧
    Forall (λ r, Width r ≤ total - sidePad) (pn_rows p).
Proof.
  intros Ht Hr Hrows Hf. unfold render_lines.
  destruct (elide (pn_footer p) maxInner) as [footer|] eqn:Ef; [|done]. cbn [mbind option_bind].
  destruct (mapM _ _) as [body|] eqn:Eb; [|done]. cbn [mbind option_bind]. intros [= <-].
  cbn [with_footer pn_title pn_right pn_footer pn_rows] in *. exists footer. eexists _, body, _.
  split; [done|]. split; [reflexivity|]. cbn zeta.
  apply mapM_Some in Eb. specialize (Hf _ eq_refl).
  assert (∀ c, c ∈ ["╭"; "╮"; "╰"; "╯"] → shown c 1) as Hc.
  { intros c Hin. apply shown_drawn. rewrite !elem_of_cons in *. tauto. }
  split_and!.
  - symmetry. by eapply Forall2_length.
  - clear Ht Hr Hf Ef. induction Eb as [|r l rows body Hrl _ IH]; [constructor|]. inversion_clear Hrows.
    constructor; [|by apply IH]. pose proof (render_row_spec (panel_inner (with_footer footer p)) r) as Hs.
    rewrite Hrl in Hs. destruct Hs as [[_ ->] _]; [done|]. lia.
  - apply shown_edge; try done; apply Hc; repeat constructor.
  - apply (shown_edge _ _ footer "" _ styDim); try done; [apply Hc; repeat constructor..|].
    apply (tl_empty (text := text)).
  - clear Ht Hr Hf Ef. induction Eb as [|r l rows body Hrl _ IH]; [constructor|]. inversion_clear Hrows.
    constructor; [|by apply IH]. pose proof (render_row_spec (panel_inner (with_footer footer p)) r) as Hs.
    rewrite Hrl in Hs. destruct Hs as [_ Hs]; [done|]. unfold sidePad in *. lia.
Qed.

(** Text in which every rune takes one column. *)
Definition narrow (s : string) : Prop := Forall (λ r, shown r 1) (runes s) ∧ sconcat (runes s) = s.

Lemma shown_runes rs : Forall (λ r, shown r 1) rs → shown (sconcat rs) (Z.of_nat (length rs)).
Proof.
  induction 1 as [|r rs Hr _ IH]; cbn [sconcat]; [apply tl_empty|].
  replace (Z.of_nat (length (r :: rs))) with (1 + Z.of_nat (length rs)) by (cbn [length]; lia). by apply shown_app.
Qed.

(** Text of one column a rune is cut to fit: what fits is left alone; of a path
    the end is kept, of anything else the beginning. *)
Theorem elide_fits s w :
  4 ≤ w → narrow s →
  ∃ t, elide s w = Some t ∧ shown t (Z.min (Width s) w) ∧
    (Width s ≤ w → t = s) ∧
    (w < Width s → if looksLikePath s then ∃ a b, s = a +:+ b ∧ t = "…" +:+ b ∧ Width b = w - 1
                   else ∃ a b, s = a +:+ b ∧ t = a +:+ "…" ∧ Width a = w - 1).
Proof.
  intros Hw [Hr Hs]. unfold elide. rewrite (proj2 (Z.ltb_ge w 4)) by lia. cbn [orb].
  pose proof (shown_runes _ Hr) as [Htext Hwidth]. rewrite Hs in Htext, Hwidth.
  destruct (Z.leb_spec (Width s) w) as [Hle|Hgt].
  { exists s. split_and!; [done|split; [done|lia]|done|lia]. }
  assert (shown "…" 1) as Hdot by (apply shown_drawn; repeat constructor).
  rewrite (Z.min_r _ w) by lia. set (rs := runes s) in *.
  destruct (looksLikePath s); unfold tail_runes, head_runes; rewrite (proj2 (Z.leb_le _ _)) by lia; cbn [fmap option_fmap option_map].
  - set (k := Z.to_nat (Z.of_nat (length rs) - (w - 1))).
    assert (shown (sconcat (drop k rs)) (w - 1)) as Hd.
    { replace (w - 1) with (Z.of_nat (length (drop k rs))) by (rewrite length_drop; lia).
      by apply shown_runes, Forall_drop. }
    eexists. split; [done|]. split_and!; [|lia|].
    + replace w with (1 + (w - 1)) by lia. by apply shown_app.
    + intros _. exists (sconcat (take k rs)), (sconcat (drop k rs)).
      split_and!; [by rewrite <-sconcat_app, take_drop|done|apply Hd].
  - set (k := Z.to_nat (w - 1)).
    assert (shown (sconcat (take k rs)) (w - 1)) as Hd.
    { replace (w - 1) with (Z.of_nat (length (take k rs))) by (rewrite length_take; lia).
      by apply shown_runes, Forall_take. }
    eexists. split; [done|]. split_and!; [|lia|].
    + replace w with ((w - 1) + 1) by lia. by apply shown_app.
    + intros _. exists (sconcat (take k rs)), (sconcat (drop k rs)).
      split_and!; [by rewrite <-sconcat_app, take_drop|done|apply Hd].
Qed.
End box.

(** ** Numbers *)

(** Up to 97 days the seconds of a duration are the whole ones. *)
Lemma int_Seconds_exact d : 0 ≤ d → d / Second < 2 ^ 23 → int_Seconds d = d / Second.
Proof.
  intros Hd Hs. unfold int_Seconds. set (q := d / Second) in *.
  assert (0 ≤ q) as Hq by (apply Z.div_pos; done).
  assert (Z.log2 q ≤ 22) as Hl.
  { destruct (Z.eq_dec q 0) as [->|]; [done|]. assert (Z.log2 q < 23) by (apply Z.log2_lt_pow2; lia). lia. }
  set (bits := 2 ^ Z.max 0 (52 - Z.log2 q)).
  assert (2 ^ 30 ≤ bits) as Hb by (apply Z.pow_le_mono_r; lia).
  pose proof (Z.div_mod d Second ltac:(done)) as Hdm. fold q in Hdm. pose proof (Z.mod_pos_bound d Second ltac:(done)) as Hm.
  change (2 ^ 30) with 1073741824 in Hb. change Second with 1000000000 in *.
  symmetry. apply (Z.div_unique_pos _ _ _ (div_rne (d * bits) 1000000000 - q * bits)); [|lia].
  assert (q * bits ≤ div_rne (d * bits) 1000000000) by (apply div_rne_lower; nia).
  assert (div_rne (d * bits) 1000000000 ≤ (q + 1) * bits - 1) by (apply div_rne_upper; nia). lia.
Qed.

Lemma byte_unit_spec fuel v exp unit exp' :
  0 ≤ exp → byte_unit fuel v (1024 ^ (exp + 1)) exp = (unit, exp') → 1024 ^ (exp + 1) ≤ v →
  unit = 1024 ^ (exp' + 1) ∧ exp ≤ exp' ∧ unit ≤ v.
Proof.
  revert exp. induction fuel as [|fuel IH]; intros exp He; cbn [byte_unit]; [intros [= <- <-]; lia|].
  destruct (_ && _) eqn:E; [|intros [= <- <-]; lia]. bool_prop.
  replace (1024 ^ (exp + 1) * 1024) with (1024 ^ (exp + 1 + 1)) by (rewrite (Z.pow_add_r _ (exp + 1)); lia).
  intros Hr _. apply IH in Hr; [lia..|]. rewrite (Z.pow_add_r _ (exp + 1)) by lia. lia.
Qed.

Lemma div_rne_near p q : 0 < q → 2 * Z.abs (div_rne p q * q - p) ≤ q.
Proof.
  intros Hq. pose proof (Z.div_mod p q ltac:(lia)). pose proof (Z.mod_pos_bound p q Hq).
  unfold div_rne. destruct (Z.compare_spec (2 * (p mod q)) q); [destruct (Z.even _)|..]; nia.
Qed.

(** The figure printed for a number of bytes is the nearest tenth of its unit:
    twenty times off by at most one unit. *)
Theorem human_bytes_close n :
  1024 ≤ n ≤ 2 ^ 53 →
  ∃ tenths exp, humanBytes n = one_decimal tenths +:+ " " +:+ unit_letter exp +:+ "B" ∧ 0 ≤ exp ∧
    let unit := 1024 ^ (exp + 1) in unit ≤ n ∧ 2 * Z.abs (tenths * unit - 10 * n) ≤ unit.
Proof.
  intros Hn. unfold humanBytes. rewrite (proj2 (Z.ltb_ge n 1024)) by lia.
  assert (round53 n = n) as ->.
  { unfold round53. destruct (Z.eq_dec n (2 ^ 53)) as [->|]; [reflexivity|].
    assert (Z.log2 n < 53) by (apply Z.log2_lt_pow2; lia). rewrite Z.max_l by lia.
    change (2 ^ 0) with 1. rewrite <-(Z.mul_1_r n) at 1. rewrite div_rne_exact by lia. lia. }
  destruct (byte_unit 3 n 1024 0) as [unit exp] eqn:E. eexists _, exp. split; [done|].
  destruct (byte_unit_spec 3 n 0 unit exp) as (-> & ? & ?); [lia|exact E|lia|]. cbn zeta.
  split_and!; [done..|]. pose proof (div_rne_near (n * 10) (1024 ^ (exp + 1)) ltac:(apply Z.pow_pos_nonneg; lia)). lia.
Qed.

(** ** Witnesses: a terminal without colours, two columns for the wide scripts *)
Module Plain.
Definition columns (c : ascii) : Z :=
  if cont 128 191 c then 0 else if (228 <=? val c) && (val c <=? 237) then 2 else 1.
Fixpoint width (s : string) : Z := match s with EmptyString => 0 | String c s => columns c + width s end.
#[export] Instance terminal : Terminal := {| Width := width; Render _ s := s; rune_cap n := n |}.

Lemma width_app a b : width (a +:+ b) = width a + width b.
Proof. induction a as [|c a IH]; [done|]. rewrite sapp_cons. cbn [width]. lia. Qed.
Lemma columns_nonneg c : 0 ≤ columns c.
Proof. unfold columns. destruct (cont _ _ _); [lia|]. destruct (_ && _); lia. Qed.

#[export] Instance laws : TerminalLaws (λ _, True).
Proof.
  split; cbn; try done.
  - intros a b _ _. by rewrite width_app.
  - intros s Hs. rewrite !elem_of_cons in Hs.
    repeat (destruct Hs as [->|Hs]; [split; [done|vm_compute; reflexivity]|]). by apply elem_of_nil in Hs.
  - intros s. induction s as [|c s IH]; cbn [width]; [lia|]. pose proof (columns_nonneg c). lia.
Qed.
End Plain.

Section witnesses.
  Import Plain.

Definition mac_config : string := "/Users/somebody/Library/Application Support/beacon/config.json".
Definition running_status : statusPayload :=
  mkStatus "v1" "lab-1" "https://relay" mac_config 7 0 true false 0 (Some 1500000) 2 1536 2048 "" None.
Definition status_box : option panel :=
  status_panel "v1" itoa (Ok running_status) (mkSvcInfo false false, None) (90 * Second) [] (Err ErrorEOF).

Lemma panel_is_a_box_witness :
  ∃ p lines, status_box = Some p ∧ render_lines p = Some lines ∧
    ∃ footer top body bottom, elide (pn_footer p) maxInner = Some footer ∧ lines = top :: body ++ [bottom] ∧
    let total := panel_inner (with_footer footer p) + 2 * sidePad in
    length body = length (pn_rows p) ∧ Forall (λ l, Width l = total + 2) body ∧
    Width top = (let used := edge_used (pn_title p) (pn_right p) in if used <? total then total + 2 else used + 3) ∧
    Width bottom = (let used := edge_used footer "" in if used <? total then total + 2 else used + 3) ∧
    Forall (λ r, Width r ≤ total - sidePad) (pn_rows p).
Proof.
  destruct status_box as [p|] eqn:E; [|vm_compute in E; discriminate].
  destruct (render_lines p) as [lines|] eqn:El.
  - exists p, lines. split; [done|]. split; [done|].
    apply (panel_is_a_box (text := λ _, True) p lines); [exact I|exact I|by apply Forall_true|done|exact El].
  - vm_compute in E. injection E as <-. vm_compute in El. discriminate.
Defined.

Lemma elide_fits_witness :
  ∃ t, elide mac_config 20 = Some t ∧ shown (text := λ _, True) t (Z.min (Width mac_config) 20) ∧
    (Width mac_config ≤ 20 → t = mac_config) ∧
    (20 < Width mac_config → if looksLikePath mac_config
       then ∃ a b, mac_config = a +:+ b ∧ t = "…" +:+ b ∧ Width b = 20 - 1
       else ∃ a b, mac_config = a +:+ b ∧ t = a +:+ "…" ∧ Width a = 20 - 1).
Proof.
  apply (elide_fits mac_config 20); [lia|]. split; [|vm_compute; reflexivity].
  apply Forall_forall. intros r Hr. split; [done|].
  assert (forallb (λ r, Width r =? 1) (runes mac_config) = true) as Ha by (vm_compute; reflexivity).
  rewrite forallb_forall in Ha. apply Z.eqb_eq, Ha. by apply list_elem_of_In.
Defined.

Lemma human_bytes_close_witness :
  ∃ tenths exp, humanBytes 1536 = one_decimal tenths +:+ " " +:+ unit_letter exp +:+ "B" ∧ 0 ≤ exp ∧
    let unit := 1024 ^ (exp + 1) in unit ≤ 1536 ∧ 2 * Z.abs (tenths * unit - 10 * 1536) ≤ unit.
Proof. apply (human_bytes_close 1536). lia. Defined.

(** The status panel of a machine whose configuration has a long path: the rows
    are narrower than the footer, and the bottom border is one column longer than
    the box it closes. *)
Definition widths (p : option panel) : list Z :=
  match p with
  | Some p => match render_lines p with Some ls => map Width ls | None => [] end
  | None => []
  end.
Lemma long_footer_breaks_the_box : widths status_box = repeat 67 9 ++ [68].
Proof. vm_compute. reflexivity. Qed.

(** An error in a wide script: forty characters that need eighty columns.  The
    slice that should shorten them reaches past their end, and the command
    panics instead of reporting. *)
Lemma wide_error_panics : errorPanel "v1" "status" (errorf (Repeat_nat "错" 40)) = None.
Proof. vm_compute. reflexivity. Qed.
End witnesses.
