(* ===== verification/SSHServer.v ===== *)
(** * The embedded ssh server (client/sshserver.go, client/sshshell_unix.go,
    client/sshshell_windows.go, client/wsl.go, client/wsl_windows.go,
    client/wsl_other.go)

    Which forwards are allowed, what a session runs, and the life of the host
    key.  The ssh protocol itself is gliderlabs/ssh: a session is what it hands
    to the handler, and the handler's answer is the program it starts. *)

From Stdlib Require Import Ascii.
From S2P Require Import Prelude GoStrings GoNum GoBase64 Interfaces GoNet Host Mux.
From S2P Require Import ClientURLs ClientConfig.

Open Scope string_scope.
Open Scope list_scope.
Open Scope Z_scope.

(** ** Forwards *)

(** [net.ParseIP], its answer as an address with the mapped form undone, and
    [IP.IsLoopback]. *)
Definition ParseIP (s : string) : option Addr :=
  a ← ParseAddr s;
  if (ad_zone a =? "")%string then Some (Unmap a) else None.
Definition IsLoopback (a : Addr) : bool :=
  if ad_is4 a then Z.shiftr (ad_bits a) 24 =? 127 else ad_bits a =? 1.

Definition isLoopbackHost (host : string) : bool :=
  if EqualFold host "localhost" then true
  else match ParseIP host with None => false | Some ip => IsLoopback ip end.

(** The [LocalPortForwardingCallback] of the server. *)
Definition allowForward (host : string) (port : Z) : bool := if isLoopbackHost host then true else false.

(** ** What a session runs *)
Record wslState := mkWSL { wsl_Status : string; wsl_Detail : string; wsl_Distros : list string }.
Definition usable (w : wslState) : bool := (wsl_Status w =? "available")%string.

(** How [wsl.exe -l -q] ends: output, an exit status, no such program, or the
    five seconds running out. *)
Inductive wsl_list := WOutput (out : string) | WExit | WMissing | WTimeout.

Definition wsl_timeout : string := "wsl.exe did not answer within five seconds".
Definition wsl_missing : string := "wsl.exe is not installed on this machine".
Definition wsl_refused : string :=
  "wsl.exe refused this context. WSL distributions belong to a user account, and this agent is most likely "
  +:+ "running as a service under LocalSystem, which has none.".
Definition wsl_empty : string :=
  "wsl.exe answered but listed no distributions, which is what a service account sees: they are registered per user.".

Definition distros (out : string) : list string :=
  filter (λ n, n ≠ "") (TrimSpace <$> Split (ReplaceChar out 0 "") 10).

Definition detectWSL_windows (l : wsl_list) : wslState :=
  match l with
  | WTimeout => mkWSL "unavailable" wsl_timeout []
  | WMissing => mkWSL "absent" wsl_missing []
  | WExit => mkWSL "unreachable" wsl_refused []
  | WOutput out =>
      match distros out with
      | [] => mkWSL "unreachable" wsl_empty []
      | ds => mkWSL "available" "" ds
      end
  end.

Definition wslShell (distro : string) : string * list string :=
  if (distro =? "")%string then ("wsl.exe", []) else ("wsl.exe", ["-d"; distro]).

(** A session as the library hands it over. *)
Record ssh_session := mkSession {
  ss_User : string;
  ss_RawCommand : string;
  ss_Environ : list string;
  ss_Pty : option (string * Z * Z)             (* TERM, columns, rows *)
}.

(** The program it becomes: on a terminal, with the environment it adds and the
    first window size, or on plain pipes; or a refusal, which exits with 1. *)
Inductive launch :=
  | OnPTY (name : string) (args env : list string) (size : option (Z * Z))
  | OnPipes (name : string) (args : list string)
  | Refused (msg : string).

Section session.
  (** The platform's two shells, and what it knows of WSL. *)
  Context (interactiveShell : string * list string) (commandShell : string → string * list string)
    (wsl : wslState).

Definition shellFor (command : string) : string * list string :=
  if negb (TrimSpace command =? "")%string then commandShell command else interactiveShell.

Definition serveSession (s : ssh_session) (name : string) (args : list string) : launch :=
  match ss_Pty s with
  | None => OnPipes name args
  | Some (term, cols, rows) =>
      OnPTY name args (ss_Environ s ++ if negb (term =? "")%string then ["TERM=" +:+ term] else [])
        (if 0 <? cols then Some (cols mod 2 ^ 16, rows mod 2 ^ 16) else None)
  end.

Definition serveWSL (s : ssh_session) : launch :=
  if negb (usable wsl) then
    Refused ("WSL is not available through this agent: " +:+ wsl_Detail wsl +:+ cr +:+ nl
             +:+ if (wsl_Status wsl =? "unreachable")%string
                 then "Run the agent in a user session, or install the service under the account that owns the distribution."
                      +:+ cr +:+ nl
                 else "")
  else
    let '(name, args) := wslShell "" in
    let cmd := TrimSpace (ss_RawCommand s) in
    serveSession s name (args ++ if negb (cmd =? "")%string then ["--"; "sh"; "-c"; cmd] else []).

Definition sessionHandler (s : ssh_session) : launch :=
  if (ss_User s =? "wsl")%string then serveWSL s
  else let '(name, args) := shellFor (ss_RawCommand s) in serveSession s name args.
End session.

(** The shells of the two platforms. *)
Definition unix_interactiveShell (env : gmap string string) : string * list string :=
  let shell := default "" (env !! "SHELL") in
  ((if (shell =? "")%string then "/bin/sh" else shell), ["-l"]).
Definition unix_commandShell (command : string) : string * list string := ("/bin/sh", ["-c"; command]).
Definition windows_interactiveShell (windowsShell : string) : string * list string := (windowsShell, []).
Definition windows_commandShell (command : string) : string * list string := ("cmd.exe", ["/c"; command]).
(** client/wsl_other.go *)
Definition detectWSL_other : wslState := mkWSL "absent" "WSL exists only on Windows" [].

(** How a command ended, and the status the client is told. *)
Inductive run_end := Clean | ExitError (code : Z) | OtherError.
Definition exitCodeOf (e : run_end) : Z := match e with Clean => 0 | ExitError c => c | OtherError => 1 end.

(** ** The host key

    [new_signer] is [ssh.NewSignerFromKey] on a private key; the server is the
    key it was built with. *)
Definition set_SSHHostKey v c := mkConfig (Server c) (AgentID c) (CAFile c) (Token c) (Username c) (Session c)
  (AgentKey c) (Assertion c) v (AutoUpdate c) (Services c).

Section host_key.
  Context {W : Type} `{ClientHost W} `{JSON Config} (sr : Surroundings) (new_signer : string → res string).

(** Failing to persist is only logged. *)
Definition persistHostKey (key : string) : W → W := λ w,
  match readConfigFile (configPath sr w) w with
  | Err _ => w
  | Ok (stored, _) => (saveConfig sr (set_SSHHostKey key stored) w).2
  end.

(** [gen] is what [ed25519.GenerateKey] would return. *)
Definition hostKey (gen : res string) (cfg : Config) : M W string := λ w,
  match (if (SSHHostKey cfg =? "")%string then
           match gen with
           | Err e => (Err e, w)
           | Ok priv => let key := std_encode priv in (Ok (set_SSHHostKey key cfg), persistHostKey key w)
           end
         else (Ok cfg, w)) with
  | (Err e, w) => (Err e, w)
  | (Ok cfg, w) =>
      (match std_decode (SSHHostKey cfg) with
       | Some raw => if len raw =? PrivateKeySize then new_signer raw
                     else Err (errorf "the stored ssh host key is unusable")
       | None => Err (errorf "the stored ssh host key is unusable")
       end, w)
  end.

(** The process's server and the machine. *)
Definition embeddedSSH (gen : res string) (cfg : Config) (st : option string * W) : res string * (option string * W) :=
  match fst st with
  | Some srv => (Ok srv, st)
  | None =>
      match hostKey gen cfg (snd st) with
      | (Err e, w) => (Err e, (None, w))
      | (Ok signer, w) => (Ok signer, (Some signer, w))
      end
  end.

(** One forward stream that asks for ssh: the server that takes the connection. *)
Definition serveEmbeddedSSH (gen : res string) (st : option string * W) : res string * (option string * W) :=
  match loadConfig sr [] (snd st) with
  | Err e => (Err e, st)
  | Ok r => embeddedSSH gen (rv_Config r) st
  end.

(** ** The key stays *)
Context `{!FileSystemLaws W} `{!ClientHostLaws} {wf : Config → Prop} `{!SettingsCodec wf}.

Lemma loadConfig_carried flags w c :
  readConfigFile (configPath sr w) w = Ok (c, true) →
  ∃ r, loadConfig sr flags w = Ok r ∧ carried (rv_Config r) = carried c.
Proof.
  intros Hr. unfold loadConfig. rewrite Hr. cbn [mbind res_bind]. eexists. split; [reflexivity|].
  by rewrite carried_flags, carried_env, carried_file.
Qed.

Lemma carried_host a b : carried a = carried b → SSHHostKey a = SSHHostKey b.
Proof. unfold carried. congruence. Qed.

Lemma hostKey_stored gen cfg w priv :
  SSHHostKey cfg = std_encode priv → len priv = PrivateKeySize → hostKey gen cfg w = (new_signer priv, w).
Proof.
  intros Hk Hl. assert (std_encode priv ≠ "") as Hne.
  { intros He. apply (f_equal std_decode) in He. rewrite std_decode_encode in He. injection He as ->. done. }
  unfold hostKey. rewrite Hk. rewrite (proj2 (String.eqb_neq _ _) Hne), Hk, std_decode_encode.
  by rewrite Hl, Z.eqb_refl.
Qed.

(** C34: The first connection to a machine without a host key makes one and writes it
    to the configuration file -- to it and nothing else: what the environment or
    the defaults had put into the running configuration stays out of the file.
    From then on, and in every later process, the server has that key. *)
Theorem host_key_survives_restart gen priv stored ex w srv st' path :
  readConfigFile (configPath sr w) w = Ok (stored, ex) → SSHHostKey stored = "" →
  gen = Ok priv → len priv = PrivateKeySize → wf (set_SSHHostKey (std_encode priv) stored) →
  fst (saveConfig sr (set_SSHHostKey (std_encode priv) stored) w) = Ok path → configPath sr (snd st') = path →
  serveEmbeddedSSH gen (None, w) = (Ok srv, st') →
  readConfigFile path (snd st') = Ok (set_SSHHostKey (std_encode priv) stored, true) ∧
  ∀ gen', serveEmbeddedSSH gen' (None, snd st') = (Ok srv, st') ∧ serveEmbeddedSSH gen' st' = (Ok srv, st').
Proof.
  intros Hr Hk -> Hlen Hwf Hs Hp Hrun. unfold serveEmbeddedSSH in Hrun. cbn [snd] in Hrun.
  assert (∃ r, loadConfig sr [] w = Ok r ∧ SSHHostKey (rv_Config r) = "") as (r & Hl & Hrk).
  { destruct ex; [destruct (loadConfig_carried [] w stored Hr) as (r & Hl & Hc)|].
    - exists r. split; [done|]. by rewrite (carried_host _ _ Hc).
    - unfold loadConfig. rewrite Hr. eexists. split; [reflexivity|].
      etransitivity; [apply carried_host; etransitivity; [apply carried_flags|apply carried_env]|reflexivity]. }
  rewrite Hl in Hrun. unfold embeddedSSH in Hrun. cbn [fst snd] in Hrun. unfold hostKey in Hrun. rewrite Hrk in Hrun.
  cbn [String.eqb] in Hrun. unfold persistHostKey in Hrun. rewrite Hr in Hrun.
  destruct (saveConfig sr _ w) as [[path'|e] w1] eqn:Es; [|done]. cbn [fst snd] in *. injection Hs as ->.
  change (SSHHostKey (set_SSHHostKey (std_encode priv) (rv_Config r))) with (std_encode priv) in Hrun.
  rewrite std_decode_encode, Hlen, Z.eqb_refl in Hrun. destruct (new_signer priv) as [signer|e] eqn:En; [|done].
  injection Hrun as <- <-. cbn [snd] in *.
  destruct (saveConfig_ok sr _ _ _ _ Hwf Es) as (_ & Hr1 & _). split; [done|]. intros gen'.
  destruct (loadConfig_carried [] w1 _ ltac:(rewrite Hp; exact Hr1)) as (r1 & Hl1 & Hc1).
  assert (SSHHostKey (rv_Config r1) = std_encode priv) as Hk1 by (by rewrite (carried_host _ _ Hc1)).
  unfold serveEmbeddedSSH. cbn [snd]. rewrite Hl1. unfold embeddedSSH. cbn [fst snd].
  by rewrite (hostKey_stored _ _ _ priv), En.
Qed.
End host_key.

(** ** Forwards stay on the machine *)

Lemma shiftr_range b k v : 0 ≤ k → Z.shiftr b k = v ↔ v * 2 ^ k ≤ b < (v + 1) * 2 ^ k.
Proof.
  intros Hk. rewrite Z.shiftr_div_pow2 by done. pose proof (Z.pow_pos_nonneg 2 k ltac:(lia) Hk).
  pose proof (Z.div_mod b (2 ^ k) ltac:(lia)). pose proof (Z.mod_pos_bound b (2 ^ k) ltac:(lia)). split; [intros <-|]; nia.
Qed.

(** The addresses of the machine itself: 127.0.0.0/8, as such or mapped into
    IPv6, and ::1. *)
Definition loopback_address (a : Addr) : Prop :=
  ad_zone a = "" ∧
  if ad_is4 a then 127 * 2 ^ 24 ≤ ad_bits a < 128 * 2 ^ 24
  else ad_bits a = 1 ∨ 65535 * 2 ^ 32 + 127 * 2 ^ 24 ≤ ad_bits a < 65535 * 2 ^ 32 + 128 * 2 ^ 24.

(** C36: An ssh client can have the agent connect to the machine itself and nowhere
    else: a forward is allowed exactly for the name localhost, in any case, and
    for an address written out that is a loopback address. *)
Theorem forwards_stay_on_the_machine host port :
  allowForward host port = true ↔
  EqualFold host "localhost" = true ∨ ∃ a, ParseAddr host = Some a ∧ loopback_address a.
Proof.
  unfold allowForward, isLoopbackHost. destruct (EqualFold host "localhost"); [by split; [left|]|].
  unfold ParseIP. destruct (ParseAddr host) as [a|]; cbn [mbind option_bind].
  2: { split; [done|]. intros [?|(a & ? & _)]; done. }
  transitivity (loopback_address a).
  2: { split; [intros Ha; right; by exists a|]. intros [?|(a' & [= <-] & ?)]; done. }
  unfold loopback_address. destruct (String.eqb_spec (ad_zone a) "") as [Hz|Hz]; [|split; [done|by intros [??]]].
  transitivity (IsLoopback (Unmap a) = true); [by destruct (IsLoopback _)|].
  enough (IsLoopback (Unmap a) = true ↔
    if ad_is4 a then 127 * 2 ^ 24 ≤ ad_bits a < 128 * 2 ^ 24
    else ad_bits a = 1 ∨ 65535 * 2 ^ 32 + 127 * 2 ^ 24 ≤ ad_bits a < 65535 * 2 ^ 32 + 128 * 2 ^ 24) as -> by tauto.
  unfold Unmap, IsLoopback. destruct a as [[] bits zone]; cbn [ad_is4 ad_bits negb andb].
  - rewrite Z.eqb_eq, shiftr_range by lia. lia.
  - destruct (Z.eqb_spec (Z.shiftr bits 32) 65535) as [H32|H32]; cbn [ad_is4 ad_bits].
    + apply shiftr_range in H32; [|lia]. rewrite Z.eqb_eq, shiftr_range by lia.
      replace (bits mod 2 ^ 32) with (bits - 65535 * 2 ^ 32); [lia|].
      apply (Z.mod_unique_pos _ _ 65535); lia.
    + rewrite Z.eqb_eq. split; [by left|]. intros [?|Hr]; [done|]. exfalso. apply H32, shiftr_range; lia.
Qed.

(** ** What is started *)

(** A session runs a single program, and a command reaches its shell as the
    client sent it: one argument, no quote lost -- except that the name wsl runs
    everything in the distribution or, when there is none, nothing at all. *)
Theorem session_program interactive command wsl s :
  let launched name args :=
    match sessionHandler interactive command wsl s with
    | OnPTY n a _ _ => ss_Pty s ≠ None ∧ n = name ∧ a = args
    | OnPipes n a => ss_Pty s = None ∧ n = name ∧ a = args
    | Refused _ => False
    end in
  if (ss_User s =? "wsl")%string then
    if usable wsl
    then launched "wsl.exe" (if (TrimSpace (ss_RawCommand s) =? "")%string then []
                             else ["--"; "sh"; "-c"; TrimSpace (ss_RawCommand s)])
    else ∃ msg, sessionHandler interactive command wsl s = Refused msg
  else
    let '(name, args) := if (TrimSpace (ss_RawCommand s) =? "")%string then interactive
                         else command (ss_RawCommand s) in
    launched name args.
Proof.
  cbn zeta. unfold sessionHandler, serveWSL, serveSession, shellFor.
  destruct (ss_User s =? "wsl")%string.
  - destruct (usable wsl); cbn [negb]; [|by eexists]. destruct (_ =? "")%string, (ss_Pty s) as [[[? ?] ?]|]; done.
  - destruct (_ =? "")%string; cbn [negb]; [destruct interactive|destruct (command _)];
      destruct (ss_Pty s) as [[[? ?] ?]|]; done.
Qed.

(** WSL is offered exactly when [wsl.exe] listed a distribution with a name. *)
Lemma wsl_usable_iff l : usable (detectWSL_windows l) = true ↔ ∃ out, l = WOutput out ∧ distros out ≠ [].
Proof.
  destruct l as [out| | |]; cbn.
  - destruct (distros out) as [|d ds] eqn:E; (split; [try done|]).
    + by intros (o & [= <-] & ?).
    + intros _. by exists out; rewrite E.
    + done.
  - split; [done|]. by intros (? & ? & _).
  - split; [done|]. by intros (? & ? & _).
  - split; [done|]. by intros (? & ? & _).
Qed.

(** ** Witnesses *)
Section witnesses.
  Import Box.

Definition keyless : Config :=
  mkConfig "https://relay" "lab-1" "" "" "ana" "cookie" "KEY" "ASSERTION" "" (Some false) None.
Definition keyless_box : Box.t := mk {["/etc/beacon/config.json" := Box.text keyless]} ∅.
Definition host_sk : string := pad_to 64 "host".

Lemma host_key_survives_restart_witness :
  let run := serveEmbeddedSSH around Ok (Ok host_sk) (None, keyless_box) in
  readConfigFile "/etc/beacon/config.json" (snd (snd run))
  = Ok (set_SSHHostKey (std_encode host_sk) keyless, true) ∧
  ∀ gen', serveEmbeddedSSH around Ok gen' (None, snd (snd run)) = (Ok host_sk, snd run) ∧
          serveEmbeddedSSH around Ok gen' (snd run) = (Ok host_sk, snd run).
Proof.
  intros run. assert (run = (Ok host_sk, snd run)) as E by (apply run_result; vm_compute; reflexivity).
  apply (host_key_survives_restart around Ok (wf := λ _, True) (Ok host_sk) host_sk keyless true keyless_box
           host_sk (snd run) "/etc/beacon/config.json");
    [vm_compute; reflexivity|reflexivity..|exact I|vm_compute; reflexivity|vm_compute; reflexivity|exact E].
Defined.
End witnesses.
