(* ===== verification/Terminals.v ===== *)
(** * Programs on a terminal (client/pty_unix.go, pty_windows.go,
    winsize_unix.go, winsize_windows.go)

    What a program started on a terminal finds in its environment, how often it is
    waited for, and how an operator's terminal, with a signal for it or without,
    notices that it was resized. *)

From Stdlib Require Import Ascii.
From S2P Require Import Prelude GoStrings GoNum GoBase64 Interfaces GoUtf8 Host Wire GoNet.
From S2P Require Import ClientConfig AgentRpc SSHServer.

Open Scope string_scope.
Open Scope list_scope.
Open Scope Z_scope.

(** ** The environment of a program *)

(** The key of an entry as [os/exec] sees it: a leading [=] belongs to it. *)
Definition env_split (kv : string) : option (string * string) :=
  match Cut kv "=" with
  | None => None
  | Some (k, rest) =>
      if (k =? "")%string
      then match Cut rest "=" with Some (k', v) => Some ("=" +:+ k', v) | None => Some ("", rest) end
      else Some (k, rest)
  end.
Definition env_key (kv : string) : option string := fst <$> env_split kv.

(** [os/exec]: of several entries with one key the last is kept. *)
Fixpoint dedupEnv (l : list string) : list string :=
  match l with
  | [] => []
  | kv :: l =>
      let out := dedupEnv l in
      match env_key kv with
      | None => if (kv =? "")%string then out else kv :: out
      | Some k => if existsb (λ kv', bool_decide (env_key kv' = Some k)) out then out else kv :: out
      end
  end.

(** What the program is given for [k]: the first entry. *)
Definition entry_of (k : string) (kv : string) : option string :=
  match env_split kv with Some (k', v) => if (k' =? k)%string then Some v else None | None => None end.
Definition env_get (k : string) (env : list string) : option string := head (omap (entry_of k) env).

(** The program, and [cmd.Env] before [os/exec] looks at it. *)
Record started := mkStarted { sp_name : string; sp_args : list string; sp_env : list string }.

Definition startPTYWith (os_Environ : list string) (name : string) (args env : list string) : started :=
  mkStarted name args ((os_Environ ++ ["TERM=xterm-256color"]) ++ env).

Definition unix_startPTY (getenv : gmap string string) (os_Environ : list string) : started :=
  let shell := default "" (getenv !! "SHELL") in
  let shell := if (shell =? "")%string then "/bin/sh" else shell in
  startPTYWith os_Environ shell ["-l"] [].

(** The first of PowerShell's names that is installed, with where it is. *)
Fixpoint first_installed (LookPath : string → option string) (candidates : list string) : option string :=
  match candidates with
  | [] => None
  | c :: candidates => match LookPath c with Some path => Some path | None => first_installed LookPath candidates end
  end.
Definition windowsShell (LookPath : string → option string) (getenv : gmap string string) : string :=
  match first_installed LookPath ["pwsh.exe"; "powershell.exe"] with
  | Some path => path
  | None => let comspec := default "" (getenv !! "COMSPEC") in
            if negb (comspec =? "")%string then comspec else "cmd.exe"
  end.

(** [console] is [xpty.New], [start] is [cmd.Start]. *)
Definition windows_startPTYWith (os_Environ : list string) (console : res ()) (start : started → res ())
    (name : string) (args env : list string) : res started :=
  match console with
  | Err e => Err (wrapf "cannot open a console (needs windows 10 1809 or newer): " e)
  | Ok _ =>
      let p := startPTYWith os_Environ name args env in
      match start p with
      | Err e => Err (wrapf ("cannot start " +:+ name +:+ ": ") e)
      | Ok _ => Ok p
      end
  end.
Definition windows_startPTY (LookPath : string → option string) (getenv : gmap string string)
    (os_Environ : list string) (console : res ()) (start : started → res ()) : res started :=
  windows_startPTYWith os_Environ console start (windowsShell LookPath getenv) [] [].

(** ** What the program finds *)
Lemma existsb_key k out : existsb (λ kv', bool_decide (env_key kv' = Some k)) out = negb (bool_decide (env_get k out = None)).
Proof.
  induction out as [|kv out IH]; [done|]. cbn [existsb]. rewrite IH. unfold env_get, env_key, entry_of. cbn.
  destruct (env_split kv) as [[k' v]|]; cbn.
  - destruct (String.eqb_spec k' k) as [->|Hne]; [by rewrite bool_decide_eq_true_2|].
    rewrite bool_decide_eq_false_2 by congruence. done.
  - by rewrite bool_decide_eq_false_2.
Qed.

Lemma env_get_cons k kv l : env_get k (kv :: l) = match entry_of k kv with Some v => Some v | None => env_get k l end.
Proof. unfold env_get. cbn. by destruct (entry_of k kv). Qed.

Lemma env_get_dedup k l : env_get k (dedupEnv l) = last (omap (entry_of k) l).
Proof.
  induction l as [|kv l IH]; [done|]. cbn [dedupEnv omap list_omap].
  unfold env_key at 1. destruct (env_split kv) as [[k' v]|] eqn:E; cbn [fmap option_fmap option_map fst].
  2: { unfold entry_of at 1. rewrite E. destruct (_ =? _)%string; [done|]. rewrite env_get_cons. unfold entry_of at 1. by rewrite E. }
  rewrite existsb_key. unfold entry_of at 1. rewrite E. destruct (String.eqb_spec k' k) as [->|Hne].
  - change (list_omap _ _ (entry_of k) l) with (omap (entry_of k) l). rewrite last_cons, <-IH. case_bool_decide as Hn; cbn.
    + rewrite env_get_cons. unfold entry_of at 1. rewrite E, String.eqb_refl. by rewrite Hn.
    + by destruct (env_get k (dedupEnv l)).
  - destruct (negb _); [done|]. rewrite env_get_cons. unfold entry_of at 1. rewrite E.
    by rewrite (proj2 (String.eqb_neq _ _) Hne).
Qed.

Lemma last_omap_app {A B} (f : A → option B) l1 l2 :
  last (omap f (l1 ++ l2)) = match last (omap f l2) with Some x => Some x | None => last (omap f l1) end.
Proof. rewrite omap_app. by rewrite last_app. Qed.

Lemma entry_of_TERM k v : entry_of k ("TERM=" +:+ v) = if ("TERM" =? k)%string then Some v else None.
Proof.
  unfold entry_of, env_split.
  change (Cut ("TERM=" +:+ v) "=") with (Cut ("TERM" +:+ String (byte 61) v) (String (byte 61) "")).
  by rewrite Cut_char.
Qed.

(** On Unix a program that an ssh client starts on a terminal always has a
    terminal type: the client's, or what the client set, or a capable default;
    never the agent's own.  Any other variable is the client's where the client
    set it, and the agent's otherwise. *)
Theorem terminal_type_is_the_clients shell cmdshell wsl s name args env size term cols rows os_Environ :
  sessionHandler shell cmdshell wsl s = OnPTY name args env size → ss_Pty s = Some (term, cols, rows) →
  let got k := env_get k (dedupEnv (sp_env (startPTYWith os_Environ name args env))) in
  let asked k := last (omap (entry_of k) (ss_Environ s)) in
  got "TERM" = Some (if negb (term =? "")%string then term else default "xterm-256color" (asked "TERM")) ∧
  ∀ k, k ≠ "TERM" → got k = match asked k with Some v => Some v | None => last (omap (entry_of k) os_Environ) end.
Proof.
  intros Hs Hp got asked.
  assert (env = ss_Environ s ++ if negb (term =? "")%string then ["TERM=" +:+ term] else []) as ->.
  { unfold sessionHandler, serveWSL, serveSession in Hs. rewrite Hp in Hs.
    destruct (_ =? "wsl")%string; [destruct (negb (usable wsl)); [done|]; by injection Hs|].
    destruct (shellFor _ _ _); by injection Hs. }
  subst got asked. cbn beta. split; [|intros k Hk]; rewrite env_get_dedup; cbn [sp_env startPTYWith]; rewrite !last_omap_app.
  - destruct (negb _); cbn [omap list_omap]; change "TERM=xterm-256color" with ("TERM=" +:+ "xterm-256color");
      rewrite ?entry_of_TERM; cbn [String.eqb]; [done|]. cbn [last].
    by destruct (last (omap (entry_of "TERM") (ss_Environ s))).
  - assert (last (omap (entry_of k) (if negb (term =? "")%string then ["TERM=" +:+ term] else [])) = None) as ->.
    { destruct (negb _); [|done]. cbn [omap list_omap]. by rewrite entry_of_TERM, (proj2 (String.eqb_neq _ _)). }
    destruct (last (omap (entry_of k) (ss_Environ s))); [done|].
    cbn [omap list_omap]. change "TERM=xterm-256color" with ("TERM=" +:+ "xterm-256color").
    by rewrite entry_of_TERM, (proj2 (String.eqb_neq _ _)).
Qed.

(** ** Waiting once *)

(** [p.cmd.Wait()] can be called once; [exit kills] is how it ends a program that
    was killed [kills] times before. *)
Record pty := mkPty { pt_code : option Z; pt_waits : nat; pt_kills : nat }.
Definition pty_start : pty := mkPty None 0 0.

Section lifecycle.
  Context (exit : nat → SSHServer.run_end).

Definition Wait (p : pty) : Z * pty :=
  match pt_code p with
  | Some c => (c, p)
  | None => let c := exitCodeOf (exit (pt_kills p)) in (c, mkPty (Some c) (S (pt_waits p)) (pt_kills p))
  end.

(** The error is the one of closing the terminal. *)
Definition Close (close : res ()) (p : pty) : res () * pty :=
  let p := mkPty (pt_code p) (pt_waits p) (S (pt_kills p)) in
  (close, snd (Wait p)).

Inductive pty_op := DoWait | DoClose (close : res ()).

(** The answers of the calls of [Wait], from whatever goroutines, in the order in
    which they get through [waitOnce]. *)
Fixpoint pty_ops (ops : list pty_op) (p : pty) : list Z * pty :=
  match ops with
  | [] => ([], p)
  | DoWait :: ops => let '(c, p) := Wait p in let '(cs, p) := pty_ops ops p in (c :: cs, p)
  | DoClose close :: ops => pty_ops ops (snd (Close close p))
  end.

(** Everybody who asks is told the same, the program is waited for exactly once
    as soon as anybody asks or closes, and a closed terminal has no program. *)
Lemma waited_once ops :
  let '(answers, p) := pty_ops ops pty_start in
  pt_waits p = (if decide (ops = []) then 0 else 1)%nat ∧
  Forall (λ c, pt_code p = Some c) answers ∧
  (∀ close, DoClose close ∈ ops → (0 < pt_kills p)%nat ∧ is_Some (pt_code p)).
Proof.
  assert (∀ ops p c, pt_code p = Some c → let '(answers, p') := pty_ops ops p in
    pt_waits p' = pt_waits p ∧ pt_code p' = Some c ∧ Forall (λ a, a = c) answers ∧ (pt_kills p ≤ pt_kills p')%nat ∧
    (∀ close, DoClose close ∈ ops → (0 < pt_kills p')%nat)) as Hgen.
  { clear ops. intros ops. induction ops as [|[|close] ops IH]; intros p c Hc; cbn [pty_ops].
    - split_and!; [done..|by constructor|done|by intros ? ?%elem_of_nil].
    - unfold Wait. rewrite Hc. specialize (IH p c Hc). destruct (pty_ops ops p) as [cs p'].
      destruct IH as (? & ? & ? & ? & Hk). split_and!; [done..|by constructor|done|].
      intros cl [?|?]%elem_of_cons; [done|eauto].
    - unfold Close, Wait. cbn [pt_code]. rewrite Hc. cbn [snd].
      specialize (IH (mkPty (Some c) (pt_waits p) (S (pt_kills p))) c eq_refl).
      destruct (pty_ops ops _) as [cs p']. cbn in IH. destruct IH as (? & ? & ? & ? & Hk). split_and!; [done..|lia|].
      intros; lia. }
  destruct ops as [|[|close] ops]; cbn [pty_ops].
  - cbn. split_and!; [done|by constructor|]. by intros ? ?%elem_of_nil.
  - unfold Wait. cbn. set (c := exitCodeOf _). specialize (Hgen ops (mkPty (Some c) 1 0) c eq_refl).
    destruct (pty_ops ops _) as [cs p']. destruct Hgen as (Hw & Hc & Hall & _ & Hk). rewrite Hc. split_and!; [done| |].
    + constructor; [done|]. eapply Forall_impl; [exact Hall|]. by intros ? ->.
    + intros cl [?|Hin]%elem_of_cons; [done|]. split; [by eapply Hk|done].
  - unfold Close, Wait. cbn. set (c := exitCodeOf _). specialize (Hgen ops (mkPty (Some c) 1 1) c eq_refl).
    destruct (pty_ops ops _) as [cs p']. destruct Hgen as (Hw & Hc & Hall & Hle & _). cbn in Hle. rewrite Hc.
    split_and!; [done| |intros; split; [lia|done]].
    eapply Forall_impl; [exact Hall|]. by intros ? ->.
Qed.
End lifecycle.

(** windowsPTY waits and closes as unixPTY does, around the console. *)
Section console.
  Context (exit : nat → SSHServer.run_end).
Definition windows_Wait (p : pty) : Z * pty :=
  match pt_code p with
  | Some c => (c, p)
  | None => let c := exitCodeOf (exit (pt_kills p)) in (c, mkPty (Some c) (S (pt_waits p)) (pt_kills p))
  end.
Definition windows_Close (close : res ()) (p : pty) : res () * pty :=
  let p := mkPty (pt_code p) (pt_waits p) (S (pt_kills p)) in
  (close, snd (windows_Wait p)).

Lemma console_like_pty close p :
  windows_Wait p = Wait exit p ∧ windows_Close close p = Close exit close p.
Proof. done. Qed.
End console.

(** ** Noticing a resize on Unix

    SIGWINCH fills a channel of one slot, and is dropped when it is full; the
    goroutine empties it and calls [onChange], which sends the size it reads. *)
Record watch := mkWatch {
  wt_size : Z * Z;          (* of the terminal *)
  wt_far : Z * Z;           (* what was sent last *)
  wt_pending : bool;        (* the slot *)
  wt_stopped : bool;        (* signal.Stop, close(done) *)
  wt_looping : bool
}.

Inductive watch_step :=
  | ResizedTo (size : Z * Z)     (* the terminal changes, and the signal comes *)
  | SelectSignal                 (* case <-ch *)
  | SelectDone                   (* case <-done *)
  | StopWatching.                (* the function [watchResize] returned *)

Definition unix_watchResize (size : Z * Z) : watch := mkWatch size size false false true.

(** A case that is not ready is not chosen. *)
Definition watch_run (x : watch_step) (t : watch) : watch :=
  match x with
  | ResizedTo size => mkWatch size (wt_far t) (wt_pending t || negb (wt_stopped t)) (wt_stopped t) (wt_looping t)
  | SelectSignal =>
      if wt_looping t && wt_pending t then mkWatch (wt_size t) (wt_size t) false (wt_stopped t) true else t
  | SelectDone =>
      if wt_looping t && wt_stopped t then mkWatch (wt_size t) (wt_far t) (wt_pending t) true false else t
  | StopWatching => mkWatch (wt_size t) (wt_far t) (wt_pending t) true (wt_looping t)
  end.

Definition watch_runs (xs : list watch_step) (t : watch) : watch := fold_left (λ t x, watch_run x t) xs t.

Definition unstopped (x : watch_step) : bool := match x with StopWatching => false | _ => true end.

(** However many resizes fall on one slot, the last is never lost: while it
    watches, either a signal is waiting, and serving it brings the far side to the
    size of the terminal, or the far side has it already. *)
Theorem last_size_is_sent size xs :
  forallb unstopped xs = true →
  let t := watch_runs xs (unix_watchResize size) in
  (wt_pending t = false → wt_far t = wt_size t) ∧
  wt_far (watch_run SelectSignal t) = wt_size t.
Proof.
  intros Hx t.
  assert (wt_looping t = true ∧ wt_stopped t = false ∧ (wt_pending t = false → wt_far t = wt_size t)) as (Hl & Hs & Hp).
  { subst t. unfold watch_runs.
    assert (∀ t, wt_looping t = true ∧ wt_stopped t = false ∧ (wt_pending t = false → wt_far t = wt_size t) →
      let t' := fold_left (λ t x, watch_run x t) xs t in
      wt_looping t' = true ∧ wt_stopped t' = false ∧ (wt_pending t' = false → wt_far t' = wt_size t')) as Hgen.
    { induction xs as [|x xs IH]; intros t Ht; [done|]. cbn [forallb] in Hx. apply andb_prop in Hx as [Hx Hxs].
      apply (IH Hxs). destruct t as [sz far pend stop loop]; cbn in *. destruct Ht as (-> & -> & Hp).
      destruct x; try done; cbn; [by rewrite orb_true_r|by destruct pend; cbn]. }
    by apply Hgen. }
  split; [done|]. cbn. rewrite Hl. cbn. destruct (wt_pending t) eqn:E; [done|by apply Hp].
Qed.

Lemma last_size_is_sent_witness :
  let t := watch_runs [ResizedTo (100, 40); ResizedTo (120, 50)] (unix_watchResize (80, 24)) in
  wt_far (watch_run SelectSignal t) = (120, 50).
Proof.
  intros t. exact (proj2 (last_size_is_sent (80, 24) [ResizedTo (100, 40); ResizedTo (120, 50)] eq_refl)).
Defined.

(** ** Noticing a resize on Windows *)
Definition resizePollInterval : Z := 500 * Millisecond.

(** The ticks of [watchResize], each with what [term.GetSize] returns; the answer
    says which of them call [onChange]. *)
Fixpoint watchResize (last : Z * Z) (ticks : list (res (Z * Z))) : list bool :=
  match ticks with
  | [] => []
  | Err _ :: ticks => false :: watchResize last ticks
  | Ok now :: ticks =>
      let changed := bool_decide (now ≠ last) in
      changed :: watchResize (if (changed : bool) then now else last) ticks
  end.

(** The size the far side has, when [onChange] sends what it reads. *)
Fixpoint far_size (far : Z * Z) (ticks : list (res (Z * Z))) (calls : list bool) : Z * Z :=
  match ticks, calls with
  | Ok now :: ticks, true :: calls => far_size now ticks calls
  | _ :: ticks, _ :: calls => far_size far ticks calls
  | _, _ => far
  end.

(** The last size that could be read. *)
Fixpoint latest (size : Z * Z) (ticks : list (res (Z * Z))) : Z * Z :=
  match ticks with
  | [] => size
  | Ok now :: ticks => latest now ticks
  | Err _ :: ticks => latest size ticks
  end.

(** Polling keeps the far side at the size that was last read, and calls
    [onChange] for nothing else than a change. *)
Lemma polling_follows_the_window start ticks :
  far_size start ticks (watchResize start ticks) = latest start ticks ∧
  (latest start ticks = start → Forall (λ t, t = Ok start ∨ is_ok t = false) ticks →
     Forall (λ c, c = false) (watchResize start ticks)).
Proof.
  revert start. induction ticks as [|[now|e] ticks IH]; intros start; cbn [watchResize far_size latest].
  - split; [done|]. by constructor.
  - case_bool_decide as Hc; cbn [far_size].
    + destruct (IH now) as [IH1 _]. split; [exact IH1|]. intros _ [[[= ->]|?] _]%Forall_cons; [by destruct Hc|done].
    + assert (now = start) as -> by (by destruct (decide (now = start)); [|destruct Hc]).
      destruct (IH start) as [IH1 IH2]. split; [done|]. intros Hl [_ Hall]%Forall_cons. constructor; auto.
  - destruct (IH start) as [IH1 IH2]. split; [done|]. intros Hl [_ Hall]%Forall_cons. constructor; auto.
Qed.

(** ** Witness: vim over ssh, on a machine whose agent runs with a dumb terminal *)
Lemma terminal_type_is_the_clients_witness :
  let s := mkSession "ana" "vim" ["LANG=C"] (Some ("screen", 80, 24)) in
  ∃ name args env size, sessionHandler ("/bin/sh", ["-l"]) unix_commandShell detectWSL_other s = OnPTY name args env size ∧
    env_get "TERM" (dedupEnv (sp_env (startPTYWith ["TERM=dumb"; "LANG=fr_FR"; "HOME=/root"] name args env))) = Some "screen" ∧
    env_get "LANG" (dedupEnv (sp_env (startPTYWith ["TERM=dumb"; "LANG=fr_FR"; "HOME=/root"] name args env))) = Some "C".
Proof.
  intros s. do 4 eexists. split; [reflexivity|].
  destruct (terminal_type_is_the_clients ("/bin/sh", ["-l"]) unix_commandShell detectWSL_other s _ _ _ _ "screen" 80 24
    ["TERM=dumb"; "LANG=fr_FR"; "HOME=/root"] eq_refl eq_refl) as [Ht Hk].
  split; [exact Ht|]. exact (Hk "LANG" ltac:(discriminate)).
Defined.
