(* ===== verification/SSHSessions.v ===== *)
(** * Sessions of the embedded ssh server (client/sshserver.go)

    The life of one session: on a terminal, where three goroutines share it --
    what the client types, its window changes, and the output, on which the
    session ends --, and without one, where [os/exec] copies the three streams of
    the command.  A run is a sequence of the steps of the client, the program and
    the goroutines, in any interleaving.  gliderlabs/ssh carries the bytes. *)

From Stdlib Require Import Ascii.
From S2P Require Import Prelude GoStrings GoNum GoBase64 Interfaces GoNet Wire Host ClientConfig.
From S2P Require Import AgentRpc SSHServer Terminals.

Open Scope string_scope.
Open Scope list_scope.
Open Scope Z_scope.

(** ** One connection *)

(** What becomes of the stream: closed at once, or the server's, which closes it. *)
Inductive ssh_stream := StreamClosed | HandledBy (srv : string).

Section connection.
  Context {W : Type} `{ClientHost W} `{JSON Config} (sr : Surroundings) (new_signer : string → res string).

Definition handleSSH (gen : res string) (cfg : Config) (st : option string * W) : ssh_stream * (option string * W) :=
  let '(r, st) := embeddedSSH sr new_signer gen cfg st in
  (match r with Err _ => StreamClosed | Ok srv => HandledBy srv end, st).

(** For tests: the next connection builds a server again. *)
Definition resetSSHServer (st : option string * W) : option string * W := (None, snd st).

(** A connection that asks for ssh is served exactly if there is a server for it. *)
Lemma handleSSH_serves gen cfg st :
  fst (handleSSH gen cfg st) = match fst (embeddedSSH sr new_signer gen cfg st) with
                               | Ok srv => HandledBy srv | Err _ => StreamClosed end.
Proof. unfold handleSSH. by destruct (embeddedSSH _ _ _ _ _). Qed.
End connection.

(** [sftp.NewServer] and [server.Serve]: whether a server ran and was closed, and
    what is logged. *)
Inductive sftp_end := SftpNotStarted | SftpClosed (logged : bool).
Definition sftpHandler (server : res ()) (serve : res ()) : sftp_end :=
  match server with
  | Err _ => SftpNotStarted
  | Ok _ => SftpClosed (match serve with Ok _ => false | Err e => negb (errors_Is e ErrEOF) end)
  end.

(** ** A session on a terminal *)

(** Killed by a signal, [ExitCode] is -1. *)
Definition killed : run_end := ExitError (-1).

Record tsession := mkTSession {
  ts_input : bool;                     (* io.Copy(term, s) is running *)
  ts_typed : string;                   (* what reached the terminal *)
  ts_sizes : list (Z * Z);             (* the sizes it was given *)
  ts_unread : list string;             (* written by the program, not yet copied *)
  ts_sent : string;                    (* copied to the client *)
  ts_program : option run_end;         (* how the program ended *)
  ts_gone : bool;                      (* the client's connection is gone *)
  ts_pty : pty;
  ts_status : option Z                 (* s.Exit; the session is over *)
}.

Inductive tstep :=
  | TType (data : string) (written : res ())   (* data of the client is copied to the terminal *)
  | TEof                                       (* the client closed its side *)
  | TSize (cols rows : Z)                      (* a window change *)
  | TWrite (data : string)                     (* the program writes *)
  | TExit (e : run_end)                        (* the program ends *)
  | TDetach                                    (* it runs on and has closed the terminal, all it wrote copied *)
  | TGone                                      (* the client's connection breaks *)
  | TCopy.                                     (* io.Copy(s, term) takes its turn *)

Definition uint16 (n : Z) : Z := n mod 2 ^ 16.

(** [io.Copy(s, term)] has returned: close, wait, report, and the deferred close. *)
Definition finish (t : tsession) : tsession :=
  let exit := λ _, default killed (ts_program t) in
  let '(_, p) := Close exit (Ok ()) (ts_pty t) in
  let '(code, p) := Wait exit p in
  let '(_, p) := Close exit (Ok ()) p in
  mkTSession false (ts_typed t) (ts_sizes t) (ts_unread t) (ts_sent t) (Some (default killed (ts_program t)))
    (ts_gone t) p (Some code).

Definition t_step (x : tstep) (t : tsession) : tsession :=
  let '(mkTSession input typed sizes unread sent program gone p status) := t in
  match status with
  | Some _ => t
  | None =>
      match x with
      | TType data written =>
          if (input : bool) then
            match written with
            | Ok _ => mkTSession true (typed +:+ data) sizes unread sent program gone p None
            | Err _ => mkTSession false typed sizes unread sent program gone p None
            end
          else t
      | TEof => mkTSession false typed sizes unread sent program gone p None
      | TSize cols rows => mkTSession input typed (sizes ++ [(uint16 cols, uint16 rows)]) unread sent program gone p None
      | TWrite data =>
          match program with
          | None => mkTSession input typed sizes (unread ++ [data]) sent program gone p None
          | Some _ => t
          end
      | TExit e =>
          match program with None => mkTSession input typed sizes unread sent (Some e) gone p None | Some _ => t end
      | TDetach => match unread, program with [], None => finish t | _, _ => t end   (* Read is at its end *)
      | TGone => mkTSession false typed sizes unread sent program true p None
      | TCopy =>
          match unread, program with
          | data :: unread, _ =>
              if (gone : bool) then finish t
              else mkTSession input typed sizes unread (sent +:+ data) program gone p None
          | [], Some _ => finish t
          | [], None => t                                 (* blocked in Read *)
          end
      end
  end.

Definition t_run (xs : list tstep) (t : tsession) : tsession := fold_left (λ t x, t_step x t) xs t.

(** [startPTYWith] succeeded; the first size is set when the client gave one. *)
Definition t_start (size : option (Z * Z)) : tsession :=
  mkTSession true "" (option_list size) [] "" None false pty_start None.

(** The terminal branch of [serveSession]: what the client is told when there is no
    terminal, or the session. *)
Definition serveTerminal (started : res ()) (size : option (Z * Z)) (xs : list tstep) : string * Z + tsession :=
  match started with
  | Err e => inl ("cannot open a terminal: " +:+ err_text e +:+ cr +:+ nl, 1)
  | Ok _ => inr (t_run xs (t_start size))
  end.

(** ** What a session on a terminal delivers *)

(** What the program writes before it ends, as a run has it. *)
Fixpoint program_output (xs : list tstep) : string :=
  match xs with
  | [] => ""
  | TWrite data :: xs => data +:+ program_output xs
  | TExit _ :: _ => ""
  | _ :: xs => program_output xs
  end.

(** How the program ends by itself. *)
Fixpoint program_end (xs : list tstep) : option run_end :=
  match xs with
  | [] => None
  | TExit e :: _ => Some e
  | _ :: xs => program_end xs
  end.

Definition stays (x : tstep) : bool := match x with TGone | TDetach => false | _ => true end.

(** The client has, or can still get, all the program wrote. *)
Record t_inv (written : string) (ended : option run_end) (t : tsession) : Prop := mkTInv {
  ti_here : ts_gone t = false;
  ti_out : ts_sent t +:+ sconcat (ts_unread t) = written;
  ti_end : ts_program t = ended;
  ti_over : match ts_status t with
            | None => ts_pty t = pty_start
            | Some c => ∃ e, ended = Some e ∧ c = exitCodeOf e ∧ ts_unread t = [] ∧ pt_waits (ts_pty t) = 1%nat
            end
}.

(** One step's part in what the program wrote and how it ended. *)
Definition wrote (x : tstep) (so : string * option run_end) : string * option run_end :=
  match so with
  | (written, None) =>
      match x with
      | TWrite data => (written +:+ data, None)
      | TExit e => (written, Some e)
      | _ => (written, None)
      end
  | (written, Some e) => (written, Some e)
  end.

Lemma wrote_ended xs written e : fold_left (λ so x, wrote x so) xs (written, Some e) = (written, Some e).
Proof. induction xs as [|x xs IH]; [done|]. exact IH. Qed.

Lemma wrote_run xs written :
  fold_left (λ so x, wrote x so) xs (written, None) = (written +:+ program_output xs, program_end xs).
Proof.
  revert written. induction xs as [|x xs IH]; intros written; [by rewrite sapp_nil_r|].
  cbn [fold_left program_output program_end].
  destruct x; cbn [wrote]; rewrite ?IH, ?sapp_assoc; try done. rewrite wrote_ended. by rewrite sapp_nil_r.
Qed.

Lemma finish_inv written ended e t :
  t_inv written ended t → ts_status t = None → ts_unread t = [] → ended = Some e → t_inv written ended (finish t).
Proof.
  intros [Hh Ho He Hs] Hst Hu ->. rewrite Hst in Hs. unfold finish, Close, Wait. rewrite Hs. cbn.
  split; cbn; [done|done|by rewrite He|]. exists e. rewrite He. done.
Qed.

Lemma t_inv_step x written ended t :
  stays x = true → t_inv written ended t → t_inv (fst (wrote x (written, ended))) (snd (wrote x (written, ended))) (t_step x t).
Proof.
  intros Hx Hi. destruct t as [input typed sizes unread sent program gone p status].
  destruct status as [c|]; cbn [t_step].
  { destruct (ti_over _ _ _ Hi) as (e & -> & _). done. }
  pose proof Hi as [Hh Ho He Hs]. cbn in Hh, Ho, He, Hs. subst gone program.
  assert (∀ i ty sz, t_inv written ended (mkTSession i ty sz unread sent ended false p None)) as Hsame by done.
  destruct ended as [e|]; cbn [wrote fst snd]; destruct x as [data w| |cols rows|data|e'| | |]; try done;
    try (destruct input; [destruct w|]; apply Hsame).
  - destruct unread as [|data unread]; [by eapply finish_inv|]. split; cbn; [done| |done|done].
    rewrite <-Ho. cbn. by rewrite sapp_assoc.
  - split; cbn; [done| |done|done]. rewrite sconcat_app, <-Ho. cbn. by rewrite sapp_nil_r, sapp_assoc.
  - destruct unread as [|data' unread]; [done|]. split; cbn; [done| |done|done].
    rewrite <-Ho. cbn. by rewrite sapp_assoc.
Qed.

Lemma t_inv_run xs so t :
  forallb stays xs = true → t_inv (fst so) (snd so) t →
  t_inv (fst (fold_left (λ so x, wrote x so) xs so)) (snd (fold_left (λ so x, wrote x so) xs so)) (t_run xs t).
Proof.
  revert so t. induction xs as [|x xs IH]; intros [w e] t Hx Hi; [done|].
  cbn [forallb] in Hx. apply andb_prop in Hx as [Hx Hxs].
  unfold t_run. cbn [fold_left]. fold (t_run xs (t_step x t)). apply IH; [done|]. by apply t_inv_step.
Qed.

Lemma t_run_app xs ys t : t_run (xs ++ ys) t = t_run ys (t_run xs t).
Proof. unfold t_run. apply fold_left_app. Qed.

Lemma finish_over t : is_Some (ts_status (finish t)).
Proof. unfold finish, Close, Wait. cbn. by destruct (pt_code (ts_pty t)). Qed.

(** Once the program has ended, the copy ends the session. *)
Lemma copies_finish n t e :
  ts_program t = Some e → ts_gone t = false → (length (ts_unread t) < n)%nat →
  is_Some (ts_status (t_run (replicate n TCopy) t)).
Proof.
  revert t. induction n as [|n IH]; intros t He Hg Hn; [lia|].
  destruct t as [input typed sizes unread sent program gone p status]. cbn in He, Hg, Hn. subst program gone.
  assert (∀ c xs t, ts_status t = Some c → ts_status (t_run xs t) = Some c) as Hover.
  { intros c xs. induction xs as [|x xs IHx]; intros t Ht; [done|]. apply IHx.
    destruct t; cbn in *. by subst. }
  unfold t_run. cbn [replicate fold_left]. fold (t_run (replicate n TCopy) (t_step TCopy
    (mkTSession input typed sizes unread sent (Some e) false p status))).
  destruct status as [c|]; [erewrite Hover; [by eexists|done]|].
  destruct unread as [|data unread]; cbn [t_step].
  - edestruct finish_over as [c Hc]. erewrite Hover; [by eexists|exact Hc].
  - apply IH; [done..|]. cbn in *. lia.
Qed.

(** C35: Whatever the client types and however it resizes its window, and whenever it
    closes its side of the input, a session on a terminal ends with the program and
    not before, as long as the client is there and the program keeps its terminal: the client is then told the program's own status and has received
    everything it wrote, in order, and the program has been waited for once.  And
    when the program has ended the session does end: as many turns of the copy as
    there are pieces left, and one more. *)
Theorem session_ends_with_the_program size xs :
  forallb stays xs = true →
  let t := t_run xs (t_start size) in
  ts_sent t +:+ sconcat (ts_unread t) = program_output xs ∧
  (∀ c, ts_status t = Some c →
     ts_sent t = program_output xs ∧ (∃ e, program_end xs = Some e ∧ c = exitCodeOf e) ∧ pt_waits (ts_pty t) = 1%nat) ∧
  (program_end xs ≠ None → is_Some (ts_status (t_run (replicate (S (length (ts_unread t))) TCopy) t))).
Proof.
  intros Hx t. pose proof (t_inv_run xs ("", None) (t_start size) Hx ltac:(done)) as Hi.
  rewrite wrote_run in Hi. cbn [fst snd] in Hi. rewrite sapp_nil_l in Hi. fold t in Hi.
  destruct Hi as [Hh Ho He Hs]. split_and!; [done| |].
  - intros c Hc. rewrite Hc in Hs. destruct Hs as (e & Hend & -> & Hu & Hw).
    rewrite Hu in Ho. cbn in Ho. rewrite sapp_nil_r in Ho. split_and!; [done|by exists e|done].
  - intros Hend. destruct (program_end xs) as [e|]; [|done]. eapply copies_finish; [exact He|done|lia].
Qed.

(** A program that lets go of its terminal and means to run on does not: the copy
    ends, and closing the terminal kills it. *)
Lemma detached_program_is_killed t :
  ts_status t = None → ts_program t = None → ts_unread t = [] → ts_pty t = pty_start →
  let t' := t_step TDetach t in
  ts_status t' = Some (-1) ∧ ts_program t' = Some killed ∧ pt_waits (ts_pty t') = 1%nat.
Proof. destruct t as [input typed sizes unread sent program gone p status]. cbn. intros -> -> -> ->. done. Qed.

(** ** A client that vanished *)
Definition silent (x : tstep) : bool := match x with TWrite _ | TExit _ | TDetach => false | _ => true end.

(** Nothing watches the connection but the copies: when the client vanishes from
    under a program that has nothing to say -- a shell at its prompt -- the session
    goes on and the program stays, for as long as it is silent, and only what it
    writes next makes the copy fail, the terminal close and the program die. *)
Theorem vanished_client_leaves_the_program xs t :
  ts_gone t = true → ts_program t = None → ts_unread t = [] → ts_status t = None → ts_pty t = pty_start →
  forallb silent xs = true →
  let t' := t_run xs t in
  ts_status t' = None ∧ ts_program t' = None ∧ pt_kills (ts_pty t') = 0%nat ∧
  ∀ data, let t2 := t_run [TWrite data; TCopy] t' in
    ts_program t2 = Some killed ∧ ts_status t2 = Some (-1) ∧ pt_waits (ts_pty t2) = 1%nat.
Proof.
  intros Hg Hp Hu Hs Hpty Hx t'. subst t'. revert t Hg Hp Hu Hs Hpty.
  induction xs as [|x xs IH]; intros t Hg Hp Hu Hs Hpty.
  { destruct t; cbn in *; subst. done. }
  cbn [forallb] in Hx. apply andb_prop in Hx as [Hx Hxs].
  unfold t_run. cbn [fold_left]. fold (t_run xs (t_step x t)).
  destruct t as [input typed sizes unread sent program gone p status]; cbn in Hg, Hp, Hu, Hs, Hpty; subst.
  apply IH; [done|..]; destruct x as [data [[]|]| | | | | | |]; try done; by destruct input.
Qed.

(** ** A session without a terminal

    [cmd.Run] with streams that are not files: [os/exec] starts a copy for each,
    and [Run] returns when the command has ended and all three copies have. *)
Record psession := mkPSession {
  ps_input : list string;              (* sent by the client, not yet copied *)
  ps_eof : bool;                       (* the client closed its side, or is gone *)
  ps_copying : bool;                   (* the copy of the input is running *)
  ps_given : string;                   (* what the command was given *)
  ps_out : list string;                (* written on stdout, not yet copied *)
  ps_err : list string;
  ps_sent : string;                    (* copied to the client *)
  ps_sent_err : string;
  ps_end : option run_end;             (* how the command ended *)
  ps_status : option Z                 (* s.Exit *)
}.

Inductive pstep :=
  | PData (data : string)              (* the client sends *)
  | PEof                               (* and closes its side *)
  | POut (data : string)               (* the command writes *)
  | PErr (data : string)
  | PExit (e : run_end)                (* the command ends, and its pipes with it *)
  | PCopyIn | PCopyOut | PCopyErr      (* a copy takes its turn *)
  | PRun.                              (* cmd.Run looks whether it can return *)

Definition p_start : psession := mkPSession [] false true "" [] [] "" "" None None.

Definition p_step (x : pstep) (t : psession) : psession :=
  let '(mkPSession input eof copying given out err sent sent_err ended status) := t in
  match status with
  | Some _ => t
  | None =>
      match x with
      | PData data => if (eof : bool) then t
                      else mkPSession (input ++ [data]) eof copying given out err sent sent_err ended None
      | PEof => mkPSession input true copying given out err sent sent_err ended None
      | POut data => match ended with
                     | None => mkPSession input eof copying given (out ++ [data]) err sent sent_err ended None
                     | Some _ => t
                     end
      | PErr data => match ended with
                     | None => mkPSession input eof copying given out (err ++ [data]) sent sent_err ended None
                     | Some _ => t
                     end
      | PExit e => match ended with
                   | None => mkPSession input eof copying given out err sent sent_err (Some e) None
                   | Some _ => t
                   end
      | PCopyIn =>
          if (copying : bool) then
            match input, ended with
            | data :: input, None => mkPSession input eof true (given +:+ data) out err sent sent_err ended None
            | _ :: input, Some _ => mkPSession input eof false given out err sent sent_err ended None   (* EPIPE *)
            | [], _ => if (eof : bool) then mkPSession [] eof false given out err sent sent_err ended None
                       else t                              (* blocked in Read *)
            end
          else t
      | PCopyOut => match out with
                    | data :: out => mkPSession input eof copying given out err (sent +:+ data) sent_err ended None
                    | [] => t
                    end
      | PCopyErr => match err with
                    | data :: err => mkPSession input eof copying given out err sent (sent_err +:+ data) ended None
                    | [] => t
                    end
      | PRun => match ended, copying, out, err with
                | Some e, false, [], [] =>
                    mkPSession input eof copying given out err sent sent_err ended (Some (exitCodeOf e))
                | _, _, _, _ => t
                end
      end
  end.

(** [runWithoutPTY]; the [s.Exit(0)] of a clean end is [exitCodeOf] too. *)
Definition runWithoutPTY (xs : list pstep) : psession := fold_left (λ t x, p_step x t) xs p_start.

(** What the command writes before it ends, on one of its streams. *)
Fixpoint command_output (pick : pstep → option string) (xs : list pstep) : string :=
  match xs with
  | [] => ""
  | PExit _ :: _ => ""
  | x :: xs => default "" (pick x) +:+ command_output pick xs
  end.
Definition on_stdout (x : pstep) : option string := match x with POut d => Some d | _ => None end.
Definition on_stderr (x : pstep) : option string := match x with PErr d => Some d | _ => None end.
Fixpoint command_end (xs : list pstep) : option run_end :=
  match xs with [] => None | PExit e :: _ => Some e | _ :: xs => command_end xs end.
(** What the client sends before it closes its side. *)
Fixpoint client_input (xs : list pstep) : string :=
  match xs with [] => "" | PEof :: _ => "" | PData d :: xs => d +:+ client_input xs | _ :: xs => client_input xs end.

(** ** What a session without a terminal delivers *)

(** A session that is over has a command that ended, and nothing left to copy. *)
Definition p_ok (t : psession) : Prop :=
  ∀ c, ps_status t = Some c → ∃ e, ps_end t = Some e ∧ c = exitCodeOf e ∧ ps_out t = [] ∧ ps_err t = [].

Definition ends_with (x : pstep) (ended : option run_end) : option run_end :=
  match ended with Some e => Some e | None => match x with PExit e => Some e | _ => None end end.
Definition adds (pick : pstep → option string) (x : pstep) (ended : option run_end) : string :=
  match ended with Some _ => "" | None => default "" (pick x) end.

Lemma p_step_ok x t :
  p_ok t →
  p_ok (p_step x t) ∧ ps_end (p_step x t) = ends_with x (ps_end t) ∧
  ps_sent (p_step x t) +:+ sconcat (ps_out (p_step x t))
  = (ps_sent t +:+ sconcat (ps_out t)) +:+ adds on_stdout x (ps_end t) ∧
  ps_sent_err (p_step x t) +:+ sconcat (ps_err (p_step x t))
  = (ps_sent_err t +:+ sconcat (ps_err t)) +:+ adds on_stderr x (ps_end t).
Proof.
  intros Hok. destruct t as [input eof copying given out err sent sent_err ended status].
  assert (∀ s, s +:+ "" = s) as Hnil by apply sapp_nil_r.
  destruct status as [c|].
  { cbn [p_step]. destruct (Hok c eq_refl) as (e & He & _). cbn in He. subst ended. cbn. rewrite !Hnil. done. }
  clear Hok. assert (∀ t, ps_status t = None → p_ok t) as Hnone by (intros t Ht c Hc; congruence).
  destruct x as [d| |d|d|e| | | |]; cbn [p_step]; destruct ended as [e'|]; cbn [ends_with adds on_stdout on_stderr default];
    rewrite ?Hnil;
    try (destruct eof; split_and!; [by apply Hnone|done..]);
    try (split_and!; [by apply Hnone|cbn; rewrite ?sconcat_app; cbn; rewrite ?Hnil, ?sapp_assoc; done..]).
  - destruct copying, input, eof; (split_and!; [by apply Hnone|done..]).
  - destruct copying, input, eof; (split_and!; [by apply Hnone|done..]).
  - destruct out; (split_and!; [by apply Hnone|cbn; rewrite ?sapp_assoc; done..]).
  - destruct out; (split_and!; [by apply Hnone|cbn; rewrite ?sapp_assoc; done..]).
  - destruct err; (split_and!; [by apply Hnone|cbn; rewrite ?sapp_assoc; done..]).
  - destruct err; (split_and!; [by apply Hnone|cbn; rewrite ?sapp_assoc; done..]).
  - destruct copying, out, err; (split_and!; [try by apply Hnone|done..]). intros c [= <-]. by exists e'.
Qed.

Definition rest_of (pick : pstep → option string) (xs : list pstep) (ended : option run_end) : string :=
  match ended with Some _ => "" | None => command_output pick xs end.

Lemma rest_of_cons pick x xs ended :
  (∀ e, pick (PExit e) = None) →
  rest_of pick (x :: xs) ended = adds pick x ended +:+ rest_of pick xs (ends_with x ended).
Proof.
  intros He. destruct ended as [e|]; [done|]. cbn [rest_of adds ends_with command_output].
  destruct x; try done. by rewrite He.
Qed.

Lemma p_run_ok xs t :
  p_ok t →
  let t' := fold_left (λ t x, p_step x t) xs t in
  p_ok t' ∧
  ps_end t' = match ps_end t with Some e => Some e | None => command_end xs end ∧
  ps_sent t' +:+ sconcat (ps_out t') = (ps_sent t +:+ sconcat (ps_out t)) +:+ rest_of on_stdout xs (ps_end t) ∧
  ps_sent_err t' +:+ sconcat (ps_err t') = (ps_sent_err t +:+ sconcat (ps_err t)) +:+ rest_of on_stderr xs (ps_end t).
Proof.
  revert t. induction xs as [|x xs IH]; intros t Hok; cbn zeta.
  - cbn [fold_left]. destruct (ps_end t); cbn [rest_of command_output command_end]; rewrite !sapp_nil_r; done.
  - destruct (p_step_ok x t Hok) as (Hok1 & He & Ho & Hr). cbn [fold_left].
    destruct (IH _ Hok1) as (Hok2 & He2 & Ho2 & Hr2). rewrite !rest_of_cons by done.
    split_and!; [done| | |].
    + rewrite He2, He. destruct (ps_end t) as [e|]; [done|]. by destruct x.
    + rewrite Ho2, Ho, He. by rewrite sapp_assoc.
    + rewrite Hr2, Hr, He. by rewrite sapp_assoc.
Qed.

Lemma given_fixed xs t :
  ps_copying t = false → ps_given (fold_left (λ t x, p_step x t) xs t) = ps_given t.
Proof.
  revert t. induction xs as [|x xs IH]; intros t Hc; [done|]. cbn [fold_left].
  destruct t as [input eof copying given out err sent sent_err ended status]. cbn in Hc. subst copying.
  destruct status; cbn [p_step]; [by rewrite IH|]. destruct x; try by rewrite IH.
  - destruct eof; by rewrite IH.
  - destruct ended; by rewrite IH.
  - destruct ended; by rewrite IH.
  - destruct ended; by rewrite IH.
  - destruct out; by rewrite IH.
  - destruct err; by rewrite IH.
  - destruct ended, out, err; by rewrite IH.
Qed.

(** What a session can still give the command. *)
Definition to_come (t : psession) (xs : list pstep) : string :=
  sconcat (ps_input t) +:+ if ps_eof t then "" else client_input xs.

Lemma p_given xs t :
  ∃ rest, ps_given t +:+ to_come t xs = ps_given (fold_left (λ t x, p_step x t) xs t) +:+ rest.
Proof.
  revert t. induction xs as [|x xs IH]; intros t; [by eexists|]. cbn [fold_left].
  destruct (ps_copying t) eqn:Ec.
  2: { change (p_step x t) with (fold_left (λ t x, p_step x t) [x] t). rewrite <-fold_left_app, given_fixed by done. by eexists. }
  assert (ps_given t +:+ to_come t (x :: xs) = ps_given (p_step x t) +:+ to_come (p_step x t) xs ∨
          ps_given (p_step x t) = ps_given t ∧ ps_copying (p_step x t) = false ∨ is_Some (ps_status t)) as [He|[[Hg Hf]|[c Hs]]].
  { destruct t as [input eof copying given out err sent sent_err ended status]. cbn in Ec. subst copying.
    unfold to_come. destruct status; [right; right; by eexists|].
    destruct x as [d| |d|d|e| | | |]; cbn [p_step]; try destruct eof; try destruct ended; cbn; try (by left); try (by right; left).
    - left. rewrite sconcat_app. cbn. by rewrite sapp_nil_r, !sapp_assoc.
    - left. rewrite sconcat_app. cbn. by rewrite sapp_nil_r, !sapp_assoc.
    - destruct input; cbn; by right; left.
    - destruct input; cbn; [by right; left|left]. by rewrite !sapp_assoc.
    - destruct input; cbn; [by left|by right; left].
    - destruct input; cbn; [by left|left]. by rewrite !sapp_assoc.
    - destruct out; by left.
    - destruct out; by left.
    - destruct out; by left.
    - destruct out; by left.
    - destruct err; by left.
    - destruct err; by left.
    - destruct err; by left.
    - destruct err; by left. }
  - rewrite He. apply IH.
  - rewrite given_fixed, Hg by done. by eexists.
  - assert (∀ ys, fold_left (λ t x, p_step x t) ys t = t) as Hover.
    { intros ys. induction ys as [|y ys IHy]; [done|]. cbn [fold_left].
      assert (p_step y t = t) as -> by (destruct t; cbn in *; by subst). done. }
    change (p_step x t) with (fold_left (λ t x, p_step x t) [x] t). rewrite <-fold_left_app, Hover. by eexists.
Qed.

(** A command without a terminal -- scp, git, rsync -- in any interleaving: it is
    given the client's input from its beginning, byte for byte; the client has, or
    can still be sent, exactly what it writes on each of the two streams; and the
    status is the command's own, told after everything it wrote. *)
Theorem command_runs_through xs :
  let t := runWithoutPTY xs in
  (∃ rest, client_input xs = ps_given t +:+ rest) ∧
  ps_sent t +:+ sconcat (ps_out t) = command_output on_stdout xs ∧
  ps_sent_err t +:+ sconcat (ps_err t) = command_output on_stderr xs ∧
  ∀ c, ps_status t = Some c →
    (∃ e, command_end xs = Some e ∧ c = exitCodeOf e) ∧
    ps_sent t = command_output on_stdout xs ∧ ps_sent_err t = command_output on_stderr xs.
Proof.
  intros t. destruct (p_run_ok xs p_start) as (Hok & He & Ho & Hr); [by intros c|].
  fold (runWithoutPTY xs) in Hok, He, Ho, Hr. fold t in Hok, He, Ho, Hr. cbn in He, Ho, Hr.
  split_and!; [apply (p_given xs p_start)|done|done|].
  intros c Hc. destruct (Hok c Hc) as (e & Hend & -> & Hout & Herr). rewrite Hout in Ho. rewrite Herr in Hr.
  cbn in Ho, Hr. rewrite sapp_nil_r in Ho, Hr. split_and!; [exists e; split; [congruence|done]|done..].
Qed.

Definition from_client (x : pstep) : bool := match x with PData _ | PEof => true | _ => false end.

(** But [Run] waits for the copy of the input too, and that copy for the client:
    when the command has ended, the client is told nothing until it sends something
    more or closes its side.  [ssh host uptime] from a terminal prints and hangs. *)
Theorem command_waits_for_its_input xs t e :
  ps_end t = Some e → ps_copying t = true → ps_input t = [] → ps_eof t = false → ps_status t = None →
  forallb (λ x, negb (from_client x)) xs = true →
  let t' := fold_left (λ t x, p_step x t) xs t in
  ps_status t' = None ∧ ps_end t' = Some e ∧ ps_copying t' = true.
Proof.
  revert t. induction xs as [|x xs IH]; intros t He Hc Hi Hf Hs Hx; [done|].
  cbn [forallb] in Hx. apply andb_prop in Hx as [Hx Hxs]. cbn [fold_left].
  destruct t as [input eof copying given out err sent sent_err ended status]. cbn in He, Hc, Hi, Hf, Hs. subst.
  destruct x; try done; cbn [p_step]; try (by apply IH).
  - destruct out; by apply IH.
  - destruct err; by apply IH.
Qed.

(** ** Witnesses *)

(** An editor that closes its input at once and resizes while the build is talking. *)
Definition toy_build : list tstep :=
  [TSize 120 70000; TType "make" (Ok ()); TEof; TWrite "cc a.c"; TCopy; TWrite "cc b.c"; TExit (ExitError 2)].

Lemma session_ends_with_the_program_witness :
  let t := t_run toy_build (t_start (Some (80, 24))) in
  ts_sent t = "cc a.c" ∧ ts_sent t +:+ sconcat (ts_unread t) = "cc a.ccc b.c" ∧
  is_Some (ts_status (t_run (replicate (S (length (ts_unread t))) TCopy) t)).
Proof.
  intros t. destruct (session_ends_with_the_program (Some (80, 24)) toy_build eq_refl) as (Ho & _ & Hf).
  split; [reflexivity|]. split; [exact Ho|]. apply Hf. discriminate.
Defined.

Lemma vanished_client_leaves_the_program_witness :
  let t := t_run [TWrite "$ "; TCopy; TGone] (t_start None) in
  ts_program (t_run [TSize 80 24; TCopy; TCopy] t) = None.
Proof.
  intros t. apply (vanished_client_leaves_the_program [TSize 80 24; TCopy; TCopy] t); reflexivity.
Defined.

Lemma command_waits_for_its_input_witness :
  let t := runWithoutPTY [POut "up 3 days"; PExit Clean; PCopyOut] in
  ps_sent t = "up 3 days" ∧ ps_status (fold_left (λ t x, p_step x t) [PCopyIn; PRun; PCopyOut; PRun] t) = None.
Proof.
  intros t. split; [reflexivity|].
  apply (command_waits_for_its_input [PCopyIn; PRun; PCopyOut; PRun] t Clean); reflexivity.
Defined.
