(* ===== verification/Commands.v ===== *)
(** * The command line (client/main.go; client/configcmd.go, configform.go;
    client/service_windows.go: runUnderServiceManager)

    Which command an argument names, how a failure is told, the help text, and
    what [beacon config] shows.  What a command does is a handler here and a
    definition of its own file: cmdRun in Agent.v, cmdStatus in Panel.v, cmdInstall,
    cmdUninstall and cmdServiceControl in Service.v, cmdEnroll and cmdLogin in
    Identity.v, cmdLogout in ClientConfig.v, cmdSSH and cmdForward in
    OperatorSessions.v, cmdUpdate in Updater.v, cmdRestartAfterUpdate in
    AutoUpdate.v. *)

From Stdlib Require Import Ascii.
From S2P Require Import Prelude GoStrings GoNum GoBase64 Interfaces GoUtf8 Host Wire.
From S2P Require Import ClientConfig Flags AgentLoop Updater Service Panel.

Open Scope string_scope.
Open Scope list_scope.
Open Scope Z_scope.

(** ** The commands *)

(** How a handler ends: it returns, or it ends the process itself, as a [flag] set
    does for a flag it does not know and [beacon status] for an agent that is not
    connected. *)
Inductive command_end := Returns (r : res ()) | Exits (code : Z).

Record Handlers (W : Type) := mkHandlers {
  h_run : list string → M W command_end;
  h_status : list string → M W command_end;
  h_config : list string → M W command_end;
  h_install : list string → M W command_end;
  h_uninstall : list string → M W command_end;
  h_enroll : list string → M W command_end;
  h_login : list string → M W command_end;
  h_logout : list string → M W command_end;
  h_ssh : list string → M W command_end;
  h_forward : list string → M W command_end;
  h_update : list string → M W command_end;
  h_restart_after_update : list string → M W command_end;
  h_service : string → list string → M W command_end
}.
Arguments mkHandlers {W}.
Arguments h_run {W}.
Arguments h_status {W}.
Arguments h_config {W}.
Arguments h_install {W}.
Arguments h_uninstall {W}.
Arguments h_enroll {W}.
Arguments h_login {W}.
Arguments h_logout {W}.
Arguments h_ssh {W}.
Arguments h_forward {W}.
Arguments h_update {W}.
Arguments h_restart_after_update {W}.
Arguments h_service {W}.

Inductive routed (W : Type) :=
  | Handled (f : list string → M W command_end)
  | Version
  | Help
  | Unknown.
Arguments Handled {W}.
Arguments Version {W}.
Arguments Help {W}.
Arguments Unknown {W}.

(** The switch of [main]. *)
Definition dispatch {W} (h : Handlers W) (cmd : string) : routed W :=
  if (cmd =? "run")%string then Handled (h_run h)
  else if (cmd =? "status")%string then Handled (h_status h)
  else if (cmd =? "config")%string then Handled (h_config h)
  else if (cmd =? "install")%string then Handled (h_install h)
  else if (cmd =? "uninstall")%string then Handled (h_uninstall h)
  else if (cmd =? "enroll")%string then Handled (h_enroll h)
  else if (cmd =? "login")%string then Handled (h_login h)
  else if (cmd =? "logout")%string then Handled (h_logout h)
  else if (cmd =? "ssh")%string then Handled (h_ssh h)
  else if (cmd =? "forward")%string then Handled (h_forward h)
  else if (cmd =? "update")%string then Handled (h_update h)
  else if (cmd =? "restart-after-update")%string then Handled (h_restart_after_update h)
  else if existsb (String.eqb cmd) ["start"; "stop"; "restart"] then Handled (h_service h cmd)
  else if existsb (String.eqb cmd) ["version"; "--version"; "-v"] then Version
  else if existsb (String.eqb cmd) ["help"; "--help"; "-h"] then Help
  else Unknown.

Record command := mkCommand { cm_name : string; cm_summary : string }.

Definition commands : list command := [
  mkCommand "status" "show whether the agent is connected";
  mkCommand "run" "run the agent in the foreground";
  mkCommand "install" "install the agent as a system service";
  mkCommand "ssh" "open a terminal on a machine, in this terminal";
  mkCommand "forward" "open a local port that leads to a service on a machine";
  mkCommand "update" "replace this binary with the latest release";
  mkCommand "uninstall" "remove the service and the installed binary";
  mkCommand "start" "start the installed service";
  mkCommand "stop" "stop the installed service";
  mkCommand "restart" "stop then start the installed service";
  mkCommand "config" "show settings and where each value came from";
  mkCommand "version" "print the version";
  mkCommand "help" "show this text"
].

(** ** main *)
Section main.
  Context `{Terminal} (version : string).

Definition printHelp : string :=
  Render styTitle "beacon" +:+ Render styDim (" " +:+ version) +:+ nl
  +:+ Render styDim "outbound agent for the go-beacon relay" +:+ nl +:+ nl
  +:+ Render styLabel "USAGE" +:+ nl +:+ "  beacon <command> [flags]" +:+ nl +:+ nl
  +:+ Render styLabel "COMMANDS" +:+ nl
  +:+ sconcat ((λ c, "  " +:+ Render styValue (fixed (cm_name c) 11) +:+ Render styDim (cm_summary c) +:+ nl) <$> commands)
  +:+ nl +:+ Render styLabel "EXAMPLES" +:+ nl
  +:+ sconcat ((λ l, Render styDim l +:+ nl) <$> [
        "  beacon install --server https://relay.example.com --id target-01";
        "  beacon status";
        "  beacon ssh target-01";
        "  beacon forward target-01 rdp --listen 127.0.0.1:3390";
        "  beacon config set server=https://relay.example.com"])
  +:+ nl +:+ Render styLabel "ENVIRONMENT" +:+ nl
  +:+ sconcat ((λ l, Render styDim l +:+ nl) <$> [
        "  BEACON_SERVER, BEACON_AGENT_ID, BEACON_CA_FILE";
        "  BEACON_CONFIG, BEACON_SOCKET   override file locations"]).

(** The exit status, standard output and standard error of what [main] prints
    itself; [None] is a panic. *)
Definition fail (cmd : string) (e : error) : option (Z * string * string) :=
  if negb (errors_Is e ErrSilent) then panel ← errorPanel version cmd e; Some (1, "", panel)
  else Some (1, "", "").

(** [service] is what [runUnderServiceManager] returned. *)
Definition beacon_main {W} (h : Handlers W) (service : bool * option error) (args : list string)
    : W → option (Z * string * string) * W := λ w,
  match service with
  | (true, Some e) => (fail "service" e, w)
  | (true, None) => (Some (0, "", ""), w)
  | (false, _) =>
      match args with
      | [] => (Some (0, printHelp, ""), w)
      | cmd :: rest =>
          match dispatch h cmd with
          | Handled f =>
              match f rest w with
              | (Ok (Returns (Ok _)), w) => (Some (0, "", ""), w)
              | (Ok (Returns (Err e)), w) | (Err e, w) => (fail cmd e, w)
              | (Ok (Exits code), w) => (Some (code, "", ""), w)
              end
          | Version => (Some (0, version +:+ nl, ""), w)
          | Help => (Some (0, printHelp, ""), w)
          | Unknown => (Some (2, printHelp, "unknown command " +:+ quote cmd +:+ nl +:+ nl), w)
          end
      end
  end.
End main.

(** ** beacon config *)
Definition source_text (s : option source) : string :=
  match s with
  | None => ""
  | Some fromDefault => "default"
  | Some fromFile => "config file"
  | Some fromEnv => "env"
  | Some fromFlag => "flag"
  end.

Definition inputWidth : Z := 32.
Definition orNotSet (v : string) : string := if (v =? "")%string then "not set" else v.

Section config_command.
  Context `{Terminal} (version : string).
  Context {W : Type} `{ClientHost W} `{JSON Config} `{URLParse} `{Platform W} (sr : Surroundings).
  (** [textinput.Model.View] of the i-th input of the form. *)
  Context (input_view : configForm → nat → string).

Definition config_row (r : resolved) (key : string) : string :=
  Render styLabel (fixed key labelWidth)
  +:+ Render styValue (fixed (orNotSet (value key (rv_Config r))) 30)
  +:+ Render styDim (source_text (rv_sources r !! key)).

(** The read-only view. *)
Definition config_panel (r : resolved) : panel :=
  let p := blank (mkPanel "config" version "" []) in
  let p := fold_left (λ p key, line (config_row r key) p) configKeys p in
  with_footer (if rv_exists r then rv_path r else rv_path r +:+ " (does not exist)") (blank p).

(** [configForm.View] *)
Definition form_row (f : configForm) (i : nat) (key : string) : string :=
  let caret := if (i =? fm_focus f)%nat && negb (fm_done f) then Render styValue "▸ " else "  " in
  let v := if fm_done f then Render styValue (fixed (form_input f i) inputWidth) else input_view f i in
  caret +:+ Render styLabel (label2col key) +:+ v.

Definition form_panel (r : resolved) (f : configForm) : panel :=
  let p := blank (mkPanel "config" version "" []) in
  let p := fold_left (λ p row, line row p) (imap (form_row f) configKeys) p in
  let p := blank p in
  let p := if negb (fm_err f =? "")%string
           then blank (line (Render styErr "! " +:+ Render styErr (fm_err f)) p)
           else if negb (fm_done f)
           then blank (line (Render styLabel (label2col "from")
                  +:+ Render styDim (source_text (rv_sources r !! default "" (configKeys !! fm_focus f)))) p)
           else p in
  with_footer (if fm_done f then rv_path r else "tab next · enter save · esc cancel") p.

Definition View (r : resolved) (f : configForm) : option string := render (form_panel r f).

(** What [configSet] and the form print when they have saved. *)
Definition saved_panel (title : string) (c : Config) (path : string) : option panel :=
  p ← kv keyServer (orNotSet (Server c)) (resultPanel version title markDone styOK "SAVED" "");
  p ← kv keyID (orNotSet (AgentID c)) p;
  p ← kv keyCA (orNotSet (CAFile c)) p;
  Some (with_footer path p).

Inductive config_end :=
  | ConfigUsage (code : Z)
  | ConfigSaved (c : Config) (path : string)
  | ConfigFormEnded (saved : option (Config * string))
  | ConfigShown (text : option string).

(** Without [set].  [interactive] is [isInteractive()], [keys] what is typed into
    the form. *)
Definition config_view (interactive : bool) (keys : list form_key) (showOnly : bool) (args : list string)
    : M W config_end :=
  match Parse [] args with
  | inl e => mret (ConfigUsage (exit_on_error e))
  | inr _ =>
      r ← read (loadConfig sr []);
      r ← mlift r;
      if negb showOnly && interactive then out ← runConfigForm sr keys r; mret (ConfigFormEnded out)
      else mret (ConfigShown (render (config_panel r)))
  end.

Definition cmdConfig (args : list string) (interactive : bool) (keys : list form_key) : M W config_end :=
  match args with
  | a :: rest =>
      if (a =? "set")%string then '(c, path) ← configSet sr rest; mret (ConfigSaved c path)
      else if (a =? "show")%string then config_view interactive keys true rest
      else config_view interactive keys false args
  | [] => config_view interactive keys false []
  end.
End config_command.

(** Both ends of the process are terminals: [os.ModeCharDevice] in what [Stat]
    says of them. *)
Definition ModeCharDevice : Z := 2 ^ 21.
Definition isInteractive (stdin stdout : res Z) : bool :=
  match stdin, stdout with
  | Ok i, Ok o => negb (Z.land i ModeCharDevice =? 0) && negb (Z.land o ModeCharDevice =? 0)
  | _, _ => false
  end.

(** ** Looking is not touching *)
Section config_facts.
  Context `{Terminal} (version : string).
  Context {W : Type} `{ClientHost W} `{JSON Config} `{URLParse} (sr : Surroundings).

Lemma config_view_only_reads interactive keys b args w r w' :
  config_view version sr interactive keys b args w = (r, w') →
  w' = w ∨ interactive = true ∧ b = false ∧
    ∃ cfg, loadConfig sr [] w = Ok cfg ∧ fm_saved (form_run keys (newConfigForm cfg) w) = true.
Proof.
  unfold config_view. destruct (Parse [] args) as [e|x]; [by intros [= _ <-]; left|].
  unfold mbind, M_bind, read. destruct (loadConfig sr [] w) as [cfg|e] eqn:E; cbn; [|by intros [= _ <-]; left].
  destruct b, interactive; cbn; try (by intros [= _ <-]; left).
  unfold runConfigForm. destruct (fm_saved _) eqn:Es; cbn; [|by intros [= _ <-]; left].
  intros _. right. do 2 (split; [done|]). by exists cfg.
Qed.

(** In a script, and with [show] anywhere, [beacon config] leaves the machine as it
    is: only [set], and a person who saves the form, change anything. *)
Theorem looking_is_not_touching args interactive keys w r w' :
  cmdConfig version sr args interactive keys w = (r, w') →
  w' = w ∨ head args = Some "set" ∨ interactive = true ∧ head args ≠ Some "show" ∧
           ∃ cfg, loadConfig sr [] w = Ok cfg ∧ fm_saved (form_run keys (newConfigForm cfg) w) = true.
Proof.
  unfold cmdConfig. destruct args as [|a rest].
  { intros [?|(? & _ & ?)]%config_view_only_reads; [by left|right; right; by split_and!]. }
  destruct (String.eqb_spec a "set") as [->|]; [by right; left|].
  destruct (String.eqb_spec a "show") as [->|]; [intros [?|(_ & ? & _)]%config_view_only_reads; [by left|done]|].
  intros [?|(? & _ & ?)]%config_view_only_reads; [by left|right; right; split_and!; [done|cbn; congruence|done]].
Qed.
End config_facts.

(** ** Witnesses and concrete cases *)
Section concrete.
  Import Box Plain.

Definition token64 : string := Repeat_nat "0123456789abcdef" 4.
Definition with_token : resolved :=
  mkResolved (set_Token token64 emptyConfig) {[keyToken := fromEnv]} "/etc/beacon/config.json" true.

(** A token of the usual length makes the row wider than the box allows: [beacon
    config show] panics.  (A shorter one is shown as it is.) *)
Lemma long_token_breaks_config_show : render (config_panel "v1" with_token) = None.
Proof. vm_compute. reflexivity. Qed.

(** A ca-file that does not exist, under a path of some length: the message under
    the form is wider than the box, and the editor panics instead of showing it. *)
Definition long_path : string := "/home/somebody/certificates/of/the/company/root-bundle.pem".
Lemma long_message_breaks_the_form :
  let f := mkForm ["https://relay"; "lab-1"; long_path; ""; ""] 2 false false
             ("ca-file: stat " +:+ long_path +:+ ": no such file or directory") in
  View "v1" (λ f i, form_input f i) with_token f = None.
Proof. vm_compute. reflexivity. Qed.

Definition no_handlers : Handlers () :=
  let f := λ (_ : list string) (w : ()), (Ok (Returns (Ok ())), w) in
  mkHandlers f f f f f f f f f f f f (λ _, f).
Definition known (cmd : string) : bool := match dispatch no_handlers cmd with Unknown => false | _ => true end.

(** Everything the help text lists is a command; three commands a person needs
    are not listed. *)
Lemma help_lists_commands :
  forallb (λ c, known (cm_name c)) commands = true ∧
  Forall (λ c, known c = true ∧ c ∉ (cm_name <$> commands)) ["enroll"; "login"; "logout"].
Proof.
  split; [vm_compute; reflexivity|].
  repeat (apply Forall_cons; split; [split; [reflexivity|apply (bool_decide_unpack _); vm_compute; reflexivity]|]).
  by apply Forall_nil.
Qed.

Lemma looking_is_not_touching_witness :
  snd (cmdConfig "v1" around ["show"] true [KType (λ _, "x"); KEnter] installed) = installed.
Proof.
  destruct (cmdConfig "v1" around ["show"] true [KType (λ _, "x"); KEnter] installed) as [r w'] eqn:E. cbn [snd].
  destruct (looking_is_not_touching "v1" around ["show"] true _ installed r w' E) as [?|[?|(_ & Hs & _)]]; [done..|].
  by destruct Hs.
Defined.
End concrete.
