(* ===== verification/OperatorSessions.v ===== *)
(** * Terminals and forwards from the operator's machine

    client/sshcmd.go and client/forwardcmd.go, and what becomes of them at the
    other end: the operator's command, the relay's bridge (RelayTools.v) and the
    agent's stream handler (AgentStream.v) joined by pipes that may cut the bytes
    anywhere.  The WebSocket library is what [ws_Dial] returns and a byte stream
    each way. *)

From Stdlib Require Import Ascii.
From S2P Require Import Prelude GoStrings GoNum GoBase64 Interfaces GoNet.
From S2P Require Import ClientURLs ClientConfig Identity.
From S2P Require Import Wire Assertions Host Challenges Events Registry Proxies ServerConfig VaultClient KVStore.
From S2P Require Import AgentKeys OperatorStore Auth Server Enroll AgentRpc Pipes ForwardPath AgentStream.
From S2P Require Import RelayTools RemoteCalls.

Open Scope string_scope.
Open Scope list_scope.
Open Scope Z_scope.

(** [websocket.Dial]: a connection, the relay's refusal, or none at all. *)
Inductive dialled := WsOpen | WsRefused (code : Z) (status : string) | WsUnreachable (e : error).

(** ** The operator's terminal *)

(** What moves the writing half: a read of at most 4096 bytes from stdin, the
    last one when [eof], or a window change and the size it has now. *)
Inductive ssh_input :=
  | Typed (data : string) (eof : bool)
  | Resized (size : res (Z * Z)).

(** [frameWriter]; the mutex puts its calls in a sequence. *)
Definition frameWriter_data (p : string) : M Writer () := WritePTYFrame PTYData p.
Definition frameWriter_resize (size : res (Z * Z)) (w : Writer) : Writer :=
  match size with
  | Err _ => w
  | Ok (cols, rows) =>
      if (cols <=? 0) || (rows <=? 0) then w
      else snd (WritePTYFrame PTYResize (PTYResizePayload (cols mod 2 ^ 16) (rows mod 2 ^ 16)) w)
  end.

(** [open]: the goroutine that reads stdin has not returned. *)
Fixpoint ssh_pump (inputs : list ssh_input) (open : bool) (w : Writer) : Writer :=
  match inputs with
  | [] => w
  | Resized size :: inputs => ssh_pump inputs open (frameWriter_resize size w)
  | Typed data eof :: inputs =>
      if open then
        if (data =? "")%string then ssh_pump inputs (negb eof) w
        else match frameWriter_data data w with
             | (Err _, w) => ssh_pump inputs false w
             | (Ok _, w) => ssh_pump inputs (negb eof) w
             end
      else ssh_pump inputs false w
  end.

(** The size is sent once before anything is typed. *)
Definition ssh_send (size : res (Z * Z)) (inputs : list ssh_input) (w : Writer) : Writer :=
  ssh_pump inputs true (frameWriter_resize size w).

(** ** One forwarded connection *)
Inductive bridge_end :=
  | BridgeNotSignedIn
  | BridgeRefused (status : string)
  | BridgeUnreachable (e : error)
  | BridgeAgentRefused (e : error)
  | BridgeCarried (tcp : bool) (p : pump).

(** [up] is what the local side has to say, and [tcp] whether it is a TCP connection.
    Once the agent has answered the two copies run, as [operator_step] says; what the
    reader holds behind the answer is the first of what comes down. *)
Definition bridge (d : dialled) (remote : BufReader) (tcp : bool) (up : string) : bridge_end :=
  match d with
  | WsRefused code status => if code =? StatusUnauthorized then BridgeNotSignedIn else BridgeRefused status
  | WsUnreachable e => BridgeUnreachable e
  | WsOpen =>
      match ReadForwardStatus remote with
      | (Err e, _) => BridgeAgentRefused e
      | (Ok _, remote) => BridgeCarried tcp (start_pump up (WithBuffered remote))
      end
  end.

(** ** The commands *)
Section commands.
  Context {CertPool W : Type} `{ClientHost W} `{X509 CertPool} `{URLParser} `{JSON Config}.
  Context (sr : Surroundings).
  Context (ws_Dial : string → TLSConfig CertPool → option (string * string) → W → dialled).

(** What both commands need before they can dial: the endpoint, the trust and
    the credential. *)
Definition session_target (flags : list (string * string)) (url : string → res string) (w : W)
    : res (string * TLSConfig CertPool * option (string * string)) :=
  cfg ← ClientConfig.loadConfig sr flags w;
  let c := rv_Config cfg in
  tlsCfg ← tlsConfig (ClientConfig.CAFile c) w;
  target ← url (ClientConfig.Server c);
  Ok (target, tlsCfg, apiHeader (ClientConfig.Token c) (ClientConfig.Session c)).

(** [raw] is [term.MakeRaw]; [shown] what the relay sends until it closes.  What
    was printed and what was sent. *)
Definition cmdSSH (agent : string) (flags : list (string * string)) (terminal : bool) (raw : res ())
    (size : res (Z * Z)) (inputs : list ssh_input) (shown : string) (conn : Writer) (w : W)
    : res (string * Writer) :=
  if negb terminal
  then Err (errorf "this needs a terminal; to script a command use the MCP endpoint instead")
  else
    '(target, tlsCfg, header) ← session_target flags (λ server, shellURL server agent) w;
    match ws_Dial target tlsCfg header w with
    | WsRefused code status =>
        if code =? StatusUnauthorized then Err (errorf "not signed in: run `beacon login`")
        else Err (errorf ("relay refused the session: " +:+ status))
    | WsUnreachable e => Err e
    | WsOpen =>
        raw;;
        Ok (shown +:+ nl, ssh_send size inputs conn)
    end.

(** One connection at a local port, or the process's own streams: what the remote end
    will deliver and what the local end has to say. *)
Record Carried := mkCarried { ca_remote : BufReader; ca_up : string }.

Definition carry (target : string) (tlsCfg : TLSConfig CertPool) (header : option (string * string)) (w : W)
    (tcp : bool) (c : Carried) : bridge_end :=
  bridge (ws_Dial target tlsCfg header w) (ca_remote c) tcp (ca_up c).

(** [listen] is [net.Listen]; [accepted] the connections until the listener
    closes, and [stopped] whether the operator closed it.  With [--stdio] there is
    one connection and no listener.  What the command returns, and the bridges it
    was left with. *)
Definition cmdForward (agent service : string) (flags : list (string * string)) (stdio : option Carried)
    (listen : res ()) (accepted : list Carried) (accept_error : error) (stopped : bool) (w : W)
    : res () * list bridge_end :=
  match session_target flags (λ server, forwardURL server agent service) w with
  | Err e => (Err e, [])
  | Ok (target, tlsCfg, header) =>
      match stdio with
      | Some c => (Ok (), [carry target tlsCfg header w false c])
      | None =>
          match listen with
          | Err e => (Err e, [])
          | Ok _ => (if stopped then Ok () else Err accept_error, carry target tlsCfg header w true <$> accepted)
          end
      end
  end.
End commands.

(** ** What is typed *)

Definition size_actions (size : res (Z * Z)) : list term_action :=
  match size with
  | Err _ => []
  | Ok (cols, rows) =>
      if (cols <=? 0) || (rows <=? 0) then [] else [TResize (cols mod 2 ^ 16) (rows mod 2 ^ 16)]
  end.

(** The keystrokes and sizes in the order of the inputs, up to the end of stdin. *)
Fixpoint ssh_actions (inputs : list ssh_input) (open : bool) : list term_action :=
  match inputs with
  | [] => []
  | Resized size :: inputs => size_actions size ++ ssh_actions inputs open
  | Typed data eof :: inputs =>
      (if open && negb (data =? "")%string then [TWriteKeys data] else [])
      ++ ssh_actions inputs (open && negb eof)
  end.

(** A read fills the buffer of the goroutine at most. *)
Definition read_ok (i : ssh_input) : bool := match i with Typed data _ => len data <=? 4096 | Resized _ => true end.

(** Frames on the wire that do these actions at the terminal. *)
Definition carries (fs : list frame) (acts : list term_action) : Prop :=
  forallb frame_ok fs = true ∧ concat (frame_action <$> fs) = acts.

Lemma carries_app fs gs a b : carries fs a → carries gs b → carries (fs ++ gs) (a ++ b).
Proof.
  intros [Hf <-] [Hg <-]. unfold carries. by rewrite forallb_app, Hf, Hg, fmap_app, concat_app.
Qed.

Lemma frameWriter_resize_frames size buf :
  ∃ fs, frameWriter_resize size (mkWriter buf []) = mkWriter (buf +:+ sconcat (encode_frame <$> fs)) [] ∧
        carries fs (size_actions size).
Proof.
  assert (∃ fs, mkWriter buf [] = mkWriter (buf +:+ sconcat (encode_frame <$> fs)) [] ∧ carries fs []) as Hnone
    by (exists []; cbn; by rewrite sapp_nil_r).
  unfold frameWriter_resize, size_actions. destruct size as [[cols rows]|e]; [|done].
  destruct ((cols <=? 0) || (rows <=? 0)); [done|].
  set (f := (PTYResize, PTYResizePayload (cols mod 2 ^ 16) (rows mod 2 ^ 16))). exists [f].
  change (WritePTYFrame PTYResize _ _) with (WritePTYFrame f.1 f.2 (mkWriter buf [])).
  rewrite WritePTYFrame_ok by done. cbn [snd fmap list_fmap sconcat]. rewrite sapp_nil_r. split; [done|].
  split; [done|]. unfold f, frame_action. cbn [fmap list_fmap concat fst snd].
  change (Ascii.eqb PTYResize PTYData) with false. change (Ascii.eqb PTYResize PTYResize) with true. cbv iota.
  pose proof (Z.mod_pos_bound cols (2 ^ 16)). pose proof (Z.mod_pos_bound rows (2 ^ 16)).
  by rewrite PTYSize_roundtrip by lia.
Qed.

Lemma frameWriter_data_frames data buf :
  len data <= 4096 →
  ∃ fs, frameWriter_data data (mkWriter buf []) = (Ok (), mkWriter (buf +:+ sconcat (encode_frame <$> fs)) []) ∧
        carries fs [TWriteKeys data].
Proof.
  intros Hl. set (f := (PTYData, data)). exists [f].
  assert (frame_ok f = true) as Hf by (unfold frame_ok, maxPTYFrame; cbn; lia).
  unfold frameWriter_data. change (WritePTYFrame PTYData data) with (WritePTYFrame f.1 f.2).
  rewrite WritePTYFrame_ok by done. cbn [fmap list_fmap sconcat]. rewrite sapp_nil_r. split; [done|].
  split; [cbn [forallb]; by rewrite Hf|done].
Qed.

(** Joining what two steps put on the wire. *)
Lemma on_wire_app buf fs gs :
  (buf +:+ sconcat (encode_frame <$> fs)) +:+ sconcat (encode_frame <$> gs)
  = buf +:+ sconcat (encode_frame <$> (fs ++ gs)).
Proof. by rewrite fmap_app, sconcat_app, sapp_assoc. Qed.

Lemma ssh_pump_frames inputs open buf :
  forallb read_ok inputs = true →
  ∃ fs, ssh_pump inputs open (mkWriter buf []) = mkWriter (buf +:+ sconcat (encode_frame <$> fs)) [] ∧
        carries fs (ssh_actions inputs open).
Proof.
  revert open buf. induction inputs as [|[data eof|size] inputs IH]; intros open buf Hok.
  - exists []. cbn. by rewrite sapp_nil_r.
  - cbn [forallb read_ok] in Hok. bool_prop. cbn [ssh_pump ssh_actions].
    destruct open; cbn [andb]; [|by apply IH].
    destruct (String.eqb_spec data "") as [->|Hne]; cbn [negb app]; [by apply IH|].
    destruct (frameWriter_data_frames data buf) as (fs & -> & Hfs); [lia|].
    destruct (IH (negb eof) (buf +:+ sconcat (encode_frame <$> fs))) as (gs & -> & Hgs); [done|].
    exists (fs ++ gs). rewrite on_wire_app. split; [done|]. by apply (carries_app _ _ [TWriteKeys data]).
  - cbn [forallb read_ok andb] in Hok. cbn [ssh_pump ssh_actions].
    destruct (frameWriter_resize_frames size buf) as (fs & -> & Hfs).
    destruct (IH open (buf +:+ sconcat (encode_frame <$> fs))) as (gs & -> & Hgs); [done|].
    exists (fs ++ gs). rewrite on_wire_app. split; [done|]. by apply carries_app.
Qed.

Lemma ssh_send_frames size inputs :
  forallb read_ok inputs = true →
  ∃ fs, ssh_send size inputs (mkWriter "" []) = mkWriter (sconcat (encode_frame <$> fs)) [] ∧
        carries fs (size_actions size ++ ssh_actions inputs true).
Proof.
  intros Hok. destruct (frameWriter_resize_frames size "") as (fs & Hw & Hfs).
  destruct (ssh_pump_frames inputs true (sconcat (encode_frame <$> fs)) Hok) as (gs & Hg & Hgs).
  exists (fs ++ gs). unfold ssh_send. rewrite Hw, sapp_nil_l, Hg, fmap_app, sconcat_app.
  split; [done|]. by apply carries_app.
Qed.

(** ** Through the relay to the machine *)
Section through.
  Context {W : Type} `{Tunnel W} {WA : Type} `{Machine WA} `{JSON RPCRequest} `{JSON RPCResponse}.
  Context (ds : Z → string) (services : gmap string string) (dial : string → res ()).

(** C14: The relay opens the terminal of an online agent, and every key the operator
    types and every size of the window -- in the order they happened, up to the
    end of stdin, each once -- is what the machine's terminal is given, however
    the connections on the way cut the bytes. *)
Theorem terminal_end_to_end r sess (s : Server W) t1 t2 size inputs :
  Session (PathValue r "id") (sv_registry s) = Some sess → opens sess →
  forallb read_ok inputs = true →
  ∃ opening s', handleShell r (Ok ()) t1 t2 s = (Ok (BBridged sess opening), s') ∧
    ∀ br (w : WA),
      remaining br = opening +:+ w_buf (ssh_send size inputs (mkWriter "" [])) →
      handleStream ds services dial (Ok (mkTerm [] [])) br (mkWriter "" []) w
      = ((SPty (Some (mkTerm (size_actions size ++ ssh_actions inputs true) [])), mkWriter "" []), w).
Proof.
  intros Hs Ho Hok. destruct (handleShell_bridges r sess t1 t2 s Hs Ho) as [s' Hb].
  exists (StreamPTY +:+ nl), s'. split; [done|]. intros br w Hr.
  destruct (ssh_send_frames size inputs Hok) as (fs & Hsend & Hfs & <-). rewrite Hsend in Hr. cbn [w_buf] in Hr.
  destruct (ReadStreamHeader_line br StreamPTY _ ltac:(reflexivity) Hr) as (br' & Hh & Hr').
  unfold handleStream. rewrite Hh. cbn [String.eqb StreamPTY StreamEcho].
  change ((StreamPTY =? StreamEcho)%string) with false. change ((StreamPTY =? StreamPTY)%string) with true. cbv iota.
  unfold handlePTY. rewrite (pty_loop_frames fs); [done..|]. unfold pty_fuel. lia.
Qed.

(** What the agent will say of a service: nothing, or why not. *)
Definition forward_cause (service : string) : option error :=
  if (service =? ServiceDev)%string then None
  else match services !! service with
       | None => Some (errorf ("this agent does not offer " +:+ quote service))
       | Some addr => match dial addr with
                      | Err e => Some (wrapf (service +:+ " is not answering on " +:+ addr +:+ ": ") e)
                      | Ok _ => None
                      end
       end.

(** The agent's half, for a stream that brings the service's name and [up]. *)
Lemma handleForward_answers service br up :
  line_text service = true → remaining br = (service +:+ nl) +:+ up →
  ∃ o, handleForward services dial br (mkWriter "" []) = (o, mkWriter (status_line (forward_cause service) +:+ nl) []) ∧
    (∀ addr, service ≠ ServiceDev → services !! service = Some addr → dial addr = Ok () → o = FPiped addr (start_pipe up "")) ∧
    (forward_cause service ≠ None → ∀ addr p, o ≠ FPiped addr p) ∧
    (∀ addr p, o = FPiped addr p → p = start_pipe up "").
Proof.
  intros Hl Hr. destruct (read_line_text br service up Hl Hr) as (br' & Hrd & Htrim & Hbr').
  assert (ReadForwardTarget br = (Ok service, br')) as Ht.
  { unfold ReadForwardTarget, mbind, M_bind. rewrite Hrd, Htrim. unfold line_text in Hl. bool_prop.
    by rewrite (proj2 (String.eqb_neq _ _)). }
  unfold handleForward, forward_cause. rewrite Ht.
  destruct (String.eqb_spec service ServiceDev) as [->|Hdev]; [by eexists; rewrite WriteForwardStatus_line|].
  destruct (services !! service) as [addr|]; [|by eexists; rewrite WriteForwardStatus_line].
  destruct (dial addr) as [[]|e] eqn:Ed; eexists; rewrite WriteForwardStatus_line; cbv beta iota.
  - split_and!; [done| |done|]; [intros addr' _ [= <-] _|intros addr' p [= _ <-]]; by rewrite Hbr'.
  - split_and!; [done| |done|done]. by intros addr' _ [= <-] Hd; rewrite Ed in Hd.
Qed.

(** C15: A connection forwarded to a service of an online agent that the machine has to
    dial.  If it offers the service and it answers, the operator's bridge, the
    relay's and the agent's pipe are joined, and in every interleaving of their six
    copies each side has been given, in order, the beginning of what the other
    said and not a byte else, the bytes that came with the target and with the
    answer included.  As long as nothing that direction needs has ended, the rest is
    still on its way: it can arrive within three steps, and comes to a halt only when
    all of it has; for what comes down that is so even when the client has said all
    it has to say.  At any time the three can be brought to their end, after which
    everything is closed and nothing moves.  If it does not offer it, or it does not
    answer, the machine connects to nothing, nothing is copied, and the operator is
    told why, in the agent's own words where they fit on a line. *)
Theorem forward_end_to_end r sess (s : Server W) t1 t2 tcp ahead up said :
  let service := PathValue r "service" in let id := PathValue r "id" in
  Session id (sv_registry s) = Some sess → opens sess →
  line_text service = true → ContainsAny service [13; 10]%N = false →
  ∃ opening s', relay_handleForward r (Ok ()) t1 t2 s = (Ok (BBridged sess opening), s') ∧
    ∀ br (w : WA) term, remaining br = opening +:+ ahead →
    ∃ o out, handleStream ds services dial term br (mkWriter "" []) w = ((SForward o, out), w) ∧
    (∀ addr, service ≠ ServiceDev → services !! service = Some addr → dial addr = Ok () →
       o = FPiped addr (start_pipe ahead "")) ∧
    (forward_cause service ≠ None → ∀ addr p, o ≠ FPiped addr p) ∧
    ∀ remote, remaining remote = w_buf out +:+ said →
    match bridge WsOpen remote tcp up, forward_cause service with
    | BridgeCarried tcp' operator, None => tcp' = tcp ∧
        ∀ addr agent, o = FPiped addr agent → ∀ later evs wy,
        way_run tcp id evs (way_begins operator said later agent) = Some wy →
        ∀ d, let sent := match d with In => ahead +:+ up | Out => said +:+ later end in
        delivered d wy +:+ in_transit d wy = sent ∧
        (forallb (λ ev, negb (ends d ev)) evs = true →
           ((∀ ev, moves d ev = true → way_step tcp id ev wy = None) → delivered d wy = sent) ∧
           ∃ rest wy', way_run tcp id rest wy = Some wy' ∧ (length rest ≤ 3)%nat ∧ forallb (moves d) rest = true ∧
             delivered d wy' = sent) ∧
        (∃ rest wy', way_run tcp id rest wy = Some wy' ∧ (length rest ≤ 10)%nat ∧ way_over wy' = true ∧
           ∀ n, way_step tcp id (AtOperator (Move d n)) wy' = None ∧ way_step tcp id (AtRelay (Move d n)) wy' = None ∧
                way_step tcp id (AtAgent (Move d n)) wy' = None)
    | BridgeAgentRefused e, Some cause => clean_reason (err_text cause) = true → err_text e = err_text cause
    | _, _ => False
    end.
Proof.
  cbn zeta. intros Hs Ho Hl Hc. destruct (relay_handleForward_bridges r sess t1 t2 s Hs Ho Hc) as [s' Hb].
  eexists _, s'. split; [exact Hb|]. intros br w term Hr. rewrite !sapp_assoc in Hr. rewrite <-sapp_assoc in Hr.
  destruct (ReadStreamHeader_line br StreamForward _ ltac:(reflexivity) Hr) as (br' & Hh & Hr').
  rewrite <-sapp_assoc in Hr'. destruct (handleForward_answers _ _ _ Hl Hr') as (o & Hf & Hoff & Hno & Hpipe).
  exists o. eexists. split_and!; [|exact Hoff|exact Hno|].
  - unfold handleStream. rewrite Hh. change (StreamForward =? StreamEcho)%string with false.
    change (StreamForward =? StreamPTY)%string with false. change (StreamForward =? StreamRPC)%string with false.
    change (StreamForward =? StreamForward)%string with true. cbv iota. by rewrite Hf.
  - cbn [w_buf]. intros remote Hrem.
    destruct (ReadForwardStatus_line _ _ _ Hrem) as (res & remote' & Hst & Hrest & Hcause).
    unfold bridge. rewrite Hst. destruct (forward_cause _) as [cause|].
    + by destruct Hcause as (e' & -> & He).
    + rewrite Hcause, WithBuffered_remaining, Hrest. split; [done|]. intros addr agent Hag later evs wy Hw d.
      rewrite (Hpipe _ _ Hag) in Hw. by eapply way_carries.
Qed.
End through.

(** ** Witnesses *)
Section witnesses.
  Import ToyMachine.

Definition on_lab1 (service : string) : Request :=
  mkRequest "/api/agents/lab-1/x" ∅ "10.0.0.1:1" None [] ∅ {["id" := "lab-1"; "service" := service]} "".

Lemma terminal_end_to_end_witness :
  let inputs := [Typed "ls" false; Resized (Ok (100, 70000)); Typed nl true; Typed "lost" false] in
  ∃ opening s', handleShell (on_lab1 "") (Ok ()) 1 2 relay = (Ok (BBridged 2 opening), s') ∧
    ∀ br (w : box), remaining br = opening +:+ w_buf (ssh_send (Ok (80, 24)) inputs (mkWriter "" [])) →
      handleStream (λ t, itoa t) defaultServices (λ _, Ok ()) (Ok (mkTerm [] [])) br (mkWriter "" []) w
      = ((SPty (Some (mkTerm [TResize 80 24; TWriteKeys "ls"; TResize 100 4464; TWriteKeys nl] [])),
          mkWriter "" []), w).
Proof.
  intros inputs.
  apply (terminal_end_to_end (WA := box) (λ t, itoa t) defaultServices (λ _, Ok ()) (on_lab1 "") 2 relay 1 2
           (Ok (80, 24)) inputs); [vm_compute; reflexivity|intros w; reflexivity|vm_compute; reflexivity].
Defined.

(** The client says its piece and closes its side; what the service has to say still
    reaches it. *)
Lemma forward_end_to_end_witness :
  ∃ opening s', relay_handleForward (on_lab1 "ssh") (Ok ()) 1 2 relay = (Ok (BBridged 2 opening), s') ∧
    ∀ br (w : box), remaining br = opening +:+ "" →
    ∃ o out, handleStream (λ t, itoa t) defaultServices (λ _, Ok ()) (Ok (mkTerm [] [])) br (mkWriter "" []) w
             = ((SForward o, out), w) ∧ o = FPiped "127.0.0.1:22" (start_pipe "" "") ∧
    ∀ remote, remaining remote = w_buf out +:+ "SSH-2" →
    ∃ operator, bridge WsOpen remote true "SSH-2.0-me" = BridgeCarried true operator ∧
      ∀ wy, way_run true "lab-1" [AtOperator (Move In 10); AtOperator (End In None); AtRelay (Move In 8); AtAgent (Move In 8)]
              (way_begins operator "SSH-2" ".0-it" (start_pipe "" "")) = Some wy →
      ∃ rest wy', way_run true "lab-1" rest wy = Some wy' ∧ delivered Out wy' = "SSH-2.0-it".
Proof.
  pose proof (forward_end_to_end (WA := box) (λ t, itoa t) defaultServices (λ _, Ok ()) (on_lab1 "ssh") 2 relay 1 2
    true "" "SSH-2.0-me" "SSH-2") as Hf. cbn zeta in Hf.
  destruct Hf as (opening & s' & Hb & Hf);
    [vm_compute; reflexivity|intros w; reflexivity|vm_compute; reflexivity|vm_compute; reflexivity|].
  exists opening, s'. split; [exact Hb|]. intros br w Hr.
  destruct (Hf br w (Ok (mkTerm [] [])) Hr) as (o & out & Hh & Ho & _ & Hbr). exists o, out. split; [exact Hh|].
  assert (o = FPiped "127.0.0.1:22" (start_pipe "" "")) as Hpiped by (apply Ho; [discriminate|reflexivity..]).
  split; [exact Hpiped|]. intros remote Hrem. specialize (Hbr remote Hrem).
  change (forward_cause defaultServices (λ _, Ok ()) (PathValue (on_lab1 "ssh") "service")) with (@None error) in Hbr.
  destruct (bridge _ _ _ _) as [| | | |tcp operator]; try contradiction. destruct Hbr as [-> Hway].
  exists operator. split; [done|]. intros wy Hw. destruct (Hway _ _ Hpiped ".0-it" _ wy Hw Out) as (_ & Hflow & _).
  destruct (Hflow ltac:(vm_compute; reflexivity)) as (_ & rest & wy' & Hrun & _ & _ & Hd). by exists rest, wy'.
Defined.
End witnesses.
