(* ===== verification/Control.v ===== *)
(** * The control socket (client/control.go: serveControl, fetchStatus;
    client/paths.go: the Windows halves)

    The agent serves its state on the first of the candidate sockets it can
    create; [beacon status] asks each of them in turn.  [ControlSockets] is what
    the operating system and net/http make of a path. *)

From Stdlib Require Import Ascii.
From S2P Require Import Prelude GoStrings GoNum Interfaces Host ClientConfig Wire AgentLoop.

Open Scope string_scope.
Open Scope list_scope.
Open Scope Z_scope.

Definition errAgentNotRunning : error := errorf "agent is not running".

Definition maxSocketPath : Z := 100.

(** [cs_Remove] is [os.Remove], whose error is not looked at; [cs_Listen] is
    [net.Listen] with the server that answers on it; [cs_Get] a GET of /status
    through the socket, within two seconds: the body. *)
Class ControlSockets (W : Type) := {
  cs_Remove : string → W → W;
  cs_Listen : string → M W ();
  cs_Chmod : string → M W ();
  cs_Get : string → W → res string
}.

(** ** Where things are on Windows *)
Section windows_paths.
  Context (sr : Surroundings).

Definition env_or (k fallback : string) : string :=
  let d := default "" (sr_env sr !! k) in if negb (d =? "")%string then d else fallback.
Definition programData : string := env_or "ProgramData" "C:\ProgramData".
Definition programFiles : string := env_or "ProgramFiles" "C:\Program Files".

(** [filepath.Join] there. *)
Context (win_Join : list string → string).

Definition win_machineConfigPath : string := win_Join [programData; "beacon"; "config.json"].
Definition win_userConfigPath : string :=
  let dir := default "" (sr_env sr !! "APPDATA") in
  if (dir =? "")%string then "" else win_Join [dir; "beacon"; "config.json"].
Definition win_installPath : string := win_Join [programFiles; "beacon"; "beacon.exe"].
Definition win_socketPaths : list string :=
  let p := default "" (sr_env sr !! "BEACON_SOCKET") in
  if negb (p =? "")%string then [p]
  else win_Join [programData; "beacon"; "control.sock"]
       :: match sr_UserConfigDir sr with
          | Ok dir => [win_Join [dir; "beacon"; "control.sock"]]
          | Err _ => []
          end.
End windows_paths.

Section control.
  Context {W : Type} `{FileSystem W} `{ControlSockets W} `{JSON statusPayload}.

Definition too_long (path : string) : bool := maxSocketPath <=? len path.
Definition errTooLong (path : string) : error :=
  errorf ("socket path is " +:+ itoa (len path) +:+ " characters, the limit is " +:+ itoa maxSocketPath +:+ ": " +:+ path).

(** The socket it listens on, or the last reason why there is none. *)
Fixpoint serve_on (paths : list string) (lastErr : option error) (w : W) : (string * option error) * W :=
  match paths with
  | [] => (("", lastErr), w)
  | path :: paths =>
      if too_long path then serve_on paths (Some (errTooLong path)) w
      else
        match fs_MkdirAll (filepath_Dir path) w with
        | (Err e, w) => serve_on paths (Some e) w
        | (Ok _, w) =>
            match cs_Listen path (cs_Remove path w) with
            | (Err e, w) => serve_on paths (Some e) w
            | (Ok _, w) => ((path, None), snd (cs_Chmod path w))
            end
        end
  end.
Definition serveControl (socketPaths : list string) : W → (string * option error) * W := serve_on socketPaths None.

(** What the shutdown goroutine leaves of the socket. *)
Definition control_shutdown (path : string) : W → W := cs_Remove path.

Fixpoint fetchStatus (socketPaths : list string) (w : W) : res (statusPayload * string) :=
  match socketPaths with
  | [] => Err errAgentNotRunning
  | path :: paths =>
      if too_long path then fetchStatus paths w
      else
        match cs_Get path w with
        | Err _ => fetchStatus paths w
        | Ok body =>
            match Decode body with
            | Err _ => fetchStatus paths w
            | Ok out => Ok (out, path)
            end
        end
  end.

(** ** What status shows *)

(** [serving w path]: this agent answers on the path, with what [report] says. *)
Class ControlSocketLaws (serving : W → string → Prop) (report : W → statusPayload) := {
  csl_listen path w w' : cs_Listen path w = (Ok (), w') → serving w' path;
  csl_chmod path q w : serving w path → serving (snd (cs_Chmod q w)) path;
  csl_get path w data : serving w path → Marshal (report w) = Ok data → cs_Get path w = Ok (data +:+ nl)
}.

Context {serving : W → string → Prop} {report : W → statusPayload} `{!ControlSocketLaws serving report}.
Context {wf : statusPayload → Prop} `{!JSONLaws statusPayload wf}.

Lemma serve_on_serving paths lastErr path w w' :
  serve_on paths lastErr w = ((path, None), w') → is_Some lastErr ∨ paths ≠ [] →
  ∃ before after, paths = before ++ path :: after ∧ too_long path = false ∧ serving w' path.
Proof.
  revert lastErr w. induction paths as [|p paths IH]; intros lastErr w Hr Hne.
  { cbn in Hr. destruct Hne as [[e ->]|]; done. }
  assert (∀ e w1, serve_on paths (Some e) w1 = ((path, None), w') →
          ∃ before after, p :: paths = before ++ path :: after ∧ too_long path = false ∧ serving w' path) as Hnext.
  { intros e w1 Hr1. destruct (IH (Some e) w1 Hr1) as (b & a & -> & ? & ?); [left; by eexists|].
    by exists (p :: b), a. }
  cbn [serve_on] in Hr. destruct (too_long p) eqn:El; [by eapply Hnext|].
  destruct (fs_MkdirAll _ w) as [[[]|e] w1]; [|by eapply Hnext].
  destruct (cs_Listen p (cs_Remove p w1)) as [[[]|e] w2] eqn:Ec; [|by eapply Hnext].
  injection Hr as <- <-. exists [], paths. split_and!; [done..|]. by eapply csl_chmod, csl_listen.
Qed.

(** No path is asked that was not tried, and the first that answers is believed. *)
Lemma fetchStatus_found before path after w st :
  too_long path = false → serving w path → report w = st → wf st →
  ∃ out p, fetchStatus (before ++ path :: after) w = Ok (out, p) ∧
    (Forall (λ q, too_long q = true ∨ is_ok (cs_Get q w) = false) before → (out, p) = (st, path)) ∧
    p ∈ before ++ [path].
Proof.
  intros Hl Hs <- Hwf. destruct (Marshal_ok _ Hwf) as [data Hd].
  induction before as [|q before IH]; cbn [app fetchStatus].
  - rewrite Hl, (csl_get _ _ _ Hs Hd), (Decode_line _ _ Hwf Hd). eexists _, _. split_and!; [done..|]. by left.
  - destruct IH as (out & p & -> & Hout & Hp).
    assert (∃ out0 p0, Ok (out, p) = Ok (out0, p0) ∧
      (Forall (λ r, too_long r = true ∨ is_ok (cs_Get r w) = false) (q :: before) → (out0, p0) = (report w, path)) ∧
      p0 ∈ q :: before ++ [path]) as Hskip.
    { exists out, p. split_and!; [done| |by right]. intros Hall. apply Hout. by apply Forall_cons in Hall as [_ ?]. }
    destruct (too_long q) eqn:Eq; [done|]. destruct (cs_Get q w) as [body|e] eqn:Eg; [|done].
    destruct (Decode body) as [got|e]; [|done]. exists got, q. split_and!; [done| |by left].
    intros [[Hq|Hq] _]%Forall_cons; [by rewrite Hq in Eq|by rewrite Eg in Hq].
Qed.

(** C33: [beacon status] finds the agent: whichever of the candidate sockets the agent
    ended up with, as long as it serves it the command gets an answer -- the
    agent's own, unless something else answers on a socket that comes first --
    and never from a path an agent would not have tried. *)
Theorem status_finds_the_agent paths path w w' :
  paths ≠ [] → serveControl paths w = ((path, None), w') →
  serving w' path ∧
  ∀ w2, serving w2 path → wf (report w2) →
  ∃ before after out p, paths = before ++ path :: after ∧ fetchStatus paths w2 = Ok (out, p) ∧ p ∈ before ++ [path] ∧
    (Forall (λ q, too_long q = true ∨ is_ok (cs_Get q w2) = false) before → out = report w2 ∧ p = path).
Proof.
  intros Hne Hr. destruct (serve_on_serving _ _ _ _ _ Hr) as (before & after & -> & Hl & Hs); [by right|].
  split; [done|]. intros w2 Hs2 Hwf.
  destruct (fetchStatus_found before path after w2 _ Hl Hs2 eq_refl Hwf) as (out & p & Hf & Hout & Hp).
  exists before, after, out, p. split_and!; [done..|]. intros Hall. by injection (Hout Hall) as -> ->.
Qed.
End control.

(** ** A machine with sockets *)
#[export] Instance statusPayload_eq_dec : EqDecision statusPayload.
Proof. solve_decision. Defined.
#[export] Instance statusPayload_countable : Countable statusPayload.
Proof.
  by refine (inj_countable'
    (λ s, (sp_Version s, sp_AgentID s, sp_Server s, sp_ConfigPath s, sp_PID s, sp_StartedAt s, sp_Connected s,
           sp_Connecting s, sp_Since s, sp_RTTNanos s, sp_Streams s, sp_BytesIn s, sp_BytesOut s, sp_LastError s,
           sp_NextRetry s))
    (λ '(a, b, c, d, e, f, g, h, i, j, k, l, m, n, o), mkStatus a b c d e f g h i j k l m n o) _); intros [].
Defined.

Module Sock.
(** Which process listens where, the directories one may not write to, and the
    process that acts. *)
Record t := mk { owner : gmap string Z; denied : list string; me : Z }.
Definition as_process (z : Z) (w : t) : t := mk (owner w) (denied w) z.

Definition status_of (pid : Z) : statusPayload :=
  mkStatus "v1" "lab-1" "https://relay" "" pid 0 false true 0 None 0 0 0 "" None.

Definition allowed (path : string) (w : t) : bool := bool_decide (filepath_Dir path ∉ denied w).

#[export] Instance codec : JSON statusPayload := ToyJSON.toy_json statusPayload.
#[export] Instance codec_laws : JSONLaws statusPayload (λ _, True) := ToyJSON.toy_json_laws statusPayload.

#[export] Instance files : FileSystem t := {|
  fs_ReadFile p _ := Err (errNotExist p);
  fs_WriteFile p _ := mthrow (errorf "read-only");
  fs_MkdirAll p w := ((if decide (p ∈ denied w) then Err (errorf "permission denied") else Ok ()), w)
|}.

#[export] Instance sockets : ControlSockets t := {|
  cs_Remove p w := if allowed p w then mk (delete p (owner w)) (denied w) (me w) else w;
  cs_Listen p w :=
    match owner w !! p with
    | Some _ => (Err (errorf "bind: address already in use"), w)
    | None => (Ok (), mk (<[p := me w]> (owner w)) (denied w) (me w))
    end;
  cs_Chmod _ w := (Ok (), w);
  cs_Get p w :=
    match owner w !! p with
    | None => Err (errorf "connect: no such file or directory")
    | Some pid => match Marshal (status_of pid) with Ok s => Ok (s +:+ nl) | Err e => Err e end
    end
|}.

Definition serving (w : t) (p : string) : Prop := owner w !! p = Some (me w).

#[export] Instance laws : ControlSocketLaws serving (λ w, status_of (me w)).
Proof.
  split; unfold serving.
  - intros p w w'. cbn. destruct (owner w !! p); [done|]. intros [= <-]. cbn. apply lookup_insert_eq.
  - done.
  - intros p w data Hs Hd. cbn [cs_Get sockets]. by rewrite Hs, Hd.
Qed.

Definition candidates : list string := ["/run/beacon.sock"; "/home/ana/.config/beacon/control.sock"].
Definition unprivileged : t := mk {["/run/beacon.sock" := 1]} ["/run"] 2.
Definition service : t := mk ∅ [] 1.
End Sock.

Section witnesses.
  Import Sock.

Lemma status_finds_the_agent_witness :
  let w := Sock.as_process 7 (Sock.mk ∅ ["/run"] 1) in
  let w' := snd (serveControl Sock.candidates w) in
  Sock.serving w' "/home/ana/.config/beacon/control.sock" ∧
  ∀ w2, Sock.serving w2 "/home/ana/.config/beacon/control.sock" → True →
  ∃ before after out p, Sock.candidates = before ++ "/home/ana/.config/beacon/control.sock" :: after ∧
    fetchStatus Sock.candidates w2 = Ok (out, p) ∧ p ∈ before ++ ["/home/ana/.config/beacon/control.sock"] ∧
    (Forall (λ q, too_long q = true ∨ is_ok (cs_Get q w2) = false) before →
     out = Sock.status_of (Sock.me w2) ∧ p = "/home/ana/.config/beacon/control.sock").
Proof.
  intros w w'. apply (status_finds_the_agent (wf := λ _, True) candidates _ w); [done|]. vm_compute. reflexivity.
Defined.

(** A second agent started with the same rights -- [beacon run] by hand on a
    machine whose service is up -- removes the socket the first one serves, takes
    its place, and leaves none when it stops: the service runs on, and [beacon
    status] says that no agent is running. *)
Lemma second_agent_blinds_status :
  let w1 := snd (serveControl Sock.candidates Sock.service) in
  let '((path, err), w2) := serveControl Sock.candidates (Sock.as_process 2 w1) in
  fetchStatus Sock.candidates w1 = Ok (Sock.status_of 1, "/run/beacon.sock") ∧
  err = None ∧ fetchStatus Sock.candidates w2 = Ok (Sock.status_of 2, "/run/beacon.sock") ∧
  fetchStatus Sock.candidates (control_shutdown path w2) = Err errAgentNotRunning.
Proof. vm_compute. done. Qed.
End witnesses.
