(* ===== verification/Agent.v ===== *)
(** * The agent process (client/run.go: runAgent, cmdRun; client/updateapply.go:
    isServiceInstance, updateTarget)

    The start of the agent, with the loop of AgentLoop.v around the sessions of
    AgentSession.v.  The panel a person sees and the log lines are left out. *)

From Stdlib Require Import Ascii.
From S2P Require Import Prelude GoStrings GoNum GoBase64 Interfaces Host.
From S2P Require Import Wire AgentRpc AgentStream Updater.
From S2P Require Import ClientURLs ClientConfig AgentLoop Identity AgentSession Service Control.

Open Scope string_scope.
Open Scope list_scope.
Open Scope Z_scope.

Section agent.
  Context {CertPool W : Type} `{ClientHost W} `{Platform W} `{X509 CertPool} `{Internet CertPool W}
    `{Network CertPool W} `{URLParser} `{ClientJSON} `{Ed25519} `{ControlSockets W} `{JSON Config}.
  Context (sr : Surroundings) (GOOS GOARCH version : string) (pid : Z).
  (** [os.Executable], [filepath.EvalSymlinks] and [os.SameFile]. *)
  Context (self : res string) (resolve : string → res string) (SameFile : string → string → W → bool).

(** ** Which binary is the agent *)
Definition resolved_exe : res string :=
  exe ← self;
  Ok (match resolve exe with Ok r => r | Err _ => exe end).

Definition updateTarget : M W string :=
  st ← ask serviceStatus;
  if bool_decide (snd st = None) && Installed (fst st) then mret installPath else mlift resolved_exe.

Definition sameFile (a b : string) (w : W) : bool :=
  is_ok (ch_Stat a w) && is_ok (ch_Stat b w) && SameFile a b w.

Definition isServiceInstance : M W bool :=
  st ← ask serviceStatus;
  if negb (bool_decide (snd st = None)) || negb (Installed (fst st)) then mret false
  else match resolved_exe with
       | Err _ => mret false
       | Ok exe => read (sameFile exe installPath)
       end.

(** ** Starting *)

(** What [runAgent] has before its loop. *)
Record Started := mkStarted {
  ag_priv : string;
  ag_tls : TLSConfig CertPool;
  ag_hello : Hello;
  ag_services : gmap string string;
  ag_state : agentState;
  ag_socket : string * option error;
  ag_updates : option string                   (* the binary the update loop watches *)
}.

(** [gen] is what [ed25519.GenerateKey] would return, the clock is read twice by
    [newAgentState]; [order] is the order the range over the services takes. *)
Definition startAgent (gen : res string) (order : list (string * string)) (now1 now2 : Z) (cfg : resolved)
    : M W (Config * Started) := λ w,
  ('(priv, c) ← mlift (ensureKeypair gen (rv_Config cfg));
   tlsCfg ← mlift (tlsConfig (CAFile c) w);
   let hello := mkHello (AgentID c) (sr_Hostname sr) GOOS GOARCH version in
   let path := if rv_exists cfg then rv_path cfg else "" in
   let st := newAgentState version (AgentID c) (Server c) path pid now1 now2 in
   sock ← ask (serveControl socketPaths);
   mine ← (if autoUpdate c then isServiceInstance else mret false);
   target ← (if (mine : bool) then attempt updateTarget else mret (Err (errorf "not the service")));
   mret (c, mkStarted priv tlsCfg hello (setServices order) st sock
              (match target with Ok t => Some t | Err _ => None end))) w.

(** ** The loop over real sessions

    The clock, the randomness and the cancellations of a turn are the [Attempt];
    what its session does is computed. *)
Definition with_session (x : option Established * res ()) (a : Attempt) : Attempt :=
  mkAttempt (at_start a) (fst x) (Returned (snd x)) (at_end a) (at_rand a) (at_now a)
    (at_cancelled a) (at_cancelled_in_session a) (at_cancelled_in_pause a).

Fixpoint agent_turns (c : Config) (ag : Started) (turns : list (Attempt * Tunnel_life)) (l : Loop) (w : W)
    : Loop * W :=
  match turns with
  | [] => (l, w)
  | (a, life) :: turns =>
      if at_cancelled a then (l, w)
      else
        let '(x, w) := session_attempt c (ag_priv ag) (ag_hello ag) (ag_tls ag) life w in
        match turn (with_session x a) l with
        | (Some l, _) => agent_turns c ag turns l w
        | (None, l) => (l, w)
        end
  end.

Definition runAgent (gen : res string) (order : list (string * string)) (now1 now2 : Z) (cfg : resolved)
    (turns : list (Attempt * Tunnel_life)) : M W (Started * Loop) :=
  '(c, ag) ← startAgent gen order now1 now2 cfg;
  l ← ask (agent_turns c ag turns (mkLoop minBackoff (ag_state ag) []));
  mret (ag, l).

Definition cmdRun (flags : list (string * string)) (gen : res string) (order : list (string * string))
    (now1 now2 : Z) (turns : list (Attempt * Tunnel_life)) : M W (Started * Loop) := λ w,
  match loadConfig sr flags w with
  | Err e => (Err e, w)
  | Ok cfg => runAgent gen order now1 now2 cfg turns w
  end.

(** ** The real loop is the abstract one *)

(** The sessions of a run, in order. *)
Fixpoint sessions_of (c : Config) (ag : Started) (turns : list (Attempt * Tunnel_life)) (w : W) : list Attempt :=
  match turns with
  | [] => []
  | (a, life) :: turns =>
      if at_cancelled a then [a]
      else
        let '(x, w) := session_attempt c (ag_priv ag) (ag_hello ag) (ag_tls ag) life w in
        with_session x a :: sessions_of c ag turns w
  end.

Lemma startAgent_ok gen order now1 now2 cfg priv c tlsCfg w :
  ensureKeypair gen (rv_Config cfg) = Ok (priv, c) → tlsConfig (CertPool := CertPool) (CAFile c) w = Ok tlsCfg →
  ∃ ag w1, startAgent gen order now1 now2 cfg w = (Ok (c, ag), w1) ∧
    ag_socket ag = fst (serveControl socketPaths w) ∧
    ∃ path, ag_state ag = newAgentState version (AgentID c) (Server c) path pid now1 now2.
Proof.
  intros Hk Ht. unfold startAgent. rewrite Hk. erewrite bind_ok by reflexivity. cbn beta iota. rewrite Ht.
  erewrite bind_ok by reflexivity. cbn zeta. unfold ask at 1.
  destruct (serveControl socketPaths w) as [sock w1] eqn:Es. erewrite bind_ok; [|by rewrite Es].
  assert (∃ b w2, (if autoUpdate c then isServiceInstance else mret false) w1 = (Ok b, w2)) as (b & w2 & Hb).
  { destruct (autoUpdate c); [|by eexists _, _]. unfold isServiceInstance, ask.
    destruct (serviceStatus w1) as [st w2] eqn:Est. erewrite bind_ok; [|by rewrite Est].
    destruct (_ || _); [by eexists _, _|]. destruct resolved_exe; by eexists _, _. }
  rewrite (bind_ok _ _ _ _ _ Hb).
  assert (∃ t w3, (if b then attempt updateTarget else mret (Err (errorf "not the service"))) w2 = (Ok t, w3))
    as (t & w3 & Hu).
  { destruct b; [|by eexists _, _]. unfold attempt. destruct (updateTarget w2) as [r w3]. by eexists _, _. }
  rewrite (bind_ok _ _ _ _ _ Hu). eexists _, _. split; [reflexivity|]. split; [done|]. by eexists.
Qed.

Lemma turn_cancelled a l : at_cancelled a = true → turn a l = (None, l).
Proof. intros Ha. unfold turn. by rewrite Ha. Qed.

Lemma agent_turns_refines c ag turns l w :
  fst (agent_turns c ag turns l w) = superviseLoop (sessions_of c ag turns w) l.
Proof.
  revert l w. induction turns as [|[a life] turns IH]; intros l w; [done|]. cbn [agent_turns sessions_of].
  destruct (at_cancelled a) eqn:Ea.
  { cbn [superviseLoop fst]. by rewrite turn_cancelled. }
  destruct (session_attempt c _ _ _ life w) as [x w1]. cbn [superviseLoop].
  destruct (turn (with_session x a) l) as [[l'|] l2]; [apply IH|done].
Qed.

(** Whatever the network, the relay and the clock do, what a running agent shows
    of itself is reached from its start by the steps of its life cycle. *)
Lemma runAgent_reaches gen order now1 now2 cfg turns w ag l w' :
  runAgent gen order now1 now2 cfg turns w = (Ok (ag, l), w') →
  (∃ path, ag_state ag = newAgentState version (AgentID (rv_Config cfg)) (Server (rv_Config cfg)) path pid now1 now2) ∧
  rtc st_step (ag_state ag) (lp_state l).
Proof.
  unfold runAgent. intros ([c ag'] & w1 & Hs & Hl)%M_bind_ok_inv. apply M_bind_ok_inv in Hl as (l' & w2 & Ht & Hl).
  injection Hl as -> -> _.
  assert (∃ path, ag_state ag = newAgentState version (AgentID (rv_Config cfg)) (Server (rv_Config cfg)) path pid now1 now2)
    as Hst.
  { unfold startAgent in Hs. apply M_bind_ok_inv in Hs as ([priv c'] & ? & Hk & Hs).
    unfold mlift in Hk. injection Hk as Hk _. destruct (ensureKeypair_keeps _ _ _ _ Hk) as (Hsv & _ & Hid & _).
    apply M_bind_ok_inv in Hs as (tlsCfg & ? & _ & Hs). apply M_bind_ok_inv in Hs as (sock & ? & _ & Hs).
    apply M_bind_ok_inv in Hs as (mine & ? & _ & Hs). apply M_bind_ok_inv in Hs as (tgt & ? & _ & Hs).
    injection Hs as <- <- _. cbn [ag_state]. rewrite Hid, Hsv. by eexists. }
  split; [done|]. unfold ask in Ht.
  destruct (agent_turns c ag turns _ w1) as [l1 w3] eqn:Ea. injection Ht as -> _.
  assert (l = superviseLoop (sessions_of c ag turns w1) (mkLoop minBackoff (ag_state ag) [])) as ->.
  { pose proof (agent_turns_refines c ag turns (mkLoop minBackoff (ag_state ag) []) w1) as Hr. by rewrite Ea in Hr. }
  destruct Hst as [path Hst]. apply (superviseSessions_steps _ (ag_state ag)). by rewrite Hst.
Qed.

(** ** An agent nobody enrolled *)
Definition not_enrolled : error := errorf "this agent is not enrolled: run `beacon enroll` on this machine".

Lemma unenrolled_attempt c priv hello tlsCfg life w :
  Assertion c = "" → session_attempt c priv hello tlsCfg life w = ((None, Err not_enrolled), w).
Proof. intros Ha. unfold session_attempt, identityHeaders. by rewrite Ha. Qed.

Lemma turn_failed a l e :
  uncancelled a = true → at_established a = None → at_work a = Returned (Err e) →
  ∀ l' l2, turn a l = (Some l', l2) →
  ∃ next, lp_state l' = disconnected (Some e) next (at_now a) (connecting (lp_state l)).
Proof.
  unfold uncancelled. rewrite negb_true_iff, !orb_false_iff. intros [[H1' H2'] H3'] He Hw l' l2.
  unfold turn. rewrite H1', H2', H3', He, Hw. intros [= <- _]. by eexists.
Qed.

(** Between two attempts. *)
Definition waiting_with (e : error) (s : agentState) : Prop :=
  sp_Connected (st_base s) = false ∧ sp_Connecting (st_base s) = false ∧ st_sess s = None ∧ st_lastError s = err_text e.

Lemma unenrolled_turns c ag turns l w :
  Assertion c = "" → Forall (λ t, uncancelled (fst t) = true ∧ rand_ok (fst t)) turns → paced (lp_backoff l) →
  ∃ l' ds, agent_turns c ag turns l w = (l', w) ∧
    (turns ≠ [] ∨ waiting_with not_enrolled (lp_state l) → waiting_with not_enrolled (lp_state l')) ∧
    lp_delays l' = lp_delays l ++ ds ∧ Forall2 (λ _ d, minBackoff / 2 <= d <= maxBackoff) turns ds.
Proof.
  intros Ha Hall. revert l. induction Hall as [|[a life] turns [Hu Hr] Hall IH]; intros l Hp.
  { exists l, []. cbn [agent_turns]. rewrite app_nil_r. split_and!; [done| |done..]. by intros [?|?]. }
  cbn [agent_turns fst] in *. set (a' := with_session (None, Err not_enrolled) a).
  assert (at_cancelled a = false) as -> by (unfold uncancelled in Hu; by destruct (at_cancelled a)).
  rewrite unenrolled_attempt by done. fold a'.
  destruct (turn_ok a' l Hu Hr Hp) as (l1 & l2 & d & Ht & Hd & Hp1 & Hb & _). rewrite Ht.
  destruct (turn_failed a' l not_enrolled Hu eq_refl eq_refl l1 l2 Ht) as (next & Hst).
  destruct (IH l1 Hp1) as (l' & ds & -> & Hw & Hds & Hf). exists l', (d :: ds).
  rewrite Hds, Hd, <-app_assoc. split_and!; [done| |done|by constructor].
  intros _. apply Hw. right. by rewrite Hst.
Qed.

(** C32: An agent without an identity is not an agent that exits: it starts, serves
    its control socket like any other, and keeps trying -- at the usual pace,
    and without a single word to the relay, the network or the disk --, so that
    [beacon status] has something to talk to and is told what to do. *)
Theorem unenrolled_agent_stays_up gen order now1 now2 cfg kp tlsCfg turns w :
  Assertion (rv_Config cfg) = "" → ensureKeypair gen (rv_Config cfg) = Ok kp →
  tlsConfig (CertPool := CertPool) (CAFile (rv_Config cfg)) w = Ok tlsCfg →
  turns ≠ [] → Forall (λ t, uncancelled (fst t) = true ∧ rand_ok (fst t)) turns →
  ∃ ag l c w1, startAgent gen order now1 now2 cfg w = (Ok (c, ag), w1) ∧
    ag_socket ag = fst (serveControl socketPaths w) ∧
    runAgent gen order now1 now2 cfg turns w = (Ok (ag, l), w1) ∧
    Forall2 (λ _ d, minBackoff / 2 <= d <= maxBackoff) turns (lp_delays l) ∧
    ∀ streams conns, let p := snapshot streams conns (lp_state l) in
      sp_Connected p = false ∧ sp_Connecting p = false ∧ sp_Streams p = 0 ∧ sp_LastError p = err_text not_enrolled.
Proof.
  intros Ha Hk Ht Hne Hall. destruct kp as [priv c].
  destruct (ensureKeypair_keeps _ _ _ _ Hk) as (_ & Hca & _ & _ & Has).
  destruct (startAgent_ok gen order now1 now2 cfg priv c tlsCfg w) as (ag & w1 & Hs & Hsock & path & Hst);
    [done|by rewrite Hca|].
  destruct (unenrolled_turns c ag turns (mkLoop minBackoff (ag_state ag) []) w1) as (l & ds & Hl & Hw & Hd & Hf);
    [by rewrite Has|done|done|].
  exists ag, l, c, w1. split_and!; [done..| |by rewrite Hd|].
  - unfold runAgent. rewrite (bind_ok _ _ _ _ _ Hs). cbn beta iota. unfold ask, mbind, M_bind. by rewrite Hl.
  - intros streams conns. destruct Hw as (Hc & Hcg & Hns & He); [by left|].
    assert (consistent (lp_state l)) as [_ _ _ _ Hbase].
    { eapply (invariant_star st_step consistent); [exact consistent_step| |].
      - apply (runAgent_reaches gen order now1 now2 cfg turns w ag l w1).
        unfold runAgent. rewrite (bind_ok _ _ _ _ _ Hs). cbn beta iota. unfold ask, mbind, M_bind. by rewrite Hl.
      - rewrite Hst. split; cbn; done. }
    unfold snapshot. rewrite Hns. cbn. by injection Hbase as _ -> _ _.
Qed.
End agent.

(** ** Witnesses *)
Section witnesses.
  Local Existing Instances ToyCrypto.toy_ed25519.
  Import Unix.

#[local] Instance no_network : Network () t := {|
  nw_Dial _ _ := mthrow (errorf "network is unreachable");
  nw_SetDeadline := mret ();
  nw_Write _ _ := mret ();
  nw_ReadResponse := mthrow ErrorEOF;
  nw_ClearDeadline := mret ();
  nw_Close w := w
|}.
#[local] Instance no_sockets : ControlSockets t := {|
  cs_Remove _ w := w;
  cs_Listen _ w := (Ok (), w);
  cs_Chmod _ w := (Ok (), w);
  cs_Get _ _ := Err ErrorEOF
|}.

Definition quiet_turn : Attempt * Tunnel_life :=
  (mkAttempt 0 None (Returned (Ok ())) 1 0 1 false false false, mkLife (Err ErrorEOF) 0 0 (Err ErrorEOF) [] ErrorEOF).

Definition no_identity : resolved := mkResolved (defaultConfig here) ∅ "" false.

Lemma unenrolled_agent_stays_up_witness :
  ∃ ag l c w1,
    startAgent (H1 := unix "linux" here) (CertPool := ()) here "linux" "amd64" "v1" 7 (Ok self) Ok (λ _ _ _, true)
      (Ok (pad_to 64 "seed")) [] 1 2 no_identity fresh = (Ok (c, ag), w1) ∧
    ag_socket ag = ("/run/beacon.sock", None) ∧
    runAgent (H1 := unix "linux" here) (CertPool := ()) here "linux" "amd64" "v1" 7 (Ok self) Ok (λ _ _ _, true)
      (Ok (pad_to 64 "seed")) [] 1 2 no_identity [quiet_turn; quiet_turn] fresh = (Ok (ag, l), w1) ∧
    Forall2 (λ _ d, minBackoff / 2 <= d <= maxBackoff) [quiet_turn; quiet_turn] (lp_delays l) ∧
    ∀ streams conns, let p := snapshot streams conns (lp_state l) in
      sp_Connected p = false ∧ sp_Connecting p = false ∧ sp_Streams p = 0 ∧ sp_LastError p = err_text not_enrolled.
Proof.
  change ("/run/beacon.sock", @None error) with (fst (serveControl (@socketPaths t (unix "linux" here)) fresh)).
  eapply (unenrolled_agent_stays_up (H1 := unix "linux" here) (CertPool := ())); [reflexivity|vm_compute; reflexivity|reflexivity|done|].
  repeat constructor; vm_compute; discriminate.
Defined.
End witnesses.
