(* ===== verification/AutoUpdate.v ===== *)
(** * Unattended updates (client/updateapply.go: autoUpdateLoop,
    cmdRestartAfterUpdate, jitterAround)

    The hourly loop around [autoUpdateOnce] of Updater.v, over any number of
    rounds in which releases, streams and system calls do what they like. *)

From S2P Require Import Prelude GoStrings GoNum Interfaces Wire AgentLoop Updater.

Open Scope string_scope.
Open Scope list_scope.
Open Scope Z_scope.

(** ** The waits

    [jitterAround]: [0.75] plus half of [u / 2^53], a number between [0.75] and
    [1.25], whose spacing as a [float64] is [2^-53] below one and twice that
    above; then the product, and the truncation. *)
Definition spread (u : Z) : Z :=
  let n := 3 * 2 ^ 52 + u in
  if n <? 2 ^ 54 then div_rne n 2 else 2 * div_rne n 4.
Definition jitterAround (u d : Z) : Z := round53 (d * spread u) / 2 ^ 53.

Definition autoUpdateInterval : Z := Hour.
Definition helperGrace : Z := 2 * Second.

(** An hour later: what the releases look like by then, the streams in use, the
    result of [spawnRestartHelper], and the random number the wait was drawn
    with. *)
Record Round := mkRound {
  rd_fetch : string → res Fetched;
  rd_fetch_raw : string → res Fetched;
  rd_streams : res Z;
  rd_helper : res ();
  rd_rand : Z
}.

Section updates.
  Context (sha256_hex : string → string) (GOOS GOARCH version : string).

Definition update_round (target : string) (r : Round) (m : Machine) : Machine :=
  snd (autoUpdateOnce (rd_fetch r) (rd_fetch_raw r) sha256_hex GOOS GOARCH version target (rd_streams r)
         (rd_helper r) m).

(** The rounds until the agent is stopped: the waits, and the machine. *)
Definition autoUpdateLoop (target : string) (rounds : list Round) (m : Machine) : list Z * Machine :=
  ((λ r, jitterAround (rd_rand r) autoUpdateInterval) <$> rounds,
   fold_left (λ m r, update_round target r m) rounds m).

Definition cmdRestartAfterUpdate (target : string) (now : Z) (polls : list (Z * bool)) : M Machine () :=
  if (target =? "")%string then mthrow (errorf "--target is required")
  else restartAndVerify target now polls.
End updates.

(** ** The waits are spread around the hour *)
Lemma spread_bounds u : 0 <= u < 2 ^ 53 → 3 * 2 ^ 51 <= spread u <= 5 * 2 ^ 51.
Proof.
  intros Hu. unfold spread. destruct (Z.ltb_spec (3 * 2 ^ 52 + u) (2 ^ 54)).
  - split; [apply div_rne_lower|apply div_rne_upper]; lia.
  - assert (2 ^ 52 <= div_rne (3 * 2 ^ 52 + u) 4) by (apply div_rne_lower; lia).
    assert (div_rne (3 * 2 ^ 52 + u) 4 <= 5 * 2 ^ 50) by (apply div_rne_upper; lia). lia.
Qed.

Lemma jitterAround_bounds u d : 0 <= u < 2 ^ 53 → 0 <= d < 2 ^ 48 → 3 * d / 4 <= jitterAround u d <= 5 * d / 4.
Proof.
  intros Hu Hd. unfold jitterAround. pose proof (spread_bounds u Hu) as Hs. set (m := spread u) in *.
  assert (0 <= d * m < 2 ^ 102) as Hb by nia.
  assert (Z.log2 (d * m) - 52 <= 51) as Hl.
  { destruct (Z.eq_dec (d * m) 0) as [->|]; [done|].
    assert (Z.log2 (d * m) < 102) by (apply Z.log2_lt_pow2; lia). lia. }
  destruct (round53_between (3 * d) (5 * d) 51 (d * m)) as [Hlo Hhi]; [lia..|nia|].
  pose proof (Z.mul_div_le (3 * d) 4). change (2 ^ 53) with (2 ^ 51 * 4). rewrite <-Z.div_div by lia. split.
  - apply Z.div_le_lower_bound; [lia|]. apply Z.div_le_lower_bound; [lia|]. nia.
  - apply Z.div_le_mono; [lia|]. apply Z.div_le_upper_bound; lia.
Qed.

(** ** Histories *)

(** Between two machines the service was left alone and every disk on the way,
    the last included, satisfies [P]. *)
Definition through (P : gmap string string → Prop) (m m' : Machine) : Prop :=
  um_running m' = um_running m ∧ P (um_files m') ∧
  ∃ hs, um_history m' = um_history m ++ hs ∧ Forall (λ h, P h.1) hs.

Lemma through_refl (P : gmap string string → Prop) m : P (um_files m) → through P m m.
Proof. intros Hp. split_and!; [done..|]. exists []. by rewrite app_nil_r. Qed.

Lemma through_trans (P : gmap string string → Prop) m1 m2 m3 : through P m1 m2 → through P m2 m3 → through P m1 m3.
Proof.
  intros (Hr1 & _ & hs1 & Hh1 & Hf1) (Hr2 & Hp & hs2 & Hh2 & Hf2). split_and!; [congruence|done|].
  exists (hs1 ++ hs2). rewrite Hh2, Hh1, app_assoc. split; [done|]. by apply Forall_app.
Qed.

Lemma through_mono (P Q : gmap string string → Prop) m m' : (∀ f, P f → Q f) → through P m m' → through Q m m'.
Proof.
  intros Hpq (Hr & Hp & hs & Hh & Hf). split_and!; [done|by apply Hpq|]. exists hs. split; [done|].
  by eapply Forall_impl; [exact Hf|]; intros ? ?%Hpq.
Qed.

Lemma through_step (P : gmap string string → Prop) m m' : disk_step m m' → P (um_files m') → through P m m'.
Proof. intros [Hr Hh] Hp. split_and!; [done..|]. exists [(um_files m', um_running m')]. split; [done|]. by constructor. Qed.

Lemma through_snoc (P : gmap string string → Prop) m m1 m2 :
  through P m m1 → disk_step m1 m2 → P (um_files m2) → through P m m2.
Proof. intros. eapply through_trans; [done|]. by apply through_step. Qed.

(** ** Replacing a binary that may be missing *)
Section contents.
  Context (exe blob : string) (orig : option string).

Definition holds (f : gmap string string) : Prop :=
  f !! exe = orig ∨ f !! exe = None ∨ f !! exe = Some blob.

Lemma replaceBinary_missing m r m' :
  um_files m !! exe = None → replaceBinary exe blob m = (r, m') → through holds m m'.
Proof.
  intros Hno. destruct (new_ne exe) as (Hn1 & Hn2 & Hn3). unfold replaceBinary.
  assert (∀ f, f !! exe = None → holds f) as Hnone by (by intros f ?; right; left).
  assert (∀ m1 m2 e r' m'', through holds m m1 → disk_step m1 m2 → um_files m2 !! exe = None →
    (os_Remove (exe +:+ ".new");; mthrow (A := ()) e) m2 = (r', m'') → through holds m m'') as Hout.
  { intros m1 m2 e r' m'' G S Hx. destruct (os_Remove (exe +:+ ".new") m2) as [r3 m3] eqn:E3.
    pose proof (Remove_spec _ _ _ _ E3) as (-> & S3 & F3). rewrite (bind_ok _ _ _ _ _ E3). intros [= <- <-].
    eapply through_snoc; [eapply through_snoc; [exact G|exact S|by apply Hnone]|exact S3|].
    apply Hnone. destruct F3 as [-> | ->]; [done|by rewrite lookup_delete_ne]. }
  destruct (os_WriteFile (exe +:+ ".new") blob m) as [r1 m1] eqn:E1. rewrite (bind_attempt _ _ _ _ _ E1).
  apply WriteFile_spec in E1 as [S1 F1].
  assert (um_files m1 !! exe = None) as H1.
  { destruct r1; [rewrite F1; by rewrite lookup_insert_ne|].
    destruct F1 as [-> | [x ->]]; [done|by rewrite lookup_insert_ne]. }
  pose proof (through_step holds _ _ S1 (Hnone _ H1)) as G1.
  destruct r1 as [[]|e1]; [|by intros [= <- <-]].
  assert (um_files m1 !! (exe +:+ ".new") = Some blob) as N1 by (by rewrite F1, lookup_insert_eq).
  destruct (os_Chmod (exe +:+ ".new") m1) as [r2 m2] eqn:E2. rewrite (bind_attempt _ _ _ _ _ E2).
  apply Chmod_spec in E2 as [S2 F2]. rewrite <-F2 in H1, N1.
  destruct r2 as [[]|e2]; [|by eapply Hout].
  pose proof (through_snoc holds _ _ _ G1 S2 (Hnone _ H1)) as G2.
  destruct (os_Remove (exe +:+ ".old") m2) as [r3 m3] eqn:E3. pose proof (Remove_spec _ _ _ _ E3) as (-> & S3 & F3).
  rewrite (bind_ok _ _ _ _ _ E3).
  assert (um_files m3 !! exe = None ∧ um_files m3 !! (exe +:+ ".new") = Some blob) as [H3 N3]
    by (destruct F3 as [-> | ->]; [done|by rewrite !lookup_delete_ne]).
  pose proof (through_snoc holds _ _ _ G2 S3 (Hnone _ H3)) as G3.
  destruct (os_Stat exe m3) as [r4 m4] eqn:E4. rewrite (bind_attempt _ _ _ _ _ E4).
  apply Stat_spec in E4 as (S4 & F4 & Hex). destruct r4 as [[]|e4].
  { rewrite H3 in Hex. by destruct (Hex eq_refl). }
  rewrite <-F4 in H3, N3. pose proof (through_snoc holds _ _ _ G3 S4 (Hnone _ H3)) as G4.
  unfold swapIn. destruct (os_Rename (exe +:+ ".new") exe m4) as [r5 m5] eqn:E5. rewrite (bind_attempt _ _ _ _ _ E5).
  apply Rename_spec in E5 as [S5 F5]. destruct r5 as [[]|e5].
  - destruct F5 as (d & Hd & F5). rewrite N3 in Hd. injection Hd as <-. intros [= _ <-].
    eapply through_snoc; [exact G4|exact S5|]. right; right. by rewrite F5, lookup_insert_eq.
  - cbn [negb]. rewrite <-F5 in H3. by eapply Hout.
Qed.
End contents.

(** Whatever a replacement meets and however it ends, the path holds what it
    held, the new build, or nothing. *)
Lemma replaceBinary_holds exe blob m r m' :
  replaceBinary exe blob m = (r, m') → through (holds exe blob (um_files m !! exe)) m m'.
Proof.
  intros Hr. destruct (um_files m !! exe) as [old|] eqn:E; [|by eapply replaceBinary_missing].
  destruct (replaceBinary_settled exe blob old m r m' E Hr) as [[Hrun (hs & Hh & Hf)] Hset].
  split_and!; [done| |].
  - destruct r as [[]|e]; [by right; right|]. destruct Hset as [?|[? _]]; [by left|by right; left].
  - exists hs. split; [done|]. eapply Forall_impl; [exact Hf|]. intros h [[?|[?|[? _]]] _]; unfold holds; auto.
Qed.

(** ** The loop *)
Section loop.
  Context (sha256_hex : string → string) (GOOS GOARCH version : string).

(** A build that a release other than this one publishes for this platform, by
    its digest, as a round saw it. *)
Definition vetted (rounds : list Round) (blob : string) : Prop :=
  ∃ r latest sums, r ∈ rounds ∧ latestTag (rd_fetch_raw r) = Ok latest ∧ latest ≠ version ∧
    download (rd_fetch r) (assetURL latest (assetName GOOS GOARCH)) = Ok blob ∧
    download (rd_fetch r) (assetURL latest "SHA256SUMS") = Ok sums ∧
    sha256_hex blob = find_digest (assetName GOOS GOARCH) (Split sums 10).

Definition trustworthy (target : string) (orig : option string) (rounds : list Round) (f : gmap string string) : Prop :=
  f !! target = orig ∨ f !! target = None ∨ ∃ blob, f !! target = Some blob ∧ vetted rounds blob.

Lemma update_round_trustworthy target orig rounds r m :
  r ∈ rounds → trustworthy target orig rounds (um_files m) →
  through (trustworthy target orig rounds) m (update_round sha256_hex GOOS GOARCH version target r m).
Proof.
  intros Hr Hm. unfold update_round. destruct (autoUpdateOnce _ _ _ _ _ _ _ _ _ m) as [x m'] eqn:E. cbn [snd].
  destruct (autoUpdateOnce_inv _ _ _ _ _ _ _ _ _ _ _ _ E) as [->|Hup]; [by apply through_refl|].
  destruct Hup as (latest & blob & sums & r1 & ? & ? & _ & ? & ? & ? & Hrep).
  eapply through_mono; [|by eapply replaceBinary_holds]. intros f [Hf|[Hf|Hf]].
  - unfold trustworthy. rewrite Hf. exact Hm.
  - by right; left.
  - right; right. exists blob. split; [done|]. by exists r, latest, sums.
Qed.

(** C20: For as long as the agent runs, whatever the network serves, whatever fails
    and wherever it dies: it looks for updates every 45 to 75 minutes, and the
    path of the binary never holds anything but the build it held at the start
    or a whole build that a release other than the running one publishes with
    that digest. *)
Theorem updates_are_vetted_and_paced target rounds m :
  Forall (λ r, 0 <= rd_rand r < 2 ^ 53) rounds →
  let '(waits, m') := autoUpdateLoop sha256_hex GOOS GOARCH version target rounds m in
  length waits = length rounds ∧ Forall (λ d, 45 * Minute <= d <= 75 * Minute) waits ∧
  through (trustworthy target (um_files m !! target) rounds) m m'.
Proof.
  intros Hu. unfold autoUpdateLoop. split_and!; [by rewrite length_fmap| |].
  - apply Forall_fmap. eapply Forall_impl; [exact Hu|]. intros r Hr. cbn.
    destruct (jitterAround_bounds (rd_rand r) autoUpdateInterval Hr) as [Hlo Hhi]; [done|].
    change (3 * autoUpdateInterval / 4) with (45 * Minute) in Hlo.
    by change (5 * autoUpdateInterval / 4) with (75 * Minute) in Hhi.
  - set (orig := um_files m !! target).
    assert (∀ rs m1, (∀ r, r ∈ rs → r ∈ rounds) → trustworthy target orig rounds (um_files m1) →
      through (trustworthy target orig rounds) m1
        (fold_left (λ m r, update_round sha256_hex GOOS GOARCH version target r m) rs m1)) as Hloop.
    { intros rs. induction rs as [|r rs IH]; intros m1 Hsub Hm1; [by apply through_refl|]. cbn [fold_left].
      pose proof (update_round_trustworthy target orig rounds r m1 (Hsub r ltac:(by left)) Hm1) as Hstep.
      eapply through_trans; [exact Hstep|]. apply IH; [|apply Hstep]. intros r' ?. apply Hsub. by right. }
    apply Hloop; [done|by left].
Qed.
End loop.

(** An interrupted replacement leaves the binary at ".old"; the next round begins
    by removing that, so that a second failure leaves the machine with no build
    at all. *)
Lemma second_failure_leaves_no_build :
  let io := Some (0, errorf "input/output error") in
  let first := [None; None; None; None; None; io; io] in     (* both renames into place fail *)
  let second := [None; None; None; None; io] in              (* then the next rename does *)
  let m := mkMachine {["/b" := "v1"]} (Some "v1") (first ++ [None] ++ second) [] in
  let m1 := snd (replaceBinary "/b" "v2" m) in
  let m2 := snd (replaceBinary "/b" "v2" m1) in
  um_files m1 = {["/b.old" := "v1"]} ∧ um_files m2 = ∅.
Proof. split; vm_compute; reflexivity. Qed.

(** ** Witness *)
Definition toy_round : Round := mkRound toy_fetch toy_fetch_raw (Ok 0) (Ok ()) 5.

Lemma updates_are_vetted_and_paced_witness :
  let '(waits, m') := autoUpdateLoop toy_digest "linux" "amd64" "v1" "/b" [toy_round; toy_round] toy_machine in
  length waits = 2%nat ∧ Forall (λ d, 45 * Minute <= d <= 75 * Minute) waits ∧
  through (trustworthy toy_digest "linux" "amd64" "v1" "/b" (Some "v1") [toy_round; toy_round]) toy_machine m'.
Proof.
  apply (updates_are_vetted_and_paced toy_digest "linux" "amd64" "v1" "/b" [toy_round; toy_round] toy_machine).
  repeat constructor; cbn; lia.
Defined.
