(* ===== verification/CommandLine.v ===== *)
(** * From arguments to commands (the parts of client/run.go, enrollcmd.go,
    logincmd.go, sshcmd.go, forwardcmd.go, service.go, update.go, updateapply.go and
    status.go in front of what each command does)

    Each command registers its flags, parses its arguments, and hands the flags
    that were given to [loadConfig] and the others to what it does. *)

From Stdlib Require Import Ascii.
From S2P Require Import Prelude GoStrings GoNum GoBase64 GoUtf8 Interfaces Host Wire AgentRpc AgentStream Updater.
From S2P Require Import ClientURLs ClientConfig AgentLoop Identity AgentSession Service Control Panel.
From S2P Require Import OperatorSessions Agent AutoUpdate Flags.

Open Scope string_scope.
Open Scope list_scope.
Open Scope Z_scope.

(** ** The flag sets *)
Definition text_flags (names : list string) : flagset := (λ n, (n, FString "")) <$> names.

Definition run_flags : flagset := text_flags [keyServer; keyID; keyCA].
Definition enroll_flags : flagset := text_flags [keyServer; keyID; keyCA; keyUser] ++ [("rebind", FBool)].
Definition login_flags : flagset := text_flags [keyServer; keyCA; keyUser].
Definition installFlags : flagset :=
  text_flags [keyServer; keyID; keyCA; keyUser] ++ [("per-user", FBool); ("run-as", FString ""); ("dry-run", FBool)].
Definition ssh_flags : flagset := text_flags [keyServer; keyCA; keyToken].
Definition forward_flags : flagset :=
  [("listen", FString "127.0.0.1:0"); ("stdio", FBool)] ++ text_flags [keyServer; keyCA; keyToken].
Definition update_flags : flagset := [("check", FBool); ("force", FBool)].
Definition restart_flags : flagset := [("target", FString "")].
Definition status_flags : flagset := [("json", FBool)].

Definition flag_sets : list flagset :=
  [run_flags; enroll_flags; login_flags; installFlags; ssh_flags; forward_flags; update_flags; restart_flags;
   status_flags; []].

(** ** The commands

    On the left the status with which [flag] ends the process; on the right what
    the command does. *)
Definition with_flags {A} (fs : flagset) (args : list string) (k : gmap string string → A) : Z + A :=
  match Parse fs args with
  | inl e => inl (exit_on_error e)
  | inr (act, _) => inr (k act)
  end.

Section operator.
  Context {CertPool W : Type} `{ClientHost W} `{X509 CertPool} `{URLParser} `{JSON Config}.
  Context (sr : Surroundings).
  Context (ws_Dial : string → TLSConfig CertPool → option (string * string) → W → dialled).

(** [listen] is [net.Listen] at an address; [own] the process's own streams. *)
Definition forward_command (args : list string) (own : Carried) (listen : string → res ())
    (accepted : list Carried) (accept_error : error) (stopped : bool) (w : W)
    : Z + (res () * list bridge_end) :=
  match args with
  | agent :: service :: rest =>
      with_flags forward_flags rest (λ act,
        cmdForward sr ws_Dial agent service (explicitFlags act)
          (if bool_flag act "stdio" then Some own else None)
          (listen (string_flag forward_flags act "listen")) accepted accept_error stopped w)
  | _ => inr (Err (errorf "usage: beacon forward AGENT SERVICE [flags]   (for example: beacon forward target-01 rdp)"), [])
  end.

Definition ssh_command (args : list string) (terminal : bool) (raw : res ()) (size : res (Z * Z))
    (inputs : list ssh_input) (shown : string) (conn : Writer) (w : W) : Z + res (string * Writer) :=
  match args with
  | agent :: rest =>
      with_flags ssh_flags rest (λ act,
        cmdSSH sr ws_Dial agent (explicitFlags act) terminal raw size inputs shown conn w)
  | [] => inr (Err (errorf "usage: beacon ssh AGENT   (for example: beacon ssh target-01)"))
  end.
End operator.

Section machine.
  Context {CertPool W : Type} `{ClientHost W} `{Processes W} `{Platform W} `{X509 CertPool} `{Internet CertPool W}
    `{Network CertPool W} `{URLParser} `{ClientJSON} `{Ed25519} `{ControlSockets W} `{JSON Config}.
  Context (sr : Surroundings) (GOOS GOARCH version : string) (pid : Z).
  Context (self : res string) (resolve : string → res string) (SameFile : string → string → W → bool).

Definition run_command (args : list string) (gen : res string) (order : list (string * string)) (now1 now2 : Z)
    (turns : list (Attempt * Tunnel_life)) : Z + M W (Started * Loop) :=
  with_flags run_flags args (λ act,
    cmdRun sr GOOS GOARCH version pid self resolve SameFile (explicitFlags act) gen order now1 now2 turns).

Definition enroll_command (args : list string) (elevated : res ()) (gen user password : res string) : Z + M W Config :=
  with_flags enroll_flags args (λ act,
    cmdEnroll (CertPool := CertPool) sr (explicitFlags act) elevated gen user password (bool_flag act "rebind")).

Definition login_command (args : list string) (user password : res string) : Z + M W (Config * string) :=
  with_flags login_flags args (λ act, cmdLogin (CertPool := CertPool) sr (explicitFlags act) user password).

(** [account_password] is the answer to the prompt for the password of an account,
    asked when one is named. *)
Definition install_command (args : list string) (account_password : string → res string) (gen user password : res string)
    : Z + M W install_outcome :=
  with_flags installFlags args (λ act,
    let runAs := string_flag installFlags act "run-as" in
    cmdInstall (CertPool := CertPool) sr (explicitFlags act) (bool_flag act "per-user") (bool_flag act "dry-run")
      (if negb (runAs =? "")%string then Some (account_password runAs) else None) self resolve gen user password).

Definition uninstall_command (args : list string) : Z + M W bool := with_flags [] args (λ _, cmdUninstall sr).
Definition service_command (name : string) (args : list string) : Z + M W control_panel :=
  with_flags [] args (λ _, cmdServiceControl name).
End machine.

Section updates.
  Context (fetch fetch_raw : string → res Fetched) (sha256_hex : string → string) (GOOS GOARCH version : string).

(** [updateTarget] chose the binary. *)
Definition update_command (args : list string) (exe : string) (streams : res Z) (svc : res svcInfo) (now : Z)
    (polls : list (Z * bool)) : Z + M Machine update_outcome :=
  with_flags update_flags args (λ act,
    cmdUpdate fetch fetch_raw sha256_hex GOOS GOARCH version (bool_flag act "check") (bool_flag act "force") exe streams
      svc now polls).

Definition restart_command (args : list string) (now : Z) (polls : list (Z * bool)) : Z + M Machine () :=
  with_flags restart_flags args (λ act, cmdRestartAfterUpdate (string_flag restart_flags act "target") now polls).
End updates.

(** [to_json] is [json.Encoder.Encode] with its indent. *)
Definition status_command `{Terminal} (version : string) (ms : Z → string) (to_json : statusPayload → res string)
    (args : list string) (st : res statusPayload) (svc : svcInfo * option error) (now : Z) (sockets : list string)
    (cfg : res resolved) : Z + res (option (string * Z)) :=
  with_flags status_flags args (λ act,
    if bool_flag act "json"
    then st ← st; out ← to_json st; Ok (Some (out, 0))
    else Ok (cmdStatus version ms st svc now sockets cfg)).

(** ** What is typed is what is used *)

(** No command registers a flag twice, so none of them panics before it starts. *)
Lemma flag_sets_register : forallb registers flag_sets = true.
Proof. vm_compute. reflexivity. Qed.

(** The value a flag was last given. *)
Definition typed (k : string) (ss : list spelled) : option string :=
  sf_value <$> last (filter (λ s, sf_name s = k) ss).

Lemma given_lookup ss act k : given ss act !! k = match typed k ss with Some v => Some v | None => act !! k end.
Proof.
  unfold typed. induction ss as [|s ss IH] using rev_ind; [done|].
  unfold given in *. rewrite fold_left_app, filter_app. cbn.
  destruct (decide (sf_name s = k)) as [<-|Hne].
  - by rewrite lookup_insert_eq, last_snoc.
  - by rewrite lookup_insert_ne, app_nil_r.
Qed.

Section settings.
  Context {W : Type} `{ClientHost W} `{JSON Config} (sr : Surroundings).

(** C38: However the flags of a command are written -- one dash or two, the value
    behind an equals sign or as the next word, in any order and more than once --
    they parse, up to the first word that is no flag; and each setting typed is
    then the one in effect, whatever the environment and the file say, the last
    one typed if there are several, trimmed, and reported as coming from a flag.
    A setting typed blank, or not typed, is left to the layers below. *)
Theorem what_is_typed_is_used fs ss rest k :
  fs ∈ flag_sets → Forall (λ s, string_name fs (sf_name s)) ss → stops rest = true → k ∈ configKeys →
  ∃ act, Parse fs (concat (spell <$> ss) ++ rest) = inr (act, rest) ∧
  ∀ w r r0, loadConfig sr (explicitFlags act) w = Ok r → loadConfig sr [] w = Ok r0 →
    seen k r = match typed k ss with
               | Some v => if (TrimSpace v =? "")%string then seen k r0 else (TrimSpace v, Some fromFlag)
               | None => seen k r0
               end.
Proof.
  intros Hfs Hss Hst Hk. exists (given ss ∅).
  assert (registers fs = true ∧ "" ∉ fs.*1) as [Hreg Hne].
  { pose proof flag_sets_register as Hall. rewrite forallb_forall in Hall. split; [by apply Hall, list_elem_of_In|].
    assert (forallb (λ fs : flagset, bool_decide ("" ∉ fs.*1)) flag_sets = true) as Hb by (vm_compute; reflexivity).
    rewrite forallb_forall in Hb. by apply (bool_decide_unpack _), Is_true_true, Hb, list_elem_of_In. }
  split.
  { apply parse_round_trip; [done| |done]. eapply Forall_impl; [exact Hss|]. intros s [d Hd]. split; [by exists d|].
    intros He. apply Hne. rewrite He in Hd. unfold lookup_flag in Hd. apply elem_of_list_to_map_2 in Hd.
    apply list_elem_of_fmap. by exists ("", FString d). }
  intros w r r0. unfold loadConfig, mbind, res_bind. destruct (readConfigFile _ w) as [[fc ex]|]; [|done].
  intros [= <-] [= <-]. cbn [apply_flags fold_left].
  rewrite seen_flags by (done || apply NoDup_fst_map_to_list). unfold explicitFlags. rewrite list_to_map_to_list.
  rewrite given_lookup, lookup_empty. by destruct (typed k ss).
Qed.
End settings.

(** The examples of the help text. *)
Lemma help_examples_parse :
  (∃ act, Parse installFlags ["--server"; "https://relay.example.com"; "--id"; "target-01"] = inr (act, []) ∧
     string_flag installFlags act keyServer = "https://relay.example.com" ∧ string_flag installFlags act keyID = "target-01") ∧
  (∃ act, Parse forward_flags ["--listen"; "127.0.0.1:3390"] = inr (act, []) ∧
     string_flag forward_flags act "listen" = "127.0.0.1:3390").
Proof. split; (eexists; split; [vm_compute; reflexivity|]; split || idtac); reflexivity. Qed.

Lemma what_is_typed_is_used_witness :
  let ss := [mkSpelled keyServer "http://old" false true; mkSpelled keyID "lab-7" true false;
             mkSpelled keyServer " https://relay:8443/?a=b " true true] in
  ∃ act r, Parse run_flags ["-server=http://old"; "--id"; "lab-7"; "--server= https://relay:8443/?a=b "; "later"]
           = inr (act, ["later"]) ∧
    loadConfig Box.around (explicitFlags act) Box.installed = Ok r ∧
    seen keyServer r = ("https://relay:8443/?a=b", Some fromFlag) ∧ seen keyToken r = ("admin", Some fromEnv).
Proof.
  intros ss.
  assert (Forall (λ s, string_name run_flags (sf_name s)) ss) as Hss.
  { repeat (apply Forall_cons; split; [by eexists|]). by apply Forall_nil. }
  destruct (what_is_typed_is_used (W := Box.t) Box.around run_flags ss ["later"] keyServer) as (act & Hp & Hs);
    [by left|exact Hss|reflexivity|by left|].
  destruct (what_is_typed_is_used (W := Box.t) Box.around run_flags ss ["later"] keyToken) as (act' & Hp' & Hs');
    [by left|exact Hss|reflexivity|do 3 right; by left|].
  rewrite Hp in Hp'. injection Hp' as <-.
  set (load := λ flags, match loadConfig Box.around flags Box.installed with Ok r => r | Err _ => mkResolved emptyConfig ∅ "" false end).
  assert (loadConfig Box.around [] Box.installed = Ok (load [])) as E0 by (vm_compute; reflexivity).
  assert (loadConfig Box.around (explicitFlags act) Box.installed = Ok (load (explicitFlags act))) as E.
  { assert (act = given ss ∅) as ->; [|vm_compute; reflexivity].
    assert (Parse run_flags (concat (spell <$> ss) ++ ["later"]) = inr (given ss ∅, ["later"])) as Hc
      by (vm_compute; reflexivity).
    rewrite Hp in Hc. by injection Hc. }
  exists act, (load (explicitFlags act)). split; [exact Hp|]. split; [exact E|]. split.
  - rewrite (Hs _ _ _ E E0). vm_compute. reflexivity.
  - rewrite (Hs' _ _ _ E E0). vm_compute. reflexivity.
Defined.
