(* ===== verification/Plumbing.v ===== *)
(** * What the client asks of its terminal and of its system (client/logincmd.go:
    prompt, promptPassword; client/main.go: usageFor; client/updateapply.go:
    spawnRestartHelper; client/detach_unix.go, detach_windows.go; client/pty_unix.go,
    pty_windows.go: shellCommand)

    [fmt.Scanln] into a string, the usage of a command, and the processes the
    client starts beside the ones it serves. *)

From Stdlib Require Import Ascii.
From S2P Require Import Prelude GoStrings GoNum GoBase64 GoUtf8 Interfaces Host Wire Panel Updater AutoUpdate.
From S2P Require Import Flags CommandLine Commands.

Open Scope string_scope.
Open Scope list_scope.
Open Scope Z_scope.

(** ** Prompts *)

(** U+FFFD, which stands for a byte that is no UTF-8. *)
Definition rune_error : string := String (byte 239) (String (byte 191) (String (byte 189) "")).

(** [ss.token]: runes up to a space, and the rest. *)
Fixpoint scan_token (fuel : nat) (s : string) : string * string :=
  match fuel, s with
  | S fuel, String _ s' =>
      match space_head s with
      | Some _ => ("", s)
      | None =>
          match rune_len s with
          | Some n => let '(t, rest) := scan_token fuel (sdrop n s) in (stake n s +:+ t, rest)
          | None => let '(t, rest) := scan_token fuel s' in (rune_error +:+ t, rest)
          end
      end
  | _, _ => ("", s)
  end.

(** [fmt.Scanln(&v)] on one line, without its end.  A rune takes a byte at least,
    so the length of the line is fuel enough. *)
Definition Scanln (line : string) : res string :=
  let s := TrimLeft line in
  if (s =? "")%string then Err (errorf "unexpected newline")
  else
    let '(v, rest) := scan_token (String.length s) s in
    if negb (TrimLeft rest =? "")%string then Err (errorf "expected newline") else Ok v.

(** The line that was typed, or why there is none. *)
Definition prompt (line : res string) : res string :=
  l ← line; v ← Scanln l; Ok (TrimSpace v).

(** [typed] is [term.ReadPassword]. *)
Definition promptPassword (terminal : bool) (typed : res string) : res string :=
  if negb terminal then Err (errorf "this needs a terminal to read a password without echoing it") else typed.

(** A character a name is written with. *)
Definition graphic (c : ascii) : bool := (33 <=? val c) && (val c <=? 126).

Lemma graphic_facts c :
  graphic c = true →
  is_space1 c = false ∧ (code c =? 194)%N = false ∧ (code c =? 225)%N = false ∧ (code c =? 226)%N = false ∧
  (code c =? 227)%N = false ∧ (val c <? 128) = true.
Proof.
  destruct c as [[] [] [] [] [] [] [] []]; vm_compute; intros Hc; try discriminate Hc; split_and!; reflexivity.
Qed.

Lemma graphic_no_space c s : graphic c = true → space_head (String c s) = None.
Proof.
  intros (H1 & H2 & H3 & H4 & H5 & _)%graphic_facts. cbn [space_head]. rewrite H1.
  destruct s as [|d s]; [done|]. unfold is_space2. rewrite H2. destruct s; [done|]. cbn.
  unfold is_space3. by rewrite H3, H4, H5.
Qed.

Lemma graphic_rune c s : graphic c = true → rune_len (String c s) = Some 1.
Proof. intros (_ & _ & _ & _ & _ & Hv)%graphic_facts. cbn [rune_len]. by rewrite Hv. Qed.

(** Where a token ends. *)
Definition ends_token (s : string) : bool := (s =? "")%string || bool_decide (is_Some (space_head s)).

Lemma scan_token_word n w rest :
  schars graphic w = true → ends_token rest = true → (String.length w ≤ n)%nat →
  scan_token n (w +:+ rest) = (w, rest).
Proof.
  revert n. induction w as [|c w IH]; intros n Hw Hr Hn.
  - rewrite sapp_nil_l. unfold ends_token in Hr. destruct n; [done|]. destruct rest as [|d rest]; [done|].
    cbn [String.eqb orb] in Hr. apply bool_decide_eq_true_1 in Hr as [t Ht]. cbn [scan_token]. by rewrite Ht.
  - destruct n as [|n]; [cbn in Hn; lia|]. cbn [schars] in Hw. apply andb_prop in Hw as [Hc Hw].
    rewrite sapp_cons. cbn [scan_token]. rewrite graphic_no_space, graphic_rune by done.
    change (sdrop 1 (String c (w +:+ rest))) with (sdrop 0 (w +:+ rest)).
    change (stake 1 (String c (w +:+ rest))) with (String c (stake 0 (w +:+ rest))).
    assert (∀ s, sdrop 0 s = s ∧ stake 0 s = "") as H0 by (by intros []).
    destruct (H0 (w +:+ rest)) as [-> ->]. cbn in Hn. rewrite IH by (done || lia). done.
Qed.

Lemma graphic_first w rest : w ≠ "" → schars graphic w = true → TrimLeft (w +:+ rest) = w +:+ rest ∧ (w +:+ rest =? "")%string = false.
Proof.
  intros Hne Hw. destruct w as [|c w]; [done|]. cbn [schars] in Hw. apply andb_prop in Hw as [Hc _].
  rewrite sapp_cons. split; [|done]. apply TrimLeft_fix. by apply graphic_no_space.
Qed.

Lemma graphic_trimmed w : schars graphic w = true → TrimSpace w = w.
Proof.
  intros Hw. unfold TrimSpace. assert (TrimLeft w = w) as ->.
  { destruct (decide (w = "")) as [->|Hne]; [done|]. pose proof (graphic_first w "" Hne Hw) as [Hl _].
    by rewrite sapp_nil_r in Hl. }
  induction w as [|c w IH]; [done|]. cbn [schars] in Hw. apply andb_prop in Hw as [Hc Hw].
  cbn [TrimRight]. rewrite IH by done. assert (is_space_rune (String c w) = false) as ->; [|done].
  apply graphic_facts in Hc as (H1 & H2 & H3 & H4 & H5 & _).
  destruct w as [|d [|e [|f w]]]; unfold is_space_rune, is_space2, is_space3; rewrite ?H1, ?H2, ?H3, ?H4, ?H5; done.
Qed.

(** A name of visible characters is taken as it was typed, whatever white space is
    around it -- and a name with a space inside, which the relay would accept, is
    refused: it can only come from a flag or the configuration. *)
Theorem prompt_takes_one_word before w after rest :
  TrimLeft (before +:+ w +:+ after) = w +:+ after → TrimLeft after = rest → ends_token after = true →
  w ≠ "" → schars graphic w = true →
  prompt (Ok (before +:+ w +:+ after)) = if (rest =? "")%string then Ok w else Err (errorf "expected newline").
Proof.
  intros Hb Ha He Hne Hw. unfold prompt, Scanln. cbn [mbind res_bind]. rewrite Hb.
  destruct (graphic_first w after Hne Hw) as [_ ->].
  rewrite (scan_token_word _ _ _ Hw He); [|pose proof (len_app w after); unfold len in *; lia].
  rewrite Ha. destruct (rest =? "")%string; cbn; [|done]. by rewrite graphic_trimmed.
Qed.

Lemma prompt_takes_one_word_witness :
  prompt (Ok "  ana ") = Ok "ana" ∧ prompt (Ok "ana maria") = Err (errorf "expected newline").
Proof.
  split.
  - exact (prompt_takes_one_word "  " "ana" " " "" eq_refl eq_refl eq_refl ltac:(discriminate) eq_refl).
  - exact (prompt_takes_one_word "" "ana" " maria" "maria" eq_refl eq_refl eq_refl ltac:(discriminate) eq_refl).
Defined.

(** ** The usage of a command *)
Section usage.
  Context `{Terminal} (PrintDefaults : flagset → string).

Definition hasFlags (fs : flagset) : bool := bool_decide (fs ≠ []).

(** What is written to standard error. *)
Definition usageFor (fs : flagset) (use summary : string) : string :=
  Render styTitle use +:+ nl +:+ Render styDim summary +:+ nl
  +:+ if hasFlags fs then nl +:+ Render styLabel "FLAGS" +:+ nl +:+ PrintDefaults fs else "".
End usage.

(** ** Processes beside the agent *)

(** [exec.CommandContext], with the directory it runs in. *)
Definition unix_shellCommand (command dir : string) : string * list string * string := ("/bin/sh", ["-c"; command], dir).
Definition windows_shellCommand (command dir : string) : string * list string * string := ("cmd", ["/c"; command], dir).

(** [syscall.SysProcAttr]: a session of its own, or creation flags. *)
Inductive SysProcAttr := Setsid | CreationFlags (flags : Z).

Definition detachedProcessFlag : Z := 8.          (* 0x00000008 *)
Definition createNewProcessGrp : Z := 512.        (* 0x00000200 *)
Definition createNoWindowFlag : Z := 134217728.   (* 0x08000000 *)

Definition unix_detachedProcess : SysProcAttr := Setsid.
Definition windows_detachedProcess : SysProcAttr :=
  CreationFlags (Z.lor (Z.lor detachedProcessFlag createNewProcessGrp) createNoWindowFlag).

(** The helper: the binary, its arguments, how it is cut loose, and that it has none
    of the streams of the process that starts it. *)
Record helper := mkHelper { hp_path : string; hp_args : list string; hp_attr : SysProcAttr; hp_streams : bool }.

Definition restart_helper (attr : SysProcAttr) (target : string) : helper :=
  mkHelper target ["restart-after-update"; "--target"; target] attr false.

(** [start] and [release] are [cmd.Start] and [cmd.Process.Release]. *)
Definition spawnRestartHelper (attr : SysProcAttr) (start : helper → res ()) (release : res ()) (target : string) : res () :=
  match start (restart_helper attr target) with
  | Err e => Err e
  | Ok _ => release
  end.

(** What it starts is the restart of that very binary: its first argument selects
    the command, and the rest parse to the target, whatever characters the path is
    made of. *)
Theorem helper_restarts_the_target {W} (h : Handlers W) attr target :
  match hp_args (restart_helper attr target) with
  | cmd :: args =>
      dispatch h cmd = Handled (h_restart_after_update h) ∧
      ∀ now polls, restart_command args now polls = inr (cmdRestartAfterUpdate target now polls)
  | [] => False
  end.
Proof. split; [done|]. intros now polls. reflexivity. Qed.

(** On Windows it is out of the console and of the process group: three bits. *)
Lemma windows_helper_is_detached n :
  match windows_detachedProcess with
  | CreationFlags flags => Z.testbit flags n = bool_decide (n ∈ [3; 9; 27])
  | Setsid => False
  end.
Proof.
  unfold windows_detachedProcess, detachedProcessFlag, createNewProcessGrp, createNoWindowFlag.
  change 8 with (2 ^ 3). change 512 with (2 ^ 9). change 134217728 with (2 ^ 27).
  rewrite !Z.lor_spec, !Z.pow2_bits_eqb by lia. apply eq_bool_prop_intro.
  rewrite Is_true_true, bool_decide_spec, !orb_true_iff, !Z.eqb_eq. set_solver.
Qed.
