(* ===== verification/UpdateRestart.v ===== *)
(** * The restart that ends an unattended update (client/updateapply.go:
    autoUpdateOnce, spawnRestartHelper, cmdRestartAfterUpdate; client/detach_unix.go;
    client/service_unix.go: unitContent)

    The agent puts a build in place and leaves the restart to a helper, which is to
    outlive the stop of the service it was started by.  Whether it does is for the
    service manager to say, by the unit file [beacon install] wrote. *)

From S2P Require Import Prelude GoStrings GoNum GoBase64 Interfaces Host ClientConfig Updater AutoUpdate.
From S2P Require Import Service Plumbing.

Open Scope string_scope.
Open Scope list_scope.
Open Scope Z_scope.

(** ** What a unit file says *)

(** The values of a key in the [Service] section, in order. *)
Fixpoint service_values (key : string) (inside : bool) (lines : list string) : list string :=
  match lines with
  | [] => []
  | line :: lines =>
      if HasPrefix line "[" then service_values key (line =? "[Service]")%string lines
      else if inside && HasPrefix line (key +:+ "=")
      then sdrop (len key + 1) line :: service_values key inside lines
      else service_values key inside lines
  end.

(** systemd.kill(5): the last assignment, "control-group" if there is none. *)
Definition KillMode (unit : string) : string :=
  default "control-group" (last (service_values "KillMode" false (Split unit 10))).

(** Whether stopping a service kills a process that its main process started with
    these attributes. *)
Class ServiceManager := kills_on_stop : string → SysProcAttr → bool.

(** systemd.kill(5).  A process is in the control group of the one that started it,
    and [setsid] leaves it there. *)
Class Systemd `{ServiceManager} : Prop := {
  sd_control_group unit attr : KillMode unit = "control-group" → kills_on_stop unit attr = true;
  sd_process unit attr : KillMode unit = "process" → kills_on_stop unit attr = false
}.

(** ** The helper, until it ends *)

(** It is gone at the instant the service is stopped, or it runs to its end. *)
Inductive helper_end `{ServiceManager} (unit : string) (attr : SysProcAttr) (target : string) (now : Z)
    (polls : list (Z * bool)) : Machine → Machine → Prop :=
  | helper_killed m m' :
      kills_on_stop unit attr = true → Updater.serviceStop m = (Ok (), m') →
      helper_end unit attr target now polls m m'
  | helper_returned m r m' :
      kills_on_stop unit attr = false → cmdRestartAfterUpdate target now polls m = (r, m') →
      helper_end unit attr target now polls m m'.

Lemma lines_of_lines ls : Forall (λ l, no_char 10 l = true) ls → ls ≠ [] → Split (lines_of ls) 10 = ls ++ [""].
Proof.
  intros Hls. induction Hls as [|l ls Hl Hls IH]; [done|]. intros _. unfold lines_of in *.
  destruct ls as [|l' ls]; [by apply (Split_app l 10 "")|].
  cbn [Join] in *. rewrite !sapp_assoc in *. change (nl +:+ ?x) with (String (byte 10) x).
  rewrite Split_app by done. cbn [app]. f_equal. by apply IH.
Qed.

(** The unit says nothing of the kind, whatever the binary is called. *)
Lemma unit_has_no_KillMode target : no_char 10 target = true → KillMode (unitContent target) = "control-group".
Proof.
  intros Ht. unfold KillMode, unitContent. rewrite lines_of_lines; [reflexivity| |done].
  repeat constructor. unfold no_char in *. by rewrite !schars_app, Ht.
Qed.

Section update.
  Context (fetch fetch_raw : string → res Fetched) (sha256_hex : string → string) (GOOS GOARCH version : string).

Lemma autoUpdateOnce_done target streams helper m m' :
  autoUpdateOnce fetch fetch_raw sha256_hex GOOS GOARCH version target streams helper m = (Ok true, m') →
  ∃ latest blob, latestTag fetch_raw = Ok latest ∧ latest ≠ version ∧
    download fetch (assetURL latest (assetName GOOS GOARCH)) = Ok blob ∧ replaceBinary target blob m = (Ok (), m').
Proof.
  unfold autoUpdateOnce, mbind at 1, M_bind at 1, mlift at 1.
  destruct (latestTag fetch_raw) as [latest|e]; [|done].
  destruct (String.eqb_spec latest version) as [->|Hne]; [done|].
  destruct (guardActiveStreams false streams); [|done].
  unfold mbind at 1, M_bind at 1, mlift at 1.
  destruct (download fetch (assetURL latest (assetName GOOS GOARCH))) as [blob|e] eqn:Ed; [|done].
  unfold mbind at 1, M_bind at 1, mlift at 1. destruct (verifyChecksum _ _ _ _ _ _); [|done].
  unfold mbind at 1, M_bind at 1. destruct (replaceBinary target blob m) as [[[]|e] m1] eqn:Er; [|done].
  unfold mbind, M_bind, mlift. destruct helper; [|done]. intros [= <-]. by exists latest, blob.
Qed.

(** On a machine with systemd an unattended update ends with the new build in place
    and nothing running: stopping the service kills the helper too, which shares its
    control group whatever its session, and the start that was to follow never
    happens.  Neither does the rollback; an explicit stop is not undone by
    [Restart=always]. *)
Theorem unattended_update_stops_the_agent `{Systemd} target streams start release m m1 old now polls m2 :
  um_files m !! target = Some old → no_char 10 target = true →
  autoUpdateOnce fetch fetch_raw sha256_hex GOOS GOARCH version target streams
    (spawnRestartHelper unix_detachedProcess start release target) m = (Ok true, m1) →
  helper_end (unitContent target) unix_detachedProcess target now polls m1 m2 →
  um_running m1 = um_running m ∧ um_running m2 = None ∧
  ∃ latest blob, latestTag fetch_raw = Ok latest ∧
    download fetch (assetURL latest (assetName GOOS GOARCH)) = Ok blob ∧ um_files m2 !! target = Some blob.
Proof.
  intros Hold Ht (latest & blob & Hl & _ & Hd & Hr)%autoUpdateOnce_done Hend.
  destruct (replaceBinary_settled target blob old m _ m1 Hold Hr) as [[Hrun _] Hnew].
  pose proof (sd_control_group _ unix_detachedProcess (unit_has_no_KillMode target Ht)) as Hk.
  destruct Hend as [m1 m2 _ Hs|m1 r m2 Hk' _]; [|congruence].
  unfold Updater.serviceStop, syscall in Hs. destruct (um_faults m1) as [|[[k e]|] fs]; [|done|];
    injection Hs as <-; (split_and!; [done|done|by exists latest, blob]).
Qed.

(** One line more in the unit and the restart is the one [restartAndVerify] promises. *)
Theorem process_mode_finishes_the_update `{Systemd} unit target now polls m m2 :
  KillMode unit = "process" → target ≠ "" →
  helper_end unit unix_detachedProcess target now polls m m2 → m2 = snd (restartAndVerify target now polls m).
Proof.
  intros Hu Ht%String.eqb_neq Hend. pose proof (sd_process _ unix_detachedProcess Hu) as Hk.
  destruct Hend as [m m2 Hk' _|m r m2 _ Hr]; [congruence|].
  unfold cmdRestartAfterUpdate in Hr. rewrite Ht in Hr. by rewrite Hr.
Qed.
End update.

(** ** Witnesses *)
#[local] Instance toy_manager : ServiceManager := λ unit _, (KillMode unit =? "control-group")%string.
#[local] Instance toy_systemd : Systemd.
Proof. split; intros unit attr; unfold kills_on_stop, toy_manager; by intros ->. Qed.

Definition toy_update : res bool * Machine :=
  autoUpdateOnce toy_fetch toy_fetch_raw toy_digest "linux" "amd64" "v1.4.0" "/b" (Ok 0)
    (spawnRestartHelper unix_detachedProcess (λ _, Ok ()) (Ok ()) "/b") toy_machine.
Definition toy_mended : string := lines_of ["[Service]"; "ExecStart=/b run"; "KillMode=process"].

Lemma unattended_update_stops_the_agent_witness :
  let m2 := snd (Updater.serviceStop (snd toy_update)) in um_running toy_machine = Some "v1" ∧ um_running m2 = None.
Proof.
  split; [reflexivity|].
  apply (unattended_update_stops_the_agent toy_fetch toy_fetch_raw toy_digest "linux" "amd64" "v1.4.0" "/b" (Ok 0)
           (λ _, Ok ()) (Ok ()) toy_machine (snd toy_update) "v1" 0 []).
  - reflexivity.
  - reflexivity.
  - vm_compute. reflexivity.
  - apply helper_killed; vm_compute; reflexivity.
Defined.

Lemma process_mode_finishes_the_update_witness :
  let m2 := snd (cmdRestartAfterUpdate "/b" 0 [(1, true)] (snd toy_update)) in
  m2 = snd (restartAndVerify "/b" 0 [(1, true)] (snd toy_update)) ∧ um_running m2 = Some "v2".
Proof.
  intros m2. split; [|vm_compute; reflexivity].
  apply (process_mode_finishes_the_update toy_mended "/b" 0 [(1, true)] (snd toy_update) m2); [reflexivity|done|].
  eapply helper_returned; [reflexivity|]. apply surjective_pairing.
Defined.
