(* ===== verification/RelayMain.v ===== *)
(** * The relay process (server/main.go; server/mcp.go: newMCPServer)

    What a relay is when it begins to listen, how the process ends, and the table
    of the tools it offers to assistants. *)

From Stdlib Require Import Ascii.
From S2P Require Import Prelude GoStrings GoNum GoBase64 GoUtf8 Interfaces GoNet Wire Assertions.
From S2P Require Import Challenges Events Registry Proxies Host ServerConfig VaultClient KVStore.
From S2P Require Import AgentKeys VaultProofs ToyVault OperatorStore OperatorProofs Auth AuthProofs Server.
From S2P Require Import Enroll AgentRpc AgentStream RelayTools RemoteCalls.

Open Scope string_scope.
Open Scope list_scope.
Open Scope Z_scope.

(** ** Starting *)
Section boot.
  Context {W : Type} `{FileSystem W} `{VaultHTTP W} `{VaultJSON} `{JSON operator} `{Argon2}.
  Context (range : gmap string string → list (string * string)).

(** [s.ops.load()]: the store the authentication holds. *)
Definition ops_load : M (auth * (vault * W)) () := λ '(a, vw),
  match au_ops a with
  | None => (Err nil_pointer, (a, vw))
  | Some o => let '(r, (o', vw')) := load (o, vw) in (r, (set_ops o' a, vw'))
  end.

(** The state of [runServer] before it listens. *)
Definition boot (cfg : Config) (w : W) (now : Z) : Server W :=
  let s := newServer cfg w now in
  let s := snd (on_vault (start range) s) in
  snd (on_auth ops_load s).
End boot.

(** How serving ends: the listener fails, [closed] for [http.ErrServerClosed], or
    a signal, and then what [Shutdown] returns within five seconds. *)
Inductive serve_end := ListenerStopped (closed : bool) (e : error) | Signalled (shutdown : res ()).

Definition runServer (e : serve_end) : res () :=
  match e with
  | ListenerStopped closed e => if closed then Ok () else Err e
  | Signalled r => r
  end.

(** [got] is the status of a GET of [healthURL] within three seconds. *)
Definition runHealthcheck (got : res Z) : res () :=
  code ← got;
  if negb (code =? StatusOK) then Err (errorf ("healthcheck: status " +:+ itoa code)) else Ok ().

(** The exit status, and what is printed on standard output.  The configuration is
    read whatever the command, and may end the process. *)
Definition relay_main (version : string) (args : list string) (cfg : option Config)
    (served : Config → res ()) (health : Config → res Z) : Z * string :=
  let cmd := default "server" (head args) in
  match cfg with
  | None => (1, "")
  | Some cfg =>
      if (cmd =? "server")%string then (if is_ok (served cfg) then 0 else 1, "")
      else if (cmd =? "healthcheck")%string then (if is_ok (runHealthcheck (health cfg)) then 0 else 1, "")
      else if (cmd =? "version")%string then (0, version +:+ nl)
      else (2, "")
  end.

(** ** What a restart keeps *)
Section restart.
  Context {W : Type} `{FileSystem W} `{VaultHTTP W} `{VaultJSON} `{Argon2Laws} `{HMAC}.
  Context `{!FileSystemLaws W} {wf : operator → Prop} `{JSONLaws operator wf}.
  Context (range : gmap string string → list (string * string)).

(** The sign-in state of a relay with this configuration and this account. *)
Definition signed_by (cfg : Config) (st : operatorStore) : auth :=
  newAuth (cf_AdminToken cfg) (Some st) (parseProxies (cf_TrustedProxies cfg)).

Lemma boot_auth cfg w now st' vw' r :
  load (newOperatorStore (cf_StateDir cfg), snd (start range (newVault cfg, w))) = (r, (st', vw')) →
  sv_auth (boot range cfg w now) = signed_by cfg st' ∧ sv_registry (boot range cfg w now) = newRegistry ∧
  sv_challenges (boot range cfg w now) = newChallenges.
Proof.
  intros Hl. unfold boot, on_vault, zoom. cbn [sv_vault newServer].
  destruct (start range (newVault cfg, w)) as [r1 vw1]. cbn [snd] in *.
  unfold on_auth, zoom, ops_load. cbn [sv_auth sv_vault newServer set_vault newAuth au_ops].
  rewrite Hl. done.
Qed.

Lemma validSession_same_account cfg st1 st2 t v :
  current st1 = current st2 → validSession (signed_by cfg st1) t v = validSession (signed_by cfg st2) t v.
Proof.
  intros Hc. unfold validSession, sign.
  assert (sessionKey (signed_by cfg st1) = sessionKey (signed_by cfg st2)) as ->; [|done].
  unfold sessionKey. cbn [signed_by newAuth au_ops mbind option_bind au_token]. by rewrite Hc.
Qed.

(** The account of a store that reads Vault, and the cache when it cannot. *)
Definition held (from_vault cached : res operator) : option operator :=
  match from_vault, cached with
  | Ok rec, _ | Err _, Ok rec => Some rec
  | Err _, Err _ => None
  end.

Lemma load_account st vw :
  current st = None →
  let '(r, vw') := readVault vw in
  ∃ r2 st' vw2, load (st, vw) = (r2, (st', vw2)) ∧ current st' = held r (fst (readCache st vw')).
Proof.
  intros Hst. destruct (readVault vw) as [r vw'] eqn:Er. unfold load, mbind, M_bind, in_vault, attempt, get_store, set.
  rewrite Er. destruct r as [rec|e]; cbn.
  - destruct (writeCache _ rec vw') as [r2 vw2]. by eexists _, _, _.
  - destruct (readCache st vw') as [[rec|e2] vw2]; cbn; by eexists _, _, _.
Qed.

(** C23: The account of a relay that restarts after a password was saved is the one that
    Vault returns, else the one in the cache, else none.  Where that is the account
    that was saved, the operator's password works and nobody has been signed out: the
    relay accepts every session the old one did, to the second.  And it is the saved
    one in the cache whenever the save could write it there -- a save that could not
    only logs it --, a state directory is configured, and the file is still what it
    was.  Agents have to come back, and the nonces handed out before are worth
    nothing. *)
Theorem operator_survives_restart cfg username password rotate salt key now s s' rec w now' :
  save username password rotate salt key now s = (Ok (Ok ()), s') →
  current (fst s') = Some rec → wf rec → os_stateDir (fst s) = cf_StateDir cfg →
  let '(from_vault, vw) := readVault (snd (start range (newVault cfg, w))) in
  let cached := fst (readCache (newOperatorStore (cf_StateDir cfg)) vw) in
  let path := operator_cachePath (fst s) in
  let relay := boot range cfg w now' in
  (∃ st, au_ops (sv_auth relay) = Some st ∧ current st = held from_vault cached ∧
     (held from_vault cached = Some rec →
        verify st username password = Ok true ∧
        ∀ t v, validSession (sv_auth relay) t v = validSession (signed_by cfg (fst s')) t v)) ∧
  (cf_StateDir cfg ≠ "" →
   (∀ vw1, writeVault rec (snd s) = (Ok (), vw1) → ∃ vw2, writeCache (fst s) rec vw1 = (Ok (), vw2)) →
   fs_ReadFile path (snd vw) = fs_ReadFile path (snd (snd s')) → cached = Ok rec) ∧
  sv_registry relay = newRegistry ∧ sv_challenges relay = newChallenges.
Proof.
  intros Hs Hcur Hwf Hdir.
  pose proof (load_account (newOperatorStore (cf_StateDir cfg)) (snd (start range (newVault cfg, w))) eq_refl) as Hl.
  destruct (readVault _) as [r vw] eqn:Er. destruct Hl as (r2 & st & vw2 & Hl & Hst).
  destruct (boot_auth cfg w now' _ _ _ Hl) as (Ha & Hreg & Hch). cbn zeta. rewrite Ha. split_and!; [|..|done|done].
  - exists st. split_and!; [done|done|]. intros Hh. rewrite Hh in Hst. split.
    + pose proof Hs as Hs'. apply save_ok_inv in Hs' as (ph & sk & vw1 & r3 & _ & Hp & _ & _ & _ & Hf).
      rewrite Hf in Hcur. injection Hcur as <-. rewrite <-(verify_saved st username ph sk now password salt Hp).
      unfold verify. by rewrite Hst.
    + intros t v. apply validSession_same_account. by rewrite Hcur.
  - intros Hne Hcache Hfile.
    destruct (saved_cached _ _ _ _ _ _ _ _ _ Hs Hcur Hwf ltac:(by rewrite Hdir) Hcache) as (data & Hr & Hm & Hu & Hp & _).
    destruct vw as [v2 w2]. erewrite readCache_from; [done|exact Hne|done|done| |exact Hm].
    unfold operator_cachePath in *. cbn [newOperatorStore os_stateDir]. cbn [snd] in Hfile. by rewrite <-Hdir, Hfile.
Qed.
End restart.

(** ** The tools

    [mcp.AddTool] is the library's: it parses the arguments into the handler's
    type and calls the handler, or answers for itself when they do not parse. *)
Section tools.
  Context {W : Type} `{Tunnel W} `{JSON RPCRequest} `{JSON RPCResponse}.
  Context `{JSON execArgs} `{JSON pathArgs} `{JSON writeArgs} `{JSON agentArgs} `{JSON clipboardArgs}
    `{JSON clipboardImageArgs}.
  Context (ms : Z → string) (range : Registry → list (string * agentRec)) (streams : Z → Z)
    (conns : Z → CountingConn).

Notation SM := (M (Server W)).

(** [tl_agent] is the machine the arguments name. *)
Record tool := mkTool {
  tl_name : string;
  tl_agent : string → res (option string);
  tl_run : string → SM CallToolResult
}.

Definition AddTool {A} `{JSON A} (name : string) (agent : A → string) (f : A → SM CallToolResult) : tool :=
  mkTool name (λ raw, a ← Unmarshal raw; Ok (Some (agent a))) (λ raw, a ← mlift (Unmarshal raw); f a).

Definition newMCPServer (now : Z) : list tool := [
  mkTool "list_agents" (λ _, Ok None) (λ _, toolListAgents ms range streams conns now);
  AddTool "run_command" ea_Agent toolRunCommand;
  AddTool "read_clipboard_image" aa_Agent toolReadClipboardImage;
  AddTool "write_clipboard_image" ci_Agent toolWriteClipboardImage;
  AddTool "read_file" pa_Agent toolReadFile;
  AddTool "write_file" wa_Agent toolWriteFile;
  AddTool "read_clipboard" aa_Agent toolReadClipboard;
  AddTool "write_clipboard" ca_Agent toolWriteClipboard;
  AddTool "list_dir" pa_Agent toolListDir
].

Lemma agentRPC_offline id req (s : Server W) :
  Session id (sv_registry s) = None →
  agentRPC id req s = (Err (wrapf (quote id +:+ ": ") errAgentOffline), s).
Proof.
  intros Hs. unfold agentRPC, openAgentStream, mbind, M_bind, mget. by rewrite Hs.
Qed.

(** A handler that has nothing to say but that the machine is not there. *)
Definition refuses (s : Server W) (m : SM CallToolResult) : Prop :=
  ∃ r, m s = (Ok r, s) ∧ tr_IsError r = true.

Lemma call_tool_refuses id req k s : Session id (sv_registry s) = None → refuses s (call_tool id req k).
Proof.
  intros Hs. unfold refuses, call_tool, mbind, M_bind, attempt. rewrite agentRPC_offline by done. by eexists.
Qed.

(** C37: The assistant's tools do nothing to a machine that is not connected, whatever
    it is told to: each of them answers with an error and leaves the relay as it
    was.  Every tool but the list asks which machine is meant, and no two share a
    name. *)
Theorem tools_need_an_online_agent now raw id s :
  Session id (sv_registry s) = None →
  NoDup (tl_name <$> newMCPServer now) ∧
  Forall (λ t, (tl_agent t raw = Ok (Some id) → refuses s (tl_run t raw)) ∧
               (tl_agent t raw = Ok None → tl_name t = "list_agents" ∧ ∃ text, tl_run t raw s = (Ok (textResult text), s)))
         (newMCPServer now).
Proof.
  intros Hs. split; [cbn; apply (bool_decide_unpack _); vm_compute; reflexivity|].
  assert (∀ A (J : JSON A) name (agent : A → string) f,
    (∀ a, agent a = id → refuses s (f a)) →
    (tl_agent (AddTool name agent f) raw = Ok (Some id) → refuses s (tl_run (AddTool name agent f) raw)) ∧
    (tl_agent (AddTool name agent f) raw = Ok None → tl_name (AddTool name agent f) = "list_agents" ∧
       ∃ text, tl_run (AddTool name agent f) raw s = (Ok (textResult text), s))) as Htyped.
  { intros A J name agent f Hf. unfold AddTool. cbn [tl_agent tl_run tl_name].
    destruct (Unmarshal raw) as [a|e]; cbn [mbind res_bind]; [|done].
    split; [intros [= Ha]; exact (Hf a Ha)|done]. }
  unfold newMCPServer. repeat (apply Forall_cons; split); [|apply Htyped; intros a <-..|by apply Forall_nil].
  - cbn [tl_agent tl_run tl_name]. split; [done|]. intros _. split; [done|]. by eexists.
  - unfold toolRunCommand. destruct (_ =? "")%string; [by eexists|by apply call_tool_refuses].
  - unfold refuses, toolReadClipboardImage, mbind, M_bind, attempt. rewrite agentRPC_offline by done. by eexists.
  - unfold toolWriteClipboardImage. destruct (std_decode _) as [img|]; [|by eexists].
    destruct (_ <? _); [by eexists|by apply call_tool_refuses].
  - by apply call_tool_refuses.
  - by apply call_tool_refuses.
  - by apply call_tool_refuses.
  - by apply call_tool_refuses.
  - by apply call_tool_refuses.
Qed.
End tools.

(** ** Witnesses: the account of the toy Vault, over a restart with Vault there and
    with Vault gone *)
#[export] Existing Instance ToyCrypto.toy_hmac.

Definition toy_restarts (w : World) : Prop :=
  let relay := boot map_to_list toy_config w 10 in
  (∃ st, au_ops (sv_auth relay) = Some st ∧ verify st " ana " "correct horse" = Ok true) ∧
  (∀ t v, validSession (sv_auth relay) t v = validSession (signed_by toy_config (fst toy_saved)) t v) ∧
  sv_registry relay = newRegistry ∧ sv_challenges relay = newChallenges.

Lemma operator_survives_restart_witness :
  toy_restarts (snd (snd toy_saved)) ∧ toy_restarts (down_world (snd (snd toy_saved))).
Proof.
  assert (∀ w, w = snd (snd toy_saved) ∨ w = down_world (snd (snd toy_saved)) → toy_restarts w) as Hall;
    [|by split; apply Hall; [left|right]].
  intros w Hw. destruct (current (fst toy_saved)) as [rec|] eqn:Ec; [|vm_compute in Ec; discriminate Ec].
  pose proof (operator_survives_restart (H3 := ToyCrypto.toy_argon2_laws) map_to_list toy_config " ana " "correct horse" true
            (Ok "0123456789abcdef") (Ok "session") 9 toy_ops toy_saved rec w 10
            ltac:(apply run_result; vm_compute; reflexivity) Ec I eq_refl) as H.
  destruct (readVault _) as [r vw] eqn:Er. destruct H as ((st & Ha & Hst & Hworks) & _ & Hreg & Hch).
  assert (held r (fst (readCache (newOperatorStore (cf_StateDir toy_config)) vw)) = Some rec) as Hheld.
  { apply (f_equal (λ p, held (fst p) (fst (readCache (newOperatorStore (cf_StateDir toy_config)) (snd p))))) in Er.
    cbn [fst snd] in Er. rewrite <-Er, <-Ec. destruct Hw as [->| ->]; vm_compute; reflexivity. }
  destruct (Hworks Hheld) as [Hv Hsess]. split_and!; [by exists st|exact Hsess|exact Hreg|exact Hch].
Defined.

(** The toy Vault behind a disk that can be full. *)
Module FullDisk.
Record t := mk { full : bool; behind : World }.

#[global] Instance http : VaultHTTP t := λ q w,
  let '(r, b) := toy_do toy_addr q (behind w) in (r, mk (full w) b).
#[global] Instance fs : FileSystem t := {|
  fs_ReadFile p w := fs_ReadFile p (behind w);
  fs_WriteFile p d w :=
    if full w then (Err (errorf "no space left on device"), w)
    else let '(r, b) := fs_WriteFile p d (behind w) in (r, mk false b);
  fs_MkdirAll p w := let '(r, b) := fs_MkdirAll p (behind w) in (r, mk (full w) b)
|}.

Definition with_full (b : bool) (s : operatorStore * (vault * t)) : operatorStore * (vault * t) :=
  let '(st, (v, w)) := s in (st, (v, mk b (behind w))).
Definition ops : operatorStore * (vault * t) := (newOperatorStore "/pki", (setToken "tok" toy_vault, mk false toy_world)).
Definition first := save "ana" "first secret" true (Ok "0123456789abcdef") (Ok "one") 9 ops.
Definition second := save "ana" "second secret" true (Ok "fedcba9876543210") (Ok "two") 10 (with_full true (snd first)).
End FullDisk.

(** A password change that reaches Vault and not the disk is reported as done; a relay
    that then starts while Vault is down takes the old password again, and not the
    new one. *)
Theorem full_disk_revives_old_password :
  let '(_, w) := snd (snd FullDisk.second) in
  let relay := boot map_to_list toy_config (FullDisk.mk true (down_world (FullDisk.behind w))) 20 in
  let accepts := λ password, match au_ops (sv_auth relay) with
                             | Some st => verify st "ana" password | None => Ok false end in
  fst FullDisk.first = Ok (Ok ()) ∧ fst FullDisk.second = Ok (Ok ()) ∧
  verify (fst (snd FullDisk.second)) "ana" "first secret" = Ok false ∧
  accepts "first secret" = Ok true ∧ accepts "second secret" = Ok false.
Proof. vm_compute. done. Qed.

(** Arguments that are the name of the machine and nothing else. *)
Definition named {A} (f : string → A) : JSON A :=
  {| Marshal _ := Err (errorf "unused"); Unmarshal s := Ok (f s); Decode s := Ok (f s) |}.

Definition toy_tools : list (tool (W := ToyMachine.box)) :=
  newMCPServer (H2 := named (λ id, mkExecArgs id "reboot" "" 0)) (H3 := named (λ id, mkPathArgs id "/etc/motd"))
    (H4 := named (λ id, mkWriteArgs id "/etc/motd" "hello")) (H5 := named mkAgentArgs)
    (H6 := named (λ id, mkClipboardArgs id "text"))
    (H7 := named (λ id, mkClipboardImageArgs id (std_encode "png")))
    itoa map_to_list (λ _, 0) (λ _, mkCountingConn 0 0) 5.

Lemma tools_need_an_online_agent_witness :
  Forall (λ t, tl_agent t "lab-2" = Ok (Some "lab-2") → refuses ToyMachine.relay (tl_run t "lab-2")) toy_tools ∧
  length (filter (λ t, bool_decide (tl_agent t "lab-2" = Ok (Some "lab-2"))) toy_tools) = 8%nat.
Proof.
  split; [|vm_compute; reflexivity].
  refine (Forall_impl _ _ _ (proj2 (tools_need_an_online_agent
    (H2 := named (λ id, mkExecArgs id "reboot" "" 0)) (H3 := named (λ id, mkPathArgs id "/etc/motd"))
    (H4 := named (λ id, mkWriteArgs id "/etc/motd" "hello")) (H5 := named mkAgentArgs)
    (H6 := named (λ id, mkClipboardArgs id "text"))
    (H7 := named (λ id, mkClipboardImageArgs id (std_encode "png")))
    itoa map_to_list (λ _, 0) (λ _, mkCountingConn 0 0) 5 "lab-2" "lab-2" ToyMachine.relay _)) _).
  - vm_compute. reflexivity.
  - intros t Ht. apply Ht.
Defined.
