(* ===== verification/Frames.v ===== *)
(** * What a handler may do to the relay

    A small program logic for the state monad: [keeps R m] says that every run of
    [m] moves the state along the preorder [R].  It composes along the combinators
    the handlers are written with, so that a property of each operation on its own
    part of the relay becomes a property of every route, in the order the handlers
    call them. *)

From S2P Require Import Prelude GoStrings GoNum GoBase64 GoUtf8 Interfaces GoNet Wire Assertions.
From S2P Require Import Challenges Events Feed Registry Proxies Host ServerConfig VaultClient.
From S2P Require Import VaultProofs KVStore AgentKeys OperatorStore OperatorProofs ToyVault Auth AuthProofs.
From S2P Require Import Server Enroll EnrollProofs Mux AgentConn RelayTools Dashboard RelayMain.

Open Scope string_scope.
Open Scope list_scope.
Open Scope Z_scope.

(** ** The logic *)
Definition keeps {S A} (R : relation S) (m : M S A) : Prop := ∀ s r s', m s = (r, s') → R s s'.

Create HintDb keeps.

Section keeps.
  Context {S : Type} (R : relation S) `{!PreOrder R}.

Lemma keeps_ret {A} (a : A) : keeps R (mret a).
Proof. by intros s r s' [= _ <-]. Qed.
Lemma keeps_throw {A} e : keeps R (mthrow (A := A) e).
Proof. by intros s r s' [= _ <-]. Qed.
Lemma keeps_lift {A} (x : res A) : keeps R (mlift x).
Proof. by intros s r s' [= _ <-]. Qed.
Lemma keeps_get : keeps R mget.
Proof. by intros s r s' [= _ <-]. Qed.

Lemma keeps_modify f : (∀ s, R s (f s)) → keeps R (mmodify f).
Proof. intros Hf s r s' [= _ <-]. apply Hf. Qed.

Lemma keeps_mbind {A B} (m : M S A) (k : A → M S B) :
  keeps R m → (∀ a, keeps R (k a)) → keeps R (m ≫= k).
Proof.
  intros Hm Hk s r s'. unfold mbind, M_bind. destruct (m s) as [[a|e] s1] eqn:E.
  - intros Hr. etrans; [by eapply Hm|by eapply Hk].
  - intros [= _ <-]. by eapply Hm.
Qed.

Lemma keeps_tried {A} (m : M S A) : keeps R m → keeps R (attempt m).
Proof.
  intros Hm s r s'. unfold attempt. destruct (m s) as [r1 s1] eqn:E. intros [= _ <-]. by eapply Hm.
Qed.
End keeps.

(** A component's operation, by what the component allows. *)
Lemma keeps_zoom {S T A} (R : relation S) (Q : relation T) get put (m : M T A) :
  (∀ s t, Q (get s) t → R s (put t s)) → keeps Q m → keeps R (zoom get put m).
Proof.
  intros Hp Hm s r s'. unfold zoom. destruct (m (get s)) as [r1 t] eqn:E. intros [= _ <-].
  apply Hp. by eapply Hm.
Qed.

#[export] Hint Resolve keeps_ret keeps_throw keeps_lift keeps_get keeps_mbind keeps_tried : keeps.
#[export] Hint Extern 2 (PreOrder _) => apply _ : keeps.

(** Walks a translated handler, branch by branch. *)
Ltac keeps_step :=
  match goal with
  | |- keeps _ (mbind _ _) => apply keeps_mbind; [apply _| |intros ?]
  | |- keeps _ (attempt _) => apply keeps_tried
  | |- keeps _ (match ?x with _ => _ end) => destruct x
  | |- keeps _ (let _ := _ in _) => cbv zeta
  | |- keeps _ _ => solve [auto with keeps]
  end.
Ltac keeps := repeat keeps_step.

(** ** The Vault client: its cached keys *)
Section vault.
  Context {W : Type} `{FileSystem W} `{VaultHTTP W} `{VaultJSON}.

Definition same_keys (s s' : vault * W) : Prop := va_pubKeys (fst s') = va_pubKeys (fst s).

#[export] Instance same_keys_preorder : PreOrder same_keys.
Proof. split; [done|]. intros x y z. unfold same_keys. congruence. Qed.

Lemma keeps_get_vault : keeps same_keys get_vault.
Proof. by intros s r s' [= _ <-]. Qed.
Lemma keeps_in_world {A} (m : M W A) : keeps same_keys (in_world m).
Proof. intros [v w] r s'. cbn. destruct (m w). by intros [= _ <-]. Qed.
Lemma keeps_read_file p : keeps same_keys (read_file p).
Proof. intros [v w] r s'. cbn. by intros [= _ <-]. Qed.
Lemma keeps_kvGet {A} `{JSON A} p : keeps same_keys (kvGet (A := A) p).
Proof. intros s r s'. apply kvGet_frame. Qed.
Lemma keeps_kvPut {A} `{JSON A} p (a : A) : keeps same_keys (kvPut p a).
Proof. intros s r s'. apply kvPut_frame. Qed.
Lemma keeps_Sign doc : keeps same_keys (Sign doc).
Proof. intros s r s'. apply Sign_frame. Qed.
Lemma keeps_claim `{JSON (option key_map)} format id pk who rb now :
  keeps same_keys (claim format id pk who rb now).
Proof. intros s r s'. apply claim_frame. Qed.

Lemma keeps_SealStatus t1 t2 cache (vw : vault * W) r vw' :
  SealStatus t1 t2 cache vw = (r, vw') → same_keys vw vw'.
Proof.
  assert (∀ r vw', ask_seal t2 vw = (r, vw') → same_keys vw vw') as Hask.
  { intros r1 vw1. unfold ask_seal, mbind at 1, M_bind at 1.
    destruct (call _ _ _ _ vw) as [[b|e] s1] eqn:Ec; apply call_frame in Ec; unfold mlift;
      intros [= _ <-]; unfold same_keys; by rewrite Ec. }
  unfold SealStatus. destruct (negb _); [by intros [= _ <-]|].
  destruct (sc_state cache); [|apply Hask]. destruct (_ <? _); [by intros [= _ <-]|apply Hask].
Qed.
End vault.
#[export] Hint Resolve keeps_get_vault keeps_in_world keeps_read_file keeps_kvGet keeps_kvPut keeps_Sign
  keeps_claim : keeps.

(** ** The account *)
Section account.
  Context {W : Type} `{FileSystem W} `{VaultHTTP W} `{VaultJSON} `{JSON operator} `{Argon2} `{HMAC}.

(** An account, once there is one, is never taken away. *)
Definition keeps_account (s s' : operatorStore * (vault * W)) : Prop :=
  (exists_ (fst s) = true → exists_ (fst s') = true) ∧ same_keys (snd s) (snd s').

#[export] Instance keeps_account_preorder : PreOrder keeps_account.
Proof. split; [done|]. intros x y z [? ?] [? ?]. split; [auto|etrans; eassumption]. Qed.

Lemma keeps_in_vault {A} (m : M (vault * W) A) : keeps same_keys m → keeps keeps_account (in_vault m).
Proof.
  intros Hm [o vw] r s'. cbn. destruct (m vw) as [r1 vw1] eqn:E. intros [= _ <-].
  split; [done|]. by eapply Hm.
Qed.
Lemma keeps_get_store : keeps keeps_account get_store.
Proof. by intros s r s' [= _ <-]. Qed.
Lemma keeps_set rec : keeps keeps_account (set rec).
Proof. intros [o vw] r s'. by intros [= _ <-]. Qed.
Lemma keeps_writeVault rec : keeps same_keys (writeVault rec).
Proof. unfold writeVault. keeps. Qed.
Lemma keeps_writeCache o rec : keeps same_keys (writeCache o rec).
Proof. unfold writeCache. keeps. Qed.

Hint Resolve keeps_in_vault keeps_get_store keeps_set keeps_writeVault keeps_writeCache : keeps.

Lemma keeps_save u p rotate salt key now : keeps keeps_account (save u p rotate salt key now).
Proof. unfold save. keeps. Qed.

(** What the sign-in handlers may do to the account they guard: the admin token
    and the proxies are what the relay was started with. *)
Definition auth_evolves (a a' : auth) : Prop :=
  au_token a' = au_token a ∧ au_proxies a' = au_proxies a ∧ (enabled a = true → enabled a' = true).

#[export] Instance auth_evolves_preorder : PreOrder auth_evolves.
Proof.
  split; [done|]. intros x y z (? & ? & ?) (? & ? & ?). split_and!; [congruence..|auto].
Qed.

Definition auth_step (s s' : auth * (vault * W)) : Prop :=
  auth_evolves (fst s) (fst s') ∧ same_keys (snd s) (snd s').

#[export] Instance auth_step_preorder : PreOrder auth_step.
Proof. split; [done|]. intros x y z [? ?] [? ?]. split; etrans; eassumption. Qed.

Lemma keeps_get_auth : keeps auth_step get_auth.
Proof. by intros s r s' [= _ <-]. Qed.

Lemma keeps_ops_save u p rotate salt key now : keeps auth_step (ops_save u p rotate salt key now).
Proof.
  intros [a vw] r s'. unfold ops_save. destruct (au_ops a) as [o|] eqn:Eo; [|by intros [= _ <-]].
  destruct (save _ _ _ _ _ _ (o, vw)) as [r1 [o' vw']] eqn:Es. intros [= _ <-].
  apply keeps_save in Es as [Hex Hk]. cbn [fst snd] in *. split; [|done].
  split_and!; [done..|]. unfold enabled. cbn [set_ops au_token au_ops fst]. rewrite Eo.
  rewrite !orb_true_iff. naive_solver.
Qed.

Hint Resolve keeps_get_auth keeps_ops_save : keeps.

Lemma keeps_handleBootstrap r salt key now now1 now2 :
  keeps auth_step (handleBootstrap r salt key now now1 now2).
Proof. unfold handleBootstrap. keeps. Qed.
Lemma keeps_handleChangePassword r salt key now now1 now2 :
  keeps auth_step (handleChangePassword r salt key now now1 now2).
Proof. unfold handleChangePassword. keeps. Qed.
End account.
#[export] Hint Resolve keeps_handleBootstrap keeps_handleChangePassword : keeps.

(** ** The relay *)
Lemma run_calls_app cs cs' seen : run_calls (cs ++ cs') seen = run_calls cs' (run_calls cs seen).
Proof. unfold run_calls. apply fold_left_app. Qed.
Lemma run_calls_size cs seen :
  Z.of_nat (size seen) ≤ maxChallenges → Z.of_nat (size (run_calls cs seen)) ≤ maxChallenges.
Proof.
  revert seen. induction cs as [|c cs IH]; intros seen Hs; [done|]. apply IH. by apply run_call_size.
Qed.

Lemma run_feed_app fs fs' b : run_feed (fs ++ fs') b = run_feed fs' (run_feed fs b).
Proof. unfold run_feed. apply fold_left_app. Qed.

Section relay.
  Context {W : Type}.

(** Nobody connects or leaves; the nonces and the feed go through steps of their
    own, the nonces only through calls [P] allows; the configuration and the keys
    the relay verifies with are what they were. *)
Record evolves (P : Challenges.call → Prop) (s s' : Server W) : Prop := mkEvolves {
  ev_registry : sv_registry s' = sv_registry s;
  ev_challenges : ∃ cs, sv_challenges s' = run_calls cs (sv_challenges s) ∧ Forall P cs;
  ev_events : ∃ fs, sv_events s' = run_feed fs (sv_events s);
  ev_auth : auth_evolves (sv_auth s) (sv_auth s');
  ev_keys : same_keys (sv_vault s) (sv_vault s')
}.

#[export] Instance evolves_preorder P : PreOrder (evolves P).
Proof.
  split.
  - intros s. split; [done|by exists []|by exists []|done|done].
  - intros x y z [? (cs & Hc & ?) (fs & Hf) ? ?] [? (cs' & Hc' & ?) (fs' & Hf') ? ?]. split.
    + congruence.
    + exists (cs ++ cs'). by rewrite run_calls_app, <-Hc, Forall_app.
    + exists (fs ++ fs'). by rewrite run_feed_app, <-Hf.
    + by etrans.
    + by etrans.
Qed.

(** Another preorder sees less of the state, or allows more. *)
Lemma evolves_weaken (P Q : Challenges.call → Prop) s s' : (∀ c, P c → Q c) → evolves P s s' → evolves Q s s'.
Proof.
  intros Hi [? (cs & ? & ?) ? ? ?]. split; try done. exists cs. split; [done|]. by eapply Forall_impl.
Qed.

Definition no_call (c : Challenges.call) : Prop := False.

(** Changes outside the nonces. *)
Lemma evolves_quiet P (s s' : Server W) :
  sv_registry s' = sv_registry s → sv_challenges s' = sv_challenges s →
  (∃ fs, sv_events s' = run_feed fs (sv_events s)) → auth_evolves (sv_auth s) (sv_auth s') →
  same_keys (sv_vault s) (sv_vault s') → evolves P s s'.
Proof. intros Hr Hc ? ? ?. split; try done. by exists []. Qed.

Context (P : Challenges.call → Prop).
Notation kept := (keeps (evolves P)).

Lemma keeps_publish now typ id msg : kept (publish now typ id msg).
Proof.
  apply keeps_modify. intros s. apply evolves_quiet; try done. by exists [FPublish now (mkEvent typ id msg 0)].
Qed.
Lemma keeps_on_vault {A} (m : M (vault * W) A) : keeps same_keys m → kept (on_vault m).
Proof. apply keeps_zoom. intros s t Hk. apply evolves_quiet; try done. by exists []. Qed.
Lemma keeps_on_auth {A} (m : M (auth * (vault * W)) A) : keeps auth_step m → kept (on_auth m).
Proof. apply keeps_zoom. intros s t [Ha Hk]. apply evolves_quiet; try done. by exists []. Qed.
Lemma keeps_on_tunnel {A} (m : M W A) : kept (on_tunnel m).
Proof.
  apply (keeps_zoom _ (λ _ _, True)); [|done]. intros s t _. apply evolves_quiet; try done. by exists [].
Qed.

Lemma keeps_issue rnd now1 now2 : P (CIssue rnd now1 now2) → kept (on_challenges (issue rnd now1 now2)).
Proof.
  intros HP s r s'. unfold on_challenges, zoom. destruct (issue _ _ _ _) as [r1 seen] eqn:E.
  intros [= _ <-]. split; [done| |by exists []|done|done].
  exists [CIssue rnd now1 now2]. split; [cbn; by rewrite E|by constructor].
Qed.
Lemma keeps_redeem nonce now :
  P (CRedeem nonce now) →
  kept (on_challenges (λ seen, let '(ok, seen) := redeem nonce now seen in (Ok ok, seen))).
Proof.
  intros HP s r s'. unfold on_challenges, zoom. destruct (redeem _ _ _) as [ok seen] eqn:E.
  intros [= _ <-]. split; [done| |by exists []|done|done].
  exists [CRedeem nonce now]. split; [cbn; by rewrite E|by constructor].
Qed.
End relay.
#[export] Hint Resolve keeps_publish keeps_on_vault keeps_on_auth keeps_on_tunnel keeps_issue keeps_redeem : keeps.

(** ** A browser on the feed, and what others do meanwhile *)
Lemma sse_loop_feed `{JSON Event} ch ws flushes w b :
  ∃ fs, snd (sse_loop ch ws flushes w b) = run_feed fs b.
Proof.
  revert flushes w b. induction ws as [|x ws IH]; intros flushes w b; [by exists []|].
  assert (∀ s b1 flushes w, (∃ fs, snd (sse_loop ch ws flushes w b1) = run_feed fs b1) → b1 = run_feed_step s b →
    ∃ fs, snd (sse_loop ch ws flushes w b1) = run_feed fs b) as Hstep.
  { intros s b1 ? ? [fs ->] ->. by exists (s :: fs). }
  assert (∀ b1, Receive ch b = (None, b1) → b1 = b) as Hnone.
  { intros b1. unfold Receive. by destruct (eb_chans b !! ch) as [[|]|]; intros [= <-]. }
  destruct x as [| | |s]; cbn [sse_loop].
  - by exists [].
  - destruct (Receive ch b) as [[e|] b1] eqn:Er; [|rewrite (Hnone _ eq_refl); apply IH].
    assert (b1 = run_feed_step (FReceive ch) b) as Hb1 by (cbn; by rewrite Er).
    destruct (writeSSE e w) as [[[]|x] w1]; [|by exists [FReceive ch]; subst].
    destruct (flush flushes) as [[[]|x] flushes1]; [|by exists [FReceive ch]; subst].
    by eapply Hstep.
  - destruct (write keepalive w) as [[[]|x] w1]; [|by exists []].
    destruct (flush flushes) as [[[]|x] flushes1]; [apply IH|by exists []].
  - by eapply Hstep.
Qed.

Lemma handleEvents_feed `{JSON Event} ws flushes w b :
  ∃ fs, snd (handleEvents ws flushes w b) = run_feed fs b.
Proof.
  unfold handleEvents. destruct (Subscribe b) as [[history ch] b1] eqn:Es.
  assert (∀ fs, Unsubscribe ch (run_feed fs b1) = run_feed (FSubscribe :: fs ++ [FUnsubscribe ch]) b) as Hb.
  { intros fs. change (FSubscribe :: fs ++ [FUnsubscribe ch]) with ([FSubscribe] ++ fs ++ [FUnsubscribe ch]).
    rewrite !run_feed_app. cbn [run_feed fold_left run_feed_step]. by rewrite Es. }
  destruct (sse_history history w) as [[] w1]; [|by eexists; apply (Hb [])].
  destruct (flush flushes) as [[[]|x] flushes1]; [|by eexists; apply (Hb [])].
  destruct (sse_loop_feed ch ws flushes1 w1 b1) as [fs Hfs].
  destruct (sse_loop _ _ _ _ _) as [w2 b2]. cbn [snd] in *. subst b2. by eexists.
Qed.

(** ** The routes *)
Section routes.
  Context {W : Type} `{FileSystem W} `{VaultHTTP W} `{VaultJSON} `{Argon2} `{HMAC} `{Ed25519}
    `{JSON Assertion} `{JSON (option key_map)} `{JSON enrollRequest} `{JSON operator} `{JSON Event}
    `{Tunnel W} `{JSON RPCRequest} `{JSON RPCResponse} `{MuxRedirectStatus}
    (format nano ms : Z → string) (version : string)
    (range : Registry → list (string * agentRec)) (streams : Z → Z) (conns : Z → CountingConn).

Section handlers.
  Context (P : Challenges.call → Prop).
Notation kept := (keeps (evolves (W := W) P)).

Lemma keeps_openAgentStream id kind : kept (openAgentStream id kind).
Proof. unfold openAgentStream. keeps. Qed.
Hint Resolve keeps_openAgentStream : keeps.

Lemma keeps_agentRPC id req : kept (agentRPC id req).
Proof. unfold agentRPC. keeps. Qed.
Hint Resolve keeps_agentRPC : keeps.

Lemma keeps_call_tool id req k : kept (call_tool id req k).
Proof. unfold call_tool. keeps. Qed.
Lemma keeps_handleShell r accept t1 t2 : kept (handleShell r accept t1 t2).
Proof. unfold handleShell. keeps. Qed.
Lemma keeps_handleForward r accept t1 t2 : kept (relay_handleForward r accept t1 t2).
Proof. unfold relay_handleForward. keeps. Qed.
Lemma keeps_handleClipboardImage r body t : kept (handleClipboardImage r body t).
Proof. unfold handleClipboardImage. keeps. Qed.
Lemma keeps_handleEnroll r t1 t2 t3 : kept (handleEnroll format r t1 t2 t3).
Proof. unfold handleEnroll. keeps. Qed.
Lemma keeps_handleAgentPing r echo t : kept (handleAgentPing ms r echo t).
Proof. unfold handleAgentPing. keeps. Qed.
Lemma keeps_handleAgentKick r t : kept (handleAgentKick r t).
Proof. unfold handleAgentKick. keeps. Qed.
Lemma keeps_handleAgents t : kept (handleAgents nano range streams conns t).
Proof. unfold handleAgents. keeps. Qed.
Lemma keeps_handleHealth : kept handleHealth.
Proof. unfold handleHealth. keeps. Qed.
Lemma keeps_handleServerInfo t t1 t2 : kept (handleServerInfo version t t1 t2).
Proof.
  intros s r s'. unfold handleServerInfo. destruct (Counts _) as [on tot].
  destruct (SealStatus _ _ _ _) as [[st c] vw] eqn:Es. apply keeps_SealStatus in Es.
  intros [= _ <-]. apply evolves_quiet; try done. by exists [].
Qed.
Lemma keeps_feed i : kept (feed i).
Proof.
  intros s r s'. unfold feed. pose proof (handleEvents_feed (in_wakes i) (in_flushes i) (in_writer i) (sv_events s)) as Hf.
  destruct (handleEvents _ _ _ _) as [w b]. intros [= _ <-]. by apply evolves_quiet.
Qed.

Lemma keeps_verifyAgent r now nr :
  P (CRedeem (Header_Get (rq_header r) HeaderChallenge) nr) → kept (verifyAgent format r now nr).
Proof. intros HP. unfold verifyAgent. keeps. Qed.
Lemma keeps_handleAgentConnect r hj now nr te :
  P (CRedeem (Header_Get (rq_header r) HeaderChallenge) nr) → kept (handleAgentConnect format r hj now nr te).
Proof. intros HP. pose proof (keeps_verifyAgent r now nr HP). unfold handleAgentConnect. keeps. Qed.
Lemma keeps_handleAgentChallenge r rnd t1 t2 :
  P (CIssue rnd t1 t2) → kept (handleAgentChallenge r rnd t1 t2).
Proof. intros HP. unfold handleAgentChallenge. keeps. Qed.
End handlers.

(** Only two routes touch the nonces, each with one call. *)
Definition route_call (rt : route) (i : Inputs) (r : Request) (c : Challenges.call) : Prop :=
  match rt with
  | RConnect => c = CRedeem (Header_Get (rq_header r) HeaderChallenge) (in_now i 1%nat)
  | RChallenge => c = CIssue (in_rnd i) (in_now i 0%nat) (in_now i 1%nat)
  | _ => False
  end.

Hint Resolve keeps_handleShell keeps_handleForward keeps_handleClipboardImage keeps_handleEnroll
  keeps_handleAgentPing keeps_handleAgentKick keeps_handleAgents keeps_handleHealth keeps_handleServerInfo
  keeps_feed keeps_handleAgentConnect keeps_handleAgentChallenge : keeps.
Hint Extern 1 (route_call _ _ _ _) => reflexivity : keeps.

Lemma keeps_serve rt i r :
  keeps (evolves (W := W) (route_call rt i r)) (serve format nano ms version range streams conns rt i r).
Proof. destruct rt; unfold serve, respond; cbv zeta; keeps. Qed.

(** The calls a request can make. *)
Definition request_call (method raw : string) (i : Inputs) (r : Request) (c : Challenges.call) : Prop :=
  ∃ rt params, ServeMux route_table method raw = MuxFound rt params ∧ route_call rt i r c.

Lemma keeps_mux method raw i r :
  keeps (evolves (W := W) (request_call method raw i r))
        (mux format nano ms version range streams conns method raw i r).
Proof.
  unfold mux. destruct (ServeMux route_table method raw) as [rt params|path|allow|] eqn:Em; [|keeps..].
  intros s out s' Hs. apply keeps_serve in Hs. eapply evolves_weaken; [|exact Hs].
  intros c Hc. exists rt, params. split; [done|]. by destruct rt.
Qed.

Lemma keeps_routes method raw i now r :
  keeps (evolves (W := W) (request_call method raw i r))
        (routes format nano ms version range streams conns method raw i now r).
Proof.
  intros s out s'. unfold routes, protect. cbv zeta. destruct (_ || _ || _); [apply keeps_mux|].
  by destruct (wantsHTML r); intros [= _ <-].
Qed.
End routes.
