(* ===== verification/RelayHistory.v ===== *)
(** * The life of a relay

    Everything a running relay goes through, one event after another: requests on
    its routes, the tools an assistant calls, and, for every agent whose handshake
    was accepted, the beginning and the end of its session, the streams it opens
    and the measurements in between, in any interleaving.  The theorems here hold
    in every state the relay can reach from its start.

    A request is one event: its effects on the nonces, the registry and the feed
    each happen under that component's mutex, and what other events do between
    them is what their own theorems quantify over. *)

From S2P Require Import Prelude GoStrings GoNum GoBase64 GoUtf8 Interfaces GoNet Wire Assertions.
From S2P Require Import Challenges Events Feed Registry Proxies Host ServerConfig VaultClient.
From S2P Require Import VaultProofs KVStore AgentKeys OperatorStore OperatorProofs ToyVault Auth AuthProofs.
From S2P Require Import Server Enroll EnrollProofs Mux AgentConn RelayTools Dashboard RelayMain Frames.

Open Scope string_scope.
Open Scope list_scope.
Open Scope Z_scope.

(** A list without one occurrence of an element that is in it. *)
Fixpoint take_out {A} `{EqDecision A} (x : A) (l : list A) : option (list A) :=
  match l with
  | [] => None
  | y :: l => if decide (x = y) then Some l else cons y <$> take_out x l
  end.

Lemma take_out_perm {A} `{EqDecision A} (x : A) l l' : take_out x l = Some l' → l ≡ₚ x :: l'.
Proof.
  revert l'. induction l as [|y l IH]; intros l' Ht; [done|]. cbn in Ht.
  case_decide as Heq; [by simplify_eq|]. apply fmap_Some in Ht as (k & Hk & ->).
  rewrite (IH k Hk). apply Permutation_swap.
Qed.

(** A connection whose handshake was accepted, as [serveSession] is given it. *)
Record Accepted := mkAccepted {
  ac_hello : Hello;
  ac_remote : string;
  ac_sess : Z;
  ac_transport : Transport;
  ac_detail : string
}.

#[export] Instance Hello_eq_dec : EqDecision Hello.
Proof. solve_decision. Defined.
#[export] Instance Accepted_eq_dec : EqDecision Accepted.
Proof. solve_decision. Defined.

Definition ac_ID (a : Accepted) : string := AgentID (ac_hello a).

Inductive relay_event :=
  | EvRequest (method raw : string) (i : Inputs) (now : Z) (r : Request)
  | EvTool (n : nat) (raw : string) (now : Z)             (* the n-th tool *)
  | EvBegin (a : Accepted) (conn now now_event : Z)       (* serveSession up to its loop *)
  | EvStream (a : Accepted) (br : BufReader) (now : Z)
  | EvPing (a : Accepted) (rtt : res Z)
  | EvEnd (a : Accepted) (now now_event : Z).             (* the loop has ended *)

(** The relay and its connections: accepted and on their way to [serveSession],
    inside its loop, and all that ever were, whose streams and pings may still be
    running. *)
Record Relay (W : Type) := mkRelay {
  rl_server : Server W;
  rl_accepted : list Accepted;
  rl_live : list Accepted;
  rl_begun : list Accepted
}.
Arguments mkRelay {W}.
Arguments rl_server {W}.
Arguments rl_accepted {W}.
Arguments rl_live {W}.
Arguments rl_begun {W}.

Definition admitted (out : res Dashboard.answer) : option Accepted :=
  match out with
  | Ok (AConnect (Served h remote sess _ _ tr detail)) => Some (mkAccepted h remote sess tr detail)
  | _ => None
  end.

Section history.
  Context {W : Type} `{FileSystem W} `{VaultHTTP W} `{VaultJSON} `{Argon2} `{HMAC} `{Ed25519}
    `{JSON Assertion} `{JSON (option key_map)} `{JSON enrollRequest} `{JSON operator} `{JSON Event}
    `{Tunnel W} `{JSON RPCRequest} `{JSON RPCResponse} `{MuxRedirectStatus}
    `{JSON execArgs} `{JSON pathArgs} `{JSON writeArgs} `{JSON agentArgs} `{JSON clipboardArgs}
    `{JSON clipboardImageArgs}
    (format nano ms : Z → string) (version : string)
    (range : Registry → list (string * agentRec)) (streams : Z → Z) (conns : Z → CountingConn)
    (decode_lines : string → list LogLine) (range_keys : gmap string string → list (string * string)).

Notation Routes := (routes (W := W) format nano ms version range streams conns).
Notation tools := (newMCPServer (W := W) ms range streams conns).

Definition happens (ev : relay_event) (y : Relay W) : option (Relay W) :=
  let '(mkRelay s accepted live begun) := y in
  match ev with
  | EvRequest method raw i now r =>
      let '(out, s) := Routes method raw i now r s in
      Some (mkRelay s (option_list (admitted out) ++ accepted) live begun)
  | EvTool n raw now =>
      t ← tools now !! n;
      Some (mkRelay (snd (tl_run t raw s)) accepted live begun)
  | EvBegin a conn now te =>
      accepted ← take_out a accepted;
      let s := snd (serveSession_begin (ac_hello a) (ac_remote a) (ac_sess a) conn (ac_transport a)
                      (ac_detail a) now te s) in
      Some (mkRelay s accepted (a :: live) (a :: begun))
  | EvStream a br now =>
      if decide (a ∈ begun)
      then Some (mkRelay (snd (handleAgentStream decode_lines (ac_ID a) br now s)) accepted live begun)
      else None
  | EvPing a rtt =>
      if decide (a ∈ begun)
      then Some (mkRelay (snd (measure (ac_ID a) rtt s)) accepted live begun)
      else None
  | EvEnd a now te =>
      live ← take_out a live;
      Some (mkRelay (snd (serveSession_end (ac_ID a) (ac_sess a) now te s)) accepted live begun)
  end.

(** What happened, each event with the state it met. *)
Inductive history : Relay W → list (Server W * relay_event) → Relay W → Prop :=
  | history_nil y : history y [] y
  | history_snoc x tr y ev z :
      history x tr y → happens ev y = Some z → history x (tr ++ [(rl_server y, ev)]) z.

(** A history from the events alone. *)
Fixpoint run_events (evs : list relay_event) (y : Relay W) : option (list (Server W * relay_event) * Relay W) :=
  match evs with
  | [] => Some ([], y)
  | ev :: evs =>
      z ← happens ev y;
      '(tr, z') ← run_events evs z;
      Some ((rl_server y, ev) :: tr, z')
  end.

Lemma run_events_history evs x tr y tr' z :
  history x tr y → run_events evs y = Some (tr', z) → history x (tr ++ tr') z.
Proof.
  revert tr y tr'. induction evs as [|ev evs IH]; intros tr y tr' Hh; cbn.
  - intros [= <- <-]. by rewrite app_nil_r.
  - destruct (happens ev y) as [y'|] eqn:E; [|done]. cbn.
    destruct (run_events evs y') as [[tr1 z1]|] eqn:E1; [|done]. cbn. intros [= <- <-].
    apply (history_snoc _ _ _ _ _ Hh) in E. eapply IH in E; [|exact E1]. by rewrite <-app_assoc in E.
Qed.

Lemma run_events_from evs y tr z : run_events evs y = Some (tr, z) → history y tr z.
Proof. apply (run_events_history evs y [] y tr z), history_nil. Qed.

Lemma run_events_trace evs y tr z : run_events evs y = Some (tr, z) → snd <$> tr = evs.
Proof.
  revert y tr. induction evs as [|ev evs IH]; intros y tr; cbn; [by intros [= <- _]|].
  destruct (happens ev y) as [y'|]; [|done]. cbn. destruct (run_events evs y') as [[tr1 z1]|] eqn:E1; [|done].
  cbn. intros [= <- <-]. cbn. by rewrite (IH _ _ E1).
Qed.

(** A relay that begins to listen. *)
Definition listening (cfg : Config) (w : W) (now : Z) : Relay W :=
  mkRelay (boot range_keys cfg w now) [] [] [].

(** ** Each component goes through a history of its own *)

(** The registry's part in an event. *)
Definition session_steps (ev : relay_event) : list session_step :=
  match ev with
  | EvBegin a conn now _ =>
      [SConnect (ac_hello a) (ac_remote a) (ac_sess a) conn (ac_transport a) (ac_detail a) now]
  | EvPing a (Ok ns) => [SRTT (ac_ID a) ns]
  | EvEnd a now _ => [SDisconnect (ac_ID a) (ac_sess a) now]
  | _ => []
  end.

Definition event_call (ev : relay_event) (c : Challenges.call) : Prop :=
  match ev with
  | EvRequest method raw i _ r => request_call method raw i r c
  | _ => False
  end.

(** One event, seen by every component. *)
Record relay_moves (ev : relay_event) (s s' : Server W) : Prop := mkRelayMoves {
  rm_registry : sv_registry s' = run_sessions (session_steps ev) (sv_registry s);
  rm_challenges : ∃ cs, sv_challenges s' = run_calls cs (sv_challenges s) ∧ Forall (event_call ev) cs;
  rm_events : ∃ fs, sv_events s' = run_feed fs (sv_events s);
  rm_auth : auth_evolves (sv_auth s) (sv_auth s');
  rm_keys : same_keys (sv_vault s) (sv_vault s')
}.

Lemma evolves_moves ev P s s' :
  session_steps ev = [] → (∀ c, P c → event_call ev c) → evolves P s s' → relay_moves ev s s'.
Proof.
  intros Hs Hc He. apply (evolves_weaken _ _ _ _ Hc) in He as [? ? ? ? ?]. split; try done. by rewrite Hs.
Qed.

Lemma quiet_moves ev (s s' : Server W) :
  sv_registry s' = run_sessions (session_steps ev) (sv_registry s) →
  sv_challenges s' = sv_challenges s → (∃ fs, sv_events s' = run_feed fs (sv_events s)) →
  sv_auth s' = sv_auth s → sv_vault s' = sv_vault s → relay_moves ev s s'.
Proof. intros ? Hc ? Ha Hv. split; [done|by exists []|done|by rewrite Ha|by rewrite Hv]. Qed.

Lemma keeps_consumeAgentLog P id lines now : keeps (evolves P) (consumeAgentLog (W := W) id lines now).
Proof.
  induction lines as [|line lines IH]; cbn; [keeps|]. apply keeps_mbind; [apply _| |done].
  apply keeps_modify. intros s. apply evolves_quiet; try done. by eexists [FPublish _ _].
Qed.
Lemma keeps_handleAgentStream P id br now : keeps (evolves P) (handleAgentStream (W := W) decode_lines id br now).
Proof. pose proof (keeps_consumeAgentLog P). unfold handleAgentStream. keeps. Qed.

Lemma keeps_tool P now n t raw : tools now !! n = Some t → keeps (evolves P) (tl_run t raw).
Proof.
  intros Hn%list_elem_of_lookup_2. unfold newMCPServer in Hn.
  repeat (apply elem_of_cons in Hn as [->|Hn]); [..|by apply elem_of_nil in Hn];
    unfold AddTool, toolListAgents, toolRunCommand, toolReadClipboardImage, toolWriteClipboardImage, toolReadFile,
      toolWriteFile, toolReadClipboard, toolWriteClipboard, toolListDir; cbn [tl_run]; keeps;
    first [apply keeps_call_tool|apply keeps_agentRPC].
Qed.

Lemma begin_moves a conn now te (s : Server W) :
  relay_moves (EvBegin a conn now te) s
    (snd (serveSession_begin (ac_hello a) (ac_remote a) (ac_sess a) conn (ac_transport a) (ac_detail a) now te s)).
Proof.
  unfold serveSession_begin, mbind, M_bind, mget, mmodify.
  destruct (Connect _ _ _ _ _ _ _ _) as [[reconnect stale] reg] eqn:E. rewrite publish_state.
  apply quiet_moves; try done; [|by eexists [FPublish _ _]].
  cbn [sv_registry set_events set_registry snd]. cbn. by rewrite E.
Qed.

Lemma end_moves a now te (s : Server W) :
  relay_moves (EvEnd a now te) s (snd (serveSession_end (ac_ID a) (ac_sess a) now te s)).
Proof.
  unfold serveSession_end, mbind, M_bind, mget, mmodify.
  destruct (Disconnect _ _ _ _) as [was reg] eqn:E.
  destruct was; [rewrite publish_state|]; (apply quiet_moves; try done;
    [cbn [sv_registry set_events set_registry snd]; cbn; by rewrite E|by first [eexists [FPublish _ _]; reflexivity|exists []]]).
Qed.

Lemma ping_moves a rtt (s : Server W) : relay_moves (EvPing a rtt) s (snd (measure (ac_ID a) rtt s)).
Proof. destruct rtt; apply quiet_moves; try done; by exists []. Qed.

Lemma happens_moves ev y z : happens ev y = Some z → relay_moves ev (rl_server y) (rl_server z).
Proof.
  destruct y as [s accepted live begun]. cbn [happens rl_server].
  destruct ev as [method raw i now r|n raw now|a conn now te|a br now|a rtt|a now te].
  - destruct (Routes _ _ _ _ _ s) as [out s'] eqn:E. intros [= <-]. apply keeps_routes in E.
    by eapply evolves_moves.
  - destruct (tools now !! n) as [t|] eqn:Et; [|done]. intros [= <-]. cbn [rl_server].
    destruct (tl_run t raw s) as [out s'] eqn:E. eapply (keeps_tool no_call) in E; [|done].
    by eapply evolves_moves.
  - destruct (take_out a accepted); [|done]. intros [= <-]. apply begin_moves.
  - case_decide; [|done]. intros [= <-]. cbn [rl_server].
    destruct (handleAgentStream _ _ _ _ s) as [out s'] eqn:E. apply (keeps_handleAgentStream no_call) in E.
    by eapply evolves_moves.
  - case_decide; [|done]. intros [= <-]. apply ping_moves.
  - destruct (take_out a live); [|done]. intros [= <-]. apply end_moves.
Qed.

(** A history, seen by every component. *)
Record relay_moved (tr : list (Server W * relay_event)) (s s' : Server W) : Prop := mkRelayMoved {
  rd_registry : sv_registry s' = run_sessions (tr ≫= λ p, session_steps p.2) (sv_registry s);
  rd_challenges : ∃ cs, sv_challenges s' = run_calls cs (sv_challenges s) ∧
                        Forall (λ c, ∃ p, p ∈ tr ∧ event_call p.2 c) cs;
  rd_events : ∃ fs, sv_events s' = run_feed fs (sv_events s);
  rd_auth : auth_evolves (sv_auth s) (sv_auth s');
  rd_keys : same_keys (sv_vault s) (sv_vault s')
}.

Lemma run_sessions_app ss ss' agents :
  run_sessions (ss ++ ss') agents = run_sessions ss' (run_sessions ss agents).
Proof. unfold run_sessions. apply fold_left_app. Qed.


Lemma history_moved x tr y : history x tr y → relay_moved tr (rl_server x) (rl_server y).
Proof.
  induction 1 as [y|x tr y ev z _ [Hr (cs & Hc & HP) (fs & Hf) Ha Hk] Hz%happens_moves].
  - split; [done|by exists []|by exists []|done|done].
  - destruct Hz as [Hr' (cs' & Hc' & HP') (fs' & Hf') Ha' Hk']. split.
    + rewrite bind_app, run_sessions_app, <-Hr, Hr'. cbn. by rewrite app_nil_r.
    + exists (cs ++ cs'). rewrite run_calls_app, <-Hc, Hc'. split; [done|]. apply Forall_app. split.
      * eapply Forall_impl; [exact HP|]. intros c (p & ? & ?). exists p. split; [|done]. by apply elem_of_app; left.
      * eapply Forall_impl; [exact HP'|]. intros c ?. exists (rl_server y, ev). split; [|done].
        apply elem_of_app; right. by apply list_elem_of_singleton.
    + exists (fs ++ fs'). by rewrite run_feed_app, <-Hf.
    + by etrans.
    + by etrans.
Qed.

Lemma boot_fresh cfg (w : W) now :
  let s := boot range_keys cfg w now in
  sv_registry s = newRegistry ∧ sv_challenges s = newChallenges ∧ sv_events s = newEventBus ∧
  au_token (sv_auth s) = cf_AdminToken cfg ∧ au_proxies (sv_auth s) = parseProxies (cf_TrustedProxies cfg).
Proof.
  cbn zeta. unfold boot, on_vault, on_auth, zoom, ops_load. cbn [sv_vault newServer].
  destruct (start range_keys _) as [r1 vw1]. cbn [snd sv_auth sv_vault set_vault newServer newAuth au_ops].
  by destruct (load _) as [r2 [o vw2]].
Qed.

(** C8: Whatever reaches the relay, in whatever order, each of its parts goes through
    a history of its own kind: the registry through exactly the connections,
    measurements and ends of its sessions, the nonces and the feed through calls
    of theirs.  So what holds of each part alone holds in the running relay, and its
    memory stays within its bounds.  The admin token and the Vault keys that
    assertions are checked with are the ones it began with, and a gate that had
    anything to check never stops checking; the account, its session key and the
    owners of ids are free to change. *)
Theorem relay_refines_its_parts cfg w now tr y :
  history (listening cfg w now) tr y →
  let s0 := boot range_keys cfg w now in
  let s := rl_server y in
  sv_registry s = run_sessions (tr ≫= λ p, session_steps p.2) newRegistry ∧
  (∃ cs, sv_challenges s = run_calls cs newChallenges) ∧
  Z.of_nat (size (sv_challenges s)) ≤ maxChallenges ∧
  (∃ fs, sv_events s = run_feed fs newEventBus) ∧
  (length (eb_backlog (sv_events s)) ≤ eventBacklog)%nat ∧
  (∀ ch, (length (queue ch (sv_events s)) ≤ subBuffer)%nat) ∧
  au_token (sv_auth s) = cf_AdminToken cfg ∧
  (enabled (sv_auth s0) = true → enabled (sv_auth s) = true) ∧
  va_pubKeys (fst (sv_vault s)) = va_pubKeys (fst (sv_vault s0)).
Proof.
  intros [Hr (cs & Hc & _) (fs & Hf) (Ht & _ & He) Hk]%history_moved. cbn zeta.
  destruct (boot_fresh cfg w now) as (Hr0 & Hc0 & Hf0 & Ht0 & _). cbn [listening rl_server] in *.
  rewrite Hr0 in Hr. rewrite Hc0 in Hc. rewrite Hf0 in Hf.
  destruct (bus_inv_run fs _ _ bus_inv_new) as (Hb & Hq & _). rewrite <-Hf in Hb, Hq.
  split_and!; try done; try by eexists.
  - rewrite Hc. by apply run_calls_size.
  - rewrite Hb, length_keep_last. lia.
  - intros ch. unfold queue. destruct (eb_chans _ !! ch) as [q|] eqn:E; cbn; [|lia]. by apply Hq in E as [? _].
  - congruence.
Qed.
(** ** Who is connected *)
Lemma mux_connect method raw i r (s s' : Server W) o :
  mux format nano ms version range streams conns method raw i r s = (Ok (AConnect o), s') →
  ∃ params, ServeMux route_table method raw = MuxFound RConnect params ∧
    handleAgentConnect format (with_params params r) (in_hijack i) (in_now i 0%nat) (in_now i 1%nat)
      (in_now i 2%nat) s = (Ok o, s').
Proof.
  unfold mux. destruct (ServeMux route_table method raw) as [rt params|path|allow|]; [|done..].
  destruct rt; unfold serve, respond; cbv zeta; intros Hs; try done.
  { apply M_bind_ok_inv in Hs as (o' & s1 & Hc & [= <- <-]). by exists params. }
  all: try (apply M_bind_ok_inv in Hs as (? & ? & _ & Hs); try done).
  all: try (apply M_bind_ok_inv in Hs as (? & ? & _ & Hs); done).
  - unfold feed in Hs. by destruct (handleEvents _ _ _ _).
  - by destruct (Session _ _).
Qed.

Lemma routes_connect method raw i now r (s s' : Server W) o :
  Routes method raw i now r s = (Ok (AConnect o), s') →
  ∃ params, ServeMux route_table method raw = MuxFound RConnect params ∧
    handleAgentConnect format (with_params params r) (in_hijack i) (in_now i 0%nat) (in_now i 1%nat)
      (in_now i 2%nat) s = (Ok o, s').
Proof.
  unfold routes, protect. cbv zeta. destruct (_ || _ || _); [apply mux_connect|]. by destruct (wantsHTML r).
Qed.

Lemma connect_served r hj now nr te (s s' : Server W) h remote sess sent pip tr det :
  handleAgentConnect format r hj now nr te s = (Ok (Served h remote sess sent pip tr det), s') →
  proves_identity r now nr s (AgentID h) ∧ remote = rq_remote r ∧
  (tr, det) = transportOf (au_proxies (sv_auth s)) r ∧
  sv_challenges s' !! Header_Get (rq_header r) HeaderChallenge = None.
Proof.
  unfold handleAgentConnect. destruct (identify r) as [hello|e]; [|done].
  unfold mbind at 1, M_bind at 1, attempt. destruct (verifyAgent format r now nr s) as [[id|e] s1] eqn:Ev; [|done].
  apply verifyAgent_ok_inv in Ev as [Hp (seen & -> & Hr)].
  apply redeem_true in Hr as [_ Hgone].
  destruct (negb _); [done|]. destruct (negb _); [done|].
  destruct (hj_result hj) as [[conn br]|e]; [|done]. destruct (completeUpgrade _ _ _) as [[tunnel|e] conn']; [|done].
  destruct (hj_yamux hj); [|done]. unfold mbind, M_bind, mget. cbn [sv_auth set_challenges].
  destruct (transportOf _ r) as [tr' det']. by intros [= <- <- <- <- <- <- <- <-].
Qed.

(** The request that opened a connection, and the relay it met. *)
Definition opened (p : Server W * relay_event) (a : Accepted) : Prop :=
  ∃ method raw i now r params,
    p.2 = EvRequest method raw i now r ∧ ServeMux route_table method raw = MuxFound RConnect params ∧
    proves_identity r (in_now i 0%nat) (in_now i 1%nat) p.1 (ac_ID a) ∧ ac_remote a = rq_remote r ∧
    (ac_transport a, ac_detail a) = transportOf (au_proxies (sv_auth p.1)) r.

Lemma admitted_opened method raw i now r (s s' : Server W) out a :
  Routes method raw i now r s = (out, s') → admitted out = Some a →
  opened (s, EvRequest method raw i now r) a ∧
  sv_challenges s' !! Header_Get (rq_header r) HeaderChallenge = None.
Proof.
  unfold admitted. destruct out as [[| [|  |h remote sess sent pip tr det]| | | | |]|]; try done.
  intros (params & Hm & Hc)%routes_connect [= <-]. apply connect_served in Hc as (Hp & -> & Htr & Hg).
  split; [|done]. by exists method, raw, i, now, r, params.
Qed.

(** A record shows the connection [a]. *)
Definition shows (rec : agentRec) (a : Accepted) : Prop :=
  ar_hello rec = ac_hello a ∧ ar_session rec = Some (ac_sess a) ∧ ar_remoteAddr rec = ac_remote a ∧
  ar_transport rec = ac_transport a ∧ ar_transportDetail rec = ac_detail a.

(** Where an event leaves the connections. *)
Definition live_after (ev : relay_event) (live live' : list Accepted) : Prop :=
  match ev with
  | EvBegin a _ _ _ => live' = a :: live
  | EvEnd a _ _ => live ≡ₚ a :: live'
  | _ => live' = live
  end.

Lemma happens_live ev y z : happens ev y = Some z → live_after ev (rl_live y) (rl_live z).
Proof.
  destruct y as [s accepted live begun]. cbn [happens]. destruct ev; cbn [live_after rl_live].
  - destruct (Routes _ _ _ _ _ s). by intros [= <-].
  - destruct (tools now !! n); [|done]. by intros [= <-].
  - destruct (take_out a accepted); [|done]. by intros [= <-].
  - case_decide; [|done]. by intros [= <-].
  - case_decide; [|done]. by intros [= <-].
  - destruct (take_out a live) as [live'|] eqn:Et; [|done]. intros [= <-]. by apply take_out_perm.
Qed.

Lemma happens_accepted ev y z a :
  happens ev y = Some z → a ∈ rl_accepted z ∨ a ∈ rl_live z →
  a ∈ rl_accepted y ∨ a ∈ rl_live y ∨ opened (rl_server y, ev) a.
Proof.
  intros Hz Ha. destruct Ha as [Ha|Ha].
  2: { destruct ev as [| |b conn now te| | |b now te] eqn:Eev; pose proof (happens_live _ _ _ Hz) as Hl; cbn in Hl;
         try (rewrite Hl in Ha; by auto); [|right; left; rewrite Hl; by right].
       rewrite Hl in Ha. apply elem_of_cons in Ha as [->|]; [left|by auto].
       destruct y as [s accepted live begun]. cbn in *.
       destruct (take_out b accepted) eqn:Et; [|done]. apply take_out_perm in Et. rewrite Et. by left. }
  destruct y as [s accepted live begun]. cbn [happens rl_accepted rl_live rl_server] in *. destruct ev.
  - destruct (Routes _ _ _ _ _ s) as [out s'] eqn:E. injection Hz as <-. cbn [rl_accepted] in Ha.
    apply elem_of_app in Ha as [Ha|]; [|by auto].
    destruct (admitted out) as [b|] eqn:Eb; [|by apply elem_of_nil in Ha].
    apply list_elem_of_singleton in Ha as ->. right. right. by eapply admitted_opened.
  - destruct (tools now !! n); [|done]. injection Hz as <-. by auto.
  - destruct (take_out _ accepted) eqn:Et; [|done]. injection Hz as <-. apply take_out_perm in Et.
    left. rewrite Et. by right.
  - case_decide; [|done]. injection Hz as <-. by auto.
  - case_decide; [|done]. injection Hz as <-. by auto.
  - destruct (take_out _ live); [|done]. injection Hz as <-. by auto.
Qed.

Definition shown_live (reg : Registry) (live : list Accepted) : Prop :=
  ∀ id rec, reg !! id = Some rec → ar_online rec = true → ∃ a, a ∈ live ∧ ac_ID a = id ∧ shows rec a.

Lemma shown_begin a conn now reg live :
  shown_live reg live →
  shown_live (snd (Connect (ac_hello a) (ac_remote a) (ac_sess a) conn (ac_transport a) (ac_detail a) now reg))
             (a :: live).
Proof.
  intros Hs id rec. unfold Connect. destruct (reg !! AgentID (ac_hello a)); cbn [snd];
    (intros [[<- <-]|[_ Hr]]%lookup_insert_Some Ho; [exists a; split; [by left|done]|]);
    (destruct (Hs id rec Hr Ho) as (b & ? & ? & ?); exists b; split; [by right|done]).
Qed.

Lemma shown_ping id ns reg live : shown_live reg live → shown_live (StoreRTT id ns reg) live.
Proof.
  intros Hs i rec. unfold StoreRTT. intros [(<- & rec' & Hr & ->)|[_ Hr]]%lookup_alter_Some Ho; cbn in Ho;
    by apply (Hs _ _ Hr).
Qed.

Lemma shown_end a now reg live live' :
  live ≡ₚ a :: live' → shown_live reg live →
  shown_live (snd (Disconnect (ac_ID a) (ac_sess a) now reg)) live'.
Proof.
  intros Hp Hs id rec Hr Ho.
  assert (reg !! id = Some rec ∧ ¬ (ac_ID a = id ∧ ar_session rec = Some (ac_sess a))) as [Hr' Hne].
  { unfold Disconnect in Hr. destruct (reg !! ac_ID a) as [old|] eqn:Eo; cbn in Hr.
    2: { split; [done|]. intros [<- _]. congruence. }
    destruct (bool_decide (ar_session old = Some (ac_sess a))) eqn:Eb; cbn in Hr.
    - destruct (ar_online old) eqn:Eon; cbn in Hr.
      + apply lookup_insert_Some in Hr as [[<- <-]|[Hne Hr]]; [done|]. split; [done|]. by intros [? _].
      + split; [done|]. intros [<- _]. congruence.
    - split; [done|]. bool_prop. intros [<- He]. congruence. }
  destruct (Hs id rec Hr' Ho) as (b & Hb & Hid & Hsh). exists b. split; [|done].
  rewrite Hp in Hb. apply elem_of_cons in Hb as [->|]; [|done]. destruct Hsh as (_ & ? & _). by destruct Hne.
Qed.

Lemma shown_step ev y z :
  happens ev y = Some z → shown_live (sv_registry (rl_server y)) (rl_live y) →
  shown_live (sv_registry (rl_server z)) (rl_live z).
Proof.
  intros Hz Hs. rewrite (rm_registry _ _ _ (happens_moves _ _ _ Hz)). apply happens_live in Hz.
  destruct ev as [| |a conn now te| |a [ns|e]|a now te]; cbn [session_steps live_after run_sessions fold_left run_session_step] in *;
    try (by rewrite Hz).
  - rewrite Hz. by apply shown_begin.
  - rewrite Hz. by apply shown_ping.
  - by eapply shown_end.
Qed.

Lemma history_opened x tr y a :
  history x tr y → rl_accepted x = [] → rl_live x = [] → a ∈ rl_accepted y ∨ a ∈ rl_live y →
  ∃ p, p ∈ tr ∧ opened p a.
Proof.
  intros Hh Ha Hl. induction Hh as [y|x tr y ev z _ IH Hz]; intros Hin.
  - rewrite Ha, Hl in Hin. by destruct Hin as [?%elem_of_nil|?%elem_of_nil].
  - destruct (happens_accepted _ _ _ _ Hz Hin) as [?|[?|Ho]].
    3: { exists (rl_server y, ev). split; [|done]. apply elem_of_app; right. by apply list_elem_of_singleton. }
    all: destruct IH as (p & ? & ?); auto; exists p; split; [by apply elem_of_app; left|done].
Qed.

Lemma history_shown x tr y :
  history x tr y → shown_live (sv_registry (rl_server x)) (rl_live x) →
  shown_live (sv_registry (rl_server y)) (rl_live y).
Proof. induction 1; eauto using shown_step. Qed.

(** C3: In every state the relay can reach, an agent shown online is a machine that,
    earlier in that same run, proved in a handshake that it is that agent, and
    whose session has not ended since; the address and the transport shown beside
    it are those of the connection it proved it on. *)
Theorem online_agents_proved_themselves cfg w now tr y id rec :
  history (listening cfg w now) tr y →
  sv_registry (rl_server y) !! id = Some rec → ar_online rec = true →
  ∃ p a, p ∈ tr ∧ opened p a ∧ a ∈ rl_live y ∧ ac_ID a = id ∧ shows rec a.
Proof.
  intros Hh Hr Ho. destruct (boot_fresh cfg w now) as (Hr0 & _).
  destruct (history_shown _ _ _ Hh) with (id := id) (rec := rec) as (a & Hl & Hid & Hs); [|done..|].
  { cbn. by rewrite Hr0. }
  destruct (history_opened _ _ _ a Hh) as (p & Hp & Hop); [done|done|by right|]. by exists p, a.
Qed.

(** ** Handshakes are spent once *)

(** The event hands out [nonce]. *)
Definition hands_out (nonce : string) (ev : relay_event) : Prop :=
  match ev with
  | EvRequest method raw i _ _ =>
      ∃ params b, ServeMux route_table method raw = MuxFound RChallenge params ∧
                  in_rnd i = Ok b ∧ rawurl_encode b = nonce
  | _ => False
  end.

Lemma event_call_mints nonce ev c : event_call ev c → mints nonce c = true → hands_out nonce ev.
Proof.
  unfold hands_out. destruct ev as [method raw i now r| | | | |]; cbn; try done.
  intros (rt & params & Hm & Hc) Hmint. destruct rt; try done; cbn in Hc; subst c; [done|].
  cbn in Hmint. destruct (in_rnd i) as [b|] eqn:Eb; [|done]. bool_prop. by exists params, b.
Qed.

Lemma history_absent x tr y nonce :
  history x tr y → sv_challenges (rl_server x) !! nonce = None → Forall (λ p, ¬ hands_out nonce p.2) tr →
  sv_challenges (rl_server y) !! nonce = None.
Proof.
  intros [_ (cs & Hc & HP) _ _ _]%history_moved Hn Hno. rewrite Hc. apply run_calls_absent; [|done].
  apply forallb_forall. intros c Hin%list_elem_of_In. rewrite Forall_forall in HP.
  destruct (HP c Hin) as (p & Hp & He). apply negb_true_iff, not_true_iff_false. intros Hmint.
  rewrite Forall_forall in Hno. by eapply Hno, event_call_mints.
Qed.

(** C5: A handshake is worth one connection, whatever the relay has done since: once a
    request was admitted with a nonce, no request that carries the nonce again is,
    in any later state, until the relay hands that very nonce out once more. *)
Theorem handshake_spent_once method raw i now r (s s' : Server W) out a accepted live begun tr y
    method' raw' i' now' r' :
  Routes method raw i now r s = (out, s') → admitted out = Some a →
  history (mkRelay s' accepted live begun) tr y →
  Forall (λ p, ¬ hands_out (Header_Get (rq_header r) HeaderChallenge) p.2) tr →
  Header_Get (rq_header r') HeaderChallenge = Header_Get (rq_header r) HeaderChallenge →
  admitted (fst (Routes method' raw' i' now' r' (rl_server y))) = None.
Proof.
  intros Hs Ha Hh Hno Hsame. apply (admitted_opened _ _ _ _ _ _ _ _ _ Hs) in Ha as [_ Hgone].
  eapply history_absent in Hh; [|exact Hgone|exact Hno].
  destruct (Routes method' raw' i' now' r' (rl_server y)) as [out' s2] eqn:E. cbn [fst].
  destruct (admitted out') as [a'|] eqn:Ea; [|done]. exfalso.
  apply (admitted_opened _ _ _ _ _ _ _ _ _ E) in Ea as [(m & w & j & n & q & params & [= <- <- <- <- <-] & _ & Hp & _) _].
  destruct Hp as (doc & sig & b & k & key & vsig & t & pub & asig & Hp). cbn [fst] in Hp.
  rewrite Hsame, Hh in Hp. naive_solver.
Qed.

(** ** The keys of the day it started *)

(** The relay verifies agents, for as long as it runs, with the Vault keys it had
    when it began to listen: an assertion signed by a key version it did not have
    then -- Vault's key was rotated since, or Vault could not be asked -- opens no
    session in any state it can reach, though enrolling handed it out. *)
Theorem keys_are_those_of_the_start cfg w now0 tr y method raw i now r doc sig a n vsig :
  history (listening cfg w now0) tr y →
  ParseSignedAssertion (Header_Get (rq_header r) HeaderAssertion) = Ok (mkSignedAssertion doc sig, a) →
  parseSignature sig = Some (n, vsig) →
  va_pubKeys (fst (sv_vault (boot range_keys cfg w now0))) !! n = None →
  admitted (fst (Routes method raw i now r (rl_server y))) = None.
Proof.
  intros [_ _ _ _ Hk]%history_moved Hpa Hps Hn. unfold same_keys in Hk. cbn [listening rl_server] in Hk.
  destruct (Routes method raw i now r (rl_server y)) as [out s'] eqn:E. cbn [fst].
  destruct (admitted out) as [b|] eqn:Ea; [|done]. exfalso.
  apply (admitted_opened _ _ _ _ _ _ _ _ _ E) in Ea as [(m & w' & j & t & q & params & [= <- <- <- <- <-] & _ & Hp & _) _].
  destruct Hp as (doc' & sig' & a' & n' & key & vsig' & t' & pub & asig & Hp). cbn [fst] in Hp.
  destruct Hp as (Hpa' & _ & Hps' & Hk' & _). rewrite Hpa in Hpa'. injection Hpa' as <- <- <-.
  rewrite Hps in Hps'. injection Hps' as <- <-. rewrite Hk in Hk'. congruence.
Qed.
End history.

(** ** Witnesses: a machine enrols, asks for a nonce, connects and is measured; the
    same handshake again; a key the relay has not got *)
Section witnesses.
  Local Existing Instances ToyCrypto.toy_hmac ToyCrypto.toy_argon2.
#[local] Instance toy_event_json : JSON Event := ToyJSON.toy_json Event.
#[local] Instance toy_redirect : MuxRedirectStatus := 307.
#[local] Instance no_tunnel : Tunnel World := {|
    tn_OpenStream _ := mthrow (errorf "session shutdown");
    tn_SetDeadline := Ok ();
    tn_Reply _ _ := mthrow (errorf "session shutdown")
  |}.
#[local] Instance named_exec : JSON execArgs := named (λ id, mkExecArgs id "reboot" "" 0).
#[local] Instance named_path : JSON pathArgs := named (λ id, mkPathArgs id "/etc/motd").
#[local] Instance named_write : JSON writeArgs := named (λ id, mkWriteArgs id "/etc/motd" "hello").
#[local] Instance named_agent : JSON agentArgs := named mkAgentArgs.
#[local] Instance named_clipboard : JSON clipboardArgs := named (λ id, mkClipboardArgs id "text").
#[local] Instance named_image : JSON clipboardImageArgs := named (λ id, mkClipboardImageArgs id (std_encode "png")).

Definition toy_at (rnd : string) (t : nat → Z) : Inputs :=
  mkInputs t (Ok rnd) (Ok "salt") toy_hijack (Ok ()) (Ok "") (λ _, Ok 3) [] [] (mkWriter "" []).

Definition toy_asks (rnd : string) (t : Z) : relay_event :=
  EvRequest "GET" ChallengePath (toy_at rnd (λ _, t)) t (mkRequest ChallengePath ∅ "10.0.0.2:9" None [] ∅ ∅ "").
Definition toy_connects (t : Z) : relay_event :=
  EvRequest "GET" ConnectPath (toy_at "" (λ _, t)) t toy_upgrade.
Definition toy_accepted : Accepted :=
  mkAccepted (mkHello "lab-1" "lab" "linux" "amd64" "v1") "10.0.0.2:9" 7 TransportPlain "".

Definition toy_life : list relay_event := [
  EvRequest "POST" EnrollPath (toy_at "" (λ n, Z.of_nat n + 1)) 1 toy_enroll_http;
  toy_asks "fresh" 10;
  toy_connects 20;
  EvBegin toy_accepted 1 21 21;
  EvPing toy_accepted (Ok 5);
  EvTool 4 "lab-1" 30;
  toy_connects 40
].

#[local] Notation toy_history :=
  (history (W := World) toy_format toy_format toy_format "v1" map_to_list (λ _, 0) (λ _, mkCountingConn 0 0) (λ _, [])).
#[local] Notation toy_run evs y :=
  (run_events (W := World) toy_format toy_format toy_format "v1" map_to_list (λ _, 0) (λ _, mkCountingConn 0 0) (λ _, []) evs y).

Definition toy_start : Relay World := listening map_to_list toy_config (snd (snd toy_saved)) 0.
Definition toy_trace : list (Server World * relay_event) := from_option fst [] (toy_run toy_life toy_start).
Definition toy_relay : Relay World := from_option snd toy_start (toy_run toy_life toy_start).

Lemma toy_runs {evs y} :
  bool_decide (is_Some (toy_run evs y)) = true →
  toy_run evs y = Some (from_option fst [] (toy_run evs y), from_option snd y (toy_run evs y)).
Proof. destruct (toy_run evs y) as [[tr z]|]; [done|]. by intros []%bool_decide_eq_true_1. Qed.

Lemma toy_day : toy_history toy_start toy_trace toy_relay.
Proof.
  apply (run_events_from _ _ _ _ _ _ _ _ toy_life). unfold toy_trace, toy_relay. apply toy_runs.
  vm_compute. reflexivity.
Qed.

Lemma relay_refines_its_parts_witness :
  length toy_trace = 7%nat ∧
  sv_registry (rl_server toy_relay) = run_sessions (toy_trace ≫= λ p, session_steps p.2) newRegistry ∧
  enabled (sv_auth (rl_server toy_relay)) = true.
Proof.
  split; [vm_compute; reflexivity|].
  destruct (relay_refines_its_parts toy_format toy_format toy_format "v1" map_to_list (λ _, 0) (λ _, mkCountingConn 0 0)
    (λ _, []) map_to_list toy_config (snd (snd toy_saved)) 0 toy_trace toy_relay toy_day)
    as (Hr & _ & _ & _ & _ & _ & _ & He & _).
  split; [exact Hr|]. apply He. vm_compute. reflexivity.
Defined.

Lemma online_agents_proved_themselves_witness :
  ∃ p a rec, sv_registry (rl_server toy_relay) !! "lab-1" = Some rec ∧ p ∈ toy_trace ∧ opened p a ∧
    a ∈ rl_live toy_relay ∧ ac_ID a = "lab-1" ∧ shows rec a.
Proof.
  destruct (sv_registry (rl_server toy_relay) !! "lab-1") as [rec|] eqn:Er.
  - destruct (online_agents_proved_themselves toy_format toy_format toy_format "v1" map_to_list (λ _, 0)
      (λ _, mkCountingConn 0 0) (λ _, []) map_to_list toy_config (snd (snd toy_saved)) 0 toy_trace toy_relay "lab-1" rec
      toy_day Er) as (p & a & Hp & Ho & Hl & Hid & Hs).
    + assert (from_option ar_online false (sv_registry (rl_server toy_relay) !! "lab-1") = true) as Hon
        by (vm_compute; reflexivity). by rewrite Er in Hon.
    + exact (ex_intro _ p (ex_intro _ a (ex_intro _ rec (conj eq_refl (conj Hp (conj Ho (conj Hl (conj Hid Hs)))))))).
  - assert (bool_decide (is_Some (sv_registry (rl_server toy_relay) !! "lab-1")) = true) as Hon
      by (vm_compute; reflexivity). rewrite Er in Hon. by apply bool_decide_eq_true_1 in Hon as [].
Defined.

#[local] Notation toy_routes method raw i now r s :=
  (routes (W := World) toy_format toy_format toy_format "v1" map_to_list (λ _, 0) (λ _, mkCountingConn 0 0)
     method raw i now r s).
Definition toy_admission : res Dashboard.answer * Server World :=
  toy_routes "GET" ConnectPath (toy_at "" (λ _, 20)) 20 toy_upgrade toy_server2.
Definition toy_evening : list relay_event :=
  [EvBegin toy_accepted 1 21 21; toy_asks "other" 30; EvEnd toy_accepted 31 31].
Definition toy_dusk : Relay World := mkRelay (snd toy_admission) [toy_accepted] [] [].

Lemma handshake_spent_once_witness :
  admitted (fst toy_admission) = Some toy_accepted ∧
  admitted (fst (toy_routes "GET" ConnectPath (toy_at "" (λ _, 40)) 40 toy_upgrade
    (rl_server (from_option snd toy_dusk (toy_run toy_evening toy_dusk))))) = None.
Proof.
  assert (admitted (fst toy_admission) = Some toy_accepted) as Ha by (vm_compute; reflexivity).
  assert (toy_run toy_evening toy_dusk = Some (from_option fst [] (toy_run toy_evening toy_dusk),
    from_option snd toy_dusk (toy_run toy_evening toy_dusk))) as Hrun by (apply toy_runs; vm_compute; reflexivity).
  split; [exact Ha|].
  eapply (handshake_spent_once toy_format toy_format toy_format "v1" map_to_list (λ _, 0) (λ _, mkCountingConn 0 0)
    (λ _, []) "GET" ConnectPath (toy_at "" (λ _, 20)) 20 toy_upgrade toy_server2 (snd toy_admission) (fst toy_admission)
    toy_accepted [toy_accepted] [] []).
  - apply surjective_pairing.
  - exact Ha.
  - exact (run_events_from _ _ _ _ _ _ _ _ toy_evening _ _ _ Hrun).
  - apply (Forall_fmap snd (λ ev, ¬ hands_out _ ev)). rewrite (run_events_trace _ _ _ _ _ _ _ _ _ _ _ _ Hrun).
    repeat constructor; [by intros []| |by intros []].
    intros (params & b & _ & Hb & He). injection Hb as <-. vm_compute in He. discriminate He.
  - reflexivity.
Defined.

(** An assertion by the second version of the transit key. *)
Definition toy_late : Assertion := mkAssertion "lab-9" (std_encode (ed_public agent_sk)) 0 0.
Definition toy_late_doc : string := match Marshal toy_late with Ok s => s | Err _ => "" end.
Definition toy_late_sig : string := "vault:v2:" +:+ std_encode (pad_to 64 "late").
Definition toy_late_connect : Request :=
  mkRequest ConnectPath {[HeaderAssertion := SignedAssertion_String (mkSignedAssertion toy_late_doc toy_late_sig)]}
    "10.0.0.9:1" None [] ∅ ∅ "".

Lemma keys_are_those_of_the_start_witness :
  admitted (fst (toy_routes "GET" ConnectPath (toy_at "" (λ _, 50)) 50 toy_late_connect (rl_server toy_relay))) = None.
Proof.
  eapply (keys_are_those_of_the_start toy_format toy_format toy_format "v1" map_to_list (λ _, 0) (λ _, mkCountingConn 0 0)
    (λ _, []) map_to_list toy_config (snd (snd toy_saved)) 0 toy_trace toy_relay "GET" ConnectPath (toy_at "" (λ _, 50)) 50
    toy_late_connect toy_late_doc toy_late_sig toy_late 2 (pad_to 64 "late") toy_day); vm_compute; reflexivity.
Defined.
End witnesses.
