(* ===== verification/Strangers.v ===== *)
(** * What somebody without credentials can do

    Any number of requests, in any order, from people who hold neither the admin
    token nor a session, cannot sign in, may not enrol and are no enrolled machine:
    the relay they leave is the relay they met, but for nonces of their own and the
    refusals on the feed, and what they are given opens nothing. *)

From S2P Require Import Prelude GoStrings GoNum GoBase64 GoUtf8 Interfaces GoNet Wire Assertions.
From S2P Require Import Challenges Events Feed Registry Proxies Host ServerConfig VaultClient.
From S2P Require Import VaultProofs KVStore AgentKeys OperatorStore OperatorProofs ToyVault Auth AuthProofs.
From S2P Require Import Server Enroll EnrollProofs Mux AgentConn RelayTools Dashboard RelayMain Frames.

Open Scope string_scope.
Open Scope list_scope.
Open Scope Z_scope.

(** A request as it arrives: its method and escaped path, what the world supplies
    while it is served, when the gate looks at it. *)
Record Incoming := mkIncoming {
  ic_method : string;
  ic_raw : string;
  ic_inputs : Inputs;
  ic_now : Z;
  ic_request : Request
}.

(** net/http has parsed the path out of the escaped one. *)
Definition parsed (q : Incoming) : Prop :=
  HasPrefix (ic_raw q) "/" = true ∧ PathUnescape (ic_raw q) = Some (rq_path (ic_request q)).

Section strangers.
  Context {W : Type} `{FileSystem W} `{VaultHTTP W} `{VaultJSON} `{Argon2} `{HMAC} `{Ed25519}
    `{JSON Assertion} `{JSON (option key_map)} `{JSON enrollRequest} `{JSON operator} `{JSON Event}
    `{Tunnel W} `{JSON RPCRequest} `{JSON RPCResponse} `{MuxRedirectStatus}
    (format nano ms : Z → string) (version : string)
    (range : Registry → list (string * agentRec)) (streams : Z → Z) (conns : Z → CountingConn).

Notation Routes := (routes (W := W) format nano ms version range streams conns).
Notation Serve := (serve (W := W) format nano ms version range streams conns).

(** Nothing this request shows is worth anything to this relay. *)
Record stranger (s : Server W) (q : Incoming) : Prop := mkStranger {
  st_token : ¬ bears_token (sv_auth s) (ic_request q);
  st_session : ¬ bears_session (sv_auth s) (ic_now q) (ic_request q);
  st_sign_in : ¬ may_sign_in (sv_auth s) (ic_request q);
  st_enrol : ∀ req, decodeJSON (ic_request q) = Ok req → enroll_authorised (sv_auth s) req ≠ Ok true;
  st_proof : ∀ id, ¬ proves_identity (ic_request q) (in_now (ic_inputs q) 0%nat) (in_now (ic_inputs q) 1%nat) s id
}.

Definition refusal (f : feed_step) : Prop := ∃ now e, f = FPublish now e ∧ ev_Type e = "refused".

Record untouched (s s' : Server W) : Prop := mkUntouched {
  un_registry : sv_registry s' = sv_registry s;
  un_auth : sv_auth s' = sv_auth s;
  un_vault : sv_vault s' = sv_vault s;
  un_seal : sv_seal s' = sv_seal s;
  un_started : sv_startedAt s' = sv_startedAt s;
  un_challenges : ∃ cs, sv_challenges s' = run_calls cs (sv_challenges s);
  un_events : ∃ fs, sv_events s' = run_feed fs (sv_events s) ∧ Forall refusal fs
}.

(** An answer that lets nobody in: a page or an error, without a session in it. *)
Definition turned_away (out : res Dashboard.answer) : Prop :=
  match out with
  | Ok (AResponse resp) => Forall (λ c, ck_value c = "") (rs_cookies resp)
  | Ok (AConnect (Answered _)) | Err _ => True
  | _ => False
  end.

#[export] Instance untouched_preorder : PreOrder untouched.
Proof.
  split.
  - intros s. split; try done; by exists [].
  - intros x y z [? ? ? ? ? (cs & Hc) (fs & Hf & ?)] [? ? ? ? ? (cs' & Hc') (fs' & Hf' & ?)].
    split; try congruence.
    + exists (cs ++ cs'). by rewrite run_calls_app, <-Hc.
    + exists (fs ++ fs'). by rewrite run_feed_app, <-Hf, Forall_app.
Qed.

Lemma untouched_challenges s cs : untouched s (set_challenges (run_calls cs (sv_challenges s)) s).
Proof. split; try done; [by exists cs|by exists []]. Qed.

Lemma untouched_refusal s now id msg :
  untouched s (set_events (Publish now (mkEvent "refused" id msg 0) (sv_events s)) s).
Proof.
  split; try done; [by exists []|]. eexists [FPublish _ _]. split; [done|].
  constructor; [|done]. by eexists _, _.
Qed.

Lemma stranger_connect r i t s out s' :
  (∀ id, ¬ proves_identity r (in_now i 0%nat) (in_now i 1%nat) s id) →
  handleAgentConnect format r (in_hijack i) (in_now i 0%nat) (in_now i 1%nat) t s = (out, s') →
  untouched s s' ∧ ∃ resp, out = Ok (Answered resp).
Proof.
  intros Hno. unfold handleAgentConnect. destruct (identify r) as [hello|e].
  2: { intros [= <- <-]. split; [done|by eexists]. }
  unfold mbind at 1, M_bind at 1, attempt.
  destruct (verifyAgent format r _ _ s) as [[id|e] s1] eqn:Ev.
  { apply verifyAgent_ok_inv in Ev as [Hp _]. by apply Hno in Hp. }
  unfold mbind, M_bind. rewrite publish_state. intros [= <- <-]. split; [|by eexists].
  pose proof (verifyAgent_frame _ _ _ _ _ _ _ Ev) as [seen ->].
  apply (keeps_verifyAgent format (λ _, True)) in Ev as [_ (cs & Hc & _) _ _ _]; [|done].
  cbn [sv_challenges set_challenges] in Hc. subst seen.
  etrans; [apply (untouched_challenges s cs)|apply untouched_refusal].
Qed.

Lemma stranger_login a r t1 t2 resp :
  ¬ may_sign_in a r → handleLogin a r t1 t2 = Ok resp → rs_cookies resp = [].
Proof.
  intros Hno. unfold handleLogin. destruct (negb (enabled a)); [by intros [= <-]|].
  destruct (_ && _); [by intros [= <-]|].
  destruct (login_ok a _ _ _) as [[]|e] eqn:El; cbn; [|by destruct (wantsHTML r); intros [= <-]|done].
  exfalso. apply Hno. unfold login_ok in El. unfold may_sign_in.
  destruct (_ =? "")%string eqn:Et; cbn [negb] in El; bool_prop.
  - destruct (au_ops a) as [ops|]; [|done]. right. split; [done|]. by exists ops.
  - left. injection El as [? ?]%matches_spec. done.
Qed.

Lemma stranger_bootstrap a r salt key t t1 t2 (vw : vault * W) out s' :
  ¬ may_sign_in a r → handleBootstrap r salt key t t1 t2 (a, vw) = (out, s') →
  s' = (a, vw) ∧ ∃ resp, out = Ok resp ∧ rs_cookies resp = [].
Proof.
  intros Hno. unfold handleBootstrap, mbind, M_bind, get_auth. cbn [fst].
  destruct (negb (bootstrapping a)); [intros [= <- <-]; by eauto|].
  destruct (negb (enabled a)); [intros [= <- <-]; by eauto|].
  destruct (matches a _) eqn:Em; cbn [negb].
  - exfalso. apply matches_spec in Em as [? Ht]. apply Hno. left. rewrite Ht. done.
  - intros [= <- <-]. split; [done|]. eexists. split; [done|]. unfold fail. by destruct (wantsHTML r).
Qed.

Lemma stranger_enroll r t1 t2 t3 s out s' :
  (∀ req, decodeJSON r = Ok req → enroll_authorised (sv_auth s) req ≠ Ok true) →
  handleEnroll format r t1 t2 t3 s = (out, s') → s' = s ∧ ∀ resp, out = Ok resp → rs_cookies resp = [].
Proof.
  intros Hno. unfold handleEnroll. destruct (decodeJSON r) as [req|e]; [|intros [= <- <-]; split; [done|by intros ? [= <-]]].
  unfold mbind, M_bind, mget, mlift. specialize (Hno req eq_refl).
  destruct (enroll_authorised _ req) as [[]|e]; [done|..]; intros [= <- <-]; (split; [done|]).
  - by intros ? [= <-].
  - done.
Qed.

Lemma stranger_challenge r rnd t1 t2 s out s' :
  handleAgentChallenge r rnd t1 t2 s = (out, s') →
  untouched s s' ∧ ∃ resp, out = Ok resp ∧ rs_cookies resp = [].
Proof.
  unfold handleAgentChallenge, mbind, M_bind, attempt, on_challenges, zoom.
  destruct (issue rnd t1 t2 (sv_challenges s)) as [n seen] eqn:Ei.
  assert (seen = run_calls [CIssue rnd t1 t2] (sv_challenges s)) as -> by (cbn; by rewrite Ei).
  destruct n as [n|e]; [|destruct (errors_Is e _)]; intros [= <- <-];
    (split; [apply (untouched_challenges s [CIssue rnd t1 t2])|by eauto]).
Qed.
(** One public handler. *)
Lemma stranger_serve rt params (s : Server W) q out s' :
  public_route rt = true → stranger s q →
  Serve rt (ic_inputs q) (with_params params (ic_request q)) s = (out, s') →
  untouched s s' ∧ turned_away out.
Proof.
  intros Hpub [_ _ Hsign Henrol Hproof] Hs. set (i := ic_inputs q) in *. set (r := with_params params (ic_request q)) in *.
  unfold serve, respond in Hs. cbv zeta in Hs. destruct rt; try done; unfold mbind, M_bind in Hs.
  - destruct (handleAgentConnect _ _ _ _ _ _ s) as [o s1] eqn:E.
    apply (stranger_connect r i) in E as [Hu (resp & ->)]; [|exact Hproof]. by injection Hs as <- <-.
  - destruct (handleAgentChallenge _ _ _ _ s) as [o s1] eqn:E.
    apply stranger_challenge in E as [Hu (resp & -> & Hc)]. injection Hs as <- <-. split; [done|]. cbn. by rewrite Hc.
  - destruct (handleEnroll _ _ _ _ _ s) as [o s1] eqn:E.
    apply stranger_enroll in E as [-> Hc]; [|exact Henrol].
    destruct o as [resp|e]; injection Hs as <- <-; [|done]. split; [done|]. cbn. by rewrite (Hc resp).
  - unfold handleHealth, mbind, M_bind, mget in Hs. destruct (Counts _) as [on tot].
    injection Hs as <- <-. split; [done|]. by constructor.
  - unfold mget, mlift in Hs. destruct (handleLogin _ r _ _) as [resp|e] eqn:El; injection Hs as <- <-; [|done].
    split; [done|]. cbn. by rewrite (stranger_login _ _ _ _ _ Hsign El).
  - injection Hs as <- <-. split; [done|]. cbn. constructor; [done|]. by destruct (wantsHTML r); constructor.
  - unfold on_auth, zoom in Hs.
    destruct (handleBootstrap _ _ _ _ _ _ _) as [o s1] eqn:E.
    apply stranger_bootstrap in E as [-> (resp & -> & Hc)]; [|exact Hsign]. injection Hs as <- <-.
    split; [by destruct s|]. cbn. by rewrite Hc.
Qed.

(** The gate lets a stranger's request reach a public handler, or nothing. *)
Lemma stranger_routes (s : Server W) q out s' :
  enabled (sv_auth s) = true → parsed q → stranger s q →
  Routes (ic_method q) (ic_raw q) (ic_inputs q) (ic_now q) (ic_request q) s = (out, s') →
  untouched s s' ∧ turned_away out.
Proof.
  intros Hen [Hpre Hun] Hst Hrun. unfold routes in Hrun.
  destruct (gate_decision AResponse sv_auth
              (mux (W := W) format nano ms version range streams conns (ic_method q) (ic_raw q) (ic_inputs q))
              (ic_now q) (ic_request q) s) as [[Hin Heq]|[_ (resp & Heq & _ & Hck)]]; rewrite Heq in Hrun.
  2: { injection Hrun as <- <-. split; [done|]. cbn. by rewrite Hck. }
  assert (open (rq_path (ic_request q)) = true) as Hopen.
  { destruct Hst. destruct Hin as [|[|[|]]]; [congruence|done..]. }
  unfold mux in Hrun. destruct (ServeMux route_table _ _) as [rt params|path|allow|] eqn:Em.
  - eapply stranger_serve; [by eapply open_path_public|exact Hst|exact Hrun].
  - injection Hrun as <- <-. split; [done|]. by constructor.
  - injection Hrun as <- <-. split; [done|]. by constructor.
  - injection Hrun as <- <-. split; [done|]. by constructor.
Qed.

(** Requests one after another, each a stranger to the relay it meets. *)
Fixpoint serve_all (qs : list Incoming) (s : Server W) : list (res Dashboard.answer) * Server W :=
  match qs with
  | [] => ([], s)
  | q :: qs =>
      let '(out, s) := Routes (ic_method q) (ic_raw q) (ic_inputs q) (ic_now q) (ic_request q) s in
      let '(outs, s) := serve_all qs s in (out :: outs, s)
  end.

Fixpoint strangers (qs : list Incoming) (s : Server W) : Prop :=
  match qs with
  | [] => True
  | q :: qs =>
      parsed q ∧ stranger s q ∧
      strangers qs (snd (Routes (ic_method q) (ic_raw q) (ic_inputs q) (ic_now q) (ic_request q) s))
  end.

(** The same, decided. *)
Definition is_true (x : res bool) : bool := match x with Ok b => b | Err _ => false end.

Definition strangerb (s : Server W) (q : Incoming) : bool :=
  let a := sv_auth s in
  let r := ic_request q in
  HasPrefix (ic_raw q) "/" && bool_decide (PathUnescape (ic_raw q) = Some (rq_path r))
  && negb (authenticated a (ic_now q) r)
  && negb (is_true (login_ok a (TrimSpace (FormValue r "username")) (FormValue r "password")
                      (TrimSpace (FormValue r "token"))))
  && match decodeJSON r with Ok req => negb (is_true (enroll_authorised a req)) | Err _ => true end
  && negb (is_ok (fst (verifyAgent format r (in_now (ic_inputs q) 0%nat) (in_now (ic_inputs q) 1%nat) s))).

Lemma strangerb_sound s q : strangerb s q = true → parsed q ∧ stranger s q.
Proof.
  unfold strangerb. cbv zeta. rewrite !andb_true_iff, !negb_true_iff, bool_decide_eq_true.
  intros (((((Hpre & Hun) & Hau) & Hsi) & Hen) & Hve). split; [done|].
  assert (¬ (bears_token (sv_auth s) (ic_request q) ∨ bears_session (sv_auth s) (ic_now q) (ic_request q))) as Hno.
  { intros Hb%authenticated_spec. congruence. }
  split; [tauto|tauto|..].
  - intros Hm. apply not_true_iff_false in Hsi. apply Hsi. unfold login_ok.
    destruct Hm as [(Ht & Ha & He)|(Ht & ops & Ho & Hv)].
    + rewrite (proj2 (String.eqb_neq _ _) Ht). by apply matches_spec.
    + by rewrite Ht, Ho, Hv.
  - intros req Hd Ha. rewrite Hd, Ha in Hen. done.
  - intros id Hp. destruct (decide (Header_Get (rq_header (ic_request q)) HeaderAssertion = "")) as [He|Hne].
    + destruct Hp as (doc & sig & a & n & key & vsig & t & pub & asig & Hp & _). by rewrite He in Hp.
    + destruct (verifyAgent_complete format _ _ _ _ _ Hne Hp) as [s' Hs']. by rewrite Hs' in Hve.
Qed.

Fixpoint strangersb (qs : list Incoming) (s : Server W) : bool :=
  match qs with
  | [] => true
  | q :: qs =>
      strangerb s q
      && strangersb qs (snd (Routes (ic_method q) (ic_raw q) (ic_inputs q) (ic_now q) (ic_request q) s))
  end.

Lemma strangersb_sound qs s : strangersb qs s = true → strangers qs s.
Proof.
  revert s. induction qs as [|q qs IH]; intros s; [done|]. cbn [strangersb strangers].
  intros [Hq Hqs]%andb_prop. apply strangerb_sound in Hq as [? ?]. auto.
Qed.

End strangers.

(** ** Witness: a captured handshake, guesses and forgeries against a relay with a
    fleet, an operator and an admin token *)
Section witnesses.
  Local Existing Instances ToyCrypto.toy_hmac ToyCrypto.toy_argon2.
#[local] Instance toy_event_json : JSON Event := ToyJSON.toy_json Event.
#[local] Instance toy_redirect : MuxRedirectStatus := 307.
#[local] Instance no_tunnel : Tunnel World := {|
    tn_OpenStream _ := mthrow (errorf "session shutdown");
    tn_SetDeadline := Ok ();
    tn_Reply _ _ := mthrow (errorf "session shutdown")
  |}.

Definition toy_form (path : string) (form : gmap string string) : Request :=
  mkRequest path ∅ "10.0.0.66:1" None [] form ∅ "".

Definition toy_strangers : list Incoming := [
  mkIncoming "GET" ChallengePath toy_inputs 10 (toy_form ChallengePath ∅);
  mkIncoming "GET" ConnectPath toy_inputs 20 toy_upgrade;
  mkIncoming "POST" "/api/login" toy_inputs 30
    (toy_form "/api/login" {["username" := "ana"; "password" := "guess"]});
  mkIncoming "POST" "/api/bootstrap" toy_inputs 40
    (toy_form "/api/bootstrap" {["token" := "guess"; "username" := "eve"; "password" := "p"; "password_confirm" := "p"]});
  mkIncoming "POST" EnrollPath toy_inputs 50
    (mkRequest EnrollPath ∅ "10.0.0.66:1" None [] ∅ ∅
       (match Marshal (mkEnrollRequest "ana" "guess" "lab-1" (std_encode (ed_public agent_sk)) true) with
        | Ok s => s | Err _ => "" end));
  mkIncoming "POST" "/api/agents/lab-1/%6bick" toy_inputs 60 toy_kick;
  mkIncoming "GET" "/healthz" toy_inputs 70 (toy_form "/healthz" ∅)
].

#[local] Notation toy_all qs s :=
  (serve_all (W := World) toy_format toy_format toy_format "v1" map_to_list (λ _, 0) (λ _, mkCountingConn 0 0) qs s).

End witnesses.
